(* ===== verification/_CoqProject ===== *)
-Q . S2P
Prelude.v
CString.v
KString.v
KPrintf.v
Object.v
Device.v
Mem.v
MemClient.v
KClock.v
KTimer.v
Sched.v
KThread.v
KSafe.v
Cyclic.v
ByteQueue.v
RingBuffer.v
ModbusCrc.v
Ipc.v
IpcMutex.v
IpcMailbox.v
IpcMq.v
DataQueue.v
Serial.v
SerialDma.v
Uart.v
AtClient.v
AtExchange.v
AtSetup.v
AtRadio.v
AtAnyAnswer.v
RadioControl.v
SensorList.v
SensorData.v
Board.v
MbUtils.v
MbPortMaster.v
MbRtuMaster.v
MbMaster.v
MbMasterFunc.v
MbMasterReq.v
MbMasterPoll.v
MbMasterExchange.v
AtSerial.v
MbSerial.v
