(* ===== verification/Prelude.v ===== *)
(** * Verification of the RTT control board firmware

    The firmware of a weather-station control board: RT-Thread 3 on an STM32F1.
    The application reads sensors over Modbus RTU and uploads a frame through a
    LoRa module that is driven with AT commands.  All paths are under src/.

    ** The parts and how they interact

    main (applications/main.c) asks the sensor thread's buffer for its frame and
    hands it to the radio thread (radio_control.c), which sends it with the
    commands of AT_client_radio.c; these run on the AT client (pck/at), whose
    parser thread reads the module's answers from a serial device.  The sensor
    thread (sensor_control.c) starts the Modbus master (pck/freemodbus).  Threads
    wait for each other with the kernel's IPC objects (Kernel/ipc.c), allocate from
    its heap (mem.c) and use its memory and string routines (kservice.c); received
    bytes go through the drivers' ring buffer (drivers/src/ringbuffer.c).  Below
    them the kernel switches threads (scheduler.c, thread.c), and its clock
    interrupt (clock.c) fires the timers (timer.c) that end sleeps and waits.
    Bytes reach the threads through a UART's interrupt, its driver (drv_usart.c), the
    serial devices (drivers/serial/serial.c) and the device layer (device.c), which
    finds a device by the name of its kernel object (object.c).

    ** Conventions

    Prelude.v (this file) holds what all parts share: run-time faults and
    blocking ([outcome]), a state monad over it ([M]), record update, fixed-width
    integers as Z with their wrap-around, bounds-checked arrays, partial
    correctness of stateful code ([leads]) and the automation.  A C function is a
    definition of the same name; a bad access, a failed RT_ASSERT, a null pointer
    and the use of an unassigned local are [Fault], a suspended thread is
    [Blocked] or an explicit result.  A function that calls the scheduler is cut
    there: the definition with the suffix _resumed is the rest.  Interrupt-disabled
    regions are the atomic steps of the models.

    ** Files and sources

    - CString.v: NUL-terminated strings and the C library's comparisons.
    - KString.v, KPrintf.v: Kernel/kservice.c, its memory and string routines and its
      formatted output.
    - Object.v: Kernel/object.c.  Device.v: Kernel/device.c, for any driver with the
      operations of the class [DeviceDriver].
    - DataQueue.v: drivers/src/dataqueue.c.  Serial.v: drivers/serial/serial.c and
      completion.c, an instance of [DeviceDriver] over any UART with the operations
      of the class [Uart]; SerialDma.v: its FIFO of DMA reception.
    - Uart.v: drivers/drv_usart.c of the board, an instance of [Uart], and the whole
      stack of a UART as a machine of events.  MbSerial.v: the serial device of
      MbPortMaster.v on that machine.
    - Mem.v (the heap and its operations), MemClient.v (their effect on the blocks a
      client holds, and any sequence of them): Kernel/mem.c.
    - KClock.v (ticks and milliseconds), KTimer.v (the list of timers, and the queue
      it refines), Sched.v (ready lists, bit map, choice of the next thread),
      KThread.v (threads, the clock interrupt, the idle thread, the start of the
      system): Kernel/clock.c, timer.c, scheduler.c, thread.c, idle.c, components.c.
      KSafe.v: all of them together as a state machine with its invariant.
      [KSafe.TimeoutSafe] is the interface of the application's timeout functions,
      with an instance for those that resume threads.
    - Cyclic.v, ByteQueue.v, RingBuffer.v: drivers/src/ringbuffer.c; [ByteQueue]
      is the interface (a class) a byte buffer promises to its users, RingBuffer.v
      the implementation, Cyclic.v the ring arithmetic that the mailbox shares.
    - ModbusCrc.v: modbus/rtu/mbcrc.c.
    - Ipc.v (semaphores, events), IpcMutex.v, IpcMailbox.v, IpcMq.v: Kernel/ipc.c.
    - AtClient.v (responses, execution of a command, parser thread), AtExchange.v
      (command and parser together), AtSetup.v (initialisation, connection test,
      character input): pck/at/src/at_client.c and at_utils.c.  AtSerial.v: the
      character input on the machine of Uart.v.
    - AtRadio.v, AtAnyAnswer.v: applications/AT_client_radio.c, for answers made of
      lines and for any bytes at all.
    - RadioControl.v: applications/radio_control.c.
    - SensorList.v, SensorData.v: applications/sensor_control.c, protocol.h.
    - Board.v: applications/main.c and the whole board as a transition system.
    - MbUtils.v, MbPortMaster.v, MbRtuMaster.v, MbMaster.v, MbMasterFunc.v,
      MbMasterReq.v, MbMasterPoll.v, MbMasterExchange.v: the Modbus master, from
      the bit utilities and the port layer over the RTU framing (mbrtu_m.c), the
      register callbacks and function handlers and the requests to the poll loop
      (mb_m.c) and a whole request.

    ** What the theorems show

    - Composition: in every interleaving of the board's threads everything sent to
      the module is a query, a configuration command or a prefix of main's own
      buffer (Board.v); a Modbus read runs from the request to the stored registers,
      and a missing answer ends in a timeout (MbMasterExchange.v); an AT command
      runs from the request to the lines read back (AtExchange.v).
    - The kernel core: in any sequence of kernel operations no assertion fails and
      ready lists, bit map, thread states and timers agree; the scheduler runs the
      most urgent thread, in turns; a sleep lasts exactly its ticks (KSafe.v); any
      sequence of clients' allocations keeps the heap's blocks apart and their
      contents (MemClient.v).
    - The path of a byte: driver, serial device and device layer together implement
      a line that queues the last bytes and counts its opens, nothing is lost while
      the readers keep up (Uart.v); the Modbus master's port runs on it (MbSerial.v),
      and the AT client's parser is delivered every byte (AtSerial.v).
    - Refinement: ring buffer, mailbox, message queue, data queue, DMA FIFO, list of
      timers and sensor list against abstract queues, deques and lists; kernel
      objects against the list of attached names.
    - Invariants and types: the parser's buffers, mutex ownership, semaphore and
      event bookkeeping, the message pool.
    - Equivalence and round trips: table-driven and bit-serial CRC, the kernel's
      block operations and plain copies, hexadecimal text, printed integers.
    - Errors and termination: initialisation that fails at any point, configuration
      with any answers, the connection test across a tick-counter wrap, the string
      routines.
    - Bounds: the sizes up to which requests, frames and texts fit their buffers,
      and the faults beyond; formatted output in any buffer (KPrintf.v).
    - Some properties state what the code does although it means otherwise; the
      manifest's findings list them.

    ** Bounds and fuel

    A C loop whose bound is not a structural argument has fuel: one unit per live
    node and one more (SensorList.v), the length of the array and one more
    (CString.v, KString.v, strcat of AtRadio.v), any number above timeout/50 + 1
    (the connection test), one unit per header of the heap (Mem.v), one more than
    the timers that may expire (the check of the timers), the length of the format
    (KPrintf.v); the receive interrupt looks twice at the data register (Uart.v), as
    bytes arrive between the steps, and a send by interrupts tries a byte twice.
    Running out of fuel is [Blocked], and the theorems
    about these functions show that they return [Ok] or a [Fault].

    ** Parameters

    The module's answers, the sensor drivers, the memory at address 0, the
    allocations that fail, the ticks a wait lasts and the return value of vsscanf
    on a truncated line are arguments of the definitions that depend on them.  The
    registers of a UART are modelled as far as the driver touches them: a byte that
    arrives at a full data register is lost, reading the register empties it.

    ** Levels

    The IPC models return the threads they make ready and take timeouts as steps of
    their own, and the models of the application count ticks; KThread.v has the
    suspension, the wait list and the timer of such a wait ([wait_for]) with the
    scheduler.  The models of the application allocate from a heap that may fail at
    any allocation; Mem.v is the allocator itself.

    ** Not modelled

    Memory pools and memheap (not used), signals and several cores (not configured),
    hooks, the stacks of threads and their overflow check; the create and delete
    variants of the IPC objects and of devices, which add an allocated object
    ([rt_object_allocate]) to the initialisation; the Modbus slave, ASCII and TCP and
    the file interface of serial devices (not configured); the AT server and shell;
    FAL (not configured) and EasyFlash (not called); the sensor driver templates (they
    do not compile); the other device drivers, the board support, HAL and CMSIS,
    which are hardware access or third-party code.  Console output ends at
    the text handed to the console; it could be put on the line of Uart.v as well. *)
From stdpp Require Export prelude.
#[global] Open Scope Z_scope.

(** ** Run-time faults and blocking

    C code can read or write outside an object, dereference NULL, read an
    uninitialised local or fail an [RT_ASSERT]; a thread can also suspend. *)
Inductive fault :=
  | FOutOfBounds
  | FAssert
  | FNull
  | FUninit.

#[export] Instance fault_eq_dec : EqDecision fault.
Proof. solve_decision. Defined.

Inductive outcome (A : Type) : Type :=
  | Ok (a : A)
  | Fault (f : fault)
  | Blocked.
Arguments Ok {A} _.
Arguments Fault {A} _.
Arguments Blocked {A}.

#[export] Instance outcome_ret : MRet outcome := fun A a => Ok a.
#[export] Instance outcome_bind : MBind outcome := fun A B f m =>
  match m with
  | Ok a => f a
  | Fault e => Fault e
  | Blocked => Blocked
  end.

(** Stateful C code: explicit state passing over [outcome]. *)
Definition M (S A : Type) : Type := S -> outcome (A * S).

#[export] Instance M_ret S : MRet (M S) := fun A a s => Ok (a, s).
#[export] Instance M_bind S : MBind (M S) := fun A B f m s =>
  match m s with
  | Ok (a, s') => f a s'
  | Fault e => Fault e
  | Blocked => Blocked
  end.

Definition gets {S A} (f : S -> A) : M S A := fun s => Ok (f s, s).
Definition modify {S} (f : S -> S) : M S unit := fun s => Ok (tt, f s).
Definition lift {S A} (o : outcome A) : M S A := fun s =>
  match o with
  | Ok a => Ok (a, s)
  | Fault e => Fault e
  | Blocked => Blocked
  end.
Definition skip {S} : M S unit := mret tt.
Definition RT_ASSERT {S} (b : bool) : M S unit :=
  if b then mret tt else fun _ => Fault FAssert.
#[export] Instance fault_outcome_inhabited A : Inhabited (outcome A) := populate Blocked.

(** ** Record update

    [r <| f := v |>] replaces one field.  A record declares its eta-expansion
    once, as an instance of [Eta]; the setter of each field is computed from it
    by abstracting the projection. *)
Class Eta (R : Type) := eta : R -> R.
Class Setter {R T : Type} (field : R -> T) := upd : (T -> T) -> R -> R.

Ltac derive_setter R T field :=
  let expanded := eval hnf in (@eta R _) in
  lazymatch eval pattern field in expanded with
  | ?body field =>
      let setter := eval cbv beta in (fun (g : T -> T) => body (fun r => g (field r))) in
      exact setter
  end.

#[export] Hint Extern 0 (@Setter ?R ?T ?field) => derive_setter R T field : typeclass_instances.

Declare Scope c_scope.
Delimit Scope c_scope with c.
#[global] Open Scope c_scope.

Notation "r <| field := v |>" := (upd (field := field) (fun _ => v) r)
  (at level 1, left associativity, format "r  <| field  :=  v |>") : c_scope.

(** [field ::= v] inside stateful code. *)
Notation "field ::= v" := (modify (upd (field := field) (fun _ => v)))
  (at level 70, no associativity) : c_scope.

(** Stateful code of a component that is one field of a larger state. *)
Definition zoom {R T A : Type} (field : R -> T) `{!Setter field} (m : M T A) : M R A := fun r =>
  match m (field r) with
  | Ok (a, t) => Ok (a, r <| field := t |>)
  | Fault e => Fault e
  | Blocked => Blocked
  end.

Notation "'when' b 'do' m" := (if b then m else skip)
  (at level 90, b at level 80, m at level 90) : c_scope.

(** ** Fixed-width unsigned integers

    A w-bit unsigned object holds its value modulo 2^w. *)
Definition uint (w z : Z) : Z := z mod 2 ^ w.
Abbreviation u1 := (uint 1).
Abbreviation u8 := (uint 8).
Abbreviation u15 := (uint 15).
Abbreviation u16 := (uint 16).
Abbreviation u32 := (uint 32).

(** Two's-complement value of the low w bits. *)
Definition sint (w z : Z) : Z := (z + 2 ^ (w - 1)) mod 2 ^ w - 2 ^ (w - 1).
Abbreviation s16 := (sint 16).
Abbreviation s32 := (sint 32).

Definition is_byte (z : Z) : Prop := 0 <= z < 256.
Abbreviation is_bytes := (Forall is_byte).

#[export] Instance is_byte_dec z : Decision (is_byte z).
Proof. unfold is_byte. apply _. Defined.

Lemma uint_small w z : 0 <= z < 2 ^ w -> uint w z = z.
Proof. apply Z.mod_small. Qed.

Lemma uint_range w z : 0 <= w -> 0 <= uint w z < 2 ^ w.
Proof. intros. apply Z.mod_pos_bound. lia. Qed.

Lemma u8_byte z : is_byte (u8 z).
Proof. by apply (uint_range 8). Qed.

Lemma u8_id z : is_byte z -> u8 z = z.
Proof. intros. by apply uint_small. Qed.

Lemma u16_small z : 0 <= z < 65536 -> u16 z = z.
Proof. intros. by apply uint_small. Qed.

Lemma u15_small z : 0 <= z < 32768 -> u15 z = z.
Proof. intros. by apply uint_small. Qed.

Lemma u32_small z : 0 <= z < 4294967296 -> u32 z = z.
Proof. intros. by apply uint_small. Qed.

(** Bitwise operations stay within the width. *)
Lemma nonneg_lt_pow2 w z : 0 <= w -> 0 <= z -> (forall i, w <= i -> Z.testbit z i = false) -> z < 2 ^ w.
Proof.
  intros Hw Hz Hb. destruct (decide (z < 2 ^ w)) as [|Hge]; [done|]. exfalso.
  assert (w <= Z.log2 z) as Hl.
  { rewrite <- (Z.log2_pow2 w) by done. apply Z.log2_le_mono. lia. }
  specialize (Hb _ Hl). rewrite Z.bit_log2 in Hb; [done|].
  pose proof (Z.pow_pos_nonneg 2 w). lia.
Qed.

Lemma testbit_high w z i : 0 <= z < 2 ^ w -> w <= i -> Z.testbit z i = false.
Proof.
  intros Hz Hi. destruct (decide (z = 0)) as [->|]; [apply Z.bits_0|].
  apply Z.bits_above_log2; [lia|]. eapply Z.lt_le_trans; [|exact Hi].
  apply Z.log2_lt_pow2; lia.
Qed.

Lemma lxor_range w a b : 0 <= w -> 0 <= a < 2 ^ w -> 0 <= b < 2 ^ w -> 0 <= Z.lxor a b < 2 ^ w.
Proof.
  intros Hw Ha Hb. assert (0 <= Z.lxor a b) by (apply Z.lxor_nonneg; lia).
  split; [done|]. apply nonneg_lt_pow2; [done..|]. intros i Hi.
  by rewrite Z.lxor_spec, !(testbit_high w).
Qed.

Lemma lor_range w a b : 0 <= w -> 0 <= a < 2 ^ w -> 0 <= b < 2 ^ w -> 0 <= Z.lor a b < 2 ^ w.
Proof.
  intros Hw Ha Hb. assert (0 <= Z.lor a b) by (apply Z.lor_nonneg; lia).
  split; [done|]. apply nonneg_lt_pow2; [done..|]. intros i Hi.
  by rewrite Z.lor_spec, !(testbit_high w).
Qed.

(** A high and a low part put together. *)
Lemma land_shift_0 w h l : 0 <= w -> 0 <= l < 2 ^ w -> Z.land (h ≪ w) l = 0.
Proof.
  intros Hw Hl. apply Z.bits_inj'. intros i Hi. rewrite Z.land_spec, Z.bits_0.
  destruct (decide (i < w)).
  - by rewrite Z.shiftl_spec_low.
  - by rewrite (testbit_high w l), andb_false_r by lia.
Qed.

Lemma lor_shift_add w h l : 0 <= w -> 0 <= l < 2 ^ w -> Z.lor (h ≪ w) l = h * 2 ^ w + l.
Proof.
  intros Hw Hl. rewrite <- Z.lxor_lor, <- Z.add_nocarry_lxor, Z.shiftl_mul_pow2;
    by try apply land_shift_0.
Qed.

(** One step around a ring of size [n]. *)
Lemma mod_wrap n z : 0 < n -> 0 <= z < 2 * n ->
  z mod n = if decide (z < n) then z else z - n.
Proof.
  intros. case_decide; [apply Z.mod_small; lia|].
  symmetry. apply (Z.mod_unique_pos _ _ 1); lia.
Qed.

Lemma mod_wrap_neg n z : 0 < n -> - n <= z < 0 -> z mod n = z + n.
Proof. intros. symmetry. apply (Z.mod_unique_pos _ _ (-1)); lia. Qed.

(** ** Constants of the kernel (include/rtdef.h, rtconfig.h) *)
Definition RT_WAITING_FOREVER : Z := -1.
Definition RT_TICK_PER_SECOND : Z := 100.
Definition RT_EOK : Z := 0.
Definition RT_ERROR : Z := 1.
Definition RT_ETIMEOUT : Z := 2.
Definition RT_EFULL : Z := 3.
Definition RT_EEMPTY : Z := 4.
Definition RT_ENOMEM : Z := 5.
Definition RT_ENOSYS : Z := 6.
Definition RT_EBUSY : Z := 7.
Definition RT_EIO : Z := 8.
Definition RT_EINTR : Z := 9.

(** ** Arrays: bounds-checked reads, writes and block copies *)
Definition zget {A} (l : list A) (i : Z) : outcome A :=
  if decide (0 <= i) then
    match l !! Z.to_nat i with
    | Some x => Ok x
    | None => Fault FOutOfBounds
    end
  else Fault FOutOfBounds.

Definition zset {A} (l : list A) (i : Z) (x : A) : outcome (list A) :=
  if decide (0 <= i < Z.of_nat (length l)) then Ok (<[Z.to_nat i := x]> l)
  else Fault FOutOfBounds.

(** [memcpy(&dst[doff], &src[soff], n)]; an empty copy touches nothing. *)
Definition memcpy {A} (dst : list A) (doff : Z) (src : list A) (soff n : Z) :
    outcome (list A) :=
  if decide (0 <= n /\ 0 <= doff /\ doff + n <= Z.of_nat (length dst) /\
             0 <= soff /\ soff + n <= Z.of_nat (length src)) then
    Ok (take (Z.to_nat doff) dst
        ++ take (Z.to_nat n) (drop (Z.to_nat soff) src)
        ++ drop (Z.to_nat (doff + n)) dst)
  else Fault FOutOfBounds.

Lemma zget_Some {A} (l : list A) i x :
  0 <= i -> l !! Z.to_nat i = Some x -> zget l i = Ok x.
Proof. intros Hi Hl. unfold zget. rewrite decide_True by done. by rewrite Hl. Qed.

Lemma zget_ok {A} (l : list A) i :
  0 <= i < Z.of_nat (length l) -> exists x, zget l i = Ok x /\ l !! Z.to_nat i = Some x.
Proof.
  intros Hi. destruct (lookup_lt_is_Some_2 l (Z.to_nat i)) as [x Hx]; [lia|].
  exists x. split; [apply zget_Some; [lia|done] | done].
Qed.

Lemma zget_inv {A} (l : list A) i x :
  zget l i = Ok x -> 0 <= i < Z.of_nat (length l) /\ l !! Z.to_nat i = Some x.
Proof.
  unfold zget. case_decide; [|done]. destruct (l !! _) eqn:E; [|done].
  intros [= ->]. pose proof (lookup_lt_Some _ _ _ E). split; [lia|done].
Qed.

Lemma zset_ok {A} (l : list A) i x :
  0 <= i < Z.of_nat (length l) -> zset l i x = Ok (<[Z.to_nat i := x]> l).
Proof. intros. unfold zset. by rewrite decide_True. Qed.

Lemma memcpy_ok {A} (dst : list A) doff src soff n :
  0 <= n -> 0 <= doff -> doff + n <= Z.of_nat (length dst) ->
  0 <= soff -> soff + n <= Z.of_nat (length src) ->
  memcpy dst doff src soff n =
    Ok (take (Z.to_nat doff) dst
        ++ take (Z.to_nat n) (drop (Z.to_nat soff) src)
        ++ drop (Z.to_nat (doff + n)) dst).
Proof. intros. unfold memcpy. by rewrite decide_True. Qed.

Lemma memcpy_total {A} (dst : list A) doff src soff n :
  0 <= n -> 0 <= doff -> doff + n <= Z.of_nat (length dst) ->
  0 <= soff -> soff + n <= Z.of_nat (length src) ->
  exists d, memcpy dst doff src soff n = Ok d.
Proof. intros. eexists. by apply memcpy_ok. Qed.

Lemma memcpy_length {A} (dst : list A) doff src soff n d :
  memcpy dst doff src soff n = Ok d -> length d = length dst.
Proof.
  unfold memcpy. case_decide; [|done]. intros [= <-].
  rewrite !length_app, !length_take, !length_drop. lia.
Qed.

(** What a block copy leaves in each cell. *)
Lemma memcpy_lookup {A} (dst : list A) doff src soff n d (i : nat) :
  memcpy dst doff src soff n = Ok d ->
  d !! i = if decide (doff <= Z.of_nat i < doff + n)
           then src !! Z.to_nat (soff + Z.of_nat i - doff) else dst !! i.
Proof.
  unfold memcpy. case_decide as Hb; [|done]. intros [= <-].
  case_decide as Hi.
  - rewrite lookup_app_r by (rewrite length_take; lia).
    rewrite lookup_app_l by (rewrite !length_take, length_drop; lia).
    rewrite length_take, lookup_take, lookup_drop by lia.
    rewrite decide_True by lia. f_equal. lia.
  - destruct (decide (Z.of_nat i < doff)).
    + rewrite lookup_app_l by (rewrite length_take; lia).
      by rewrite lookup_take, decide_True by lia.
    + rewrite !lookup_app_r; rewrite ?length_take, ?length_drop; try lia.
      rewrite lookup_drop. f_equal. lia.
Qed.

(** ** Filters that keep everything or nothing *)
Lemma filter_all {A} (P : A -> Prop) `{forall x, Decision (P x)} l : Forall P l -> filter P l = l.
Proof. induction 1; [done|]. by rewrite filter_cons_True, IHForall. Qed.

Lemma filter_none {A} (P : A -> Prop) `{forall x, Decision (P x)} l :
  Forall (fun x => ~ P x) l -> filter P l = [].
Proof. induction 1; [done|]. by rewrite filter_cons_False. Qed.

Lemma Forall_filter {A} (P Q : A -> Prop) `{forall x, Decision (P x)} l :
  Forall Q l -> Forall Q (filter P l).
Proof. induction 1; [constructor|]. rewrite filter_cons. case_decide; auto. Qed.

Lemma NoDup_map_filter {A B} (f : A -> B) (P : A -> Prop) `{forall x, Decision (P x)} l :
  NoDup (map f l) -> NoDup (map f (filter P l)).
Proof.
  induction l as [|x l IH]; [done|]. cbn [map]. inversion_clear 1 as [|? ? Hx Hn].
  rewrite filter_cons. case_decide; [|by apply IH]. cbn. constructor; [|by apply IH].
  intros (y & Hxy & [_ Hy]%list_elem_of_filter)%list_elem_of_fmap.
  apply Hx. rewrite Hxy. by apply list_elem_of_fmap_2.
Qed.

Lemma sublist_Forall {A} (P : A -> Prop) l l' : l `sublist_of` l' -> Forall P l' -> Forall P l.
Proof. induction 1; inversion 1; subst; auto. Qed.

(** ** Automation *)
Create HintDb cmodel.
Create Rewrite HintDb c_run.

(** One step of stateful code, from the left. *)
Section Run.
Context {S A B C : Type}.
Implicit Types (s : S).

Lemma run_ret (a : A) s : mret (M := M S) a s = Ok (a, s).
Proof. done. Qed.
Lemma run_gets (f : S -> A) s : gets f s = Ok (f s, s).
Proof. done. Qed.
Lemma run_modify (f : S -> S) s : modify f s = Ok (tt, f s).
Proof. done. Qed.
Lemma run_bind_ret (a : A) (k : A -> M S B) s : (mret a ≫= k) s = k a s.
Proof. done. Qed.
Lemma run_bind_gets (f : S -> A) (k : A -> M S B) s : (gets f ≫= k) s = k (f s) s.
Proof. done. Qed.
Lemma run_bind_modify (f : S -> S) (k : unit -> M S B) s : (modify f ≫= k) s = k tt (f s).
Proof. done. Qed.
Lemma run_bind_lift (a : A) (k : A -> M S B) s : (lift (Ok a) ≫= k) s = k a s.
Proof. done. Qed.
Lemma run_bind_skip (k : unit -> M S B) s : (skip ≫= k) s = k tt s.
Proof. done. Qed.
Lemma run_bind_assert (k : unit -> M S B) s : (RT_ASSERT true ≫= k) s = k tt s.
Proof. done. Qed.
Lemma run_bind_assert_fail (k : unit -> M S B) s : (RT_ASSERT false ≫= k) s = Fault FAssert.
Proof. done. Qed.
Lemma run_bind_bind (m : M S A) (k : A -> M S B) (h : B -> M S C) s :
  ((m ≫= k) ≫= h) s = (m ≫= fun a => k a ≫= h) s.
Proof. unfold mbind, M_bind. by destruct (m s) as [[]| |]. Qed.
Lemma run_bind_ok (m : M S A) (k : A -> M S B) s a s' :
  m s = Ok (a, s') -> (m ≫= k) s = k a s'.
Proof. intros H. unfold mbind, M_bind. by rewrite H. Qed.
Lemma run_bind_fault (m : M S A) (k : A -> M S B) s e :
  m s = Fault e -> (m ≫= k) s = Fault e.
Proof. intros H. unfold mbind, M_bind. by rewrite H. Qed.
Lemma run_zoom {R T} (field : R -> T) `{!Setter field} (m : M T A) (r : R) a t :
  m (field r) = Ok (a, t) -> zoom field m r = Ok (a, r <| field := t |>).
Proof. intros H. unfold zoom. by rewrite H. Qed.
Lemma run_bind_zoom {R T} (field : R -> T) `{!Setter field} (m : M T A) (k : A -> M R B) (r : R) a t :
  m (field r) = Ok (a, t) -> (zoom field m ≫= k) r = k a (r <| field := t |>).
Proof. intros H. unfold mbind, M_bind. by rewrite (run_zoom _ _ _ _ _ H). Qed.
End Run.

#[export] Hint Rewrite @run_ret @run_gets @run_modify @run_bind_ret @run_bind_gets
  @run_bind_modify @run_bind_lift @run_bind_skip @run_bind_assert @run_bind_assert_fail
  @run_bind_bind : c_run.

Ltac c_step :=
  first [ rewrite run_bind_gets | rewrite run_bind_modify | rewrite run_bind_ret
        | rewrite run_bind_lift | rewrite run_bind_skip | rewrite run_bind_assert
        | rewrite run_bind_bind | rewrite run_bind_assert_fail ]; cbv beta.
Ltac c_run := repeat c_step; rewrite ?run_ret, ?run_gets, ?run_modify.

(** ** Partial correctness of stateful code *)

(** A computation that leads from [P] to [Q] when it succeeds. *)
Definition leads {S A} (P Q : S -> Prop) (m : M S A) : Prop :=
  forall s v s', P s -> m s = Ok (v, s') -> Q s'.

Section Leads.
Context {S A B : Type}.
Implicit Types P Q R : S -> Prop.

Lemma leads_bind P Q R (m : M S A) (k : A -> M S B) :
  leads P Q m -> (forall v, leads Q R (k v)) -> leads P R (m ≫= k).
Proof.
  intros Hm Hk s v s' HP. unfold mbind, M_bind. destruct (m s) as [[x s1]| |] eqn:E; [|done..].
  apply Hk. by eapply Hm.
Qed.

Lemma leads_ret P (v : A) : leads P P (mret v).
Proof. by intros s ? ? HP [= _ <-]. Qed.

Lemma leads_gets P (f : S -> A) : leads P P (gets f).
Proof. by intros s ? ? HP [= _ <-]. Qed.

Lemma leads_lift P (o : outcome A) : leads P P (lift o).
Proof. intros s ? ? HP. destruct o; [|done..]. by intros [= _ <-]. Qed.

Lemma leads_modify P Q f : (forall s, P s -> Q (f s)) -> leads P Q (modify f).
Proof. intros H s ? ? HP [= _ <-]. auto. Qed.

Lemma leads_gets_bind P Q (f : S -> A) (k : A -> M S B) :
  (forall s, P s -> forall v s', k (f s) s = Ok (v, s') -> Q s') -> leads P Q (gets f ≫= k).
Proof. intros H s v s' HP. rewrite run_bind_gets. by apply H. Qed.

Lemma leads_zoom {U T} (field : U -> T) `{!Setter field} (P Q : U -> Prop) (m : M T A) :
  (forall r, P r -> forall v t, m (field r) = Ok (v, t) -> Q (r <| field := t |>)) -> leads P Q (zoom field m).
Proof.
  intros H r v r' HP. unfold zoom. destruct (m (field r)) as [[x t]| |] eqn:E; [|done..].
  intros [= _ <-]. by eapply H.
Qed.
End Leads.

(** Case analysis on the innermost scrutinee of the goal or of a hypothesis. *)
Ltac c_case :=
  match goal with
  | |- context [match ?x with _ => _ end] =>
      lazymatch x with context [match _ with _ => _ end] => fail | _ => destruct x eqn:? end
  end.

(** A concrete list of bytes. *)
Ltac bytes_ok := repeat (constructor; [unfold is_byte; lia|]); constructor.

(** Turn the code's boolean tests into propositions. *)
Ltac c_bool :=
  repeat match goal with
  | H : _ && _ = true |- _ => apply andb_true_iff in H as [? ?]
  | H : _ || _ = false |- _ => apply orb_false_iff in H as [? ?]
  | H : negb _ = true |- _ => apply negb_true_iff in H
  | H : negb _ = false |- _ => apply negb_false_iff in H
  | H : (_ =? _) = true |- _ => apply Z.eqb_eq in H
  | H : (_ =? _) = false |- _ => apply Z.eqb_neq in H
  | H : (_ <? _) = true |- _ => apply Z.ltb_lt in H
  | H : (_ <? _) = false |- _ => apply Z.ltb_ge in H
  | H : (_ <=? _) = true |- _ => apply Z.leb_le in H
  | H : (_ <=? _) = false |- _ => apply Z.leb_gt in H
  | H : bool_decide _ = true |- _ => apply bool_decide_eq_true in H
  | H : bool_decide _ = false |- _ => apply bool_decide_eq_false in H
  end.
