(* ===== verification/CString.v ===== *)
(** * C strings

    A NUL-terminated string inside an array of cells ([c_string]), and what the
    string functions of the C library compute on the characters before the NUL:
    the first difference ([strcmp], [strncmp]), the first occurrence
    ([strstr]).  Shared by the kernel's own versions of these functions and by
    the code that calls the C library's. *)
From Stdlib Require Import Ascii String.
From S2P Require Import Prelude.

(** The characters of a literal. *)
Definition chars (s : string) : list Z :=
  (fun c => Z.of_nat (nat_of_ascii c)) <$> list_ascii_of_string s.
Arguments chars s%_string.

(** The characters before the first NUL; reading past the array is a fault. *)
Fixpoint string_of (l : list Z) : outcome (list Z) :=
  match l with
  | [] => Fault FOutOfBounds
  | c :: l => if c =? 0 then Ok [] else s ← string_of l; Ok (c :: s)
  end.

Definition c_string (mem : list Z) (p : Z) : outcome (list Z) :=
  if decide (0 <= p) then string_of (drop (Z.to_nat p) mem) else Fault FOutOfBounds.

(** [strcmp]: the difference of the first characters that differ, the NUL
    counting as 0. *)
Fixpoint strcmp (s t : list Z) : Z :=
  match s, t with
  | [], [] => 0
  | [], b :: _ => - b
  | a :: _, [] => a
  | a :: s, b :: t => if a =? b then strcmp s t else a - b
  end.

Definition starts_with (t s : list Z) : bool := bool_decide (take (length t) s = t).

(** [strstr]: the offset of the first occurrence of [t] in [s]. *)
Fixpoint strstr (s t : list Z) : option nat :=
  if starts_with t s then Some O
  else match s with
       | [] => None
       | _ :: s => S <$> strstr s t
       end.

(** The array that holds a string. *)
Definition nul (s : list Z) : list Z := s ++ [0].

Abbreviation is_chars := (Forall (fun c => c <> 0)).

Lemma string_of_Ok l s : string_of l = Ok s <-> is_chars s /\ exists r, l = nul s ++ r.
Proof.
  unfold nul. revert s. induction l as [|c l IH]; intros s; cbn [string_of].
  - split; [done|]. intros (_ & r & Hr). by destruct s.
  - destruct (Z.eqb_spec c 0) as [->|Hc].
    + split; [intros [= <-]; split; [constructor|by exists l]|].
      intros (Hs & r & Hr). destruct s as [|x s]; [done|]. injection Hr as <- _.
      by apply Forall_cons in Hs as [].
    + split.
      * destruct (string_of l) as [s'| |]; [|done..]. intros [= <-].
        destruct (IH s') as [(Hs & r & ->) _]; [done|]. split; [by constructor|by exists r].
      * intros (Hs & r & Hr). destruct s as [|x s]; [by injection Hr|]. injection Hr as <- ->.
        apply Forall_cons in Hs as [_ Hs]. rewrite (proj2 (IH s)); [done|]. split; [done|by exists r].
Qed.

Lemma string_of_nul s r : is_chars s -> string_of (nul s ++ r) = Ok s.
Proof. intros. apply string_of_Ok. by split; [|exists r]. Qed.

Lemma c_string_Ok mem p s : c_string mem p = Ok s ->
  0 <= p /\ is_chars s /\ p + Z.of_nat (length s) < Z.of_nat (length mem) /\
  take (length s) (drop (Z.to_nat p) mem) = s /\
  mem !! (Z.to_nat p + length s)%nat = Some 0.
Proof.
  unfold c_string. case_decide; [|done]. intros (Hs & r & Hr)%string_of_Ok. unfold nul in Hr.
  assert (length (drop (Z.to_nat p) mem) = length ((s ++ [0]) ++ r)) as Hl by by rewrite Hr.
  rewrite length_drop, !length_app in Hl. cbn in Hl. split_and!; [done|done|lia| |].
  - by rewrite Hr, <- app_assoc, take_app_length.
  - rewrite <- lookup_drop, Hr, <- app_assoc, lookup_app_r, Nat.sub_diag by done. done.
Qed.

(** A string, one character at a time. *)
Lemma c_string_nil mem p : zget mem p = Ok 0 -> c_string mem p = Ok [].
Proof.
  intros [Hp Hl]%zget_inv. unfold c_string. rewrite decide_True by lia.
  erewrite drop_S by exact Hl. done.
Qed.

Lemma c_string_step mem p s : c_string mem p = Ok s ->
  match s with
  | [] => zget mem p = Ok 0
  | c :: s => zget mem p = Ok c /\ c <> 0 /\ c_string mem (p + 1) = Ok s
  end.
Proof.
  unfold c_string. case_decide as Hp; [|done]. intros Hs.
  destruct (drop (Z.to_nat p) mem) as [|x l] eqn:Ed; [done|].
  assert (mem !! Z.to_nat p = Some x) as Hx.
  { rewrite <- (Nat.add_0_r (Z.to_nat p)), <- lookup_drop, Ed. done. }
  assert (drop (Z.to_nat (p + 1)) mem = l) as Hl.
  { replace (Z.to_nat (p + 1)) with (Z.to_nat p + 1)%nat by lia. by rewrite <- drop_drop, Ed. }
  rewrite (zget_Some _ _ _ Hp Hx), Hl. cbn in Hs. destruct (Z.eqb_spec x 0) as [->|].
  - by injection Hs as <-.
  - destruct (string_of l) as [s'| |] eqn:E; [|done..]. injection Hs as <-.
    split_and!; [done..|]. by rewrite decide_True by lia.
Qed.

(** Only the cells of the string and its NUL matter. *)
Lemma c_string_frame mem mem' p s : c_string mem p = Ok s ->
  (forall i : nat, p <= Z.of_nat i <= p + Z.of_nat (length s) -> mem' !! i = mem !! i) ->
  c_string mem' p = Ok s.
Proof.
  revert p. induction s as [|c s IH]; intros p Hs Hm; pose proof (c_string_step _ _ _ Hs) as Hstep.
  - apply c_string_nil. apply zget_inv in Hstep as [Hp Hl]. apply zget_Some; [lia|].
    rewrite Hm; [done|cbn; lia].
  - destruct Hstep as (Hz & Hc & Hs'). apply zget_inv in Hz as [Hp Hl].
    cbn [length] in Hm. specialize (IH _ Hs' ltac:(intros; apply Hm; lia)).
    unfold c_string in *. rewrite !decide_True in * by lia.
    erewrite drop_S by (rewrite Hm; [exact Hl|lia]).
    replace (S (Z.to_nat p)) with (Z.to_nat (p + 1)) by lia. cbn.
    destruct (Z.eqb_spec c 0); [done|]. by rewrite IH.
Qed.

(** ** Comparisons *)
Lemma strcmp_refl s : strcmp s s = 0.
Proof. induction s as [|a s IH]; [done|]. cbn. by rewrite Z.eqb_refl. Qed.

Lemma strcmp_0 s t : is_chars s -> is_chars t -> strcmp s t = 0 <-> s = t.
Proof.
  revert t. induction s as [|a s IH]; intros [|b t] Hs Ht; cbn;
    try apply Forall_cons in Hs as [? Hs]; try apply Forall_cons in Ht as [? Ht]; try (split; [lia|done]).
  - done.
  - destruct (Z.eqb_spec a b) as [->|].
    + rewrite IH by done. split; [by intros ->|by intros [= ->]].
    + split; [lia|intros [= -> _]; lia].
Qed.

Lemma starts_with_true t s : starts_with t s = true <-> t `prefix_of` s.
Proof.
  unfold starts_with. rewrite bool_decide_eq_true. split.
  - intros Ht. exists (drop (length t) s). by rewrite <- Ht at 1; rewrite take_drop.
  - intros [r ->]. apply take_app_length.
Qed.

Lemma strstr_Some s t i : strstr s t = Some i ->
  t `prefix_of` drop i s /\ forall j, (j < i)%nat -> ~ t `prefix_of` drop j s.
Proof.
  revert i. induction s as [|c s IH]; intros i; cbn [strstr].
  - destruct (starts_with t []) eqn:E; [|done]. intros [= <-]. apply starts_with_true in E.
    split; [done|lia].
  - destruct (starts_with t (c :: s)) eqn:E.
    + intros [= <-]. apply starts_with_true in E. split; [done|lia].
    + destruct (strstr s t) as [k|]; [|done]. intros [= <-]. destruct (IH k) as [Hk Hj]; [done|].
      split; [done|]. intros [|j] Hlt; [|cbn; apply Hj; lia].
      intros Hp%starts_with_true. change (starts_with t (c :: s) = true) in Hp. congruence.
Qed.

Lemma strstr_None s t : strstr s t = None -> forall j, (j <= length s)%nat -> ~ t `prefix_of` drop j s.
Proof.
  induction s as [|c s IH]; cbn [strstr length]; destruct (starts_with t _) eqn:E; try done.
  - intros _ j Hj Hp. rewrite drop_nil in Hp. apply starts_with_true in Hp. congruence.
  - destruct (strstr s t); [done|]. intros _ [|j] Hj; [|cbn; apply IH; [done|lia]].
    intros Hp%starts_with_true. change (starts_with t (c :: s) = true) in Hp. congruence.
Qed.

Lemma strstr_app s t u : exists i, strstr (s ++ t ++ u) t = Some i.
Proof.
  induction s as [|c s IH].
  - exists O. cbn [app]. destruct (t ++ u) eqn:E; cbn [strstr];
      (replace (starts_with t _) with true; [done|]);
      symmetry; apply starts_with_true; rewrite <- E; by apply prefix_app_r.
  - destruct IH as [i Hi]. cbn [app strstr]. destruct (starts_with _ _); [by exists O|].
    rewrite Hi. by exists (S i).
Qed.
