(* ===== verification/KString.v ===== *)
(** * Kernel memory and string routines (src/Kernel/kservice.c)

    [rt_memset], [rt_memcpy], [rt_memmove], [rt_memcmp] and the string routines
    over one byte memory: a list of cells, a pointer being the index of a cell.
    The target is a 32-bit little-endian machine with unsigned plain [char].
    Every cell access is bounds-checked.  A C loop is [c_while], whose fuel the
    definitions take from a bound that the termination rule [c_while_rule]
    shows sufficient. *)
From S2P Require Import Prelude CString.

(** ** Loops *)
Fixpoint c_while {S} (fuel : nat) (cond : S -> outcome bool) (body : S -> outcome S) (s : S) : outcome S :=
  match fuel with
  | O => Blocked
  | Datatypes.S fuel =>
      b ← cond s;
      if b : bool then s ← body s; c_while fuel cond body s else Ok s
  end.

(** A loop with an invariant and a decreasing measure ends, with the invariant
    and its condition false. *)
Lemma c_while_rule {S} (I : S -> Prop) (m : S -> nat) cond body fuel s :
  (forall s, I s -> cond s = Ok false \/
     (cond s = Ok true /\ exists s', body s = Ok s' /\ I s' /\ (m s' < m s)%nat)) ->
  I s -> (m s < fuel)%nat ->
  exists s', c_while fuel cond body s = Ok s' /\ I s' /\ cond s' = Ok false.
Proof.
  intros Hstep. revert s. induction fuel as [|fuel IH]; intros s Hs Hm; [lia|].
  cbn [c_while]. destruct (Hstep s Hs) as [Hc|(Hc & s' & Hb & Hs' & Hlt)]; rewrite Hc; cbn [mbind outcome_bind].
  - by exists s.
  - rewrite Hb. cbn [mbind outcome_bind]. apply IH; [done|lia].
Qed.

(** ** The C definitions *)
Definition sizeof_long : Z := 4.

(** A 32-bit store and load. *)
Definition store_long (mem : list Z) (a w : Z) : outcome (list Z) :=
  mem ← zset mem a (u8 w);
  mem ← zset mem (a + 1) (u8 (w ≫ 8));
  mem ← zset mem (a + 2) (u8 (w ≫ 16));
  zset mem (a + 3) (u8 (w ≫ 24)).

Definition load_long (mem : list Z) (a : Z) : outcome Z :=
  b0 ← zget mem a; b1 ← zget mem (a + 1); b2 ← zget mem (a + 2); b3 ← zget mem (a + 3);
  Ok (b0 + 256 * (b1 + 256 * (b2 + 256 * b3))).

Definition UNALIGNED (X : Z) : Z := Z.land X (sizeof_long - 1).

(** [*aligned_addr++ = buffer; count -= LBLOCKSIZE] and the byte of the last loop. *)
Definition set_long (buffer : Z) (s : list Z * Z * Z) : outcome (list Z * Z * Z) :=
  let '(mem, p, count) := s in
  mem ← store_long mem p buffer;
  Ok (mem, p + sizeof_long, count - sizeof_long).

Definition set_byte (d : Z) (s : list Z * Z * Z) : outcome (list Z * Z * Z) :=
  let '(mem, m, count) := s in
  mem ← zset mem m d;
  Ok (mem, m + 1, count - 1).

Definition at_least (n : Z) (s : list Z * Z * Z) : outcome bool :=
  let '(_, _, count) := s in Ok (n <=? count).

Definition rt_memset (mem : list Z) (s c count : Z) : outcome (list Z) :=
  let d := Z.land c 255 in
  let fuel := S (Z.to_nat count) in
  st ← (if negb (count <? sizeof_long) && (UNALIGNED s =? 0) then
          let buffer := u32 (Z.lor (d ≪ 8) d) in
          let buffer := u32 (Z.lor buffer (buffer ≪ 16)) in
          st ← c_while fuel (at_least (4 * sizeof_long))
                 (fun st => st ← set_long buffer st; st ← set_long buffer st;
                            st ← set_long buffer st; set_long buffer st) (mem, s, count);
          c_while fuel (at_least sizeof_long) (set_long buffer) st
        else Ok (mem, s, count));
  st ← c_while fuel (at_least 1) (set_byte d) st;
  let '(mem, _, _) := st in Ok mem.

(** The state of the copy loops: memory, destination, source, remaining length. *)
Definition copy_state : Type := list Z * Z * Z * Z.

Definition copy_long (s : copy_state) : outcome copy_state :=
  let '(mem, d, s, len) := s in
  w ← load_long mem s;
  mem ← store_long mem d w;
  Ok (mem, d + sizeof_long, s + sizeof_long, len - sizeof_long).

Definition copy_byte (s : copy_state) : outcome copy_state :=
  let '(mem, d, s, len) := s in
  b ← zget mem s;
  mem ← zset mem d b;
  Ok (mem, d + 1, s + 1, len - 1).

Definition copies_left (n : Z) (s : copy_state) : outcome bool :=
  let '(_, _, _, len) := s in Ok (n <=? len).

Definition copied_mem (s : copy_state) : list Z := let '(mem, _, _, _) := s in mem.

Definition rt_memcpy (mem : list Z) (dst src count : Z) : outcome (list Z) :=
  let fuel := S (Z.to_nat count) in
  st ← (if negb (count <? 4 * sizeof_long) && (Z.lor (UNALIGNED src) (UNALIGNED dst) =? 0) then
          st ← c_while fuel (copies_left (4 * sizeof_long))
                 (fun st => st ← copy_long st; st ← copy_long st;
                            st ← copy_long st; copy_long st) (mem, dst, src, count);
          c_while fuel (copies_left sizeof_long) copy_long st
        else Ok (mem, dst, src, count));
  st ← c_while fuel (copies_left 1) copy_byte st;
  Ok (copied_mem st).

Definition copy_byte_down (s : copy_state) : outcome copy_state :=
  let '(mem, tmp, s, n) := s in
  b ← zget mem (s - 1);
  mem ← zset mem (tmp - 1) b;
  Ok (mem, tmp - 1, s - 1, n - 1).

Definition rt_memmove (mem : list Z) (dest src n : Z) : outcome (list Z) :=
  let fuel := S (Z.to_nat n) in
  st ← (if (src <? dest) && (dest <? src + n)
        then c_while fuel (copies_left 1) copy_byte_down (mem, dest + n, src + n, n)
        else c_while fuel (copies_left 1) copy_byte (mem, dest, src, n));
  Ok (copied_mem st).

Fixpoint rt_memcmp_loop (mem : list Z) (su1 su2 : Z) (count : nat) : outcome Z :=
  match count with
  | O => Ok 0
  | S count =>
      a ← zget mem su1; b ← zget mem su2;
      if a - b =? 0 then rt_memcmp_loop mem (su1 + 1) (su2 + 1) count else Ok (a - b)
  end.
Definition rt_memcmp (mem : list Z) (cs ct count : Z) : outcome Z :=
  rt_memcmp_loop mem cs ct (Z.to_nat count).

Definition rt_strlen (mem : list Z) (s : Z) : outcome Z :=
  sc ← c_while (S (length mem)) (fun sc => c ← zget mem sc; Ok (negb (c =? 0)))
         (fun sc => Ok (sc + 1)) s;
  Ok (sc - s).

(** The C code reads [*sc] before it tests [sc - s < maxlen]. *)
Definition rt_strnlen (mem : list Z) (s maxlen : Z) : outcome Z :=
  sc ← c_while (S (length mem))
         (fun sc => c ← zget mem sc; Ok (negb (c =? 0) && (sc - s <? maxlen)))
         (fun sc => Ok (sc + 1)) s;
  Ok (sc - s).

Definition rt_strcmp (mem : list Z) (cs ct : Z) : outcome Z :=
  '(cs, ct) ← c_while (S (length mem))
     (fun '(cs, ct) => a ← zget mem cs;
        if a =? 0 then Ok false else b ← zget mem ct; Ok (a =? b))
     (fun '(cs, ct) => Ok (cs + 1, ct + 1)) (cs, ct);
  a ← zget mem cs; b ← zget mem ct; Ok (a - b).

(** [__res] is a signed char. *)
Fixpoint rt_strncmp_loop (mem : list Z) (cs ct : Z) (count : nat) (res : Z) : outcome Z :=
  match count with
  | O => Ok res
  | S count =>
      a ← zget mem cs; b ← zget mem ct;
      let res := sint 8 (a - b) in
      if negb (res =? 0) then Ok res
      else if a =? 0 then Ok res
      else rt_strncmp_loop mem (cs + 1) (ct + 1) count res
  end.
Definition rt_strncmp (mem : list Z) (cs ct count : Z) : outcome Z :=
  rt_strncmp_loop mem cs ct (Z.to_nat count) 0.

Fixpoint strncpy_pad (mem : list Z) (d : Z) (n : nat) : outcome (list Z) :=
  match n with
  | O => Ok mem
  | S n => mem ← zset mem d 0; strncpy_pad mem (d + 1) n
  end.
Fixpoint rt_strncpy_loop (mem : list Z) (d s : Z) (n : nat) : outcome (list Z) :=
  match n with
  | O => Ok mem
  | S n =>
      c ← zget mem s;
      mem ← zset mem d c;
      if c =? 0 then strncpy_pad mem (d + 1) n else rt_strncpy_loop mem (d + 1) (s + 1) n
  end.
Definition rt_strncpy (mem : list Z) (dst src n : Z) : outcome (list Z) :=
  rt_strncpy_loop mem dst src (Z.to_nat n).

(** [None] is RT_NULL. *)
Fixpoint rt_strstr_loop (fuel : nat) (mem : list Z) (s1 s2 l1 l2 : Z) : outcome (option Z) :=
  match fuel with
  | O => Blocked
  | S fuel =>
      if l2 <=? l1 then
        r ← rt_memcmp mem s1 s2 l2;
        if r =? 0 then Ok (Some s1) else rt_strstr_loop fuel mem (s1 + 1) s2 (l1 - 1) l2
      else Ok None
  end.
Definition rt_strstr (mem : list Z) (s1 s2 : Z) : outcome (option Z) :=
  l2 ← rt_strlen mem s2;
  if l2 =? 0 then Ok (Some s1) else
  l1 ← rt_strlen mem s1;
  rt_strstr_loop (S (S (Z.to_nat l1))) mem s1 s2 l1 l2.

(** ** Block operations *)
Lemma zset_lookup {A} (l : list A) a x l' :
  zset l a x = Ok l' ->
  length l' = length l /\ forall i : nat, l' !! i = if decide (Z.of_nat i = a) then Some x else l !! i.
Proof.
  unfold zset. case_decide as Ha; [|done]. intros [= <-]. rewrite length_insert. split; [done|].
  intros i. rewrite list_lookup_insert. repeat case_decide; try done; lia.
Qed.

Lemma zget_byte mem a : is_bytes mem -> 0 <= a < Z.of_nat (length mem) ->
  exists b, zget mem a = Ok b /\ mem !! Z.to_nat a = Some b /\ is_byte b.
Proof.
  intros Hm Ha. destruct (zget_ok mem a Ha) as (b & Hb & Hl). exists b. split_and!; [done..|].
  by eapply Forall_lookup_1.
Qed.

(** The i-th byte of a 32-bit word. *)
Definition long_byte (w i : Z) : Z := u8 (w ≫ (8 * i)).

Lemma store_long_ok mem a w : 0 <= a -> a + 4 <= Z.of_nat (length mem) ->
  exists mem', store_long mem a w = Ok mem' /\ length mem' = length mem /\
    forall i : nat, mem' !! i =
      if decide (a <= Z.of_nat i < a + 4) then Some (long_byte w (Z.of_nat i - a)) else mem !! i.
Proof.
  intros Ha Hl. unfold store_long.
  destruct (zset mem a (u8 w)) as [m1| |] eqn:E1; [|unfold zset in E1; case_decide; [done|lia]..].
  apply zset_lookup in E1 as [L1 G1]. cbn [mbind outcome_bind].
  destruct (zset m1 (a + 1) _) as [m2| |] eqn:E2; [|unfold zset in E2; case_decide; [done|lia]..].
  apply zset_lookup in E2 as [L2 G2]. cbn [mbind outcome_bind].
  destruct (zset m2 (a + 2) _) as [m3| |] eqn:E3; [|unfold zset in E3; case_decide; [done|lia]..].
  apply zset_lookup in E3 as [L3 G3]. cbn [mbind outcome_bind].
  destruct (zset m3 (a + 3) _) as [m4| |] eqn:E4; [|unfold zset in E4; case_decide; [done|lia]..].
  apply zset_lookup in E4 as [L4 G4].
  exists m4. split_and!; [done|lia|]. intros i. rewrite G4, G3, G2, G1.
  unfold long_byte.
  destruct (decide (Z.of_nat i = a + 3)) as [->|]; [by rewrite decide_True by lia; replace (a + 3 - a) with 3 by lia|].
  destruct (decide (Z.of_nat i = a + 2)) as [->|]; [by rewrite decide_True by lia; replace (a + 2 - a) with 2 by lia|].
  destruct (decide (Z.of_nat i = a + 1)) as [->|]; [by rewrite decide_True by lia; replace (a + 1 - a) with 1 by lia|].
  destruct (decide (Z.of_nat i = a)) as [->|]; [by rewrite decide_True, Z.sub_diag, Z.shiftr_0_r by lia|].
  rewrite decide_False by lia. done.
Qed.

Lemma load_long_ok mem a : is_bytes mem -> 0 <= a -> a + 4 <= Z.of_nat (length mem) ->
  exists w, load_long mem a = Ok w /\
    forall k : Z, 0 <= k < 4 -> mem !! Z.to_nat (a + k) = Some (long_byte w k).
Proof.
  intros Hm Ha Hl. unfold load_long.
  destruct (zget_byte mem a Hm) as (b0 & -> & G0 & B0); [lia|].
  destruct (zget_byte mem (a + 1) Hm) as (b1 & -> & G1 & B1); [lia|].
  destruct (zget_byte mem (a + 2) Hm) as (b2 & -> & G2 & B2); [lia|].
  destruct (zget_byte mem (a + 3) Hm) as (b3 & -> & G3 & B3); [lia|].
  cbn [mbind outcome_bind]. eexists. split; [done|]. unfold is_byte, long_byte, uint in *. intros k Hk.
  rewrite Z.shiftr_div_pow2 by lia.
  assert (k = 0 \/ k = 1 \/ k = 2 \/ k = 3) as [->|[->|[->| ->]]] by lia.
  - rewrite Z.add_0_r, G0. f_equal. Z.to_euclidean_division_equations. lia.
  - rewrite G1. f_equal. change (2 ^ (8 * 1)) with 256. Z.to_euclidean_division_equations. lia.
  - rewrite G2. f_equal. change (2 ^ (8 * 2)) with 65536. Z.to_euclidean_division_equations. lia.
  - rewrite G3. f_equal. change (2 ^ (8 * 3)) with 16777216. Z.to_euclidean_division_equations. lia.
Qed.

(** A memory described cell by cell is the result of the block copy. *)
Lemma memcpy_intro {A} (dst src d : list A) doff soff n :
  0 <= n -> 0 <= doff -> doff + n <= Z.of_nat (length dst) ->
  0 <= soff -> soff + n <= Z.of_nat (length src) ->
  length d = length dst ->
  (forall i : nat, d !! i = if decide (doff <= Z.of_nat i < doff + n)
     then src !! Z.to_nat (soff + Z.of_nat i - doff) else dst !! i) ->
  memcpy dst doff src soff n = Ok d.
Proof.
  intros. destruct (memcpy_total dst doff src soff n) as [d' Hd]; [done..|].
  rewrite Hd. f_equal. apply list_eq. intros i. rewrite (memcpy_lookup _ _ _ _ _ _ i Hd). auto.
Qed.

Section Memset.
Context (mem : list Z) (s d count : Z).
Context (Hs : 0 <= s) (Hn : 0 <= count) (Hl : s + count <= Z.of_nat (length mem)).

(** The bytes from [s] up to the current pointer hold [d], the others are untouched. *)
Definition set_inv (st : list Z * Z * Z) : Prop :=
  let '(m, p, n) := st in
  p + n = s + count /\ 0 <= n /\ s <= p /\ length m = length mem /\
  forall i : nat, m !! i = if decide (s <= Z.of_nat i < p) then Some d else mem !! i.

Definition set_left (st : list Z * Z * Z) : nat := Z.to_nat st.2.

Lemma set_byte_ok st : set_inv st -> 1 <= st.2 ->
  exists st', set_byte d st = Ok st' /\ set_inv st' /\ st'.2 = st.2 - 1.
Proof.
  destruct st as [[m p] n]. intros (Hp & H0 & Hsp & Hm & Hi) Hleft. cbn in Hleft |- *.
  rewrite (zset_ok m p d) by lia. cbn [mbind outcome_bind].
  eexists. split; [done|]. cbn. split; [|done]. split_and!; try lia.
  - by rewrite length_insert.
  - intros i. rewrite list_lookup_insert, Hi.
    repeat case_decide; try done; try lia.
Qed.

Lemma set_long_ok w st : (forall k, 0 <= k < 4 -> long_byte w k = d) ->
  set_inv st -> 4 <= st.2 ->
  exists st', set_long w st = Ok st' /\ set_inv st' /\ st'.2 = st.2 - 4.
Proof.
  destruct st as [[m p] n]. intros Hw (Hp & H0 & Hsp & Hm & Hi) Hleft. cbn in Hleft |- *.
  destruct (store_long_ok m p w) as (m' & -> & Hm' & Hi'); [lia..|]. cbn [mbind outcome_bind].
  unfold sizeof_long. eexists. split; [done|]. cbn. split; [|done]. split_and!; try lia.
  intros i. rewrite Hi', Hi.
  repeat case_decide; try done; try lia. rewrite Hw by lia. done.
Qed.

Lemma set_bytes_loop st : set_inv st -> st.2 <= count ->
  exists st', c_while (S (Z.to_nat count)) (at_least 1) (set_byte d) st = Ok st' /\
    set_inv st' /\ st'.2 = 0.
Proof.
  intros Hst Hc. destruct (c_while_rule set_inv set_left (at_least 1) (set_byte d)
    (S (Z.to_nat count)) st) as (st' & -> & Hst' & Hend); [|done|unfold set_left; lia|].
  - intros [[m p] n] Hi. unfold set_left. cbn [at_least snd]. destruct (Z.leb_spec 1 n); [|by left].
    right. split; [done|]. destruct (set_byte_ok _ Hi) as (st' & -> & Hi' & Hl'); [done|].
    exists st'. split_and!; [done..|]. cbn in Hl' |- *. lia.
  - exists st'. split_and!; [done..|]. destruct st' as [[m p] n], Hst' as (_ & ? & _).
    injection Hend as ?%Z.leb_gt. cbn. lia.
Qed.

Lemma set_words_loop w k body st :
  (forall j, 0 <= j < 4 -> long_byte w j = d) -> 4 <= k ->
  (forall st, set_inv st -> k <= st.2 -> exists st', body st = Ok st' /\ set_inv st' /\ st'.2 = st.2 - k) ->
  set_inv st -> st.2 <= count ->
  exists st', c_while (S (Z.to_nat count)) (at_least k) body st = Ok st' /\ set_inv st' /\ st'.2 <= count.
Proof.
  intros Hw Hk Hbody Hst Hc. destruct (c_while_rule (fun st => set_inv st /\ st.2 <= count) set_left
    (at_least k) body (S (Z.to_nat count)) st) as (st' & -> & Hst' & Hend);
    [|done|unfold set_left; lia|exists st'; tauto].
  intros [[m p] n] [Hi Hlc]. unfold set_left. cbn [at_least snd]. destruct (Z.leb_spec k n); [|by left].
  right. split; [done|]. destruct (Hbody _ Hi) as (st' & -> & Hi' & Hl'); [done|].
  exists st'. cbn in Hl', Hlc |- *. split_and!; [done..|lia|lia].
Qed.
End Memset.

Lemma long_byte_repeat d k : is_byte d -> 0 <= k < 4 ->
  long_byte (u32 (Z.lor (u32 (Z.lor (d ≪ 8) d)) (u32 (Z.lor (d ≪ 8) d) ≪ 16))) k = d.
Proof.
  unfold is_byte. intros Hd Hk.
  rewrite (lor_shift_add 8) by lia. change (2 ^ 8) with 256. rewrite (u32_small (d * 256 + d)) by lia.
  rewrite Z.lor_comm, (lor_shift_add 16) by lia. change (2 ^ 16) with 65536. rewrite u32_small by lia.
  unfold long_byte, uint. rewrite Z.shiftr_div_pow2 by lia.
  assert (k = 0 \/ k = 1 \/ k = 2 \/ k = 3) as [->|[->|[->| ->]]] by lia.
  - change (2 ^ (8 * 0)) with 1. Z.to_euclidean_division_equations. lia.
  - change (2 ^ (8 * 1)) with 256. Z.to_euclidean_division_equations. lia.
  - change (2 ^ (8 * 2)) with 65536. Z.to_euclidean_division_equations. lia.
  - change (2 ^ (8 * 3)) with 16777216. Z.to_euclidean_division_equations. lia.
Qed.

Lemma rt_memset_ok mem s c count : 0 <= s -> 0 <= count -> s + count <= Z.of_nat (length mem) ->
  rt_memset mem s c count = memcpy mem s (replicate (Z.to_nat count) (u8 c)) 0 count.
Proof.
  intros Hs Hn Hl. unfold rt_memset.
  assert (Z.land c 255 = u8 c) as -> by (unfold uint; apply (Z.land_ones c 8); lia).
  set (d := u8 c). assert (is_byte d) as Hd by apply u8_byte.
  set (w := u32 _). set (inv := set_inv mem s d count).
  assert (inv (mem, s, count)) as H0.
  { unfold inv, set_inv. split_and!; try lia. intros i. by rewrite decide_False by lia. }
  assert (forall k, 0 <= k < 4 -> long_byte w k = d) as Hw by (intros; by apply long_byte_repeat).
  assert (forall st, inv st -> 16 <= st.2 -> exists st',
    (st ← set_long w st; st ← set_long w st; st ← set_long w st; set_long w st) = Ok st' /\
    inv st' /\ st'.2 = st.2 - 16) as H16.
  { intros st Hi Hk.
    destruct (set_long_ok mem s d count Hs Hl w st Hw Hi) as (st1 & -> & H1 & L1); [lia|].
    cbn [mbind outcome_bind].
    destruct (set_long_ok mem s d count Hs Hl w st1 Hw H1) as (st2 & -> & H2 & L2); [lia|].
    cbn [mbind outcome_bind].
    destruct (set_long_ok mem s d count Hs Hl w st2 Hw H2) as (st3 & -> & H3 & L3); [lia|].
    cbn [mbind outcome_bind].
    destruct (set_long_ok mem s d count Hs Hl w st3 Hw H3) as (st4 & -> & H4 & L4); [lia|].
    exists st4. split_and!; [done..|lia]. }
  assert (exists st, (if negb (count <? sizeof_long) && (UNALIGNED s =? 0) then
     st ← c_while (S (Z.to_nat count)) (at_least (4 * sizeof_long))
       (fun st => st ← set_long w st; st ← set_long w st; st ← set_long w st; set_long w st) (mem, s, count);
     c_while (S (Z.to_nat count)) (at_least sizeof_long) (set_long w) st
     else Ok (mem, s, count)) = Ok st /\ inv st /\ st.2 <= count) as (st & -> & Hst & Hc).
  { destruct (negb _ && _); [|exists (mem, s, count); split; [done|split; [exact H0|cbn; lia]]].
    destruct (set_words_loop mem s d count w 16 _ (mem, s, count) Hw ltac:(lia) H16 H0)
      as (st1 & E1 & Hi1 & Hc1); [cbn; lia|]. unfold sizeof_long in *. change (4 * 4) with 16.
    rewrite E1. cbn [mbind outcome_bind].
    apply (set_words_loop mem s d count w 4); try done. intros st. by apply set_long_ok. }
  cbn [mbind outcome_bind].
  destruct (set_bytes_loop mem s d count Hs Hl st Hst Hc) as ([[m p] n] & -> & Hi & Hz).
  cbn in Hz |- *. destruct Hi as (Hp & _ & _ & Hm & Hi).
  symmetry. apply memcpy_intro; rewrite ?length_replicate; try lia.
  intros i. rewrite Hi. assert (p = s + count) as -> by lia. case_decide; [|done].
  symmetry. apply lookup_replicate. split; [done|lia].
Qed.

Section Copy.
Context (mem : list Z) (dst src count : Z).
Context (Hd : 0 <= dst) (Hs : 0 <= src) (Hn : 0 <= count).
Context (Hdl : dst + count <= Z.of_nat (length mem)) (Hsl : src + count <= Z.of_nat (length mem)).

(** The cells of [lo, hi) are copied, the others untouched. *)
Definition copied (m : list Z) (lo hi : Z) : Prop :=
  length m = length mem /\
  forall i : nat, m !! i =
    if decide (lo <= Z.of_nat i < hi) then mem !! Z.to_nat (src + Z.of_nat i - dst) else mem !! i.

Lemma copied_bytes m lo hi : is_bytes mem -> copied m lo hi -> is_bytes m.
Proof.
  intros Hb [_ Hi]. apply Forall_lookup_2. intros i x Hx. rewrite Hi in Hx.
  case_decide; by eapply Forall_lookup_1.
Qed.

Lemma copied_all m : copied m dst (dst + count) -> Ok m = memcpy mem dst mem src count.
Proof. intros [Hm Hi]. symmetry. apply memcpy_intro; auto. Qed.

Definition copy_left (st : copy_state) : Z := st.2.

(** Upwards: what lies at or above the source pointer is still the original. *)
Definition up_inv (st : copy_state) : Prop :=
  let '(m, d, s, n) := st in
  d - dst = s - src /\ d + n = dst + count /\ 0 <= n /\ dst <= d /\ copied m dst d.

Hypothesis Hup : dst <= src \/ src + count <= dst.

Lemma copy_byte_ok st : up_inv st -> 1 <= copy_left st ->
  exists st', copy_byte st = Ok st' /\ up_inv st' /\ copy_left st' = copy_left st - 1.
Proof.
  destruct st as [[[m d] s] n]. unfold copy_left. intros (He & Hc & H0 & Hdd & Hm & Hi) H1. cbn in H1 |- *.
  destruct (zget_ok m s) as (b & -> & Hb); [lia|]. cbn [mbind outcome_bind].
  rewrite (zset_ok m d b) by lia. cbn [mbind outcome_bind].
  eexists. split; [done|]. cbn. split; [|done]. split_and!; try lia. split; [by rewrite length_insert|].
  intros i. rewrite list_lookup_insert, Hi. rewrite Hi, decide_False in Hb by lia.
  repeat case_decide; try done; try lia. rewrite <- Hb. f_equal. lia.
Qed.

Lemma copy_long_ok st : is_bytes mem -> up_inv st -> 4 <= copy_left st ->
  exists st', copy_long st = Ok st' /\ up_inv st' /\ copy_left st' = copy_left st - 4.
Proof.
  destruct st as [[[m d] s] n]. unfold copy_left, sizeof_long.
  intros Hb (He & Hc & H0 & Hdd & Hm) H1. pose proof (copied_bytes _ _ _ Hb Hm) as Hmb.
  destruct Hm as [Hm Hi]. cbn in H1 |- *. unfold sizeof_long.
  destruct (load_long_ok m s Hmb) as (w & -> & Hw); [lia..|]. cbn [mbind outcome_bind].
  destruct (store_long_ok m d w) as (m' & -> & Hm' & Hi'); [lia..|]. cbn [mbind outcome_bind].
  eexists. split; [done|]. cbn. split; [|done]. split_and!; try lia. split; [lia|].
  intros i. rewrite Hi', Hi. repeat case_decide; try done; try lia.
  rewrite <- (Hw (Z.of_nat i - d)) by lia. rewrite Hi, decide_False by lia. f_equal. lia.
Qed.

Lemma copy_loop k body st : 1 <= k ->
  (forall st, up_inv st -> k <= copy_left st ->
     exists st', body st = Ok st' /\ up_inv st' /\ copy_left st' = copy_left st - k) ->
  up_inv st -> copy_left st <= count ->
  exists st', c_while (S (Z.to_nat count)) (copies_left k) body st = Ok st' /\
    up_inv st' /\ copy_left st' <= count /\ copy_left st' < k.
Proof.
  intros Hk Hbody Hst Hc.
  destruct (c_while_rule (fun st => up_inv st /\ copy_left st <= count) (fun st => Z.to_nat (copy_left st))
    (copies_left k) body (S (Z.to_nat count)) st) as (st' & -> & [Hi Hl] & Hend); [|done|lia|].
  - intros [[[m d] s] n] [Hi Hlc]. unfold copy_left in *. cbn [copies_left snd] in *.
    destruct (Z.leb_spec k n); [|by left].
    right. split; [done|]. destruct (Hbody _ Hi) as (st' & -> & Hi' & Hl'); [done|].
    exists st'. cbn in Hl', Hlc |- *. split_and!; [done..|lia|lia].
  - exists st'. split_and!; [done..|]. destruct st' as [[[m d] s] n]. injection Hend as ?%Z.leb_gt. done.
Qed.

Lemma copy_bytes_loop st : up_inv st -> copy_left st <= count ->
  exists st', c_while (S (Z.to_nat count)) (copies_left 1) copy_byte st = Ok st' /\
    Ok (copied_mem st') = memcpy mem dst mem src count.
Proof.
  intros Hst Hc. destruct (copy_loop 1 copy_byte st ltac:(lia) copy_byte_ok Hst Hc) as (st' & -> & Hi & _ & Hl).
  exists st'. split; [done|]. destruct st' as [[[m d] s] n], Hi as (_ & He & H0 & _ & Hm).
  unfold copy_left in Hl. cbn in Hl |- *. assert (d = dst + count) as -> by lia. by apply copied_all.
Qed.

Lemma up_inv_init : up_inv (mem, dst, src, count).
Proof.
  cbn. split_and!; try lia. split; [done|]. intros i. by rewrite decide_False by lia.
Qed.

Lemma rt_memcpy_ok : is_bytes mem -> rt_memcpy mem dst src count = memcpy mem dst mem src count.
Proof using All.
  intros Hb. unfold rt_memcpy.
  assert (forall st, up_inv st -> 16 <= copy_left st -> exists st',
    (st ← copy_long st; st ← copy_long st; st ← copy_long st; copy_long st) = Ok st' /\
    up_inv st' /\ copy_left st' = copy_left st - 16) as H16.
  { intros st Hi Hk.
    destruct (copy_long_ok st Hb Hi) as (st1 & -> & H1 & L1); [lia|]. cbn [mbind outcome_bind].
    destruct (copy_long_ok st1 Hb H1) as (st2 & -> & H2 & L2); [lia|]. cbn [mbind outcome_bind].
    destruct (copy_long_ok st2 Hb H2) as (st3 & -> & H3 & L3); [lia|]. cbn [mbind outcome_bind].
    destruct (copy_long_ok st3 Hb H3) as (st4 & -> & H4 & L4); [lia|].
    exists st4. split_and!; [done..|lia]. }
  destruct (negb _ && _).
  - destruct (copy_loop 16 _ _ ltac:(lia) H16 up_inv_init) as (st1 & E1 & Hi1 & Hc1 & _);
      [unfold copy_left; cbn; lia|]. change (4 * sizeof_long) with 16. rewrite E1.
    cbn [mbind outcome_bind].
    destruct (copy_loop sizeof_long copy_long st1) as (st2 & -> & Hi2 & Hc2 & _);
      [unfold sizeof_long; lia|intros st; by apply copy_long_ok|done..|].
    cbn [mbind outcome_bind]. destruct (copy_bytes_loop st2 Hi2 Hc2) as (st3 & -> & H3). done.
  - cbn [mbind outcome_bind]. destruct (copy_bytes_loop _ up_inv_init) as (st3 & -> & H3); [|done].
    unfold copy_left. cbn. lia.
Qed.
End Copy.

Section Move.
Context (mem : list Z) (dst src count : Z).
Context (Hd : 0 <= dst) (Hs : 0 <= src) (Hn : 0 <= count).
Context (Hdl : dst + count <= Z.of_nat (length mem)) (Hsl : src + count <= Z.of_nat (length mem)).

(** Downwards: what lies below the source pointer is still the original. *)
Definition down_inv (st : copy_state) : Prop :=
  let '(m, tmp, s, n) := st in
  tmp = dst + n /\ s = src + n /\ 0 <= n <= count /\ copied mem dst src m tmp (dst + count).

Lemma copy_byte_down_ok st : src < dst -> down_inv st -> 1 <= copy_left st ->
  exists st', copy_byte_down st = Ok st' /\ down_inv st' /\ copy_left st' = copy_left st - 1.
Proof.
  destruct st as [[[m d] s] n]. unfold copy_left. intros Hlt (-> & -> & H0 & Hm & Hi) H1. cbn in H1 |- *.
  destruct (zget_ok m (src + n - 1)) as (b & -> & Hb); [lia|]. cbn [mbind outcome_bind].
  rewrite (zset_ok m (dst + n - 1) b) by lia. cbn [mbind outcome_bind].
  eexists. split; [done|]. cbn. split; [|done]. split_and!; try lia. split; [by rewrite length_insert|].
  intros i. rewrite list_lookup_insert, Hi. rewrite Hi, decide_False in Hb by lia.
  repeat case_decide; try done; try lia. rewrite <- Hb. f_equal. lia.
Qed.

Lemma rt_memmove_ok : rt_memmove mem dst src count = memcpy mem dst mem src count.
Proof using All.
  unfold rt_memmove. destruct ((src <? dst) && (dst <? src + count)) eqn:Eb.
  - c_bool.
    destruct (c_while_rule down_inv (fun st => Z.to_nat (copy_left st)) (copies_left 1) copy_byte_down
      (S (Z.to_nat count)) (mem, dst + count, src + count, count)) as (st' & -> & Hi & Hend).
    + intros [[[m d] s] n] Hi. cbn [copies_left copy_left snd]. destruct (Z.leb_spec 1 n); [|by left].
      right. split; [done|]. destruct (copy_byte_down_ok _ ltac:(done) Hi) as (st' & -> & Hi' & Hl'); [done|].
      exists st'. split_and!; [done..|]. unfold copy_left in *. cbn in Hl'. lia.
    + cbn. split_and!; try lia. split; [done|]. intros i. by rewrite decide_False by lia.
    + unfold copy_left. cbn. lia.
    + cbn [mbind outcome_bind]. destruct st' as [[[m d] s] n], Hi as (-> & -> & Hn0 & Hm).
      injection Hend as ?%Z.leb_gt. cbn. assert (n = 0) as -> by lia. rewrite Z.add_0_r in Hm.
      by apply copied_all.
  - assert (dst <= src \/ src + count <= dst) as Hup.
    { apply andb_false_iff in Eb as [?%Z.ltb_ge|?%Z.ltb_ge]; lia. }
    destruct (copy_bytes_loop mem dst src count Hd Hs Hn Hdl Hsl Hup (mem, dst, src, count))
      as (st' & -> & Hm); [by apply up_inv_init|unfold copy_left; cbn; lia|done].
Qed.
End Move.

(** ** Strings *)
Lemma rt_strlen_loop mem fuel s : forall p, (length s < fuel)%nat -> c_string mem p = Ok s ->
  c_while fuel (fun sc => c ← zget mem sc; Ok (negb (c =? 0))) (fun sc => Ok (sc + 1)) p =
    Ok (p + Z.of_nat (length s)).
Proof.
  revert fuel. induction s as [|c s IH]; intros [|fuel] p Hf Hs; cbn [length] in *; try lia;
    apply c_string_step in Hs; cbn [c_while].
  - rewrite Hs. cbn. f_equal. lia.
  - destruct Hs as (-> & Hc & Hs). cbn [mbind outcome_bind]. destruct (Z.eqb_spec c 0); [done|].
    cbn [negb mbind outcome_bind]. rewrite IH by (done || lia). f_equal. lia.
Qed.

Lemma rt_strlen_ok mem p s : c_string mem p = Ok s -> rt_strlen mem p = Ok (Z.of_nat (length s)).
Proof.
  intros Hs. pose proof (c_string_Ok _ _ _ Hs) as (? & _ & ? & _). unfold rt_strlen.
  rewrite (rt_strlen_loop _ _ s) by (done || lia). cbn. f_equal. lia.
Qed.

Lemma rt_strcmp_loop mem fuel s : forall p q t, (length s < fuel)%nat ->
  c_string mem p = Ok s -> c_string mem q = Ok t ->
  (st ← c_while fuel
     (fun '(cs, ct) => a ← zget mem cs; if a =? 0 then Ok false else b ← zget mem ct; Ok (a =? b))
     (fun '(cs, ct) => Ok (cs + 1, ct + 1)) (p, q);
   let '(cs, ct) := st in a ← zget mem cs; b ← zget mem ct; Ok (a - b)) = Ok (strcmp s t).
Proof.
  revert fuel. induction s as [|a s IH]; intros [|fuel] p q t Hf Hs Ht; cbn [length] in *; try lia;
    apply c_string_step in Hs; apply c_string_step in Ht; cbn [c_while].
  - rewrite Hs. cbn [mbind outcome_bind]. change (0 =? 0) with true. cbv iota. cbn [mbind outcome_bind].
    rewrite Hs. destruct t as [|b t]; [rewrite Ht|destruct Ht as (-> & _)]; cbn; f_equal; lia.
  - destruct Hs as (Ha & Hnz & Hs). rewrite Ha. cbn [mbind outcome_bind].
    destruct (Z.eqb_spec a 0); [done|]. destruct t as [|b t].
    + rewrite Ht. cbn [mbind outcome_bind]. destruct (Z.eqb_spec a 0); [done|].
      cbn [mbind outcome_bind]. rewrite Ha, Ht. cbn. f_equal. lia.
    + destruct Ht as (Hb & Hnb & Ht). rewrite Hb. cbn [mbind outcome_bind strcmp].
      destruct (Z.eqb_spec a b).
      * apply IH; [lia|done|done].
      * cbn [mbind outcome_bind]. rewrite Ha, Hb. done.
Qed.

Lemma rt_strcmp_ok mem p q s t : c_string mem p = Ok s -> c_string mem q = Ok t ->
  rt_strcmp mem p q = Ok (strcmp s t).
Proof.
  intros Hs Ht. pose proof (c_string_Ok _ _ _ Hs) as (? & _ & ? & _).
  apply rt_strcmp_loop; [lia|done|done].
Qed.

Lemma sint8_diff a b : is_byte a -> is_byte b -> sint 8 (a - b) = 0 -> a = b.
Proof.
  unfold is_byte, sint. intros. change (2 ^ (8 - 1)) with 128. change (2 ^ 8) with 256.
  intros; Z.to_euclidean_division_equations; lia.
Qed.

Lemma rt_strncmp_ok mem n : forall p q s t, is_bytes mem ->
  c_string mem p = Ok s -> c_string mem q = Ok t ->
  exists r, rt_strncmp_loop mem p q n 0 = Ok r /\ (r = 0 <-> take n s = take n t).
Proof.
  induction n as [|n IH]; intros p q s t Hm Hs Ht; cbn [rt_strncmp_loop].
  { by exists 0. }
  apply c_string_step in Hs; apply c_string_step in Ht.
  assert (forall p a, zget mem p = Ok a -> is_byte a) as Hb.
  { intros ? ? [_ ?]%zget_inv. by eapply Forall_lookup_1. }
  destruct s as [|a s], t as [|b t].
  - rewrite Hs, Ht. by exists 0.
  - destruct Ht as (Hb' & Hnb & _). rewrite Hs, Hb'. cbn [mbind outcome_bind].
    destruct (Z.eqb_spec (sint 8 (0 - b)) 0) as [E|E].
    + apply sint8_diff in E; [lia|by unfold is_byte|by eapply Hb].
    + eexists. split; [done|]. cbn. split; [done|intros [=]].
  - destruct Hs as (Ha' & Hna & _). rewrite Ht, Ha'. cbn [mbind outcome_bind].
    destruct (Z.eqb_spec (sint 8 (a - 0)) 0) as [E|E].
    + apply sint8_diff in E; [lia|by eapply Hb|by unfold is_byte].
    + eexists. split; [done|]. cbn. split; [done|intros [=]].
  - destruct Hs as (Ha & Hna & Hs), Ht as (Hb' & Hnb & Ht). rewrite Ha, Hb'. cbn [mbind outcome_bind].
    destruct (Z.eqb_spec (sint 8 (a - b)) 0) as [E|E]; cbn [negb].
    + apply sint8_diff in E as ->; [|by eapply Hb..]. destruct (Z.eqb_spec b 0); [done|].
      rewrite Z.sub_diag. change (sint 8 0) with 0.
      destruct (IH _ _ _ _ Hm Hs Ht) as (r & -> & Hr). exists r. split; [done|]. rewrite Hr. cbn.
      split; [by intros ->|by intros [=]].
    + eexists. split; [done|]. cbn. split; [done|]. intros [= -> _]. destruct E.
      rewrite Z.sub_diag. done.
Qed.

(** A comparison of [n] cells is 0 exactly when they agree. *)
Lemma rt_memcmp_ok mem n : forall p q, 0 <= p -> 0 <= q ->
  p + Z.of_nat n <= Z.of_nat (length mem) -> q + Z.of_nat n <= Z.of_nat (length mem) ->
  exists r, rt_memcmp_loop mem p q n = Ok r /\
    (r = 0 <-> take n (drop (Z.to_nat p) mem) = take n (drop (Z.to_nat q) mem)).
Proof.
  induction n as [|n IH]; intros p q Hp Hq Hpl Hql; cbn [rt_memcmp_loop]; [by exists 0|].
  destruct (zget_ok mem p) as (a & -> & Ha); [lia|]. destruct (zget_ok mem q) as (b & -> & Hb); [lia|].
  cbn [mbind outcome_bind]. erewrite (drop_S _ _ (Z.to_nat p)) by exact Ha.
  erewrite (drop_S _ _ (Z.to_nat q)) by exact Hb. cbn [take].
  replace (S (Z.to_nat p)) with (Z.to_nat (p + 1)) by lia.
  replace (S (Z.to_nat q)) with (Z.to_nat (q + 1)) by lia.
  destruct (Z.eqb_spec (a - b) 0).
  - assert (a = b) as -> by lia. destruct (IH (p + 1) (q + 1)) as (r & -> & Hr); [lia..|].
    exists r. split; [done|]. rewrite Hr. split; [by intros ->|by intros [=]].
  - eexists. split; [done|]. split; [done|]. intros [= ? _]. lia.
Qed.

Lemma memcmp_prefix mem p q s t : c_string mem p = Ok s -> c_string mem q = Ok t ->
  (length t <= length s)%nat ->
  exists r, rt_memcmp mem p q (Z.of_nat (length t)) = Ok r /\ (r = 0 <-> starts_with t s = true).
Proof.
  intros Hs Ht Hl. apply c_string_Ok in Hs as (? & _ & ? & Hs & _), Ht as (? & _ & ? & Ht & _).
  unfold rt_memcmp, starts_with. rewrite Nat2Z.id.
  destruct (rt_memcmp_ok mem (length t) p q) as (r & -> & Hr); [lia..|].
  exists r. split; [done|]. rewrite Hr, Ht, bool_decide_eq_true.
  assert (take (length t) s = take (length t) (drop (Z.to_nat p) mem)) as ->; [|done].
  rewrite <- Hs at 1. by rewrite take_take, Nat.min_l by lia.
Qed.

Lemma strstr_short s t : (length s < length t)%nat -> strstr s t = None.
Proof.
  induction s as [|c s IH]; intros Hl; cbn [strstr length] in *;
    destruct (starts_with t _) eqn:E; try (apply starts_with_true, prefix_length in E; cbn in E; lia).
  - done.
  - by rewrite IH by lia.
Qed.

Lemma strstr_nil s : strstr s [] = Some O.
Proof. destruct s; reflexivity. Qed.

Lemma rt_strstr_loop_ok mem q t : c_string mem q = Ok t -> t <> [] ->
  forall s p fuel, c_string mem p = Ok s -> (length s + 1 < fuel)%nat ->
  rt_strstr_loop fuel mem p q (Z.of_nat (length s)) (Z.of_nat (length t)) =
    Ok ((fun i : nat => p + Z.of_nat i) <$> strstr s t).
Proof.
  intros Ht Hne s. induction s as [|c s IH]; intros p [|fuel] Hs Hf; cbn [length] in *; try lia;
    cbn [rt_strstr_loop].
  - destruct t; [done|]. cbn. done.
  - destruct (Z.leb_spec (Z.of_nat (length t)) (Z.of_nat (S (length s)))).
    + destruct (memcmp_prefix mem p q (c :: s) t Hs Ht) as (r & -> & Hr); [cbn; lia|].
      cbn [mbind outcome_bind strstr]. destruct (Z.eqb_spec r 0) as [->|].
      * rewrite (proj1 Hr eq_refl). cbn. do 2 f_equal. lia.
      * destruct (starts_with t (c :: s)); [exfalso; by apply n, Hr|].
        apply c_string_step in Hs as (_ & _ & Hs).
        replace (Z.of_nat (S (length s)) - 1) with (Z.of_nat (length s)) by lia.
        rewrite IH by (done || lia). f_equal. destruct (strstr s t); [|done]. cbn. f_equal. lia.
    + by rewrite strstr_short by (cbn; lia).
Qed.

Lemma rt_strstr_ok mem p q s t : c_string mem p = Ok s -> c_string mem q = Ok t ->
  rt_strstr mem p q = Ok ((fun i : nat => p + Z.of_nat i) <$> strstr s t).
Proof.
  intros Hs Ht. unfold rt_strstr. rewrite (rt_strlen_ok _ _ _ Ht). cbn [mbind outcome_bind].
  destruct (Z.eqb_spec (Z.of_nat (length t)) 0).
  - destruct t; [|done]. rewrite strstr_nil. cbn. do 2 f_equal. lia.
  - rewrite (rt_strlen_ok _ _ _ Hs). cbn [mbind outcome_bind].
    apply rt_strstr_loop_ok; [done|by destruct t|done|lia].
Qed.

(** [strncpy]: the first [n] cells of the string followed by NULs. *)
Definition padded_copy (s : list Z) (n : nat) : list Z := take n (s ++ replicate n 0).

Lemma strncpy_pad_ok n : forall mem d, 0 <= d -> d + Z.of_nat n <= Z.of_nat (length mem) ->
  exists m, strncpy_pad mem d n = Ok m /\ length m = length mem /\
    forall i : nat, m !! i = if decide (d <= Z.of_nat i < d + Z.of_nat n) then Some 0 else mem !! i.
Proof.
  induction n as [|n IH]; intros mem d Hd Hl; cbn [strncpy_pad].
  - exists mem. split_and!; [done..|]. intros i. by rewrite decide_False by lia.
  - rewrite (zset_ok mem d 0) by lia. cbn [mbind outcome_bind].
    destruct (IH (<[Z.to_nat d:=0]> mem) (d + 1)) as (m & -> & Hm & Hi); [lia|rewrite length_insert; lia|].
    rewrite length_insert in Hm. exists m. split_and!; [done..|]. intros i.
    rewrite Hi, list_lookup_insert. repeat case_decide; try done; lia.
Qed.

Lemma padded_copy_lookup s n i : (i < n)%nat ->
  padded_copy s n !! i = if decide (i < length s)%nat then s !! i else Some 0.
Proof.
  intros Hi. unfold padded_copy. rewrite lookup_take, decide_True by done. case_decide.
  - by rewrite lookup_app_l.
  - rewrite lookup_app_r by lia. apply lookup_replicate. split; [done|lia].
Qed.

Lemma padded_copy_length s n : length (padded_copy s n) = n.
Proof. unfold padded_copy. rewrite length_take, length_app, length_replicate. lia. Qed.

Lemma rt_strncpy_loop_ok n : forall mem d p s, 0 <= d -> d + Z.of_nat n <= Z.of_nat (length mem) ->
  c_string mem p = Ok s -> (p + Z.of_nat (length s) < d \/ d + Z.of_nat n <= p) ->
  exists m, rt_strncpy_loop mem d p n = Ok m /\ length m = length mem /\
    forall i : nat, m !! i =
      if decide (d <= Z.of_nat i < d + Z.of_nat n)
      then padded_copy s n !! Z.to_nat (Z.of_nat i - d) else mem !! i.
Proof.
  induction n as [|n IH]; intros mem d p s Hd Hl Hs Hdis; cbn [rt_strncpy_loop].
  - exists mem. split_and!; [done..|]. intros i. by rewrite decide_False by lia.
  - pose proof (c_string_step _ _ _ Hs) as Hstep. pose proof (c_string_Ok _ _ _ Hs) as (Hp & _ & Hpl & _).
    assert (forall x, zset mem d x = Ok (<[Z.to_nat d:=x]> mem)) as Hset by (intros; apply zset_ok; lia).
    destruct s as [|c s]; cbn [length] in *.
    + rewrite Hstep. cbn [mbind outcome_bind]. rewrite Hset. cbn [mbind outcome_bind].
      change (0 =? 0) with true. cbv iota.
      destruct (strncpy_pad_ok n (<[Z.to_nat d:=0]> mem) (d + 1)) as (m & -> & Hm & Hi);
        [lia|rewrite length_insert; lia|].
      rewrite length_insert in Hm. exists m. split_and!; [done..|]. intros i.
      rewrite Hi, list_lookup_insert.
      destruct (decide (d <= Z.of_nat i < d + Z.of_nat (S n))); [|repeat case_decide; done || lia].
      rewrite padded_copy_lookup, (decide_False (P := (_ < length [])%nat)) by (cbn; lia).
      repeat case_decide; done || lia.
    + destruct Hstep as (-> & Hc & Hs'). cbn [mbind outcome_bind]. rewrite Hset. cbn [mbind outcome_bind].
      destruct (Z.eqb_spec c 0); [done|].
      destruct (IH (<[Z.to_nat d:=c]> mem) (d + 1) (p + 1) s) as (m & -> & Hm & Hi);
        [lia|rewrite length_insert; lia| |lia|].
      { eapply c_string_frame; [exact Hs'|]. intros i Hi. rewrite list_lookup_insert_ne by lia. done. }
      rewrite length_insert in Hm. exists m. split_and!; [done..|]. intros i.
      rewrite Hi, list_lookup_insert.
      destruct (decide (d <= Z.of_nat i < d + Z.of_nat (S n))); [|repeat case_decide; done || lia].
      destruct (decide (Z.of_nat i = d)).
      * rewrite decide_False, decide_True by lia. by replace (Z.to_nat (Z.of_nat i - d)) with O by lia.
      * rewrite decide_True by lia.
        replace (Z.to_nat (Z.of_nat i - d)) with (S (Z.to_nat (Z.of_nat i - (d + 1)))) by lia.
        rewrite !padded_copy_lookup by lia. cbn. repeat case_decide; done || lia.
Qed.

Lemma rt_strncpy_ok mem d p s n : 0 <= n -> 0 <= d -> d + n <= Z.of_nat (length mem) ->
  c_string mem p = Ok s -> (p + Z.of_nat (length s) < d \/ d + n <= p) ->
  rt_strncpy mem d p n = memcpy mem d (padded_copy s (Z.to_nat n)) 0 n.
Proof.
  intros Hn Hd Hl Hs Hdis. unfold rt_strncpy.
  destruct (rt_strncpy_loop_ok (Z.to_nat n) mem d p s) as (m & -> & Hm & Hi); [lia|lia|done|lia|].
  symmetry. apply memcpy_intro; rewrite ?padded_copy_length; try lia.
  intros i. rewrite Hi. replace (Z.of_nat (Z.to_nat n)) with n by lia. done.
Qed.

(** The loop of [rt_strnlen], from a pointer [sc] inside the array. *)
Lemma rt_strnlen_loop mem s maxlen fuel l : forall sc, (length l < fuel)%nat -> is_chars l ->
  (forall i : nat, (i < length l)%nat -> mem !! (Z.to_nat sc + i)%nat = l !! i) ->
  0 <= sc -> sc + Z.of_nat (length l) <= s + maxlen ->
  c_while fuel (fun sc => c ← zget mem sc; Ok (negb (c =? 0) && (sc - s <? maxlen)))
    (fun sc => Ok (sc + 1)) sc =
  c_while (fuel - length l) (fun sc => c ← zget mem sc; Ok (negb (c =? 0) && (sc - s <? maxlen)))
    (fun sc => Ok (sc + 1)) (sc + Z.of_nat (length l)).
Proof.
  revert fuel. induction l as [|c l IH]; intros fuel sc Hf Hl Hm Hsc Hmax; cbn [length] in *.
  { by rewrite Nat.sub_0_r, Z.add_0_r. }
  destruct fuel as [|fuel]; [lia|]. cbn [c_while Nat.sub]. apply Forall_cons in Hl as [Hc Hl].
  rewrite (zget_Some mem sc c) by (lia || (rewrite <- (Nat.add_0_r (Z.to_nat sc)); by rewrite (Hm O) by lia)).
  cbn [mbind outcome_bind]. destruct (Z.eqb_spec c 0); [done|].
  destruct (Z.ltb_spec (sc - s) maxlen); [|lia]. cbn [negb andb mbind outcome_bind].
  rewrite IH; [f_equal; lia|lia|done| |lia|lia].
  intros i Hi. replace (Z.to_nat (sc + 1) + i)%nat with (Z.to_nat sc + S i)%nat by lia. by rewrite Hm by lia.
Qed.

(** An array full of characters: the bound does not stop the read that follows it. *)
Lemma rt_strnlen_overrun l : is_chars l -> rt_strnlen l 0 (Z.of_nat (length l)) = Fault FOutOfBounds.
Proof.
  intros Hl. unfold rt_strnlen. rewrite (rt_strnlen_loop l 0 _ _ l) by (lia || done).
  replace (S (length l) - length l)%nat with 1%nat by lia. cbn [c_while].
  unfold zget. rewrite decide_True by lia. rewrite lookup_ge_None_2 by lia. done.
Qed.

Lemma rt_strnlen_ok mem p s maxlen : c_string mem p = Ok s -> Z.of_nat (length s) <= maxlen ->
  rt_strnlen mem p maxlen = Ok (Z.of_nat (length s)).
Proof.
  intros Hs Hmax. apply c_string_Ok in Hs as (Hp & Hc & Hl & Ht & H0). unfold rt_strnlen.
  rewrite (rt_strnlen_loop mem p maxlen _ s) by
    first [lia|done|intros i Hi; rewrite <- Ht, lookup_take, lookup_drop; by rewrite decide_True].
  destruct (S (length mem) - length s)%nat as [|k] eqn:Ek; [lia|]. cbn [c_while].
  rewrite (zget_Some mem _ 0) by (lia || (rewrite <- H0; f_equal; lia)). cbn. f_equal. lia.
Qed.

(** ** The properties *)

(** C29: The kernel's word-at-a-time block routines always end and compute what the byte-wise reference does, for every alignment and length within memory: [rt_memset] fills the region with the low byte of its argument; [rt_memcpy] copies the region as it was, when the regions are disjoint or the copy goes downwards; [rt_memmove] does so for any overlap. *)
Theorem kernel_block_operations mem dst src c count :
  is_bytes mem -> 0 <= dst -> 0 <= src -> 0 <= count ->
  dst + count <= Z.of_nat (length mem) -> src + count <= Z.of_nat (length mem) ->
  rt_memset mem dst c count = memcpy mem dst (replicate (Z.to_nat count) (u8 c)) 0 count /\
  rt_memmove mem dst src count = memcpy mem dst mem src count /\
  (dst <= src \/ src + count <= dst ->
   rt_memcpy mem dst src count = memcpy mem dst mem src count) /\
  (exists m, memcpy mem dst mem src count = Ok m).
Proof.
  intros Hm Hd Hs Hn Hdl Hsl. split_and!.
  - by apply rt_memset_ok.
  - by apply rt_memmove_ok.
  - intros Hup. by apply rt_memcpy_ok.
  - by apply memcpy_total.
Qed.

Definition ramp (n : nat) : list Z := Z.of_nat <$> seq 0 n.

Lemma kernel_block_operations_witness :
  rt_memcpy (ramp 48) 0 24 23 = memcpy (ramp 48) 0 (ramp 48) 24 23 /\
  rt_memmove (ramp 48) 5 2 20 = memcpy (ramp 48) 5 (ramp 48) 2 20.
Proof.
  assert (is_bytes (ramp 48)) as Hb by (by apply (bool_decide_unpack (is_bytes (ramp 48)))).
  split.
  - apply (kernel_block_operations (ramp 48) 0 24 0 23); [done|cbn; lia..|lia].
  - apply (kernel_block_operations (ramp 48) 5 2 0 20); done || (cbn; lia).
Defined.

(** C30: On NUL-terminated strings [s] and [t] anywhere in memory the kernel's string routines always end without a bad access and agree with the strings' characters: [rt_strlen] is the length, [rt_strcmp] the difference at the first mismatch and 0 only for equal strings, [rt_strncmp] is 0 exactly when the first [n] characters agree, [rt_strstr] finds the first occurrence or returns NULL, [rt_strncpy] to a disjoint buffer writes the first [n] characters padded with NULs, and [rt_strnlen] is the length when the bound allows it; on an array whose [maxlen] cells hold no NUL, however, [rt_strnlen] reads the cell behind it. *)
Theorem kernel_string_operations mem p q s t :
  is_bytes mem -> c_string mem p = Ok s -> c_string mem q = Ok t ->
  rt_strlen mem p = Ok (Z.of_nat (length s)) /\
  (rt_strcmp mem p q = Ok (strcmp s t) /\ (strcmp s t = 0 <-> s = t)) /\
  (forall n, exists r, rt_strncmp mem p q n = Ok r /\
     (r = 0 <-> take (Z.to_nat n) s = take (Z.to_nat n) t)) /\
  (exists r, rt_strstr mem p q = Ok r /\
     match r with
     | Some a => exists i, a = p + Z.of_nat i /\ t `prefix_of` drop i s /\
                   forall j, (j < i)%nat -> ~ t `prefix_of` drop j s
     | None => forall j, (j <= length s)%nat -> ~ t `prefix_of` drop j s
     end) /\
  (forall d n, 0 <= n -> 0 <= d -> d + n <= Z.of_nat (length mem) ->
     p + Z.of_nat (length s) < d \/ d + n <= p ->
     rt_strncpy mem d p n = memcpy mem d (padded_copy s (Z.to_nat n)) 0 n) /\
  (forall maxlen, Z.of_nat (length s) <= maxlen -> rt_strnlen mem p maxlen = Ok (Z.of_nat (length s))) /\
  rt_strnlen s 0 (Z.of_nat (length s)) = Fault FOutOfBounds.
Proof.
  intros Hm Hs Ht. pose proof (c_string_Ok _ _ _ Hs) as (_ & Hcs & _).
  pose proof (c_string_Ok _ _ _ Ht) as (_ & Hct & _). split_and!.
  - by apply rt_strlen_ok.
  - by apply rt_strcmp_ok.
  - by apply strcmp_0.
  - intros n. by apply rt_strncmp_ok.
  - eexists. split; [by apply rt_strstr_ok|]. destruct (strstr s t) as [i|] eqn:E; cbn.
    + exists i. split; [done|]. by apply strstr_Some.
    + by apply strstr_None.
  - intros. by apply rt_strncpy_ok.
  - intros. by apply rt_strnlen_ok.
  - by apply rt_strnlen_overrun.
Qed.

(** "abcab" at 1, "cab" at 8. *)
Definition two_strings : list Z := [7; 97; 98; 99; 97; 98; 0; 7; 99; 97; 98; 0].

Lemma kernel_string_operations_witness :
  rt_strcmp two_strings 1 8 = Ok (-2) /\
  exists r, rt_strstr two_strings 1 8 = Ok r.
Proof.
  destruct (kernel_string_operations two_strings 1 8 [97; 98; 99; 97; 98] [99; 97; 98])
    as (_ & [H1 _] & _ & (r & H2 & _) & _); [by apply (bool_decide_unpack (is_bytes two_strings))|reflexivity..|].
  split; [exact H1|by exists r].
Defined.
