(* ===== verification/KPrintf.v ===== *)
(** * Formatted output (rt_vsnprintf and rt_kprintf of src/Kernel/kservice.c)

    The printing functions are written against a sink of characters, the class
    [Sink]: the buffer of the code, which ends somewhere, and a list, which does not.
    [rt_vsnprintf] is the printer on the buffer; [output] is the reference, the
    printer on the list, and the simulation [rel] relates them.  A sink says whether
    the character was stored, because the code's padding depends on it.

    A format is the list of its characters without the final NUL; a pointer into it
    is the rest of the list.  An argument is a word or a string; [va_arg] of the wrong
    kind or past the last one is undefined and a fault.  RT_PRINTF_PRECISION is
    defined, RT_PRINTF_SPECIAL and RT_PRINTF_LONGLONG are not; long is 32 bits. *)
From Stdlib Require Import String.
From S2P Require Import Prelude CString.

Definition ZEROPAD : Z := 1 ≪ 0.
Definition SIGN : Z := 1 ≪ 1.
Definition PLUS : Z := 1 ≪ 2.
Definition SPACE : Z := 1 ≪ 3.
Definition LEFT : Z := 1 ≪ 4.
Definition SPECIAL : Z := 1 ≪ 5.
Definition LARGE : Z := 1 ≪ 6.

Definition flag (type bit : Z) : bool := negb (Z.land type bit =? 0).

(** The result is whether the character was stored. *)
Class Sink (T : Type) := put_char : Z -> M T bool.

Inductive arg := AWord (w : Z) | AStr (s : option (list Z)).

Definition va_word (args : list arg) : outcome (Z * list arg) :=
  match args with AWord w :: args => Ok (w, args) | _ => Fault FOutOfBounds end.

Definition va_str (args : list arg) : outcome (option (list Z) * list arg) :=
  match args with AStr s :: args => Ok (s, args) | _ => Fault FOutOfBounds end.

(** ** Numbers *)
Definition isdigit (c : Z) : bool := u32 (c - 48) <? 10.

(** The remainder and the quotient. *)
Definition divide (n base : Z) : Z * Z :=
  if base =? 10 then (u32 n mod 10, s32 (u32 n / 10)) else (u32 n mod 16, s32 (u32 n / 16)).

Fixpoint skip_atoi (s : list Z) (i : Z) : list Z * Z :=
  match s with
  | c :: r => if isdigit c then skip_atoi r (s32 (i * 10 + c - 48)) else (s, i)
  | [] => (s, i)
  end.

Definition small_digits : list Z := chars "0123456789abcdef".
Definition large_digits : list Z := chars "0123456789ABCDEF".

(** The characters of [tmp], of which there is [room] for more. *)
Fixpoint divide_loop (room : nat) (digits : list Z) (num base : Z) : outcome (list Z) :=
  if num =? 0 then Ok [] else
  match room with
  | O => Fault FOutOfBounds
  | S room =>
      let '(d, n) := divide num base in
      c ← zget digits d;
      r ← divide_loop room digits n base;
      Ok (c :: r)
  end.

Definition signed (num type : Z) : Z * Z :=
  if flag type SIGN then
    if num <? 0 then (45, s32 (- num))
    else if flag type PLUS then (43, num)
    else if flag type SPACE then (32, num)
    else (0, num)
  else (0, num).

Section Printer.
Context {T : Type} `{!Sink T}.

Definition emit (c : Z) : M T unit := put_char c;; skip.

Fixpoint emits (n : nat) (c : Z) : M T unit :=
  match n with
  | O => skip
  | S n => emit c;; emits n c
  end.

Fixpoint emit_all (l : list Z) : M T unit :=
  match l with
  | [] => skip
  | c :: l => emit c;; emit_all l
  end.

(** [while (size-- > 0)]; the result is what is left in [size]. *)
Definition pad (size c : Z) : M T Z :=
  emits (Z.to_nat size) c;; mret (if 0 <? size then -1 else size - 1).

(** From the sign on, with the digits in [tmp], the last first. *)
Definition print_digits (sign : Z) (tmp : list Z) (s precision type : Z) : M T unit :=
  let c := if flag type ZEROPAD then 48 else 32 in
  let i := Z.of_nat (length tmp) in
  let precision_bak := precision in
  let precision := if precision <? i then i else precision in
  let size := s - precision in
  size ← (if flag type (Z.lor ZEROPAD LEFT) then mret size
          else pad (if negb (sign =? 0) && (0 <? size) then size - 1 else size) 32);
  size ← (if sign =? 0 then mret size else stored ← put_char sign; mret (if (stored : bool) then size - 1 else size));
  size ← (if flag type LEFT then mret size else pad size c);
  emits (Z.to_nat (precision - i)) 48;;
  (when negb (precision_bak =? 0) do emit_all (rev tmp));;
  pad size 32;;
  skip.

Definition print_number (num base s precision type : Z) : M T unit :=
  let digits := if flag type LARGE then large_digits else small_digits in
  let type := if flag type LEFT then Z.land type (Z.lnot ZEROPAD) else type in
  let '(sign, num) := signed num type in
  tmp ← lift (if num =? 0 then Ok [48] else divide_loop 16 digits num base);
  print_digits sign tmp s precision type.

(** ** The parts of a directive *)
Fixpoint parse_flags (fmt : list Z) (flags : Z) : list Z * Z :=
  match fmt with
  | c :: r =>
      if c =? 45 then parse_flags r (Z.lor flags LEFT)
      else if c =? 43 then parse_flags r (Z.lor flags PLUS)
      else if c =? 32 then parse_flags r (Z.lor flags SPACE)
      else if c =? 35 then parse_flags r (Z.lor flags SPECIAL)
      else if c =? 48 then parse_flags r (Z.lor flags ZEROPAD)
      else (fmt, flags)
  | [] => (fmt, flags)
  end.

(** The field width, with the flags, which a negative width changes. *)
Definition parse_width (fmt : list Z) (flags : Z) (args : list arg) : outcome (list Z * Z * Z * list arg) :=
  match fmt with
  | c :: r =>
      if isdigit c then let '(fmt, w) := skip_atoi fmt 0 in Ok (fmt, w, flags, args)
      else if c =? 42 then
        '(w, args) ← va_word args;
        let w := s32 w in
        if w <? 0 then Ok (r, s32 (- w), Z.lor flags LEFT, args) else Ok (r, w, flags, args)
      else Ok (fmt, -1, flags, args)
  | [] => Ok (fmt, -1, flags, args)
  end.

Definition parse_precision (fmt : list Z) (args : list arg) : outcome (list Z * Z * list arg) :=
  match fmt with
  | dot :: r =>
      if negb (dot =? 46) then Ok (fmt, -1, args) else
      let '(r', p) := skip_atoi r 0 in
      match r with
      | c :: r1 =>
          if isdigit c then Ok (r', if p <? 0 then 0 else p, args)
          else if c =? 42 then '(p, args) ← va_word args; Ok (r1, if s32 p <? 0 then 0 else s32 p, args)
          else Ok (r, 0, args)
      | [] => Ok (r, 0, args)
      end
  | [] => Ok (fmt, -1, args)
  end.

Definition parse_qualifier (fmt : list Z) : list Z * Z :=
  match fmt with
  | c :: r => if (c =? 104) || (c =? 108) then (r, c) else (fmt, 0)
  | [] => (fmt, 0)
  end.

(** ** Conversions *)
Definition print_char (flags field_width c : Z) : M T unit :=
  (when negb (flag flags LEFT) do emits (Z.to_nat (field_width - 1)) 32);;
  emit (u8 c);;
  (when flag flags LEFT do emits (Z.to_nat (field_width - 1)) 32).

Definition print_string (flags field_width precision : Z) (s : option (list Z)) : M T unit :=
  let s := match s with Some s => s | None => chars "(NULL)" end in
  let len := Z.of_nat (length s) in
  let len := if (0 <? precision) && (precision <? len) then precision else len in
  (when negb (flag flags LEFT) do emits (Z.to_nat (field_width - len)) 32);;
  emit_all (take (Z.to_nat len) s);;
  (when flag flags LEFT do emits (Z.to_nat (field_width - len)) 32).

(** The word of an integer conversion. *)
Definition integer_arg (qualifier flags w : Z) : Z :=
  if qualifier =? 104 then if flag flags SIGN then s16 (u16 w) else u16 w else s32 (u32 w).

Definition print_integer (base flags field_width precision qualifier : Z) (args : list arg) : M T (list arg) :=
  '(w, args) ← lift (va_word args);
  print_number (integer_arg qualifier flags w) base field_width precision flags;;
  mret args.

(** The conversion character [c] and what follows it. *)
Definition convert (flags field_width precision qualifier : Z) (fmt : list Z) (args : list arg) : M T (list Z * list arg) :=
  match fmt with
  | [] => emit 37;; mret ([], args)
  | c :: r =>
      if c =? 99 then
        '(w, args) ← lift (va_word args); print_char flags field_width w;; mret (r, args)
      else if c =? 115 then
        '(s, args) ← lift (va_str args); print_string flags field_width precision s;; mret (r, args)
      else if c =? 112 then
        '(w, args) ← lift (va_word args);
        (if field_width =? -1 then print_number (s32 w) 16 8 precision (Z.lor flags ZEROPAD)
         else print_number (s32 w) 16 field_width precision flags);;
        mret (r, args)
      else if c =? 37 then emit 37;; mret (r, args)
      else if c =? 111 then args ← print_integer 8 flags field_width precision qualifier args; mret (r, args)
      else if c =? 88 then args ← print_integer 16 (Z.lor flags LARGE) field_width precision qualifier args; mret (r, args)
      else if c =? 120 then args ← print_integer 16 flags field_width precision qualifier args; mret (r, args)
      else if (c =? 100) || (c =? 105) then
        args ← print_integer 10 (Z.lor flags SIGN) field_width precision qualifier args; mret (r, args)
      else if c =? 117 then args ← print_integer 10 flags field_width precision qualifier args; mret (r, args)
      else emit 37;; emit c;; mret (r, args)
  end.

(** What follows a percent sign. *)
Definition directive (fmt : list Z) (args : list arg) : M T (list Z * list arg) :=
  let '(fmt, flags) := parse_flags fmt 0 in
  '(fmt, field_width, flags, args) ← lift (parse_width fmt flags args);
  '(fmt, precision, args) ← lift (parse_precision fmt args);
  let '(fmt, qualifier) := parse_qualifier fmt in
  convert flags field_width precision qualifier fmt args.

(** The loop over the format; a turn takes at least one character. *)
Fixpoint format_loop (fuel : nat) (fmt : list Z) (args : list arg) : M T unit :=
  match fmt, fuel with
  | [], _ => skip
  | _, O => lift Blocked
  | c :: r, S fuel =>
      if negb (c =? 37) then emit c;; format_loop fuel r args
      else '(r, args) ← directive r args; format_loop fuel r args
  end.
End Printer.

(** ** The buffer *)
Record outbuf := MkOut { cells : list Z; str : Z; end_ : Z }.

#[export] Instance outbuf_sink : Sink outbuf := fun c o =>
  if str o <=? end_ o then
    l ← zset (cells o) (str o) c; Ok (true, MkOut l (str o + 1) (end_ o))
  else Ok (false, MkOut (cells o) (str o + 1) (end_ o)).

(** The last cell that may be written, for a buffer of [size] bytes at [addr]. *)
Definition buffer_end (addr size : Z) : Z :=
  let e := u32 (addr + size - 1) in
  (if e <? addr then 0xFFFFFFFF else e) - addr.

(** The state is the memory from the buffer on. *)
Definition rt_vsnprintf (addr size : Z) (fmt : list Z) (args : list arg) : M (list Z) Z := fun mem =>
  match format_loop (length fmt) fmt args (MkOut mem 0 (buffer_end addr size)) with
  | Ok (_, o) => l ← zset (cells o) (if str o <=? end_ o then str o else end_ o) 0; Ok (str o, l)
  | Fault e => Fault e
  | Blocked => Blocked
  end.

Definition rt_snprintf := rt_vsnprintf.
Definition rt_vsprintf (addr : Z) (fmt : list Z) (args : list arg) : M (list Z) Z := rt_vsnprintf addr (u32 (-1)) fmt args.
Definition rt_sprintf := rt_vsprintf.

Definition RT_CONSOLEBUF_SIZE : Z := 128.

(** The state is [rt_log_buf]; the result is what is written to the console. *)
Definition rt_kprintf (addr : Z) (fmt : list Z) (args : list arg) : M (list Z) (list Z) :=
  n ← rt_vsnprintf addr (RT_CONSOLEBUF_SIZE - 1) fmt args;
  let length := u32 n in
  let length := if RT_CONSOLEBUF_SIZE - 1 <? length then RT_CONSOLEBUF_SIZE - 1 else length in
  buf ← gets id;
  mret (take (Z.to_nat length) buf).

(** ** The reference: all characters of the output *)
#[export] Instance list_sink : Sink (list Z) := fun c l => Ok (true, l ++ [c]).

Definition output (fmt : list Z) (args : list arg) : outcome (list Z) :=
  match format_loop (length fmt) fmt args [] with
  | Ok (_, l) => Ok l
  | Fault e => Fault e
  | Blocked => Blocked
  end.

(** ** The buffer against the reference *)
Section Simulation.
Context (mem : list Z) (E : Z).
Hypothesis (HE : 0 <= E < Z.of_nat (length mem)).

(** What is stored of the output [l]. *)
Definition stored (l : list Z) : list Z := take (Z.to_nat (E + 1)) l ++ drop (Nat.min (Z.to_nat (E + 1)) (length l)) mem.

Definition past (o : outbuf) : Prop := E < str o.

(** The list and the buffer agree until the buffer is full; then both only grow. *)
Definition R (l : list Z) (o : outbuf) : Prop :=
  end_ o = E /\ cells o = stored l /\ length (cells o) = length mem /\
  (str o = Z.of_nat (length l) \/ (past o /\ E < Z.of_nat (length l))).

(** From states with [P], two computations do the same, with results related by [Q]. *)
Definition rel {A} (P : outbuf -> Prop) (Q : A -> A -> outbuf -> Prop) (m1 : M (list Z) A) (m2 : M outbuf A) : Prop :=
  forall l o, R l o -> P o ->
  match m1 l, m2 o with
  | Ok (a1, l'), Ok (a2, o') => R l' o' /\ Q a1 a2 o' /\ str o <= str o'
  | Fault e1, Fault e2 => e1 = e2
  | Blocked, Blocked => True
  | _, _ => False
  end.

Definition always (o : outbuf) : Prop := True.
Definition same {A} (a1 a2 : A) (o : outbuf) : Prop := a1 = a2.
(** The same, unless the buffer is full. *)
Definition agree {A} (a1 a2 : A) (o : outbuf) : Prop := past o \/ a1 = a2.

Lemma rel_bind {A B} P (Q : A -> A -> outbuf -> Prop) (Q' : B -> B -> outbuf -> Prop) m1 m2 k1 k2 : rel P Q m1 m2 ->
  (forall a1 a2, rel (Q a1 a2) Q' (k1 a1) (k2 a2)) -> rel P Q' (m1 ≫= k1) (m2 ≫= k2).
Proof.
  intros Hm Hk l o HR HP. specialize (Hm l o HR HP). unfold mbind, M_bind.
  destruct (m1 l) as [[a1 l']| |], (m2 o) as [[a2 o']| |]; try done. destruct Hm as (HR' & HQ & Hg).
  specialize (Hk a1 a2 l' o' HR' HQ). destruct (k1 a1 l') as [[b1 l'']| |], (k2 a2 o') as [[b2 o'']| |]; try done.
  destruct Hk as (? & ? & ?). split_and!; [done|done|lia].
Qed.

Lemma rel_same {A B} P (Q' : B -> B -> outbuf -> Prop) (m1 : M (list Z) A) m2 k1 k2 : rel P same m1 m2 ->
  (forall a, rel always Q' (k1 a) (k2 a)) -> rel P Q' (m1 ≫= k1) (m2 ≫= k2).
Proof. intros Hm Hk. eapply rel_bind; [exact Hm|]. intros a1 a2 l o HR ->. by apply Hk. Qed.

Lemma rel_ret {A} P (Q : A -> A -> outbuf -> Prop) a1 a2 : (forall o, P o -> Q a1 a2 o) -> rel P Q (mret a1) (mret a2).
Proof. intros H l o HR HP. split_and!; [done|by apply H|done]. Qed.

Lemma rel_weaken {A} (P P' : outbuf -> Prop) (Q Q' : A -> A -> outbuf -> Prop) m1 m2 : rel P Q m1 m2 ->
  (forall o, P' o -> P o) -> (forall a1 a2 o, Q a1 a2 o -> Q' a1 a2 o) -> rel P' Q' m1 m2.
Proof.
  intros Hm HP HQ l o HR Ho. specialize (Hm l o HR (HP o Ho)).
  destruct (m1 l) as [[a1 l']| |], (m2 o) as [[a2 o']| |]; try done. destruct Hm as (? & ? & ?). split_and!; [done|by apply HQ|done].
Qed.

(** A computation keeps what is known of earlier results. *)
Lemma rel_keeps {A B} (b1 b2 : B) (m1 : M (list Z) A) m2 : rel always same m1 m2 -> rel (agree b1 b2) (fun _ _ => agree b1 b2) m1 m2.
Proof.
  intros Hm l o HR Ho. specialize (Hm l o HR I). destruct (m1 l) as [[a1 l']| |], (m2 o) as [[a2 o']| |]; try done.
  destruct Hm as (? & _ & ?). split_and!; [done| |done]. destruct Ho as [Hp|Ho]; [left; unfold past in *; lia|by right].
Qed.

Lemma rel_lift {A} P (a : outcome A) : rel P same (lift a) (lift a).
Proof. intros l o HR HP. unfold lift. destruct a; done. Qed.

(** *** Characters *)
Lemma stored_app l c : stored (l ++ [c]) =
  if decide (Z.of_nat (length l) <= E) then <[length l := c]> (stored l) else stored l.
Proof.
  unfold stored. rewrite length_app. cbn [length]. case_decide.
  - rewrite !take_ge by (rewrite ?length_app; cbn; lia). rewrite !Nat.min_r by lia.
    rewrite insert_app_r_alt by lia. rewrite Nat.sub_diag. rewrite <- app_assoc. f_equal.
    destruct (lookup_lt_is_Some_2 mem (length l)) as [x Hx]; [lia|]. rewrite (drop_S _ _ _ Hx). cbn. by rewrite Nat.add_1_r.
  - rewrite take_app_le by lia. by rewrite !Nat.min_l by lia.
Qed.

Lemma put_rel c : rel always agree (put_char c) (put_char c).
Proof.
  intros l o (He & Hc & Hlen & Hs) _. unfold put_char, list_sink, outbuf_sink, agree, past. rewrite He.
  destruct (Z.leb_spec (str o) E) as [Hle|Hgt].
  - destruct Hs as [Hs|[Hs _]]; [|unfold past in Hs; lia]. rewrite zset_ok by lia. cbn.
    split_and!; [|by right|lia]. repeat split; cbn.
    + rewrite stored_app, decide_True, Hc by lia. by rewrite Hs, Nat2Z.id.
    + by rewrite length_insert.
    + rewrite length_app. cbn. left. lia.
  - assert (E < Z.of_nat (length l)) by (destruct Hs as [Hs|[_ ?]]; lia).
    split_and!; [|left; cbn; lia|cbn; lia]. repeat split; cbn; [|done|].
    + rewrite stored_app, decide_False by lia. done.
    + right. unfold past. cbn. rewrite length_app. cbn. lia.
Qed.

Lemma emit_rel c : rel always same (emit c) (emit c).
Proof. unfold emit. eapply rel_bind; [apply put_rel|]. intros a1 a2. by apply rel_ret. Qed.

Lemma emits_rel n c : rel always same (emits n c) (emits n c).
Proof. induction n as [|n IH]; cbn; [by apply rel_ret|]. apply rel_same; [apply emit_rel|done]. Qed.

Lemma emit_all_rel l : rel always same (emit_all l) (emit_all l).
Proof. induction l as [|c l IH]; cbn; [by apply rel_ret|]. apply rel_same; [apply emit_rel|done]. Qed.

(** Once the buffer is full, paddings of different lengths are alike. *)
Lemma emits_past n1 n2 c : rel past (fun _ _ => past) (emits n1 c) (emits n2 c).
Proof.
  assert (forall n l o, R l o -> past o -> exists o', emits n c o = Ok (tt, o') /\ past o' /\ R l o' /\ str o <= str o') as H2.
  { induction n as [|n IH]; intros l o HR Ho; [by exists o|]. destruct HR as (He & Hc & Hlen & Hs). unfold past in Ho.
    destruct (IH l (MkOut (cells o) (str o + 1) (end_ o))) as (o' & Eo & Ho' & HR' & Hg); [|unfold past; cbn; lia|].
    - repeat split; [done..|]. right. unfold past. cbn. destruct Hs as [Hs|[_ ?]]; lia.
    - exists o'. cbn in Hg. split; [|split_and!; [done|done|lia]]. rewrite <- Eo. cbn [emits]. unfold emit, mbind, M_bind, put_char, outbuf_sink.
      by rewrite He, (proj2 (Z.leb_gt _ _)) by lia. }
  assert (forall n l o, R l o -> past o -> exists l', emits n c l = Ok (tt, l') /\ R l' o) as H1.
  { induction n as [|n IH]; intros l o HR Ho; [by exists l|]. cbn [emits]. unfold emit, put_char, list_sink, mbind, M_bind. cbn.
    apply IH; [|done]. destruct HR as (He & Hc & Hlen & Hs). unfold past in *.
    assert (E < Z.of_nat (length l)) by (destruct Hs as [Hs|[_ ?]]; lia). repeat split; [done| |done|].
    - by rewrite stored_app, decide_False by lia.
    - right. rewrite length_app. cbn. split; [done|lia]. }
  intros l o HR Ho. destruct (H2 n2 l o HR Ho) as (o' & -> & Ho' & HR' & Hg). destruct (H1 n1 l o' HR' Ho') as (l' & -> & HR''). done.
Qed.

Lemma pad_agree s1 s2 c : rel (agree s1 s2) agree (pad s1 c) (pad s2 c).
Proof.
  intros l o HR [Hp| ->].
  - unfold pad. pose proof (emits_past (Z.to_nat s1) (Z.to_nat s2) c l o HR Hp) as H. unfold mbind, M_bind.
    destruct (emits (Z.to_nat s1) c l) as [[[] l']| |], (emits (Z.to_nat s2) c o) as [[[] o']| |]; try done.
    cbn. destruct H as (? & ? & ?). split_and!; [done|by left|done].
  - revert l o HR. assert (rel always agree (pad s2 c) (pad s2 c)) as H; [|intros l o HR; by apply H].
    unfold pad. apply rel_same; [apply emits_rel|]. intros _. apply rel_ret. by right.
Qed.

(** *** Numbers and directives *)
Lemma agree_refl {A} (a : A) o : agree a a o.
Proof. by right. Qed.

Lemma print_digits_rel sign tmp s precision type : rel always same (print_digits sign tmp s precision type) (print_digits sign tmp s precision type).
Proof.
  unfold print_digits. cbv zeta. eapply (rel_bind _ agree).
  { destruct (flag _ _); [apply rel_ret; intros; apply agree_refl|]. eapply rel_weaken; [apply pad_agree| |done]. intros; apply agree_refl. }
  intros s1 s2. eapply (rel_bind _ agree).
  { destruct (sign =? 0); [by apply rel_ret|]. eapply (rel_bind _ (fun b1 b2 o => agree s1 s2 o /\ agree b1 b2 o)).
    - intros l o HR Ho. pose proof (put_rel sign l o HR I) as H. destruct (put_char sign l) as [[b1 l']| |] eqn:E1, (put_char sign o) as [[b2 o']| |] eqn:E2; try done.
      destruct H as (HR' & Hb & Hg). split_and!; [done| |done|done]. destruct Ho as [Hp|Hs]; [left; unfold past in *; lia|by right].
    - intros b1 b2. apply rel_ret. intros o [[Hp|<-] [Hp'|<-]]; try (by left); by right. }
  intros s3 s4. eapply (rel_bind _ agree); [destruct (flag _ _); [by apply rel_ret|apply pad_agree]|].
  intros s5 s6. eapply (rel_bind _ (fun _ _ => agree s5 s6)).
  { apply rel_keeps, emits_rel. }
  intros _ _. eapply (rel_bind _ (fun _ _ => agree s5 s6)).
  { apply rel_keeps. destruct (negb _); [apply emit_all_rel|by apply rel_ret]. }
  intros _ _. eapply rel_bind; [apply pad_agree|]. intros a1 a2. by apply rel_ret.
Qed.

Lemma print_number_rel num base s precision type : rel always same (print_number num base s precision type) (print_number num base s precision type).
Proof.
  unfold print_number. cbv zeta. destruct (signed _ _) as [sign n]. apply rel_same; [apply rel_lift|]. intros tmp. apply print_digits_rel.
Qed.

Lemma print_integer_rel base flags w p q args : rel always same (print_integer base flags w p q args) (print_integer base flags w p q args).
Proof.
  unfold print_integer. apply rel_same; [apply rel_lift|]. intros [v args']. apply rel_same; [apply print_number_rel|].
  intros _. by apply rel_ret.
Qed.

Lemma when_rel (b : bool) (m1 : M (list Z) unit) (m2 : M outbuf unit) : rel always same m1 m2 -> rel always same (when b do m1) (when b do m2).
Proof. intros H. destruct b; [done|by apply rel_ret]. Qed.

Lemma convert_rel flags w p q fmt args : rel always same (convert flags w p q fmt args) (convert flags w p q fmt args).
Proof.
  unfold convert. destruct fmt as [|c r]; [apply rel_same; [apply emit_rel|]; intros; by apply rel_ret|].
  repeat match goal with |- context [if ?b then _ else _] => destruct b end;
    try (apply rel_same; [apply print_integer_rel|]; intros; by apply rel_ret).
  - apply rel_same; [apply rel_lift|]. intros [v args']. apply rel_same; [|intros; by apply rel_ret].
    unfold print_char. apply rel_same; [apply when_rel, emits_rel|]. intros _. apply rel_same; [apply emit_rel|]. intros _. apply when_rel, emits_rel.
  - apply rel_same; [apply rel_lift|]. intros [v args']. apply rel_same; [|intros; by apply rel_ret].
    unfold print_string. cbv zeta. apply rel_same; [apply when_rel, emits_rel|]. intros _. apply rel_same; [apply emit_all_rel|]. intros _.
    apply when_rel, emits_rel.
  - apply rel_same; [apply rel_lift|]. intros [v args']. apply rel_same; [|intros; by apply rel_ret]. apply print_number_rel.
  - apply rel_same; [apply rel_lift|]. intros [v args']. apply rel_same; [|intros; by apply rel_ret]. apply print_number_rel.
  - apply rel_same; [apply emit_rel|]. intros; by apply rel_ret.
  - apply rel_same; [apply emit_rel|]. intros _. apply rel_same; [apply emit_rel|]. intros; by apply rel_ret.
Qed.

Lemma directive_rel fmt args : rel always same (directive fmt args) (directive fmt args).
Proof.
  unfold directive. destruct (parse_flags fmt 0) as [fmt1 flags]. apply rel_same; [apply rel_lift|]. intros [[[fmt2 w] flags2] args2].
  apply rel_same; [apply rel_lift|]. intros [[fmt3 p] args3]. destruct (parse_qualifier fmt3) as [fmt4 q]. apply convert_rel.
Qed.

Lemma format_loop_rel fuel fmt args : rel always same (format_loop fuel fmt args) (format_loop fuel fmt args).
Proof.
  revert fmt args. induction fuel as [|fuel IH]; intros [|c r] args; cbn [format_loop]; try by apply rel_ret.
  - done.
  - destruct (negb _); [apply rel_same; [apply emit_rel|]; intros; apply IH|].
    apply rel_same; [apply directive_rel|]. intros [r' args']. apply IH.
Qed.
End Simulation.

(** ** The format is read to its end *)

(** A computation does not block, and its result has [Q]. *)
Definition returns {A} (Q : A -> Prop) (m : M (list Z) A) : Prop := forall l,
  match m l with Ok (a, _) => Q a | Fault _ => True | Blocked => False end.

Lemma returns_bind {A B} (Q : A -> Prop) (Q' : B -> Prop) m k : returns Q m -> (forall a, Q a -> returns Q' (k a)) -> returns Q' (m ≫= k).
Proof. intros Hm Hk l. specialize (Hm l). unfold mbind, M_bind. destruct (m l) as [[a l']| |]; [by apply Hk|done..]. Qed.

Lemma returns_ret {A} (Q : A -> Prop) a : Q a -> returns Q (mret a).
Proof. by intros H l. Qed.

Lemma returns_lift {A} (Q : A -> Prop) (a : outcome A) : match a with Ok a => Q a | Fault _ => True | Blocked => False end -> returns Q (lift a).
Proof. intros H l. by destruct a. Qed.

Abbreviation any := (fun _ => True).

Lemma emit_returns c : returns any (emit c).
Proof. by intros l. Qed.

Lemma emits_returns n c : returns any (emits n c).
Proof. induction n as [|n IH]; [by intros l|]. cbn. eapply returns_bind; [apply emit_returns|by intros]. Qed.

Lemma emit_all_returns s : returns any (emit_all s).
Proof. induction s as [|c s IH]; [by intros l|]. cbn. eapply returns_bind; [apply emit_returns|by intros]. Qed.

Lemma pad_returns size c : returns any (pad size c).
Proof. eapply returns_bind; [apply emits_returns|]. intros _ _. by apply returns_ret. Qed.

Lemma when_returns (b : bool) m : returns any m -> returns any (when b do m).
Proof. intros H. destruct b; [done|by apply returns_ret]. Qed.

Lemma divide_loop_returns room digits num base : match divide_loop room digits num base with Blocked => False | _ => True end.
Proof.
  revert num. induction room as [|room IH]; intros num; cbn [divide_loop]; destruct (num =? 0); try done.
  destruct (divide num base) as [d n]. unfold zget. cbn. destruct (decide _); [|done]. destruct (digits !! _); [|done]. cbn.
  specialize (IH n). by destruct (divide_loop room digits n base).
Qed.

Lemma print_number_returns num base s p type : returns any (print_number num base s p type).
Proof.
  unfold print_number. cbv zeta. destruct (signed _ _) as [sign n]. eapply (returns_bind any).
  { apply returns_lift. destruct (n =? 0); [done|]. pose proof (divide_loop_returns 16 (if flag type LARGE then large_digits else small_digits) n base) as H.
    by destruct (divide_loop _ _ _ _). }
  intros tmp _. unfold print_digits. cbv zeta. eapply (returns_bind any); [destruct (flag _ _); [by apply returns_ret|apply pad_returns]|].
  intros s1 _. eapply (returns_bind any).
  { destruct (sign =? 0); [by apply returns_ret|]. eapply (returns_bind any); [by intros l|]. intros. by apply returns_ret. }
  intros s2 _. eapply (returns_bind any); [destruct (flag _ _); [by apply returns_ret|apply pad_returns]|].
  intros s3 _. eapply returns_bind; [apply emits_returns|]. intros _ _.
  eapply returns_bind; [apply when_returns, emit_all_returns|]. intros _ _. eapply returns_bind; [apply pad_returns|]. intros a _. by apply returns_ret.
Qed.

Lemma va_word_returns args : match va_word args with Blocked => False | _ => True end.
Proof. by destruct args as [|[]]. Qed.

Lemma skip_atoi_length s i : (length (skip_atoi s i).1 <= length s)%nat.
Proof.
  revert i. induction s as [|c s IH]; intros i; [done|]. cbn [skip_atoi]. destruct (isdigit c); [|done].
  pose proof (IH (s32 (i * 10 + c - 48))). cbn [length]. lia.
Qed.

Lemma parse_flags_length fmt flags : (length (parse_flags fmt flags).1 <= length fmt)%nat.
Proof.
  revert flags. induction fmt as [|c r IH]; intros flags; [done|]. cbn [parse_flags].
  repeat match goal with |- context [if ?b then _ else _] => destruct b; [etrans; [apply IH|cbn; lia]|] end. done.
Qed.

Lemma parse_width_length fmt flags args : match parse_width fmt flags args with
  | Ok (fmt', _, _, _) => (length fmt' <= length fmt)%nat | Fault _ => True | Blocked => False end.
Proof.
  unfold parse_width. destruct fmt as [|c r]; [done|]. destruct (isdigit c).
  - pose proof (skip_atoi_length (c :: r) 0). by destruct (skip_atoi (c :: r) 0).
  - destruct (c =? 42); [|done]. destruct args as [|[]]; cbn; try done. destruct (_ <? _); lia.
Qed.

Lemma parse_precision_length fmt args : match parse_precision fmt args with
  | Ok (fmt', _, _) => (length fmt' <= length fmt)%nat | Fault _ => True | Blocked => False end.
Proof.
  unfold parse_precision. destruct fmt as [|dot r]; [done|]. destruct (negb (dot =? 46)); [done|].
  pose proof (skip_atoi_length r 0) as H. destruct (skip_atoi r 0) as [r' p]. destruct r as [|c r1]; [cbn; lia|].
  cbn [length fst] in *. destruct (isdigit c); [lia|]. destruct (c =? 42); [|cbn; lia]. destruct args as [|[]]; cbn; try done. lia.
Qed.

Lemma parse_qualifier_length fmt : (length (parse_qualifier fmt).1 <= length fmt)%nat.
Proof. destruct fmt as [|c r]; [done|]. cbn. destruct (_ || _); cbn; lia. Qed.

Definition no_longer (fmt : list Z) (x : list Z * list arg) : Prop := (length x.1 <= length fmt)%nat.

Lemma print_integer_returns base flags w p q args : returns any (print_integer base flags w p q args).
Proof.
  unfold print_integer. eapply (returns_bind any); [apply returns_lift; by destruct args as [|[]]|]. intros [v args'] _.
  eapply returns_bind; [apply print_number_returns|]. intros. by apply returns_ret.
Qed.

Lemma convert_returns flags w p q fmt args : returns (no_longer fmt) (convert flags w p q fmt args).
Proof.
  unfold convert. destruct fmt as [|c r]; [eapply returns_bind; [apply emit_returns|]; intros; apply returns_ret; unfold no_longer; cbn; lia|].
  assert (forall a : list arg, no_longer (c :: r) (r, a)) as Hr by (intros; unfold no_longer; cbn; lia).
  assert (forall A (m : M (list Z) A) (k : A -> list arg), returns any m -> returns (no_longer (c :: r)) (a ← m; mret (r, k a))) as Hm.
  { intros A m k H. eapply returns_bind; [exact H|]. intros a _. by apply returns_ret. }
  repeat match goal with |- context [if ?b then _ else _] => destruct b end;
    try (apply (Hm _ _ (fun x => x)), print_integer_returns); try (apply (Hm _ _ (fun _ => args)), emit_returns).
  - eapply (returns_bind any); [apply returns_lift; by destruct args as [|[]]|]. intros [v args'] _. apply (Hm _ _ (fun _ => args')).
    unfold print_char. eapply returns_bind; [apply when_returns, emits_returns|]. intros _ _.
    eapply returns_bind; [apply emit_returns|]. intros _ _. apply when_returns, emits_returns.
  - eapply (returns_bind any); [apply returns_lift; by destruct args as [|[]]|]. intros [v args'] _. apply (Hm _ _ (fun _ => args')).
    unfold print_string. cbv zeta. eapply returns_bind; [apply when_returns, emits_returns|]. intros _ _.
    eapply returns_bind; [apply emit_all_returns|]. intros _ _. apply when_returns, emits_returns.
  - eapply (returns_bind any); [apply returns_lift; by destruct args as [|[]]|]. intros [v args'] _. apply (Hm _ _ (fun _ => args')), print_number_returns.
  - eapply (returns_bind any); [apply returns_lift; by destruct args as [|[]]|]. intros [v args'] _. apply (Hm _ _ (fun _ => args')), print_number_returns.
  - eapply returns_bind; [apply emit_returns|]. intros _ _. apply (Hm _ _ (fun _ => args)), emit_returns.
Qed.

Lemma directive_returns fmt args : returns (no_longer fmt) (directive fmt args).
Proof.
  unfold directive. pose proof (parse_flags_length fmt 0) as H1. destruct (parse_flags fmt 0) as [fmt1 flags]. cbn in H1.
  pose proof (parse_width_length fmt1 flags args) as H2.
  eapply (returns_bind (fun x => (length x.1.1.1 <= length fmt)%nat)).
  { apply returns_lift. destruct (parse_width fmt1 flags args) as [[[[fmt2 w] fl] a]| |]; [cbn; lia|done..]. }
  intros [[[fmt2 w] flags2] args2] H3. cbn in H3. pose proof (parse_precision_length fmt2 args2) as H4.
  eapply (returns_bind (fun x => (length x.1.1 <= length fmt)%nat)).
  { apply returns_lift. destruct (parse_precision fmt2 args2) as [[[fmt3 p] a]| |]; [cbn; lia|done..]. }
  intros [[fmt3 p] args3] H5. cbn in H5. pose proof (parse_qualifier_length fmt3) as H6. destruct (parse_qualifier fmt3) as [fmt4 q]. cbn in H6.
  intros l. pose proof (convert_returns flags2 w p q fmt4 args3 l) as H7.
  destruct (convert flags2 w p q fmt4 args3 l) as [[x l']| |]; [|done..]. unfold no_longer in *. lia.
Qed.

Lemma format_loop_returns fuel fmt args : (length fmt <= fuel)%nat -> returns any (format_loop fuel fmt args).
Proof.
  revert fmt args. induction fuel as [|fuel IH]; intros [|c r] args Hf; cbn [format_loop length] in *; try by apply returns_ret.
  - lia.
  - destruct (negb _); [eapply returns_bind; [apply emit_returns|]; intros; apply IH; lia|].
    eapply returns_bind; [apply directive_returns|]. intros [r' args'] H. apply IH. unfold no_longer in H. cbn in H. lia.
Qed.

(** ** Numbers that can be read back *)
Definition digit_value (c : Z) : Z := if c <? 58 then c - 48 else c - 87.
Definition read_number (base : Z) (text : list Z) : Z := fold_left (fun v c => v * base + digit_value c) text 0.
Definition read_decimal (text : list Z) : Z :=
  match text with
  | c :: r => if c =? 45 then - read_number 10 r else read_number 10 text
  | [] => 0
  end.

Lemma read_number_app base a c : read_number base (a ++ [c]) = read_number base a * base + digit_value c.
Proof. unfold read_number. by rewrite fold_left_app. Qed.

Lemma small_digit d : 0 <= d < 16 -> exists c, zget small_digits d = Ok c /\ digit_value c = d /\ 48 <= c.
Proof.
  intros Hd. assert (forallb (fun d => match zget small_digits d with Ok c => (digit_value c =? d) && (48 <=? c) | _ => false end) (map Z.of_nat (seq 0 16)) = true) as H by reflexivity.
  rewrite forallb_forall in H. specialize (H d). destruct (zget small_digits d) as [c| |].
  2, 3: by (discriminate H; apply in_map_iff; exists (Z.to_nat d); split; [lia|apply in_seq; lia]).
  exists c. assert ((digit_value c =? d) && (48 <=? c) = true) as Hc.
  { apply H, in_map_iff. exists (Z.to_nat d). split; [lia|apply in_seq; lia]. }
  apply andb_true_iff in Hc as [?%Z.eqb_eq ?%Z.leb_le]. done.
Qed.

Lemma u32_s32 n : u32 (s32 n) = u32 n.
Proof.
  unfold uint, sint. change (32 - 1) with 31. pose proof (Z.div_mod (n + 2 ^ 31) (2 ^ 32) ltac:(done)).
  replace ((n + 2 ^ 31) mod 2 ^ 32 - 2 ^ 31) with (n + - ((n + 2 ^ 31) / 2 ^ 32) * 2 ^ 32) by lia. apply Z_mod_plus_full.
Qed.

Lemma s32_zero n : s32 n = 0 <-> u32 n = 0.
Proof.
  rewrite <- u32_s32. unfold uint, sint. change (32 - 1) with 31. pose proof (Z.mod_pos_bound (n + 2 ^ 31) (2 ^ 32) ltac:(done)).
  set (x := (n + 2 ^ 31) mod 2 ^ 32) in *. split; [intros ->; done|]. intros Hx.
  destruct (decide (x < 2 ^ 31)); [|rewrite Z.mod_small in Hx; lia].
  rewrite <- (Z_mod_plus_full _ 1), Z.mod_small in Hx; lia.
Qed.

Definition print_base (base : Z) : Prop := base = 10 \/ base = 16.

(** The digits in [tmp], the last first, read back from the front. *)
Lemma divide_loop_value base room n : print_base base -> n = s32 n -> u32 n < base ^ Z.of_nat room ->
  exists tmp, divide_loop room small_digits n base = Ok tmp /\ read_number base (rev tmp) = u32 n /\ Forall (fun c => 48 <= c) tmp /\
    (n <> 0 -> tmp <> []).
Proof.
  intros Hb. revert n. induction room as [|room IH]; intros n Hn Hlt; cbn [divide_loop].
  - pose proof (uint_range 32 n ltac:(done)). assert (u32 n = 0) as Hz by (cbn in Hlt; lia).
    assert (n = 0) as -> by (rewrite Hn; by apply s32_zero). exists []. split_and!; [done|done|constructor|done].
  - destruct (Z.eqb_spec n 0) as [->|Hne]; [exists []; split_and!; [done|done|constructor|done]|].
    assert (divide n base = (u32 n mod base, s32 (u32 n / base))) as -> by (destruct Hb as [->| ->]; reflexivity).
    pose proof (uint_range 32 n ltac:(done)) as Hr. assert (2 <= base <= 16) as Hb2 by (destruct Hb; lia).
    pose proof (Z.mod_pos_bound (u32 n) base ltac:(lia)) as Hm. pose proof (Z.div_mod (u32 n) base ltac:(lia)) as Hdm.
    assert (0 <= u32 n / base < 2 ^ 31) as Hq.
    { split; [apply Z.div_pos; lia|]. apply Z.div_lt_upper_bound; [lia|]. change (2 ^ 32) with (2 * 2 ^ 31) in Hr. nia. }
    assert (s32 (u32 n / base) = u32 n / base) as -> by (unfold sint; change (32 - 1) with 31; rewrite Z.mod_small; lia).
    destruct (small_digit (u32 n mod base)) as (c & -> & Hc & Hc48); [lia|].
    destruct (IH (u32 n / base)) as (tmp & -> & Hv & Hf & _).
    { unfold sint. change (32 - 1) with 31. rewrite Z.mod_small; lia. }
    { rewrite u32_small by lia. rewrite Nat2Z.inj_succ, Z.pow_succ_r in Hlt by lia. apply Z.div_lt_upper_bound; lia. }
    exists (c :: tmp). cbn [mbind outcome_bind]. split_and!; [done| |by constructor|done].
    cbn [rev]. rewrite read_number_app, Hv, Hc, u32_small by lia. lia.
Qed.

Lemma emits_none n c (l : list Z) : n <= 0 -> emits (Z.to_nat n) c l = Ok (tt, l).
Proof. intros H. by replace (Z.to_nat n) with O by lia. Qed.

Lemma emit_all_list s l : emit_all s l = Ok (tt, l ++ s).
Proof.
  revert l. induction s as [|c s IH]; intros l; cbn [emit_all]; [by rewrite app_nil_r|].
  unfold emit, mbind, M_bind, put_char, list_sink. cbn. rewrite IH. by rewrite <- app_assoc.
Qed.

(** A number without width, precision and flags. *)
Lemma print_digits_plain sign tmp type l : flag type (Z.lor ZEROPAD LEFT) = false -> flag type LEFT = false ->
  print_digits sign tmp (-1) (-1) type l = Ok (tt, l ++ (if sign =? 0 then [] else [sign]) ++ rev tmp).
Proof.
  intros H1 H2. unfold print_digits. cbv zeta. rewrite H1, H2. rewrite (proj2 (Z.ltb_lt (-1) _)) by lia.
  set (i := Z.of_nat (length tmp)). rewrite (proj2 (Z.ltb_ge 0 (-1 - i))) by lia. rewrite andb_false_r. unfold pad.
  assert (forall x c (l : list Z), x <= -1 -> (emits (Z.to_nat x) c;; mret (if 0 <? x then -1 else x - 1)) l = Ok (x - 1, l)) as Hpad.
  { intros x c l0 Hx. unfold mbind, M_bind. rewrite emits_none by lia. by rewrite (proj2 (Z.ltb_ge 0 x)) by lia. }
  erewrite run_bind_ok by (apply Hpad; lia). cbv beta. change (negb (-1 =? 0)) with true. cbv iota.
  destruct (sign =? 0).
  - rewrite run_bind_ret. erewrite run_bind_ok by (apply Hpad; lia). cbv beta.
    erewrite run_bind_ok by (apply emits_none; lia). erewrite run_bind_ok by apply emit_all_list.
    by erewrite run_bind_ok by (apply Hpad; lia).
  - rewrite run_bind_bind. erewrite run_bind_ok by reflexivity. rewrite run_bind_ret. erewrite run_bind_ok by (apply Hpad; lia). cbv beta.
    erewrite run_bind_ok by (apply emits_none; lia). erewrite run_bind_ok by apply emit_all_list.
    erewrite run_bind_ok by (apply Hpad; lia). by rewrite <- app_assoc.
Qed.

(** What an integer conversion without width, precision and flags prints. *)
Lemma print_number_plain base num type : print_base base -> num = s32 num -> flag type (Z.lor ZEROPAD LEFT) = false -> flag type LEFT = false ->
  flag type LARGE = false -> flag type PLUS = false -> flag type SPACE = false ->
  exists text, print_number num base (-1) (-1) type [] =
    Ok (tt, (if flag type SIGN && (num <? 0) then [45] else []) ++ text) /\
    read_number base text = (if flag type SIGN then Z.abs num else u32 num) /\ (exists c r, text = c :: r /\ 48 <= c).
Proof.
  intros Hb Hn H1 H2 H3 H4 H5. pose proof (uint_range 32 num ltac:(done)) as Hr.
  assert (- 2 ^ 31 <= num < 2 ^ 31) as Hrange.
  { rewrite Hn. unfold sint. change (32 - 1) with 31. pose proof (Z.mod_pos_bound (num + 2 ^ 31) (2 ^ 32) ltac:(done)). lia. }
  unfold print_number. rewrite H2, H3. unfold signed. rewrite H4, H5.
  set (neg := flag type SIGN && (num <? 0)). set (n := if neg then s32 (- num) else num).
  assert ((if flag type SIGN then if num <? 0 then (45, s32 (- num)) else (0, num) else (0, num)) = (if neg then 45 else 0, n)) as ->.
  { unfold n, neg. destruct (flag type SIGN), (num <? 0); done. }
  assert (n = s32 n) as Hns.
  { unfold n. destruct neg; [|done]. unfold sint at 1 3. change (32 - 1) with 31.
    pose proof (Z.mod_pos_bound (- num + 2 ^ 31) (2 ^ 32) ltac:(done)). unfold sint. change (32 - 1) with 31. f_equal.
    set (x := (- num + 2 ^ 31) mod 2 ^ 32) in *. replace (x - 2 ^ 31 + 2 ^ 31) with x by lia. by rewrite Z.mod_small. }
  assert (u32 n = if flag type SIGN then Z.abs num else u32 num) as Hu.
  { unfold n, neg. destruct (flag type SIGN); [|done]. destruct (Z.ltb_spec num 0); cbn [andb].
    - rewrite u32_s32, u32_small by lia. lia.
    - rewrite u32_small by lia. lia. }
  destruct (divide_loop_value base 16 n Hb Hns) as (tmp & Hd & Hv & Hf & Hnil).
  { pose proof (uint_range 32 n ltac:(done)). assert (2 ^ 32 <= base ^ Z.of_nat 16); [|lia]. destruct Hb as [->| ->]; vm_compute; discriminate. }
  set (tmp' := if n =? 0 then [48] else tmp).
  assert ((if n =? 0 then Ok [48] else divide_loop 16 small_digits n base) = Ok tmp') as ->.
  { unfold tmp'. by destruct (n =? 0). }
  exists (rev tmp'). rewrite run_bind_lift, print_digits_plain by done. split_and!.
  - cbn [app]. by destruct neg.
  - rewrite <- Hu. unfold tmp'. destruct (Z.eqb_spec n 0) as [->|]; [by destruct Hb as [->| ->]|exact Hv].
  - assert (tmp' <> [] /\ Forall (fun c => 48 <= c) tmp') as [Hne Hall].
    { unfold tmp'. destruct (Z.eqb_spec n 0); [by repeat constructor|]. split; [by apply Hnil|done]. }
    apply Forall_rev in Hall. destruct (rev tmp') as [|c r] eqn:E; [|exists c, r; split; [done|by apply Forall_inv in Hall]].
    apply (f_equal (@length Z)) in E. rewrite length_rev in E. by destruct tmp'.
Qed.

(** One integer conversion. *)
Lemma output_integer base flags (c : Z) w : 0 <= c ->
  (c, base, flags) ∈ [(100, 10, SIGN); (117, 10, 0); (120, 16, 0)] ->
  output [37; c] [AWord w] = match print_number (s32 (u32 w)) base (-1) (-1) flags [] with
    | Ok (_, l) => Ok l | Fault e => Fault e | Blocked => Blocked end.
Proof.
  intros _ H. unfold output. cbn [format_loop length]. change (37 =? 37) with true. cbn [negb].
  assert (directive [c] [AWord w] [] = (args ← print_integer base flags (-1) (-1) 0 [AWord w]; mret ([], args)) []) as E.
  { rewrite !elem_of_cons in H. by destruct H as [[= -> -> ->]|[[= -> -> ->]|[[= -> -> ->]|H%not_elem_of_nil]]]. }
  unfold mbind at 1, M_bind at 1. rewrite E. unfold print_integer. cbn [va_word]. rewrite run_bind_bind, run_bind_lift.
  change (integer_arg 0 flags w) with (s32 (u32 w)). rewrite run_bind_bind. unfold mbind, M_bind.
  by destruct (print_number _ _ _ _ _ _) as [[[] ?]| |].
Qed.

Lemma divide_loop_octal room digits num : divide_loop room digits num 8 = divide_loop room digits num 16.
Proof.
  revert num. induction room as [|room IH]; intros num; cbn [divide_loop]; [done|]. destruct (num =? 0); [done|].
  change (divide num 8) with (divide num 16). destruct (divide num 16) as [d n]. by rewrite IH.
Qed.

Lemma print_integer_octal flags w p q args (l : list Z) : print_integer 8 flags w p q args l = print_integer 16 flags w p q args l.
Proof.
  unfold print_integer, mbind, M_bind, lift. destruct (va_word args) as [[v args']| |]; [|done..].
  unfold print_number. destruct (signed _ _) as [sign n]. by rewrite divide_loop_octal.
Qed.

Lemma output_octal w : output [37; 111] [AWord w] = output [37; 120] [AWord w].
Proof.
  assert (forall l : list Z, directive [111] [AWord w] l = directive [120] [AWord w] l) as H.
  { intros l. change (directive [111] [AWord w] l) with ((args ← print_integer 8 0 (-1) (-1) 0 [AWord w]; mret (@nil Z, args)) l).
    change (directive [120] [AWord w] l) with ((args ← print_integer 16 0 (-1) (-1) 0 [AWord w]; mret (@nil Z, args)) l).
    unfold mbind, M_bind. by rewrite print_integer_octal. }
  unfold output. cbn [format_loop length]. change (37 =? 37) with true. cbn [negb]. unfold mbind at 1 3, M_bind at 1 3. by rewrite H.
Qed.

Lemma plain_flags flags : flags ∈ [SIGN; 0] -> flag flags (Z.lor ZEROPAD LEFT) = false /\ flag flags LEFT = false /\
  flag flags LARGE = false /\ flag flags PLUS = false /\ flag flags SPACE = false.
Proof. rewrite !elem_of_cons. by intros [->|[->|H%not_elem_of_nil]]. Qed.

Lemma output_reads base flags (c : Z) w : 0 <= c -> (c, base, flags) ∈ [(100, 10, SIGN); (117, 10, 0); (120, 16, 0)] ->
  exists text, output [37; c] [AWord w] = Ok ((if flag flags SIGN && (s32 w <? 0) then [45] else []) ++ text) /\
    read_number base text = (if flag flags SIGN then Z.abs (s32 w) else u32 w) /\ (exists d r, text = d :: r /\ 48 <= d).
Proof.
  intros Hc H. rewrite (output_integer base flags c w Hc H).
  assert (print_base base /\ flags ∈ [SIGN; 0]) as [Hb Hf].
  { rewrite !elem_of_cons in H. rewrite !elem_of_cons. destruct H as [[= _ -> ->]|[[= _ -> ->]|[[= _ -> ->]|H%not_elem_of_nil]]]; [| | |done]; (split; [by left + by right|tauto]). }
  destruct (plain_flags flags Hf) as (H1 & H2 & H3 & H4 & H5).
  assert (s32 (u32 w) = s32 w) as E.
  { unfold uint. symmetry. pose proof (Z.div_mod w (2 ^ 32) ltac:(done)) as Hd. unfold sint. f_equal.
    rewrite Hd at 1. replace (2 ^ 32 * (w / 2 ^ 32) + w mod 2 ^ 32 + 2 ^ (32 - 1)) with (w mod 2 ^ 32 + 2 ^ (32 - 1) + (w / 2 ^ 32) * 2 ^ 32) by lia.
    apply Z_mod_plus_full. }
  destruct (print_number_plain base (s32 (u32 w)) flags Hb) as (text & Hp & Hv & Hh); [|done..|].
  { rewrite E. unfold sint. f_equal. replace ((w + 2 ^ (32 - 1)) mod 2 ^ 32 - 2 ^ (32 - 1) + 2 ^ (32 - 1)) with ((w + 2 ^ (32 - 1)) mod 2 ^ 32) by lia. by rewrite Zmod_mod. }
  exists text. rewrite Hp, <- E. split; [done|]. split; [|done]. rewrite Hv. destruct (flag flags SIGN); [done|]. by rewrite E, u32_s32.
Qed.

(** ** The whole call *)
Lemma buffer_end_ok addr size : 0 <= addr -> 1 <= size -> addr + size <= 2 ^ 32 -> buffer_end addr size = size - 1.
Proof.
  intros Ha Hs He. unfold buffer_end. rewrite u32_small by lia. rewrite (proj2 (Z.ltb_ge _ _)) by lia. lia.
Qed.

Lemma vsnprintf_output addr size fmt args mem : 0 <= addr -> 1 <= size <= Z.of_nat (length mem) -> addr + size <= 2 ^ 32 ->
  match output fmt args with
  | Ok l => exists n mem', rt_vsnprintf addr size fmt args mem = Ok (n, mem') /\
      if Z.of_nat (length l) <? size then n = Z.of_nat (length l) /\ mem' = l ++ [0] ++ drop (length l + 1) mem
      else size <= n /\ mem' = take (Z.to_nat (size - 1)) l ++ [0] ++ drop (Z.to_nat size) mem
  | Fault e => rt_vsnprintf addr size fmt args mem = Fault e
  | Blocked => False
  end.
Proof.
  intros Ha Hs He. unfold rt_vsnprintf, output. rewrite buffer_end_ok by lia.
  pose proof (format_loop_returns (length fmt) fmt args ltac:(lia) []) as Hnb.
  assert (R mem (size - 1) [] (MkOut mem 0 (size - 1))) as H0.
  { repeat split; [|by left]. unfold stored. by rewrite take_nil, Nat.min_0_r. }
  pose proof (format_loop_rel mem (size - 1) ltac:(lia) (length fmt) fmt args [] _ H0 I) as Hrel.
  destruct (format_loop (length fmt) fmt args []) as [[[] l]| |], (format_loop (length fmt) fmt args (MkOut mem 0 (size - 1))) as [[[] o]| |];
    try done; [|by subst].
  destruct Hrel as ((Hend & Hc & Hlen & Hstr) & _ & Hg). cbn in Hg. rewrite Hend.
  destruct (Z.ltb_spec (Z.of_nat (length l)) size) as [Hl|Hl].
  - destruct Hstr as [Hstr|[_ ?]]; [|lia]. rewrite (proj2 (Z.leb_le _ _)) by lia. rewrite zset_ok by lia.
    eexists _, _. split; [done|]. split; [done|]. rewrite Hc, Hstr, Nat2Z.id. unfold stored.
    rewrite take_ge, Nat.min_r by lia. rewrite insert_app_r_alt, Nat.sub_diag by lia.
    destruct (lookup_lt_is_Some_2 mem (length l)) as [x Hx]; [lia|]. rewrite (drop_S _ _ _ Hx). cbn. by rewrite Nat.add_1_r.
  - assert (size - 1 < str o) as Hp by (unfold past in Hstr; destruct Hstr as [?|[? _]]; lia).
    rewrite (proj2 (Z.leb_gt _ _)) by lia. rewrite zset_ok by lia. eexists _, _. split; [done|]. split; [lia|].
    rewrite Hc. unfold stored. rewrite Nat.min_l by lia. replace (Z.to_nat (size - 1 + 1)) with (S (Z.to_nat (size - 1))) by lia.
    destruct (lookup_lt_is_Some_2 l (Z.to_nat (size - 1))) as [x Hx]; [lia|]. rewrite (take_S_r _ _ _ Hx).
    rewrite insert_app_l by (rewrite length_app, length_take; cbn; lia).
    rewrite insert_app_r_alt by (rewrite length_take; lia). rewrite length_take, Nat.min_l, Nat.sub_diag by lia. cbn.
    rewrite <- app_assoc. cbn. do 3 f_equal. lia.
Qed.

(** ** What the printing functions guarantee *)



(** what rt_kprintf hands to the console: an output of at most 126 characters
    goes out as it is; of a longer one the first 126, and behind them the NUL that ends
    the buffer. *)
Theorem rt_kprintf_console addr fmt args buf l : 0 <= addr -> addr + RT_CONSOLEBUF_SIZE <= 2 ^ 32 ->
  Z.of_nat (length buf) = RT_CONSOLEBUF_SIZE -> output fmt args = Ok l ->
  forall n buf', rt_vsnprintf addr (RT_CONSOLEBUF_SIZE - 1) fmt args buf = Ok (n, buf') -> n < 2 ^ 32 ->
  rt_kprintf addr fmt args buf = Ok (if Z.of_nat (length l) <=? 126 then l else take 126 l ++ [0], buf').
Proof.
  intros Ha He Hb Hl n buf' E Hn. unfold RT_CONSOLEBUF_SIZE in *.
  pose proof (vsnprintf_output addr (128 - 1) fmt args buf Ha ltac:(lia) ltac:(lia)) as H. rewrite Hl in H.
  destruct H as (n' & mem' & E' & Hcase). rewrite E in E'. injection E' as <- <-.
  unfold rt_kprintf. erewrite run_bind_ok by exact E. rewrite run_bind_gets. unfold id.
  destruct (Z.ltb_spec (Z.of_nat (length l)) (128 - 1)) as [Hlt|Hge]; destruct Hcase as [H1 ->].
  - rewrite (proj2 (Z.leb_le _ 126)) by lia. rewrite H1, u32_small by lia. rewrite (proj2 (Z.ltb_ge _ _)) by (unfold RT_CONSOLEBUF_SIZE; lia).
    by rewrite Nat2Z.id, take_app_length.
  - rewrite (proj2 (Z.leb_gt _ 126)) by lia. rewrite u32_small by lia.
    assert ((if RT_CONSOLEBUF_SIZE - 1 <? n then RT_CONSOLEBUF_SIZE - 1 else n) = 127) as ->.
    { unfold RT_CONSOLEBUF_SIZE. destruct (Z.ltb_spec (128 - 1) n); lia. }
    change (Z.to_nat 127) with 127%nat. change (Z.to_nat (128 - 1 - 1)) with 126%nat. rewrite app_assoc, take_app_length'; [done|].
    rewrite length_app, length_take_le by lia. done.
Qed.

Lemma rt_kprintf_console_witness : exists buf', rt_kprintf 0x20000000 (chars "%130d") [AWord 5] (replicate 128 0) = Ok (replicate 126 32 ++ [0], buf').
Proof.
  eexists. assert (output (chars "%130d") [AWord 5] = Ok (replicate 129 32 ++ [53])) as Ho by (vm_compute; reflexivity).
  apply (rt_kprintf_console 0x20000000 (chars "%130d") [AWord 5] (replicate 128 0) (replicate 129 32 ++ [53])) with (n := 130);
    [lia|unfold RT_CONSOLEBUF_SIZE; lia|reflexivity|exact Ho|vm_compute; reflexivity|lia].
Defined.

(** C19: for every 32-bit word, the text of %d reads back as its signed value, that of %u
    as its unsigned value in decimal and that of %x in hexadecimal.  %o, which should
    print octal digits, prints the hexadecimal ones of %x. *)
Theorem integer_conversions_read_back w :
  (exists text, output (chars "%d") [AWord w] = Ok text /\ read_decimal text = s32 w) /\
  (exists text, output (chars "%u") [AWord w] = Ok text /\ read_number 10 text = u32 w) /\
  (exists text, output (chars "%x") [AWord w] = Ok text /\ read_number 16 text = u32 w) /\
  output (chars "%o") [AWord w] = output (chars "%x") [AWord w].
Proof.
  change (chars "%d") with [37; 100]. change (chars "%u") with [37; 117]. change (chars "%x") with [37; 120]. change (chars "%o") with [37; 111].
  split; [|split; [|split; [|apply output_octal]]].
  - destruct (output_reads 10 SIGN 100 w) as (text & -> & Hv & d & r & -> & Hd); [lia|apply elem_of_cons; by left|].
    eexists. split; [done|]. change (flag SIGN SIGN) with true in *. cbn [andb] in *. destruct (Z.ltb_spec (s32 w) 0).
    + cbn [app read_decimal]. change (45 =? 45) with true. rewrite Hv. lia.
    + cbn [app read_decimal]. rewrite (proj2 (Z.eqb_neq d 45)) by lia. rewrite Hv. lia.
  - destruct (output_reads 10 0 117 w) as (text & -> & Hv & _); [lia|rewrite !elem_of_cons; tauto|]. by eexists.
  - destruct (output_reads 16 0 120 w) as (text & -> & Hv & _); [lia|rewrite !elem_of_cons; tauto|]. by eexists.
Qed.
