(* ===== verification/Object.v ===== *)
(** * Kernel objects (src/Kernel/object.c)

    The container of each object class is the list of its objects, the newest first;
    an object is named by its address.  [rt_object_find] holds the scheduler lock, so
    it is one step.  The names are fields of RT_NAME_MAX bytes that [rt_strncpy] fills
    and [rt_strncmp] compares (KString.v), each time on a memory that holds the field
    and behind it the caller's string.  An object that is in a container already must
    not be initialised again: the code would tear the list, the model says fault. *)
From Stdlib Require Import String.
From stdpp Require Import gmap.
From S2P Require Import Prelude CString KString.

Definition RT_NAME_MAX : Z := 8.

(** The classes with a container in this configuration; 11 is RT_Object_Class_Module. *)
Definition RT_Object_Class_Null : Z := 0.
Definition RT_Object_Class_Thread : Z := 1.
Definition RT_Object_Class_Device : Z := 9.
Definition RT_Object_Class_Timer : Z := 10.
Definition RT_Object_Class_Unknown : Z := 12.
Definition RT_Object_Class_Static : Z := 0x80.

Record rt_object := MkObj { name : list Z; type : Z }.
#[export] Instance rt_object_eta : Eta rt_object := fun o => MkObj (name o) (type o).

Record objects := MkObjects {
  object_at : gmap Z rt_object;
  rt_object_container : gmap Z (list Z)
}.
#[export] Instance objects_eta : Eta objects := fun s => MkObjects (object_at s) (rt_object_container s).

Definition object_container_init : gmap Z (list Z) :=
  list_to_map ((fun i => (Z.of_nat i, [])) <$> seq 1 10).

Definition no_kernel_objects : objects := MkObjects ∅ object_container_init.

Definition rt_object_get_information (class : Z) (s : objects) : option (list Z) := rt_object_container s !! class.

(** [rt_strncpy(object->name, name, RT_NAME_MAX)] on a field of zeros. *)
Definition copy_name (n : list Z) : outcome (list Z) :=
  mem ← rt_strncpy (replicate 8 0 ++ nul n) 0 8 RT_NAME_MAX;
  Ok (take 8 mem).

(** [rt_strncmp(object->name, name, RT_NAME_MAX) == 0]. *)
Definition same_name (field n : list Z) : outcome bool :=
  r ← rt_strncmp (field ++ nul n) 0 8 RT_NAME_MAX;
  Ok (r =? 0).

Definition the_object (a : Z) : M objects rt_object :=
  s ← gets id;
  match object_at s !! a with Some o => mret o | None => lift (Fault FOutOfBounds) end.

Definition put_object (a : Z) (o : rt_object) : M objects unit :=
  s ← gets id; object_at ::= <[a := o]> (object_at s).

Definition linked (a : Z) (s : objects) : bool :=
  existsb (fun '(_, l) => existsb (Z.eqb a) l) (map_to_list (rt_object_container s)).

(** [rt_list_insert_after(&(information->object_list), &(object->list))]. *)
Definition link (a class : Z) : M objects unit :=
  s ← gets id;
  match rt_object_get_information class s with
  | Some l =>
      if linked a s then lift (Fault FOutOfBounds)
      else rt_object_container ::= <[class := a :: l]> (rt_object_container s)
  | None => lift (Fault FOutOfBounds)
  end.

(** [rt_list_remove(&(object->list))]. *)
Definition unlink (a : Z) : M objects unit :=
  s ← gets id;
  rt_object_container ::= (filter (fun x => x <> a) <$> rt_object_container s).

Definition rt_object_init (a class : Z) (n : list Z) : M objects unit :=
  information ← gets (rt_object_get_information class);
  RT_ASSERT (bool_decide (is_Some information));;
  field ← lift (copy_name n);
  put_object a (MkObj field (Z.lor class RT_Object_Class_Static));;
  link a class.

Definition rt_object_detach (a : Z) : M objects unit :=
  o ← the_object a;
  put_object a (o <| type := RT_Object_Class_Null |>);;
  unlink a.

(** [alloc]: the address that RT_KERNEL_MALLOC returns. *)
Definition rt_object_allocate (alloc : option Z) (class : Z) (n : list Z) : M objects (option Z) :=
  information ← gets (rt_object_get_information class);
  RT_ASSERT (bool_decide (is_Some information));;
  match alloc with
  | None => mret None
  | Some a =>
      field ← lift (copy_name n);
      put_object a (MkObj field class);;
      link a class;;
      mret (Some a)
  end.

Definition rt_object_is_systemobject (a : Z) : M objects bool :=
  o ← the_object a;
  mret (negb (Z.land (type o) RT_Object_Class_Static =? 0)).

Definition rt_object_get_type (a : Z) : M objects Z :=
  o ← the_object a;
  mret (Z.land (type o) (Z.lnot RT_Object_Class_Static)).

Definition rt_object_delete (a : Z) : M objects unit :=
  static ← rt_object_is_systemobject a;
  RT_ASSERT (negb static);;
  o ← the_object a;
  put_object a (o <| type := RT_Object_Class_Null |>);;
  unlink a;;
  s ← gets id;
  object_at ::= delete a (object_at s).

(** The loop over a container. *)
Fixpoint find_name (n : list Z) (l : list Z) : M objects (option Z) :=
  match l with
  | [] => mret None
  | a :: l =>
      o ← the_object a;
      same ← lift (same_name (name o) n);
      if (same : bool) then mret (Some a) else find_name n l
  end.

Definition rt_object_find (n : option (list Z)) (class : Z) : M objects (option Z) :=
  match n with
  | None => mret None
  | Some n =>
      if RT_Object_Class_Unknown <? class then mret None else
      information ← gets (rt_object_get_information class);
      RT_ASSERT (bool_decide (is_Some information));;
      find_name n (default [] information)
  end.

(** ** Names *)
Definition name_ok (n : list Z) : Prop := is_chars n /\ is_bytes n.

Lemma copy_name_ok n : is_chars n -> copy_name n = Ok (padded_copy n 8).
Proof.
  intros Hn. unfold copy_name. rewrite (rt_strncpy_ok _ 0 8 n); [|unfold RT_NAME_MAX; lia|lia| | |].
  - rewrite memcpy_ok by (unfold RT_NAME_MAX; rewrite ?length_app, ?length_replicate, ?padded_copy_length; lia).
    cbn [mbind outcome_bind]. rewrite drop_0, take_0. cbn [app]. f_equal. change (Z.to_nat RT_NAME_MAX) with 8%nat.
    rewrite (take_ge (padded_copy n 8)) by (rewrite padded_copy_length; done).
    by rewrite take_app_length' by (by rewrite padded_copy_length).
  - unfold nul, RT_NAME_MAX. rewrite !length_app, length_replicate. lia.
  - unfold c_string. rewrite decide_True by lia. change (Z.to_nat 8) with (length (replicate 8 0)).
    rewrite drop_app_length, <- (app_nil_r (nul n)). by apply string_of_nul.
  - unfold RT_NAME_MAX. lia.
Qed.

Lemma padded_copy_bytes n k : is_bytes n -> is_bytes (padded_copy n k).
Proof. intros Hn. apply Forall_take, Forall_app. split; [done|]. apply Forall_replicate. unfold is_byte. lia. Qed.

(** The string that starts at the field: the name, or all of the field and the string behind it. *)
Lemma padded_copy_string n m k : is_chars n -> is_chars m ->
  exists s, string_of (padded_copy n k ++ nul m) = Ok s /\ take k s = take k n.
Proof.
  intros Hn Hm. unfold padded_copy. destruct (decide (length n < k)%nat).
  - exists n. split; [|done]. destruct (k - length n)%nat as [|j] eqn:E; [lia|].
    rewrite take_app_ge, take_replicate by lia. rewrite Nat.min_l by lia. rewrite E.
    replace ((n ++ replicate (S j) 0) ++ nul m) with (nul n ++ (replicate j 0 ++ nul m)) by
      (unfold nul; cbn [replicate]; rewrite <- !app_assoc; done).
    by apply string_of_nul.
  - exists (take k n ++ m). rewrite take_app_le by lia. split.
    + rewrite <- (app_nil_r (nul m)). unfold nul. rewrite app_assoc, app_assoc, <- (app_assoc (take k n)).
      rewrite (app_assoc (take k n)). apply (string_of_nul (take k n ++ m) []). apply Forall_app. split; [by apply Forall_take|done].
    + rewrite take_app_le by (rewrite length_take; lia). by rewrite take_take, Nat.min_id.
Qed.

Lemma same_name_ok n m : name_ok n -> name_ok m -> same_name (padded_copy n 8) m = Ok (bool_decide (take 8 n = take 8 m)).
Proof.
  intros [Hn Hnb] [Hm Hmb]. unfold same_name, rt_strncmp. change (Z.to_nat RT_NAME_MAX) with 8%nat.
  destruct (padded_copy_string n m 8 Hn Hm) as (s & Es & Ht).
  destruct (rt_strncmp_ok (padded_copy n 8 ++ nul m) 8 0 8 s m) as (r & -> & Hr).
  - apply Forall_app. split; [by apply padded_copy_bytes|]. apply Forall_app. split; [done|]. by apply Forall_singleton.
  - unfold c_string. by rewrite decide_True by lia.
  - unfold c_string. rewrite decide_True by lia. change (Z.to_nat 8) with 8%nat.
    rewrite drop_app_length' by (by rewrite padded_copy_length). rewrite <- (app_nil_r (nul m)). by apply string_of_nul.
  - cbn [mbind outcome_bind]. f_equal. rewrite Ht in Hr. destruct (Z.eqb_spec r 0) as [->|Hne].
    + symmetry. apply bool_decide_eq_true. tauto.
    + symmetry. apply bool_decide_eq_false. tauto.
Qed.

(** ** The attached objects, the newest first *)
Record entry := MkEntry { e_addr : Z; e_class : Z; e_static : bool; e_name : list Z }.

Definition known_class (class : Z) : Prop := 1 <= class <= 10.
#[export] Instance known_class_dec class : Decision (known_class class) := _.

Inductive object_op :=
  | OInit (a class : Z) (n : list Z)
  | ODetach (a : Z)
  | OAllocate (alloc : option Z) (class : Z) (n : list Z)
  | ODelete (a : Z).

Definition run_object_op (op : object_op) : M objects unit :=
  match op with
  | OInit a class n => rt_object_init a class n
  | ODetach a => rt_object_detach a
  | OAllocate alloc class n => rt_object_allocate alloc class n;; skip
  | ODelete a => rt_object_delete a
  end.

(** What the callers see to. *)
Definition object_op_ok (op : object_op) (l : list entry) : Prop :=
  match op with
  | OInit a class n => known_class class /\ name_ok n /\ a ∉ e_addr <$> l
  | ODetach a => a ∈ e_addr <$> l
  | OAllocate alloc class n => known_class class /\ name_ok n /\ forall a, alloc = Some a -> a ∉ e_addr <$> l
  | ODelete a => exists e, e ∈ l /\ e_addr e = a /\ e_static e = false
  end.

Definition spec_object_op (op : object_op) (l : list entry) : list entry :=
  match op with
  | OInit a class n => MkEntry a class true n :: l
  | OAllocate (Some a) class n => MkEntry a class false n :: l
  | OAllocate None _ _ => l
  | ODetach a | ODelete a => filter (fun e => e_addr e <> a) l
  end.

Fixpoint run_object_ops (ops : list object_op) : M objects unit :=
  match ops with
  | [] => skip
  | op :: ops => run_object_op op;; run_object_ops ops
  end.

Fixpoint object_ops_ok (ops : list object_op) (l : list entry) : Prop :=
  match ops with
  | [] => True
  | op :: ops => object_op_ok op l /\ object_ops_ok ops (spec_object_op op l)
  end.

Definition spec_object_ops (ops : list object_op) (l : list entry) : list entry := fold_left (fun l op => spec_object_op op l) ops l.

(** The newest object of the class whose name has the same first eight characters. *)
Definition newest (n : list Z) (class : Z) (l : list entry) : option Z :=
  e_addr <$> head (filter (fun e => e_class e = class /\ take 8 (e_name e) = take 8 n) l).

Definition entry_object (e : entry) : rt_object :=
  MkObj (padded_copy (e_name e) 8) (if e_static e then Z.lor (e_class e) RT_Object_Class_Static else e_class e).

Definition entry_ok (s : objects) (e : entry) : Prop :=
  object_at s !! e_addr e = Some (entry_object e) /\ known_class (e_class e) /\ name_ok (e_name e).

Record objects_ok (l : list entry) (s : objects) : Prop := {
  oo_nodup : NoDup (e_addr <$> l);
  oo_entries : Forall (entry_ok s) l;
  oo_known : forall class, known_class class ->
    rt_object_container s !! class = Some (e_addr <$> filter (fun e => e_class e = class) l);
  oo_unknown : forall class, ~ known_class class -> rt_object_container s !! class = None
}.

Lemma objects_ok_init : objects_ok [] no_kernel_objects.
Proof.
  split; [constructor|constructor| |].
  - intros class Hk. cbn. assert (class ∈ (Z.of_nat <$> seq 1 10)) as Hin.
    { apply list_elem_of_fmap. exists (Z.to_nat class). unfold known_class in Hk. rewrite elem_of_seq. lia. }
    cbn in Hin. repeat (apply elem_of_cons in Hin as [->|Hin]; [done|]). by apply not_elem_of_nil in Hin.
  - intros class Hk. unfold no_kernel_objects, object_container_init. cbn [rt_object_container]. apply not_elem_of_list_to_map.
    intros (p & -> & (i & -> & Hi%elem_of_seq)%list_elem_of_fmap)%list_elem_of_fmap. cbn in Hk. unfold known_class in Hk. lia.
Qed.

Lemma not_linked a l s : objects_ok l s -> a ∉ e_addr <$> l -> linked a s = false.
Proof.
  intros H Ha. apply not_true_is_false. intros (p & Hp & Hl)%existsb_exists. destruct p as [class lst].
  apply existsb_exists in Hl as (b & Hb%list_elem_of_In & <-%Z.eqb_eq). apply list_elem_of_In, elem_of_map_to_list in Hp.
  destruct (decide (known_class class)) as [Hk|Hk].
  - rewrite (oo_known _ _ H class Hk) in Hp. simplify_eq. apply Ha.
    apply list_elem_of_fmap in Hb as (e & -> & [_ He]%list_elem_of_filter). by apply list_elem_of_fmap_2.
  - by rewrite (oo_unknown _ _ H class Hk) in Hp.
Qed.

Lemma link_ok a class s e l : objects_ok l s -> e_addr e = a -> e_class e = class -> known_class class -> a ∉ e_addr <$> l ->
  name_ok (e_name e) ->
  exists s', (put_object a (entry_object e);; link a class) s = Ok (tt, s') /\ objects_ok (e :: l) s'.
Proof.
  intros H <- <- Hk Ha Hn. unfold put_object, link. c_run. unfold rt_object_get_information, id.
  set (m := <[e_addr e := _]> _). change (linked (e_addr e) (s <| object_at := m |>)) with (linked (e_addr e) s).
  change (rt_object_container (s <| object_at := m |>)) with (rt_object_container s).
  rewrite (oo_known _ _ H _ Hk), (not_linked _ l s H Ha). c_run. subst m.
  eexists. split; [done|]. split.
  - rewrite fmap_cons. constructor; [done|apply H].
  - constructor.
    + split; [|done]. cbn. apply lookup_insert_eq.
    + apply Forall_forall. intros e' He'. pose proof (oo_entries _ _ H) as Hf. rewrite Forall_forall in Hf.
      destruct (Hf e' He') as (Ho & Hc). split; [|done]. cbn. rewrite lookup_insert_ne; [done|].
      intros He. apply Ha. rewrite He. by apply list_elem_of_fmap_2.
  - intros class Hk'. change (<[e_class e := e_addr e :: (e_addr <$> filter (fun e' => e_class e' = e_class e) l)]> (rt_object_container s) !! class =
      Some (e_addr <$> filter (fun e => e_class e = class) (e :: l))).
    destruct (decide (class = e_class e)) as [->|Hne].
    + by rewrite lookup_insert_eq, filter_cons_True.
    + rewrite lookup_insert_ne, filter_cons_False by done. by apply H.
  - intros class Hk'. cbn. rewrite lookup_insert_ne; [by apply H|]. by intros <-.
Qed.

Lemma filter_comm_addr (a class : Z) (l : list entry) :
  filter (fun x => x <> a) (e_addr <$> filter (fun e => e_class e = class) l) =
  e_addr <$> filter (fun e => e_class e = class) (filter (fun e => e_addr e <> a) l).
Proof.
  induction l as [|e l IH]; [done|]. rewrite !filter_cons. repeat case_decide; rewrite ?filter_cons, ?fmap_cons;
    repeat case_decide; rewrite ?fmap_cons, ?filter_cons; repeat case_decide; congruence || done || (by rewrite IH).
Qed.

(** Any map of the objects that agrees with the old one elsewhere. *)
Lemma unlink_ok a l s m : objects_ok l s -> (forall x, x <> a -> m !! x = object_at s !! x) ->
  objects_ok (filter (fun e => e_addr e <> a) l)
    (MkObjects m (filter (fun x => x <> a) <$> rt_object_container s)).
Proof.
  intros H Hm. split.
  - apply NoDup_map_filter, H.
  - apply Forall_forall. intros e [Hne He]%list_elem_of_filter.
    pose proof (oo_entries _ _ H) as Hf. rewrite Forall_forall in Hf. destruct (Hf e He) as (Ho & Hc & Hn).
    split; [|done]. cbn. by rewrite Hm.
  - intros class Hk. cbn. rewrite lookup_fmap, (oo_known _ _ H class Hk). cbn. by rewrite <- filter_comm_addr.
  - intros class Hk. cbn. by rewrite lookup_fmap, (oo_unknown _ _ H class Hk).
Qed.

Lemma attached_object e l s : objects_ok l s -> e ∈ l -> object_at s !! e_addr e = Some (entry_object e).
Proof. intros H He. pose proof (oo_entries _ _ H) as Hf. rewrite Forall_forall in Hf. by apply Hf. Qed.

Lemma object_op_runs op l s : objects_ok l s -> object_op_ok op l ->
  exists s', run_object_op op s = Ok (tt, s') /\ objects_ok (spec_object_op op l) s'.
Proof.
  intros H Hop. destruct op as [a class n|a|alloc class n|a]; cbn [object_op_ok run_object_op spec_object_op] in *.
  - destruct Hop as (Hk & Hn & Ha). unfold rt_object_init. c_run. unfold rt_object_get_information.
    rewrite (oo_known _ _ H _ Hk), bool_decide_eq_true_2 by done. rewrite run_bind_assert, copy_name_ok by apply Hn.
    rewrite run_bind_lift. by apply (link_ok a class s (MkEntry a class true n)).
  - apply list_elem_of_fmap in Hop as (e & -> & He). unfold rt_object_detach, the_object. rewrite run_bind_bind, run_bind_gets.
    unfold id. rewrite (attached_object e l s H He). unfold put_object, unlink. c_run. eexists. split; [done|].
    apply (unlink_ok _ l s); [done|]. intros x Hx. cbn. by rewrite lookup_insert_ne.
  - destruct Hop as (Hk & Hn & Ha). unfold rt_object_allocate. rewrite !run_bind_bind, run_bind_gets. unfold rt_object_get_information.
    rewrite (oo_known _ _ H _ Hk), bool_decide_eq_true_2 by done. rewrite !run_bind_bind, run_bind_assert.
    destruct alloc as [a|]; [|c_run; by exists s].
    rewrite !run_bind_bind, copy_name_ok by apply Hn. rewrite run_bind_lift.
    destruct (link_ok a class s (MkEntry a class false n) l) as (s' & E & H'); [done..|by apply Ha|done|].
    exists s'. split; [|done]. rewrite !run_bind_bind. revert E. unfold mbind, M_bind.
    change (entry_object _) with (MkObj (padded_copy n 8) class).
    destruct (put_object a (MkObj (padded_copy n 8) class) s) as [[[] s1]| |]; [|done..]. by intros ->.
  - destruct Hop as (e & He & <- & Hs). unfold rt_object_delete, rt_object_is_systemobject, the_object. rewrite !run_bind_bind, run_bind_gets.
    unfold id. rewrite (attached_object e l s H He). c_run.
    assert (Z.land (type (entry_object e)) RT_Object_Class_Static = 0) as ->.
    { unfold entry_object. rewrite Hs. cbn. pose proof (oo_entries _ _ H) as Hf. rewrite Forall_forall in Hf. destruct (Hf e He) as (_ & Hk & _).
      unfold known_class in Hk. unfold RT_Object_Class_Static. assert (e_class e = 1 \/ e_class e = 2 \/ e_class e = 3 \/ e_class e = 4 \/ e_class e = 5
        \/ e_class e = 6 \/ e_class e = 7 \/ e_class e = 8 \/ e_class e = 9 \/ e_class e = 10) as Hc by lia.
      by destruct Hc as [->|[->|[->|[->|[->|[->|[->|[->|[->| ->]]]]]]]]]. }
    c_run. rewrite (attached_object e l s H He). unfold put_object, unlink. c_run. eexists. split; [done|].
    apply (unlink_ok _ l s); [done|]. intros x Hx. unfold id. cbn. by rewrite lookup_delete_ne, lookup_insert_ne.
Qed.

Lemma object_ops_run ops : forall l s, objects_ok l s -> object_ops_ok ops l ->
  exists s', run_object_ops ops s = Ok (tt, s') /\ objects_ok (spec_object_ops ops l) s'.
Proof.
  induction ops as [|op ops IH]; intros l s H Hops; [by exists s|]. destruct Hops as [Hop Hops].
  destruct (object_op_runs op l s H Hop) as (s1 & E & H1). cbn [run_object_ops]. erewrite run_bind_ok by exact E.
  by apply (IH _ s1 H1).
Qed.

Lemma find_name_ok n class s l : name_ok n -> Forall (entry_ok s) l ->
  find_name n (e_addr <$> filter (fun e => e_class e = class) l) s = Ok (newest n class l, s).
Proof.
  intros Hn. unfold newest. induction 1 as [|e l (Ho & _ & Hne) _ IH]; [done|]. rewrite !filter_cons.
  destruct (decide (e_class e = class)) as [He|He].
  - rewrite fmap_cons. cbn [find_name]. unfold the_object. rewrite run_bind_bind, run_bind_gets. unfold id at 1. rewrite Ho, run_bind_ret.
    cbn [entry_object name]. rewrite same_name_ok by done. rewrite run_bind_lift.
    destruct (decide (take 8 (e_name e) = take 8 n)) as [Ht|Ht].
    + rewrite bool_decide_eq_true_2 by done. by rewrite decide_True.
    + rewrite bool_decide_eq_false_2 by done. rewrite decide_False by tauto. apply IH.
  - rewrite decide_False by tauto. apply IH.
Qed.

Lemma rt_object_find_ok n class l s : objects_ok l s -> name_ok n -> known_class class ->
  rt_object_find (Some n) class s = Ok (newest n class l, s).
Proof.
  intros H Hn Hk. unfold rt_object_find. unfold known_class in Hk. rewrite (proj2 (Z.ltb_ge _ _)) by (unfold RT_Object_Class_Unknown; lia).
  c_run. unfold rt_object_get_information. rewrite (oo_known _ _ H _ Hk), bool_decide_eq_true_2 by done. c_run.
  apply find_name_ok; [done|apply H].
Qed.

(** C22: after any sequence of initialisations, detachments, allocations and deletions of
    objects, none of which fails, looking up a name in a class returns the most recently
    attached object whose first eight characters are those of the name, whatever follows
    them, and no object if there is none; a class without a container fails the
    assertion, one past the last is refused. *)
Theorem objects_found_by_name ops n : object_ops_ok ops [] -> name_ok n ->
  exists s, run_object_ops ops no_kernel_objects = Ok (tt, s) /\
    (forall class, known_class class -> rt_object_find (Some n) class s = Ok (newest n class (spec_object_ops ops []), s)) /\
    (forall class, 12 < class -> rt_object_find (Some n) class s = Ok (None, s)) /\
    (forall class, class <= 12 -> ~ known_class class -> rt_object_find (Some n) class s = Fault FAssert).
Proof.
  intros Hops Hn. destruct (object_ops_run ops [] no_kernel_objects objects_ok_init Hops) as (s & E & H). exists s. split; [done|].
  split; [|split].
  - intros class Hk. by apply rt_object_find_ok.
  - intros class Hc. unfold rt_object_find. by rewrite (proj2 (Z.ltb_lt _ _)).
  - intros class Hc Hk. unfold rt_object_find. rewrite (proj2 (Z.ltb_ge _ _)) by (unfold RT_Object_Class_Unknown; lia).
    c_run. unfold rt_object_get_information. rewrite (oo_unknown _ _ H _ Hk), bool_decide_eq_false_2 by (by intros [? ?]). by c_run.
Qed.

Lemma objects_found_by_name_witness : exists s,
  run_object_ops [OInit 100 9 (chars "uart1"); OInit 200 9 (chars "sensor_bus_a"); OAllocate (Some 300) 9 (chars "sensor_bus_b"); ODetach 100] no_kernel_objects = Ok (tt, s) /\
  rt_object_find (Some (chars "sensor_bus_a")) 9 s = Ok (Some 300, s) /\ rt_object_find (Some (chars "uart1")) 9 s = Ok (None, s).
Proof.
  assert (forall w, forallb (fun c => (1 <=? c) && (c <? 256)) w = true -> name_ok w) as Hw.
  { intros w H. split; apply Forall_forall; intros c Hc; rewrite forallb_forall in H; apply list_elem_of_In, H in Hc; c_bool; unfold is_byte; lia. }
  assert (name_ok (chars "uart1")) as Hu by (apply Hw; reflexivity). assert (name_ok (chars "sensor_bus_a")) as Ha by (apply Hw; reflexivity).
  assert (object_ops_ok [OInit 100 9 (chars "uart1"); OInit 200 9 (chars "sensor_bus_a"); OAllocate (Some 300) 9 (chars "sensor_bus_b"); ODetach 100] []) as Hops.
  { cbn [object_ops_ok object_op_ok spec_object_op]. unfold known_class. rewrite !fmap_cons, !elem_of_cons, fmap_nil. cbn [e_addr].
    split; [split; [lia|split; [exact Hu|apply not_elem_of_nil]]|]. split; [split; [lia|split; [exact Ha|]]|].
    { intros [?|Hx]; [lia|by apply not_elem_of_nil in Hx]. }
    split; [split; [lia|split; [apply Hw; reflexivity|]]|split; [auto|exact I]].
    intros a [= <-]. rewrite !elem_of_cons. intros [?|[?|Hx]]; [lia|lia|by apply not_elem_of_nil in Hx]. }
  destruct (objects_found_by_name _ (chars "sensor_bus_a") Hops Ha) as (s & E & Hf & _).
  destruct (objects_found_by_name _ (chars "uart1") Hops Hu) as (s' & E' & Hf' & _).
  rewrite E in E'. injection E' as <-. exists s. split; [exact E|]. split.
  - rewrite (Hf 9 ltac:(unfold known_class; lia)). reflexivity.
  - rewrite (Hf' 9 ltac:(unfold known_class; lia)). reflexivity.
Defined.
