(* ===== verification/Device.v ===== *)
(** * The device layer (src/Kernel/device.c)

    The driver's functions are the class [DeviceDriver], the function pointers of the
    code, which may be null; its state contains the device structure.  [is_device] is
    the type of the object, which registering sets and unregistering clears.  A write
    may leave its caller waiting for the hardware.  [rt_set_errno] is not modelled. *)
From stdpp Require Import gmap.
From S2P Require Import Prelude CString KString Object.

Definition RT_DEVICE_FLAG_RDWR : Z := 0x003.
Definition RT_DEVICE_FLAG_STANDALONE : Z := 0x008.
Definition RT_DEVICE_FLAG_ACTIVATED : Z := 0x010.
Definition RT_DEVICE_FLAG_SUSPENDED : Z := 0x020.
Definition RT_DEVICE_FLAG_STREAM : Z := 0x040.
Definition RT_DEVICE_FLAG_INT_RX : Z := 0x100.
Definition RT_DEVICE_FLAG_DMA_RX : Z := 0x200.
Definition RT_DEVICE_FLAG_INT_TX : Z := 0x400.
Definition RT_DEVICE_FLAG_DMA_TX : Z := 0x800.
Definition RT_DEVICE_OFLAG_CLOSE : Z := 0x000.
Definition RT_DEVICE_OFLAG_RDWR : Z := 0x003.
Definition RT_DEVICE_OFLAG_OPEN : Z := 0x008.
Definition RT_DEVICE_OFLAG_MASK : Z := 0xf0f.
Definition RT_DEVICE_CTRL_RESUME : Z := 0x01.
Definition RT_DEVICE_CTRL_SUSPEND : Z := 0x02.
Definition RT_DEVICE_CTRL_CONFIG : Z := 0x03.
Definition RT_DEVICE_CTRL_SET_INT : Z := 0x10.
Definition RT_DEVICE_CTRL_CLR_INT : Z := 0x11.

(** [flags & bit]. *)
Definition has (flags bit : Z) : bool := negb (Z.land flags bit =? 0).

Record rt_device := MkDevice {
  is_device : bool;
  flag : Z;
  open_flag : Z;
  ref_count : Z;
  rx_indicate : bool;
  tx_complete : bool
}.
#[export] Instance rt_device_eta : Eta rt_device := fun d =>
  MkDevice (is_device d) (flag d) (open_flag d) (ref_count d) (rx_indicate d) (tx_complete d).

(** The number of bytes written, or the bytes still to be written by a thread that waits. *)
Inductive written := Written (n : Z) | TxWaits (rest : list Z).

Class DeviceDriver (S : Type) := {
  parent : S -> rt_device;
  parent_setter :: Setter parent;
  parent_upd : forall d s, parent (s <| parent := d |>) = d;
  device_arg : Type;
  device_init : option (M S Z);
  device_open : option (Z -> M S Z);
  device_close : option (M S Z);
  device_read : option (Z -> Z -> M S (Z * list Z));
  device_write : option (Z -> list Z -> M S written);
  device_control : option (Z -> device_arg -> M S Z)
}.

Section Device.
Context {S : Type} `{!DeviceDriver S}.

Definition or_flag (bit : Z) : M S unit := zoom parent (d ← gets id; flag ::= Z.lor (flag d) bit).
Definition or_open_flag (bit : Z) : M S unit := zoom parent (d ← gets id; open_flag ::= Z.lor (open_flag d) bit).
Definition set_open_flag (flags : Z) : M S unit := zoom parent (open_flag ::= flags).
Definition set_ref_count (n : Z) : M S unit := zoom parent (ref_count ::= n).

(** The initialisation a device gets once. *)
Definition activate : M S Z :=
  match device_init with
  | None => mret RT_EOK
  | Some init => init
  end.

Definition rt_device_init : M S Z :=
  d ← gets parent;
  match device_init with
  | None => mret RT_EOK
  | Some init =>
      if has (flag d) RT_DEVICE_FLAG_ACTIVATED then mret RT_EOK else
      result ← init;
      (when result =? RT_EOK do or_flag RT_DEVICE_FLAG_ACTIVATED);;
      mret result
  end.

Definition rt_device_open (oflag : Z) : M S Z :=
  d ← gets parent;
  RT_ASSERT (is_device d);;
  result ← (if has (flag d) RT_DEVICE_FLAG_ACTIVATED then mret RT_EOK else
            result ← activate;
            (when result =? RT_EOK do or_flag RT_DEVICE_FLAG_ACTIVATED);;
            mret result);
  if negb (result =? RT_EOK) then mret result else
  d ← gets parent;
  if has (flag d) RT_DEVICE_FLAG_STANDALONE && has (open_flag d) RT_DEVICE_OFLAG_OPEN then mret (- RT_EBUSY) else
  result ← match device_open with
           | Some open => open oflag
           | None => set_open_flag (Z.land oflag RT_DEVICE_OFLAG_MASK);; mret RT_EOK
           end;
  (when (result =? RT_EOK) || (result =? - RT_ENOSYS) do (
     or_open_flag RT_DEVICE_OFLAG_OPEN;;
     d ← gets parent;
     set_ref_count (u8 (ref_count d + 1));;
     RT_ASSERT (negb (u8 (ref_count d + 1) =? 0))));;
  mret result.

Definition rt_device_close : M S Z :=
  d ← gets parent;
  RT_ASSERT (is_device d);;
  if ref_count d =? 0 then mret (- RT_ERROR) else
  set_ref_count (ref_count d - 1);;
  if negb (ref_count d - 1 =? 0) then mret RT_EOK else
  result ← match device_close with Some close => close | None => mret RT_EOK end;
  (when (result =? RT_EOK) || (result =? - RT_ENOSYS) do set_open_flag RT_DEVICE_OFLAG_CLOSE);;
  mret result.

(** The returned size and the bytes stored in the buffer. *)
Definition rt_device_read (pos size : Z) : M S (Z * list Z) :=
  d ← gets parent;
  RT_ASSERT (is_device d);;
  if ref_count d =? 0 then mret (0, []) else
  match device_read with Some read => read pos size | None => mret (0, []) end.

Definition rt_device_write (pos : Z) (buffer : list Z) : M S written :=
  d ← gets parent;
  RT_ASSERT (is_device d);;
  if ref_count d =? 0 then mret (Written 0) else
  match device_write with Some write => write pos buffer | None => mret (Written 0) end.

Definition rt_device_control (cmd : Z) (arg : device_arg) : M S Z :=
  d ← gets parent;
  RT_ASSERT (is_device d);;
  match device_control with Some control => control cmd arg | None => mret (- RT_ENOSYS) end.

Definition rt_device_set_rx_indicate (rx_ind : bool) : M S Z :=
  d ← gets parent;
  RT_ASSERT (is_device d);;
  zoom parent (rx_indicate ::= rx_ind);;
  mret RT_EOK.

Definition rt_device_set_tx_complete (tx_done : bool) : M S Z :=
  d ← gets parent;
  RT_ASSERT (is_device d);;
  zoom parent (tx_complete ::= tx_done);;
  mret RT_EOK.

(** *** What opening and closing lead to *)
Implicit Types (s : S) (d : rt_device).

(** The bookkeeping of an open that succeeds. *)
Definition opened s : S :=
  s <| parent := (parent s) <| open_flag := Z.lor (open_flag (parent s)) RT_DEVICE_OFLAG_OPEN |> |>
    <| parent := (parent s) <| open_flag := Z.lor (open_flag (parent s)) RT_DEVICE_OFLAG_OPEN |> <| ref_count := u8 (ref_count (parent s) + 1) |> |>.

Lemma run_zoom_parent (f : rt_device -> rt_device) s : zoom parent (modify f) s = Ok (tt, s <| parent := f (parent s) |>).
Proof. done. Qed.

Lemma rt_device_open_again open oflag s s1 : device_open = Some open -> is_device (parent s) = true ->
  has (flag (parent s)) RT_DEVICE_FLAG_ACTIVATED = true -> has (flag (parent s)) RT_DEVICE_FLAG_STANDALONE = false ->
  open oflag s = Ok (RT_EOK, s1) -> u8 (ref_count (parent s1) + 1) <> 0 ->
  rt_device_open oflag s = Ok (RT_EOK, opened s1).
Proof.
  intros Ho Hd Ha Hs E Hr. unfold rt_device_open. rewrite run_bind_gets, Hd, run_bind_assert, Ha, run_bind_ret. cbn [Z.eqb RT_EOK negb].
  rewrite run_bind_gets, Hs, Ho. cbn [andb]. erewrite run_bind_ok by exact E. cbn [Z.eqb RT_EOK orb].
  unfold or_open_flag, set_ref_count. rewrite !run_bind_bind. erewrite run_bind_ok by reflexivity.
  rewrite !run_bind_bind, run_bind_gets, parent_upd. rewrite !run_bind_bind. erewrite run_bind_ok by apply run_zoom_parent.
  rewrite parent_upd. cbn [ref_count upd]. rewrite (proj2 (Z.eqb_neq _ _)) by exact Hr. cbn [negb]. rewrite run_bind_assert. done.
Qed.

Lemma rt_device_close_shared s : is_device (parent s) = true -> 1 < ref_count (parent s) ->
  rt_device_close s = Ok (RT_EOK, s <| parent := (parent s) <| ref_count := ref_count (parent s) - 1 |> |>).
Proof.
  intros Hd Hr. unfold rt_device_close. rewrite run_bind_gets, Hd, run_bind_assert. rewrite (proj2 (Z.eqb_neq _ _)) by lia.
  unfold set_ref_count. erewrite run_bind_ok by apply run_zoom_parent. by rewrite (proj2 (Z.eqb_neq _ _)) by lia.
Qed.

Lemma rt_device_close_last close s s1 : device_close = Some close -> is_device (parent s) = true -> ref_count (parent s) = 1 ->
  close (s <| parent := (parent s) <| ref_count := 0 |> |>) = Ok (RT_EOK, s1) ->
  rt_device_close s = Ok (RT_EOK, s1 <| parent := (parent s1) <| open_flag := RT_DEVICE_OFLAG_CLOSE |> |>).
Proof.
  intros Hc Hd Hr E. unfold rt_device_close. rewrite run_bind_gets, Hd, run_bind_assert, Hr. cbn [Z.eqb].
  unfold set_ref_count. erewrite run_bind_ok by apply run_zoom_parent. change (1 - 1) with 0. cbn [Z.eqb negb].
  rewrite Hc. erewrite run_bind_ok by exact E. cbn [Z.eqb RT_EOK orb]. unfold set_open_flag.
  by erewrite run_bind_ok by apply run_zoom_parent.
Qed.

Lemma rt_device_read_open read pos size s : device_read = Some read -> is_device (parent s) = true -> ref_count (parent s) <> 0 ->
  rt_device_read pos size s = read pos size s.
Proof.
  intros Hc Hd Hr. unfold rt_device_read. rewrite run_bind_gets, Hd, run_bind_assert. by rewrite (proj2 (Z.eqb_neq _ _)), Hc by done.
Qed.

Lemma rt_device_write_open write pos data s : device_write = Some write -> is_device (parent s) = true -> ref_count (parent s) <> 0 ->
  rt_device_write pos data s = write pos data s.
Proof.
  intros Hc Hd Hr. unfold rt_device_write. rewrite run_bind_gets, Hd, run_bind_assert. by rewrite (proj2 (Z.eqb_neq _ _)), Hc by done.
Qed.
End Device.

(** ** Names of devices *)
Definition rt_device_find (n : list Z) : M objects (option Z) :=
  information ← gets (rt_object_get_information RT_Object_Class_Device);
  RT_ASSERT (bool_decide (is_Some information));;
  find_name n (default [] information).

(** The device structure as registering leaves it. *)
Definition rt_device_register (dev : option (Z * rt_device)) (n : list Z) (flags : Z) : M objects (Z * option rt_device) :=
  match dev with
  | None => mret (- RT_ERROR, None)
  | Some (a, d) =>
      found ← rt_device_find n;
      match found with
      | Some _ => mret (- RT_ERROR, Some d)
      | None =>
          rt_object_init a RT_Object_Class_Device n;;
          mret (RT_EOK, Some (MkDevice true (u16 flags) 0 0 (rx_indicate d) (tx_complete d)))
      end
  end.

Definition rt_device_unregister (a : Z) : M objects Z :=
  class ← rt_object_get_type a;
  RT_ASSERT (class =? RT_Object_Class_Device);;
  system ← rt_object_is_systemobject a;
  RT_ASSERT system;;
  rt_object_detach a;;
  mret RT_EOK.

(** *** Registering *)
Lemma device_class_known : known_class RT_Object_Class_Device.
Proof. unfold known_class, RT_Object_Class_Device. lia. Qed.

Lemma rt_device_find_ok n l s : objects_ok l s -> name_ok n ->
  rt_device_find n s = Ok (newest n RT_Object_Class_Device l, s).
Proof.
  intros H Hn. unfold rt_device_find, rt_object_get_information. rewrite run_bind_gets, (oo_known _ _ H _ device_class_known).
  rewrite bool_decide_eq_true_2 by done. rewrite run_bind_assert. apply find_name_ok; [done|apply H].
Qed.

(** A new name is registered; one that is taken, if only in its first eight characters, is refused. *)
Lemma rt_device_register_ok a d n flags l s : objects_ok l s -> name_ok n -> a ∉ e_addr <$> l ->
  match newest n RT_Object_Class_Device l with
  | Some _ => rt_device_register (Some (a, d)) n flags s = Ok ((- RT_ERROR, Some d), s)
  | None => exists s', rt_device_register (Some (a, d)) n flags s =
      Ok ((RT_EOK, Some (MkDevice true (u16 flags) 0 0 (rx_indicate d) (tx_complete d))), s') /\
      objects_ok (MkEntry a RT_Object_Class_Device true n :: l) s'
  end.
Proof.
  intros H Hn Ha. unfold rt_device_register. destruct (newest n RT_Object_Class_Device l) as [b|] eqn:E.
  - erewrite run_bind_ok by (by apply rt_device_find_ok). by rewrite E.
  - destruct (object_op_runs (OInit a RT_Object_Class_Device n) l s H) as (s' & Es & H'); [split; [apply device_class_known|done]|].
    exists s'. split; [|done]. erewrite run_bind_ok by (by apply rt_device_find_ok). rewrite E.
    cbn [run_object_op] in Es. by erewrite run_bind_ok by exact Es.
Qed.
