(* ===== verification/Mem.v ===== *)
(** * The small-memory allocator (src/Kernel/mem.c)

    The heap of [rt_malloc]: a chain of headers that tiles the memory, a header
    and its data for each block and a last header behind them.  Pointers are
    offsets from [heap_ptr], which is aligned.  The headers are kept by address in
    [hdrs], what the blocks hold in [bytes]; a header that nothing has written is
    a bad access.  rt_size_t is 32 bits wide.  The semaphore [heap_sem] makes each
    operation atomic; the configured build has neither statistics nor traces.
    The loops have one unit of fuel per header and one more. *)
From stdpp Require Import gmap.
From S2P Require Import Prelude KString.

Definition RT_ALIGN_SIZE : Z := 4.
Definition HEAP_MAGIC : Z := 0x1ea0.
Definition MIN_SIZE : Z := 12.
Definition SIZEOF_STRUCT_MEM : Z := 12.
Definition MIN_SIZE_ALIGNED : Z := 12.

Definition RT_ALIGN (size align : Z) : Z := Z.land (u32 (size + align - 1)) (Z.lnot (align - 1)).
Definition RT_ALIGN_DOWN (size align : Z) : Z := Z.land size (Z.lnot (align - 1)).

Record heap_mem := MkMem { magic : Z; used : Z; next : Z; prev : Z }.
#[export] Instance heap_mem_eta : Eta heap_mem := fun m => MkMem (magic m) (used m) (next m) (prev m).

Record heap_sys := MkHeap {
  hdrs : gmap Z heap_mem;
  bytes : list Z;
  lfree : Z;
  mem_size_aligned : Z
}.
#[export] Instance heap_sys_eta : Eta heap_sys := fun s =>
  MkHeap (hdrs s) (bytes s) (lfree s) (mem_size_aligned s).

(** The offset of the last entry. *)
Definition heap_end (s : heap_sys) : Z := mem_size_aligned s + SIZEOF_STRUCT_MEM.

Definition get_mem (a : Z) : M heap_sys heap_mem :=
  o ← gets (fun s => hdrs s !! a);
  match o with
  | Some m => mret m
  | None => lift (Fault FOutOfBounds)
  end.

Definition put_mem (a : Z) (m : heap_mem) : M heap_sys unit :=
  modify (fun s => s <| hdrs := <[a := m]> (hdrs s) |>).

(** ** Operations *)

(** The block at [b] becomes part of the block at [a]; the code has this text
    twice. *)
Definition combine (a : Z) (m : heap_mem) (b : Z) (n : heap_mem) : M heap_sys unit :=
  l ← gets lfree;
  (when l =? b do lfree ::= a);;
  put_mem a (m <| next := next n |>);;
  x ← get_mem (next n);
  put_mem (next n) (x <| prev := a |>).

Definition plug_holes (mem : Z) : M heap_sys unit :=
  e ← gets heap_end;
  RT_ASSERT (mem >=? 0);;
  RT_ASSERT (mem <? e);;
  m ← get_mem mem;
  RT_ASSERT (used m =? 0);;
  let nmem := next m in
  n ← get_mem nmem;
  (when negb (mem =? nmem) && (used n =? 0) && negb (nmem =? e) do combine mem m nmem n);;
  m ← get_mem mem;
  let pmem := prev m in
  p ← get_mem pmem;
  when negb (pmem =? mem) && (used p =? 0) do combine pmem p mem m.

(** The heap between two addresses, or none when they are too close; [junk] is
    what the memory held. *)
Definition rt_system_heap_init (begin_addr end_addr : Z) (junk : Z -> list Z) : option heap_sys :=
  let begin_align := RT_ALIGN begin_addr RT_ALIGN_SIZE in
  let end_align := RT_ALIGN_DOWN end_addr RT_ALIGN_SIZE in
  if (end_align >? 2 * SIZEOF_STRUCT_MEM) && (u32 (end_align - 2 * SIZEOF_STRUCT_MEM) >=? begin_align) then
    let size := u32 (end_align - begin_align - 2 * SIZEOF_STRUCT_MEM) in
    let e := size + SIZEOF_STRUCT_MEM in
    Some (MkHeap {[0 := MkMem HEAP_MAGIC 0 e 0; e := MkMem HEAP_MAGIC 1 e e]}
            (junk (e + SIZEOF_STRUCT_MEM)) 0 size)
  else None.

(** The data size of a block. *)
Definition data_size (ptr : Z) (m : heap_mem) : Z := u32 (next m - (ptr + SIZEOF_STRUCT_MEM)).

(** A free block is created in [mem] behind [size] bytes of data. *)
Definition split_block (ptr size u : Z) (m : heap_mem) : M heap_sys unit :=
  e ← gets heap_end;
  let ptr2 := ptr + SIZEOF_STRUCT_MEM + size in
  put_mem ptr2 (MkMem HEAP_MAGIC 0 (next m) ptr);;
  put_mem ptr (m <| next := ptr2 |> <| used := u |>);;
  if negb (next m =? e) then x ← get_mem (next m); put_mem (next m) (x <| prev := ptr2 |>) else skip.

(** The fuel of the loops. *)
Definition headers (s : heap_sys) : nat := S (size (hdrs s)).

(** The search for the next free block. *)
Fixpoint lfree_loop (fuel : nat) : M heap_sys unit :=
  match fuel with
  | O => lift Blocked
  | S fuel =>
      l ← gets lfree;
      m ← get_mem l;
      e ← gets heap_end;
      if negb (used m =? 0) && negb (l =? e) then lfree ::= next m;; lfree_loop fuel else skip
  end.

(** The block found, of at least [size] bytes, is taken. *)
Definition take_block (fuel : nat) (ptr size : Z) (m : heap_mem) : M heap_sys Z :=
  (if data_size ptr m >=? size + SIZEOF_STRUCT_MEM + MIN_SIZE_ALIGNED then split_block ptr size 1 m
   else put_mem ptr (m <| used := 1 |>));;
  m ← get_mem ptr;
  put_mem ptr (m <| magic := HEAP_MAGIC |>);;
  l ← gets lfree;
  (if ptr =? l then
     lfree_loop fuel;;
     l ← gets lfree;
     e ← gets heap_end;
     m ← get_mem l;
     RT_ASSERT ((l =? e) || (used m =? 0))
   else skip);;
  e ← gets heap_end;
  RT_ASSERT (ptr + SIZEOF_STRUCT_MEM + size <=? e);;
  RT_ASSERT ((ptr + SIZEOF_STRUCT_MEM) mod RT_ALIGN_SIZE =? 0);;
  RT_ASSERT (Z.land ptr (RT_ALIGN_SIZE - 1) =? 0);;
  mret (ptr + SIZEOF_STRUCT_MEM).

Fixpoint malloc_loop (fuel : nat) (ptr size : Z) : M heap_sys (option Z) :=
  match fuel with
  | O => lift Blocked
  | S fuel' =>
      total ← gets mem_size_aligned;
      if negb (ptr <? u32 (total - size)) then mret None else
      m ← get_mem ptr;
      if (used m =? 0) && (data_size ptr m >=? size) then
        n ← gets headers;
        p ← take_block n ptr size m; mret (Some p)
      else malloc_loop fuel' (next m) size
  end.

Definition rt_malloc (size : Z) : M heap_sys (option Z) :=
  if size =? 0 then mret None else
  let size := RT_ALIGN size RT_ALIGN_SIZE in
  total ← gets mem_size_aligned;
  if size >? total then mret None else
  let size := if size <? MIN_SIZE_ALIGNED then MIN_SIZE_ALIGNED else size in
  ptr ← gets lfree;
  n ← gets headers;
  malloc_loop n ptr size.

(** [None] is the null pointer. *)
Definition rt_free (rmem : option Z) : M heap_sys unit :=
  match rmem with
  | None => skip
  | Some rmem =>
      e ← gets heap_end;
      RT_ASSERT (Z.land rmem (RT_ALIGN_SIZE - 1) =? 0);;
      RT_ASSERT ((rmem >=? 0) && (rmem <? e));;
      let mem := rmem - SIZEOF_STRUCT_MEM in
      m ← get_mem mem;
      RT_ASSERT (negb (used m =? 0));;
      RT_ASSERT (magic m =? HEAP_MAGIC);;
      put_mem mem (m <| used := 0 |> <| magic := HEAP_MAGIC |>);;
      l ← gets lfree;
      (when mem <? l do lfree ::= mem);;
      plug_holes mem
  end.

Definition rt_realloc (rmem : option Z) (newsize : Z) : M heap_sys (option Z) :=
  let newsize := RT_ALIGN newsize RT_ALIGN_SIZE in
  total ← gets mem_size_aligned;
  if newsize >? total then mret None
  else if newsize =? 0 then rt_free rmem;; mret None
  else
    match rmem with
    | None => rt_malloc newsize
    | Some r =>
        e ← gets heap_end;
        if (r <? 0) || (r >=? e) then mret rmem else
        let mem := r - SIZEOF_STRUCT_MEM in
        m ← get_mem mem;
        let size := data_size mem m in
        if size =? newsize then mret rmem
        else if newsize + SIZEOF_STRUCT_MEM + MIN_SIZE <? size then
          split_block mem newsize (used m) m;;
          plug_holes (mem + SIZEOF_STRUCT_MEM + newsize);;
          mret rmem
        else
          nmem ← rt_malloc newsize;
          match nmem with
          | None => mret None
          | Some n =>
              b ← gets bytes;
              b ← lift (rt_memcpy b n r (if size <? newsize then size else newsize));
              bytes ::= b;;
              rt_free rmem;;
              mret nmem
          end
    end.

Definition rt_calloc (count size : Z) : M heap_sys (option Z) :=
  p ← rt_malloc (u32 (count * size));
  match p with
  | None => mret None
  | Some a =>
      b ← gets bytes;
      b ← lift (rt_memset b a 0 (u32 (count * size)));
      bytes ::= b;;
      mret p
  end.

(** ** The heap as a list of blocks

    A block is a used flag and a data size.  The blocks tile the heap: the block
    behind a header at [a] with [n] bytes of data has its header at [a + 12 + n]. *)
Abbreviation block := (bool * Z)%type.

Fixpoint span (bs : list block) : Z :=
  match bs with [] => 0 | (_, n) :: bs => SIZEOF_STRUCT_MEM + n + span bs end.

(** The address of the last block, [p] if there is none. *)
Fixpoint last_at (p a : Z) (bs : list block) : Z :=
  match bs with [] => p | (_, n) :: bs => last_at a (a + SIZEOF_STRUCT_MEM + n) bs end.

Definition header (u : bool) (a n p : Z) : heap_mem := MkMem HEAP_MAGIC (Z.b2z u) (a + SIZEOF_STRUCT_MEM + n) p.

(** The headers of blocks from address [a], the one before being at [p]. *)
Fixpoint seg (h : gmap Z heap_mem) (p a : Z) (bs : list block) : Prop :=
  match bs with
  | [] => True
  | (u, n) :: bs => h !! a = Some (header u a n p) /\ seg h a (a + SIZEOF_STRUCT_MEM + n) bs
  end.

(** The last header is in use. *)
Definition last_header (h : gmap Z heap_mem) (e : Z) : Prop := exists m, h !! e = Some m /\ used m = 1.

Definition chain (h : gmap Z heap_mem) (p a : Z) (bs : list block) : Prop :=
  seg h p a bs /\ last_header h (a + span bs).

(** Data sizes are multiples of the alignment. *)
Definition sized (b : block) : Prop := 4 <= b.2 /\ (4 | b.2).

Definition free_head (bs : list block) : bool := match bs with (u, _) :: _ => negb u | [] => false end.

(** No two free blocks are neighbours. *)
Fixpoint sep (bs : list block) : bool :=
  match bs with [] => true | (u, _) :: bs => (u || negb (free_head bs)) && sep bs end.

(** [l] is the address of a free block. *)
Fixpoint free_at (a l : Z) (bs : list block) : Prop :=
  match bs with
  | [] => False
  | (u, n) :: bs => (l = a /\ u = false) \/ free_at (a + SIZEOF_STRUCT_MEM + n) l bs
  end.

Fixpoint first_free (a : Z) (bs : list block) : Z :=
  match bs with
  | [] => a
  | (u, n) :: bs => if u then first_free (a + SIZEOF_STRUCT_MEM + n) bs else a
  end.

(** [lfree] is the address of a free block or of the last header. *)
Record heap_ok (s : heap_sys) (bs : list block) : Prop := {
  ok_chain : chain (hdrs s) 0 0 bs;
  ok_span : span bs = heap_end s;
  ok_sized : Forall sized bs;
  ok_sep : sep bs = true;
  ok_lfree : free_at 0 (lfree s) bs \/ lfree s = heap_end s;
  ok_size : 12 <= mem_size_aligned s < 2 ^ 32 - 24;
  ok_bytes : Z.of_nat (length (bytes s)) = mem_size_aligned s + 2 * SIZEOF_STRUCT_MEM /\ is_bytes (bytes s)
}.

(** [lfree] is the lowest free block, as its comment says. *)
Definition lowest (s : heap_sys) (bs : list block) : Prop := lfree s = first_free 0 bs.

(** What becomes of a free block of [n] bytes when [size] of them are taken. *)
Definition taken (size n : Z) : list block :=
  if size + SIZEOF_STRUCT_MEM + MIN_SIZE_ALIGNED <=? n
  then [(true, size); (false, n - SIZEOF_STRUCT_MEM - size)] else [(true, n)].

(** A block that cannot serve a request of [size] bytes. *)
Definition busy (size : Z) (b : block) : Prop := b.1 = true \/ b.2 < size.

(** No block can, except that a last block of exactly [size] bytes is not used. *)
Definition no_room (size : Z) (bs : list block) : Prop :=
  Forall (busy size) bs \/ exists lo, bs = lo ++ [(false, size)] /\ Forall (busy size) lo.

(** Free neighbours combined. *)
Fixpoint coalesce (bs : list block) : list block :=
  match bs with
  | [] => []
  | (true, n) :: bs => (true, n) :: coalesce bs
  | (false, n) :: bs =>
      match coalesce bs with
      | (false, n') :: r => (false, n + SIZEOF_STRUCT_MEM + n') :: r
      | r => (false, n) :: r
      end
  end.

(** ** Lemmas on blocks *)
Ltac mlia := unfold SIZEOF_STRUCT_MEM, MIN_SIZE_ALIGNED, MIN_SIZE in *; lia.

Lemma heap_span_app b1 b2 : span (b1 ++ b2) = span b1 + span b2.
Proof. induction b1 as [|[u n] b1 IH]; cbn; lia. Qed.

Lemma span_bounds bs : Forall sized bs -> 0 <= span bs /\ (4 | span bs).
Proof.
  induction 1 as [|[u n] bs [Hn Hd] _ [IH1 IH2]]; cbn in *; [split; [done|apply Z.divide_0_r]|].
  split; [mlia|]. apply Z.divide_add_r; [|done].
  apply Z.divide_add_r; [by exists 3|done].
Qed.

Lemma span_nil bs : Forall sized bs -> span bs <= 0 -> bs = [].
Proof.
  destruct 1 as [|[u n] bs [Hn Hd] H]; [done|]. cbn in *. apply span_bounds in H. mlia.
Qed.

Lemma heap_seg_app h p a b1 b2 :
  seg h p a (b1 ++ b2) <-> seg h p a b1 /\ seg h (last_at p a b1) (a + span b1) b2.
Proof.
  revert p a. induction b1 as [|[u n] b1 IH]; intros p a; cbn; [rewrite Z.add_0_r; tauto|].
  rewrite IH, !(Z.add_assoc a). tauto.
Qed.

Lemma chain_app h p a b1 b2 :
  chain h p a (b1 ++ b2) <-> seg h p a b1 /\ chain h (last_at p a b1) (a + span b1) b2.
Proof. unfold chain. rewrite heap_seg_app, heap_span_app, Z.add_assoc. tauto. Qed.

Lemma chain_cons h p a u n bs :
  chain h p a ((u, n) :: bs) <->
  h !! a = Some (header u a n p) /\ chain h a (a + SIZEOF_STRUCT_MEM + n) bs.
Proof. unfold chain. cbn. rewrite !(Z.add_assoc a). tauto. Qed.

(** The head of a chain, whether a block or the last header. *)
Lemma chain_head h p a bs : chain h p a bs ->
  exists m, h !! a = Some m /\ used m = Z.b2z (negb (free_head bs)).
Proof.
  destruct bs as [|[u n] bs]; intros [Hs (m & Hm & Hu)].
  - rewrite Z.add_0_r in Hm. by exists m.
  - destruct Hs as [Hh _]. eexists. split; [exact Hh|]. by destruct u.
Qed.

(** Writes outside the addresses of a chain. *)
Lemma seg_insert_high h p a bs x m : Forall sized bs -> a + span bs <= x ->
  seg h p a bs -> seg (<[x := m]> h) p a bs.
Proof.
  intros Hz. revert p a. induction Hz as [|[u n] bs [Hn _] Hz IH]; intros p a Hx; [done|].
  cbn in *. pose proof (span_bounds bs Hz). intros [Hh Hs].
  split; [rewrite lookup_insert_ne by mlia; done|]. apply IH; [mlia|done].
Qed.

Lemma seg_insert_low h p a bs x m : Forall sized bs -> x < a ->
  seg h p a bs -> seg (<[x := m]> h) p a bs.
Proof.
  intros Hz. revert p a. induction Hz as [|[u n] bs [Hn _] Hz IH]; intros p a Hx; [done|].
  cbn in *. intros [Hh Hs].
  split; [rewrite lookup_insert_ne by lia; done|]. apply IH; [mlia|done].
Qed.

Lemma chain_insert_low h p a bs x m : Forall sized bs -> x < a ->
  chain h p a bs -> chain (<[x := m]> h) p a bs.
Proof.
  intros Hz Hx [Hs (e & He & Hu)]. split; [by apply seg_insert_low|].
  exists e. rewrite lookup_insert_ne; [done|]. pose proof (span_bounds bs Hz). lia.
Qed.

(** The link back of a chain's head. *)
Lemma chain_set_prev h p p' a bs m : Forall sized bs -> h !! a = Some m -> chain h p a bs ->
  chain (<[a := m <| prev := p' |>]> h) p' a bs.
Proof.
  destruct bs as [|[u n] bs]; intros Hz Hm.
  - intros [_ (e & He & Hu)]. split; [done|]. cbn in *. rewrite Z.add_0_r in *.
    rewrite He in Hm. injection Hm as ->. eexists. split; [apply lookup_insert_eq|]. by destruct m.
  - inversion_clear Hz as [|? ? [Hn _] Hz']. rewrite !chain_cons. intros [Hh Hc].
    rewrite Hh in Hm. injection Hm as <-. split; [by rewrite lookup_insert_eq|].
    cbn in *. apply chain_insert_low; [done|mlia|done].
Qed.

(** The last header may keep its link. *)
Lemma chain_end_prev h p p' a : chain h p a [] -> chain h p' a [].
Proof. done. Qed.

Lemma chain_at h p a pre u n post : chain h p a (pre ++ (u, n) :: post) ->
  h !! (a + span pre) = Some (header u (a + span pre) n (last_at p a pre)).
Proof. by rewrite chain_app, chain_cons; intros (_ & ? & _). Qed.

(** A header of the middle is rewritten. *)
Lemma chain_update h pre u n post u' n' q :
  Forall sized pre -> Forall sized post -> 0 <= n' ->
  chain h 0 0 (pre ++ (u, n) :: post) -> last_at 0 0 pre = q ->
  chain h (span pre) (span pre + SIZEOF_STRUCT_MEM + n') post ->
  chain (<[span pre := header u' (span pre) n' q]> h) 0 0 (pre ++ (u', n') :: post).
Proof.
  intros Hz1 Hz2 Hn Hc <- Hp. rewrite chain_app in Hc |- *. destruct Hc as [Hs Hc]. rewrite chain_cons.
  split_and!; [apply seg_insert_high; [done|lia|done]|by rewrite lookup_insert_eq|].
  apply chain_insert_low; [done|mlia|done].
Qed.

(** Fewer blocks than headers. *)
Fixpoint starts (a : Z) (bs : list block) : list Z :=
  match bs with [] => [] | (_, n) :: bs => a :: starts (a + SIZEOF_STRUCT_MEM + n) bs end.

Lemma starts_length a bs : length (starts a bs) = length bs.
Proof. revert a. induction bs as [|[u n] bs IH]; intros a; cbn; [done|]. by rewrite IH. Qed.

Lemma starts_bound a bs x : Forall sized bs -> x ∈ starts a bs -> a <= x < a + span bs.
Proof.
  intros Hz. revert a. induction Hz as [|[u n] bs [Hn _] Hz IH]; intros a; [by intros ?%not_elem_of_nil|].
  cbn in *. pose proof (span_bounds bs Hz). intros [->|Hx%IH]%elem_of_cons; mlia.
Qed.

Lemma starts_nodup a bs : Forall sized bs -> NoDup (starts a bs).
Proof.
  intros Hz. revert a. induction Hz as [|[u n] bs [Hn _] Hz IH]; intros a; cbn in *; [constructor|].
  constructor; [|apply IH]. intros Hx%starts_bound; [mlia|done].
Qed.

Lemma starts_header h p a bs : seg h p a bs -> forall x, x ∈ starts a bs -> is_Some (h !! x).
Proof.
  revert p a. induction bs as [|[u n] bs IH]; intros p a; [by intros _ x ?%not_elem_of_nil|].
  intros [Hh Hs] x. cbn. intros [->|Hx]%elem_of_cons; [by rewrite Hh|by eapply IH].
Qed.

Lemma chain_headers h bs : Forall sized bs -> chain h 0 0 bs -> (length bs < size h)%nat.
Proof.
  intros Hz [Hs (m & Hm & _)]. rewrite <- (starts_length 0), <- size_dom.
  change (length (span bs :: starts 0 bs) <= size (dom h))%nat.
  rewrite <- (size_list_to_set (C := gset Z)).
  - apply subseteq_size. intros x [->|Hx]%elem_of_list_to_set%elem_of_cons; apply elem_of_dom.
    + rewrite Z.add_0_l in Hm. by rewrite Hm.
    + by eapply starts_header.
  - constructor; [|by apply starts_nodup]. intros Hx%starts_bound; [lia|done].
Qed.

(** Addresses of free blocks. *)
Lemma free_at_app a l b1 b2 : free_at a l (b1 ++ b2) <-> free_at a l b1 \/ free_at (a + span b1) l b2.
Proof.
  revert a. induction b1 as [|[u n] b1 IH]; intros a; cbn; [rewrite Z.add_0_r; tauto|].
  rewrite IH, !(Z.add_assoc a). tauto.
Qed.

Lemma free_at_bounds a l bs : Forall sized bs -> free_at a l bs -> a <= l < a + span bs.
Proof.
  intros Hz. revert a. induction Hz as [|[u n] bs [Hn _] Hz IH]; intros a; cbn in *; [done|].
  pose proof (span_bounds bs Hz). intros [[-> _]|Hl%IH]; mlia.
Qed.

Lemma free_at_split a l bs : free_at a l bs ->
  exists lo n hi, bs = lo ++ (false, n) :: hi /\ l = a + span lo.
Proof.
  revert a. induction bs as [|[u n] bs IH]; intros a; cbn; [done|].
  intros [[-> ->]|(lo & n' & hi & -> & ->)%IH].
  - exists [], n, bs. split; [done|]. cbn. lia.
  - exists ((u, n) :: lo), n', hi. split; [done|]. cbn. lia.
Qed.

Lemma first_free_app a b1 b2 :
  first_free a (b1 ++ b2) = if forallb fst b1 then first_free (a + span b1) b2 else first_free a b1.
Proof.
  revert a. induction b1 as [|[u n] b1 IH]; intros a; cbn; [by rewrite Z.add_0_r|].
  destruct u; [|done]. cbn. by rewrite IH, !(Z.add_assoc a).
Qed.

Lemma first_free_at a bs : free_at a (first_free a bs) bs \/ first_free a bs = a + span bs.
Proof.
  revert a. induction bs as [|[u n] bs IH]; intros a; cbn; [right; lia|].
  destruct u; [|by left; left]. destruct (IH (a + SIZEOF_STRUCT_MEM + n)) as [H|H]; [by left; right|right; lia].
Qed.

Lemma first_free_bounds a bs : Forall sized bs -> a <= first_free a bs <= a + span bs.
Proof.
  intros Hz. destruct (first_free_at a bs) as [H|H]; [apply free_at_bounds in H; [lia|done]|].
  pose proof (span_bounds bs Hz). lia.
Qed.

Lemma first_free_used a bs : Forall sized bs -> forallb fst bs = false -> first_free a bs < a + span bs.
Proof.
  intros Hz. revert a. induction Hz as [|[u n] bs [Hn _] Hz IH]; intros a; cbn in *; [done|].
  pose proof (span_bounds bs Hz). destruct u; [|mlia]. intros Hu. specialize (IH (a + SIZEOF_STRUCT_MEM + n) Hu). lia.
Qed.

Lemma lowest_used lo n hi : Forall sized lo -> span lo = first_free 0 (lo ++ (false, n) :: hi) -> forallb fst lo = true.
Proof.
  intros Hz. rewrite first_free_app. destruct (forallb fst lo) eqn:E; [done|].
  intros H. pose proof (first_free_used 0 lo Hz E). lia.
Qed.

(** Separated lists. *)
Lemma sep_app b1 b b2 : sep (b1 ++ b :: b2) = sep (b1 ++ [b]) && sep (b :: b2).
Proof.
  induction b1 as [|[u n] b1 IH]; cbn [app sep]; [destruct b as [u n]; cbn; by rewrite orb_true_r|].
  rewrite IH, andb_assoc. do 3 f_equal. destruct b1; [by destruct b|done].
Qed.

Lemma sep_last b1 u n n' : sep (b1 ++ [(u, n)]) = sep (b1 ++ [(u, n')]).
Proof.
  induction b1 as [|[v k] b1 IH]; cbn [app sep]; [done|]. rewrite IH. do 3 f_equal. by destruct b1.
Qed.

Lemma sep_init b1 b2 : sep (b1 ++ b2) = true -> sep b1 = true /\ sep b2 = true.
Proof.
  induction b1 as [|[u n] b1 IH]; cbn [app sep]; [done|]. intros [H1 [-> ->]%IH]%andb_true_iff.
  split; [|done]. destruct b1; [by destruct u|]. by rewrite andb_true_r.
Qed.

Lemma sep_used b1 n : sep b1 = true -> sep (b1 ++ [(true, n)]) = true.
Proof.
  induction b1 as [|[u k] b1 IH]; cbn [app sep]; [done|]. intros [H1 ->%IH]%andb_true_iff.
  rewrite andb_true_r. destruct b1; [|done]. cbn. by rewrite orb_true_r.
Qed.

Lemma coalesce_sep bs : sep bs = true -> coalesce bs = bs.
Proof.
  induction bs as [|[u n] bs IH]; cbn; [done|]. intros [H1 ->%IH]%andb_true_iff.
  destruct u; [done|]. by destruct bs as [|[[] ?] ?].
Qed.

(** The head of a coalesced list. *)
Lemma coalesce_app b1 b b2 : sep (b1 ++ [b]) = true -> coalesce (b :: b2) = b :: b2 ->
  coalesce (b1 ++ b :: b2) = b1 ++ b :: b2.
Proof.
  intros Hs Hb. induction b1 as [|[u n] b1 IH]; [done|]. cbn [app sep] in Hs. apply andb_true_iff in Hs as [H1 H2].
  cbn. rewrite (IH H2). destruct u; [done|]. destruct b1 as [|[[] ?] ?]; [|done..]. by destruct b as [[] ?].
Qed.

Lemma coalesce_cong b1 x y : coalesce x = coalesce y -> coalesce (b1 ++ x) = coalesce (b1 ++ y).
Proof. intros H. induction b1 as [|[u n] b1 IH]; cbn; [done|]. by rewrite IH. Qed.

Lemma coalesce_pair n1 n2 r :
  coalesce ((false, n1) :: (false, n2) :: r) = coalesce ((false, n1 + SIZEOF_STRUCT_MEM + n2) :: r).
Proof. cbn. destruct (coalesce r) as [|[[] ?] ?]; [done..|]. do 2 f_equal. lia. Qed.

(** ** Headers in memory *)
Lemma run_get_mem {B} a m (k : heap_mem -> M heap_sys B) s : hdrs s !! a = Some m ->
  (get_mem a ≫= k) s = k m s.
Proof. intros H. unfold get_mem. rewrite run_bind_bind, run_bind_gets, H. done. Qed.

Lemma run_put_mem {B} a m (k : unit -> M heap_sys B) h b l t :
  (put_mem a m ≫= k) (MkHeap h b l t) = k tt (MkHeap (<[a := m]> h) b l t).
Proof. done. Qed.

Definition lfree_ok (l : Z) (bs : list block) : Prop := free_at 0 l bs \/ l = span bs.

Lemma sized_cons u n bs : Forall sized ((u, n) :: bs) <-> 4 <= n /\ (4 | n) /\ Forall sized bs.
Proof. rewrite Forall_cons. unfold sized. cbn. tauto. Qed.

Lemma sized_middle u n pre post :
  Forall sized (pre ++ (u, n) :: post) <-> Forall sized pre /\ 4 <= n /\ (4 | n) /\ Forall sized post.
Proof. by rewrite Forall_app, sized_cons. Qed.

Lemma sized_pair pre u1 n1 u2 n2 post :
  Forall sized (pre ++ (u1, n1) :: (u2, n2) :: post) <->
  Forall sized pre /\ 4 <= n1 /\ (4 | n1) /\ 4 <= n2 /\ (4 | n2) /\ Forall sized post.
Proof. by rewrite sized_middle, sized_cons. Qed.

(** Two free neighbours become one block. *)
Lemma combine_chain h pre n1 n2 post :
  let a := span pre in let nx := a + SIZEOF_STRUCT_MEM + n1 + SIZEOF_STRUCT_MEM + n2 in
  Forall sized (pre ++ (false, n1) :: (false, n2) :: post) ->
  chain h 0 0 (pre ++ (false, n1) :: (false, n2) :: post) ->
  exists x, <[a := (header false a n1 (last_at 0 0 pre)) <| next := nx |>]> h !! nx = Some x /\
    chain (<[nx := x <| prev := a |>]> (<[a := (header false a n1 (last_at 0 0 pre)) <| next := nx |>]> h)) 0 0
      (pre ++ (false, n1 + SIZEOF_STRUCT_MEM + n2) :: post).
Proof.
  intros a nx (Hp & H1 & _ & H2 & _ & Hq)%sized_pair.
  rewrite !chain_app, !chain_cons. intros (Hs & _ & _ & Hc).
  pose proof (span_bounds pre Hp) as [Ha _].
  apply (chain_insert_low _ _ _ _ a ((header false a n1 (last_at 0 0 pre)) <| next := nx |>)) in Hc; [|done|mlia].
  rewrite !Z.add_0_l in *. fold a in Hc. fold nx in Hc. destruct (chain_head _ _ _ _ Hc) as (x & Hx & _).
  exists x. split; [exact Hx|]. rewrite chain_app, chain_cons, !Z.add_0_l. split_and!.
  - apply seg_insert_high; [done|mlia|]. apply seg_insert_high; [done|mlia|done].
  - rewrite lookup_insert_ne by mlia. rewrite lookup_insert_eq. unfold header, upd, nx, a; cbn. do 2 f_equal. mlia.
  - replace (span pre + SIZEOF_STRUCT_MEM + (n1 + SIZEOF_STRUCT_MEM + n2)) with nx by mlia.
    by eapply chain_set_prev.
Qed.

Lemma combine_lfree l pre n1 n2 post :
  let a := span pre in
  let l' := if l =? a + SIZEOF_STRUCT_MEM + n1 then a else l in
  let bs := pre ++ (false, n1) :: (false, n2) :: post in
  let bs' := pre ++ (false, n1 + SIZEOF_STRUCT_MEM + n2) :: post in
  Forall sized bs -> lfree_ok l bs ->
  lfree_ok l' bs' /\ (l = first_free 0 bs -> l' = first_free 0 bs') /\ (free_at 0 l bs -> free_at 0 l' bs').
Proof.
  intros a l' bs bs' (Hp & H1 & _ & H2 & _ & Hq)%sized_pair Hl. split_and!.
  - unfold lfree_ok, bs, bs', l' in *. rewrite !free_at_app, !heap_span_app in *. cbn in *.
    pose proof (span_bounds post Hq). rewrite !(Z.add_assoc (span pre)), ?(Z.add_assoc _ n1) in *.
    rewrite !Z.add_0_l in *.
    replace (span pre + SIZEOF_STRUCT_MEM + (n1 + SIZEOF_STRUCT_MEM + n2))
      with (span pre + SIZEOF_STRUCT_MEM + n1 + SIZEOF_STRUCT_MEM + n2) by lia.
    destruct (Z.eqb_spec l (a + SIZEOF_STRUCT_MEM + n1)) as [->|Hne]; [left; right; left; subst a; split; [lia|done]|].
    destruct Hl as [[?|[[-> _]|[[-> _]|?]]]|?]; [tauto|left; right; left; split; [lia|done]|subst a; lia|tauto|right; lia].
  - intros ->. unfold l', bs, bs'. rewrite !first_free_app. cbn. pose proof (first_free_bounds 0 pre Hp).
    rewrite ?Z.add_0_l in *.
    destruct (forallb fst pre); rewrite (proj2 (Z.eqb_neq _ _)) by (subst a; mlia); done.
  - clear Hl. intros Hl. unfold bs, bs', l' in *. rewrite !free_at_app in *. cbn in *. rewrite !Z.add_0_l in *.
    replace (span pre + SIZEOF_STRUCT_MEM + (n1 + SIZEOF_STRUCT_MEM + n2))
      with (span pre + SIZEOF_STRUCT_MEM + n1 + SIZEOF_STRUCT_MEM + n2) by lia.
    destruct (Z.eqb_spec l (a + SIZEOF_STRUCT_MEM + n1)) as [->|Hne]; [right; left; subst a; split; [lia|done]|]. tauto.
Qed.

Lemma combine_ok h b l t pre n1 n2 post :
  let a := span pre in
  let bs := pre ++ (false, n1) :: (false, n2) :: post in
  let bs' := pre ++ (false, n1 + SIZEOF_STRUCT_MEM + n2) :: post in
  Forall sized bs -> chain h 0 0 bs -> lfree_ok l bs ->
  exists h' l', combine a (header false a n1 (last_at 0 0 pre)) (a + SIZEOF_STRUCT_MEM + n1)
      (header false (a + SIZEOF_STRUCT_MEM + n1) n2 a) (MkHeap h b l t) = Ok (tt, MkHeap h' b l' t) /\
    chain h' 0 0 bs' /\ lfree_ok l' bs' /\ (l = first_free 0 bs -> l' = first_free 0 bs') /\ (free_at 0 l bs -> free_at 0 l' bs').
Proof.
  intros a bs bs' Hz Hc Hl. destruct (combine_lfree l pre n1 n2 post Hz Hl) as (Hl1 & Hl2 & Hl3).
  destruct (combine_chain h pre n1 n2 post Hz Hc) as (x & Hx & Hc').
  eexists _, _. split; [|split_and!; [exact Hc'|exact Hl1|exact Hl2|exact Hl3]].
  unfold combine. rewrite run_bind_gets. cbn [lfree].
  assert (forall b' : bool, (when b' do lfree ::= a) (MkHeap h b l t) = Ok (tt, MkHeap h b (if b' then a else l) t)) as Hw
    by by intros [].
  erewrite run_bind_ok by apply Hw. rewrite run_put_mem.
  erewrite run_get_mem by exact Hx. done.
Qed.

Lemma last_at_snoc p a bs b : last_at p a (bs ++ [b]) = a + span bs.
Proof.
  destruct b as [u n]. revert p a. induction bs as [|[v k] bs IH]; intros p a; cbn; [lia|]. rewrite IH. lia.
Qed.

Lemma coalesce_sized bs : Forall sized bs -> Forall sized (coalesce bs).
Proof.
  induction 1 as [|[[] n] bs [Hn Hd] _ IH]; cbn in *; [constructor|by constructor|].
  destruct (coalesce bs) as [|[[] k] r]; [by repeat constructor|by constructor|].
  apply sized_cons in IH as (Hk & Hk' & Hr). constructor; [|done]. split; cbn; [mlia|].
  apply Z.divide_add_r; [apply Z.divide_add_r; [done|by exists 3]|done].
Qed.

Lemma coalesce_span bs : span (coalesce bs) = span bs.
Proof.
  induction bs as [|[[] n] bs IH]; cbn; [done|lia|]. rewrite <- IH.
  destruct (coalesce bs) as [|[[] k] r]; cbn; lia.
Qed.

Lemma sep_coalesce bs : sep (coalesce bs) = true.
Proof.
  induction bs as [|[[] n] bs IH]; cbn; [done|done|].
  destruct (coalesce bs) as [|[[] k] r]; cbn in *; done.
Qed.

(** What the code's two steps keep: the chain, [lfree], and that it is the
    lowest. *)
Definition heap_steps (l : Z) (bs : list block) (h' : gmap Z heap_mem) (l' : Z) (bs' : list block) : Prop :=
  chain h' 0 0 bs' /\ lfree_ok l' bs' /\ (l = first_free 0 bs -> l' = first_free 0 bs').
Definition plug_steps (l : Z) (bs : list block) (h' : gmap Z heap_mem) (l' : Z) (bs' : list block) : Prop :=
  heap_steps l bs h' l' bs' /\ (free_at 0 l bs -> free_at 0 l' bs').

Section Plug.
Context (h : gmap Z heap_mem) (b : list Z) (l t : Z) (pre : list block) (n : Z) (post : list block).
Let bs := pre ++ (false, n) :: post.
Hypothesis Hz : Forall sized bs.
Hypothesis Hc : chain h 0 0 bs.
Hypothesis Ht : span bs = t + SIZEOF_STRUCT_MEM.
Hypothesis Hl : lfree_ok l bs.

Lemma plug_mem_header : h !! span pre = Some (header false (span pre) n (last_at 0 0 pre)).
Proof using Hc. apply (chain_at _ _ _ _ _ _ _ Hc). Qed.

Lemma plug_forward : sep post = true ->
  exists m h' l' n' post',
    h !! (span pre + SIZEOF_STRUCT_MEM + n) = Some m /\
    (when negb (span pre =? span pre + SIZEOF_STRUCT_MEM + n) && (used m =? 0) &&
          negb (span pre + SIZEOF_STRUCT_MEM + n =? t + SIZEOF_STRUCT_MEM)
     do combine (span pre) (header false (span pre) n (last_at 0 0 pre)) (span pre + SIZEOF_STRUCT_MEM + n) m)
      (MkHeap h b l t) = Ok (tt, MkHeap h' b l' t) /\
    plug_steps l bs h' l' (pre ++ (false, n') :: post') /\
    coalesce (pre ++ (false, n') :: post') = coalesce bs /\ coalesce ((false, n') :: post') = (false, n') :: post' /\
    Forall sized (pre ++ (false, n') :: post').
Proof using All.
  intros Hs. pose proof Hz as (Hp & Hn & Hn4 & Hq)%sized_middle.
  pose proof Hc as (Hs1 & Hc1)%chain_app. rewrite chain_cons, !Z.add_0_l in Hc1. destruct Hc1 as [Hm Hc1].
  destruct (chain_head _ _ _ _ Hc1) as (m & Hm1 & Hu).
  assert ((span pre =? span pre + SIZEOF_STRUCT_MEM + n) = false) as Hne by (apply Z.eqb_neq; mlia).
  exists m. rewrite Hne, Hu. unfold bs in *. destruct post as [|[[] n2] post2]; cbn [free_head negb Z.b2z].
  - exists h, l, n, []. split; [done|]. cbn. split_and!; [done|done|done..].
  - exists h, l, n, ((true, n2) :: post2). split; [done|]. cbn. split_and!; [done|done|done| |done].
    do 2 f_equal. by rewrite coalesce_sep by done.
  - assert (m = header false (span pre + SIZEOF_STRUCT_MEM + n) n2 (span pre)) as ->.
    { rewrite chain_cons in Hc1. destruct Hc1 as [Hc1 _]. rewrite Hc1 in Hm1. by injection Hm1. }
    destruct (combine_ok h b l t pre n n2 post2 Hz Hc Hl) as (h' & l' & Hr & Hc' & Hl' & Hlow & Hfr).
    rewrite (proj2 (Z.eqb_neq _ (t + _))).
    2: { rewrite <- Ht. rewrite heap_span_app. cbn. inversion_clear Hq as [|? ? [? _] H2]. apply span_bounds in H2. cbn in *. mlia. }
    exists h', l', (n + SIZEOF_STRUCT_MEM + n2), post2. cbn [andb negb Z.eqb].
    cbn [sep] in Hs. apply andb_true_iff in Hs as [Hs1' Hs2].
    split_and!; [done|exact Hr|done..| | |].
    + apply coalesce_cong. by rewrite coalesce_pair.
    + apply coalesce_sep. cbn [sep]. by rewrite Hs2, andb_true_r.
    + apply sized_middle. apply sized_cons in Hq as (? & ? & ?). split_and!; [done|mlia| |done].
      apply Z.divide_add_r; [apply Z.divide_add_r; [done|by exists 3]|done].
Qed.

Lemma plug_backward : sep pre = true -> coalesce ((false, n) :: post) = (false, n) :: post ->
  exists m h' l',
    h !! last_at 0 0 pre = Some m /\
    (when negb (last_at 0 0 pre =? span pre) && (used m =? 0)
     do combine (last_at 0 0 pre) m (span pre) (header false (span pre) n (last_at 0 0 pre)))
      (MkHeap h b l t) = Ok (tt, MkHeap h' b l' t) /\
    plug_steps l bs h' l' (coalesce bs).
Proof using All.
  intros Hs Hq. pose proof plug_mem_header as Hm. unfold bs in *.
  destruct (decide (pre = [])) as [->|Hne]; [|destruct (exists_last Hne) as (pre0 & [u n0] & ->); clear Hne].
  - exists (header false 0 n 0), h, l. split; [done|]. split; [done|]. by rewrite app_nil_l, Hq.
  - rewrite last_at_snoc, Z.add_0_l in *. rewrite <- !(app_assoc pre0) in *. cbn [app] in *.
    pose proof Hz as (Hp & Hn0 & _)%sized_middle.
    pose proof (chain_at _ _ _ _ _ _ _ Hc) as Hm0. rewrite Z.add_0_l in Hm0.
    exists (header u (span pre0) n0 (last_at 0 0 pre0)). rewrite Hm0.
    assert (span (pre0 ++ [(u, n0)]) = span pre0 + SIZEOF_STRUCT_MEM + n0) as Hsp by (rewrite heap_span_app; cbn; lia).
    rewrite Hsp. rewrite (proj2 (Z.eqb_neq (span pre0) (span pre0 + SIZEOF_STRUCT_MEM + n0))) by mlia. destruct u; cbn [header used Z.b2z].
    + exists h, l. split; [done|]. split; [done|].
      assert (coalesce (pre0 ++ (true, n0) :: (false, n) :: post) = pre0 ++ (true, n0) :: (false, n) :: post) as ->; [|done].
      apply coalesce_app; [done|]. change ((true, n0) :: coalesce ((false, n) :: post) = (true, n0) :: (false, n) :: post). by rewrite Hq.
    + destruct (combine_ok h b l t pre0 n0 n post Hz Hc Hl) as (h' & l' & Hr & Hc' & Hl' & Hlow & Hfr).
      exists h', l'. split; [done|]. cbn [negb andb Z.eqb]. split; [exact Hr|].
      assert (coalesce (pre0 ++ (false, n0) :: (false, n) :: post) =
              pre0 ++ (false, n0 + SIZEOF_STRUCT_MEM + n) :: post) as ->; [|done].
      rewrite (coalesce_cong pre0 _ _ (coalesce_pair n0 n post)). apply coalesce_app; [by rewrite (sep_last _ _ _ n0)|].
      clear -Hq. cbn in *. destruct (coalesce post) as [|[[] ?] ?]; simplify_eq; [done|done|do 2 f_equal; lia].
Qed.
End Plug.

Lemma span_middle pre u n post : Forall sized (pre ++ (u, n) :: post) ->
  0 <= span pre /\ (4 | span pre) /\ 4 <= n /\ span pre + SIZEOF_STRUCT_MEM + n <= span (pre ++ (u, n) :: post).
Proof.
  intros (Hp & Hn & _ & Hq)%sized_middle. rewrite heap_span_app. cbn.
  pose proof (span_bounds pre Hp). pose proof (span_bounds post Hq). split_and!; [tauto|tauto|tauto|lia].
Qed.

Lemma plug_holes_ok h b l t pre n post :
  let bs := pre ++ (false, n) :: post in
  Forall sized bs -> chain h 0 0 bs -> span bs = t + SIZEOF_STRUCT_MEM -> lfree_ok l bs ->
  sep pre = true -> sep post = true ->
  exists h' l', plug_holes (span pre) (MkHeap h b l t) = Ok (tt, MkHeap h' b l' t) /\
    plug_steps l bs h' l' (coalesce bs).
Proof.
  intros bs Hz Hc Ht Hl Hs1 Hs2.
  pose proof (plug_mem_header _ _ _ _ Hc) as Hm.
  destruct (plug_forward h b l t pre n post Hz Hc Ht Hl Hs2)
    as (m & h1 & l1 & n1 & post1 & Hm1 & Hr1 & ((Hc1 & Hl1 & Hlow1) & Hfr1) & Hco & Hco1 & Hz1).
  assert (span (pre ++ (false, n1) :: post1) = t + SIZEOF_STRUCT_MEM) as Ht1.
  { rewrite <- coalesce_span, Hco, coalesce_span. exact Ht. }
  pose proof (plug_mem_header _ _ _ _ Hc1) as Hm2.
  destruct (plug_backward h1 b l1 t pre n1 post1 Hz1 Hc1 Ht1 Hl1 Hs1 Hco1)
    as (m' & h2 & l2 & Hm3 & Hr2 & ((Hc2 & Hl2 & Hlow2) & Hfr2)).
  rewrite Hco in *. exists h2, l2. split; [|split; [split_and!; [done|done|by auto]|by auto]].
  pose proof (span_middle pre false n post Hz) as (Hp0 & _ & Hn4 & Hp1). fold bs in Hp1.
  unfold plug_holes. rewrite run_bind_gets. cbn [heap_end mem_size_aligned].
  rewrite (proj2 (Z.geb_le _ _)) by lia. rewrite run_bind_assert.
  rewrite (proj2 (Z.ltb_lt _ _)) by (unfold heap_end; cbn [mem_size_aligned]; mlia).
  rewrite run_bind_assert. erewrite run_get_mem by exact Hm. rewrite run_bind_assert.
  erewrite run_get_mem by exact Hm1. erewrite run_bind_ok by exact Hr1. cbv beta.
  erewrite run_get_mem by exact Hm2. erewrite run_get_mem by exact Hm3. exact Hr2.
Qed.

(** ** Freeing *)
Lemma land_3 a : (4 | a) -> Z.land a 3 = 0.
Proof. intros H. change 3 with (Z.ones 2). rewrite Z.land_ones by done. by apply Z.mod_divide. Qed.

(** The lowest free block after the block at [span pre] becomes free. *)
Lemma free_lfree l pre n post :
  let a := span pre in let l' := if a <? l then a else l in
  let bs := pre ++ (true, n) :: post in let bs' := pre ++ (false, n) :: post in
  Forall sized bs -> lfree_ok l bs -> lfree_ok l' bs' /\ (l = first_free 0 bs -> l' = first_free 0 bs') /\ free_at 0 l' bs'.
Proof.
  intros a l' bs bs' (Hp & Hn & _ & Hq)%sized_middle Hl. split_and!.
  - unfold lfree_ok, bs, bs', l', a in *. rewrite !free_at_app, !heap_span_app in *. cbn in *.
    destruct (Z.ltb_spec (span pre) l); [left; right; left; split; [lia|done]|].
    pose proof (span_bounds post Hq).
    destruct Hl as [[?|[[-> ?]|?]]|?]; [tauto|done|tauto|right; lia].
  - intros ->. unfold l', bs, bs', a. rewrite !first_free_app. cbn. rewrite !Z.add_0_l.
    destruct (forallb fst pre) eqn:E.
    + pose proof (first_free_bounds (span pre + SIZEOF_STRUCT_MEM + n) post Hq).
      rewrite (proj2 (Z.ltb_lt _ _)); [done|mlia].
    + pose proof (first_free_used 0 pre Hp E). by rewrite (proj2 (Z.ltb_ge _ _)) by lia.
  - unfold lfree_ok, bs, bs', l', a in *. rewrite !free_at_app, !heap_span_app in *. cbn in *.
    pose proof (span_bounds post Hq) as [Hpq _].
    destruct (Z.ltb_spec (span pre) l); [right; left; split; [lia|done]|].
    destruct Hl as [[?|[[-> ?]|?]]|?]; [tauto|done|tauto|mlia].
Qed.

Lemma sized_flag u u' pre n post : Forall sized (pre ++ (u, n) :: post) -> Forall sized (pre ++ (u', n) :: post).
Proof. by rewrite !sized_middle. Qed.

Lemma span_flag u u' pre n post : span (pre ++ (u, n) :: post) = span (pre ++ (u', n) :: post).
Proof. by rewrite !heap_span_app. Qed.

(** What plugging the holes of a list of blocks establishes. *)
Lemma plugged_ok h b l l1 t pre n post h' l' bs :
  let bs1 := pre ++ (false, n) :: post in
  plug_steps l1 bs1 h' l' (coalesce bs1) -> Forall sized bs1 -> span bs1 = span bs ->
  heap_ok (MkHeap h b l t) bs -> heap_ok (MkHeap h' b l' t) (coalesce bs1).
Proof.
  intros bs1 ((Hc & Hl & _) & _) Hz Hsp [_ Ht _ _ _ Hn Hb]. cbn in *. split; cbn; [done|..|done|done].
  - rewrite coalesce_span. by rewrite Hsp.
  - by apply coalesce_sized.
  - apply sep_coalesce.
  - unfold lfree_ok in Hl. rewrite coalesce_span, Hsp, Ht in Hl. exact Hl.
Qed.

Lemma rt_free_ok h b l t pre n post :
  let bs := pre ++ (true, n) :: post in let bs' := coalesce (pre ++ (false, n) :: post) in
  heap_ok (MkHeap h b l t) bs ->
  exists h' l', rt_free (Some (span pre + SIZEOF_STRUCT_MEM)) (MkHeap h b l t) = Ok (tt, MkHeap h' b l' t) /\
    heap_ok (MkHeap h' b l' t) bs' /\
    (l = first_free 0 bs -> l' = first_free 0 bs') /\ free_at 0 l' bs'.
Proof.
  intros bs bs' Hok. pose proof Hok as [Hc Ht Hz Hs Hl Hn Hb]. cbn [hdrs lfree mem_size_aligned] in *.
  unfold heap_end in Ht, Hl. cbn [mem_size_aligned] in *. rewrite <- Ht in Hl.
  pose proof (span_middle pre true n post Hz) as (Hp0 & Hp4 & Hn4 & Hp1). fold bs in Hp1.
  pose proof (chain_at _ _ _ _ _ _ _ Hc) as Hm. rewrite Z.add_0_l in Hm.
  pose proof Hz as (Hzp & _ & _ & Hzq)%sized_middle.
  assert (chain (<[span pre := header false (span pre) n (last_at 0 0 pre)]> h) 0 0 (pre ++ (false, n) :: post)) as Hc1.
  { eapply chain_update; [done..|lia|exact Hc|done|]. apply chain_app in Hc. rewrite chain_cons in Hc. by destruct Hc as (_ & _ & ?). }
  destruct (free_lfree l pre n post Hz Hl) as (Hl1 & Hlow1 & Hfr1).
  pose proof (sep_init _ _ Hs) as [Hs1 Hs2]. cbn [sep orb] in Hs2. cbn in Hs2.
  destruct (plug_holes_ok _ b (if span pre <? l then span pre else l) t pre n post (sized_flag _ _ _ _ _ Hz) Hc1) as (h' & l' & Hr & Hst); [|exact Hl1|done..|].
  { rewrite (span_flag _ true). exact Ht. }
  exists h', l'. split; [|split_and!; [|intros E; by apply Hst, Hlow1|by apply Hst]].
  2: { eapply plugged_ok; [exact Hst|by eapply sized_flag|by rewrite (span_flag _ true)|exact Hok]. }
  unfold rt_free. rewrite run_bind_gets.
  rewrite land_3 by (apply Z.divide_add_r; [done|by exists 3]). rewrite run_bind_assert.
  rewrite (proj2 (Z.geb_le _ _)) by mlia. rewrite (proj2 (Z.ltb_lt _ _)) by (unfold heap_end; cbn [mem_size_aligned]; mlia).
  rewrite run_bind_assert. cbn zeta.
  replace (span pre + SIZEOF_STRUCT_MEM - SIZEOF_STRUCT_MEM) with (span pre) by lia.
  erewrite run_get_mem by exact Hm. rewrite !run_bind_assert, run_put_mem, run_bind_gets. cbn [lfree].
  destruct (span pre <? l); [rewrite run_bind_modify|rewrite run_bind_skip]; exact Hr.
Qed.

(** ** Splitting *)
Lemma split_block_ok h b l t pre u0 n post size u :
  let a := span pre in
  let bs := pre ++ (u0, n) :: post in
  let bs' := pre ++ (u, size) :: (false, n - SIZEOF_STRUCT_MEM - size) :: post in
  Forall sized bs -> chain h 0 0 bs -> span bs = t + SIZEOF_STRUCT_MEM ->
  0 <= size -> size + SIZEOF_STRUCT_MEM <= n ->
  exists h', split_block a size (Z.b2z u) (header u0 a n (last_at 0 0 pre)) (MkHeap h b l t) =
      Ok (tt, MkHeap h' b l t) /\ chain h' 0 0 bs'.
Proof.
  intros a bs bs' Hz Hc Ht H0 Hn. pose proof Hz as (Hp & _ & _ & Hq)%sized_middle.
  pose proof (span_bounds pre Hp) as [Ha _]. fold a in Ha.
  pose proof Hc as (Hs & Hc1)%chain_app. rewrite chain_cons, !Z.add_0_l in Hc1. destruct Hc1 as [_ Hc1]. fold a in Hc1.
  set (ptr2 := a + SIZEOF_STRUCT_MEM + size). set (nx := a + SIZEOF_STRUCT_MEM + n) in *.
  set (m1 := header u a size (last_at 0 0 pre)). set (m2 := header false ptr2 (n - SIZEOF_STRUCT_MEM - size) a).
  assert (chain (<[a := m1]> (<[ptr2 := m2]> h)) a nx post) as Hc2.
  { apply chain_insert_low; [done|mlia|]. apply chain_insert_low; [done|mlia|done]. }
  assert (forall h', chain h' ptr2 nx post -> h' !! a = Some m1 -> h' !! ptr2 = Some m2 -> seg h' 0 0 pre ->
    chain h' 0 0 bs') as Hall.
  { intros h' Hh' E1 E2 Es. unfold bs'. rewrite chain_app, !chain_cons, !Z.add_0_l. split_and!; [done..|].
    replace (span pre + _ + _ + _ + _) with nx by mlia. exact Hh'. }
  unfold split_block. rewrite run_bind_gets. cbn [heap_end mem_size_aligned].
  assert (MkMem HEAP_MAGIC 0 (next (header u0 a n (last_at 0 0 pre))) a = m2) as E2
    by (unfold m2, header; cbn; f_equal; mlia).
  cbn zeta. fold ptr2. rewrite E2, run_put_mem.
  change ((header u0 a n (last_at 0 0 pre)) <| next := ptr2 |> <| used := Z.b2z u |>) with m1. rewrite run_put_mem.
  change (next (header u0 a n (last_at 0 0 pre))) with nx. unfold heap_end. cbn [mem_size_aligned].
  destruct (Z.eqb_spec nx (t + SIZEOF_STRUCT_MEM)) as [E|E]; cbn [negb].
  - eexists. split; [done|]. apply Hall.
    + rewrite (span_nil post Hq); [|unfold bs in Ht; rewrite heap_span_app in Ht; cbn in Ht; mlia].
      rewrite (span_nil post Hq) in Hc2; [|unfold bs in Ht; rewrite heap_span_app in Ht; cbn in Ht; mlia]. exact Hc2.
    + by rewrite lookup_insert_eq.
    + rewrite lookup_insert_ne by mlia. by rewrite lookup_insert_eq.
    + apply seg_insert_high; [done|mlia|]. apply seg_insert_high; [done|mlia|done].
  - destruct (chain_head _ _ _ _ Hc2) as (x & Hx & _). erewrite run_get_mem by exact Hx.
    eexists. split; [done|]. apply Hall.
    + by eapply chain_set_prev.
    + cbn [hdrs]. rewrite lookup_insert_ne by mlia. by rewrite lookup_insert_eq.
    + cbn [hdrs]. rewrite !lookup_insert_ne by mlia. by rewrite lookup_insert_eq.
    + cbn [hdrs]. do 3 (apply seg_insert_high; [done|mlia|]). done.
Qed.

(** ** Searching *)
Lemma lfree_loop_ok h b t lo hi fuel :
  Forall sized (lo ++ hi) -> chain h 0 0 (lo ++ hi) -> span (lo ++ hi) = t + SIZEOF_STRUCT_MEM ->
  (length hi < fuel)%nat ->
  lfree_loop fuel (MkHeap h b (span lo) t) = Ok (tt, MkHeap h b (first_free (span lo) hi) t).
Proof.
  revert lo fuel. induction hi as [|[u n] hi IH]; intros lo [|fuel] Hz Hc Ht Hf; try (cbn in Hf; lia);
    cbn [lfree_loop]; rewrite run_bind_gets; cbn [lfree].
  - rewrite app_nil_r in *. destruct Hc as [_ (m & Hm & Hu)]. rewrite Z.add_0_l in Hm.
    erewrite run_get_mem by exact Hm. rewrite run_bind_gets. unfold heap_end; cbn [mem_size_aligned].
    rewrite Ht, Z.eqb_refl, andb_false_r. done.
  - pose proof (chain_at _ _ _ _ _ _ _ Hc) as Hm. rewrite Z.add_0_l in Hm.
    pose proof (span_middle _ _ _ _ Hz) as (_ & _ & Hn & Hsp).
    erewrite run_get_mem by exact Hm. rewrite run_bind_gets. unfold heap_end; cbn [mem_size_aligned].
    rewrite (proj2 (Z.eqb_neq (span lo) (t + _))) by mlia. cbn [header used]. destruct u; [|done]. cbn [negb andb Z.b2z Z.eqb].
    rewrite run_bind_modify. cbn [first_free].
    change ((MkHeap h b (span lo) t) <| lfree := next (header true (span lo) n (last_at 0 0 lo)) |>)
      with (MkHeap h b (span lo + SIZEOF_STRUCT_MEM + n) t).
    replace (span lo + SIZEOF_STRUCT_MEM + n) with (span (lo ++ [(true, n)])) by (rewrite heap_span_app; cbn; lia).
    apply IH; rewrite <- ?app_assoc; [done..|cbn in Hf; lia].
Qed.

(** The block the search ends at is free, or the last header. *)
Lemma lfree_ok_header h l t bs : chain h 0 0 bs -> span bs = t + SIZEOF_STRUCT_MEM -> lfree_ok l bs ->
  exists m, h !! l = Some m /\ (l =? t + SIZEOF_STRUCT_MEM) || (used m =? 0) = true.
Proof.
  intros Hc Ht [(lo & n & hi & -> & ->)%free_at_split| ->].
  - exists (header false (span lo) n (last_at 0 0 lo)). split; [|by rewrite orb_true_r].
    apply (chain_at _ _ _ _ _ _ _ Hc).
  - destruct Hc as [_ (m & Hm & _)]. exists m. split; [exact Hm|]. by rewrite Ht, Z.eqb_refl.
Qed.


(** ** Taking a block *)
Lemma span_taken size n : span (taken size n) = SIZEOF_STRUCT_MEM + n.
Proof. unfold taken. case_match; cbn; lia. Qed.

Lemma taken_sized size n post pre : 4 <= size -> (4 | size) -> size <= n ->
  Forall sized (pre ++ (false, n) :: post) -> Forall sized (pre ++ taken size n ++ post).
Proof.
  intros Hs1 Hs2 Hsn (Hp & Hn & Hn4 & Hq)%sized_middle. unfold taken.
  destruct (Z.leb_spec (size + SIZEOF_STRUCT_MEM + MIN_SIZE_ALIGNED) n).
  - apply sized_pair. split_and!; [done..|mlia| |done].
    apply Z.divide_sub_r; [apply Z.divide_sub_r; [done|by exists 3]|done].
  - by apply sized_middle.
Qed.

Lemma taken_sep size n post pre :
  sep (pre ++ (false, n) :: post) = true -> sep (pre ++ taken size n ++ post) = true.
Proof.
  intros H. pose proof (sep_init _ _ H) as [Hp Hq]. cbn in Hq.
  assert (sep ((false, n - SIZEOF_STRUCT_MEM - size) :: post) = true /\ sep post = true) as [H1 H2].
  { split; [done|]. by apply andb_true_iff in Hq as [_ ?]. }
  unfold taken. case_match; cbn [app]; rewrite sep_app, sep_used by done; [exact H1|exact H2].
Qed.

Lemma take_lfree size l pre n post :
  let bs := pre ++ (false, n) :: post in let bs' := pre ++ taken size n ++ post in
  let l' := if span pre =? l then first_free (span pre) (taken size n ++ post) else l in
  Forall sized pre -> lfree_ok l bs -> lfree_ok l' bs' /\ (l = first_free 0 bs -> l' = first_free 0 bs').
Proof.
  intros bs bs' l' Hp Hl. unfold bs, bs', l' in *. clear bs bs' l'. destruct (Z.eqb_spec (span pre) l) as [<-|Hne]; split.
  - unfold lfree_ok. rewrite free_at_app, heap_span_app. destruct (first_free_at (span pre) (taken size n ++ post)); tauto.
  - intros E. rewrite (first_free_app 0 pre). by rewrite (lowest_used pre n post).
  - unfold lfree_ok in *. rewrite !free_at_app, !heap_span_app, span_taken in *. cbn [free_at span] in *.
    rewrite !Z.add_assoc, !Z.add_0_l in *. intuition congruence.
  - rewrite !first_free_app. cbn [first_free]. rewrite Z.add_0_l. intros ->. by destruct (forallb fst pre).
Qed.

Section Take.
Context (h : gmap Z heap_mem) (b : list Z) (l t : Z) (pre : list block) (n : Z) (post : list block) (size : Z).
Let bs := pre ++ (false, n) :: post.
Let bs' := pre ++ taken size n ++ post.
Hypothesis Hz : Forall sized bs.
Hypothesis Hc : chain h 0 0 bs.
Hypothesis Ht : span bs = t + SIZEOF_STRUCT_MEM.
Hypothesis Hl : lfree_ok l bs.
Hypothesis Hn : t < 2 ^ 32 - 24.
Hypothesis Hs : 4 <= size <= n.

Lemma data_size_header u a p : 0 <= n < 2 ^ 32 -> data_size a (header u a n p) = n.
Proof using Type. intros. unfold data_size, header. cbn. rewrite u32_small; mlia. Qed.

Lemma block_data_size u : data_size (span pre) (header u (span pre) n (last_at 0 0 pre)) = n.
Proof using All.
  pose proof (span_middle _ _ _ _ Hz) as (H1 & _ & H2 & H3). fold bs in H3. apply data_size_header. mlia.
Qed.

Lemma take_split : exists h' k,
  (if data_size (span pre) (header false (span pre) n (last_at 0 0 pre)) >=? size + SIZEOF_STRUCT_MEM + MIN_SIZE_ALIGNED
   then split_block (span pre) size 1 (header false (span pre) n (last_at 0 0 pre))
   else put_mem (span pre) ((header false (span pre) n (last_at 0 0 pre)) <| used := 1 |>))
    (MkHeap h b l t) = Ok (tt, MkHeap h' b l t) /\
  chain h' 0 0 bs' /\ h' !! span pre = Some (header true (span pre) k (last_at 0 0 pre)).
Proof using All.
  rewrite block_data_size. unfold bs', taken. destruct (Z.leb_spec (size + SIZEOF_STRUCT_MEM + MIN_SIZE_ALIGNED) n).
  - rewrite (proj2 (Z.geb_le _ _)) by done.
    destruct (split_block_ok h b l t pre false n post size true Hz Hc Ht) as (h' & Hr & Hc'); [lia|mlia|].
    exists h', size. split; [exact Hr|]. split; [exact Hc'|]. apply (chain_at _ _ _ _ _ _ _ Hc').
  - assert ((n >=? size + SIZEOF_STRUCT_MEM + MIN_SIZE_ALIGNED) = false) as -> by (rewrite Z.geb_leb; by apply Z.leb_gt).
    exists (<[span pre := header true (span pre) n (last_at 0 0 pre)]> h), n. split; [done|].
    pose proof Hz as (Hp & _ & _ & Hq)%sized_middle.
    split; [|by rewrite lookup_insert_eq].
    eapply chain_update; [done..|lia|exact Hc|done|]. apply chain_app in Hc. rewrite chain_cons in Hc. by destruct Hc as (_ & _ & ?).
Qed.

Lemma take_block_ok fuel : (S (length bs) < fuel)%nat -> (4 | size) ->
  exists h' l', take_block fuel (span pre) size (header false (span pre) n (last_at 0 0 pre)) (MkHeap h b l t) =
      Ok (span pre + SIZEOF_STRUCT_MEM, MkHeap h' b l' t) /\
    heap_steps l bs h' l' bs'.
Proof using All.
  intros Hf Hs4. pose proof Hz as (Hp & _ & _ & Hq)%sized_middle.
  pose proof (span_middle _ _ _ _ Hz) as (Ha & Ha4 & Hn4 & Hsp). fold bs in Hsp.
  destruct take_split as (h' & k & Hr & Hc' & Hm).
  destruct (take_lfree size l pre n post Hp Hl) as [Hl1 Hlow1].
  set (l' := if span pre =? l then first_free (span pre) (taken size n ++ post) else l) in *.
  exists h', l'. split; [|split_and!; [done|exact Hl1|exact Hlow1]].
  assert (span bs' = t + SIZEOF_STRUCT_MEM) as Ht' by (rewrite <- Ht; unfold bs, bs'; rewrite !heap_span_app, span_taken; cbn; lia).
  unfold take_block. erewrite run_bind_ok by exact Hr. cbv beta.
  erewrite run_get_mem by exact Hm. change ((header true (span pre) k (last_at 0 0 pre)) <| magic := HEAP_MAGIC |>) with (header true (span pre) k (last_at 0 0 pre)).
  rewrite run_put_mem, insert_id by exact Hm. rewrite run_bind_gets. cbn [lfree].
  assert ((when span pre =? l do
      (lfree_loop fuel ;; l0 ← gets lfree; e ← gets heap_end; m ← get_mem l0; RT_ASSERT ((l0 =? e) || (used m =? 0))))
      (MkHeap h' b l t) = Ok (tt, MkHeap h' b l' t)) as Hlf.
  { unfold l' in *. destruct (Z.eqb_spec (span pre) l) as [<-|]; [|done].
    erewrite run_bind_ok.
    2: { apply (lfree_loop_ok _ _ _ pre (taken size n ++ post)); [|exact Hc'|exact Ht'|].
      - apply taken_sized; [lia|done|lia|exact Hz].
      - clear -Hf. unfold bs in Hf. rewrite length_app in Hf. unfold taken. case_match; cbn in *; lia. }
    cbv beta. rewrite !run_bind_gets. cbn [lfree].
    destruct (lfree_ok_header h' _ t bs' Hc' Ht' Hl1) as (m & Hm' & Hb).
    erewrite run_get_mem by exact Hm'. unfold heap_end. cbn [mem_size_aligned]. by rewrite Hb. }
  erewrite run_bind_ok by exact Hlf. cbv beta. rewrite run_bind_gets. unfold heap_end. cbn [mem_size_aligned].
  rewrite (proj2 (Z.leb_le _ _)) by mlia. rewrite run_bind_assert.
  rewrite (proj2 (Z.eqb_eq ((span pre + SIZEOF_STRUCT_MEM) mod RT_ALIGN_SIZE) 0)).
  2: { apply Z.mod_divide; [done|]. apply Z.divide_add_r; [done|by exists 3]. }
  rewrite run_bind_assert. change (RT_ALIGN_SIZE - 1) with 3. rewrite (land_3 _ Ha4). done.
Qed.
End Take.

(** ** Allocating *)
Lemma no_room_end size a t hi : Forall sized hi -> a + span hi = t + SIZEOF_STRUCT_MEM -> t - size <= a -> no_room size hi.
Proof.
  intros Hz. revert a. induction Hz as [|[u n] hi [Hn _] Hz IH]; intros a Ht Ha; [by left|]. cbn in *.
  pose proof (span_bounds hi Hz) as [Hs _].
  destruct (decide (u = false /\ n = size /\ hi = [])) as [(-> & -> & ->)|Hne]; [by right; exists []|].
  assert (busy size (u, n)) as Hb.
  { unfold busy. cbn. destruct u; [by left|]. right. destruct (decide (hi = [])) as [->|].
    - cbn in *. assert (n <> size) by naive_solver. mlia.
    - destruct hi as [|[v k] hi]; [done|]. inversion_clear Hz as [|? ? [Hk _] Hz']. cbn in *.
      pose proof (span_bounds hi Hz'). mlia. }
  destruct (IH (a + SIZEOF_STRUCT_MEM + n)) as [H|(lo & -> & Hlo)]; [mlia|mlia|left; by constructor|].
  right. exists ((u, n) :: lo). split; [done|by constructor].
Qed.

Lemma no_room_cons size b bs : busy size b -> no_room size bs -> no_room size (b :: bs).
Proof. intros Hb [H|(lo & -> & H)]; [left; by constructor|right; exists (b :: lo); split; [done|by constructor]]. Qed.

(** The search from the block behind [pre]. *)
Section Malloc.
Context (h : gmap Z heap_mem) (b : list Z) (l t : Z) (bs : list block) (size : Z).
Hypothesis Hok : heap_ok (MkHeap h b l t) bs.
Hypothesis Hs : 4 <= size <= t.
Hypothesis Hs4 : (4 | size).

Definition malloc_result (pre hi : list block) (m : outcome (option Z * heap_sys)) : Prop :=
  (m = Ok (None, MkHeap h b l t) /\ no_room size hi) \/
  exists lo n post h' l', hi = lo ++ (false, n) :: post /\ Forall (busy size) lo /\ size <= n /\
    m = Ok (Some (span (pre ++ lo) + SIZEOF_STRUCT_MEM), MkHeap h' b l' t) /\
    heap_ok (MkHeap h' b l' t) (pre ++ lo ++ taken size n ++ post) /\
    (l = first_free 0 bs -> l' = first_free 0 (pre ++ lo ++ taken size n ++ post)).

Lemma malloc_loop_ok pre hi fuel : bs = pre ++ hi -> (length hi < fuel)%nat ->
  malloc_result pre hi (malloc_loop fuel (span pre) size (MkHeap h b l t)).
Proof using All.
  pose proof Hok as [Hc Ht Hz Hsep Hl Hn Hb]. unfold heap_end in Ht, Hl. cbn [hdrs lfree mem_size_aligned bytes] in *.
  rewrite <- Ht in Hl.
  revert pre fuel. induction hi as [|[u n] hi IH]; intros pre [|fuel] -> Hf; try (cbn in Hf; lia); cbn [malloc_loop];
    rewrite run_bind_gets; cbn [mem_size_aligned]; rewrite (u32_small (t - size)) by lia.
  { left. rewrite (proj2 (Z.ltb_ge _ _)); [by split; [|left]|]. rewrite app_nil_r in Ht. mlia. }
  destruct (Z.ltb_spec (span pre) (t - size)) as [Hlt|Hge]; cbn [negb].
  2: { left. split; [done|]. apply Forall_app in Hz as [_ Hz]. eapply no_room_end; [done| |exact Hge]. by rewrite <- Ht, heap_span_app. }
  pose proof (chain_at _ _ _ _ _ _ _ Hc) as Hm. rewrite Z.add_0_l in Hm. erewrite run_get_mem by exact Hm.
  pose proof (span_middle _ _ _ _ Hz) as (Ha & _ & Hn4 & Hsp). rewrite data_size_header by mlia.
  destruct ((used (header u (span pre) n (last_at 0 0 pre)) =? 0) && (n >=? size)) eqn:E.
  - destruct u; [done|]. apply andb_true_iff in E as [_ E]. rewrite Z.geb_leb in E. apply Z.leb_le in E.
    rewrite run_bind_gets.
    destruct (take_block_ok h b l t pre n hi size Hz Hc Ht Hl (proj2 (proj1 (conj Hn I))) (conj (proj1 Hs) E)
      (headers (MkHeap h b l t))) as (h' & l' & Hr & Hc' & Hl' & Hlow).
    { unfold headers. cbn [hdrs]. pose proof (chain_headers _ _ Hz Hc). lia. }
    { done. }
    right. exists [], n, hi, h', l'. rewrite app_nil_r. erewrite run_bind_ok by exact Hr. split_and!; [done..| |by rewrite H].
    assert (span (pre ++ taken size n ++ hi) = t + SIZEOF_STRUCT_MEM) as Hsp'.
    { rewrite <- Ht, !heap_span_app, span_taken. cbn. lia. }
    split; cbn; [exact Hc'|exact Hsp'|apply taken_sized; [lia|done|lia|done]|by apply taken_sep| |done..].
    unfold lfree_ok in Hl'. rewrite Hsp' in Hl'. exact Hl'.
  - assert (busy size (u, n)) as Hbu.
    { unfold busy. destruct u; [by left|]. right. cbn in *. rewrite Z.geb_leb in E. by apply Z.leb_gt. }
    cbn [header next]. assert (span pre + SIZEOF_STRUCT_MEM + n = span (pre ++ [(u, n)])) as Hsp1 by (rewrite heap_span_app; cbn; lia).
    rewrite Hsp1. destruct (IH (pre ++ [(u, n)]) fuel) as [[-> Hno]|(lo & n' & post & h' & l' & -> & Hlo & Hn' & -> & Hok' & Hlow)].
    + by rewrite <- app_assoc.
    + cbn in Hf. lia.
    + left. split; [done|]. by apply no_room_cons.
    + right. rewrite <- !app_assoc in *. exists ((u, n) :: lo), n', post, h', l'. split_and!; [done|by constructor|done..].
Qed.
End Malloc.

(** ** The allocator's operations *)
Lemma RT_ALIGN_ok size : 0 <= size <= 0xFFFFFFFC ->
  size <= RT_ALIGN size RT_ALIGN_SIZE < size + 4 /\ (4 | RT_ALIGN size RT_ALIGN_SIZE) /\
  RT_ALIGN size RT_ALIGN_SIZE <= 0xFFFFFFFC.
Proof.
  intros H. assert (RT_ALIGN size RT_ALIGN_SIZE = (size + 3) / 4 * 4) as ->.
  { unfold RT_ALIGN, RT_ALIGN_SIZE. rewrite u32_small by lia.
    replace (size + 4 - 1) with (size + 3) by lia. change (Z.lnot (4 - 1)) with (Z.lnot (Z.ones 2)).
    rewrite <- Z.ldiff_land, Z.ldiff_ones_r, Z.shiftl_mul_pow2, Z.shiftr_div_pow2 by lia. done. }
  pose proof (Z.div_mod (size + 3) 4 ltac:(done)). pose proof (Z.mod_pos_bound (size + 3) 4 ltac:(done)).
  split_and!; [lia|lia|by exists ((size + 3) / 4)|lia].
Qed.

Lemma RT_ALIGN_DOWN_ok a : 0 <= a -> RT_ALIGN_DOWN a RT_ALIGN_SIZE <= a < RT_ALIGN_DOWN a RT_ALIGN_SIZE + 4 /\
  (4 | RT_ALIGN_DOWN a RT_ALIGN_SIZE).
Proof.
  intros H. assert (RT_ALIGN_DOWN a RT_ALIGN_SIZE = a / 4 * 4) as ->.
  { unfold RT_ALIGN_DOWN, RT_ALIGN_SIZE. change (Z.lnot (4 - 1)) with (Z.lnot (Z.ones 2)).
    by rewrite <- Z.ldiff_land, Z.ldiff_ones_r, Z.shiftl_mul_pow2, Z.shiftr_div_pow2 by lia. }
  pose proof (Z.div_mod a 4 ltac:(done)). pose proof (Z.mod_pos_bound a 4 ltac:(done)).
  split; [lia|by exists (a / 4)].
Qed.

(** The size of the block that serves a request. *)
Definition request (size : Z) : Z := Z.max MIN_SIZE_ALIGNED (RT_ALIGN size RT_ALIGN_SIZE).

Lemma request_ok size : 0 < size <= 0xFFFFFFFC -> size <= request size /\ 12 <= request size /\ (4 | request size).
Proof.
  intros H. destruct (RT_ALIGN_ok size) as (H1 & H2 & _); [lia|]. unfold request.
  split_and!; [lia|mlia|]. apply Z.max_case; [by exists 3|done].
Qed.

Lemma no_room_large size t bs : Forall sized bs -> span bs = t + SIZEOF_STRUCT_MEM -> t < size -> no_room size bs.
Proof.
  intros Hz Ht Hs. left. apply Forall_forall. intros [u n] (lo & hi & ->)%list_elem_of_split. right. cbn.
  pose proof (span_middle _ _ _ _ Hz). mlia.
Qed.

Lemma rt_malloc_ok h b l t bs size : heap_ok (MkHeap h b l t) bs -> 0 < size <= 0xFFFFFFFC ->
  exists pre hi, bs = pre ++ hi /\ l = span pre /\ (l = first_free 0 bs -> forallb fst pre = true) /\
    malloc_result h b l t bs (request size) pre hi (rt_malloc size (MkHeap h b l t)).
Proof.
  intros Hok Hsz. pose proof Hok as [Hc Ht Hz Hsep Hl Hn Hb]. unfold heap_end in Ht, Hl. cbn [hdrs lfree mem_size_aligned bytes] in *.
  assert (exists pre hi, bs = pre ++ hi /\ l = span pre /\ (l = first_free 0 bs -> forallb fst pre = true)) as (pre & hi & E & -> & Hlow).
  { destruct Hl as [(lo & n & hi & -> & ->)%free_at_split| ->].
    - exists lo, ((false, n) :: hi). split_and!; [done|lia|]. intros E. apply sized_middle in Hz as [Hz _]. by eapply lowest_used.
    - exists bs, []. rewrite app_nil_r. split_and!; [done|done|]. intros E. destruct (forallb fst bs) eqn:Hf; [done|].
      pose proof (first_free_used 0 bs Hz Hf). lia. }
  exists pre, hi. split_and!; [done..|]. unfold rt_malloc.
  rewrite (proj2 (Z.eqb_neq size 0)) by lia. destruct (request_ok size Hsz) as (Hr1 & Hr2 & Hr3).
  rewrite run_bind_gets. cbn [mem_size_aligned].
  destruct (Z.gtb_spec (RT_ALIGN size RT_ALIGN_SIZE) t) as [Hgt|Hle].
  { left. split; [done|]. rewrite E in Hz, Ht. apply Forall_app in Hz as Hz'. destruct Hz' as [Hz1 Hz2].
    apply (no_room_large _ (t - span pre)); [done|rewrite heap_span_app in Ht; lia|].
    pose proof (span_bounds pre Hz1). unfold request. lia. }
  assert ((if RT_ALIGN size RT_ALIGN_SIZE <? MIN_SIZE_ALIGNED then MIN_SIZE_ALIGNED else RT_ALIGN size RT_ALIGN_SIZE) = request size) as ->.
  { unfold request. destruct (Z.ltb_spec (RT_ALIGN size RT_ALIGN_SIZE) MIN_SIZE_ALIGNED); lia. }
  rewrite !run_bind_gets. cbn [lfree]. apply malloc_loop_ok; [exact Hok|unfold request, MIN_SIZE_ALIGNED; lia|done|exact E|].
  unfold headers. cbn [hdrs]. pose proof (chain_headers _ _ Hz Hc). rewrite E, length_app in *. lia.
Qed.
