(* ===== verification/MemClient.v ===== *)
(** * The allocator for its clients (src/Kernel/mem.c)

    What the callers of [rt_malloc], [rt_calloc], [rt_realloc] and [rt_free] see:
    the blocks that are in use, as a list of addresses and sizes.  A client is any
    sequence of calls that frees and reallocates only pointers it holds and writes
    only inside its blocks. *)
From stdpp Require Import gmap.
From S2P Require Import Prelude KString Mem.

(** The data of the blocks in use: address and size. *)
Fixpoint live (a : Z) (bs : list block) : list (Z * Z) :=
  match bs with
  | [] => []
  | (u, n) :: bs =>
      (if u then [(a + SIZEOF_STRUCT_MEM, n)] else []) ++ live (a + SIZEOF_STRUCT_MEM + n) bs
  end.

Definition disjoint_blocks (x y : Z * Z) : Prop := x.1 + x.2 <= y.1 \/ y.1 + y.2 <= x.1.

Fixpoint pairwise (L : list (Z * Z)) : Prop :=
  match L with [] => True | x :: L => Forall (disjoint_blocks x) L /\ pairwise L end.

(** A client: the pointers it holds with the sizes it asked for. *)
Inductive heap_op :=
  | OMalloc (size : Z)
  | OCalloc (count size : Z)
  | ORealloc (i : nat) (size : Z)
  | OFree (i : nat)
  | OWrite (i : nat) (off v : Z).

Definition client : Type := heap_sys * list (Z * Z).

Definition hold (L : list (Z * Z)) (size : Z) (r : option Z) : list (Z * Z) :=
  match r with Some p => (p, size) :: L | None => L end.

(** An index without a pointer stands for NULL. *)
Definition client_step (op : heap_op) (st : client) : outcome client :=
  let '(s, L) := st in
  match op with
  | OMalloc size => '(r, s) ← rt_malloc size s; Ok (s, hold L size r)
  | OCalloc count size => '(r, s) ← rt_calloc count size s; Ok (s, hold L (u32 (count * size)) r)
  | ORealloc i size =>
      '(r, s) ← rt_realloc (fst <$> L !! i) size s;
      match r with
      | Some p => Ok (s, (p, size) :: delete i L)
      | None => Ok (s, if size =? 0 then delete i L else L)
      end
  | OFree i => '(_, s) ← rt_free (fst <$> L !! i) s; Ok (s, delete i L)
  | OWrite i off v =>
      match L !! i with
      | Some (p, n) =>
          if (0 <=? off) && (off <? n) then b ← zset (bytes s) (p + off) (u8 v); Ok (s <| bytes := b |>, L)
          else Ok st
      | None => Ok st
      end
  end.

Fixpoint client_run (ops : list heap_op) (st : client) : outcome client :=
  match ops with
  | [] => Ok st
  | op :: ops => st ← client_step op st; client_run ops st
  end.

(** Sizes whose alignment does not overflow. *)
Definition size_ok (size : Z) : Prop := 0 <= size <= 0xFFFFFFFC.
Definition op_ok (op : heap_op) : Prop :=
  match op with
  | OMalloc size | ORealloc _ size => size_ok size
  | OCalloc count size => size_ok (u32 (count * size))
  | OFree _ | OWrite _ _ _ => True
  end.

(** A heap of 1024 bytes, for examples. *)
Definition heap_1k : heap_sys :=
  default (MkHeap ∅ [] 0 0) (rt_system_heap_init 0x1000 0x1400 (fun n => replicate (Z.to_nat n) 0)).

(** ** Blocks in use *)
Lemma live_app a b1 b2 : live a (b1 ++ b2) = live a b1 ++ live (a + span b1) b2.
Proof.
  revert a. induction b1 as [|[u n] b1 IH]; intros a; cbn; [by rewrite Z.add_0_r|].
  by rewrite IH, !(Z.add_assoc a), app_assoc.
Qed.

Lemma live_elem a bs x n : (x, n) ∈ live a bs <->
  exists pre post, bs = pre ++ (true, n) :: post /\ x = a + span pre + SIZEOF_STRUCT_MEM.
Proof.
  split.
  - revert a. induction bs as [|[u k] bs IH]; intros a; cbn; [by intros ?%not_elem_of_nil|].
    intros [Hx|(pre & post & -> & ->)%IH]%elem_of_app.
    + destruct u; [|by apply not_elem_of_nil in Hx]. apply list_elem_of_singleton in Hx as [= -> ->].
      exists [], bs. split; [done|]. cbn. lia.
    + exists ((u, k) :: pre), post. split; [done|]. cbn. lia.
  - intros (pre & post & -> & ->). rewrite live_app. apply elem_of_app. right. cbn. apply elem_of_cons. by left.
Qed.

Lemma live_free_cons a n bs : live a ((false, n) :: bs) = live (a + SIZEOF_STRUCT_MEM + n) bs.
Proof. done. Qed.

Lemma live_coalesce a bs : live a (coalesce bs) = live a bs.
Proof.
  revert a. induction bs as [|[[] n] bs IH]; intros a; cbn; [done|by rewrite IH|].
  rewrite <- IH. destruct (coalesce bs) as [|[[] k] r]; cbn; [done..|]. f_equal. lia.
Qed.

Lemma live_flag a pre n post :
  live a (pre ++ (true, n) :: post) ≡ₚ (a + span pre + SIZEOF_STRUCT_MEM, n) :: live a (pre ++ (false, n) :: post).
Proof. rewrite !live_app. cbn. by rewrite Permutation_middle. Qed.

Lemma live_taken a pre size n post : size <= n -> exists k, size <= k /\
  live a (pre ++ taken size n ++ post) ≡ₚ (a + span pre + SIZEOF_STRUCT_MEM, k) :: live a (pre ++ (false, n) :: post).
Proof.
  intros Hn. unfold taken. destruct (Z.leb_spec (size + SIZEOF_STRUCT_MEM + MIN_SIZE_ALIGNED) n).
  - exists size. split; [lia|]. rewrite !live_app. cbn. rewrite Permutation_middle.
    apply reflexive_eq. do 3 f_equal. lia.
  - exists n. split; [done|]. apply live_flag.
Qed.

Lemma pairwise_perm L L' : L ≡ₚ L' -> pairwise L -> pairwise L'.
Proof.
  induction 1 as [|x L L' HL IH|x y L|L1 L2 L3 _ IH1 _ IH2]; cbn; [done| | |auto].
  - intros [Hx HP]. split; [by rewrite <- HL|auto].
  - intros [Hy [Hx HP]]. apply Forall_cons in Hy as [Hyx Hy]. split_and!; [|done|done].
    constructor; [|done]. unfold disjoint_blocks in *. tauto.
Qed.

Lemma live_inside a bs : Forall sized bs -> (4 | a) ->
  Forall (fun x => a + SIZEOF_STRUCT_MEM <= x.1 /\ x.1 + x.2 <= a + span bs /\ 4 <= x.2 /\ (4 | x.1)) (live a bs).
Proof.
  intros Hz Ha. apply Forall_forall. intros [x n] (pre & post & -> & ->)%live_elem.
  pose proof (span_middle _ _ _ _ Hz) as (H1 & H2 & H3 & H4). cbn. split_and!; [lia|lia|done|].
  apply Z.divide_add_r; [by apply Z.divide_add_r|by exists 3].
Qed.

Lemma live_pairwise a bs : Forall sized bs -> (4 | a) -> pairwise (live a bs).
Proof.
  intros Hz. revert a. induction Hz as [|[u n] bs [Hn Hn4] Hz IH]; intros a Ha; [done|]. cbn in *.
  assert ((4 | a + SIZEOF_STRUCT_MEM + n)) as Ha' by (apply Z.divide_add_r; [apply Z.divide_add_r; [done|by exists 3]|done]).
  destruct u; [|by apply IH]. split; [|by apply IH].
  eapply Forall_impl; [by apply live_inside|]. intros [x k] (H & _). left. cbn in *. mlia.
Qed.

(** ** The operations on the blocks in use *)
Definition same_data (s s' : heap_sys) : Prop :=
  bytes s' = bytes s /\ mem_size_aligned s' = mem_size_aligned s.

Lemma malloc_live s bs size : heap_ok s bs -> 0 < size <= 0xFFFFFFFC ->
  rt_malloc size s = Ok (None, s) \/
  exists p k bs' s', rt_malloc size s = Ok (Some p, s') /\ heap_ok s' bs' /\
    live 0 bs' ≡ₚ (p, k) :: live 0 bs /\ request size <= k /\ same_data s s' /\
    (lowest s bs -> lowest s' bs').
Proof.
  destruct s as [h b l t]. intros Hok Hs.
  destruct (rt_malloc_ok h b l t bs size Hok Hs) as (pre & hi & -> & _ & _ & [[-> _]|(lo & n & post & h' & l' & -> & _ & Hn & -> & Hok' & Hlow)]);
    [by left|right].
  destruct (live_taken 0 (pre ++ lo) (request size) n post Hn) as (k & Hk & Hp).
  rewrite <- !app_assoc in Hp. exists (span (pre ++ lo) + SIZEOF_STRUCT_MEM), k, (pre ++ lo ++ taken (request size) n ++ post), (MkHeap h' b l' t).
  split_and!; [done|exact Hok'|exact Hp|done|by split|exact Hlow].
Qed.

Lemma free_live s bs p n L : heap_ok s bs -> live 0 bs ≡ₚ (p, n) :: L ->
  exists bs' s', rt_free (Some p) s = Ok (tt, s') /\ heap_ok s' bs' /\ live 0 bs' ≡ₚ L /\ same_data s s' /\
    (lowest s bs -> lowest s' bs') /\ free_at 0 (lfree s') bs'.
Proof.
  destruct s as [h b l t]. intros Hok HL.
  assert ((p, n) ∈ live 0 bs) as (pre & post & -> & ->)%live_elem by (rewrite HL; apply elem_of_cons; by left).
  destruct (rt_free_ok h b l t pre n post Hok) as (h' & l' & Hr & Hok' & Hlow & Hfr).
  exists (coalesce (pre ++ (false, n) :: post)), (MkHeap h' b l' t).
  split_and!; [exact Hr|exact Hok'| |by split|exact Hlow|exact Hfr].
  rewrite live_coalesce. rewrite live_flag in HL. by apply Permutation_cons_inv in HL.
Qed.

Lemma heap_ok_bytes h b b' l t bs : heap_ok (MkHeap h b l t) bs -> length b' = length b -> is_bytes b' ->
  heap_ok (MkHeap h b' l t) bs.
Proof. intros [H1 H2 H3 H4 H5 H6 [H7 H8]] Hl Hb. split; try done. cbn in *. by rewrite Hl. Qed.

Lemma memcpy_bytes dst d src s n r : is_bytes dst -> is_bytes src -> memcpy dst d src s n = Ok r -> is_bytes r.
Proof.
  intros H1 H2. unfold memcpy. case_decide; [|done]. intros [= <-].
  apply Forall_app; split; [by apply Forall_take|]. apply Forall_app; split; [by apply Forall_take, Forall_drop|by apply Forall_drop].
Qed.

Lemma live_facts s bs x n L : heap_ok s bs -> live 0 bs ≡ₚ (x, n) :: L ->
  12 <= x /\ (4 | x) /\ 4 <= n /\ x + n <= mem_size_aligned s + 12 /\
  Forall (disjoint_blocks (x, n)) L.
Proof.
  intros [_ Ht Hz _ _ _ _] HL. pose proof (live_inside 0 bs Hz (Z.divide_0_r 4)) as Hi. rewrite HL in Hi.
  apply Forall_cons in Hi as [(H1 & H2 & H3 & H4) _]. unfold heap_end in Ht. cbn in *. split_and!; [mlia|done|done|mlia|].
  pose proof (live_pairwise 0 bs Hz (Z.divide_0_r 4)) as Hp. apply (pairwise_perm _ _ HL) in Hp. by destruct Hp.
Qed.

(** The shrinking of a block. *)
Lemma shrink_ok h b l t pre n post k :
  heap_ok (MkHeap h b l t) (pre ++ (true, n) :: post) -> 4 <= k -> (4 | k) -> k + SIZEOF_STRUCT_MEM + MIN_SIZE < n ->
  exists h' l', (split_block (span pre) k 1 (header true (span pre) n (last_at 0 0 pre)) ;;
      plug_holes (span pre + SIZEOF_STRUCT_MEM + k)) (MkHeap h b l t) = Ok (tt, MkHeap h' b l' t) /\
    heap_ok (MkHeap h' b l' t) (coalesce (pre ++ (true, k) :: (false, n - SIZEOF_STRUCT_MEM - k) :: post)).
Proof.
  intros Hok Hk Hk4 Hn. pose proof Hok as [Hc Ht Hz Hsep Hl _ _]. unfold heap_end in Ht, Hl. cbn in Hc, Ht, Hl.
  pose proof Hz as (Hzp & _ & Hn4 & Hzq)%sized_middle.
  destruct (split_block_ok h b l t pre true n post k true Hz Hc Ht) as (h1 & Hr1 & Hc1); [lia|mlia|].
  set (bs1 := pre ++ (true, k) :: (false, n - SIZEOF_STRUCT_MEM - k) :: post) in *.
  assert (bs1 = (pre ++ [(true, k)]) ++ (false, n - SIZEOF_STRUCT_MEM - k) :: post) as Eb by by rewrite <- app_assoc.
  assert (Forall sized bs1) as Hz1.
  { apply sized_pair. split_and!; [done..|mlia| |done]. apply Z.divide_sub_r; [apply Z.divide_sub_r; [done|by exists 3]|done]. }
  assert (span bs1 = span (pre ++ (true, n) :: post)) as Hsp by (unfold bs1; rewrite !heap_span_app; cbn; lia).
  assert (lfree_ok l bs1) as Hl1.
  { unfold lfree_ok. rewrite Hsp, Ht. destruct Hl as [Hl|Hl]; [left|by right]. unfold bs1.
    rewrite !free_at_app in *. cbn in *. rewrite !Z.add_0_l in *. destruct Hl as [?|[[_ ?]|Hl]]; [by left|done|].
    right; right; right. replace (span pre + _ + _ + _ + _) with (span pre + SIZEOF_STRUCT_MEM + n) by lia. done. }
  apply sep_init in Hsep as [Hs1 Hs2]. cbn in Hs2.
  rewrite Eb in Hc1, Hz1, Hl1, Hsp.
  destruct (plug_holes_ok h1 b l t (pre ++ [(true, k)]) (n - SIZEOF_STRUCT_MEM - k) post Hz1 Hc1) as (h' & l' & Hr & Hst);
    [by rewrite Hsp|exact Hl1|by apply sep_used|done|].
  exists h', l'. split.
  - erewrite run_bind_ok by exact Hr1. cbv beta.
    replace (span pre + SIZEOF_STRUCT_MEM + k) with (span (pre ++ [(true, k)])) by (rewrite heap_span_app; cbn; lia). exact Hr.
  - rewrite Eb. eapply plugged_ok; [exact Hst|exact Hz1|exact Hsp|exact Hok].
Qed.

Definition data_kept (s s' : heap_sys) (x : Z * Z) : Prop :=
  forall i, 0 <= i < x.2 -> bytes s' !! Z.to_nat (x.1 + i) = bytes s !! Z.to_nat (x.1 + i).

Definition data_copied (s s' : heap_sys) (r p n : Z) : Prop :=
  forall i, 0 <= i < n -> bytes s' !! Z.to_nat (p + i) = bytes s !! Z.to_nat (r + i).

(** What a reallocation of the block at [r] gives. *)
Definition realloc_result (s : heap_sys) (r n size : Z) (L : list (Z * Z)) (m : outcome (option Z * heap_sys)) : Prop :=
  m = Ok (None, s) \/
  exists p k bs' s', m = Ok (Some p, s') /\ heap_ok s' bs' /\ live 0 bs' ≡ₚ (p, k) :: L /\ size <= k /\
    mem_size_aligned s' = mem_size_aligned s /\
    data_copied s s' r p (Z.min n size) /\ Forall (data_kept s s') L.

Lemma same_data_copied s s' r n L size k bs' : same_data s s' -> heap_ok s' bs' -> live 0 bs' ≡ₚ (r, k) :: L -> size <= k ->
  realloc_result s r n size L (Ok (Some r, s')).
Proof.
  intros [Hb Ht] Hok HL Hk. right. exists r, k, bs', s'. split_and!; [done..| |].
  - intros i _. by rewrite Hb.
  - apply Forall_forall. intros x _ i _. by rewrite Hb.
Qed.

Lemma move_ok s bs r n L k : heap_ok s bs -> live 0 bs ≡ₚ (r, n) :: L -> 0 < k <= 0xFFFFFFFC ->
  realloc_result s r n k L
    ((nmem ← rt_malloc k;
      match nmem with
      | None => mret None
      | Some p =>
          b ← gets bytes;
          b ← lift (rt_memcpy b p r (if n <? k then n else k));
          bytes ::= b;; rt_free (Some r);; mret nmem
      end) s).
Proof.
  intros Hok HL Hk. destruct (malloc_live s bs k Hok Hk) as [Hr|(p & k' & bs1 & s1 & Hr & Hok1 & HL1 & Hk' & [Hb1 Ht1] & _)].
  { left. by erewrite run_bind_ok by exact Hr. }
  right. destruct (request_ok k Hk) as (Hrq & _ & _). rewrite HL in HL1.
  destruct (live_facts _ _ _ _ _ Hok1 HL1) as (Hp & _ & _ & Hpe & Hdp).
  assert (live 0 bs1 ≡ₚ (r, n) :: (p, k') :: L) as HL1' by (rewrite HL1; apply perm_swap).
  destruct (live_facts _ _ _ _ _ Hok1 HL1') as (Hr0 & _ & Hn & Hre & Hdr).
  apply Forall_cons in Hdp as [Hpr HdL]. apply Forall_cons in Hdr as [_ HdrL].
  unfold disjoint_blocks in Hpr. cbn in Hpr.
  destruct s1 as [h1 b1 l1 t1]. pose proof (ok_bytes _ _ Hok1) as [Hlen Hby]. cbn [bytes mem_size_aligned] in *.
  set (c := if n <? k then n else k). assert (c = Z.min n k) as Hc by (unfold c; destruct (Z.ltb_spec n k); lia).
  assert (Z.of_nat (length b1) = t1 + 24) as Hlen' by mlia.
  destruct (memcpy_total b1 p b1 r c) as (b2 & Hcp); [lia..|].
  assert (heap_ok (MkHeap h1 b2 l1 t1) bs1) as Hok2.
  { eapply heap_ok_bytes; [exact Hok1|by eapply memcpy_length|by eapply memcpy_bytes]. }
  destruct (free_live (MkHeap h1 b2 l1 t1) bs1 r n ((p, k') :: L) Hok2 HL1') as (bs' & s' & Hf & Hok' & HL' & [Hb' Ht'] & _).
  exists p, k', bs', s'. split_and!; [|exact Hok'|exact HL'|lia|by rewrite Ht'| |].
  - erewrite run_bind_ok by exact Hr. cbv beta iota. rewrite run_bind_gets. cbn [bytes].
    rewrite rt_memcpy_ok by (done || lia). rewrite Hcp, run_bind_lift, run_bind_modify.
    erewrite run_bind_ok by exact Hf. done.
  - intros i Hi. rewrite Hb'. cbn [bytes]. rewrite (memcpy_lookup _ _ _ _ _ _ _ Hcp), decide_True by lia.
    rewrite <- Hb1. f_equal. lia.
  - rewrite Forall_forall in HdL |- *. intros [q m] Hq i Hi. specialize (HdL _ Hq). unfold disjoint_blocks in HdL.
    cbn [fst snd] in *. rewrite Hb', <- Hb1. cbn [bytes]. rewrite (memcpy_lookup _ _ _ _ _ _ _ Hcp), decide_False; [done|].
    assert (0 <= q) as Hq0; [|lia].
    pose proof (live_inside 0 bs1 (ok_sized _ _ Hok1) (Z.divide_0_r 4)) as Hi1. rewrite HL1 in Hi1.
    do 2 apply Forall_cons in Hi1 as [_ Hi1]. rewrite Forall_forall in Hi1. specialize (Hi1 _ Hq). cbn in Hi1. mlia.
Qed.

Lemma realloc_live s bs r n L size : heap_ok s bs -> live 0 bs ≡ₚ (r, n) :: L -> 0 < size <= 0xFFFFFFFC ->
  realloc_result s r n (RT_ALIGN size RT_ALIGN_SIZE) L (rt_realloc (Some r) size s).
Proof.
  intros Hok HL Hs. destruct (RT_ALIGN_ok size) as (H1 & H2 & H3); [lia|].
  destruct (live_facts _ _ _ _ _ Hok HL) as (Hr0 & Hr4 & Hn & Hre & Hdr).
  unfold rt_realloc. set (k := RT_ALIGN size RT_ALIGN_SIZE) in *. rewrite run_bind_gets.
  destruct (Z.gtb_spec k (mem_size_aligned s)) as [|Hkt]; [by left|].
  rewrite (proj2 (Z.eqb_neq k 0)) by lia. rewrite run_bind_gets.
  rewrite (proj2 (Z.ltb_ge r 0)) by lia. rewrite Z.geb_leb, (proj2 (Z.leb_gt _ _)) by (unfold heap_end; mlia). cbn [orb].
  destruct s as [h b l t]. pose proof (ok_size _ _ Hok) as Ht. cbn [mem_size_aligned] in *.
  assert ((r, n) ∈ live 0 bs) as (pre & post & -> & Er)%live_elem by (rewrite HL; apply elem_of_cons; by left).
  rewrite Z.add_0_l in Er. replace (r - SIZEOF_STRUCT_MEM) with (span pre) by lia.
  pose proof (chain_at _ _ _ _ _ _ _ (ok_chain _ _ Hok)) as Hm. rewrite Z.add_0_l in Hm.
  erewrite run_get_mem by exact Hm. rewrite data_size_header by lia. cbn [used header].
  destruct (Z.eqb_spec n k) as [->|Hne].
  { eapply same_data_copied; [by split|exact Hok|exact HL|done]. }
  destruct (Z.ltb_spec (k + SIZEOF_STRUCT_MEM + MIN_SIZE) n) as [Hlt|Hge].
  - assert (4 <= k) as Hk4 by (destruct H2 as [z Hz]; lia).
    destruct (shrink_ok h b l t pre n post k Hok Hk4 H2 Hlt) as (h' & l' & Hr & Hok').
    assert (live 0 (coalesce (pre ++ (true, k) :: (false, n - SIZEOF_STRUCT_MEM - k) :: post)) ≡ₚ (r, k) :: L) as HL'.
    { rewrite live_coalesce. rewrite live_flag in HL. rewrite Z.add_0_l, <- Er in HL. apply Permutation_cons_inv in HL.
      rewrite live_flag, Z.add_0_l, <- Er. f_equiv. rewrite <- HL, !live_app. f_equiv. cbn.
      apply reflexive_eq. f_equal. lia. }
    change (Z.b2z true) with 1. rewrite <- run_bind_bind. erewrite run_bind_ok by exact Hr.
    eapply same_data_copied; [by split|exact Hok'|exact HL'|done].
  - apply (move_ok _ _ _ _ _ _ Hok HL). lia.
Qed.

Lemma calloc_live s bs count size : heap_ok s bs -> 0 < u32 (count * size) <= 0xFFFFFFFC ->
  rt_calloc count size s = Ok (None, s) \/
  exists p k bs' s', rt_calloc count size s = Ok (Some p, s') /\ heap_ok s' bs' /\
    live 0 bs' ≡ₚ (p, k) :: live 0 bs /\ u32 (count * size) <= k /\ mem_size_aligned s' = mem_size_aligned s /\
    (forall i, 0 <= i < u32 (count * size) -> bytes s' !! Z.to_nat (p + i) = Some 0) /\
    Forall (data_kept s s') (live 0 bs) /\ (lowest s bs -> lowest s' bs').
Proof.
  intros Hok Hs. set (c := u32 (count * size)) in *. unfold rt_calloc. fold c.
  destruct (malloc_live s bs c Hok Hs) as [Hr|(p & k & bs1 & s1 & Hr & Hok1 & HL1 & Hk & [Hb1 Ht1] & Hlow)].
  { left. by erewrite run_bind_ok by exact Hr. }
  right. destruct (request_ok c Hs) as (Hrq & _ & _).
  destruct (live_facts _ _ _ _ _ Hok1 HL1) as (Hp & _ & _ & Hpe & Hdp).
  destruct s1 as [h1 b1 l1 t1]. pose proof (ok_bytes _ _ Hok1) as [Hlen Hby]. cbn [bytes mem_size_aligned] in *.
  assert (Z.of_nat (length b1) = t1 + 24) as Hlen' by mlia.
  destruct (memcpy_total b1 p (replicate (Z.to_nat c) (u8 0)) 0 c) as (b2 & Hcp); [lia..|rewrite length_replicate; lia|].
  exists p, k, bs1, (MkHeap h1 b2 l1 t1). split_and!; [|..|done|lia|done| | |exact Hlow].
  - erewrite run_bind_ok by exact Hr. cbv beta iota. rewrite run_bind_gets. cbn [bytes].
    rewrite rt_memset_ok by lia. by rewrite Hcp, run_bind_lift.
  - eapply heap_ok_bytes; [exact Hok1|by eapply memcpy_length|]. eapply memcpy_bytes; [exact Hby| |exact Hcp].
    apply Forall_replicate. apply u8_byte.
  - intros i Hi. cbn [bytes]. rewrite (memcpy_lookup _ _ _ _ _ _ _ Hcp), decide_True by lia.
    apply lookup_replicate. split; [done|lia].
  - pose proof (live_inside 0 bs1 (ok_sized _ _ Hok1) (Z.divide_0_r 4)) as Hi1. rewrite HL1 in Hi1.
    apply Forall_cons in Hi1 as [_ Hi1]. rewrite Forall_forall in Hdp, Hi1 |- *. intros [q m] Hq i Hi.
    specialize (Hdp _ Hq). specialize (Hi1 _ Hq). unfold disjoint_blocks in Hdp. cbn [fst snd bytes] in *.
    rewrite (memcpy_lookup _ _ _ _ _ _ _ Hcp), decide_False; [by rewrite Hb1|]. mlia.
Qed.

(** ** Clients *)

(** A pointer that is held is a block in use of at least the size asked for. *)
Definition held (x y : Z * Z) : Prop := x.1 = y.1 /\ x.2 <= y.2.

Definition client_inv (st : client) : Prop :=
  exists bs L, heap_ok st.1 bs /\ live 0 bs ≡ₚ L /\ Forall2 held st.2 L /\ (st.2 = [] -> lowest st.1 bs).

Lemma pairwise_held L L' : Forall2 held L L' -> pairwise L' -> pairwise L.
Proof.
  induction 1 as [|[p n] [q m] L L' [Hx1 Hx2] HL IH]; [done|]. cbn in *. subst q. intros [Hd Hp]. split; [|auto].
  clear -HL Hd Hx2. induction HL as [|[q k] [q' k'] L L' [H1 H2] _ IH]; [constructor|].
  apply Forall_cons in Hd as [Hd Hds]. constructor; [|auto]. unfold disjoint_blocks in *. cbn in *. lia.
Qed.

Lemma live_nil a bs : live a bs = [] -> sep bs = true -> Forall sized bs ->
  bs = [] \/ bs = [(false, span bs - SIZEOF_STRUCT_MEM)].
Proof.
  destruct bs as [|[[] n] bs]; [by left|done|]. cbn. intros Hl Hs _. right. destruct bs as [|[[] k] bs]; [|done..].
  cbn. do 2 f_equal. lia.
Qed.

Lemma client_empty s bs : heap_ok s bs -> live 0 bs ≡ₚ [] -> bs = [(false, mem_size_aligned s)].
Proof.
  intros [_ Ht Hz Hs _ Hn _] Hl%Permutation_nil_r. unfold heap_end in Ht.
  destruct (live_nil 0 bs Hl Hs Hz) as [->|E]; [cbn in *; mlia|].
  rewrite E. do 2 f_equal. lia.
Qed.

Lemma held_lookup L L2 i x : Forall2 held L L2 -> L !! i = Some x ->
  exists y, L2 ≡ₚ y :: delete i L2 /\ held x y /\ Forall2 held (delete i L) (delete i L2).
Proof.
  intros HF Hx. destruct (Forall2_lookup_l _ _ _ _ _ HF Hx) as (y & Hy & Hh). exists y.
  split_and!; [by apply delete_Permutation|done|by apply Forall2_delete].
Qed.

Lemma delete_none {A} (L : list A) i : L !! i = None -> delete i L = L.
Proof.
  intros H%lookup_ge_None. by rewrite delete_take_drop, take_ge, drop_ge, app_nil_r by lia.
Qed.

(** Freeing the pointer with index [i]. *)
Lemma client_free s L i p n : client_inv (s, L) -> L !! i = Some (p, n) ->
  exists s', rt_free (Some p) s = Ok (tt, s') /\ client_inv (s', delete i L) /\ mem_size_aligned s' = mem_size_aligned s.
Proof.
  intros (bs & L2 & Hok & HL & HF & _) Hi. cbn in *. destruct (held_lookup _ _ _ _ HF Hi) as ([q k] & HP & [Hq Hk] & HF').
  cbn in Hq, Hk. subst q. rewrite HP in HL.
  destruct (free_live s bs p k _ Hok HL) as (bs' & s' & Hr & Hok' & HL' & [_ Ht] & _ & Hfr).
  exists s'. split_and!; [exact Hr| |exact Ht]. exists bs', (delete i L2). split_and!; [done..|].
  cbn. intros E. rewrite E in HF'. apply Forall2_nil_inv_l in HF'. rewrite HF' in HL'.
  pose proof (client_empty s' bs' Hok' HL') as ->. unfold lowest. cbn in *. tauto.
Qed.

(** A call that returned a fresh block. *)
Lemma client_fresh s L s' bs' bs p k size : client_inv (s, L) ->
  heap_ok s bs -> live 0 bs' ≡ₚ (p, k) :: live 0 bs -> heap_ok s' bs' -> size <= k ->
  (forall L2, live 0 bs ≡ₚ L2 -> Forall2 held L L2 -> client_inv (s', (p, size) :: L)).
Proof.
  intros _ Hok HL Hok' Hk L2 HL2 HF. exists bs', ((p, k) :: L2). split_and!; [done|by rewrite HL, HL2| |done].
  cbn. by constructor.
Qed.

Lemma client_malloc s L size : client_inv (s, L) -> size_ok size ->
  exists r s', rt_malloc size s = Ok (r, s') /\ client_inv (s', hold L size r) /\ mem_size_aligned s' = mem_size_aligned s.
Proof.
  intros Hinv Hs. destruct (decide (size = 0)) as [->|Hne].
  { exists None, s. split_and!; [done|exact Hinv|done]. }
  pose proof Hinv as (bs & L2 & Hok & HL & HF & _). cbn in *.
  destruct (malloc_live s bs size Hok) as [Hr|(p & k & bs' & s' & Hr & Hok' & HL' & Hk & [_ Ht] & _)].
  { unfold size_ok in Hs. lia. }
  { exists None, s. split_and!; [done|exact Hinv|done]. }
  exists (Some p), s'. split_and!; [done| |done]. destruct (request_ok size); [unfold size_ok in Hs; lia|].
  eapply (client_fresh s L s' bs' bs p k); [exact Hinv|done..|lia|exact HL|exact HF].
Qed.

Lemma client_calloc s L count size : client_inv (s, L) -> size_ok (u32 (count * size)) ->
  exists r s', rt_calloc count size s = Ok (r, s') /\ client_inv (s', hold L (u32 (count * size)) r) /\
    mem_size_aligned s' = mem_size_aligned s.
Proof.
  intros Hinv Hs. destruct (decide (u32 (count * size) = 0)) as [E|Hne].
  { exists None, s. split_and!; [|exact Hinv|done]. unfold rt_calloc. by rewrite E. }
  pose proof Hinv as (bs & L2 & Hok & HL & HF & _). cbn in *.
  destruct (calloc_live s bs count size Hok) as [Hr|(p & k & bs' & s' & Hr & Hok' & HL' & Hk & Ht & _)].
  { unfold size_ok in Hs. lia. }
  { exists None, s. split_and!; [done|exact Hinv|done]. }
  exists (Some p), s'. split_and!; [done| |done].
  eapply (client_fresh s L s' bs' bs p k); [exact Hinv|done..|exact HL|exact HF].
Qed.

Lemma client_realloc s L i p n size : client_inv (s, L) -> L !! i = Some (p, n) -> 0 < size <= 0xFFFFFFFC ->
  exists r s', rt_realloc (Some p) size s = Ok (r, s') /\
    client_inv (s', match r with Some q => (q, size) :: delete i L | None => L end) /\
    mem_size_aligned s' = mem_size_aligned s.
Proof.
  intros Hinv Hi Hs. pose proof Hinv as (bs & L2 & Hok & HL & HF & _). cbn in *.
  destruct (held_lookup _ _ _ _ HF Hi) as ([q k] & HP & [Hq Hk] & HF').
  cbn in Hq, Hk. subst q. rewrite HP in HL. destruct (RT_ALIGN_ok size) as (Hal & _); [lia|].
  destruct (realloc_live s bs p k _ size Hok HL Hs) as [Hr|(p' & k' & bs' & s' & Hr & Hok' & HL' & Hk' & Ht & _)].
  - exists None, s. split_and!; [done|exact Hinv|done].
  - exists (Some p'), s'. split_and!; [done| |done]. exists bs', ((p', k') :: delete i L2). cbn.
    split_and!; [done|done| |done]. constructor; [|done]. split; cbn; [done|lia].
Qed.

Lemma client_weaken s L p k size : client_inv (s, (p, k) :: L) -> size <= k -> client_inv (s, (p, size) :: L).
Proof.
  intros (bs & L2 & Hok & HL & HF & _) Hk. exists bs, L2. split_and!; [done..| |done]. cbn in *.
  inversion_clear HF as [|? y ? ? [H1 H2] HF']. constructor; [|done]. split; cbn in *; [done|lia].
Qed.

Lemma client_realloc_null s L size : client_inv (s, L) -> size_ok size ->
  exists r s', rt_realloc None size s = Ok (r, s') /\ client_inv (s', hold L size r) /\
    mem_size_aligned s' = mem_size_aligned s.
Proof.
  intros Hinv Hs. unfold rt_realloc. rewrite run_bind_gets. destruct (RT_ALIGN_ok size Hs) as (Hal & _ & Hmax).
  destruct (_ >? _); [by exists None, s|]. case_match; [by exists None, s|].
  destruct (client_malloc s L (RT_ALIGN size RT_ALIGN_SIZE) Hinv) as (r & s' & Hr & Hi & Ht);
    [unfold size_ok in *; lia|].
  exists r, s'. split_and!; [done| |done]. destruct r; [|done]. eapply client_weaken; [exact Hi|lia].
Qed.

Lemma client_write s L i off v : client_inv (s, L) ->
  exists s', client_step (OWrite i off v) (s, L) = Ok (s', L) /\ client_inv (s', L) /\
    mem_size_aligned s' = mem_size_aligned s.
Proof.
  intros Hinv. cbn. destruct (L !! i) as [[p n]|] eqn:Ei; [|by exists s].
  destruct ((0 <=? off) && (off <? n)) eqn:E; [|by exists s]. c_bool.
  pose proof Hinv as (bs & L2 & Hok & HL & HF & Hlow). cbn in *.
  destruct (held_lookup _ _ _ _ HF Ei) as ([q k] & HP & [Hq Hk] & _). cbn in Hq, Hk. subst q. rewrite HP in HL.
  destruct (live_facts _ _ _ _ _ Hok HL) as (Hp & _ & _ & Hpe & _).
  destruct s as [h b l t]. pose proof (ok_bytes _ _ Hok) as [Hlen Hby]. cbn [bytes mem_size_aligned] in *.
  rewrite zset_ok by mlia. cbn. eexists. split; [done|]. split; [|done].
  exists bs, L2. split_and!; [|by rewrite HP|done|done]. eapply heap_ok_bytes; [exact Hok|by rewrite length_insert|].
  apply Forall_insert; [done|apply u8_byte].
Qed.

Lemma client_step_ok op s L : client_inv (s, L) -> op_ok op ->
  exists s' L', client_step op (s, L) = Ok (s', L') /\ client_inv (s', L') /\ mem_size_aligned s' = mem_size_aligned s.
Proof.
  intros Hinv Hop. destruct op as [size|count size|i size|i|i off v]; cbn [client_step op_ok] in *.
  - destruct (client_malloc s L size Hinv Hop) as (r & s' & -> & Hi & Ht). by exists s', (hold L size r).
  - destruct (client_calloc s L count size Hinv Hop) as (r & s' & -> & Hi & Ht). by exists s', (hold L (u32 (count * size)) r).
  - destruct (L !! i) as [[p n]|] eqn:Ei; cbn [fmap option_fmap option_map fst].
    + destruct (decide (size = 0)) as [->|Hne].
      * destruct (client_free s L i p n Hinv Ei) as (s' & Hr & Hi & Ht). exists s', (delete i L).
        split_and!; [|done|done]. unfold rt_realloc. change (RT_ALIGN 0 RT_ALIGN_SIZE) with 0.
        rewrite run_bind_gets. pose proof Hinv as (bs & _ & Hok & _). pose proof (ok_size _ _ Hok). cbn in H.
        destruct (Z.gtb_spec 0 (mem_size_aligned s)); [lia|]. cbn [Z.eqb].
        by erewrite run_bind_ok by exact Hr.
      * destruct (client_realloc s L i p n size Hinv Ei) as (r & s' & Hr & Hi & Ht); [unfold size_ok in Hop; lia|].
        change (Some p) with (Some p). rewrite Hr. cbn. destruct r; [by eexists _, _|].
        rewrite (proj2 (Z.eqb_neq size 0)) by done. by eexists _, _.
    + rewrite (delete_none L i Ei).
      destruct (client_realloc_null s L size Hinv Hop) as (r & s' & -> & Hi & Ht). cbn.
      exists s', (hold L size r). destruct r; [done|]. by case_match.
  - destruct (L !! i) as [[p n]|] eqn:Ei; cbn [fmap option_fmap option_map fst].
    + destruct (client_free s L i p n Hinv Ei) as (s' & -> & Hi & Ht). by exists s', (delete i L).
    + rewrite (delete_none L i Ei). by exists s, L.
  - destruct (client_write s L i off v Hinv) as (s' & Hr & Hi). by exists s', L.
Qed.

(** ** Initialisation *)
Lemma init_ok begin_addr end_addr junk s :
  0 <= begin_addr <= 0xFFFFFFFC -> end_addr < 2 ^ 32 ->
  RT_ALIGN begin_addr RT_ALIGN_SIZE + 36 <= RT_ALIGN_DOWN end_addr RT_ALIGN_SIZE ->
  (forall n, length (junk n) = Z.to_nat n /\ is_bytes (junk n)) ->
  rt_system_heap_init begin_addr end_addr junk = Some s ->
  heap_ok s [(false, mem_size_aligned s)] /\ lowest s [(false, mem_size_aligned s)].
Proof.
  intros Hb He Hsz Hj. destruct (RT_ALIGN_ok begin_addr Hb) as (Hb1 & Hb4 & Hb2).
  assert (0 <= end_addr) as He0.
  { destruct (Z.le_gt_cases 0 end_addr) as [|Hneg]; [done|]. exfalso.
    assert (RT_ALIGN_DOWN end_addr RT_ALIGN_SIZE < 0) by (apply Z.land_neg; split; [lia|done]). lia. }
  destruct (RT_ALIGN_DOWN_ok end_addr He0) as (He1 & He4).
  unfold rt_system_heap_init. set (a := RT_ALIGN begin_addr RT_ALIGN_SIZE) in *. set (e := RT_ALIGN_DOWN end_addr RT_ALIGN_SIZE) in *.
  case_match; [|done]. intros [= <-]. rewrite u32_small by mlia. set (t := e - a - 2 * SIZEOF_STRUCT_MEM).
  cbn [mem_size_aligned]. assert (12 <= t < 2 ^ 32 - 24) as Ht by (unfold t; mlia).
  destruct (Hj (t + SIZEOF_STRUCT_MEM + SIZEOF_STRUCT_MEM)) as [Hj1 Hj2].
  split; [|done]. split; cbn [hdrs bytes lfree mem_size_aligned]; [| | |done|by left; left| |].
  - split; cbn.
    + split; [|done]. rewrite lookup_insert_eq. unfold header. do 2 f_equal. mlia.
    + exists (MkMem HEAP_MAGIC 1 (t + SIZEOF_STRUCT_MEM) (t + SIZEOF_STRUCT_MEM)). split; [|done].
      rewrite lookup_insert_ne by mlia. replace (SIZEOF_STRUCT_MEM + t + 0) with (t + SIZEOF_STRUCT_MEM) by lia.
      by rewrite lookup_singleton_eq.
  - unfold heap_end. cbn. lia.
  - constructor; [|constructor]. split; cbn; [lia|]. unfold t.
    apply Z.divide_sub_r; [by apply Z.divide_sub_r|by exists 6].
  - done.
  - split; [|done]. rewrite Hj1. mlia.
Qed.

Lemma replicate_bytes n : length (replicate (Z.to_nat n) 0) = Z.to_nat n /\ is_bytes (replicate (Z.to_nat n) 0).
Proof. split; [apply length_replicate|]. by apply Forall_replicate. Qed.

Lemma heap_1k_ok : heap_ok heap_1k [(false, 1000)] /\ lowest heap_1k [(false, 1000)].
Proof. apply (init_ok 0x1000 0x1400 (fun n => replicate (Z.to_nat n) 0)); [lia|lia|done|apply replicate_bytes|done]. Qed.

(** The state after a client's calls, for examples. *)
Definition heap_after (ops : list heap_op) : heap_sys :=
  match client_run ops (heap_1k, []) with Ok (s, _) => s | _ => heap_1k end.

(** A heap with the blocks of a list, checked by evaluation. *)
Ltac heap_ok_eval :=
  split;
  [ split; [repeat (split; [vm_compute; reflexivity|]); exact I
           |eexists; split; [vm_compute; reflexivity|reflexivity]]
  | vm_compute; reflexivity
  | repeat (constructor; [split; [vm_compute; discriminate|by apply Z.mod_divide]|]); constructor
  | reflexivity
  | vm_compute; tauto
  | vm_compute; split; [discriminate|reflexivity]
  | split; [vm_compute; reflexivity|apply (bool_decide_unpack _); vm_compute; exact I] ].

(** [rt_malloc] finds nothing when [lfree] is the last header. *)
Lemma rt_malloc_at_end s bs size : heap_ok s bs -> lfree s = heap_end s -> 0 < size <= 0xFFFFFFFC ->
  rt_malloc size s = Ok (None, s).
Proof.
  destruct s as [h b l t]. intros Hok E Hs. cbn [lfree] in E. unfold heap_end in E. cbn [mem_size_aligned] in E.
  destruct (rt_malloc_ok h b l t bs size Hok Hs) as (pre & hi & -> & El & _ & [[-> _]|(lo & n & post & h' & l' & -> & _)]); [done|].
  exfalso. pose proof (ok_span _ _ Hok) as Ht. unfold heap_end in Ht. cbn [mem_size_aligned] in Ht.
  pose proof (ok_sized _ _ Hok) as Hz. rewrite app_assoc in Hz, Ht.
  pose proof (span_middle _ _ _ _ Hz) as (_ & _ & Hn & Hsp). rewrite heap_span_app in Hsp.
  apply Forall_app in Hz as [[_ Hz]%Forall_app _]. pose proof (span_bounds lo Hz). mlia.
Qed.

(** ** The allocator *)

(** C24: On a heap that is in order and whose [lfree] is its lowest free block,
    [rt_malloc] with a size that can be aligned without overflow either returns
    NULL and changes nothing, and then no free block is large enough (except that
    a last block of exactly the size is never used), or it takes the first free
    block that is large enough: the pointer is the data of that block, what is left
    behind the aligned size (at least 12 bytes) becomes a free block when it holds
    a header and 12 bytes, all other blocks and all data stay as they are, the heap
    is in order again and [lfree] is its lowest free block. *)
Theorem rt_malloc_first_fit (s : heap_sys) (bs : list block) (size : Z)
    (Hok : heap_ok s bs) (Hlow : lowest s bs) (Hs : 0 < size <= 0xFFFFFFFC) :
  let k := Z.max MIN_SIZE_ALIGNED (RT_ALIGN size RT_ALIGN_SIZE) in
  size <= k /\
  ((rt_malloc size s = Ok (None, s) /\ no_room k bs) \/
   exists pre n post s', bs = pre ++ (false, n) :: post /\ Forall (busy k) pre /\ k <= n /\
     rt_malloc size s = Ok (Some (span pre + SIZEOF_STRUCT_MEM), s') /\
     heap_ok s' (pre ++ taken k n ++ post) /\ lowest s' (pre ++ taken k n ++ post) /\ same_data s s').
Proof.
  fold (request size). cbn zeta. split; [by apply request_ok|].
  destruct s as [h b l t].
  destruct (rt_malloc_ok h b l t bs size Hok Hs) as (pre & hi & -> & _ & Hu & Hr). specialize (Hu Hlow).
  assert (Forall (busy (request size)) pre) as Hbusy.
  { apply Forall_forall. intros x Hx. left. rewrite forallb_forall in Hu. by apply Hu, list_elem_of_In. }
  destruct Hr as [[-> Hno]|(lo & n & post & h' & l' & -> & Hlo & Hn & -> & Hok' & Hlow')].
  - left. split; [done|]. clear -Hno Hbusy. induction Hbusy; [done|by apply no_room_cons].
  - right. exists (pre ++ lo), n, post, (MkHeap h' b l' t). rewrite <- !app_assoc.
    split_and!; [done|by apply Forall_app|done|done|done|by apply Hlow'|done].
Qed.

(** [rt_free] of a pointer that is in use frees exactly that block: it joins
    the free blocks before and behind it, so that no two free blocks are neighbours
    again, the other blocks and all data stay as they are, and [lfree] is again the
    lowest free block if it was before. *)
Theorem rt_free_coalesces (s : heap_sys) (pre : list block) (n : Z) (post : list block)
    (Hok : heap_ok s (pre ++ (true, n) :: post)) :
  let bs' := coalesce (pre ++ (false, n) :: post) in
  exists s', rt_free (Some (span pre + SIZEOF_STRUCT_MEM)) s = Ok (tt, s') /\
    heap_ok s' bs' /\ same_data s s' /\ (lowest s (pre ++ (true, n) :: post) -> lowest s' bs').
Proof.
  destruct s as [h b l t]. destruct (rt_free_ok h b l t pre n post Hok) as (h' & l' & Hr & Hok' & Hlow & _).
  exists (MkHeap h' b l' t). split_and!; [exact Hr|exact Hok'|done|exact Hlow].
Qed.

(** [rt_realloc] of a block in use either returns NULL and changes nothing, or
    returns a block of at least the new size that holds the old contents up to the
    smaller of the two sizes; the old block is the new one or is freed, and the
    other blocks in use and their contents are untouched. *)
Theorem rt_realloc_keeps (s : heap_sys) (bs : list block) (r n : Z) (L : list (Z * Z)) (size : Z)
    (Hok : heap_ok s bs) (HL : live 0 bs ≡ₚ (r, n) :: L) (Hs : 0 < size <= 0xFFFFFFFC) :
  rt_realloc (Some r) size s = Ok (None, s) \/
  exists p k bs' s', rt_realloc (Some r) size s = Ok (Some p, s') /\ heap_ok s' bs' /\
    live 0 bs' ≡ₚ (p, k) :: L /\ size <= k /\ data_copied s s' r p (Z.min n size) /\ Forall (data_kept s s') L.
Proof.
  destruct (RT_ALIGN_ok size) as (Hal & _); [lia|].
  destruct (realloc_live s bs r n L size Hok HL Hs) as [Hr|(p & k & bs' & s' & Hr & Hok' & HL' & Hk & _ & Hd & Hkept)];
    [by left|right].
  exists p, k, bs', s'. split_and!; [done..|lia| |done]. intros i Hi. apply Hd. lia.
Qed.

(** C23: Any sequence of allocations, reallocations and releases of pointers the
    client holds, and of writes inside its blocks, on a heap that
    [rt_system_heap_init] made from 36 aligned bytes or more, runs without a fault
    and ends: no assertion fails and the searches end.  At every such point the
    blocks the client holds are aligned, lie inside the heap and do not overlap, and
    when it holds none the heap is a single free block again, found by the next
    search. *)
Theorem heap_clients_safe (begin_addr end_addr : Z) (junk : Z -> list Z) (s0 : heap_sys) (ops : list heap_op)
    (Hb : 0 <= begin_addr <= 0xFFFFFFFC) (He : end_addr < 2 ^ 32)
    (Hsz : RT_ALIGN begin_addr RT_ALIGN_SIZE + 36 <= RT_ALIGN_DOWN end_addr RT_ALIGN_SIZE)
    (Hj : forall n, length (junk n) = Z.to_nat n /\ is_bytes (junk n))
    (Hi : rt_system_heap_init begin_addr end_addr junk = Some s0) (Hops : Forall op_ok ops) :
  exists s L, client_run ops (s0, []) = Ok (s, L) /\ pairwise L /\
    Forall (fun x => SIZEOF_STRUCT_MEM <= x.1 /\ (4 | x.1) /\ x.1 + x.2 <= heap_end s0) L /\
    (L = [] -> heap_ok s [(false, mem_size_aligned s0)] /\ lfree s = 0).
Proof.
  destruct (init_ok _ _ _ _ Hb He Hsz Hj Hi) as [Hok Hlow].
  assert (client_inv (s0, [])) as Hinv by (exists [(false, mem_size_aligned s0)], []; split_and!; [done|done|constructor|done]).
  assert (exists s L, client_run ops (s0, []) = Ok (s, L) /\ client_inv (s, L) /\ mem_size_aligned s = mem_size_aligned s0)
    as (s & L & Hr & (bs & L2 & Hok' & HL & HF & Hl) & Ht).
  { clear -Hinv Hops. revert Hinv. generalize (@nil (Z * Z)) as L. revert s0. induction Hops as [|op ops Hop _ IH]; intros s0 L Hinv.
    - by exists s0, L.
    - destruct (client_step_ok op s0 L Hinv Hop) as (s' & L' & Hst & Hinv' & Ht). cbn [client_run]. rewrite Hst.
      destruct (IH s' L' Hinv') as (s & L2 & Hr & Hi & Ht2). exists s, L2. split_and!; [exact Hr|exact Hi|congruence]. }
  cbn in *. exists s, L. split_and!; [exact Hr| | |].
  - eapply pairwise_held; [exact HF|]. eapply pairwise_perm; [exact HL|]. apply live_pairwise; [apply Hok'|apply Z.divide_0_r].
  - pose proof (live_inside 0 bs (ok_sized _ _ Hok') (Z.divide_0_r 4)) as Hin. rewrite HL, (ok_span _ _ Hok') in Hin.
    replace (heap_end s) with (heap_end s0) in Hin by (unfold heap_end; congruence).
    clear -HF Hin. induction HF as [|[p n] [q k] L L2 [H1 H2] _ IH]; [constructor|].
    apply Forall_cons in Hin as [(Hq1 & Hq2 & Hq3 & Hq4) Hin]. cbn in *. subst q. constructor; [|auto]. cbn. split_and!; [lia|done|lia].
  - intros ->. apply Forall2_nil_inv_l in HF as ->. specialize (Hl eq_refl).
    pose proof (client_empty s bs Hok' HL) as ->. rewrite Ht in *. by split.
Qed.

Lemma rt_malloc_first_fit_witness :
  exists s', rt_malloc 900 heap_1k = Ok (Some 12, s') /\ heap_ok s' [(true, 900); (false, 88)] /\
    lowest s' [(true, 900); (false, 88)].
Proof.
  destruct (rt_malloc_first_fit heap_1k [(false, 1000)] 900 (proj1 heap_1k_ok) (proj2 heap_1k_ok) ltac:(lia))
    as [_ [[Hr _]|([|b pre] & n & post & s' & E & _ & _ & Hr & Hok & Hlow & _)]].
  - exfalso. vm_compute in Hr. discriminate Hr.
  - injection E as <- <-. exists s'. split; [exact Hr|]. split; [exact Hok|exact Hlow].
  - exfalso. by destruct pre.
Defined.

Lemma rt_free_coalesces_witness :
  exists s', rt_free (Some 112) (heap_after [OMalloc 88; OMalloc 100; OMalloc 200; OFree 2; OFree 0]) = Ok (tt, s') /\
    heap_ok s' [(false, 1000)].
Proof.
  assert (heap_ok (heap_after [OMalloc 88; OMalloc 100; OMalloc 200; OFree 2; OFree 0])
    ([(false, 88)] ++ (true, 100) :: [(false, 788)])) as Hok by heap_ok_eval.
  destruct (rt_free_coalesces _ [(false, 88)] 100 [(false, 788)] Hok) as (s' & Hr & Hok' & _).
  exists s'. split; [exact Hr|exact Hok'].
Defined.

Lemma rt_realloc_keeps_witness :
  exists s, rt_realloc (Some 12) 300 (heap_after [OMalloc 100; OMalloc 100; OWrite 1 99 7]) = Ok (Some 236, s) /\
    bytes s !! 335%nat = Some 7.
Proof.
  assert (heap_ok (heap_after [OMalloc 100; OMalloc 100; OWrite 1 99 7])
    [(true, 100); (true, 100); (false, 776)]) as Hok by heap_ok_eval.
  destruct (rt_realloc_keeps _ _ 12 100 [(124, 100)] 300 Hok ltac:(reflexivity) ltac:(lia))
    as [Hr|(p & k & bs' & s' & Hr & _ & _ & _ & Hd & _)]; [exfalso; vm_compute in Hr; discriminate Hr|].
  assert (p = 236) as ->.
  { assert (match rt_realloc (Some 12) 300 (heap_after [OMalloc 100; OMalloc 100; OWrite 1 99 7]) with
            | Ok (r, _) => r | _ => None end = Some 236) as E by (vm_compute; reflexivity).
    rewrite Hr in E. by injection E. }
  exists s'. split; [exact Hr|]. specialize (Hd 99 ltac:(lia)). change (Z.to_nat (236 + 99)) with 335%nat in Hd.
  rewrite Hd. vm_compute. reflexivity.
Defined.

Lemma heap_clients_safe_witness :
  exists s, client_run [OMalloc 900; OMalloc 80; ORealloc 1 12; OFree 0; OFree 0] (heap_1k, []) = Ok (s, []) /\
    lfree s = 0.
Proof.
  destruct (heap_clients_safe 0x1000 0x1400 (fun n => replicate (Z.to_nat n) 0) heap_1k
    [OMalloc 900; OMalloc 80; ORealloc 1 12; OFree 0; OFree 0])
    as (s & L & Hr & _ & _ & Hl); [lia|lia|done|apply replicate_bytes|done|
      repeat (constructor; [vm_compute; split; discriminate || exact I|]); constructor|].
  assert (L = []) as ->; [|exists s; split; [exact Hr|by apply Hl]].
  assert (match client_run [OMalloc 900; OMalloc 80; ORealloc 1 12; OFree 0; OFree 0] (heap_1k, []) with
          | Ok (_, L) => L | _ => [(0, 0)] end = []) as E by (vm_compute; reflexivity).
  by rewrite Hr in E.
Defined.

(** [rt_realloc] that shrinks a block does not move [lfree] down to the free
    block it creates: here 876 of the 1000 bytes are free behind a block that was
    shrunk from 900 to 12 bytes, and every request for memory fails. *)
Theorem realloc_hides_memory :
  exists s L, client_run [OMalloc 900; OMalloc 80; ORealloc 1 12] (heap_1k, []) = Ok (s, L) /\
    heap_ok s [(true, 12); (false, 876); (true, 88)] /\
    forall size, 0 < size <= 0xFFFFFFFC -> rt_malloc size s = Ok (None, s).
Proof.
  exists (heap_after [OMalloc 900; OMalloc 80; ORealloc 1 12]), [(12, 12); (924, 80)].
  split; [vm_compute; reflexivity|].
  assert (heap_ok (heap_after [OMalloc 900; OMalloc 80; ORealloc 1 12]) [(true, 12); (false, 876); (true, 88)]) as Hok
    by heap_ok_eval.
  split; [exact Hok|]. intros size Hs. eapply rt_malloc_at_end; [exact Hok|vm_compute; reflexivity|exact Hs].
Qed.
