(* ===== verification/KClock.v ===== *)
(** * Ticks and milliseconds (src/Kernel/clock.c)

    The tick counter itself and its interrupt are in KTimer.v and KThread.v. *)
From S2P Require Import Prelude.

Definition rt_tick_from_millisecond (ms : Z) : Z :=
  if ms <? 0 then RT_WAITING_FOREVER else (RT_TICK_PER_SECOND * ms + 999) / 1000.
