(* ===== verification/KTimer.v ===== *)
(** * Kernel timers (src/Kernel/timer.c)

    The list of active timers, ordered by the tick at which they time out, and its
    operations.  The skip list has one level and there is no soft timer thread in
    this configuration.  Ticks are 32-bit and wrap.  The regions with interrupts
    disabled are atomic; [rt_timer_start] is one step.

    [rt_timer_check] calls the timeout functions, which work on a larger state: it
    is defined over any state with a field of timers, and the timeout functions are
    an argument.  Its loop has fuel, one unit for each timer it may take. *)
From stdpp Require Import gmap.
From Stdlib Require Import Sorting.Sorted.
From S2P Require Import Prelude.

Definition RT_TICK_MAX : Z := 0xFFFFFFFF.
Definition RT_TIMER_FLAG_ACTIVATED : Z := 1.
Definition RT_TIMER_FLAG_PERIODIC : Z := 2.

(** A timer is the one in a thread's control block or one of the application. *)
Inductive timer_id := ThreadTimer (tid : Z) | UserTimer (n : Z).

#[export] Instance timer_id_eq_dec : EqDecision timer_id.
Proof. solve_decision. Defined.

#[export] Instance timer_id_countable : Countable timer_id.
Proof.
  apply (inj_countable' (fun t => match t with ThreadTimer n => inl n | UserTimer n => inr n end)
    (fun s => match s with inl n => ThreadTimer n | inr n => UserTimer n end)).
  by intros [].
Defined.

Record rt_timer := MkTimer { tm_flag : Z; tm_init_tick : Z; timeout_tick : Z }.
#[export] Instance rt_timer_eta : Eta rt_timer := fun t => MkTimer (tm_flag t) (tm_init_tick t) (timeout_tick t).

(** The static variables of timer.c and clock.c, with the timer objects. *)
Record timers := MkTimers {
  timer_objs : gmap timer_id rt_timer;
  rt_timer_list : list timer_id;
  random_nr : Z;
  rt_tick : Z
}.
#[export] Instance timers_eta : Eta timers := fun s =>
  MkTimers (timer_objs s) (rt_timer_list s) (random_nr s) (rt_tick s).

Definition has_timer_flag (t : rt_timer) (flag : Z) : bool := negb (Z.land (tm_flag t) flag =? 0).

(** A null timer fails the first assertion. *)
Definition get_timer (id : timer_id) : M timers rt_timer :=
  o ← gets (fun s => timer_objs s !! id);
  match o with
  | Some t => mret t
  | None => lift (Fault FAssert)
  end.

Definition put_timer (id : timer_id) (t : rt_timer) : M timers unit :=
  modify (fun s => s <| timer_objs := <[id := t]> (timer_objs s) |>).

(** [rt_list_remove] of the timer's row. *)
Definition _rt_timer_remove (id : timer_id) : M timers unit :=
  modify (fun s => s <| rt_timer_list := filter (fun x => x <> id) (rt_timer_list s) |>).

(** ** Operations *)
Definition rt_system_timer_init : M timers unit := rt_timer_list ::= [].

Definition rt_timer_init (id : timer_id) (time flag : Z) : M timers unit :=
  put_timer id (MkTimer (Z.land flag (Z.lnot RT_TIMER_FLAG_ACTIVATED)) time 0).

Definition rt_timer_list_next_timeout : M timers Z :=
  l ← gets rt_timer_list;
  match l with
  | [] => mret RT_TICK_MAX
  | id :: _ => t ← get_timer id; mret (timeout_tick t)
  end.

(** The place of a timer that times out at [timeout], behind those that time out at
    the same tick. *)
Fixpoint insert_timer (objs : gmap timer_id rt_timer) (timeout : Z) (id : timer_id) (l : list timer_id) :
    outcome (list timer_id) :=
  match l with
  | [] => Ok [id]
  | x :: l' =>
      match objs !! x with
      | None => Fault FOutOfBounds
      | Some t =>
          let d := u32 (timeout_tick t - timeout) in
          if negb (d =? 0) && (d <? RT_TICK_MAX / 2) then Ok (id :: l)
          else r ← insert_timer objs timeout id l'; Ok (x :: r)
      end
  end.

Definition rt_timer_start (id : timer_id) : M timers unit :=
  t ← get_timer id;
  _rt_timer_remove id;;
  put_timer id (t <| tm_flag := Z.land (tm_flag t) (Z.lnot RT_TIMER_FLAG_ACTIVATED) |>);;
  t ← get_timer id;
  RT_ASSERT (tm_init_tick t <? RT_TICK_MAX / 2);;
  now ← gets rt_tick;
  let timeout := u32 (now + tm_init_tick t) in
  put_timer id (t <| timeout_tick := timeout |>);;
  objs ← gets timer_objs;
  l ← gets rt_timer_list;
  l ← lift (insert_timer objs timeout id l);
  nr ← gets random_nr;
  random_nr ::= u32 (nr + 1);;
  rt_timer_list ::= l;;
  t ← get_timer id;
  put_timer id (t <| tm_flag := Z.lor (tm_flag t) RT_TIMER_FLAG_ACTIVATED |>).

(** The result is whether the timer was active. *)
Definition rt_timer_stop (id : timer_id) : M timers bool :=
  t ← get_timer id;
  if negb (has_timer_flag t RT_TIMER_FLAG_ACTIVATED) then mret false else
  _rt_timer_remove id;;
  put_timer id (t <| tm_flag := Z.land (tm_flag t) (Z.lnot RT_TIMER_FLAG_ACTIVATED) |>);;
  mret true.

(** [rt_timer_detach] and [rt_timer_delete], which differ in the storage of the
    timer they take: the timer is no longer an object, and any later operation on it
    fails its assertion. *)
Definition rt_timer_detach (id : timer_id) : M timers unit :=
  get_timer id;;
  _rt_timer_remove id;;
  modify (fun s => s <| timer_objs := delete id (timer_objs s) |>).

Inductive timer_cmd :=
  | RT_TIMER_CTRL_SET_TIME (tick : Z)
  | RT_TIMER_CTRL_GET_TIME
  | RT_TIMER_CTRL_SET_ONESHOT
  | RT_TIMER_CTRL_SET_PERIODIC.

(** The result is what is stored at [arg]. *)
Definition rt_timer_control (id : timer_id) (cmd : timer_cmd) : M timers (option Z) :=
  t ← get_timer id;
  match cmd with
  | RT_TIMER_CTRL_GET_TIME => mret (Some (tm_init_tick t))
  | RT_TIMER_CTRL_SET_TIME tick => put_timer id (t <| tm_init_tick := tick |>);; mret None
  | RT_TIMER_CTRL_SET_ONESHOT =>
      put_timer id (t <| tm_flag := Z.land (tm_flag t) (Z.lnot RT_TIMER_FLAG_PERIODIC) |>);; mret None
  | RT_TIMER_CTRL_SET_PERIODIC =>
      put_timer id (t <| tm_flag := Z.lor (tm_flag t) RT_TIMER_FLAG_PERIODIC |>);; mret None
  end.

Section Check.
Context {St : Type} (tm : St -> timers) `{!Setter tm} (timeout_func : timer_id -> M St unit).

(** What follows the timeout function of [id]. *)
Definition timer_done (id : timer_id) : M timers unit :=
  t ← get_timer id;
  put_timer id (t <| tm_flag := Z.land (tm_flag t) (Z.lnot RT_TIMER_FLAG_ACTIVATED) |>);;
  when has_timer_flag t RT_TIMER_FLAG_PERIODIC && has_timer_flag t RT_TIMER_FLAG_ACTIVATED do rt_timer_start id.

Fixpoint timer_check_loop (fuel : nat) (current_tick : Z) : M St unit :=
  match fuel with
  | O => lift Blocked
  | S fuel =>
      l ← gets (fun s => rt_timer_list (tm s));
      match l with
      | [] => skip
      | id :: _ =>
          t ← zoom tm (get_timer id);
          if u32 (current_tick - timeout_tick t) <? RT_TICK_MAX / 2 then
            zoom tm (_rt_timer_remove id);;
            timeout_func id;;
            current_tick ← gets (fun s => rt_tick (tm s));
            zoom tm (timer_done id);;
            timer_check_loop fuel current_tick
          else skip
      end
  end.

Definition rt_timer_check (fuel : nat) : M St unit :=
  current_tick ← gets (fun s => rt_tick (tm s));
  timer_check_loop fuel current_tick.
End Check.

(** ** The timer queue *)

(** The number of ticks after which a timer times out; ticks wrap. *)
Definition due (s : timers) (id : timer_id) : Z :=
  match timer_objs s !! id with Some t => s32 (timeout_tick t - rt_tick s) | None => 0 end.

(** The abstract queue: the active timers and their remaining ticks. *)
Definition pending (s : timers) : list (timer_id * Z) := map (fun id => (id, due s id)) (rt_timer_list s).

Fixpoint insert_due (id : timer_id) (d : Z) (q : list (timer_id * Z)) : list (timer_id * Z) :=
  match q with
  | [] => [(id, d)]
  | (x, e) :: q' => if d <? e then (id, d) :: q else (x, e) :: insert_due id d q'
  end.

Definition drop_timer (id : timer_id) (q : list (timer_id * Z)) : list (timer_id * Z) :=
  filter (fun x => x.1 <> id) q.

Definition half : Z := RT_TICK_MAX / 2.

Definition active (s : timers) (id : timer_id) : Prop :=
  exists t, timer_objs s !! id = Some t /\ has_timer_flag t RT_TIMER_FLAG_ACTIVATED = true.

(** The list is in the order of the remaining ticks, of which there are at least
    [lo]; every timer in it is there once and active, and no other is active, but
    for the one whose timeout function runs. *)
Record timers_ok (lo : Z) (running : option timer_id) (s : timers) : Prop := {
  tok_sorted : StronglySorted (fun x y => x.2 <= y.2) (pending s);
  tok_range : Forall (fun x => lo <= x.2 < half) (pending s);
  tok_nodup : NoDup (rt_timer_list s);
  tok_active : Forall (active s) (rt_timer_list s);
  tok_only : forall id, active s id -> id ∈ rt_timer_list s \/ running = Some id;
  tok_running : forall id, running = Some id -> id ∉ rt_timer_list s
}.

(** ** Lemmas *)
Lemma run_get_timer {B} id t (k : rt_timer -> M timers B) s : timer_objs s !! id = Some t ->
  (get_timer id ≫= k) s = k t s.
Proof. intros H. unfold get_timer. rewrite run_bind_bind, run_bind_gets, H. done. Qed.

Lemma sint_cong x : exists k, s32 x = x + k * 2 ^ 32.
Proof.
  unfold sint. exists (- ((x + 2 ^ 31) / 2 ^ 32)). pose proof (Z.div_mod (x + 2 ^ 31) (2 ^ 32) ltac:(done)).
  change (32 - 1) with 31. lia.
Qed.

Lemma u32_cong x y k : x = y + k * 2 ^ 32 -> u32 x = u32 y.
Proof. intros ->. apply Z_mod_plus_full. Qed.

Lemma s32_cong x y k : x = y + k * 2 ^ 32 -> s32 x = s32 y.
Proof.
  intros ->. unfold sint. f_equal. replace (y + k * 2 ^ 32 + 2 ^ (32 - 1)) with (y + 2 ^ (32 - 1) + k * 2 ^ 32) by lia.
  apply Z_mod_plus_full.
Qed.

Lemma s32_small x : - 2 ^ 31 <= x < 2 ^ 31 -> s32 x = x.
Proof. intros H. unfold sint. rewrite Z.mod_small; change (32 - 1) with 31; lia. Qed.

(** The comparison of the code, in remaining ticks. *)
Lemma timeout_order ta now init : let d := u32 (ta - u32 (now + init)) in
  -1 <= s32 (ta - now) < half -> 0 <= init < half ->
  negb (d =? 0) && (d <? half) = (init <? s32 (ta - now)).
Proof.
  intros d Ha Hi. unfold half in *. change (RT_TICK_MAX / 2) with 0x7FFFFFFF in *.
  destruct (sint_cong (ta - now)) as [k Hk]. set (da := s32 (ta - now)) in *.
  assert (d = u32 (da - init)) as ->.
  { unfold d. unfold uint at 2. pose proof (Z.div_mod (now + init) (2 ^ 32) ltac:(done)).
    apply (u32_cong _ _ ((now + init) / 2 ^ 32 - k)). lia. }
  destruct (Z.ltb_spec init da).
  - rewrite u32_small by lia. apply andb_true_iff. split; [apply negb_true_iff, Z.eqb_neq; lia|apply Z.ltb_lt; lia].
  - destruct (decide (da = init)) as [->|]; [by rewrite Z.sub_diag|].
    rewrite (u32_cong _ (da - init + 2 ^ 32) (-1)) by lia. rewrite u32_small by lia.
    apply andb_false_iff. right. apply Z.ltb_ge. lia.
Qed.

Lemma pending_ext s s' : rt_timer_list s' = rt_timer_list s ->
  (forall id, id ∈ rt_timer_list s -> due s' id = due s id) -> pending s' = pending s.
Proof.
  intros E H. unfold pending. rewrite E. apply map_ext_in. intros id Hid. f_equal. apply H. by apply list_elem_of_In.
Qed.

Lemma insert_timer_ok s l init id : 0 <= init < half ->
  Forall (fun x => active s x /\ -1 <= due s x < half) l ->
  exists l', insert_timer (timer_objs s) (u32 (rt_tick s + init)) id l = Ok l' /\
    (forall f, (forall x, x ∈ l -> f x = due s x) -> f id = init ->
       map (fun x => (x, f x)) l' = insert_due id init (map (fun x => (x, due s x)) l)) /\
    l' ≡ₚ id :: l.
Proof.
  intros Hi. induction 1 as [|x l [(t & Ht & _) Hd] _ IH]; cbn [insert_timer].
  - exists [id]. split_and!; [done| |done]. intros f _ Hf. cbn. by rewrite Hf.
  - rewrite Ht. unfold due in Hd. rewrite Ht in Hd. fold half. rewrite timeout_order by done.
    assert (due s x = s32 (timeout_tick t - rt_tick s)) as Ex by (unfold due; by rewrite Ht).
    cbn [map insert_due]. rewrite Ex. destruct (init <? s32 (timeout_tick t - rt_tick s)) eqn:E.
    + exists (id :: x :: l). split_and!; [done| |done]. intros f Hf Hid. cbn. rewrite Hid, (Hf x), Ex by (apply elem_of_cons; by left).
      do 2 f_equal. apply map_ext_in. intros y Hy. f_equal. apply Hf. apply elem_of_cons. right. by apply list_elem_of_In.
    + destruct IH as (l' & -> & Hmap & Hp). exists (x :: l'). split_and!; [done| |].
      * intros f Hf Hid. cbn. rewrite (Hf x), Ex by (apply elem_of_cons; by left). f_equal. apply Hmap; [|done].
        intros y Hy. apply Hf. apply elem_of_cons. by right.
      * rewrite Hp. apply perm_swap.
Qed.

Lemma insert_due_Forall P id d q : Forall P (insert_due id d q) <-> P (id, d) /\ Forall P q.
Proof.
  induction q as [|[x e] q IH]; cbn; [by rewrite Forall_cons|]. destruct (d <? e); rewrite !Forall_cons; [done|].
  rewrite IH. tauto.
Qed.

Lemma insert_due_sorted id d q : StronglySorted (fun x y => x.2 <= y.2) q ->
  StronglySorted (fun x y => x.2 <= y.2) (insert_due id d q).
Proof.
  induction 1 as [|[x e] q Hs IH Hf]; cbn; [by repeat constructor|]. destruct (Z.ltb_spec d e).
  - constructor; [by constructor|]. constructor; [cbn; lia|]. eapply Forall_impl; [exact Hf|]. intros y. cbn. lia.
  - constructor; [exact IH|]. apply insert_due_Forall. split; [done|exact Hf].
Qed.

Lemma sorted_drop id q : StronglySorted (fun x y => x.2 <= y.2) q ->
  StronglySorted (fun x y => x.2 <= y.2) (drop_timer id q).
Proof.
  induction 1 as [|[x e] q Hs IH Hf]; [constructor|]. unfold drop_timer in *. rewrite filter_cons. case_decide; [|done].
  constructor; [done|]. by apply Forall_filter.
Qed.

Lemma pending_drop s id f : map (fun x => (x, f x)) (filter (fun x => x <> id) (rt_timer_list s)) =
  drop_timer id (map (fun x => (x, f x)) (rt_timer_list s)).
Proof.
  unfold drop_timer. induction (rt_timer_list s) as [|x l IH]; [done|]. cbn [map]. rewrite !filter_cons. cbn [fst].
  case_decide; cbn [map]; by rewrite IH.
Qed.

(** Flags *)
Lemma flag_cleared t : has_timer_flag (t <| tm_flag := Z.land (tm_flag t) (Z.lnot RT_TIMER_FLAG_ACTIVATED) |>) RT_TIMER_FLAG_ACTIVATED = false.
Proof. unfold has_timer_flag. cbn. rewrite <- Z.land_assoc. by rewrite Z.land_0_r. Qed.

Lemma flag_set t : has_timer_flag (t <| tm_flag := Z.lor (tm_flag t) RT_TIMER_FLAG_ACTIVATED |>) RT_TIMER_FLAG_ACTIVATED = true.
Proof.
  unfold has_timer_flag. cbn. rewrite Z.land_lor_distr_l. apply negb_true_iff, Z.eqb_neq. intros H.
  apply Z.lor_eq_0_iff in H as [_ H]. done.
Qed.

Definition cleared (t : rt_timer) : rt_timer := t <| tm_flag := Z.land (tm_flag t) (Z.lnot RT_TIMER_FLAG_ACTIVATED) |>.
Definition started (t : rt_timer) (timeout : Z) : rt_timer :=
  (cleared t) <| timeout_tick := timeout |> <| tm_flag := Z.lor (tm_flag (cleared t)) RT_TIMER_FLAG_ACTIVATED |>.

Lemma started_active t timeout : has_timer_flag (started t timeout) RT_TIMER_FLAG_ACTIVATED = true.
Proof. destruct t as [f i o]. exact (flag_set (MkTimer (Z.land f (Z.lnot RT_TIMER_FLAG_ACTIVATED)) i timeout)). Qed.

(** The state after a timer is taken off the list and no longer active. *)
Definition dropped (id : timer_id) (t : rt_timer) (s : timers) : timers :=
  s <| rt_timer_list := filter (fun x => x <> id) (rt_timer_list s) |> <| timer_objs := <[id := cleared t]> (timer_objs s) |>.

Lemma due_other s id x t : x <> id -> due (s <| timer_objs := <[id := t]> (timer_objs s) |>) x = due s x.
Proof. intros H. unfold due. cbn. by rewrite lookup_insert_ne. Qed.

Lemma dropped_pending id t s : pending (dropped id t s) = drop_timer id (pending s).
Proof.
  unfold pending. rewrite <- pending_drop. cbn. apply map_ext_in. intros x Hx%list_elem_of_In%list_elem_of_filter. f_equal.
  unfold due. cbn. by rewrite lookup_insert_ne by naive_solver.
Qed.

Lemma active_insert s s' id t x : timer_objs s' = <[id := t]> (timer_objs s) -> active s' x <->
  (x = id /\ has_timer_flag t RT_TIMER_FLAG_ACTIVATED = true) \/ (x <> id /\ active s x).
Proof.
  intros E. unfold active. rewrite E. destruct (decide (id = x)) as [->|Hne].
  - rewrite lookup_insert_eq. split; [intros (u & [= <-] & Hu); left; done|]. intros [[_ Hu]|[[] _]]; [by exists t|done].
  - rewrite lookup_insert_ne by done. split; [right; split; [congruence|done]|]. intros [[-> _]|[_ H]]; done.
Qed.

Lemma dropped_ok lo running id t s : timers_ok lo running s -> timer_objs s !! id = Some t ->
  timers_ok lo (if decide (running = Some id) then None else running) (dropped id t s).
Proof.
  intros [] Ht. unfold dropped. split.
  - fold (dropped id t s). rewrite dropped_pending. by apply sorted_drop.
  - fold (dropped id t s). rewrite dropped_pending. by apply Forall_filter.
  - cbn. by apply NoDup_filter.
  - cbn. apply Forall_forall. intros x [Hne Hx]%list_elem_of_filter. rewrite Forall_forall in tok_active0.
    apply (active_insert s (dropped id t s) id (cleared t) x eq_refl). right. split; [done|]. by apply tok_active0.
  - cbn. intros x Ha. apply (active_insert s (dropped id t s) id (cleared t) x eq_refl) in Ha as [[-> Hf]|[Hne Hx]]; [unfold cleared in Hf; by rewrite flag_cleared in Hf|].
    destruct (tok_only0 x Hx) as [Hin|Hr]; [left; apply list_elem_of_filter; by split|right].
    rewrite decide_False by congruence. done.
  - cbn. intros x. case_decide; [done|]. intros Hr Hx. apply list_elem_of_filter in Hx as [_ Hx]. by eapply tok_running0.
Qed.

(** ** What the operations do to the queue *)
Lemma started_due now init t nr l objs id : 0 <= init < half ->
  due (MkTimers (<[id := started t (u32 (now + init))]> objs) l nr now) id = init.
Proof.
  intros Hi. unfold due. cbn. rewrite lookup_insert_eq. cbn. unfold half in Hi. change (RT_TICK_MAX / 2) with 0x7FFFFFFF in Hi.
  pose proof (Z.div_mod (now + init) (2 ^ 32) ltac:(done)). unfold uint.
  rewrite (s32_cong _ init (- ((now + init) / 2 ^ 32))) by lia. apply s32_small. lia.
Qed.

Lemma rt_timer_start_ok lo running s id t : -1 <= lo <= 0 -> timers_ok lo running s -> running = None \/ running = Some id ->
  timer_objs s !! id = Some t -> 0 <= tm_init_tick t < half ->
  exists s', rt_timer_start id s = Ok (tt, s') /\ timers_ok lo None s' /\
    pending s' = insert_due id (tm_init_tick t) (drop_timer id (pending s)) /\
    timer_objs s' = <[id := started t (u32 (rt_tick s + tm_init_tick t))]> (timer_objs s) /\ rt_tick s' = rt_tick s.
Proof.
  intros Hlo Hok Hrun Ht Hinit.
  assert (timers_ok lo None (dropped id t s)) as Hok1.
  { pose proof (dropped_ok lo running id t s Hok Ht) as H. case_decide as Hd; [done|]. by destruct Hrun as [->|]. }
  pose proof (dropped_pending id t s) as Hp1.
  set (l1 := filter (fun x => x <> id) (rt_timer_list s)). set (init := tm_init_tick t) in *.
  assert (Forall (fun x => active (dropped id t s) x /\ -1 <= due (dropped id t s) x < half) l1) as Hl1.
  { pose proof (tok_active _ _ _ Hok1) as Ha. pose proof (tok_range _ _ _ Hok1) as Hr. unfold pending in Hr. rewrite Forall_map in Hr.
    apply Forall_and. split; [exact Ha|]. eapply Forall_impl; [exact Hr|]. intros x. cbn. lia. }
  set (s2 := (dropped id t s) <| timer_objs := <[id := (cleared t) <| timeout_tick := u32 (rt_tick s + init) |>]> (timer_objs (dropped id t s)) |>).
  assert (id ∉ l1) as Hid by (intros [Hx _]%list_elem_of_filter; done).
  assert (forall x, x ∈ l1 -> active s2 x /\ due s2 x = due (dropped id t s) x) as Hs2.
  { intros x Hx. assert (x <> id) by (intros ->; done). rewrite Forall_forall in Hl1. destruct (Hl1 x Hx) as [Ha _]. split.
    - apply (active_insert (dropped id t s) s2 id ((cleared t) <| timeout_tick := u32 (rt_tick s + init) |>) x eq_refl). by right.
    - by apply due_other. }
  destruct (insert_timer_ok s2 l1 init id Hinit) as (l' & Hins & Hmap & Hperm).
  { apply Forall_forall. intros x Hx. destruct (Hs2 x Hx) as [Ha ->]. split; [done|]. rewrite Forall_forall in Hl1. by apply Hl1. }
  assert (NoDup l') as Hnd by (rewrite Hperm; constructor; [done|]; apply NoDup_filter, Hok).
  assert (forall x, x ∈ l' <-> x = id \/ x ∈ l1) as Hin by (intros x; by rewrite Hperm, elem_of_cons).
  clear Hperm.
  exists (MkTimers (<[id := started t (u32 (rt_tick s + init))]> (timer_objs s)) l' (u32 (random_nr s + 1)) (rt_tick s)).
  set (s' := MkTimers _ _ _ _).
  assert (pending s' = insert_due id init (drop_timer id (pending s))) as Hpend.
  { rewrite <- Hp1. unfold pending at 1. unfold s' at 1. cbn [rt_timer_list]. rewrite Hmap.
    - unfold pending. f_equal. apply map_ext_in. intros x Hx%list_elem_of_In. f_equal. by apply Hs2.
    - intros x Hx. assert (x <> id) by (intros ->; done). unfold due. cbn. by rewrite !lookup_insert_ne by done.
    - by apply started_due. }
  split_and!; [|split|exact Hpend|done|done].
  - destruct s as [objs l nr now]. unfold rt_timer_start. erewrite run_get_timer by exact Ht. unfold _rt_timer_remove, put_timer.
    rewrite !run_bind_modify. erewrite run_get_timer by (cbn; apply lookup_insert_eq).
    cbn [tm_init_tick upd]. change (RT_TICK_MAX / 2) with half. rewrite (proj2 (Z.ltb_lt _ _)) by (unfold init in *; lia).
    rewrite run_bind_assert, run_bind_gets. cbv zeta. rewrite run_bind_modify, !run_bind_gets.
    change (insert_timer _ _ id _) with (insert_timer (timer_objs s2) (u32 (rt_tick s2 + init)) id l1). rewrite Hins.
    rewrite run_bind_lift, run_bind_gets, !run_bind_modify. erewrite run_get_timer by (cbn; apply lookup_insert_eq).
    unfold modify, upd. cbn. rewrite !insert_insert_eq. done.
  - rewrite Hpend. apply insert_due_sorted, sorted_drop, Hok.
  - rewrite Hpend. apply insert_due_Forall. split; [cbn; lia|]. apply Forall_filter, Hok.
  - exact Hnd.
  - apply Forall_forall. intros x. change (rt_timer_list s') with l'. rewrite Hin. intros Hx.
    apply (active_insert s s' id (started t (u32 (rt_tick s + init))) x eq_refl). destruct (decide (x = id)) as [->|Hne].
    + left. split; [done|]. apply started_active.
    + right. split; [done|]. destruct Hx as [|Hx]; [done|].
      pose proof (tok_active _ _ _ Hok) as Ha. rewrite Forall_forall in Ha. apply Ha. by apply list_elem_of_filter in Hx as [_ ?].
  - intros x Ha. left. change (rt_timer_list s') with l'. rewrite Hin.
    apply (active_insert s s' id (started t (u32 (rt_tick s + init))) x eq_refl) in Ha as [[-> _]|[Hne Ha]]; [by left|right].
    apply list_elem_of_filter. split; [done|]. destruct (tok_only _ _ _ Hok x Ha) as [|Hr]; [done|]. destruct Hrun; congruence.
  - done.
Qed.

Lemma rt_timer_stop_ok lo running s id t : timers_ok lo running s -> timer_objs s !! id = Some t ->
  exists b s', rt_timer_stop id s = Ok (b, s') /\
    timers_ok lo (if decide (running = Some id) then None else running) s' /\ pending s' = drop_timer id (pending s) /\
    (timer_objs s' = timer_objs s \/ timer_objs s' = <[id := cleared t]> (timer_objs s)) /\ rt_tick s' = rt_tick s.
Proof.
  intros Hok Ht. unfold rt_timer_stop. erewrite run_get_timer by exact Ht.
  destruct (has_timer_flag t RT_TIMER_FLAG_ACTIVATED) eqn:Ef; cbn [negb].
  - exists true, (dropped id t s). split_and!; [|by apply dropped_ok|apply dropped_pending|by right|done].
    unfold _rt_timer_remove, put_timer. by rewrite !run_bind_modify.
  - exists false, s. assert (id ∉ rt_timer_list s) as Hin.
    { intros Hin. pose proof (tok_active _ _ _ Hok) as Ha. rewrite Forall_forall in Ha. destruct (Ha id Hin) as (t' & Ht' & Hf).
      rewrite Ht in Ht'. injection Ht' as <-. by rewrite Ef in Hf. }
    split_and!; [done| | |by left|done].
    + case_decide; [|done]. destruct Hok as [H1 H2 H3 H4 H5 H6]. split; try done. intros x Hx. destruct (H5 x Hx) as [|Hr]; [by left|].
      exfalso. destruct Hx as (t' & Ht' & Hf). assert (x = id) as -> by congruence. rewrite Ht in Ht'. injection Ht' as <-. by rewrite Ef in Hf.
    + unfold drop_timer. symmetry. apply filter_all. unfold pending. rewrite Forall_map. apply Forall_forall. intros x Hx. cbn. intros ->. done.
Qed.

Lemma active_delete s s' id x : timer_objs s' = delete id (timer_objs s) -> active s' x -> x <> id /\ active s x.
Proof.
  intros E (t & Ht & Hf). rewrite E in Ht. apply lookup_delete_Some in Ht as [Hne Ht]. split; [congruence|by exists t].
Qed.

Lemma rt_timer_detach_ok lo running s id t : timers_ok lo running s -> running <> Some id -> timer_objs s !! id = Some t ->
  exists s', rt_timer_detach id s = Ok (tt, s') /\ timers_ok lo running s' /\ pending s' = drop_timer id (pending s) /\
    timer_objs s' = delete id (timer_objs s) /\ rt_tick s' = rt_tick s.
Proof.
  intros Hok Hr Ht. exists (s <| rt_timer_list := filter (fun x => x <> id) (rt_timer_list s) |> <| timer_objs := delete id (timer_objs s) |>).
  set (s' := s <| rt_timer_list := _ |> <| timer_objs := _ |>).
  assert (pending s' = drop_timer id (pending s)) as Hp.
  { unfold pending. rewrite <- pending_drop. cbn. apply map_ext_in. intros x [Hx _]%list_elem_of_In%list_elem_of_filter. f_equal.
    unfold due. cbn. by rewrite lookup_delete_ne. }
  assert (forall x, x ∈ rt_timer_list s' <-> x <> id /\ x ∈ rt_timer_list s) as Hin by (intros x; cbn; by rewrite list_elem_of_filter).
  split_and!; [by unfold rt_timer_detach; erewrite run_get_timer by exact Ht| |exact Hp|done|done].
  pose proof Hok as []. split; rewrite ?Hp; [by apply sorted_drop|by apply Forall_filter|by apply NoDup_filter| | |].
  - apply Forall_forall. intros x [Hne Hx]%Hin. rewrite Forall_forall in tok_active0. destruct (tok_active0 x Hx) as (u & Hu & Hf).
    exists u. split; [|done]. cbn. by rewrite lookup_delete_ne.
  - intros x Ha. apply (active_delete s s' id x eq_refl) in Ha as [Hne Ha]. rewrite Hin. destruct (tok_only0 x Ha); [by left|by right].
  - intros x Hx. rewrite Hin. intros [_ Hx']. by apply (tok_running0 x).
Qed.

(** ** The check of the timers *)

(** The condition of [rt_timer_check], in remaining ticks. *)
Lemma expired_test ta now : - 1 <= s32 (ta - now) < half -> (u32 (now - ta) <? half) = (s32 (ta - now) <=? 0).
Proof.
  unfold half. change (RT_TICK_MAX / 2) with 0x7FFFFFFF. intros H. destruct (sint_cong (ta - now)) as [k Hk].
  set (d := s32 (ta - now)) in *. destruct (Z.leb_spec d 0).
  - rewrite (u32_cong _ (- d) (k)) by lia. rewrite u32_small by lia. apply Z.ltb_lt. lia.
  - rewrite (u32_cong _ (2 ^ 32 - d) (k - 1)) by lia. rewrite u32_small by lia. apply Z.ltb_ge. lia.
Qed.

Definition later (q : list (timer_id * Z)) : list (timer_id * Z) := map (fun x => (x.1, x.2 - 1)) q.

(** A tick passes. *)
Lemma advance_ok s : timers_ok 0 None s -> let s' := s <| rt_tick := u32 (rt_tick s + 1) |> in
  timers_ok (-1) None s' /\ pending s' = later (pending s).
Proof.
  intros Hok s'. assert (pending s' = later (pending s)) as Hp.
  { unfold pending, later. rewrite map_map. change (rt_timer_list s') with (rt_timer_list s). apply map_ext_in.
    intros x Hx. cbn. f_equal. pose proof (tok_range _ _ _ Hok) as Hr. unfold pending in Hr. rewrite Forall_map, Forall_forall in Hr.
    specialize (Hr x). cbn in Hr. rewrite list_elem_of_In in Hr. specialize (Hr Hx).
    pose proof (tok_active _ _ _ Hok) as Ha. rewrite Forall_forall in Ha. destruct (Ha x) as (t & Ht & _); [by apply list_elem_of_In|].
    unfold due in Hr |- *. change (timer_objs s') with (timer_objs s). rewrite Ht in Hr |- *. change (rt_tick s') with (u32 (rt_tick s + 1)).
    destruct (sint_cong (timeout_tick t - rt_tick s)) as [k Hk]. unfold uint.
    pose proof (Z.div_mod (rt_tick s + 1) (2 ^ 32) ltac:(done)). unfold half in Hr. change (RT_TICK_MAX / 2) with 0x7FFFFFFF in Hr.
    rewrite (s32_cong _ (s32 (timeout_tick t - rt_tick s) - 1) ((rt_tick s + 1) / 2 ^ 32 - k)) by lia. apply s32_small. lia. }
  split; [|exact Hp]. pose proof Hok as []. split; rewrite ?Hp; try done.
  - clear - tok_sorted0. unfold later. induction tok_sorted0 as [|x q _ IH Hx]; [constructor|]. cbn. constructor; [exact IH|].
    rewrite Forall_map. eapply Forall_impl; [exact Hx|]. cbn. lia.
  - unfold later. rewrite Forall_map. eapply Forall_impl; [exact tok_range0|]. cbn. lia.
Qed.

(** A tick check takes the first timer when it has no remaining tick. *)
Lemma taken_ok lo s id l : timers_ok lo None s -> rt_timer_list s = id :: l ->
  timers_ok lo (Some id) (s <| rt_timer_list := filter (fun x => x <> id) (rt_timer_list s) |>) /\
  filter (fun x => x <> id) (rt_timer_list s) = l.
Proof.
  intros [] El. assert (filter (fun x => x <> id) (rt_timer_list s) = l) as Ef.
  { rewrite El in tok_nodup0 |- *. apply NoDup_cons in tok_nodup0 as [Hn _]. rewrite filter_cons_False by tauto.
    apply filter_all, Forall_forall. intros x Hx ->. done. }
  split; [|exact Ef]. rewrite Ef. unfold pending in tok_sorted0, tok_range0. rewrite El in *.
  cbn [map] in *. apply StronglySorted_inv in tok_sorted0 as [Hs _]. apply Forall_cons in tok_range0 as [_ Hr].
  apply NoDup_cons in tok_nodup0 as [Hnid Hnd]. apply Forall_cons in tok_active0 as [_ Ha].
  split; cbn; try done.
  - intros x Hx. destruct (tok_only0 x Hx) as [[->|Hin]%elem_of_cons|]; [by right|by left|done].
  - by intros x [= <-].
Qed.

(** The end of a timer that has run: it is no longer active. *)
Lemma ended_ok lo s id t : timers_ok lo (Some id) s -> timer_objs s !! id = Some t ->
  let s' := s <| timer_objs := <[id := cleared t]> (timer_objs s) |> in timers_ok lo None s' /\ pending s' = pending s.
Proof.
  intros Hok Ht. pose proof (dropped_ok lo (Some id) id t s Hok Ht) as H. rewrite decide_True in H by done.
  assert (dropped id t s = s <| timer_objs := <[id := cleared t]> (timer_objs s) |>) as E.
  { unfold dropped. rewrite filter_all; [by destruct s|]. apply Forall_forall. intros x Hx ->.
    by apply (tok_running _ _ _ Hok id). }
  rewrite E in H. split; [exact H|]. apply pending_ext; [done|]. intros x Hx. apply due_other. intros ->.
  by apply (tok_running _ _ _ Hok id).
Qed.

Definition expired (q : list (timer_id * Z)) : nat := length (filter (fun x => x.2 <= 0) q).

Lemma elem_drop_timer id x d q : (x, d) ∈ drop_timer id q <-> x <> id /\ (x, d) ∈ q.
Proof. unfold drop_timer. by rewrite list_elem_of_filter. Qed.

Lemma elem_insert_due id d x e q : (x, e) ∈ insert_due id d q <-> (x, e) = (id, d) \/ (x, e) ∈ q.
Proof.
  induction q as [|[y f] q IH]; cbn [insert_due]; [rewrite list_elem_of_singleton; split; [by left|]; intros [?|?%not_elem_of_nil]; done|].
  destruct (d <? f); rewrite !elem_of_cons; [tauto|]. rewrite IH. tauto.
Qed.

Lemma expired_insert id d q : 0 < d -> expired (insert_due id d q) = expired q.
Proof.
  intros Hd. unfold expired. induction q as [|[y f] q IH]; cbn [insert_due].
  - by rewrite filter_cons_False by (cbn; lia).
  - destruct (d <? f).
    + by rewrite filter_cons_False by (cbn; lia).
    + rewrite !filter_cons. case_decide; cbn [length]; by rewrite IH.
Qed.

Lemma expired_sublist q q' : sublist q q' -> (expired q <= expired q')%nat.
Proof.
  unfold expired. induction 1 as [|x q q' _ IH|x q q' _ IH]; [done| |]; rewrite !filter_cons; repeat case_decide; cbn [length]; lia.
Qed.

Lemma pending_elem s id : id ∈ rt_timer_list s <-> exists d, (id, d) ∈ pending s.
Proof.
  unfold pending. split.
  - intros H. exists (due s id). apply list_elem_of_fmap. by exists id.
  - intros [d Hd]. apply list_elem_of_fmap in Hd as (x & [= -> _] & Hx). done.
Qed.

(** ** Changes of one timer *)
Definition periodic (t : rt_timer) : bool := has_timer_flag t RT_TIMER_FLAG_PERIODIC.

Lemma cleared_periodic t : periodic (cleared t) = periodic t.
Proof. unfold periodic, has_timer_flag, cleared. cbn. by rewrite <- Z.land_assoc. Qed.

Lemma started_periodic t timeout : periodic (started t timeout) = periodic t.
Proof.
  unfold periodic, has_timer_flag, started. cbn. rewrite Z.land_lor_distr_l, <- Z.land_assoc.
  change (Z.land RT_TIMER_FLAG_ACTIVATED RT_TIMER_FLAG_PERIODIC) with 0. by rewrite Z.lor_0_r.
Qed.

(** The timers but for [id] stay as they are, and so does the clock. *)
Record timers_frame (id : timer_id) (s s' : timers) : Prop := {
  tf_objs : forall x, x <> id -> timer_objs s' !! x = timer_objs s !! x;
  tf_pending : forall x d, x <> id -> (x, d) ∈ pending s' <-> (x, d) ∈ pending s;
  tf_tick : rt_tick s' = rt_tick s
}.

Lemma timers_frame_refl id s : timers_frame id s s.
Proof. by split. Qed.

Lemma timers_frame_trans id s1 s2 s3 : timers_frame id s1 s2 -> timers_frame id s2 s3 -> timers_frame id s1 s3.
Proof. intros [] []. split; naive_solver congruence. Qed.

(** A timer's record changes, but not its timeout nor whether it is active. *)
Lemma put_timer_ok lo r s id t t' : timers_ok lo r s -> timer_objs s !! id = Some t ->
  timeout_tick t' = timeout_tick t -> has_timer_flag t' RT_TIMER_FLAG_ACTIVATED = has_timer_flag t RT_TIMER_FLAG_ACTIVATED ->
  let s' := s <| timer_objs := <[id := t']> (timer_objs s) |> in
  timers_ok lo r s' /\ pending s' = pending s /\ timers_frame id s s'.
Proof.
  intros Hok Ht E1 E2 s'. assert (pending s' = pending s) as Hp.
  { apply pending_ext; [done|]. intros x _. unfold due. cbn. destruct (decide (id = x)) as [->|]; [|by rewrite lookup_insert_ne].
    by rewrite lookup_insert_eq, Ht, E1. }
  assert (forall x, active s' x <-> active s x) as Ha.
  { intros x. rewrite (active_insert s s' id t' x eq_refl), E2. unfold active. destruct (decide (x = id)) as [->|Hne]; [|naive_solver].
    rewrite Ht. naive_solver. }
  split; [|split; [exact Hp|]].
  - destruct Hok. split; rewrite ?Hp; try done.
    + eapply Forall_impl; [exact tok_active0|]. intros x. apply Ha.
    + intros x Hx%Ha. by apply tok_only0.
  - split; [|by rewrite Hp|done]. intros x Hx. cbn. by rewrite lookup_insert_ne.
Qed.

(** A new timer. *)
Lemma rt_timer_init_ok lo r s id time flag : timers_ok lo r s -> timer_objs s !! id = None ->
  exists s', rt_timer_init id time flag s = Ok (tt, s') /\ timers_ok lo r s' /\ pending s' = pending s /\ timers_frame id s s' /\
    timer_objs s' !! id = Some (cleared (MkTimer flag time 0)).
Proof.
  intros Hok Hid. eexists. split; [done|]. set (s' := s <| timer_objs := _ |>).
  assert (forall x, x ∈ rt_timer_list s -> x <> id) as Hne.
  { intros x Hx ->. pose proof (tok_active _ _ _ Hok) as Ha. rewrite Forall_forall in Ha. destruct (Ha id Hx) as (t & Ht & _). congruence. }
  assert (pending s' = pending s) as Hp by (apply pending_ext; [done|]; intros x Hx; apply due_other; by apply Hne).
  assert (forall x, active s' x -> active s x) as Ha.
  { intros x [[_ H]|[_ H]]%(active_insert s s' id (cleared (MkTimer flag time 0)) x eq_refl); [unfold cleared in H; by rewrite flag_cleared in H|done]. }
  split_and!; [|exact Hp| |cbn; by rewrite lookup_insert_eq].
  - pose proof Hok as []. split; rewrite ?Hp; try done.
    + apply Forall_forall. intros x Hx. rewrite Forall_forall in tok_active0.
      apply (active_insert s s' id (cleared (MkTimer flag time 0)) x eq_refl). right. split; [by apply Hne|by apply tok_active0].
    + intros x Hx%Ha. by apply tok_only0.
  - split; [|by rewrite Hp|done]. intros x Hx. cbn. by rewrite lookup_insert_ne.
Qed.

(** What the operations leave of the other timers. *)
Lemma drop_frame id s s' : pending s' = drop_timer id (pending s) -> (forall x, x <> id -> timer_objs s' !! x = timer_objs s !! x) ->
  rt_tick s' = rt_tick s -> timers_frame id s s'.
Proof. intros Hp Ho Ht. split; [done| |done]. intros x d Hx. rewrite Hp, elem_drop_timer. tauto. Qed.

Lemma not_dropped id q d : (id, d) ∉ drop_timer id q.
Proof. intros [H _]%elem_drop_timer. done. Qed.

Lemma drop_sublist id q : sublist (drop_timer id q) q.
Proof. apply sublist_filter. Qed.

Lemma stop_frame lo r s id t : timers_ok lo r s -> r <> Some id -> timer_objs s !! id = Some t ->
  exists b s' t', rt_timer_stop id s = Ok (b, s') /\ timers_ok lo r s' /\ pending s' = drop_timer id (pending s) /\
    timers_frame id s s' /\ timer_objs s' !! id = Some t' /\ tm_init_tick t' = tm_init_tick t /\ periodic t' = periodic t.
Proof.
  intros Hok Hr Ht. destruct (rt_timer_stop_ok lo r s id t Hok Ht) as (b & s' & Hs & Hok' & Hp & Ho & Hn).
  rewrite decide_False in Hok' by done.
  assert (exists t', timer_objs s' !! id = Some t' /\ tm_init_tick t' = tm_init_tick t /\ periodic t' = periodic t) as (t' & Ht' & Hi & Hpe).
  { destruct Ho as [->| ->]; [by exists t|]. exists (cleared t). rewrite lookup_insert_eq. split_and!; [done..|]. apply cleared_periodic. }
  exists b, s', t'. split_and!; try done. apply drop_frame; [done| |done].
  intros x Hx. destruct Ho as [->| ->]; [done|by rewrite lookup_insert_ne].
Qed.

Lemma start_frame lo r s id t : -1 <= lo <= 0 -> timers_ok lo r s -> r = None \/ r = Some id -> timer_objs s !! id = Some t ->
  0 <= tm_init_tick t < half ->
  exists s' t', rt_timer_start id s = Ok (tt, s') /\ timers_ok lo None s' /\
    pending s' = insert_due id (tm_init_tick t) (drop_timer id (pending s)) /\ timers_frame id s s' /\
    timer_objs s' !! id = Some t' /\ tm_init_tick t' = tm_init_tick t /\ periodic t' = periodic t.
Proof.
  intros Hlo Hok Hr Ht Hi. destruct (rt_timer_start_ok lo r s id t Hlo Hok Hr Ht Hi) as (s' & Hs & Hok' & Hp & Ho & Hn).
  exists s', (started t (u32 (rt_tick s + tm_init_tick t))). rewrite Ho, lookup_insert_eq. split_and!; try done.
  - split; [intros x Hx; by rewrite Ho, lookup_insert_ne| |done]. intros x d Hx. rewrite Hp, elem_insert_due, elem_drop_timer. naive_solver.
  - apply started_periodic.
Qed.

Lemma long_timer_asserts id t s : timer_objs s !! id = Some t -> half <= tm_init_tick t -> rt_timer_start id s = Fault FAssert.
Proof.
  intros Ht Hin. unfold rt_timer_start. erewrite run_get_timer by exact Ht. unfold _rt_timer_remove, put_timer.
  rewrite !run_bind_modify. erewrite run_get_timer by (cbn; apply lookup_insert_eq). cbn [tm_init_tick upd].
  change (RT_TICK_MAX / 2) with half. rewrite (proj2 (Z.ltb_ge _ _)) by (cbn; lia). apply run_bind_assert_fail.
Qed.

(** C14: the list of timers is a queue of the active timers with their remaining
    ticks, in order: for every state of the list and every value of the wrapping tick
    counter, starting a timer takes it out of the queue and puts it back with its full
    time, behind the timers that time out at the same tick; stopping or detaching takes
    it out; no other timer is touched.  A time of half the range of the ticks or more
    fails the assertion of rt_timer_start. *)
Theorem timers_refine_queue s id t : timers_ok 0 None s -> timer_objs s !! id = Some t ->
  (0 <= tm_init_tick t < half -> exists s', rt_timer_start id s = Ok (tt, s') /\ timers_ok 0 None s' /\
    pending s' = insert_due id (tm_init_tick t) (drop_timer id (pending s)) /\ timers_frame id s s') /\
  (half <= tm_init_tick t -> rt_timer_start id s = Fault FAssert) /\
  (exists b s', rt_timer_stop id s = Ok (b, s') /\ timers_ok 0 None s' /\ pending s' = drop_timer id (pending s) /\ timers_frame id s s') /\
  (exists s', rt_timer_detach id s = Ok (tt, s') /\ timers_ok 0 None s' /\ pending s' = drop_timer id (pending s)).
Proof.
  intros Hok Ht. split; [|split; [|split]].
  - intros Hin. destruct (start_frame 0 None s id t) as (s' & t' & E & Hok' & Hp & Hf & _); [lia|done|by left|done|done|]. by exists s'.
  - apply (long_timer_asserts id t s Ht).
  - destruct (stop_frame 0 None s id t Hok) as (b & s' & t' & E & Hok' & Hp & Hf & _); [done|done|]. by exists b, s'.
  - destruct (rt_timer_detach_ok 0 None s id t Hok) as (s' & E & Hok' & Hp & _); [done|done|]. by exists s'.
Qed.

(** A timer of 5 ticks is queued shortly before the tick counter wraps; another of 3 ticks is started. *)
Definition two_timers : timers :=
  MkTimers {[ UserTimer 1 := MkTimer RT_TIMER_FLAG_ACTIVATED 5 3; UserTimer 2 := MkTimer 0 3 0 ]} [UserTimer 1] 0 (2 ^ 32 - 2).

Lemma two_timers_ok : timers_ok 0 None two_timers.
Proof.
  split.
  - repeat constructor.
  - constructor; [|constructor]. vm_compute. done.
  - apply NoDup_singleton.
  - constructor; [|constructor]. by exists (MkTimer RT_TIMER_FLAG_ACTIVATED 5 3).
  - intros id (t & Ht & Hf). left. cbn in Ht |- *. apply lookup_insert_Some in Ht as [[<- _]|[_ Ht]]; [by apply elem_of_cons; left|].
    apply lookup_singleton_Some in Ht as [_ <-]. done.
  - done.
Qed.

Lemma timers_refine_queue_witness : exists s', rt_timer_start (UserTimer 2) two_timers = Ok (tt, s') /\
  pending s' = [(UserTimer 2, 3); (UserTimer 1, 5)].
Proof.
  destruct (timers_refine_queue two_timers (UserTimer 2) (MkTimer 0 3 0) two_timers_ok) as [H _]; [vm_compute; reflexivity|].
  destruct H as (s' & E & _ & Hp & _); [cbn; unfold half; vm_compute; done|]. exists s'. split; [exact E|]. rewrite Hp. vm_compute. reflexivity.
Defined.
