(* ===== verification/Sched.v ===== *)
(** * The scheduler (src/Kernel/scheduler.c, __rt_ffs of kservice.c)

    The ready lists, one for each of the 32 priorities (0 is the most urgent), the
    bit map of the lists that are not empty, and the choice of the next thread.  A
    thread's [tlist] node is in at most one list: a ready list, the list of defunct
    threads or the list of an object it waits for ([wait_lists]); [rt_list_remove]
    takes it out of whichever it is in.  Interrupts are disabled in every function,
    so each is atomic; a context switch is the change of [rt_current_thread].  The
    hooks and the stack check, which reads hardware state, are left out. *)
From stdpp Require Import gmap.
From S2P Require Import Prelude.

Definition RT_THREAD_PRIORITY_MAX : Z := 32.
Definition RT_THREAD_INIT : Z := 0.
Definition RT_THREAD_READY : Z := 1.
Definition RT_THREAD_SUSPEND : Z := 2.
Definition RT_THREAD_RUNNING : Z := 3.
Definition RT_THREAD_CLOSE : Z := 4.
Definition RT_THREAD_STAT_MASK : Z := 0x0f.

(** A thread's control block.  [th_object] is whether it is registered as an object,
    [th_static] whether it is one of static storage and [th_cleanup] whether it has
    a clean-up function. *)
Record thread := MkThr {
  th_stat : Z;
  th_init_priority : Z;
  th_priority : Z;
  th_number_mask : Z;
  th_init_tick : Z;
  th_remaining_tick : Z;
  th_error : Z;
  th_object : bool;
  th_static : bool;
  th_cleanup : bool
}.
#[export] Instance thread_eta : Eta thread := fun t =>
  MkThr (th_stat t) (th_init_priority t) (th_priority t) (th_number_mask t) (th_init_tick t)
    (th_remaining_tick t) (th_error t) (th_object t) (th_static t) (th_cleanup t).

Record sched := MkSched {
  threads : gmap Z thread;
  rt_thread_priority_table : list (list Z);
  rt_thread_ready_priority_group : Z;
  rt_current_thread : option Z;
  rt_current_priority : Z;
  rt_scheduler_lock_nest : Z;
  rt_thread_defunct : list Z;
  wait_lists : gmap Z (list Z)
}.
#[export] Instance sched_eta : Eta sched := fun s =>
  MkSched (threads s) (rt_thread_priority_table s) (rt_thread_ready_priority_group s) (rt_current_thread s)
    (rt_current_priority s) (rt_scheduler_lock_nest s) (rt_thread_defunct s) (wait_lists s).

(** ** The first bit set *)
Definition __lowest_bit_bitmap : list Z :=
  let row0 := [0; 1; 0; 2; 0; 1; 0; 3; 0; 1; 0; 2; 0; 1; 0] in
  let row n := n :: row0 in
  concat (map row [0; 4; 5; 4; 6; 4; 5; 4; 7; 4; 5; 4; 6; 4; 5; 4]).

Definition __rt_ffs (value : Z) : outcome Z :=
  if value =? 0 then Ok 0
  else if negb (Z.land value 0xff =? 0) then
    b ← zget __lowest_bit_bitmap (Z.land value 0xff); Ok (b + 1)
  else if negb (Z.land value 0xff00 =? 0) then
    b ← zget __lowest_bit_bitmap (Z.land value 0xff00 ≫ 8); Ok (b + 9)
  else if negb (Z.land value 0xff0000 =? 0) then
    b ← zget __lowest_bit_bitmap (Z.land value 0xff0000 ≫ 16); Ok (b + 17)
  else b ← zget __lowest_bit_bitmap (Z.land value 0xff000000 ≫ 24); Ok (b + 25).

(** ** Threads and lists *)
Definition get_thread (tid : Z) : M sched thread :=
  o ← gets (fun s => threads s !! tid);
  match o with
  | Some t => mret t
  | None => lift (Fault FAssert)
  end.

Definition put_thread (tid : Z) (t : thread) : M sched unit :=
  modify (fun s => s <| threads := <[tid := t]> (threads s) |>).

Definition stat_of (t : thread) : Z := Z.land (th_stat t) RT_THREAD_STAT_MASK.
Definition with_stat (stat : Z) (t : thread) : thread :=
  t <| th_stat := Z.lor stat (Z.land (th_stat t) (Z.lnot RT_THREAD_STAT_MASK)) |>.

Definition without (tid : Z) (l : list Z) : list Z := filter (fun x => x <> tid) l.

Definition list_remove (tid : Z) : M sched unit :=
  modify (fun s => s <| rt_thread_priority_table := map (without tid) (rt_thread_priority_table s) |>
    <| rt_thread_defunct := without tid (rt_thread_defunct s) |>
    <| wait_lists := without tid <$> wait_lists s |>).

(** ** Operations *)

(** The first thread of the most urgent ready list, with its priority. *)
Definition _get_highest_priority_thread : M sched (Z * Z) :=
  g ← gets rt_thread_ready_priority_group;
  n ← lift (__rt_ffs g);
  let highest_ready_priority := n - 1 in
  table ← gets rt_thread_priority_table;
  l ← lift (zget table highest_ready_priority);
  match l with
  | tid :: _ => mret (tid, highest_ready_priority)
  | [] => lift (Fault FOutOfBounds)
  end.

Definition rt_system_scheduler_init : M sched unit :=
  modify (fun s => s <| rt_scheduler_lock_nest := 0 |>
    <| rt_thread_priority_table := replicate (Z.to_nat RT_THREAD_PRIORITY_MAX) [] |>
    <| rt_thread_ready_priority_group := 0 |> <| rt_thread_defunct := [] |>).

Definition rt_schedule_insert_thread (tid : Z) : M sched unit :=
  t ← get_thread tid;
  cur ← gets rt_current_thread;
  if bool_decide (cur = Some tid) then put_thread tid (with_stat RT_THREAD_RUNNING t) else
  put_thread tid (with_stat RT_THREAD_READY t);;
  table ← gets rt_thread_priority_table;
  l ← lift (zget table (th_priority t));
  table ← lift (zset table (th_priority t) (l ++ [tid]));
  rt_thread_priority_table ::= table;;
  g ← gets rt_thread_ready_priority_group;
  rt_thread_ready_priority_group ::= Z.lor g (th_number_mask t).

Definition rt_schedule_remove_thread (tid : Z) : M sched unit :=
  t ← get_thread tid;
  list_remove tid;;
  table ← gets rt_thread_priority_table;
  l ← lift (zget table (th_priority t));
  g ← gets rt_thread_ready_priority_group;
  when bool_decide (l = []) do rt_thread_ready_priority_group ::= Z.land g (Z.lnot (th_number_mask t)).

Definition rt_system_scheduler_start : M sched unit :=
  '(to_thread, _) ← _get_highest_priority_thread;
  rt_current_thread ::= Some to_thread;;
  rt_schedule_remove_thread to_thread;;
  t ← get_thread to_thread;
  put_thread to_thread (t <| th_stat := RT_THREAD_RUNNING |>).

Definition rt_schedule : M sched unit :=
  nest ← gets rt_scheduler_lock_nest;
  if negb (nest =? 0) then skip else
  g ← gets rt_thread_ready_priority_group;
  if g =? 0 then skip else
  '(to_thread, highest_ready_priority) ← _get_highest_priority_thread;
  cur ← gets rt_current_thread;
  match cur with
  | None => lift (Fault FNull)
  | Some current =>
      c ← get_thread current;
      let running := stat_of c =? RT_THREAD_RUNNING in
      let stays := running && (th_priority c <? highest_ready_priority) in
      let to_thread := if stays then current else to_thread in
      if negb (to_thread =? current) then
        rt_current_priority ::= u8 highest_ready_priority;;
        rt_current_thread ::= Some to_thread;;
        (when running do rt_schedule_insert_thread current);;
        rt_schedule_remove_thread to_thread;;
        t ← get_thread to_thread;
        put_thread to_thread (with_stat RT_THREAD_RUNNING t)
      else
        rt_schedule_remove_thread current;;
        t ← get_thread current;
        put_thread current (with_stat RT_THREAD_RUNNING t)
  end.

Definition rt_enter_critical : M sched unit :=
  n ← gets rt_scheduler_lock_nest; rt_scheduler_lock_nest ::= s16 (n + 1).

Definition rt_exit_critical : M sched unit :=
  n ← gets rt_scheduler_lock_nest;
  rt_scheduler_lock_nest ::= s16 (n - 1);;
  n ← gets rt_scheduler_lock_nest;
  if n <=? 0 then rt_scheduler_lock_nest ::= 0;; rt_schedule else skip.

Definition rt_critical_level : M sched Z := n ← gets rt_scheduler_lock_nest; mret (u16 n).

(** ** The invariant *)

(** A thread has the mask of its priority from its start to its end. *)
Definition has_mask (t : thread) : bool :=
  negb (stat_of t =? RT_THREAD_INIT) && negb (stat_of t =? RT_THREAD_CLOSE).

Definition well_placed (t : thread) : Prop :=
  0 <= th_priority t < 32 /\ (has_mask t = true -> th_number_mask t = 1 ≪ th_priority t).

(** The ready lists hold exactly the threads that are READY, in the list of their
    priority, and the bit map has exactly the bits of the lists that are not empty;
    [out] is a thread that an operation has taken out of all lists. *)
Record ready_inv (out : Z -> Prop) (s : sched) : Prop := {
  ri_len : length (rt_thread_priority_table s) = 32%nat;
  ri_group : 0 <= rt_thread_ready_priority_group s;
  ri_bits : forall p, 0 <= p -> Z.testbit (rt_thread_ready_priority_group s) p =
    match rt_thread_priority_table s !! Z.to_nat p with Some (_ :: _) => true | _ => false end;
  ri_in : forall p l x, rt_thread_priority_table s !! p = Some l -> x ∈ l ->
    ~ out x /\ exists t, threads s !! x = Some t /\ stat_of t = RT_THREAD_READY /\ th_priority t = Z.of_nat p;
  ri_nodup : forall p l, rt_thread_priority_table s !! p = Some l -> NoDup l;
  ri_ready : forall x t, threads s !! x = Some t -> stat_of t = RT_THREAD_READY -> ~ out x ->
    exists l, rt_thread_priority_table s !! Z.to_nat (th_priority t) = Some l /\ x ∈ l;
  ri_prio : forall x t, threads s !! x = Some t -> well_placed t;
  ri_wait : forall k l x, wait_lists s !! k = Some l -> x ∈ l ->
    ~ out x /\ exists t, threads s !! x = Some t /\ stat_of t = RT_THREAD_SUSPEND;
  ri_defunct : forall x, x ∈ rt_thread_defunct s ->
    ~ out x /\ exists t, threads s !! x = Some t /\ stat_of t = RT_THREAD_CLOSE
}.

Definition nobody (x : Z) : Prop := False.

(** The current thread is the only one that can be RUNNING, and is not READY. *)
Definition current_inv (s : sched) : Prop :=
  exists c t, rt_current_thread s = Some c /\ threads s !! c = Some t /\ stat_of t <> RT_THREAD_READY /\
    stat_of t <> RT_THREAD_INIT /\
    forall x u, threads s !! x = Some u -> stat_of u = RT_THREAD_RUNNING -> x = c.

Definition sched_inv (s : sched) : Prop := ready_inv nobody s /\ current_inv s.

(** ** The first bit set *)
Lemma bitmap_ok : forallb (fun b =>
  match zget __lowest_bit_bitmap b with
  | Ok n => Z.testbit b n && forallb (fun i => negb (Z.testbit b i)) (map Z.of_nat (seq 0 (Z.to_nat n))) && (0 <=? n) && (n <? 8)
  | _ => false
  end) (map Z.of_nat (seq 1 255)) = true.
Proof. vm_compute. reflexivity. Qed.

(** [n] is the lowest bit set of [g]. *)
Definition lowest_bit (g n : Z) : Prop := 0 <= n /\ Z.testbit g n = true /\ forall i, 0 <= i < n -> Z.testbit g i = false.

Lemma bitmap_lookup b : 0 < b < 256 -> exists n, zget __lowest_bit_bitmap b = Ok n /\ lowest_bit b n /\ n < 8.
Proof.
  intros Hb. pose proof bitmap_ok as H. rewrite forallb_forall in H.
  assert (In b (map Z.of_nat (seq 1 255))) as Hin.
  { apply in_map_iff. exists (Z.to_nat b). split; [lia|]. apply in_seq. lia. }
  specialize (H b Hin). destruct (zget _ b) as [n| |]; [|done..]. exists n. c_bool. split; [done|]. split; [|done].
  split_and!; [done..|]. intros i Hi.
  assert (negb (Z.testbit b i) = true) as Hn; [|by apply negb_true_iff].
  match goal with H : forallb _ (map _ (seq 0 _)) = true |- _ => rewrite forallb_forall in H; apply H end.
  apply in_map_iff. exists (Z.to_nat i). split; [lia|]. apply in_seq. lia.
Qed.

(** A byte of a word. *)
Lemma testbit_byte g k i : 0 <= k -> 0 <= i ->
  Z.testbit (Z.land g (255 ≪ k) ≫ k) i = Z.testbit g (i + k) && (i <? 8).
Proof.
  intros Hk Hi. rewrite Z.shiftr_spec, Z.land_spec, Z.shiftl_spec by lia. f_equal.
  replace (i + k - k) with i by lia. change 255 with (Z.ones 8).
  destruct (Z.ltb_spec i 8); [by apply Z.ones_spec_low|by apply Z.ones_spec_high].
Qed.

Lemma byte_range g k : 0 <= k -> 0 <= Z.land g (255 ≪ k) ≫ k < 256.
Proof.
  intros Hk. assert (0 <= Z.land g (255 ≪ k) ≫ k) as H0.
  { apply Z.shiftr_nonneg, Z.land_nonneg. right. by apply Z.shiftl_nonneg. }
  split; [done|]. change 256 with (2 ^ 8). apply nonneg_lt_pow2; [done..|].
  intros i Hi. rewrite testbit_byte by lia. rewrite (proj2 (Z.ltb_ge i 8)) by lia. apply andb_false_r.
Qed.

Lemma byte_zero g k : 0 <= k -> (Z.land g (255 ≪ k) =? 0) = true -> forall i, k <= i < k + 8 -> Z.testbit g i = false.
Proof.
  intros Hk H%Z.eqb_eq i Hi. pose proof (testbit_byte g k (i - k)) as Hb. rewrite H, Z.shiftr_0_l, Z.bits_0 in Hb.
  rewrite (proj2 (Z.ltb_lt _ 8)), andb_true_r in Hb by lia. replace (i - k + k) with i in Hb by lia. symmetry. apply Hb; lia.
Qed.

Lemma byte_lowest g k : 0 <= k -> (Z.land g (255 ≪ k) =? 0) = false -> (forall i, 0 <= i < k -> Z.testbit g i = false) ->
  exists n, (b ← zget __lowest_bit_bitmap (Z.land g (255 ≪ k) ≫ k); Ok (b + (k + 1))) = Ok (n + 1) /\ lowest_bit g n /\ n < k + 8.
Proof.
  intros Hk Hne Hlow. apply Z.eqb_neq in Hne.
  destruct (bitmap_lookup (Z.land g (255 ≪ k) ≫ k)) as (n & -> & (H0 & H1 & H2) & Hn).
  { pose proof (byte_range g k Hk). assert (Z.land g (255 ≪ k) ≫ k <> 0); [|lia]. intros E. apply Hne.
    apply Z.bits_inj_0. intros i. destruct (Z.neg_nonneg_cases i); [by apply Z.testbit_neg_r|].
    destruct (decide (i < k)).
    - rewrite Z.land_spec, Z.shiftl_spec_low by lia. apply andb_false_r.
    - replace i with (i - k + k) by lia. rewrite <- Z.shiftr_spec by lia. rewrite E. apply Z.bits_0. }
  exists (n + k). split; [cbn; f_equal; lia|]. split; [|lia]. rewrite testbit_byte in H1 by lia. c_bool.
  split_and!; [lia|done|]. intros i Hi. destruct (decide (i < k)); [by apply Hlow; lia|].
  specialize (H2 (i - k)). rewrite testbit_byte in H2 by lia. replace (i - k + k) with i in H2 by lia.
  rewrite (proj2 (Z.ltb_lt _ 8)), andb_true_r in H2 by lia. apply H2. lia.
Qed.

Lemma ffs_ok g : 0 < g < 2 ^ 32 -> exists n, __rt_ffs g = Ok (n + 1) /\ lowest_bit g n /\ n < 32.
Proof.
  intros Hg. unfold __rt_ffs. rewrite (proj2 (Z.eqb_neq g 0)) by lia.
  change 0xff with (255 ≪ 0). change 0xff00 with (255 ≪ 8). change 0xff0000 with (255 ≪ 16). change 0xff000000 with (255 ≪ 24).
  destruct (Z.land g (255 ≪ 0) =? 0) eqn:E0; cbn [negb].
  2: { destruct (byte_lowest g 0 ltac:(lia) E0) as (n & Hr & Hl & Hn); [lia|].
       rewrite Z.shiftr_0_r in Hr. exists n. split_and!; [exact Hr|done|lia]. }
  pose proof (byte_zero g 0 ltac:(lia) E0) as Z0.
  destruct (Z.land g (255 ≪ 8) =? 0) eqn:E1; cbn [negb].
  2: { destruct (byte_lowest g 8 ltac:(lia) E1) as (n & Hr & Hl & Hn); [intros; apply Z0; lia|].
       exists n. split_and!; [exact Hr|done|lia]. }
  pose proof (byte_zero g 8 ltac:(lia) E1) as Z1.
  destruct (Z.land g (255 ≪ 16) =? 0) eqn:E2; cbn [negb].
  2: { destruct (byte_lowest g 16 ltac:(lia) E2) as (n & Hr & Hl & Hn).
       { intros i Hi. destruct (decide (i < 8)); [apply Z0; lia|apply Z1; lia]. }
       exists n. split_and!; [exact Hr|done|lia]. }
  pose proof (byte_zero g 16 ltac:(lia) E2) as Z2.
  assert (forall i, 0 <= i < 24 -> Z.testbit g i = false) as Hlow.
  { intros i Hi. destruct (decide (i < 8)); [apply Z0; lia|]. destruct (decide (i < 16)); [apply Z1; lia|apply Z2; lia]. }
  destruct (Z.land g (255 ≪ 24) =? 0) eqn:E3.
  - exfalso. pose proof (byte_zero g 24 ltac:(lia) E3) as Z3. assert (g = 0); [|lia].
    apply Z.bits_inj_0. intros i. destruct (Z.neg_nonneg_cases i); [by apply Z.testbit_neg_r|].
    destruct (decide (i < 24)); [apply Hlow; lia|]. destruct (decide (i < 32)); [apply Z3; lia|].
    apply (testbit_high 32); lia.
  - destruct (byte_lowest g 24 ltac:(lia) E3 Hlow) as (n & Hr & Hl & Hn). exists n. split_and!; [exact Hr|done|lia].
Qed.

(** ** Statuses and lists *)
Lemma stat_of_with k t : 0 <= k < 16 -> stat_of (with_stat k t) = k.
Proof.
  intros Hk. unfold stat_of, with_stat. cbn. rewrite Z.land_lor_distr_l, <- Z.land_assoc.
  change (Z.land (Z.lnot RT_THREAD_STAT_MASK) RT_THREAD_STAT_MASK) with 0. rewrite Z.land_0_r, Z.lor_0_r.
  change RT_THREAD_STAT_MASK with (Z.ones 4). rewrite Z.land_ones by done. by apply Z.mod_small.
Qed.

Lemma elem_without x tid l : x ∈ without tid l <-> x <> tid /\ x ∈ l.
Proof. unfold without. by rewrite list_elem_of_filter. Qed.

Lemma run_get_thread {B} tid t (k : thread -> M sched B) s : threads s !! tid = Some t ->
  (get_thread tid ≫= k) s = k t s.
Proof. intros H. unfold get_thread. rewrite run_bind_bind, run_bind_gets, H. done. Qed.

Lemma ready_table_lookup out s p : ready_inv out s -> 0 <= p < 32 ->
  exists l, rt_thread_priority_table s !! Z.to_nat p = Some l /\ zget (rt_thread_priority_table s) p = Ok l.
Proof.
  intros Hi Hp. destruct (zget_ok (rt_thread_priority_table s) p) as (l & H1 & H2); [rewrite (ri_len _ _ Hi); lia|].
  by exists l.
Qed.

(** A ready list is where its members' priority says. *)
Lemma ready_inv_weaken (out out' : Z -> Prop) s : ready_inv out s -> (forall x, out' x <-> out x) -> ready_inv out' s.
Proof.
  intros [] H. split; try done.
  - intros p l x Hl Hx. rewrite H. by eapply ri_in0.
  - intros x t. rewrite H. apply ri_ready0.
  - intros k l x Hl Hx. rewrite H. by eapply ri_wait0.
  - intros x Hx. rewrite H. by apply ri_defunct0.
Qed.

(** A thread that is out of all lists may change, but for its priority. *)
Lemma ready_inv_put (tid : Z) t s : ready_inv (eq tid) s ->
  well_placed t ->
  ready_inv (eq tid) (s <| threads := <[tid := t]> (threads s) |>).
Proof.
  intros [] Hp. split; cbn; try done.
  - intros p l x Hl Hx. destruct (ri_in0 p l x Hl Hx) as [Hne Ht]. split; [done|]. by rewrite lookup_insert_ne by done.
  - intros x u Hu Hs Hne. rewrite lookup_insert_ne in Hu by done. by apply ri_ready0.
  - intros x u Hu. destruct (decide (tid = x)) as [->|Hne].
    + rewrite lookup_insert_eq in Hu. injection Hu as <-. done.
    + rewrite lookup_insert_ne in Hu by done. exact (ri_prio0 _ _ Hu).
  - intros k l x Hl Hx. destruct (ri_wait0 k l x Hl Hx) as [Hne Ht]. split; [done|]. by rewrite lookup_insert_ne by done.
  - intros x Hx. destruct (ri_defunct0 x Hx) as [Hne Ht]. split; [done|]. by rewrite lookup_insert_ne by done.
Qed.

(** A thread out of all lists that is neither READY is one of the others. *)
Lemma ready_inv_settle (tid : Z) t s : ready_inv (eq tid) s -> threads s !! tid = Some t -> stat_of t <> RT_THREAD_READY ->
  ready_inv nobody s.
Proof.
  intros [] Ht Hs. split; try done.
  - intros p l x Hl Hx. split; [by intros []|]. by eapply ri_in0.
  - intros x u Hu Hst _. destruct (decide (tid = x)) as [->|Hne]; [|by apply ri_ready0].
    rewrite Ht in Hu. injection Hu as <-. done.
  - intros k l x Hl Hx. split; [by intros []|]. by eapply ri_wait0.
  - intros x Hx. split; [by intros []|]. by apply ri_defunct0.
Qed.

Lemma rt_schedule_remove_ok tid t s : ready_inv nobody s -> threads s !! tid = Some t -> has_mask t = true ->
  exists s', rt_schedule_remove_thread tid s = Ok (tt, s') /\ ready_inv (eq tid) s' /\
    s' = s <| rt_thread_priority_table := map (without tid) (rt_thread_priority_table s) |>
      <| rt_thread_defunct := without tid (rt_thread_defunct s) |>
      <| wait_lists := without tid <$> wait_lists s |>
      <| rt_thread_ready_priority_group := rt_thread_ready_priority_group s' |>.
Proof.
  intros Hi Ht Hinit. unfold rt_schedule_remove_thread. erewrite run_get_thread by exact Ht.
  unfold list_remove. rewrite run_bind_modify, run_bind_gets. cbn [rt_thread_priority_table upd].
  pose proof (ri_prio _ _ Hi _ _ Ht) as [Hp Hmask]. specialize (Hmask Hinit).
  destruct (ready_table_lookup _ _ _ Hi Hp) as (l & Hl & _).
  assert (zget (map (without tid) (rt_thread_priority_table s)) (th_priority t) = Ok (without tid l)) as ->.
  { apply zget_Some; [lia|]. by rewrite list_lookup_fmap, Hl. }
  rewrite run_bind_lift, run_bind_gets. cbn [rt_thread_ready_priority_group].
  set (g := rt_thread_ready_priority_group s).
  set (g' := if bool_decide (without tid l = []) then Z.land g (Z.lnot (th_number_mask t)) else g).
  set (s1 := s <| rt_thread_priority_table := map (without tid) (rt_thread_priority_table s) |>
      <| rt_thread_defunct := without tid (rt_thread_defunct s) |>
      <| wait_lists := without tid <$> wait_lists s |>).
  exists (s1 <| rt_thread_ready_priority_group := g' |>). split; [|split; [|done]].
  { unfold g'. by case_bool_decide. }
  assert (forall p, rt_thread_priority_table s1 !! p = without tid <$> rt_thread_priority_table s !! p) as Hlook
    by (intros; apply list_lookup_fmap).
  split; cbn [rt_thread_priority_table rt_thread_ready_priority_group threads wait_lists rt_thread_defunct upd].
  - unfold s1; cbn. by rewrite length_map, (ri_len _ _ Hi).
  - unfold g'. case_bool_decide; [|apply Hi]. apply Z.land_nonneg. left. apply Hi.
  - intros p Hp0. change (rt_thread_priority_table _) with (rt_thread_priority_table s1). rewrite Hlook.
    pose proof (ri_bits _ _ Hi p Hp0) as Hb. fold g in Hb.
    assert (Z.testbit g' p = Z.testbit g p && negb (bool_decide (without tid l = []) && (p =? th_priority t))) as ->.
    { unfold g'. case_bool_decide; cbn [andb]; [|by rewrite andb_true_r].
      rewrite Z.land_spec, Hmask, Z.lnot_spec, Z.shiftl_1_l, Z.pow2_bits_eqb by lia. by rewrite Z.eqb_sym. }
    rewrite Hb. destruct (rt_thread_priority_table s !! Z.to_nat p) as [lp|] eqn:Hlp; [|done]. cbn [fmap option_fmap option_map].
    destruct (Z.eqb_spec p (th_priority t)) as [->|Hne].
    + rewrite Hl in Hlp. injection Hlp as <-. rewrite andb_true_r.
      destruct (without tid l) as [|y r] eqn:Ew.
      * rewrite bool_decide_true by done. apply andb_false_r.
      * rewrite bool_decide_false by done. rewrite andb_true_r. destruct l; [done|done].
    + rewrite andb_false_r, andb_true_r. assert (without tid lp = lp) as ->; [|done].
      apply filter_all, Forall_forall. intros x Hx ->.
      destruct (ri_in _ _ Hi _ _ _ Hlp Hx) as (_ & u & Hu & _ & Hpu). rewrite Ht in Hu. injection Hu as <-. lia.
  - intros p l0 x Hl0 Hx. change (rt_thread_priority_table _) with (rt_thread_priority_table s1) in Hl0. rewrite Hlook in Hl0.
    apply fmap_Some in Hl0 as (l1 & Hl1 & ->). apply elem_without in Hx as [Hne Hx]. split; [congruence|]. by eapply (ri_in _ _ Hi).
  - intros p l0 Hl0. change (rt_thread_priority_table _) with (rt_thread_priority_table s1) in Hl0. rewrite Hlook in Hl0.
    apply fmap_Some in Hl0 as (l1 & Hl1 & ->). apply NoDup_filter. by eapply (ri_nodup _ _ Hi).
  - intros x u Hu Hst Hne. destruct (ri_ready _ _ Hi x u Hu Hst) as (l1 & Hl1 & Hx); [by intros []|].
    change (rt_thread_priority_table _) with (rt_thread_priority_table s1). rewrite Hlook, Hl1. exists (without tid l1).
    split; [done|]. apply elem_without. split; [congruence|done].
  - apply Hi.
  - intros k l0 x Hl0 Hx. unfold s1 in Hl0; cbn in Hl0. rewrite lookup_fmap in Hl0. apply fmap_Some in Hl0 as (l1 & Hl1 & ->).
    apply elem_without in Hx as [Hne Hx]. split; [congruence|]. by eapply (ri_wait _ _ Hi).
  - intros x Hx. unfold s1 in Hx; cbn in Hx. apply elem_without in Hx as [Hne Hx]. split; [congruence|]. by apply (ri_defunct _ _ Hi).
Qed.

Lemma rt_schedule_insert_ok tid t s : ready_inv (eq tid) s -> threads s !! tid = Some t ->
  th_number_mask t = 1 ≪ th_priority t -> rt_current_thread s <> Some tid ->
  exists l g, rt_thread_priority_table s !! Z.to_nat (th_priority t) = Some l /\
    let s' := s <| threads := <[tid := with_stat RT_THREAD_READY t]> (threads s) |>
      <| rt_thread_priority_table := <[Z.to_nat (th_priority t) := l ++ [tid]]> (rt_thread_priority_table s) |>
      <| rt_thread_ready_priority_group := g |> in
    rt_schedule_insert_thread tid s = Ok (tt, s') /\ ready_inv nobody s'.
Proof.
  intros Hi Ht Hmask Hcur. pose proof (proj1 (ri_prio _ _ Hi _ _ Ht)) as Hp.
  destruct (ready_table_lookup _ _ _ Hi Hp) as (l & Hl & Hz). pose proof (lookup_lt_Some _ _ _ Hl) as Hlen.
  exists l, (Z.lor (rt_thread_ready_priority_group s) (th_number_mask t)). split; [exact Hl|]. cbn zeta. split.
  - unfold rt_schedule_insert_thread. erewrite run_get_thread by exact Ht. rewrite run_bind_gets, bool_decide_false by done.
    unfold put_thread. rewrite run_bind_modify, run_bind_gets. cbn [rt_thread_priority_table upd]. rewrite Hz, run_bind_lift.
    rewrite zset_ok by lia. rewrite run_bind_lift, run_bind_modify, run_bind_gets. done.
  - set (T := <[Z.to_nat (th_priority t) := l ++ [tid]]> (rt_thread_priority_table s)).
    assert (forall p lp, T !! p = Some lp -> (p = Z.to_nat (th_priority t) /\ lp = l ++ [tid]) \/
      (p <> Z.to_nat (th_priority t) /\ rt_thread_priority_table s !! p = Some lp)) as HT.
    { intros p lp. unfold T. rewrite list_lookup_insert. case_decide as Hd; [intros [= <-]; left; split; [by destruct Hd|done]|].
      intros Hlp. right. split; [intros ->; apply Hd; split; [done|lia]|done]. }
    assert (tid ∉ l) as Hnin. { intros Hx. by destruct (ri_in _ _ Hi _ _ _ Hl Hx) as [[] _]. }
    split; cbn.
    + unfold T. by rewrite length_insert, (ri_len _ _ Hi).
    + apply Z.lor_nonneg. split; [apply Hi|]. rewrite Hmask. by apply Z.shiftl_nonneg.
    + intros p Hp0. rewrite Z.lor_spec, (ri_bits _ _ Hi p Hp0), Hmask, Z.shiftl_1_l, Z.pow2_bits_eqb by lia.
      unfold T. rewrite list_lookup_insert. destruct (Z.eqb_spec (th_priority t) p) as [Heq|Hne].
      * rewrite <- Heq, orb_true_r, decide_True by lia. by destruct l.
      * rewrite orb_false_r. rewrite decide_False by lia. done.
    + intros p lp x [[-> ->]|[Hne Hlp]]%HT Hx; (split; [by intros []|]).
      * apply elem_of_app in Hx as [Hx|Hx].
        -- destruct (ri_in _ _ Hi _ _ _ Hl Hx) as [Hne Hu]. by rewrite lookup_insert_ne by done.
        -- apply list_elem_of_singleton in Hx as ->. exists (with_stat RT_THREAD_READY t). rewrite lookup_insert_eq.
           split_and!; [done|by apply stat_of_with|cbn; lia].
      * destruct (ri_in _ _ Hi _ _ _ Hlp Hx) as [Hnx Hu]. by rewrite lookup_insert_ne by done.
    + intros p lp [[-> ->]|[Hne Hlp]]%HT; [|by eapply (ri_nodup _ _ Hi)].
      apply NoDup_app. split_and!; [by eapply (ri_nodup _ _ Hi)| |apply NoDup_singleton].
      intros x Hx ->%list_elem_of_singleton. done.
    + intros x u Hu Hst _. destruct (decide (tid = x)) as [->|Hne].
      * rewrite lookup_insert_eq in Hu. injection Hu as <-. exists (l ++ [x]). unfold T. rewrite list_lookup_insert, decide_True by (cbn; lia).
        split; [done|]. apply elem_of_app. right. by apply list_elem_of_singleton.
      * rewrite lookup_insert_ne in Hu by done. destruct (ri_ready _ _ Hi x u Hu Hst Hne) as (l1 & Hl1 & Hx).
        unfold T. rewrite list_lookup_insert. case_decide as Hd; [|by exists l1]. exists (l ++ [tid]). split; [done|].
        destruct Hd as [Hd _]. rewrite <- Hd, Hl in Hl1. injection Hl1 as <-. apply elem_of_app. by left.
    + intros x u Hu. destruct (decide (tid = x)) as [->|Hne].
      * rewrite lookup_insert_eq in Hu. injection Hu as <-. by split.
      * rewrite lookup_insert_ne in Hu by done. exact (ri_prio _ _ Hi x u Hu).
    + intros k lk x Hk Hx. destruct (ri_wait _ _ Hi k lk x Hk Hx) as [Hne Hu]. split; [by intros []|]. by rewrite lookup_insert_ne by done.
    + intros x Hx. destruct (ri_defunct _ _ Hi x Hx) as [Hne Hu]. split; [by intros []|]. by rewrite lookup_insert_ne by done.
Qed.

(** The most urgent ready thread. *)
Definition highest_ready (s : sched) (tid p : Z) : Prop :=
  0 <= p < 32 /\ (exists l, rt_thread_priority_table s !! Z.to_nat p = Some (tid :: l)) /\
  forall q, 0 <= q < p -> rt_thread_priority_table s !! Z.to_nat q = Some [].

Lemma highest_ok out s : ready_inv out s -> rt_thread_ready_priority_group s <> 0 ->
  exists tid p, _get_highest_priority_thread s = Ok ((tid, p), s) /\ highest_ready s tid p.
Proof.
  intros Hi Hg. set (g := rt_thread_ready_priority_group s) in *.
  assert (g < 2 ^ 32) as Hlt.
  { apply nonneg_lt_pow2; [done|apply Hi|]. intros i Hb. unfold g. rewrite (ri_bits _ _ Hi) by lia.
    by rewrite lookup_ge_None_2 by (rewrite (ri_len _ _ Hi); lia). }
  destruct (ffs_ok g) as (p & Hffs & (H0 & H1 & H2) & Hp); [pose proof (ri_group _ _ Hi); unfold g in *; lia|].
  unfold g in H1. rewrite (ri_bits _ _ Hi) in H1 by done.
  destruct (ready_table_lookup _ _ p Hi) as (l & Hl & Hz); [lia|]. rewrite Hl in H1. destruct l as [|tid l]; [done|].
  exists tid, p. split.
  - unfold _get_highest_priority_thread. rewrite run_bind_gets. fold g. rewrite Hffs, run_bind_lift, run_bind_gets.
    replace (p + 1 - 1) with p by lia. by rewrite Hz, run_bind_lift.
  - split_and!; [lia|lia|by exists l|]. intros q Hq. specialize (H2 q Hq). unfold g in H2.
    rewrite (ri_bits _ _ Hi) in H2 by lia. destruct (ready_table_lookup _ _ q Hi) as (lq & Hlq & _); [lia|].
    rewrite Hlq in H2 |- *. by destruct lq.
Qed.

(** No thread is ready. *)
Lemma group_empty s : ready_inv nobody s -> rt_thread_ready_priority_group s = 0 ->
  forall x t, threads s !! x = Some t -> stat_of t <> RT_THREAD_READY.
Proof.
  intros Hi Hg x t Ht Hs. destruct (ri_ready _ _ Hi x t Ht Hs) as (l & Hl & Hx); [by intros []|].
  pose proof (proj1 (ri_prio _ _ Hi x t Ht)) as Hp. pose proof (ri_bits _ _ Hi (th_priority t) ltac:(lia)) as Hb.
  rewrite Hg, Z.bits_0, Hl in Hb. destruct l; [by apply not_elem_of_nil in Hx|done].
Qed.

(** A READY thread is not more urgent than the highest. *)
Lemma highest_least s tid p : ready_inv nobody s -> highest_ready s tid p ->
  forall x t, threads s !! x = Some t -> stat_of t = RT_THREAD_READY -> p <= th_priority t.
Proof.
  intros Hi (Hp & _ & Hlow) x t Ht Hs. destruct (ri_ready _ _ Hi x t Ht Hs) as (l & Hl & Hx); [by intros []|].
  destruct (Z.le_gt_cases p (th_priority t)) as [|Hlt]; [done|]. pose proof (proj1 (ri_prio _ _ Hi x t Ht)).
  rewrite Hlow in Hl by lia. injection Hl as <-. by apply not_elem_of_nil in Hx.
Qed.

(** ** The choice of the next thread *)
Lemma ready_inv_ext out s s' : ready_inv out s ->
  threads s' = threads s -> rt_thread_priority_table s' = rt_thread_priority_table s ->
  rt_thread_ready_priority_group s' = rt_thread_ready_priority_group s ->
  rt_thread_defunct s' = rt_thread_defunct s -> wait_lists s' = wait_lists s -> ready_inv out s'.
Proof. intros [] E1 E2 E3 E4 E5. split; rewrite ?E1, ?E2, ?E3, ?E4, ?E5; done. Qed.

(** A RUNNING thread is in no list. *)
Lemma ready_inv_running tid t s : ready_inv nobody s -> threads s !! tid = Some t -> stat_of t = RT_THREAD_RUNNING ->
  ready_inv (eq tid) s.
Proof.
  intros [] Ht Hs. split; try done.
  - intros p l x Hl Hx. destruct (ri_in0 p l x Hl Hx) as (_ & u & Hu & Hst & Hp).
    split; [intros <-; rewrite Ht in Hu; injection Hu as <-; by rewrite Hs in Hst|by exists u].
  - intros x u Hu Hst Hne. apply ri_ready0; [done|done|by intros []].
  - intros k l x Hl Hx. destruct (ri_wait0 k l x Hl Hx) as (_ & u & Hu & Hst).
    split; [intros <-; rewrite Ht in Hu; injection Hu as <-; by rewrite Hs in Hst|by exists u].
  - intros x Hx. destruct (ri_defunct0 x Hx) as (_ & u & Hu & Hst).
    split; [intros <-; rewrite Ht in Hu; injection Hu as <-; by rewrite Hs in Hst|by exists u].
Qed.

Lemma with_stat_same k t : 0 <= k < 16 -> stat_of t = k -> with_stat k t = t.
Proof.
  intros Hk <-. unfold with_stat, stat_of. destruct t; unfold upd; cbn. f_equal.
  rewrite <- Z.land_lor_distr_r. change RT_THREAD_STAT_MASK with (Z.ones 4). rewrite Z.lor_lnot_diag. apply Z.land_m1_r.
Qed.

Lemma without_id tid l : tid ∉ l -> without tid l = l.
Proof. intros H. apply filter_all, Forall_forall. intros x Hx ->. done. Qed.

Lemma without_head tid l : NoDup (tid :: l) -> without tid (tid :: l) = l.
Proof.
  intros [Hn _]%NoDup_cons. unfold without. rewrite filter_cons_False by (intros H; by apply H).
  by apply without_id.
Qed.

(** Removing a RUNNING thread that is more urgent than all READY ones changes nothing. *)
Lemma schedule_stays c t s tid p : ready_inv nobody s -> threads s !! c = Some t -> stat_of t = RT_THREAD_RUNNING ->
  highest_ready s tid p -> th_priority t < p ->
  (rt_schedule_remove_thread c ;; t ← get_thread c; put_thread c (with_stat RT_THREAD_RUNNING t)) s = Ok (tt, s).
Proof.
  intros Hi Ht Hs (Hp & _ & Hlow) Hlt. pose proof (ready_inv_running _ _ _ Hi Ht Hs) as Hout.
  pose proof (proj1 (ri_prio _ _ Hi _ _ Ht)) as Hpt. pose proof (proj2 (ri_prio _ _ Hi _ _ Ht)) as Hmask.
  assert (rt_schedule_remove_thread c s = Ok (tt, s)) as Hr.
  { unfold rt_schedule_remove_thread. erewrite run_get_thread by exact Ht. unfold list_remove. rewrite run_bind_modify, run_bind_gets.
    destruct s as [th tb g cu cp ln df wl]. unfold upd. cbn [threads rt_thread_priority_table rt_thread_ready_priority_group rt_thread_defunct wait_lists] in *.
    assert (map (without c) tb = tb) as ->.
    { apply list_eq. intros i. change (map (without c) tb) with (without c <$> tb). rewrite list_lookup_fmap.
      destruct (tb !! i) as [l|] eqn:El; [|done]. cbn. f_equal. apply without_id. intros Hx. by destruct (ri_in _ _ Hout i l c El Hx) as [[] _]. }
    assert (without c df = df) as -> by (apply without_id; intros Hx; by destruct (ri_defunct _ _ Hout c Hx) as [[] _]).
    assert (without c <$> wl = wl) as ->.
    { apply map_eq. intros k. rewrite lookup_fmap. destruct (wl !! k) as [l|] eqn:El; [|done]. cbn. f_equal. apply without_id.
      intros Hx. by destruct (ri_wait _ _ Hout k l c El Hx) as [[] _]. }
    assert (zget tb (th_priority t) = Ok []) as -> by (apply zget_Some; [lia|apply Hlow; lia]).
    assert (Z.land g (Z.lnot (th_number_mask t)) = g) as Hg; [|rewrite run_bind_lift, run_bind_gets; cbn; unfold modify; cbn; by rewrite Hg].
    rewrite Hmask by (unfold has_mask; by rewrite Hs).
    apply Z.bits_inj'. intros i Hib. rewrite Z.land_spec, Z.lnot_spec, Z.shiftl_1_l, Z.pow2_bits_eqb by lia.
    destruct (Z.eqb_spec (th_priority t) i) as [<-|]; [|by rewrite andb_true_r].
    pose proof (ri_bits _ _ Hi (th_priority t) ltac:(lia)) as Hb. cbn in Hb. rewrite Hb, Hlow by lia. done. }
  erewrite run_bind_ok by exact Hr. cbv beta. erewrite run_get_thread by exact Ht. rewrite with_stat_same by done.
  destruct s. unfold put_thread, modify, upd. cbn in *. by rewrite insert_id.
Qed.

(** The most urgent ready thread [to] is put on the processor. *)
Lemma switch_in s tid p l : ready_inv nobody s -> highest_ready s tid p ->
  rt_thread_priority_table s !! Z.to_nat p = Some (tid :: l) ->
  (forall x u, threads s !! x = Some u -> stat_of u <> RT_THREAD_RUNNING) ->
  rt_current_thread s = Some tid ->
  exists s' u, (rt_schedule_remove_thread tid ;; t ← get_thread tid; put_thread tid (with_stat RT_THREAD_RUNNING t)) s = Ok (tt, s') /\
    ready_inv nobody s' /\ rt_current_thread s' = Some tid /\ threads s !! tid = Some u /\
    threads s' = <[tid := with_stat RT_THREAD_RUNNING u]> (threads s) /\
    rt_thread_priority_table s' !! Z.to_nat p = Some l /\
    rt_scheduler_lock_nest s' = rt_scheduler_lock_nest s.
Proof.
  intros Hi (Hp & _ & _) Hl Hrun Hcur.
  destruct (ri_in _ _ Hi _ _ tid Hl) as (_ & t & Ht & Hst & Hpt); [apply elem_of_cons; by left|].
  destruct (rt_schedule_remove_ok tid t s Hi Ht) as (s1 & Hr & Hi1 & E1); [unfold has_mask; by rewrite Hst|].
  assert (threads s1 = threads s) as Eth by by rewrite E1.
  assert (threads s1 !! tid = Some t) as Ht1 by by rewrite Eth.
  pose proof (ri_prio _ _ Hi _ _ Ht) as [Hpr Hmask].
  exists (s1 <| threads := <[tid := with_stat RT_THREAD_RUNNING t]> (threads s1) |>), t.
  split_and!.
  - erewrite run_bind_ok by exact Hr. cbv beta. erewrite run_get_thread by exact Ht1. done.
  - eapply ready_inv_settle with (tid := tid) (t := with_stat RT_THREAD_RUNNING t).
    + apply ready_inv_put; [exact Hi1|]. split; [exact Hpr|]. intros _. apply Hmask. unfold has_mask. by rewrite Hst.
    + cbn. by rewrite lookup_insert_eq.
    + by rewrite stat_of_with.
  - rewrite E1. exact Hcur.
  - exact Ht.
  - cbn. by rewrite Eth.
  - cbn. rewrite E1. cbn. change (map (without tid) ?x) with (without tid <$> x). rewrite list_lookup_fmap, Hl. cbn [fmap option_fmap option_map].
    f_equal. apply without_head. by apply (ri_nodup _ _ Hi _ _ Hl).
  - cbn. by rewrite E1.
Qed.

(** What [rt_schedule] does: nothing, when the scheduler is locked, nobody is READY
    or the running thread is strictly more urgent; otherwise the head of the most
    urgent ready list becomes the current thread, and a thread that was RUNNING goes
    to the end of its own ready list. *)
Definition stays (s : sched) : Prop :=
  rt_scheduler_lock_nest s <> 0 \/
  (forall x t, threads s !! x = Some t -> stat_of t <> RT_THREAD_READY) \/
  exists c t tid p, rt_current_thread s = Some c /\ threads s !! c = Some t /\ stat_of t = RT_THREAD_RUNNING /\
    highest_ready s tid p /\ th_priority t < p.

Definition is_running (t : thread) : bool := stat_of t =? RT_THREAD_RUNNING.

Definition switches (s s' : sched) : Prop :=
  exists c t tid p l u, rt_scheduler_lock_nest s = 0 /\ rt_current_thread s = Some c /\ threads s !! c = Some t /\
    highest_ready s tid p /\ rt_thread_priority_table s !! Z.to_nat p = Some (tid :: l) /\ tid <> c /\
    (is_running t = true -> p <= th_priority t) /\
    rt_current_thread s' = Some tid /\ threads s !! tid = Some u /\
    threads s' = <[tid := with_stat RT_THREAD_RUNNING u]> (if is_running t then <[c := with_stat RT_THREAD_READY t]> (threads s) else threads s) /\
    rt_thread_priority_table s' !! Z.to_nat p = Some (l ++ if is_running t && (th_priority t =? p) then [c] else []) /\
    rt_scheduler_lock_nest s' = 0.

(** The thread that was running goes back to the ready lists. *)
Lemma put_back c t tid p l s : ready_inv nobody s -> threads s !! c = Some t -> highest_ready s tid p ->
  rt_thread_priority_table s !! Z.to_nat p = Some (tid :: l) -> (is_running t = true -> p <= th_priority t) ->
  tid <> c -> rt_current_thread s = Some tid ->
  exists s', (when is_running t do rt_schedule_insert_thread c) s = Ok (tt, s') /\ ready_inv nobody s' /\
    highest_ready s' tid p /\ rt_current_thread s' = Some tid /\
    threads s' = (if is_running t then <[c := with_stat RT_THREAD_READY t]> (threads s) else threads s) /\
    rt_thread_priority_table s' !! Z.to_nat p = Some (tid :: l ++ if is_running t && (th_priority t =? p) then [c] else []) /\
    rt_scheduler_lock_nest s' = rt_scheduler_lock_nest s.
Proof.
  intros Hi Ht Hh Hl Hle Hne Hcur. destruct (is_running t) eqn:Er; cbn [andb].
  2: { exists s. rewrite app_nil_r. split_and!; done. }
  specialize (Hle eq_refl). apply Z.eqb_eq in Er. destruct Hh as (Hp & Hex & Hlow).
  pose proof (ri_prio _ _ Hi _ _ Ht) as [Hpr Hmask].
  destruct (rt_schedule_insert_ok c t s) as (lc & g & Hlc & Hr & Hi'); [by eapply ready_inv_running|done|apply Hmask; unfold has_mask; by rewrite Er|
    rewrite Hcur; congruence|].
  set (s' := s <| threads := _ |> <| rt_thread_priority_table := _ |> <| rt_thread_ready_priority_group := _ |>) in *.
  pose proof (lookup_lt_Some _ _ _ Hlc) as Hlen.
  assert (rt_thread_priority_table s' !! Z.to_nat p = Some (tid :: l ++ if th_priority t =? p then [c] else [])) as Hl'.
  { cbn. rewrite list_lookup_insert. destruct (Z.eqb_spec (th_priority t) p) as [<-|Hnp].
    - rewrite decide_True by done. rewrite Hl in Hlc. by injection Hlc as <-.
    - rewrite decide_False by lia. rewrite app_nil_r. exact Hl. }
  exists s'. split_and!; [exact Hr|exact Hi'| |exact Hcur|done|exact Hl'|done].
  split; [done|]. split; [by eexists|].
  intros q Hq. cbn. rewrite list_lookup_insert, decide_False by lia. by apply Hlow.
Qed.

Lemma rt_schedule_ok s : sched_inv s ->
  exists s', rt_schedule s = Ok (tt, s') /\ sched_inv s' /\ ((s' = s /\ stays s) \/ switches s s').
Proof.
  intros [Hi (c & t & Hcur & Ht & Hnr & Hni & Huniq)]. unfold rt_schedule. rewrite run_bind_gets.
  assert (sched_inv s) as Hinv by (split; [done|by exists c, t]).
  destruct (Z.eqb_spec (rt_scheduler_lock_nest s) 0) as [Hn|Hn]; cbn [negb].
  2: { exists s. split_and!; [done..|]. left. split; [done|]. by left. }
  rewrite run_bind_gets. destruct (Z.eqb_spec (rt_thread_ready_priority_group s) 0) as [Hg|Hg].
  { exists s. split_and!; [done..|]. left. split; [done|]. right. left. by apply group_empty. }
  destruct (highest_ok _ _ Hi Hg) as (tid & p & Hh & Hhigh). erewrite run_bind_ok by exact Hh. cbv beta iota.
  rewrite run_bind_gets, Hcur. cbv beta iota. erewrite run_get_thread by exact Ht. cbv zeta.
  change (stat_of t =? RT_THREAD_RUNNING) with (is_running t).
  pose proof Hhigh as (Hp & (l & Hl) & Hlow).
  destruct (ri_in _ _ Hi _ _ tid Hl) as (_ & u & Hu & Hst & _); [apply elem_of_cons; by left|].
  assert (tid <> c) as Hne by (intros ->; congruence).
  destruct (is_running t && (th_priority t <? p)) eqn:E.
  - apply andb_true_iff in E as [Er%Z.eqb_eq Elt%Z.ltb_lt]. rewrite Z.eqb_refl. cbn [negb].
    rewrite (schedule_stays c t s tid p Hi Ht Er Hhigh Elt). exists s. split_and!; [done..|].
    left. split; [done|]. right. right. by exists c, t, tid, p.
  - rewrite (proj2 (Z.eqb_neq tid c) Hne). cbn [negb]. rewrite !run_bind_modify.
    set (s1 := s <| rt_current_priority := u8 p |> <| rt_current_thread := Some tid |>).
    assert (is_running t = true -> p <= th_priority t) as Hle.
    { intros Er. rewrite Er in E. cbn in E. by apply Z.ltb_ge in E. }
    destruct (put_back c t tid p l s1) as (s2 & Hr2 & Hi2 & Hh2 & Hc2 & Eth2 & Hl2 & Hln2); [by eapply ready_inv_ext|done..|].
    erewrite run_bind_ok by exact Hr2. cbv beta.
    destruct (switch_in s2 tid p _ Hi2 Hh2 Hl2) as (s3 & v & Hr3 & Hi3 & Hc3 & Hv3 & Eth3 & Hl3 & Hln3); [|done|].
    { intros x v. rewrite Eth2. destruct (is_running t) eqn:Er.
      - destruct (decide (c = x)) as [->|Hcx].
        + rewrite lookup_insert_eq. intros [= <-]. by rewrite stat_of_with.
        + rewrite lookup_insert_ne by done. intros Hv Hvr. by rewrite (Huniq x v Hv Hvr) in Hcx.
      - intros Hv Hvr. pose proof (Huniq x v Hv Hvr) as ->. change (threads s1) with (threads s) in Hv. rewrite Ht in Hv. injection Hv as ->.
        unfold is_running in Er. by rewrite Hvr in Er. }
    exists s3. split; [exact Hr3|]. split.
    + split; [exact Hi3|]. exists tid, (with_stat RT_THREAD_RUNNING v). rewrite Eth3, lookup_insert_eq, stat_of_with by done. split_and!; [done..|].
      intros x w. destruct (decide (tid = x)) as [->|Hx]; [done|]. rewrite lookup_insert_ne by done. rewrite Eth2.
      destruct (is_running t) eqn:Er.
      * destruct (decide (c = x)) as [->|Hcx]; [rewrite lookup_insert_eq; intros [= <-]; by rewrite stat_of_with|].
        rewrite lookup_insert_ne by done. intros Hw Hwr. by rewrite (Huniq x w Hw Hwr) in Hcx.
      * intros Hw Hwr. pose proof (Huniq x w Hw Hwr) as ->. change (threads s1) with (threads s) in Hw. rewrite Ht in Hw. injection Hw as ->.
        unfold is_running in Er. by rewrite Hwr in Er.
    + right. exists c, t, tid, p, l, u. rewrite Eth3, Eth2. split_and!; try done; [|by rewrite Hln3, Hln2].
      rewrite Eth2 in Hv3. change (threads s1) with (threads s) in Hv3 |- *. assert (v = u) as ->; [|done].
      destruct (is_running t); [rewrite lookup_insert_ne in Hv3 by congruence|]; congruence.
Qed.

(** ** Threads that leave the lists, enter them or change *)
Definition runnable (t : thread) : Prop := stat_of t = RT_THREAD_READY \/ stat_of t = RT_THREAD_RUNNING.

(** Neither the current thread nor the lock of the scheduler changes. *)
Definition same_cpu (s s' : sched) : Prop :=
  rt_current_thread s' = rt_current_thread s /\ rt_scheduler_lock_nest s' = rt_scheduler_lock_nest s.

Lemma take_out_ok tid t s : ready_inv nobody s -> threads s !! tid = Some t -> has_mask t = true ->
  exists s', rt_schedule_remove_thread tid s = Ok (tt, s') /\ ready_inv (eq tid) s' /\ threads s' = threads s /\ same_cpu s s'.
Proof.
  intros Hi Ht Hs. destruct (rt_schedule_remove_ok tid t s Hi Ht Hs) as (s' & Hr & Hi' & E).
  exists s'. split_and!; [exact Hr|exact Hi'|by rewrite E|]. split; by rewrite E.
Qed.

Lemma settle_ok (tid : Z) t' s : ready_inv (eq tid) s -> well_placed t' -> stat_of t' <> RT_THREAD_READY ->
  ready_inv nobody (s <| threads := <[tid := t']> (threads s) |>).
Proof.
  intros Hi Hp Hs. eapply ready_inv_settle with (tid := tid) (t := t'); [by apply ready_inv_put| |done].
  cbn. by rewrite lookup_insert_eq.
Qed.

(** A suspended thread is in no ready list. *)
Lemma table_without tid t s : ready_inv nobody s -> threads s !! tid = Some t -> stat_of t <> RT_THREAD_READY ->
  map (without tid) (rt_thread_priority_table s) = rt_thread_priority_table s.
Proof.
  intros Hi Ht Hs. apply list_eq. intros i. change (map (without tid) ?x) with (without tid <$> x). rewrite list_lookup_fmap.
  destruct (rt_thread_priority_table s !! i) as [l|] eqn:El; [|done]. cbn. f_equal. apply without_id. intros Hx.
  destruct (ri_in _ _ Hi i l tid El Hx) as (_ & u & Hu & Hst & _). congruence.
Qed.

Lemma list_remove_ok tid t s : ready_inv nobody s -> threads s !! tid = Some t -> stat_of t <> RT_THREAD_READY ->
  exists s', list_remove tid s = Ok (tt, s') /\ ready_inv (eq tid) s' /\ threads s' = threads s /\ same_cpu s s'.
Proof.
  intros Hi Ht Hs. unfold list_remove. eexists. split; [reflexivity|]. rewrite (table_without _ _ _ Hi Ht Hs).
  split_and!; [|done..]. pose proof Hi as []. split; cbn; try done.
  - intros p l x Hl Hx. split; [|by eapply ri_in0]. intros <-. destruct (ri_in0 p l tid Hl Hx) as (_ & u & Hu & Hst & _). congruence.
  - intros x u Hu Hst _. apply ri_ready0; [done|done|by intros []].
  - intros k l x Hl Hx. rewrite lookup_fmap in Hl. apply fmap_Some in Hl as (l1 & Hl1 & ->). apply elem_without in Hx as [Hne Hx].
    split; [congruence|]. by eapply ri_wait0.
  - intros x [Hne Hx]%elem_without. split; [congruence|]. by apply ri_defunct0.
Qed.

(** A thread that is not READY may change while it keeps its status, or when it was in no list. *)
Lemma change_ok tid t' s : ready_inv nobody s -> well_placed t' -> stat_of t' <> RT_THREAD_READY ->
  (forall t, threads s !! tid = Some t -> stat_of t = stat_of t' \/ stat_of t = RT_THREAD_INIT \/ stat_of t = RT_THREAD_RUNNING) ->
  ready_inv nobody (s <| threads := <[tid := t']> (threads s) |>).
Proof.
  intros [] Hp Hs Hold. split; cbn; try done.
  - intros p l x Hl Hx. split; [by intros []|]. destruct (ri_in0 p l x Hl Hx) as (_ & u & Hu & Hst & Hpu).
    destruct (decide (tid = x)) as [->|Hne]; [|rewrite lookup_insert_ne by done; by exists u].
    exfalso. destruct (Hold _ Hu) as [E|[E|E]]; rewrite Hst in E; [by apply Hs|done|done].
  - intros x u Hu Hst _. destruct (decide (tid = x)) as [->|Hne]; [rewrite lookup_insert_eq in Hu; injection Hu as <-; done|].
    rewrite lookup_insert_ne in Hu by done. apply ri_ready0; [done|done|by intros []].
  - intros x u Hu. destruct (decide (tid = x)) as [->|Hne]; [rewrite lookup_insert_eq in Hu; by injection Hu as <-|].
    rewrite lookup_insert_ne in Hu by done. exact (ri_prio0 _ _ Hu).
  - intros k l x Hl Hx. split; [by intros []|]. destruct (ri_wait0 k l x Hl Hx) as (_ & u & Hu & Hst).
    destruct (decide (tid = x)) as [->|Hne]; [|rewrite lookup_insert_ne by done; by exists u].
    rewrite lookup_insert_eq. exists t'. split; [done|]. destruct (Hold _ Hu) as [E|[E|E]]; [congruence|by rewrite Hst in E..].
  - intros x Hx. split; [by intros []|]. destruct (ri_defunct0 x Hx) as (_ & u & Hu & Hst).
    destruct (decide (tid = x)) as [->|Hne]; [|rewrite lookup_insert_ne by done; by exists u].
    rewrite lookup_insert_eq. exists t'. split; [done|]. destruct (Hold _ Hu) as [E|[E|E]]; [congruence|by rewrite Hst in E..].
Qed.

Lemma defunct_ok tid t s : ready_inv nobody s -> threads s !! tid = Some t -> stat_of t = RT_THREAD_CLOSE ->
  ready_inv nobody (s <| rt_thread_defunct := tid :: rt_thread_defunct s |>).
Proof.
  intros [] Ht Hs. split; cbn; try done. intros x [->|Hx]%elem_of_cons; [|by apply ri_defunct0].
  split; [by intros []|by exists t].
Qed.

Lemma wait_ok tid t obj s : ready_inv nobody s -> threads s !! tid = Some t -> stat_of t = RT_THREAD_SUSPEND ->
  ready_inv nobody (s <| wait_lists := <[obj := default [] (wait_lists s !! obj) ++ [tid]]> (wait_lists s) |>).
Proof.
  intros [] Ht Hs. split; cbn; try done. intros k l x Hl Hx. destruct (decide (obj = k)) as [->|Hne].
  - rewrite lookup_insert_eq in Hl. injection Hl as <-. split; [by intros []|]. apply elem_of_app in Hx as [Hx|Hx].
    + destruct (wait_lists s !! k) as [l|] eqn:El; [by apply (ri_wait0 k l x El Hx)|by apply not_elem_of_nil in Hx].
    + apply list_elem_of_singleton in Hx as ->. by exists t.
  - rewrite lookup_insert_ne in Hl by done. by eapply ri_wait0.
Qed.

(** The control block of an ended thread is released. *)
Lemma delete_ok tid t s : ready_inv nobody s -> threads s !! tid = Some t -> stat_of t = RT_THREAD_CLOSE -> tid ∉ rt_thread_defunct s ->
  ready_inv nobody (s <| threads := delete tid (threads s) |>).
Proof.
  intros [] Ht Hs Hd. assert (forall x u, threads s !! x = Some u -> stat_of u <> RT_THREAD_CLOSE -> delete tid (threads s) !! x = Some u) as Hk.
  { intros x u Hu Hne. rewrite lookup_delete_ne; [done|]. intros <-. congruence. }
  assert (forall x u, delete tid (threads s) !! x = Some u -> threads s !! x = Some u) as Hb by (by intros x u [_ Hu]%lookup_delete_Some).
  split; cbn; try done.
  - intros p l x Hl Hx. split; [by intros []|]. destruct (ri_in0 p l x Hl Hx) as (_ & u & Hu & Hst & Hp).
    exists u. split; [apply Hk; [done|by rewrite Hst]|done].
  - intros x u Hu Hst Hn. apply (ri_ready0 x u); [by apply Hb|done|done].
  - intros x u Hu. by apply (ri_prio0 x), Hb.
  - intros j l x Hl Hx. split; [by intros []|]. destruct (ri_wait0 j l x Hl Hx) as (_ & u & Hu & Hst).
    exists u. split; [apply Hk; [done|by rewrite Hst]|done].
  - intros x Hx. split; [by intros []|]. destruct (ri_defunct0 x Hx) as (_ & u & Hu & Hst). exists u.
    split; [rewrite lookup_delete_ne; [done|congruence]|done].
Qed.

(** What a context switch does to a thread. *)
Definition alike (t t' : thread) : Prop :=
  t' = t \/ (runnable t /\ runnable t' /\ exists k, t' = with_stat k t).

Definition runs (s : sched) (c : Z) : Prop :=
  rt_current_thread s = Some c /\ exists t, threads s !! c = Some t /\ stat_of t = RT_THREAD_RUNNING.

Definition alike_threads (s s' : sched) : Prop := forall x, option_Forall2 alike (threads s !! x) (threads s' !! x).

Lemma alike_refl s : alike_threads s s.
Proof. intros x. destruct (threads s !! x); [constructor; by left|constructor]. Qed.

(** When the current thread is RUNNING or another can run, a thread is RUNNING
    after [rt_schedule]. *)
Lemma schedule_runs s : sched_inv s ->
  (exists c, runs s c) \/ (rt_scheduler_lock_nest s = 0 /\ exists x t, threads s !! x = Some t /\ stat_of t = RT_THREAD_READY) ->
  exists s' c, rt_schedule s = Ok (tt, s') /\ sched_inv s' /\ runs s' c /\ alike_threads s s' /\
    rt_scheduler_lock_nest s' = rt_scheduler_lock_nest s.
Proof.
  intros Hi Hrun. destruct (rt_schedule_ok s Hi) as (s' & Hr & Hi' & [[-> Hst]|Hsw]).
  - assert (exists c, runs s c) as [c Hc].
    { destruct Hrun as [|[Hn (x & t & Ht & Hs)]]; [done|]. destruct Hst as [|[Hno|(c & u & ? & ? & Hc & Hu & Hsu & _)]]; [done|by destruct (Hno x t)|].
      exists c. split; [done|by exists u]. }
    exists s, c. split_and!; try done. apply alike_refl.
  - destruct Hsw as (c & t & tid & p & l & u & Hn & Hc & Ht & (Hp & _) & Hl & Hne & _ & Hc' & Hu & Eth & _ & Hn').
    exists s', tid. rewrite Hn, Hn'. split_and!; try done.
    + split; [done|]. exists (with_stat RT_THREAD_RUNNING u). by rewrite Eth, lookup_insert_eq, stat_of_with.
    + destruct Hi as [Hi _]. destruct (ri_in _ _ Hi _ _ tid Hl) as (_ & u' & Hu' & Hsu & _); [apply elem_of_cons; by left|].
      assert (u' = u) as -> by congruence. intros x. rewrite Eth. destruct (decide (tid = x)) as [<-|Hx].
      { rewrite lookup_insert_eq, Hu. constructor. right. split; [by left|]. split; [right; by apply stat_of_with|by eexists]. }
      rewrite lookup_insert_ne by done. destruct (is_running t) eqn:Er; [|apply alike_refl].
      destruct (decide (c = x)) as [<-|Hcx]; [|rewrite lookup_insert_ne by done; apply alike_refl].
      rewrite lookup_insert_eq, Ht. constructor. right. apply Z.eqb_eq in Er. split; [by right|].
      split; [left; by apply stat_of_with|by eexists].
Qed.

(** After a switch no READY thread is more urgent than the one that runs. *)
Lemma switched_most_urgent s s' c t x u : sched_inv s -> switches s s' -> rt_current_thread s' = Some c -> threads s' !! c = Some t ->
  threads s' !! x = Some u -> stat_of u = RT_THREAD_READY -> th_priority t <= th_priority u.
Proof.
  intros [Hi _] (c0 & t0 & tid & p & l & v & _ & _ & Ht0 & Hh & Hl & Hne & Hle & Hc' & Hv & Eth & _) Hc Ht Hu Hs.
  assert (tid = c) as -> by congruence. destruct (ri_in _ _ Hi _ _ c Hl) as (_ & v' & Hv' & _ & Hp); [apply elem_of_cons; by left|].
  assert (v' = v) as -> by congruence. pose proof (proj1 Hh). rewrite Eth, lookup_insert_eq in Ht. injection Ht as <-.
  change (th_priority (with_stat RT_THREAD_RUNNING v)) with (th_priority v). replace (th_priority v) with p by lia. rewrite Eth in Hu.
  destruct (decide (c = x)) as [<-|Hx]; [rewrite lookup_insert_eq in Hu; injection Hu as <-; by rewrite stat_of_with in Hs|].
  rewrite lookup_insert_ne in Hu by done. destruct (is_running t0); [|by eapply highest_least].
  destruct (decide (c0 = x)) as [<-|Hx0]; [rewrite lookup_insert_eq in Hu; injection Hu as <-; by apply Hle|].
  rewrite lookup_insert_ne in Hu by done. by eapply highest_least.
Qed.
