(* ===== verification/KThread.v ===== *)
(** * Threads, the clock, the idle thread and the start (src/Kernel/thread.c, clock.c, idle.c, components.c)

    The scheduler of Sched.v and the timers of KTimer.v together.  The operations
    are those of the current thread or, for [rt_tick_increase], of the clock
    interrupt.  A function that lets another thread run ends with [rt_schedule];
    [rt_thread_sleep_resumed] is what follows when the thread runs again.  The
    allocation of control blocks and stacks, the names and the object lists are left
    out; whether a thread is a static object is kept.  The timeout functions of the
    application's timers are a parameter.  The start of the system is modelled from
    the initialisation of the timers on; the board's own initialisation is before. *)
From stdpp Require Import gmap.
From Stdlib Require Import Sorting.Sorted.
From S2P Require Import Prelude KClock KTimer Sched.

Record kernel := MkKernel { sch : sched; tim : timers }.
#[export] Instance kernel_eta : Eta kernel := fun k => MkKernel (sch k) (tim k).

Definition thr {A} (m : M sched A) : M kernel A := zoom sch m.
Definition tmr {A} (m : M timers A) : M kernel A := zoom tim m.

Definition rt_thread_self : M kernel (option Z) := gets (fun k => rt_current_thread (sch k)).

(** ** Operations *)

(** The functions on threads assert that their argument is a thread object. *)
Definition thread_object (tid : Z) : M kernel thread :=
  t ← thr (get_thread tid);
  RT_ASSERT (th_object t);;
  mret t.

Definition rt_thread_init (tid : Z) (static : bool) (priority tick : Z) : M kernel unit :=
  RT_ASSERT (priority <? RT_THREAD_PRIORITY_MAX);;
  thr (put_thread tid (MkThr RT_THREAD_INIT priority priority 0 tick tick RT_EOK true static false));;
  tmr (rt_timer_init (ThreadTimer tid) 0 0).

Definition rt_thread_suspend (tid : Z) : M kernel Z :=
  t ← thread_object tid;
  let stat := stat_of t in
  if negb (stat =? RT_THREAD_READY) && negb (stat =? RT_THREAD_RUNNING) then mret (- RT_ERROR) else
  self ← rt_thread_self;
  (when stat =? RT_THREAD_RUNNING do RT_ASSERT (bool_decide (self = Some tid)));;
  thr (rt_schedule_remove_thread tid);;
  t ← thr (get_thread tid);
  thr (put_thread tid (with_stat RT_THREAD_SUSPEND t));;
  tmr (rt_timer_stop (ThreadTimer tid));;
  mret RT_EOK.

Definition rt_thread_resume (tid : Z) : M kernel Z :=
  t ← thread_object tid;
  if negb (stat_of t =? RT_THREAD_SUSPEND) then mret (- RT_ERROR) else
  thr (list_remove tid);;
  tmr (rt_timer_stop (ThreadTimer tid));;
  thr (rt_schedule_insert_thread tid);;
  mret RT_EOK.

Definition rt_thread_startup (tid : Z) : M kernel Z :=
  t ← thread_object tid;
  RT_ASSERT (stat_of t =? RT_THREAD_INIT);;
  thr (put_thread tid (t <| th_priority := th_init_priority t |>
    <| th_number_mask := u32 (1 ≪ th_init_priority t) |> <| th_stat := RT_THREAD_SUSPEND |>));;
  rt_thread_resume tid;;
  self ← rt_thread_self;
  (when bool_decide (self <> None) do thr rt_schedule);;
  mret RT_EOK.

Definition rt_thread_timeout (tid : Z) : M kernel unit :=
  t ← thread_object tid;
  RT_ASSERT (stat_of t =? RT_THREAD_SUSPEND);;
  thr (put_thread tid (t <| th_error := - RT_ETIMEOUT |>));;
  thr (list_remove tid);;
  thr (rt_schedule_insert_thread tid);;
  thr rt_schedule.

Definition rt_thread_yield : M kernel unit := thr rt_schedule.

(** The running thread, as the functions on the calling thread use it. *)
Definition current_thread : M kernel Z :=
  self ← rt_thread_self;
  match self with
  | Some tid => mret tid
  | None => lift (Fault FAssert)
  end.

Definition rt_thread_sleep (tick : Z) : M kernel unit :=
  tid ← current_thread;
  thread_object tid;;
  rt_thread_suspend tid;;
  tmr (rt_timer_control (ThreadTimer tid) (RT_TIMER_CTRL_SET_TIME tick));;
  tmr (rt_timer_start (ThreadTimer tid));;
  thr rt_schedule.

Definition rt_thread_sleep_resumed (tid : Z) : M kernel Z :=
  t ← thr (get_thread tid);
  (when th_error t =? - RT_ETIMEOUT do thr (put_thread tid (t <| th_error := RT_EOK |>)));;
  mret RT_EOK.

Definition rt_thread_mdelay (ms : Z) : M kernel unit := rt_thread_sleep (u32 (rt_tick_from_millisecond ms)).

Definition set_priority (tid priority : Z) : M kernel unit :=
  t ← thr (get_thread tid);
  thr (put_thread tid (t <| th_priority := priority |> <| th_number_mask := u32 (1 ≪ priority) |>)).

Definition rt_thread_change_priority (tid priority : Z) : M kernel unit :=
  t ← thread_object tid;
  if stat_of t =? RT_THREAD_READY then
    thr (rt_schedule_remove_thread tid);;
    set_priority tid priority;;
    thr (rt_schedule_insert_thread tid)
  else set_priority tid priority.

(** The common part of [rt_thread_detach] and [rt_thread_delete]. *)
Definition thread_close (tid : Z) : M kernel unit :=
  t ← thr (get_thread tid);
  (when negb (stat_of t =? RT_THREAD_INIT) do thr (rt_schedule_remove_thread tid));;
  tmr (rt_timer_detach (ThreadTimer tid));;
  t ← thr (get_thread tid);
  thr (put_thread tid (t <| th_stat := RT_THREAD_CLOSE |>)).

Definition rt_object_detach (tid : Z) : M kernel unit :=
  t ← thr (get_thread tid);
  thr (put_thread tid (t <| th_object := false |>)).

Definition to_defunct (tid : Z) : M kernel unit :=
  thr (modify (fun s => s <| rt_thread_defunct := tid :: rt_thread_defunct s |>)).

Definition rt_thread_detach (tid : Z) : M kernel Z :=
  t ← thread_object tid;
  RT_ASSERT (th_static t);;
  thread_close tid;;
  rt_object_detach tid;;
  (when th_cleanup t do to_defunct tid);;
  mret RT_EOK.

Definition rt_thread_delete (tid : Z) : M kernel Z :=
  t ← thread_object tid;
  RT_ASSERT (negb (th_static t));;
  thread_close tid;;
  to_defunct tid;;
  mret RT_EOK.

Inductive thread_cmd :=
  | RT_THREAD_CTRL_STARTUP
  | RT_THREAD_CTRL_CLOSE
  | RT_THREAD_CTRL_CHANGE_PRIORITY (priority : Z).

Definition rt_thread_control (tid : Z) (cmd : thread_cmd) : M kernel Z :=
  match cmd with
  | RT_THREAD_CTRL_CHANGE_PRIORITY p => rt_thread_change_priority tid p;; mret RT_EOK
  | RT_THREAD_CTRL_STARTUP => rt_thread_startup tid
  | RT_THREAD_CTRL_CLOSE => rt_thread_delete tid
  end.

Definition rt_thread_exit : M kernel unit :=
  tid ← current_thread;
  thr (rt_schedule_remove_thread tid);;
  t ← thr (get_thread tid);
  thr (put_thread tid (t <| th_stat := RT_THREAD_CLOSE |>));;
  tmr (rt_timer_detach (ThreadTimer tid));;
  (if th_static t && negb (th_cleanup t) then rt_object_detach tid else to_defunct tid);;
  thr rt_schedule.

(** The wait of the kernel objects in ipc.c (the part of rt_sem_take for a semaphore
    that is not available): the thread is suspended and put at the end of the list of
    the object, which is in the order of arrival; with a positive timeout its timer
    runs. *)
Definition wait_for (obj time : Z) : M kernel unit :=
  tid ← current_thread;
  t ← thr (get_thread tid);
  thr (put_thread tid (t <| th_error := RT_EOK |>));;
  rt_thread_suspend tid;;
  thr (modify (fun s => s <| wait_lists := <[obj := default [] (wait_lists s !! obj) ++ [tid]]> (wait_lists s) |>));;
  (when 0 <? time do
    (tmr (rt_timer_control (ThreadTimer tid) (RT_TIMER_CTRL_SET_TIME time));;
     tmr (rt_timer_start (ThreadTimer tid))));;
  thr rt_schedule.

(** ** The idle thread (idle.c) *)

(** A turn of the loop of [rt_thread_idle_excute], to the call of [rt_exit_critical],
    which may let another thread run; the result is the thread whose memory is then
    released.  The clean-up function, which no thread of the board has, is not called. *)
Definition rt_thread_idle_excute : M kernel (option Z) :=
  l ← gets (fun k => rt_thread_defunct (sch k));
  match l with
  | [] => mret None
  | tid :: _ =>
      thr (list_remove tid);;
      thr rt_enter_critical;;
      t ← thr (get_thread tid);
      thr rt_exit_critical;;
      mret (if th_static t then None else Some tid)
  end.

(** The release of the stack and of the control block. *)
Definition rt_object_delete (tid : Z) : M kernel unit :=
  thr (modify (fun s => s <| threads := delete tid (threads s) |>)).

(** ** The clock interrupt *)
Section Clock.
Context (user_timeout : Z -> M kernel unit).

Definition timeout_func (id : timer_id) : M kernel unit :=
  match id with ThreadTimer tid => rt_thread_timeout tid | UserTimer n => user_timeout n end.

Definition rt_tick_increase (fuel : nat) : M kernel unit :=
  tmr (modify (fun s => s <| rt_tick := u32 (rt_tick s + 1) |>));;
  self ← rt_thread_self;
  match self with
  | None => lift (Fault FNull)
  | Some tid =>
      t ← thr (get_thread tid);
      let remaining := u32 (th_remaining_tick t - 1) in
      thr (put_thread tid (t <| th_remaining_tick := remaining |>));;
      (when remaining =? 0 do
        (t ← thr (get_thread tid);
         thr (put_thread tid (t <| th_remaining_tick := th_init_tick t |>));;
         rt_thread_yield));;
      rt_timer_check tim timeout_func fuel
  end.
End Clock.

(** ** The start of the system (components.c, idle.c) *)
Definition RT_MAIN_THREAD_PRIORITY : Z := 10.

Definition rt_application_init (main : Z) : M kernel unit :=
  rt_thread_init main false RT_MAIN_THREAD_PRIORITY 20;;
  rt_thread_startup main;;
  skip.

Definition rt_thread_idle_init (idle : Z) : M kernel unit :=
  rt_thread_init idle true (RT_THREAD_PRIORITY_MAX - 1) 32;;
  rt_thread_startup idle;;
  skip.

Definition rtthread_startup (main idle : Z) : M kernel unit :=
  tmr rt_system_timer_init;;
  thr rt_system_scheduler_init;;
  rt_application_init main;;
  rt_thread_idle_init idle;;
  thr rt_system_scheduler_start.
