(* ===== verification/KSafe.v ===== *)
(** * The kernel as a state machine (src/Kernel/thread.c, clock.c, timer.c, scheduler.c)

    The operations of KThread.v, KTimer.v and Sched.v as steps of a state machine,
    in any order the callers of the kernel may give them; the invariant that every
    step keeps; and how long a thread sleeps.  What the kernel needs of the timeout
    functions of the application's timers is the interface [TimeoutSafe]; a timeout
    function that resumes threads implements it. *)
From stdpp Require Import gmap.
From Stdlib Require Import Sorting.Sorted.
From S2P Require Import Prelude KClock KTimer Sched KThread.

(** ** Running an operation of a part *)
Lemma run_thr {A B} (m : M sched A) (f : A -> M kernel B) k a s : m (sch k) = Ok (a, s) ->
  (thr m ≫= f) k = f a (MkKernel s (tim k)).
Proof. intros H. unfold thr. by erewrite run_bind_zoom by exact H. Qed.

Lemma run_tmr {A B} (m : M timers A) (f : A -> M kernel B) k a s : m (tim k) = Ok (a, s) ->
  (tmr m ≫= f) k = f a (MkKernel (sch k) s).
Proof. intros H. unfold tmr. by erewrite run_bind_zoom by exact H. Qed.

Lemma run_thr_last {A} (m : M sched A) k a s : m (sch k) = Ok (a, s) -> thr m k = Ok (a, MkKernel s (tim k)).
Proof. intros H. unfold thr. by erewrite run_zoom by exact H. Qed.

Lemma run_tmr_last {A} (m : M timers A) k a s : m (tim k) = Ok (a, s) -> tmr m k = Ok (a, MkKernel (sch k) s).
Proof. intros H. unfold tmr. by erewrite run_zoom by exact H. Qed.

Lemma run_get {B} tid t (f : thread -> M kernel B) k : threads (sch k) !! tid = Some t ->
  (thr (get_thread tid) ≫= f) k = f t k.
Proof.
  intros H. rewrite (run_thr _ _ _ t (sch k)); [by destruct k|]. unfold get_thread. by rewrite run_bind_gets, H.
Qed.

Lemma run_object {B} tid t (f : thread -> M kernel B) k : threads (sch k) !! tid = Some t -> th_object t = true ->
  (thread_object tid ≫= f) k = f t k.
Proof.
  intros H Ho. unfold thread_object. rewrite run_bind_bind. erewrite run_get by exact H. rewrite run_bind_bind, Ho.
  by rewrite run_bind_assert, run_bind_ret.
Qed.

(** A thread's record changes. *)
Definition with_thread (tid : Z) (t : thread) (s : sched) : sched := s <| threads := <[tid := t]> (threads s) |>.

Lemma run_put {B} tid t (f : unit -> M kernel B) k :
  (thr (put_thread tid t) ≫= f) k = f tt (MkKernel (with_thread tid t (sch k)) (tim k)).
Proof. by erewrite run_thr by done. Qed.

Lemma run_self {B} (f : option Z -> M kernel B) k : (rt_thread_self ≫= f) k = f (rt_current_thread (sch k)) k.
Proof. done. Qed.

(** ** The invariant *)
Section Kernel.
Context (idle : Z).

(** A thread that has not ended is an object and has a timer that runs once. *)
Definition thread_ok (ts : timers) (x : Z) (t : thread) : Prop :=
  0 <= th_init_priority t < RT_THREAD_PRIORITY_MAX /\
  (stat_of t <> RT_THREAD_CLOSE -> th_object t = true /\
    exists tm, timer_objs ts !! ThreadTimer x = Some tm /\ periodic tm = false).

Definition user_timer_ok (tm : rt_timer) : Prop :=
  0 <= tm_init_tick tm < half /\ (periodic tm = true -> 1 <= tm_init_tick tm).

(** The thread sleeps for [d] more ticks. *)
Definition asleep (x d : Z) (k : kernel) : Prop := (ThreadTimer x, d) ∈ pending (tim k).
Definition has_stat (x stat : Z) (k : kernel) : Prop :=
  exists t, threads (sch k) !! x = Some t /\ stat_of t = stat.
Definition awake (x : Z) (k : kernel) : Prop := exists t, threads (sch k) !! x = Some t /\ runnable t.

(** The timers have at least [lo] remaining ticks and the timeout function of
    [running] runs. *)
Record kernel_inv (lo : Z) (running : option timer_id) (k : kernel) : Prop := {
  ki_ready : ready_inv nobody (sch k);
  ki_current : current_inv (sch k);
  ki_nest : 0 <= rt_scheduler_lock_nest (sch k) < 2 ^ 15;
  ki_idle : awake idle k;
  ki_timers : timers_ok lo running (tim k);
  ki_thread : forall x t, threads (sch k) !! x = Some t -> thread_ok (tim k) x t;
  ki_asleep : forall x d, asleep x d k -> has_stat x RT_THREAD_SUSPEND k;
  ki_user : forall n tm, timer_objs (tim k) !! UserTimer n = Some tm -> user_timer_ok tm
}.

Definition on_cpu (k : kernel) : Prop := exists c, runs (sch k) c.

Definition good (lo : Z) (running : option timer_id) (k : kernel) : Prop := kernel_inv lo running k /\ on_cpu k.

(** Between the operations: a thread is RUNNING. *)
Definition kernel_ok (k : kernel) : Prop := good 0 None k.

(** What an operation on the threads of [X] leaves as it was: the sleep of the
    others, and that the others can run. *)
Record moves (X : Z -> Prop) (k k' : kernel) : Prop := {
  mv_asleep : forall x d, ~ X x -> asleep x d k -> asleep x d k';
  mv_awake : forall x, ~ X x -> awake x k -> awake x k'
}.

(** A step that starts no timer and changes none of the application's. *)
Record quiet (k k' : kernel) : Prop := {
  qt_tick : rt_tick (tim k') = rt_tick (tim k);
  qt_pending : sublist (pending (tim k')) (pending (tim k));
  qt_user : forall n, timer_objs (tim k') !! UserTimer n = timer_objs (tim k) !! UserTimer n
}.

Lemma moves_refl X k : moves X k k.
Proof. by split. Qed.

Lemma moves_trans X k k1 k2 : moves X k k1 -> moves X k1 k2 -> moves X k k2.
Proof. intros [] []. split; naive_solver. Qed.

Lemma moves_nobody X k k' : moves nobody k k' -> moves X k k'.
Proof. intros []. split; intros; [apply mv_asleep0|apply mv_awake0]; try done; by intros []. Qed.

Lemma nobody_asleep k k' x d : moves nobody k k' -> asleep x d k -> asleep x d k'.
Proof. intros []. apply mv_asleep0. by intros []. Qed.

Lemma nobody_awake k k' x : moves nobody k k' -> awake x k -> awake x k'.
Proof. intros []. apply mv_awake0. by intros []. Qed.

Lemma quiet_refl k : quiet k k.
Proof. by split. Qed.

Lemma quiet_trans k k1 k2 : quiet k k1 -> quiet k1 k2 -> quiet k k2.
Proof. intros [] []. split; [congruence|by etrans|congruence]. Qed.

Lemma inv_update lo r lo' r' k k' tid t' : kernel_inv lo r k ->
  ready_inv nobody (sch k') -> same_cpu (sch k) (sch k') -> threads (sch k') = <[tid := t']> (threads (sch k)) ->
  timers_ok lo' r' (tim k') -> timers_frame (ThreadTimer tid) (tim k) (tim k') -> thread_ok (tim k') tid t' ->
  (tid = idle -> runnable t') ->
  (rt_current_thread (sch k) = Some tid -> stat_of t' <> RT_THREAD_READY /\ stat_of t' <> RT_THREAD_INIT) ->
  (stat_of t' = RT_THREAD_RUNNING -> rt_current_thread (sch k) = Some tid) ->
  (forall d, asleep tid d k' -> stat_of t' = RT_THREAD_SUSPEND) ->
  kernel_inv lo' r' k' /\ moves (eq tid) k k'.
Proof.
  intros [] Hr [Hc Hn] Eth Ht [Fo Fp _] Htid Hid Hcur Hrun Hsl.
  assert (forall x, x <> tid -> threads (sch k') !! x = threads (sch k) !! x) as Hoth by (intros; by rewrite Eth, lookup_insert_ne).
  assert (threads (sch k') !! tid = Some t') as Hself by by rewrite Eth, lookup_insert_eq.
  split; split; try done.
  - destruct ki_current0 as (c & t & Hcc & Htc & H1 & H2 & Hu). exists c. rewrite Hc.
    assert (exists u, threads (sch k') !! c = Some u /\ stat_of u <> RT_THREAD_READY /\ stat_of u <> RT_THREAD_INIT) as (u & Hu1 & Hu2 & Hu3).
    { destruct (decide (c = tid)) as [->|Hne]; [exists t'; by split; [|apply Hcur]|exists t; by rewrite Hoth]. }
    exists u. split_and!; try done. intros x v Hv Hvr. destruct (decide (x = tid)) as [->|Hne].
    + rewrite Hself in Hv. injection Hv as <-. rewrite Hrun in Hcc by done. congruence.
    + rewrite Hoth in Hv by done. by eapply Hu.
  - by rewrite Hn.
  - unfold awake in *. destruct (decide (idle = tid)) as [->|Hne]; [exists t'; split; [done|by apply Hid]|by rewrite Hoth].
  - intros x t Hx. destruct (decide (x = tid)) as [->|Hne]; [rewrite Hself in Hx; by injection Hx as <-|].
    rewrite Hoth in Hx by done. unfold thread_ok. rewrite Fo by congruence. by apply ki_thread0.
  - intros x d Hx. unfold has_stat. destruct (decide (x = tid)) as [->|Hne]; [exists t'; split; [done|by eapply Hsl]|].
    rewrite Hoth by done. apply (ki_asleep0 x d). apply Fp; [congruence|exact Hx].
  - intros n tm Hx. rewrite Fo in Hx by done. by eapply ki_user0.
  - intros x d Hne Hx. apply Fp; [congruence|exact Hx].
  - intros x Hne (t & Hx & Hw). exists t. by rewrite Hoth by congruence.
Qed.

Lemma alike_stat t t' : alike t t' -> stat_of t' = stat_of t \/ (runnable t /\ runnable t').
Proof. intros [->|(? & ? & _)]; [by left|by right]. Qed.

Lemma alike_thread_ok ts x t t' : alike t t' -> thread_ok ts x t -> thread_ok ts x t'.
Proof.
  intros [->|(Hw & _ & j & ->)]; [done|]. intros [H1 H2]. split; [done|]. intros _. apply H2.
  destruct Hw as [->| ->]; done.
Qed.

(** After an operation that may have suspended the current thread. *)
Lemma inv_schedule lo r k : kernel_inv lo r k -> on_cpu k \/ rt_scheduler_lock_nest (sch k) = 0 ->
  exists k', thr rt_schedule k = Ok (tt, k') /\ good lo r k' /\ tim k' = tim k /\ moves nobody k k' /\
    rt_scheduler_lock_nest (sch k') = rt_scheduler_lock_nest (sch k).
Proof.
  intros [] Hrun. destruct (schedule_runs (sch k)) as (s' & c & Hs & [Hi Hc] & Hruns & Hal & Hn).
  - by split.
  - destruct Hrun as [|Hn]; [by left|]. destruct ki_idle0 as (t & Ht & [Hw|Hw]); [right; split; [done|by exists idle, t]|left].
    exists idle. destruct ki_current0 as (c & u & Hc & _ & _ & _ & Hu). split; [by rewrite (Hu idle t Ht Hw)|by exists t].
  - exists (MkKernel s' (tim k)). split; [by apply run_thr_last|].
    assert (forall x t, threads (sch k) !! x = Some t -> exists t', threads s' !! x = Some t' /\ alike t t') as Hfw.
    { intros x t Hx. specialize (Hal x). rewrite Hx in Hal. inversion Hal. by eexists. }
    assert (forall x, awake x k -> awake x (MkKernel s' (tim k))) as Haw.
    { intros x (t & Hx & Hw). destruct (Hfw x t Hx) as (t' & Hx' & Ha). exists t'. split; [done|].
      destruct Ha as [->|(_ & ? & _)]; done. }
    split_and!; [|done| |done].
    + split; [|by exists c]. split; cbn [sch tim]; try done.
      * by rewrite Hn.
      * by apply Haw.
      * intros x t' Hx. specialize (Hal x). rewrite Hx in Hal. inversion Hal as [t ? Ha E|]. subst.
        eapply alike_thread_ok; [exact Ha|]. by apply ki_thread0.
      * intros x d Hx. destruct (ki_asleep0 x d Hx) as (t & Ht & Hst). destruct (Hfw x t Ht) as (t' & Ht' & Ha).
        exists t'. split; [done|]. destruct (alike_stat _ _ Ha) as [->|[[Hw|Hw] _]]; [done|by rewrite Hst in Hw..].
    + split; [done|]. intros x _. apply Haw.
Qed.

(** An operation on the timers alone. *)
Lemma inv_timers lo r lo' r' k ts : kernel_inv lo r k -> timers_ok lo' r' ts ->
  (forall x tm, timer_objs (tim k) !! ThreadTimer x = Some tm -> periodic tm = false ->
    exists tm', timer_objs ts !! ThreadTimer x = Some tm' /\ periodic tm' = false) ->
  (forall x d, (ThreadTimer x, d) ∈ pending ts -> exists e, asleep x e k) ->
  (forall n tm, timer_objs ts !! UserTimer n = Some tm -> user_timer_ok tm) ->
  kernel_inv lo' r' (MkKernel (sch k) ts).
Proof.
  intros [] Ht Fo Fp Hu. split; cbn [sch tim]; try done.
  - intros x t Hx. destruct (ki_thread0 x t Hx) as [H1 H2]. split; [done|]. intros Hs. destruct (H2 Hs) as (Ho & tm & Htm & Hp).
    split; [done|]. by eapply Fo.
  - intros x d Hx. destruct (Fp x d Hx) as [e He]. by eapply ki_asleep0.
Qed.

Lemma inv_user_timer lo r lo' r' k ts n : kernel_inv lo r k -> timers_ok lo' r' ts -> timers_frame (UserTimer n) (tim k) ts ->
  (forall tm, timer_objs ts !! UserTimer n = Some tm -> user_timer_ok tm) ->
  kernel_inv lo' r' (MkKernel (sch k) ts) /\ moves nobody k (MkKernel (sch k) ts).
Proof.
  intros Hi Ht [Fo Fp _] Hu. split; [eapply inv_timers; try done|].
  - intros x tm Hx Hp. exists tm. by rewrite Fo.
  - intros x d Hx. exists d. by apply Fp.
  - intros m tm Hm. destruct (decide (m = n)) as [->|Hne]; [by apply Hu|]. rewrite Fo in Hm by congruence. by eapply (ki_user _ _ _ Hi).
  - split; [|done]. intros x d _ Hx. by apply Fp.
Qed.

(** The timer of a thread that has not ended. *)
Lemma thread_timer lo r k tid t : kernel_inv lo r k -> threads (sch k) !! tid = Some t -> stat_of t <> RT_THREAD_CLOSE ->
  th_object t = true /\ exists tm, timer_objs (tim k) !! ThreadTimer tid = Some tm /\ periodic tm = false.
Proof. intros Hi Ht Hs. by apply (ki_thread _ _ _ Hi tid t Ht). Qed.

Lemma running_current lo r k tid t : kernel_inv lo r k -> threads (sch k) !! tid = Some t -> stat_of t = RT_THREAD_RUNNING ->
  rt_current_thread (sch k) = Some tid.
Proof. intros [] Ht Hs. destruct ki_current0 as (c & u & Hc & _ & _ & _ & Hu). by rewrite (Hu tid t Ht Hs). Qed.

Lemma current_not_ready lo r k tid t : kernel_inv lo r k -> threads (sch k) !! tid = Some t -> rt_current_thread (sch k) = Some tid ->
  stat_of t <> RT_THREAD_READY /\ stat_of t <> RT_THREAD_INIT.
Proof. intros [] Ht Hs. destruct ki_current0 as (c & u & Hc & Hu & H1 & H2 & _). split; congruence. Qed.

(** Suspending a thread that can run. *)
Lemma suspend_ok lo k tid t : kernel_inv lo None k -> threads (sch k) !! tid = Some t -> runnable t -> tid <> idle ->
  exists k', rt_thread_suspend tid k = Ok (RT_EOK, k') /\ kernel_inv lo None k' /\ moves (eq tid) k k' /\
    same_cpu (sch k) (sch k') /\ threads (sch k') !! tid = Some (with_stat RT_THREAD_SUSPEND t) /\
    rt_tick (tim k') = rt_tick (tim k).
Proof.
  intros Hi Ht Hw Hid. pose proof (ri_prio _ _ (ki_ready _ _ _ Hi) _ _ Ht) as [Hp Hm].
  assert (has_mask t = true) as Hmask by (unfold has_mask; by destruct Hw as [->| ->]).
  destruct (thread_timer _ _ _ _ _ Hi Ht) as (Ho & tm & Htm & Hper); [by destruct Hw as [->| ->]|].
  destruct (take_out_ok tid t (sch k) (ki_ready _ _ _ Hi) Ht Hmask) as (s1 & Hr & Hi1 & Eth & Hcpu).
  destruct (stop_frame lo None (tim k) (ThreadTimer tid) tm (ki_timers _ _ _ Hi)) as (b & ts & tm' & Hst & Hok & Hpe & Hf & Htm' & _ & Hper'); [done..|].
  set (t' := with_stat RT_THREAD_SUSPEND t). set (k' := MkKernel (with_thread tid t' s1) ts).
  assert (rt_thread_suspend tid k = Ok (RT_EOK, k')) as Hrun.
  { unfold rt_thread_suspend. erewrite run_object by done. cbv zeta.
    replace (negb (stat_of t =? RT_THREAD_READY) && negb (stat_of t =? RT_THREAD_RUNNING)) with false
      by (by destruct Hw as [->| ->]).
    rewrite run_self. assert ((when stat_of t =? RT_THREAD_RUNNING do RT_ASSERT (bool_decide (rt_current_thread (sch k) = Some tid))) k = Ok (tt, k)) as Ha.
    { destruct (Z.eqb_spec (stat_of t) RT_THREAD_RUNNING) as [E|]; [|done]. rewrite bool_decide_true by (by eapply running_current). done. }
    erewrite run_bind_ok by exact Ha. cbv beta. erewrite run_thr by exact Hr. erewrite run_get by (cbn; by rewrite Eth).
    rewrite run_put. by erewrite run_tmr by exact Hst. }
  exists k'. split; [exact Hrun|]. assert (stat_of t' = RT_THREAD_SUSPEND) as Et' by by apply stat_of_with.
  destruct (inv_update lo None lo None k k' tid t' Hi) as [H1 H2]; try done.
  - cbn. apply settle_ok; [exact Hi1|split; [exact Hp|intros _; by apply Hm]|by rewrite Et'].
  - cbn. by rewrite Eth.
  - split; [by apply (ki_thread _ _ _ Hi tid t Ht)|]. intros _. split; [exact Ho|]. exists tm'. by rewrite Hper'.
  - rewrite Et'. by split.
  - by rewrite Et'.
  - split_and!; try done; [by cbn; rewrite Eth, lookup_insert_eq|apply Hf].
Qed.

(** Starting the timer of a suspended thread. *)
Lemma sleep_timer_ok k tid t n : kernel_inv 0 None k -> threads (sch k) !! tid = Some t -> stat_of t = RT_THREAD_SUSPEND -> 0 <= n < half ->
  exists k1 k2, tmr (rt_timer_control (ThreadTimer tid) (RT_TIMER_CTRL_SET_TIME n)) k = Ok (None, k1) /\
    tmr (rt_timer_start (ThreadTimer tid)) k1 = Ok (tt, k2) /\ kernel_inv 0 None k2 /\ moves (eq tid) k k2 /\
    sch k2 = sch k /\ asleep tid n k2 /\ rt_tick (tim k2) = rt_tick (tim k).
Proof.
  intros Hi Ht Hs Hn. destruct (thread_timer _ _ _ _ _ Hi Ht) as (Ho & tm & Htm & Hper); [by rewrite Hs|].
  set (tm1 := tm <| tm_init_tick := n |>).
  destruct (put_timer_ok 0 None (tim k) (ThreadTimer tid) tm tm1 (ki_timers _ _ _ Hi) Htm) as (Hok1 & Hp1 & Hf1); [done..|].
  set (s1 := (tim k) <| timer_objs := <[ThreadTimer tid := tm1]> (timer_objs (tim k)) |>) in *.
  destruct (start_frame 0 None s1 (ThreadTimer tid) tm1) as (s2 & tm2 & Hst & Hok2 & Hp2 & Hf2 & Htm2 & _ & Hper2); [lia|done|by left|cbn; by rewrite lookup_insert_eq|exact Hn|].
  exists (MkKernel (sch k) s1), (MkKernel (sch k) s2). pose proof (timers_frame_trans _ _ _ _ Hf1 Hf2) as Hf.
  destruct (inv_update 0 None 0 None k (MkKernel (sch k) s2) tid t Hi) as [H1 H2]; try done.
  - apply Hi.
  - cbn. by rewrite insert_id.
  - split; [by apply (ki_thread _ _ _ Hi tid t Ht)|]. intros _. split; [done|]. exists tm2. split; [exact Htm2|]. rewrite Hper2. exact Hper.
  - intros ->. destruct (ki_idle _ _ _ Hi) as (u & Hu & Hw). by assert (u = t) as -> by congruence.
  - intros Hc. by eapply current_not_ready.
  - rewrite Hs. done.
  - split_and!; [|exact (run_tmr_last _ (MkKernel (sch k) s1) _ _ Hst)|exact H1|exact H2|done| |apply Hf].
    + apply run_tmr_last. unfold rt_timer_control. erewrite run_get_timer by exact Htm. done.
    + unfold asleep. cbn [tim]. rewrite Hp2. apply elem_insert_due. by left.
Qed.

(** Making a suspended thread ready: [rt_thread_resume] and [rt_thread_timeout]. *)
Lemma ready_ok lo r k tid t ts : kernel_inv lo r k -> threads (sch k) !! tid = Some t -> stat_of t = RT_THREAD_SUSPEND ->
  rt_current_thread (sch k) <> Some tid ->
  timers_ok lo r ts -> timers_frame (ThreadTimer tid) (tim k) ts ->
  (exists tm, timer_objs ts !! ThreadTimer tid = Some tm /\ periodic tm = false) -> (forall d, (ThreadTimer tid, d) ∉ pending ts) ->
  exists s1 s2, list_remove tid (sch k) = Ok (tt, s1) /\ rt_schedule_insert_thread tid s1 = Ok (tt, s2) /\
    kernel_inv lo r (MkKernel s2 ts) /\ moves (eq tid) k (MkKernel s2 ts) /\ awake tid (MkKernel s2 ts) /\ same_cpu (sch k) s2 /\
    (on_cpu k -> on_cpu (MkKernel s2 ts)).
Proof.
  intros Hi Ht Hs Hc Hok Hf Htm Hp. pose proof (ri_prio _ _ (ki_ready _ _ _ Hi) _ _ Ht) as [Hpr Hm].
  assert (has_mask t = true) as Hmask by (unfold has_mask; by rewrite Hs).
  destruct (thread_timer _ _ _ _ _ Hi Ht) as (Ho & _); [by rewrite Hs|].
  destruct (list_remove_ok tid t (sch k) (ki_ready _ _ _ Hi) Ht) as (s1 & Hr & Hi1 & Eth & Hcpu); [by rewrite Hs|].
  destruct (rt_schedule_insert_ok tid t s1 Hi1) as (l & g & _ & Hins & Hi2); [by rewrite Eth|by apply Hm|by rewrite (proj1 Hcpu)|].
  set (t' := with_stat RT_THREAD_READY t) in *. set (s2 := _ <| rt_thread_ready_priority_group := g |>) in *.
  assert (stat_of t' = RT_THREAD_READY) as Et' by by apply stat_of_with.
  exists s1, s2. assert (same_cpu (sch k) s2) as Hcpu2 by (unfold same_cpu, s2; cbn; by destruct Hcpu).
  assert (threads s2 = <[tid := t']> (threads (sch k))) as Eth2 by (unfold s2; cbn; by rewrite Eth).
  destruct (inv_update lo r lo r k (MkKernel s2 ts) tid t' Hi) as [H1 H2]; try done.
  - split; [by apply (ki_thread _ _ _ Hi tid t Ht)|]. done.
  - intros _. by left.
  - by rewrite Et'.
  - intros d Hd. by destruct (Hp d).
  - split_and!; try done.
    + exists t'. cbn [sch]. rewrite Eth2, lookup_insert_eq. split; [done|by left].
    + intros (c & Hcc & u & Hu & Hsu). exists c. split; [cbn [sch]; by rewrite (proj1 Hcpu2)|]. exists u. cbn [sch].
      rewrite Eth2, lookup_insert_ne by congruence. done.
Qed.

(** The functions that resume a thread. *)
Lemma suspended_not_current k tid t : on_cpu k -> threads (sch k) !! tid = Some t -> stat_of t = RT_THREAD_SUSPEND ->
  rt_current_thread (sch k) <> Some tid.
Proof.
  intros (c & Hc & u & Hu & Hs) Ht Hst E. assert (u = t) as -> by congruence. by rewrite Hst in Hs.
Qed.

Lemma rt_thread_resume_ok lo r k tid t : good lo r k -> threads (sch k) !! tid = Some t -> th_object t = true -> r <> Some (ThreadTimer tid) ->
  exists v k', rt_thread_resume tid k = Ok (v, k') /\ good lo r k' /\ quiet k k' /\ moves (eq tid) k k' /\
    (forall x, awake x k -> awake x k') /\ (stat_of t = RT_THREAD_SUSPEND -> awake tid k') /\ same_cpu (sch k) (sch k').
Proof.
  intros [Hi Hcpu] Ht Ho Hr. unfold rt_thread_resume. erewrite run_object by done.
  destruct (Z.eqb_spec (stat_of t) RT_THREAD_SUSPEND) as [Hs|Hs]; cbn [negb].
  2: { exists (- RT_ERROR), k. by split_and!. }
  destruct (thread_timer _ _ _ _ _ Hi Ht) as (_ & tm & Htm & Hper); [by rewrite Hs|].
  destruct (stop_frame lo r (tim k) (ThreadTimer tid) tm (ki_timers _ _ _ Hi) Hr Htm) as (b & ts & tm' & Hst & Hok & Hpe & Hf & Htm' & _ & Hper').
  destruct (ready_ok lo r k tid t ts Hi Ht Hs) as (s1 & s2 & E1 & E2 & Hi' & Hm & Ha & Hsame & Hon); [by eapply suspended_not_current|done|done| | |].
  { exists tm'. by rewrite Hper'. }
  { intros d. rewrite Hpe. apply not_dropped. }
  exists RT_EOK, (MkKernel s2 ts). split.
  { erewrite run_thr by exact E1. erewrite run_tmr by exact Hst. by erewrite run_thr by exact E2. }
  split_and!; [split; [done|by apply Hon]| |exact Hm| |done|done].
  - split; [apply Hf|cbn; rewrite Hpe; apply drop_sublist|]. intros n. cbn. by apply Hf.
  - intros x Hx. destruct (decide (tid = x)) as [<-|Hne]; [done|by apply Hm].
Qed.

Lemma rt_thread_timeout_ok lo k tid t : good lo (Some (ThreadTimer tid)) k -> threads (sch k) !! tid = Some t ->
  stat_of t = RT_THREAD_SUSPEND ->
  exists k', rt_thread_timeout tid k = Ok (tt, k') /\ good lo (Some (ThreadTimer tid)) k' /\ tim k' = tim k /\
    moves (eq tid) k k' /\ awake tid k'.
Proof.
  intros [Hi Hcpu] Ht Hs. destruct (thread_timer _ _ _ _ _ Hi Ht) as (Ho & tm & Htm & Hper); [by rewrite Hs|].
  pose proof (suspended_not_current _ _ _ Hcpu Ht Hs) as Hcur.
  assert (forall d, ~ asleep tid d k) as Hns.
  { intros d Hd. apply (tok_running _ _ _ (ki_timers _ _ _ Hi) (ThreadTimer tid) eq_refl). apply pending_elem. by exists d. }
  set (t1 := t <| th_error := - RT_ETIMEOUT |>). assert (stat_of t1 = RT_THREAD_SUSPEND) as Hs1 by exact Hs. set (k1 := MkKernel (with_thread tid t1 (sch k)) (tim k)).
  destruct (inv_update lo (Some (ThreadTimer tid)) lo (Some (ThreadTimer tid)) k k1 tid t1 Hi) as [Hi1 Hm1]; try done.
  - apply change_ok; [apply Hi|exact (ri_prio _ _ (ki_ready _ _ _ Hi) _ _ Ht)|by rewrite Hs1|].
    intros u Hu. left. by assert (u = t) as -> by congruence.
  - apply Hi.
  - exact (ki_thread _ _ _ Hi tid t Ht).
  - intros ->. destruct (ki_idle _ _ _ Hi) as (u & Hu & Hw). by assert (u = t) as -> by congruence.
  - by rewrite Hs1.
  - destruct (ready_ok lo (Some (ThreadTimer tid)) k1 tid t1 (tim k) Hi1) as (s1 & s2 & E1 & E2 & Hi2 & Hm2 & Ha2 & _ & Hon);
      [cbn; by rewrite lookup_insert_eq|done|done|apply Hi|done|by exists tm|exact Hns|].
    destruct (inv_schedule _ _ _ Hi2) as (k3 & E3 & Hg3 & Et3 & Hm3 & _).
    { left. apply Hon. destruct Hcpu as (c & Hc & u & Hu & Hsu). exists c. split; [done|]. exists u. cbn.
      by rewrite lookup_insert_ne by congruence. }
    exists k3. split_and!; [|done|by rewrite Et3| |apply Hm3; [by intros []|done]].
    + unfold rt_thread_timeout. erewrite run_object by done. rewrite Hs. cbn [Z.eqb]. change (2 =? 2) with true.
      rewrite run_bind_assert, run_put. erewrite run_thr by exact E1. erewrite run_thr by exact E2. exact E3.
    + eapply moves_trans; [exact Hm1|]. eapply moves_trans; [exact Hm2|]. by apply moves_nobody.
Qed.

(** ** The timeout functions of the application *)

(** What the kernel needs of them: they return, they keep the invariant, they start no
    timer and they wake at most the threads of [woken]. *)
Class TimeoutSafe (user_timeout : Z -> M kernel unit) (woken : Z -> Z -> Prop) : Prop := {
  timeout_safe : forall n lo k, good lo (Some (UserTimer n)) k ->
    exists k', user_timeout n k = Ok (tt, k') /\ good lo (Some (UserTimer n)) k' /\ quiet k k' /\ moves (woken n) k k' /\
      (forall x, awake x k -> awake x k')
}.

(** A timeout function that resumes threads, as the release of an object does. *)
Fixpoint wake_threads (tids : list Z) : M kernel unit :=
  match tids with
  | [] => thr rt_schedule
  | x :: tids =>
      o ← gets (fun k => threads (sch k) !! x);
      (when (match o with Some t => th_object t | None => false end) do (rt_thread_resume x;; skip));;
      wake_threads tids
  end.

#[export] Instance wake_safe (wakes : Z -> list Z) : TimeoutSafe (fun n => wake_threads (wakes n)) (fun n x => x ∈ wakes n).
Proof.
  split. intros n. induction (wakes n) as [|x tids IH]; intros lo k Hg; cbn [wake_threads].
  - destruct Hg as [Hi Hc]. destruct (inv_schedule _ _ _ Hi (or_introl Hc)) as (k' & E & Hg & Et & Hm & _). exists k'.
    split_and!; [done..| | |].
    + split; by rewrite Et.
    + by apply moves_nobody.
    + intros x Hx. apply Hm; [by intros []|done].
  - rewrite run_bind_gets.
    assert (exists k1, (when (match threads (sch k) !! x with Some t => th_object t | None => false end) do (rt_thread_resume x;; skip)) k = Ok (tt, k1) /\
      good lo (Some (UserTimer n)) k1 /\ quiet k k1 /\ moves (eq x) k k1 /\ (forall y, awake y k -> awake y k1)) as (k1 & E1 & Hg1 & Hq1 & Hm1 & Ha1).
    { destruct (threads (sch k) !! x) as [t|] eqn:Ht; [|by exists k]. destruct (th_object t) eqn:Ho; [|by exists k].
      destruct (rt_thread_resume_ok lo (Some (UserTimer n)) k x t Hg Ht Ho) as (v & k1 & E & ? & ? & ? & ? & _); [done|].
      exists k1. by erewrite run_bind_ok by exact E. }
    erewrite run_bind_ok by exact E1. destruct (IH lo k1 Hg1) as (k2 & E2 & Hg2 & Hq2 & Hm2 & Ha2). exists k2.
    split_and!; [done|done|by eapply quiet_trans| |by intros y Hy%Ha1%Ha2].
    destruct Hm1 as [Hs1 _], Hm2 as [Hs2 _]. split.
    + intros y d Hy Hs. apply Hs2; [intros Hin; apply Hy, elem_of_cons; by right|]. apply Hs1; [|done].
      intros <-. apply Hy, elem_of_cons. by left.
    + intros y _ Hy. by apply Ha2, Ha1.
Qed.

(** ** The tick *)
Context (user_timeout : Z -> M kernel unit) (woken : Z -> Z -> Prop) `{!TimeoutSafe user_timeout woken}.

Lemma inv_lo lo lo' r k : kernel_inv lo r k -> timers_ok lo' r (tim k) -> kernel_inv lo' r k.
Proof. intros [] H. by split. Qed.

(** The end of a timer's run: it is started again when it is periodic. *)
Lemma timer_done_ok k id : kernel_inv (-1) (Some id) k -> (exists tm, timer_objs (tim k) !! id = Some tm) ->
  (forall tid, id = ThreadTimer tid -> exists tm, timer_objs (tim k) !! id = Some tm /\ periodic tm = false) ->
  exists ts, zoom tim (timer_done id) k = Ok (tt, MkKernel (sch k) ts) /\ kernel_inv (-1) None (MkKernel (sch k) ts) /\
    moves nobody k (MkKernel (sch k) ts) /\ rt_tick ts = rt_tick (tim k) /\ expired (pending ts) = expired (pending (tim k)).
Proof.
  intros Hi [tm Htm] Hth. pose proof (ki_timers _ _ _ Hi) as Hok.
  destruct (ended_ok _ _ _ _ Hok Htm) as [Hok1 Hp1]. set (s1 := (tim k) <| timer_objs := <[id := cleared tm]> (timer_objs (tim k)) |>) in *.
  assert (timers_frame id (tim k) s1) as Hf1.
  { split; [|by rewrite Hp1|done]. intros x Hx. cbn. by rewrite lookup_insert_ne. }
  assert (timer_objs s1 !! id = Some (cleared tm)) as Hs1 by (cbn; by rewrite lookup_insert_eq).
  assert (exists ts tm', timer_done id (tim k) = Ok (tt, ts) /\ timers_ok (-1) None ts /\ timers_frame id (tim k) ts /\
    timer_objs ts !! id = Some tm' /\ periodic tm' = periodic tm /\ tm_init_tick tm' = tm_init_tick tm /\
    expired (pending ts) = expired (pending (tim k)) /\ (periodic tm = false -> pending ts = pending (tim k))) as
    (ts & tm' & Ed & Hokt & Hft & Htm' & Hper' & Hin' & Hex & Hpt).
  { unfold timer_done. erewrite run_get_timer by exact Htm. unfold put_timer at 1. rewrite run_bind_modify. change (upd _ _ (tim k)) with s1.
    fold (periodic tm). destruct (periodic tm && has_timer_flag tm RT_TIMER_FLAG_ACTIVATED) eqn:Eb.
    - apply andb_true_iff in Eb as [Eper _]. destruct id as [tid|n].
      { destruct (Hth tid eq_refl) as (u & Hu & Hpu). congruence. }
      destruct (ki_user _ _ _ Hi n tm Htm) as [Hr1 Hr2]. specialize (Hr2 Eper).
      destruct (start_frame (-1) None s1 (UserTimer n) (cleared tm)) as (ts & tm' & E & Hokt & Hpt & Hft & Htm' & Hin' & Hper'); [lia|done|by left|done|done|].
      exists ts, tm'. split_and!; [exact E|exact Hokt|by eapply timers_frame_trans|exact Htm'|by rewrite Hper', cleared_periodic|exact Hin'| |congruence].
      rewrite Hpt, expired_insert by (cbn; lia). rewrite Hp1. unfold drop_timer. rewrite filter_all; [done|]. apply Forall_forall.
      intros [x d] Hx. cbn. intros ->. apply (tok_running _ _ _ Hok (UserTimer n) eq_refl), pending_elem. by exists d.
    - exists s1, (cleared tm). split_and!; try done; [apply cleared_periodic|by rewrite Hp1]. }
  exists ts. split; [by apply (run_tmr_last _ k)|]. split_and!; [|split; [|done]|apply Hft|exact Hex].
  - eapply inv_timers; [exact Hi|exact Hokt| | |].
    + intros x u Hu Hp. destruct (decide (ThreadTimer x = id)) as [<-|Hne]; [|exists u; by rewrite (tf_objs _ _ _ Hft)].
      exists tm'. split; [done|]. rewrite Hper'. congruence.
    + intros x d Hx. exists d. destruct (decide (ThreadTimer x = id)) as [<-|Hne]; [|by apply Hft].
      destruct (Hth x eq_refl) as (u & Hu & Hpu). unfold asleep. rewrite <- Hpt by congruence. exact Hx.
    + intros m u Hu. destruct (decide (UserTimer m = id)) as [<-|Hne].
      * assert (u = tm') as -> by congruence. unfold user_timer_ok. rewrite Hin', Hper'. by eapply (ki_user _ _ _ Hi).
      * rewrite (tf_objs _ _ _ Hft) in Hu by done. by eapply (ki_user _ _ _ Hi).
  - intros x d _ Hx. destruct (decide (ThreadTimer x = id)) as [<-|Hne]; [|by apply Hft].
    exfalso. apply (tok_running _ _ _ Hok (ThreadTimer x) eq_refl), pending_elem. by exists d.
Qed.

(** What a check of the timers does to the threads that no timeout function of the
    application wakes: they sleep on or, at the end of their sleep, can run. *)
Record settles (k k' : kernel) : Prop := {
  se_tick : rt_tick (tim k') = rt_tick (tim k);
  se_awake : forall x, awake x k -> awake x k';
  se_asleep : forall x d, (forall n, ~ woken n x) -> asleep x d k -> asleep x d k' \/ (d <= 0 /\ awake x k')
}.

Lemma settles_refl k : settles k k.
Proof. split; [done|done|]. intros x d _ Hx. by left. Qed.

Lemma settles_trans k k1 k2 : settles k k1 -> settles k1 k2 -> settles k k2.
Proof.
  intros [] []. split; [congruence|naive_solver|]. intros x d Hw Hx.
  destruct (se_asleep0 x d Hw Hx) as [H|[H1 H2]]; [by apply se_asleep1|right; by split; [|apply se_awake1]].
Qed.

Lemma head_pending s id l : rt_timer_list s = id :: l -> pending s = (id, due s id) :: map (fun x => (x, due s x)) l.
Proof. intros E. unfold pending. by rewrite E. Qed.

(** The timeout function of a timer that has been taken off the list. *)
Lemma timeout_func_ok k id : good (-1) (Some id) k ->
  (forall tid, id = ThreadTimer tid -> has_stat tid RT_THREAD_SUSPEND k) ->
  exists k', timeout_func user_timeout id k = Ok (tt, k') /\ good (-1) (Some id) k' /\ quiet k k' /\
    (forall x, awake x k -> awake x k') /\
    (forall x d, id <> ThreadTimer x -> (forall n, ~ woken n x) -> asleep x d k -> asleep x d k') /\
    (forall x, id = ThreadTimer x -> awake x k' /\ tim k' = tim k) /\
    (forall n, id = UserTimer n -> timer_objs (tim k') !! id = timer_objs (tim k) !! id).
Proof.
  intros Hg Hth. destruct id as [tid|n]; cbn [timeout_func].
  - destruct (Hth tid eq_refl) as (t & Ht & Hs).
    destruct (rt_thread_timeout_ok _ _ _ _ Hg Ht Hs) as (k' & E & Hg' & Et & Hm & Ha). exists k'.
    split_and!; [exact E|exact Hg'|split; by rewrite Et| | | |done].
    + intros x Hx. destruct (decide (tid = x)) as [<-|]; [done|by apply Hm].
    + intros x d Hne _ Hx. apply Hm; [congruence|done].
    + intros x [= <-]. done.
  - destruct (timeout_safe n (-1) k Hg) as (k' & E & Hg' & Hq & Hm & Ha). exists k'.
    split_and!; [exact E|exact Hg'|exact Hq|exact Ha| |done|].
    + intros x d _ Hw Hx. by apply Hm.
    + intros m [= <-]. apply Hq.
Qed.

Lemma check_step {B} (F : Z -> M kernel B) k id l : good (-1) None k -> rt_timer_list (tim k) = id :: l -> due (tim k) id <= 0 ->
  exists k', (zoom tim (_rt_timer_remove id);; timeout_func user_timeout id;;
      current_tick ← gets (fun s => rt_tick (tim s)); zoom tim (timer_done id);; F current_tick) k = F (rt_tick (tim k)) k' /\
    good (-1) None k' /\ settles k k' /\ (expired (pending (tim k')) < expired (pending (tim k)))%nat.
Proof.
  intros [Hi Hcpu] El Hd. pose proof (ki_timers _ _ _ Hi) as Hok. destruct (taken_ok _ _ _ _ Hok El) as [Hok0 Ef].
  set (ts0 := (tim k) <| rt_timer_list := filter (fun x => x <> id) (rt_timer_list (tim k)) |>) in *.
  set (k0 := MkKernel (sch k) ts0).
  assert (pending (tim k) = (id, due (tim k) id) :: pending ts0) as Hp.
  { rewrite (head_pending _ _ _ El). f_equal. unfold pending, ts0. cbn. by rewrite Ef. }
  assert (exists tm, timer_objs (tim k) !! id = Some tm) as [tm Htm].
  { pose proof (tok_active _ _ _ Hok) as Ha. rewrite El in Ha. apply Forall_inv in Ha as (t & Ht & _). by exists t. }
  assert (forall x d, asleep x d k -> (id = ThreadTimer x /\ d = due (tim k) id) \/ asleep x d k0) as Hsl.
  { intros x d Hx. unfold asleep in Hx. rewrite Hp in Hx. apply elem_of_cons in Hx as [[= <- <-]|Hx]; [by left|by right]. }
  assert (kernel_inv (-1) (Some id) k0) as Hi0.
  { eapply inv_timers; [exact Hi|exact Hok0|by eauto| |apply Hi]. intros x d Hx. exists d. unfold asleep. rewrite Hp. apply elem_of_cons. by right. }
  assert (forall tid, id = ThreadTimer tid -> has_stat tid RT_THREAD_SUSPEND k0) as Hsusp.
  { intros tid ->. apply (ki_asleep _ _ _ Hi tid (due (tim k) (ThreadTimer tid))). unfold asleep. rewrite Hp. apply elem_of_cons. by left. }
  destruct (timeout_func_ok k0 id (conj Hi0 Hcpu) Hsusp) as (k1 & E1 & [Hi1 Hc1] & Hq1 & Ha1 & Hs1 & Hth1 & Hu1).
  destruct (timer_done_ok k1 id Hi1) as (ts2 & E2 & Hi2 & Hm2 & Ht2 & Hx2).
  { destruct id as [tid|n]; exists tm; [by rewrite (proj2 (Hth1 tid eq_refl))|by rewrite (Hu1 n eq_refl)]. }
  { intros tid ->. rewrite (proj2 (Hth1 tid eq_refl)). destruct (Hsusp tid eq_refl) as (t & Ht & Hst).
    destruct (thread_timer _ _ _ _ _ Hi0 Ht) as (_ & u); [by rewrite Hst|done]. }
  exists (MkKernel (sch k1) ts2). split_and!.
  - assert (zoom tim (_rt_timer_remove id) k = Ok (tt, k0)) as E0 by done. erewrite run_bind_ok by exact E0. cbv beta.
    erewrite run_bind_ok by exact E1. rewrite run_bind_gets. erewrite run_bind_ok by exact E2. by rewrite (qt_tick _ _ Hq1).
  - by split.
  - split; [by cbn; rewrite Ht2, (qt_tick _ _ Hq1)| |].
    + intros x Hx. eapply nobody_awake; [exact Hm2|]. by apply Ha1.
    + intros x d Hw Hx. destruct (Hsl x d Hx) as [[-> ->]|Hx0].
      * right. split; [done|]. eapply nobody_awake; [exact Hm2|]. by apply Hth1.
      * left. eapply nobody_asleep; [exact Hm2|]. destruct (decide (id = ThreadTimer x)) as [->|Hne]; [|by apply Hs1].
        unfold asleep. by rewrite (proj2 (Hth1 x eq_refl)).
  - cbn [tim]. rewrite Hx2. assert (expired (pending (tim k)) = S (expired (pending ts0))) as ->.
    { rewrite Hp. unfold expired. by rewrite filter_cons_True by done. }
    pose proof (expired_sublist _ _ (qt_pending _ _ Hq1)) as H. change (tim k0) with ts0 in H. lia.
Qed.

Lemma rt_timer_check_ok k : good (-1) None k -> forall fuel, (expired (pending (tim k)) < fuel)%nat ->
  exists k', rt_timer_check tim (timeout_func user_timeout) fuel k = Ok (tt, k') /\ good 1 None k' /\ settles k k'.
Proof.
  intros Hg fuel. unfold rt_timer_check. rewrite run_bind_gets. revert k Hg.
  induction fuel as [|fuel IH]; intros k Hg Hf; [lia|]. cbn [timer_check_loop]. rewrite run_bind_gets.
  destruct Hg as [Hi Hcpu]. pose proof (ki_timers _ _ _ Hi) as Hok.
  assert (forall k', k' = k -> Forall (fun x => 1 <= x.2) (pending (tim k)) -> good 1 None k') as Hend.
  { intros k' -> Hp. split; [|done]. eapply inv_lo; [exact Hi|]. pose proof Hok as [? Hr ? ? ? ?]. split; try done.
    eapply Forall_impl; [exact (proj2 (Forall_and _ _) (conj Hp Hr))|]. cbn. lia. }
  destruct (rt_timer_list (tim k)) as [|id l] eqn:El.
  { exists k. split_and!; [done| |apply settles_refl]. apply Hend; [done|]. unfold pending. by rewrite El. }
  assert (exists tm, timer_objs (tim k) !! id = Some tm) as [tm Htm].
  { pose proof (tok_active _ _ _ Hok) as Ha. rewrite El in Ha. apply Forall_inv in Ha as (t & Ht & _). by exists t. }
  assert (zoom tim (get_timer id) k = Ok (tm, k)) as E0.
  { unfold zoom, get_timer. rewrite run_bind_gets, Htm. by destruct k. }
  erewrite run_bind_ok by exact E0. cbv beta. pose proof (head_pending _ _ _ El) as Hp.
  pose proof (tok_range _ _ _ Hok) as Hr. rewrite Hp in Hr. apply Forall_inv in Hr. cbn in Hr.
  assert (due (tim k) id = s32 (timeout_tick tm - rt_tick (tim k))) as Ed by (unfold due; by rewrite Htm).
  fold half. rewrite expired_test by lia. rewrite <- Ed. destruct (Z.leb_spec (due (tim k) id) 0) as [Hd|Hd].
  - destruct (check_step (timer_check_loop tim (timeout_func user_timeout) fuel) k id l (conj Hi Hcpu) El Hd) as (k1 & E1 & Hg1 & Hs1 & Hx1).
    rewrite E1, <- (se_tick _ _ Hs1). destruct (IH k1 Hg1) as (k2 & E2 & Hg2 & Hs2); [lia|].
    exists k2. split_and!; [done|done|by eapply settles_trans].
  - exists k. split_and!; [done| |apply settles_refl]. apply Hend; [done|].
    pose proof (tok_sorted _ _ _ Hok) as Hso. rewrite Hp in Hso |- *. apply StronglySorted_inv in Hso as [_ Hall].
    constructor; [cbn; lia|]. eapply Forall_impl; [exact Hall|]. cbn. lia.
Qed.

Lemma elem_later x d q : (x, d) ∈ later q <-> (x, d + 1) ∈ q.
Proof.
  unfold later. rewrite list_elem_of_fmap. split.
  - intros ([y e] & [= -> ->] & H). by replace (e - 1 + 1) with e by lia.
  - intros H. exists (x, d + 1). split; [cbn; f_equal; lia|done].
Qed.

(** The running thread's time slice. *)
Lemma change_running lo r k c t t' : kernel_inv lo r k -> threads (sch k) !! c = Some t -> stat_of t = RT_THREAD_RUNNING ->
  stat_of t' = RT_THREAD_RUNNING -> well_placed t' -> thread_ok (tim k) c t' ->
  let k' := MkKernel (with_thread c t' (sch k)) (tim k) in kernel_inv lo r k' /\ moves nobody k k' /\ on_cpu k'.
Proof.
  intros Hi Ht Hs Hs' Hw Hok k'. pose proof (running_current _ _ _ _ _ Hi Ht Hs) as Hc.
  assert (runnable t') as Hr by by right.
  destruct (inv_update lo r lo r k k' c t' Hi) as [Hi' [Hm1 Hm2]]; try done.
  - apply change_ok; [apply Hi|done|by rewrite Hs'|]. intros u Hu. left. congruence.
  - apply Hi.
  - by rewrite Hs'.
  - intros d Hd. exfalso. destruct (ki_asleep _ _ _ Hi c d Hd) as (u & Hu & Hsu). assert (u = t) as -> by congruence. by rewrite Hs in Hsu.
  - split_and!; [done| |exists c; split; [done|]; exists t'; split; [cbn; by rewrite lookup_insert_eq|done]].
    split; [done|]. intros x _ (u & Hu & Hw'). unfold awake. cbn. destruct (decide (c = x)) as [->|Hne].
    + exists t'. by rewrite lookup_insert_eq.
    + exists u. by rewrite lookup_insert_ne.
Qed.

Lemma rt_tick_increase_ok k fuel : kernel_ok k -> (length (rt_timer_list (tim k)) < fuel)%nat ->
  exists k', rt_tick_increase user_timeout fuel k = Ok (tt, k') /\ good 1 None k' /\ rt_tick (tim k') = u32 (rt_tick (tim k) + 1) /\
    (forall x, awake x k -> awake x k') /\
    (forall x d, (forall n, ~ woken n x) -> asleep x d k -> if 1 <? d then asleep x (d - 1) k' else awake x k').
Proof.
  intros [Hi Hcpu] Hf. destruct (advance_ok _ (ki_timers _ _ _ Hi)) as [Hok1 Hp1]. set (ts1 := (tim k) <| rt_tick := _ |>) in *.
  assert (kernel_inv (-1) None (MkKernel (sch k) ts1)) as Hi1.
  { eapply inv_timers; [exact Hi|exact Hok1|by eauto| |apply Hi]. intros x d. rewrite Hp1, elem_later. by exists (d + 1). }
  set (k1 := MkKernel (sch k) ts1) in *. destruct Hcpu as (c & Hc & t & Ht & Hs).
  set (t2 := t <| th_remaining_tick := u32 (th_remaining_tick t - 1) |>).
  pose proof (ri_prio _ _ (ki_ready _ _ _ Hi) _ _ Ht) as Hw.
  destruct (change_running (-1) None k1 c t t2 Hi1 Ht Hs Hs Hw (ki_thread _ _ _ Hi1 c t Ht)) as (Hi2 & Hm2 & Hc2).
  set (k2 := MkKernel (with_thread c t2 (sch k1)) (tim k1)) in *.
  assert (threads (sch k2) !! c = Some t2) as Ht2 by (cbn; by rewrite lookup_insert_eq).
  assert (exists k3, (when u32 (th_remaining_tick t - 1) =? 0 do
        (t ← thr (get_thread c); thr (put_thread c (t <| th_remaining_tick := th_init_tick t |>));; rt_thread_yield)) k2 = Ok (tt, k3) /\
      good (-1) None k3 /\ tim k3 = ts1 /\ moves nobody k2 k3) as (k3 & E3 & Hg3 & Et3 & Hm3).
  { destruct (u32 (th_remaining_tick t - 1) =? 0); [|by exists k2]. erewrite run_get by exact Ht2. rewrite run_put.
    set (t3 := t2 <| th_remaining_tick := th_init_tick t2 |>).
    destruct (change_running (-1) None k2 c t2 t3 Hi2 Ht2 Hs Hs Hw (ki_thread _ _ _ Hi1 c t Ht)) as (Hi3 & Hm3 & Hc3).
    destruct (inv_schedule _ _ _ Hi3 (or_introl Hc3)) as (k4 & E4 & Hg4 & Et4 & Hm4 & _). exists k4.
    split_and!; [unfold rt_thread_yield; exact E4|done|by rewrite Et4|by eapply moves_trans]. }
  destruct (rt_timer_check_ok k3 Hg3 fuel) as (k4 & E4 & Hg4 & Hs4).
  { rewrite Et3, Hp1. unfold expired. eapply Nat.le_lt_trans; [apply length_filter|]. unfold later. rewrite length_map. unfold pending. by rewrite length_map. }
  exists k4. split_and!; [|done|by rewrite (se_tick _ _ Hs4), Et3| |].
  - unfold rt_tick_increase. erewrite run_tmr by done. change (MkKernel (sch k) _) with k1. rewrite run_self.
    change (rt_current_thread (sch k1)) with (rt_current_thread (sch k)). rewrite Hc. cbv beta iota. erewrite run_get by exact Ht. cbv zeta.
    rewrite run_put. change (MkKernel _ (tim k1)) with k2. by erewrite run_bind_ok by exact E3.
  - intros x Hx. apply Hs4. eapply nobody_awake; [exact Hm3|]. eapply nobody_awake; [exact Hm2|]. exact Hx.
  - intros x d Hw' Hx. assert (asleep x (d - 1) k3) as Hx3.
    { unfold asleep. rewrite Et3, Hp1. apply elem_later. by replace (d - 1 + 1) with d by lia. }
    destruct (se_asleep _ _ Hs4 x (d - 1) Hw' Hx3) as [H|[H1 H2]].
    + destruct (Z.ltb_spec 1 d); [done|]. exfalso. pose proof (tok_range _ _ _ (ki_timers _ _ _ (proj1 Hg4))) as Hr.
      rewrite Forall_forall in Hr. specialize (Hr _ H). cbn in Hr. lia.
    + by rewrite (proj2 (Z.ltb_ge 1 d)) by lia.
Qed.

(** ** The operations of threads *)
Definition steps {A} (X : Z -> Prop) (m : M kernel A) (k : kernel) : Prop :=
  exists v k', m k = Ok (v, k') /\ kernel_ok k' /\ moves X k k'.

Lemma kernel_current k : kernel_ok k -> exists c t, rt_current_thread (sch k) = Some c /\ threads (sch k) !! c = Some t /\
  stat_of t = RT_THREAD_RUNNING.
Proof. intros [_ (c & Hc & t & Ht & Hs)]. by exists c, t. Qed.

Lemma current_object lo r k c t : kernel_inv lo r k -> threads (sch k) !! c = Some t -> stat_of t = RT_THREAD_RUNNING -> th_object t = true.
Proof. intros Hi Ht Hs. apply (thread_timer _ _ _ _ _ Hi Ht). by rewrite Hs. Qed.

(** The end of an operation in which another thread may come to run. *)
Lemma finish_schedule X k k1 : kernel_inv 0 None k1 -> on_cpu k1 \/ rt_scheduler_lock_nest (sch k1) = 0 -> moves X k k1 ->
  exists k', thr rt_schedule k1 = Ok (tt, k') /\ kernel_ok k' /\ moves X k k' /\ tim k' = tim k1.
Proof.
  intros Hi Hc Hm. destruct (inv_schedule _ _ _ Hi Hc) as (k' & E & Hg & Et & Hm' & _). exists k'.
  split_and!; [done|done| |done]. eapply moves_trans; [exact Hm|]. by apply moves_nobody.
Qed.

Lemma rt_thread_yield_steps k : kernel_ok k -> steps nobody rt_thread_yield k.
Proof.
  intros [Hi Hc]. destruct (finish_schedule nobody k k Hi (or_introl Hc)) as (k' & E & Hk & Hm & _); [done|]. by exists tt, k'.
Qed.

Lemma run_current {B} c (f : Z -> M kernel B) k : rt_current_thread (sch k) = Some c -> (current_thread ≫= f) k = f c k.
Proof. intros H. unfold current_thread. by rewrite run_bind_bind, run_self, H. Qed.

Lemma rt_thread_sleep_ok k c n : kernel_ok k -> rt_current_thread (sch k) = Some c -> c <> idle ->
  rt_scheduler_lock_nest (sch k) = 0 -> 0 <= n < half ->
  exists k', rt_thread_sleep n k = Ok (tt, k') /\ kernel_ok k' /\ moves (eq c) k k' /\ asleep c n k'.
Proof.
  intros Hk Hc Hid Hn0 Hn. destruct (kernel_current k Hk) as (c' & t & Hc' & Ht & Hs). assert (c' = c) as -> by congruence.
  destruct Hk as [Hi Hcpu]. pose proof (current_object _ _ _ _ _ Hi Ht Hs) as Ho.
  destruct (suspend_ok 0 k c t Hi Ht (or_intror Hs) Hid) as (k1 & E1 & Hi1 & Hm1 & Hsame & Ht1 & _).
  destruct (sleep_timer_ok k1 c _ n Hi1 Ht1) as (k2 & k3 & E2 & E3 & Hi3 & Hm3 & Es & Ha & _); [by apply stat_of_with|done|].
  destruct (finish_schedule (eq c) k k3 Hi3) as (k4 & E4 & Hk4 & Hm4 & Et4); [right; rewrite Es, (proj2 Hsame); done|by eapply moves_trans|].
  exists k4. split_and!; [|done|done|by unfold asleep; rewrite Et4].
  unfold rt_thread_sleep. erewrite run_current by exact Hc. erewrite run_object by done.
  erewrite run_bind_ok by exact E1. erewrite run_bind_ok by exact E2. erewrite run_bind_ok by exact E3. exact E4.
Qed.

(** The wait list takes a suspended thread. *)
Lemma wait_list_ok lo k tid t obj : kernel_inv lo None k -> threads (sch k) !! tid = Some t -> stat_of t = RT_THREAD_SUSPEND ->
  let k' := MkKernel ((sch k) <| wait_lists := <[obj := default [] (wait_lists (sch k) !! obj) ++ [tid]]> (wait_lists (sch k)) |>) (tim k) in
  kernel_inv lo None k'.
Proof.
  intros Hi Ht Hs k'. pose proof Hi as []. split; try done.
  by eapply wait_ok.
Qed.

Lemma wait_for_ok k c obj time : kernel_ok k -> rt_current_thread (sch k) = Some c -> c <> idle ->
  rt_scheduler_lock_nest (sch k) = 0 -> time < half ->
  exists k', wait_for obj time k = Ok (tt, k') /\ kernel_ok k' /\ moves (eq c) k k'.
Proof.
  intros Hk Hc Hid Hn0 Hn. destruct (kernel_current k Hk) as (c' & t & Hc' & Ht & Hs). assert (c' = c) as -> by congruence.
  destruct Hk as [Hi Hcpu]. set (t0 := t <| th_error := RT_EOK |>).
  destruct (change_running 0 None k c t t0 Hi Ht Hs Hs) as (Hi0 & Hm0 & Hcpu0);
    [exact (ri_prio _ _ (ki_ready _ _ _ Hi) _ _ Ht)|exact (ki_thread _ _ _ Hi c t Ht)|].
  set (k0 := MkKernel (with_thread c t0 (sch k)) (tim k)) in *.
  assert (threads (sch k0) !! c = Some t0) as Ht0 by (cbn; by rewrite lookup_insert_eq).
  destruct (suspend_ok 0 k0 c t0 Hi0 Ht0 (or_intror Hs) Hid) as (k1 & E1 & Hi1 & Hm1 & Hsame & Ht1 & _).
  pose proof (wait_list_ok _ _ _ _ obj Hi1 Ht1 (stat_of_with 2 t0 ltac:(done))) as Hi2. cbv zeta in Hi2. set (k2 := MkKernel (_ <| wait_lists := _ |>) (tim k1)) in *.
  assert (exists k3, (when 0 <? time do (tmr (rt_timer_control (ThreadTimer c) (RT_TIMER_CTRL_SET_TIME time));;
     tmr (rt_timer_start (ThreadTimer c)))) k2 = Ok (tt, k3) /\ kernel_inv 0 None k3 /\ moves (eq c) k2 k3 /\ sch k3 = sch k2) as (k3 & E3 & Hi3 & Hm3 & Es).
  { destruct (Z.ltb_spec 0 time); [|by exists k2].
    destruct (sleep_timer_ok k2 c _ time Hi2 Ht1) as (k3 & k4 & E3 & E4 & Hi4 & Hm4 & Es & _); [by apply stat_of_with|lia|].
    exists k4. split_and!; try done. by erewrite run_bind_ok by exact E3. }
  destruct (finish_schedule (eq c) k k3 Hi3) as (k4 & E4 & Hk4 & Hm4 & _).
  - right. rewrite Es. change (rt_scheduler_lock_nest (sch k2)) with (rt_scheduler_lock_nest (sch k1)). by rewrite (proj2 Hsame).
  - eapply moves_trans; [by apply moves_nobody|]. eapply moves_trans; [exact Hm1|]. by eapply moves_trans; [|exact Hm3].
  - exists k4. split_and!; [|done|done]. unfold wait_for. erewrite run_current by exact Hc. erewrite run_get by exact Ht. rewrite run_put.
    change (MkKernel _ (tim k)) with k0. erewrite run_bind_ok by exact E1. erewrite run_thr by done. change (MkKernel _ (tim k1)) with k2.
    by erewrite run_bind_ok by exact E3.
Qed.

Lemma rt_thread_resume_steps k tid t : kernel_ok k -> threads (sch k) !! tid = Some t -> th_object t = true ->
  steps (eq tid) (rt_thread_resume tid) k.
Proof.
  intros Hk Ht Ho. destruct (rt_thread_resume_ok 0 None k tid t Hk Ht Ho) as (v & k' & E & Hg & _ & Hm & _); [done|].
  by exists v, k'.
Qed.

(** A thread that is not RUNNING is suspended by another. *)
Lemma rt_thread_suspend_steps k tid t : kernel_ok k -> threads (sch k) !! tid = Some t -> th_object t = true ->
  stat_of t <> RT_THREAD_RUNNING -> tid <> idle -> steps (eq tid) (rt_thread_suspend tid) k.
Proof.
  intros Hk Ht Ho Hs Hid. pose proof Hk as [Hi (c & Hc & u & Hu & Hsu)]. destruct (decide (stat_of t = RT_THREAD_READY)) as [Hr|Hr].
  - destruct (suspend_ok 0 k tid t Hi Ht (or_introl Hr) Hid) as (k' & E & Hi' & Hm & Hsame & _). exists RT_EOK, k'.
    split_and!; [done| |done]. split; [done|]. exists c. split; [by rewrite (proj1 Hsame)|].
    destruct (mv_awake _ _ _ Hm c) as (v & Hv & Hw); [intros ->; congruence|exists u; by split; [|right]|].
    exists v. split; [done|]. destruct Hw as [Hw|]; [|done]. exfalso.
    destruct (current_not_ready _ _ _ _ _ Hi' Hv) as [Hnr _]; [by rewrite (proj1 Hsame)|by apply Hnr].
  - exists (- RT_ERROR), k. split_and!; [|done|done]. unfold rt_thread_suspend. erewrite run_object by done. cbv zeta.
    rewrite (proj2 (Z.eqb_neq (stat_of t) RT_THREAD_READY) Hr), (proj2 (Z.eqb_neq (stat_of t) RT_THREAD_RUNNING) Hs). done.
Qed.

(** The current thread still runs when another changes. *)
Lemma on_cpu_other k k' tid t' : on_cpu k -> same_cpu (sch k) (sch k') -> threads (sch k') = <[tid := t']> (threads (sch k)) ->
  rt_current_thread (sch k) <> Some tid -> on_cpu k'.
Proof.
  intros (c & Hc & t & Ht & Hs) [Hcc _] Eth Hne. exists c. split; [by rewrite Hcc|]. exists t. split; [|done].
  rewrite Eth, lookup_insert_ne; [done|congruence].
Qed.

Lemma current_exists k : on_cpu k -> forall x, threads (sch k) !! x = None -> rt_current_thread (sch k) <> Some x.
Proof. intros (c & Hc & t & Ht & _) x Hx. congruence. Qed.

Lemma not_listed lo r k x : kernel_inv lo r k -> (forall t, threads (sch k) !! x = Some t -> stat_of t <> RT_THREAD_SUSPEND) ->
  forall d, ~ asleep x d k.
Proof. intros Hi Hx d Hd. destruct (ki_asleep _ _ _ Hi x d Hd) as (t & Ht & Hs). by apply (Hx t). Qed.

Lemma rt_thread_init_ok k tid static priority tick : kernel_ok k -> threads (sch k) !! tid = None ->
  timer_objs (tim k) !! ThreadTimer tid = None -> 0 <= priority < RT_THREAD_PRIORITY_MAX ->
  steps (eq tid) (rt_thread_init tid static priority tick) k.
Proof.
  intros [Hi Hcpu] Hno Htm Hp. pose proof (current_exists k Hcpu tid Hno) as Hcur.
  destruct (rt_timer_init_ok 0 None (tim k) (ThreadTimer tid) 0 0 (ki_timers _ _ _ Hi) Htm) as (ts & Et & Hok & Hpe & Hf & Ho).
  set (t := MkThr RT_THREAD_INIT priority priority 0 tick tick RT_EOK true static false).
  set (k' := MkKernel (with_thread tid t (sch k)) ts).
  destruct (inv_update 0 None 0 None k k' tid t Hi) as [Hi' Hm]; try done.
  - apply change_ok; [apply Hi|split; [done|intros H; by cbv in H]|done|]. intros u Hu. congruence.
  - split; [done|]. intros _. split; [done|]. by eexists.
  - intros ->. destruct (ki_idle _ _ _ Hi) as (u & Hu & _). congruence.
  - intros d Hd. unfold asleep in Hd. cbn in Hd. rewrite Hpe in Hd. exfalso. eapply not_listed; [exact Hi| |exact Hd]. intros u Hu. congruence.
  - exists tt, k'. split_and!; [|split; [done|by eapply on_cpu_other]|done].
    unfold rt_thread_init. rewrite (proj2 (Z.ltb_lt _ _)) by lia. rewrite run_bind_assert, run_put.
    exact (run_tmr_last _ (MkKernel (with_thread tid t (sch k)) (tim k)) _ _ Et).
Qed.

Lemma u32_pow p : 0 <= p < RT_THREAD_PRIORITY_MAX -> u32 (1 ≪ p) = 1 ≪ p.
Proof.
  intros Hp. rewrite Z.shiftl_1_l. apply u32_small. split; [by apply Z.pow_nonneg|].
  change 4294967296 with (2 ^ 32). apply Z.pow_lt_mono_r; unfold RT_THREAD_PRIORITY_MAX in Hp; lia.
Qed.

Lemma rt_thread_startup_ok k tid t : kernel_ok k -> threads (sch k) !! tid = Some t -> stat_of t = RT_THREAD_INIT ->
  steps (eq tid) (rt_thread_startup tid) k.
Proof.
  intros [Hi Hcpu] Ht Hs. destruct (thread_timer _ _ _ _ _ Hi Ht) as (Ho & tm & Htm & Hper); [by rewrite Hs|].
  pose proof (proj1 (ki_thread _ _ _ Hi tid t Ht)) as Hp.
  assert (rt_current_thread (sch k) <> Some tid) as Hcur.
  { intros Hc. by destruct (current_not_ready _ _ _ _ _ Hi Ht Hc). }
  set (t1 := t <| th_priority := th_init_priority t |> <| th_number_mask := u32 (1 ≪ th_init_priority t) |> <| th_stat := RT_THREAD_SUSPEND |>).
  set (k1 := MkKernel (with_thread tid t1 (sch k)) (tim k)).
  destruct (inv_update 0 None 0 None k k1 tid t1 Hi) as [Hi1 Hm1]; try done.
  - apply change_ok; [apply Hi|split; [exact Hp|intros _; by apply u32_pow]|done|]. intros u Hu. right; left. congruence.
  - apply Hi.
  - split; [done|]. intros _. split; [done|by exists tm].
  - intros ->. destruct (ki_idle _ _ _ Hi) as (u & Hu & [Hw|Hw]); assert (u = t) as -> by congruence; by rewrite Hs in Hw.
  - assert (threads (sch k1) !! tid = Some t1) as Ht1 by (cbn; by rewrite lookup_insert_eq).
    assert (on_cpu k1) as Hcpu1 by by eapply on_cpu_other.
    destruct (rt_thread_resume_ok 0 None k1 tid t1 (conj Hi1 Hcpu1) Ht1 Ho) as (v & k2 & E2 & [Hi2 Hcpu2] & _ & Hm2 & _); [done|].
    destruct (finish_schedule (eq tid) k k2 Hi2 (or_introl Hcpu2)) as (k3 & E3 & Hk3 & Hm3 & _); [by eapply moves_trans|].
    exists RT_EOK, k3. split_and!; [|done|done]. unfold rt_thread_startup. erewrite run_object by done. rewrite Hs.
    change (RT_THREAD_INIT =? RT_THREAD_INIT) with true. rewrite run_bind_assert, run_put. fold t1. change (MkKernel _ (tim k)) with k1.
    erewrite run_bind_ok by exact E2. rewrite run_self. destruct Hcpu2 as (c & Hc & _). rewrite Hc, bool_decide_true by done.
    by erewrite run_bind_ok by exact E3.
Qed.

Lemma rt_thread_change_priority_ok k tid t p : kernel_ok k -> threads (sch k) !! tid = Some t -> th_object t = true ->
  0 <= p < RT_THREAD_PRIORITY_MAX -> steps nobody (rt_thread_change_priority tid p) k.
Proof.
  intros [Hi Hcpu] Ht Ho Hp. pose proof (ri_prio _ _ (ki_ready _ _ _ Hi) _ _ Ht) as [Hpt Hmt].
  set (t1 := t <| th_priority := p |> <| th_number_mask := u32 (1 ≪ p) |>).
  assert (well_placed t1) as Hw1 by (split; [exact Hp|intros _; by apply u32_pow]).
  assert (forall s', threads s' !! tid = Some t -> set_priority tid p (MkKernel s' (tim k)) =
    Ok (tt, MkKernel (with_thread tid t1 s') (tim k))) as Hch.
  { intros s' Hs'. unfold set_priority. by erewrite run_get by exact Hs'. }
  unfold steps, rt_thread_change_priority. erewrite run_object by done. destruct (Z.eqb_spec (stat_of t) RT_THREAD_READY) as [Hr|Hr].
  - assert (has_mask t = true) as Hmask by (unfold has_mask; by rewrite Hr).
    assert (rt_current_thread (sch k) <> Some tid) as Hcur. { intros Hc. by destruct (current_not_ready _ _ _ _ _ Hi Ht Hc). }
    destruct (take_out_ok tid t (sch k) (ki_ready _ _ _ Hi) Ht Hmask) as (s1 & E1 & Hi1 & Eth & Hsame).
    destruct (rt_schedule_insert_ok tid t1 (with_thread tid t1 s1)) as (l & g & _ & E3 & Hi3).
    { by apply ready_inv_put. } { cbn. by rewrite lookup_insert_eq. } { by apply u32_pow. } { cbn. by rewrite (proj1 Hsame). }
    set (s3 := _ <| rt_thread_ready_priority_group := g |>) in *. set (t3 := with_stat RT_THREAD_READY t1) in *.
    assert (stat_of t3 = RT_THREAD_READY) as Et3 by by apply stat_of_with.
    assert (threads s3 = <[tid := t3]> (threads (sch k))) as Eth3 by (unfold s3; cbn; by rewrite insert_insert_eq, Eth).
    assert (same_cpu (sch k) s3) as Hsame3 by exact Hsame.
    destruct (inv_update 0 None 0 None k (MkKernel s3 (tim k)) tid t3 Hi) as [Hi' [Hm1 Hm2]]; try done.
    + apply Hi.
    + split; [by apply (ki_thread _ _ _ Hi tid t Ht)|]. intros _. by apply (thread_timer _ _ _ _ _ Hi Ht); rewrite Hr.
    + intros _. by left.
    + by rewrite Et3.
    + intros d Hd. exfalso. eapply not_listed; [exact Hi| |exact Hd]. intros u Hu. assert (u = t) as -> by congruence. by rewrite Hr.
    + exists tt, (MkKernel s3 (tim k)). split_and!; [|split; [done|by eapply on_cpu_other]|].
      * erewrite run_thr by exact E1. erewrite run_bind_ok by (apply Hch; by rewrite Eth).
        exact (run_thr_last _ (MkKernel (with_thread tid t1 s1) (tim k)) _ _ E3).
      * split; [done|]. intros x _ (u & Hu & Hw). unfold awake. cbn [sch]. rewrite Eth3. destruct (decide (tid = x)) as [->|Hne].
        -- exists t3. rewrite lookup_insert_eq. split; [done|by left].
        -- exists u. by rewrite lookup_insert_ne.
  - destruct (inv_update 0 None 0 None k (MkKernel (with_thread tid t1 (sch k)) (tim k)) tid t1 Hi) as [Hi' [Hm1 Hm2]]; try done.
    + apply change_ok; [apply Hi|done|exact Hr|]. intros u Hu. left. by assert (u = t) as -> by congruence.
    + apply Hi.
    + exact (ki_thread _ _ _ Hi tid t Ht).
    + intros ->. destruct (ki_idle _ _ _ Hi) as (u & Hu & Hw). by assert (u = t) as -> by congruence.
    + intros Hc. exact (current_not_ready _ _ _ _ _ Hi Ht Hc).
    + intros Hs. by eapply running_current.
    + intros d Hd. destruct (ki_asleep _ _ _ Hi tid d Hd) as (u & Hu & Hsu). by assert (u = t) as -> by congruence.
    + exists tt, (MkKernel (with_thread tid t1 (sch k)) (tim k)). split_and!; [apply Hch, Ht| |].
      * split; [done|]. destruct Hcpu as (c & Hc & u & Hu & Hsu). exists c. split; [done|]. cbn. destruct (decide (tid = c)) as [->|Hne].
        -- exists t1. rewrite lookup_insert_eq. split; [done|]. by assert (u = t) as -> by congruence.
        -- exists u. by rewrite lookup_insert_ne.
      * split; [done|]. intros x _ (u & Hu & Hw). unfold awake. cbn. destruct (decide (tid = x)) as [->|Hne].
        -- exists t1. rewrite lookup_insert_eq. split; [done|]. by assert (u = t) as -> by congruence.
        -- exists u. by rewrite lookup_insert_ne.
Qed.

(** ** The end of a thread *)

(** A thread that is out of all lists and whose timer is gone. *)
Lemma closed_ok lo k tid t s1 ts : kernel_inv lo None k -> threads (sch k) !! tid = Some t -> tid <> idle ->
  ready_inv nobody (with_thread tid (t <| th_stat := RT_THREAD_CLOSE |>) s1) -> threads s1 = threads (sch k) -> same_cpu (sch k) s1 ->
  timers_ok lo None ts -> pending ts = drop_timer (ThreadTimer tid) (pending (tim k)) ->
  timer_objs ts = delete (ThreadTimer tid) (timer_objs (tim k)) -> rt_tick ts = rt_tick (tim k) ->
  let k' := MkKernel (with_thread tid (t <| th_stat := RT_THREAD_CLOSE |>) s1) ts in
  kernel_inv lo None k' /\ moves (eq tid) k k' /\ (rt_current_thread (sch k) <> Some tid -> on_cpu k -> on_cpu k').
Proof.
  intros Hi Ht Hid Hri Eth Hsame Hok Hpe Hob Htk k'. set (t' := t <| th_stat := RT_THREAD_CLOSE |>) in *.
  destruct (inv_update lo None lo None k k' tid t' Hi) as [Hi' Hm]; try done.
  - cbn. by rewrite Eth.
  - apply drop_frame; [done| |done]. intros x Hx. change (tim k') with ts. by rewrite Hob, lookup_delete_ne.
  - split; [by apply (ki_thread _ _ _ Hi tid t Ht)|by intros []].
  - intros d Hd. unfold asleep in Hd. cbn in Hd. rewrite Hpe in Hd. by apply not_dropped in Hd.
  - split_and!; [done|done|]. intros Hc Hcpu. apply (on_cpu_other k k' tid t' Hcpu Hsame); [cbn; by rewrite Eth|done].
Qed.

(** A closed thread is forgotten, or waits for its clean-up. *)
Lemma forget_ok (b : bool) lo k tid t : kernel_inv lo None k -> threads (sch k) !! tid = Some t -> stat_of t = RT_THREAD_CLOSE ->
  exists k' u, (if b then rt_object_detach tid else to_defunct tid) k = Ok (tt, k') /\ kernel_inv lo None k' /\ moves (eq tid) k k' /\
    same_cpu (sch k) (sch k') /\ (rt_current_thread (sch k) <> Some tid -> on_cpu k -> on_cpu k') /\
    threads (sch k') !! tid = Some u /\ stat_of u = RT_THREAD_CLOSE.
Proof.
  intros Hi Ht Hs. destruct b.
  - set (t' := t <| th_object := false |>). assert (stat_of t' = RT_THREAD_CLOSE) as Hs' by exact Hs.
    set (k' := MkKernel (with_thread tid t' (sch k)) (tim k)).
    destruct (inv_update lo None lo None k k' tid t' Hi) as [Hi' Hm]; try done.
    + apply change_ok; [apply Hi|exact (ri_prio _ _ (ki_ready _ _ _ Hi) _ _ Ht)|by rewrite Hs'|].
      intros u Hu. left. by assert (u = t) as -> by congruence.
    + apply Hi.
    + split; [by apply (ki_thread _ _ _ Hi tid t Ht)|]. by intros [].
    + intros ->. destruct (ki_idle _ _ _ Hi) as (u & Hu & Hw). by assert (u = t) as -> by congruence.
    + by rewrite Hs'.
    + by rewrite Hs'.
    + intros d Hd. destruct (ki_asleep _ _ _ Hi tid d Hd) as (u & Hu & Hsu). by assert (u = t) as -> by congruence.
    + exists k', t'. split_and!; try done; [|intros; by eapply on_cpu_other|cbn; by rewrite lookup_insert_eq].
      unfold rt_object_detach. by erewrite run_get by exact Ht.
  - set (k' := MkKernel ((sch k) <| rt_thread_defunct := tid :: rt_thread_defunct (sch k) |>) (tim k)).
    exists k', t. split_and!; try done. pose proof Hi as []. split; try done. by eapply defunct_ok.
Qed.

Lemma thread_close_ok k tid t : kernel_inv 0 None k -> threads (sch k) !! tid = Some t -> stat_of t <> RT_THREAD_CLOSE ->
  stat_of t <> RT_THREAD_RUNNING -> tid <> idle ->
  exists k', thread_close tid k = Ok (tt, k') /\ kernel_inv 0 None k' /\ moves (eq tid) k k' /\ same_cpu (sch k) (sch k') /\
    (rt_current_thread (sch k) <> Some tid -> on_cpu k -> on_cpu k') /\
    threads (sch k') !! tid = Some (t <| th_stat := RT_THREAD_CLOSE |>).
Proof.
  intros Hi Ht Hs Hsr Hid. destruct (thread_timer _ _ _ _ _ Hi Ht Hs) as (Ho & tm & Htm & _).
  pose proof (ri_prio _ _ (ki_ready _ _ _ Hi) _ _ Ht) as [Hp Hm]. set (t' := t <| th_stat := RT_THREAD_CLOSE |>).
  assert (well_placed t') as Hw by (split; [exact Hp|intros H; by cbv in H]).
  destruct (rt_timer_detach_ok 0 None (tim k) (ThreadTimer tid) tm (ki_timers _ _ _ Hi)) as (ts & E2 & Hok & Hpe & Hob & Htk); [done..|].
  assert (exists s1, (when negb (stat_of t =? RT_THREAD_INIT) do thr (rt_schedule_remove_thread tid)) k = Ok (tt, MkKernel s1 (tim k)) /\
    ready_inv nobody (with_thread tid t' s1) /\ threads s1 = threads (sch k) /\ same_cpu (sch k) s1) as (s1 & E1 & Hri & Eth & Hsame).
  { destruct (Z.eqb_spec (stat_of t) RT_THREAD_INIT) as [Hin|Hin]; cbn [negb].
    - exists (sch k). split_and!; [by destruct k| |done|done]. apply change_ok; [apply Hi|done|done|]. intros u Hu. right; left. congruence.
    - destruct (take_out_ok tid t (sch k) (ki_ready _ _ _ Hi) Ht) as (s1 & E1 & Hi1 & Eth & Hsame).
      { unfold has_mask. apply andb_true_iff. split; by apply negb_true_iff, Z.eqb_neq. }
      exists s1. split_and!; [by apply run_thr_last|by apply settle_ok|done|done]. }
  destruct (closed_ok 0 k tid t s1 ts Hi Ht Hid Hri Eth Hsame Hok Hpe Hob Htk) as (Hi' & Hm' & Hc').
  exists (MkKernel (with_thread tid t' s1) ts). split_and!; try done; [|cbn; by rewrite lookup_insert_eq].
  unfold thread_close. erewrite run_get by exact Ht. erewrite run_bind_ok by exact E1. erewrite run_tmr by exact E2.
  by erewrite run_get by (cbn; by rewrite Eth).
Qed.

Lemma not_running_current lo k tid t : kernel_inv lo None k -> on_cpu k -> threads (sch k) !! tid = Some t -> stat_of t <> RT_THREAD_RUNNING ->
  rt_current_thread (sch k) <> Some tid.
Proof. intros Hi (c & Hc & u & Hu & Hs) Ht Hst E. congruence. Qed.

Lemma rt_thread_detach_steps k tid t : kernel_ok k -> threads (sch k) !! tid = Some t -> stat_of t <> RT_THREAD_CLOSE ->
  stat_of t <> RT_THREAD_RUNNING -> tid <> idle -> th_static t = true -> steps (eq tid) (rt_thread_detach tid) k.
Proof.
  intros [Hi Hcpu] Ht Hs Hsr Hid Hst. destruct (thread_timer _ _ _ _ _ Hi Ht Hs) as (Ho & _).
  pose proof (not_running_current _ _ _ _ Hi Hcpu Ht Hsr) as Hcur.
  destruct (thread_close_ok k tid t Hi Ht Hs Hsr Hid) as (k1 & E1 & Hi1 & Hm1 & Hsame1 & Hc1 & Ht1).
  destruct (forget_ok true 0 k1 tid _ Hi1 Ht1) as (k2 & u & E2 & Hi2 & Hm2 & Hsame2 & Hc2 & Ht2 & Hsu); [done|].
  pose proof (moves_trans _ _ _ _ Hm1 Hm2) as Hm. unfold steps, rt_thread_detach. erewrite run_object by done. rewrite Hst, run_bind_assert.
  erewrite run_bind_ok by exact E1. erewrite run_bind_ok by exact E2. destruct (th_cleanup t).
  - destruct (forget_ok false 0 k2 tid u Hi2 Ht2 Hsu) as (k3 & u3 & E3 & Hi3 & Hm3 & _ & Hc3 & _).
    exists RT_EOK, k3. split_and!; [by erewrite run_bind_ok by exact E3| |by eapply moves_trans]. split; [done|].
    apply Hc3; [by rewrite (proj1 Hsame2), (proj1 Hsame1)|]. apply Hc2; [by rewrite (proj1 Hsame1)|by apply Hc1].
  - exists RT_EOK, k2. split_and!; [done| |done]. split; [done|]. apply Hc2; [by rewrite (proj1 Hsame1)|by apply Hc1].
Qed.

Lemma rt_thread_delete_steps k tid t : kernel_ok k -> threads (sch k) !! tid = Some t -> stat_of t <> RT_THREAD_CLOSE ->
  stat_of t <> RT_THREAD_RUNNING -> tid <> idle -> th_static t = false -> steps (eq tid) (rt_thread_delete tid) k.
Proof.
  intros [Hi Hcpu] Ht Hs Hsr Hid Hst. destruct (thread_timer _ _ _ _ _ Hi Ht Hs) as (Ho & _).
  pose proof (not_running_current _ _ _ _ Hi Hcpu Ht Hsr) as Hcur.
  destruct (thread_close_ok k tid t Hi Ht Hs Hsr Hid) as (k1 & E1 & Hi1 & Hm1 & Hsame1 & Hc1 & Ht1).
  destruct (forget_ok false 0 k1 tid _ Hi1 Ht1) as (k2 & u & E2 & Hi2 & Hm2 & _ & Hc2 & _); [done|].
  exists RT_EOK, k2. split_and!; [|split; [done|]|by eapply moves_trans].
  - unfold rt_thread_delete. erewrite run_object by done. rewrite Hst. cbn [negb]. rewrite run_bind_assert.
    erewrite run_bind_ok by exact E1. by erewrite run_bind_ok by exact E2.
  - apply Hc2; [by rewrite (proj1 Hsame1)|by apply Hc1].
Qed.

Lemma rt_thread_exit_ok k c : kernel_ok k -> rt_current_thread (sch k) = Some c -> c <> idle ->
  rt_scheduler_lock_nest (sch k) = 0 -> steps (eq c) rt_thread_exit k.
Proof.
  intros Hk Hc Hid Hn0. destruct (kernel_current k Hk) as (c' & t & Hc' & Ht & Hs). assert (c' = c) as -> by congruence.
  destruct Hk as [Hi Hcpu]. destruct (thread_timer _ _ _ _ _ Hi Ht) as (Ho & tm & Htm & _); [by rewrite Hs|].
  pose proof (ri_prio _ _ (ki_ready _ _ _ Hi) _ _ Ht) as [Hp Hm]. set (t' := t <| th_stat := RT_THREAD_CLOSE |>).
  destruct (rt_timer_detach_ok 0 None (tim k) (ThreadTimer c) tm (ki_timers _ _ _ Hi)) as (ts & E2 & Hok & Hpe & Hob & Htk); [done..|].
  destruct (take_out_ok c t (sch k) (ki_ready _ _ _ Hi) Ht) as (s1 & E1 & Hi1 & Eth & Hsame); [unfold has_mask; by rewrite Hs|].
  destruct (closed_ok 0 k c t s1 ts Hi Ht Hid) as (Hi2 & Hm2 & _); [by apply settle_ok; [|split; [exact Hp|intros H; by cbv in H]|]|done..|].
  set (k2 := MkKernel (with_thread c t' s1) ts) in *. assert (threads (sch k2) !! c = Some t') as Ht2 by (cbn; by rewrite lookup_insert_eq).
  destruct (forget_ok (th_static t && negb (th_cleanup t)) 0 k2 c t' Hi2 Ht2) as (k3 & u & E3 & Hi3 & Hm3 & Hsame3 & _); [done|].
  destruct (finish_schedule (eq c) k k3 Hi3) as (k4 & E4 & Hk4 & Hm4 & _).
  - right. rewrite (proj2 Hsame3). change (rt_scheduler_lock_nest (sch k2)) with (rt_scheduler_lock_nest s1). by rewrite (proj2 Hsame).
  - by eapply moves_trans.
  - exists tt, k4. split_and!; [|done|done]. unfold rt_thread_exit. erewrite run_current by exact Hc. erewrite run_thr by exact E1.
    erewrite run_get by (cbn; by rewrite Eth). rewrite run_put. erewrite run_tmr by exact E2. erewrite run_bind_ok by exact E3. exact E4.
Qed.

(** ** The timers of the application and the lock of the scheduler *)
Lemma user_timer_steps {A} k n (m : M timers A) v ts : kernel_ok k -> m (tim k) = Ok (v, ts) -> timers_ok 0 None ts ->
  timers_frame (UserTimer n) (tim k) ts -> (forall tm, timer_objs ts !! UserTimer n = Some tm -> user_timer_ok tm) ->
  steps nobody (tmr m) k.
Proof.
  intros [Hi Hcpu] E Hok Hf Hu. destruct (inv_user_timer 0 None 0 None k ts n Hi Hok Hf Hu) as [Hi' Hm].
  exists v, (MkKernel (sch k) ts). split_and!; [by apply run_tmr_last|by split|done].
Qed.

Lemma user_init_steps k n time flag : kernel_ok k -> timer_objs (tim k) !! UserTimer n = None ->
  user_timer_ok (MkTimer flag time 0) -> steps nobody (tmr (rt_timer_init (UserTimer n) time flag)) k.
Proof.
  intros Hk Hno Hu. destruct (rt_timer_init_ok 0 None (tim k) (UserTimer n) time flag (ki_timers _ _ _ (proj1 Hk)) Hno) as (ts & E & Hok & _ & Hf & Ho).
  apply (user_timer_steps k n _ tt ts Hk E Hok Hf). intros tm. rewrite Ho. intros [= <-].
  unfold user_timer_ok. by rewrite cleared_periodic.
Qed.

Lemma user_start_steps k n tm : kernel_ok k -> timer_objs (tim k) !! UserTimer n = Some tm ->
  steps nobody (tmr (rt_timer_start (UserTimer n))) k.
Proof.
  intros Hk Htm. pose proof (ki_user _ _ _ (proj1 Hk) n tm Htm) as Hu.
  destruct (start_frame 0 None (tim k) (UserTimer n) tm) as (ts & tm' & E & Hok & _ & Hf & Htm' & Hin & Hper);
    [lia|apply (proj1 Hk)|by left|done|apply Hu|].
  apply (user_timer_steps k n _ tt ts Hk E Hok Hf). intros u Hu'. assert (u = tm') as -> by congruence.
  unfold user_timer_ok. by rewrite Hin, Hper.
Qed.

Lemma user_stop_steps k n tm : kernel_ok k -> timer_objs (tim k) !! UserTimer n = Some tm ->
  steps nobody (tmr (rt_timer_stop (UserTimer n))) k.
Proof.
  intros Hk Htm. pose proof (ki_user _ _ _ (proj1 Hk) n tm Htm) as Hu.
  destruct (stop_frame 0 None (tim k) (UserTimer n) tm) as (b & ts & tm' & E & Hok & _ & Hf & Htm' & Hin & Hper); [apply (proj1 Hk)|done..|].
  apply (user_timer_steps k n _ b ts Hk E Hok Hf). intros u Hu'. assert (u = tm') as -> by congruence.
  unfold user_timer_ok. by rewrite Hin, Hper.
Qed.

Lemma user_detach_steps k n tm : kernel_ok k -> timer_objs (tim k) !! UserTimer n = Some tm ->
  steps nobody (tmr (rt_timer_detach (UserTimer n))) k.
Proof.
  intros Hk Htm. destruct (rt_timer_detach_ok 0 None (tim k) (UserTimer n) tm) as (ts & E & Hok & Hpe & Hob & Htk); [apply (proj1 Hk)|done..|].
  apply (user_timer_steps k n _ tt ts Hk E Hok).
  - apply drop_frame; [done| |done]. intros x Hx. by rewrite Hob, lookup_delete_ne.
  - intros u. by rewrite Hob, lookup_delete_eq.
Qed.

(** The record that a control command leaves. *)
Definition controlled (cmd : timer_cmd) (tm : rt_timer) : rt_timer :=
  match cmd with
  | RT_TIMER_CTRL_SET_TIME tick => tm <| tm_init_tick := tick |>
  | RT_TIMER_CTRL_GET_TIME => tm
  | RT_TIMER_CTRL_SET_ONESHOT => tm <| tm_flag := Z.land (tm_flag tm) (Z.lnot RT_TIMER_FLAG_PERIODIC) |>
  | RT_TIMER_CTRL_SET_PERIODIC => tm <| tm_flag := Z.lor (tm_flag tm) RT_TIMER_FLAG_PERIODIC |>
  end.

Lemma controlled_active cmd tm : timeout_tick (controlled cmd tm) = timeout_tick tm /\
  has_timer_flag (controlled cmd tm) RT_TIMER_FLAG_ACTIVATED = has_timer_flag tm RT_TIMER_FLAG_ACTIVATED.
Proof.
  split; destruct cmd; try done; unfold has_timer_flag; cbn.
  - by rewrite <- Z.land_assoc.
  - rewrite Z.land_lor_distr_l. change (Z.land RT_TIMER_FLAG_PERIODIC RT_TIMER_FLAG_ACTIVATED) with 0. by rewrite Z.lor_0_r.
Qed.

Lemma user_control_steps k n cmd tm : kernel_ok k -> timer_objs (tim k) !! UserTimer n = Some tm ->
  user_timer_ok (controlled cmd tm) -> steps nobody (tmr (rt_timer_control (UserTimer n) cmd)) k.
Proof.
  intros Hk Htm Hu. destruct (controlled_active cmd tm) as [H1 H2].
  destruct (put_timer_ok 0 None (tim k) (UserTimer n) tm (controlled cmd tm) (ki_timers _ _ _ (proj1 Hk)) Htm H1 H2) as (Hok & _ & Hf).
  set (ts := (tim k) <| timer_objs := _ |>) in *.
  assert (exists v, rt_timer_control (UserTimer n) cmd (tim k) = Ok (v, ts)) as [v E].
  { unfold rt_timer_control. erewrite run_get_timer by exact Htm. destruct cmd; try by eexists.
    exists (Some (tm_init_tick tm)). unfold ts. cbn [controlled]. unfold upd. cbn. rewrite insert_id by done. by destruct (tim k). }
  apply (user_timer_steps k n _ v ts Hk E Hok Hf). intros u. unfold ts. cbn. rewrite lookup_insert_eq. by intros [= <-].
Qed.

Lemma inv_nest lo r k n : kernel_inv lo r k -> 0 <= n < 2 ^ 15 ->
  kernel_inv lo r (MkKernel ((sch k) <| rt_scheduler_lock_nest := n |>) (tim k)).
Proof.
  intros [] Hn. split; try done. by eapply ready_inv_ext.
Qed.

Lemma enter_steps k : kernel_ok k -> rt_scheduler_lock_nest (sch k) < 2 ^ 15 - 1 -> steps nobody (thr rt_enter_critical) k.
Proof.
  intros [Hi Hcpu] Hn. pose proof (ki_nest _ _ _ Hi) as Hn0.
  exists tt, (MkKernel ((sch k) <| rt_scheduler_lock_nest := rt_scheduler_lock_nest (sch k) + 1 |>) (tim k)). split_and!; [| |done].
  - apply run_thr_last. unfold rt_enter_critical. rewrite run_bind_gets.
    assert (s16 (rt_scheduler_lock_nest (sch k) + 1) = rt_scheduler_lock_nest (sch k) + 1) as ->; [|done].
    unfold sint. rewrite Z.mod_small by lia. lia.
  - split; [apply inv_nest; [done|lia]|done].
Qed.

Lemma leave_steps k : kernel_ok k -> steps nobody (thr rt_exit_critical) k.
Proof.
  intros [Hi Hcpu]. pose proof (ki_nest _ _ _ Hi) as Hn0. set (n := rt_scheduler_lock_nest (sch k)) in *.
  set (s1 := (sch k) <| rt_scheduler_lock_nest := n - 1 |>).
  assert (s16 (n - 1) = n - 1) as E16 by (unfold sint; rewrite Z.mod_small by lia; lia).
  destruct (Z.leb_spec (n - 1) 0) as [Hle|Hgt].
  - set (k0 := MkKernel ((sch k) <| rt_scheduler_lock_nest := 0 |>) (tim k)).
    destruct (inv_schedule 0 None k0) as (k' & E & Hg & _ & Hm & _); [by apply inv_nest|by left|].
    exists tt, k'. split_and!; [|done|by destruct Hm; split]. rewrite <- E. unfold thr, zoom.
    assert (rt_exit_critical (sch k) = rt_schedule (sch k0)) as ->; [|done].
    unfold rt_exit_critical. rewrite run_bind_gets. fold n. rewrite E16. rewrite run_bind_modify, run_bind_gets. cbn [rt_scheduler_lock_nest upd].
    rewrite (proj2 (Z.leb_le (n - 1) 0)) by done. by rewrite run_bind_modify.
  - exists tt, (MkKernel s1 (tim k)). split_and!; [| |done].
    + apply run_thr_last. unfold rt_exit_critical. rewrite run_bind_gets. fold n. rewrite E16. rewrite run_bind_modify, run_bind_gets.
      cbn [rt_scheduler_lock_nest upd]. by rewrite (proj2 (Z.leb_gt (n - 1) 0)) by lia.
    + split; [apply inv_nest; [done|lia]|done].
Qed.

(** ** The idle thread *)
Lemma inv_lists lo r k s' : kernel_inv lo r k -> ready_inv nobody s' -> threads s' = threads (sch k) -> same_cpu (sch k) s' ->
  kernel_inv lo r (MkKernel s' (tim k)).
Proof.
  intros [] Hr Eth [Hc Hn]. split; cbn [sch tim]; try done.
  - destruct ki_current0 as (c & t & H1 & H2 & H3). exists c, t. by rewrite Hc, Eth.
  - by rewrite Hn.
  - unfold awake. cbn. by rewrite Eth.
  - intros x t. rewrite Eth. by apply ki_thread0.
  - intros x d Hx. unfold has_stat. cbn. rewrite Eth. by apply (ki_asleep0 x d).
Qed.

Lemma rt_thread_idle_excute_steps k : kernel_ok k -> rt_scheduler_lock_nest (sch k) = 0 -> steps nobody rt_thread_idle_excute k.
Proof.
  intros Hk Hn. pose proof Hk as [Hi Hcpu]. unfold steps, rt_thread_idle_excute. rewrite run_bind_gets.
  destruct (rt_thread_defunct (sch k)) as [|tid l] eqn:El; [by exists None, k|].
  destruct (ri_defunct _ _ (ki_ready _ _ _ Hi) tid) as (_ & t & Ht & Hs); [rewrite El; apply elem_of_cons; by left|].
  destruct (list_remove_ok tid t (sch k) (ki_ready _ _ _ Hi) Ht) as (s1 & E1 & Hi1 & Eth & Hsame); [by rewrite Hs|].
  assert (ready_inv nobody s1) as Hr1 by (eapply ready_inv_settle; [exact Hi1|by rewrite Eth|by rewrite Hs]).
  pose proof (inv_lists 0 None k s1 Hi Hr1 Eth Hsame) as Hi1'. set (k1 := MkKernel s1 (tim k)) in *.
  assert (kernel_ok k1) as Hk1.
  { split; [done|]. destruct Hcpu as (c & Hc & u & Hu & Hsu). exists c. split; [cbn; by rewrite (proj1 Hsame)|]. exists u. cbn. by rewrite Eth. }
  destruct (enter_steps k1 Hk1) as ([] & k2 & E2 & Hk2 & Hm2); [cbn; rewrite (proj2 Hsame), Hn; done|].
  assert (exists u, threads (sch k2) !! tid = Some u) as [u Hu].
  { unfold thr, zoom, rt_enter_critical in E2. cbn in E2. injection E2 as <-. cbn. rewrite Eth. by exists t. }
  destruct (leave_steps k2 Hk2) as ([] & k3 & E3 & Hk3 & Hm3).
  exists (if th_static u then None else Some tid), k3. split; [|split; [done|]].
  - erewrite run_thr by exact E1. erewrite run_bind_ok by exact E2. erewrite run_get by exact Hu. by erewrite run_bind_ok by exact E3.
  - apply (moves_trans _ k k1 k3); [|exact (moves_trans _ _ _ _ Hm2 Hm3)]. split; [done|]. intros x _ (v & Hv & Hw). exists v. split; [cbn; by rewrite Eth|done].
Qed.

Lemma rt_object_delete_steps k tid t : kernel_ok k -> threads (sch k) !! tid = Some t -> stat_of t = RT_THREAD_CLOSE ->
  tid ∉ rt_thread_defunct (sch k) -> steps nobody (rt_object_delete tid) k.
Proof.
  intros [Hi (c & Hc & u & Hu & Hsu)] Ht Hs Hd.
  assert (forall x v, threads (sch k) !! x = Some v -> stat_of v <> RT_THREAD_CLOSE -> delete tid (threads (sch k)) !! x = Some v) as Hkeep.
  { intros x v Hv Hne. rewrite lookup_delete_ne; [done|]. intros <-. congruence. }
  assert (forall x v, delete tid (threads (sch k)) !! x = Some v -> threads (sch k) !! x = Some v) as Hb by (by intros x v [_ Hv]%lookup_delete_Some).
  assert (threads (sch k) !! c = Some u -> delete tid (threads (sch k)) !! c = Some u) as Hcu by (intros; apply Hkeep; [done|by rewrite Hsu]).
  set (k' := MkKernel ((sch k) <| threads := delete tid (threads (sch k)) |>) (tim k)).
  assert (forall x, awake x k -> awake x k') as Haw.
  { intros x (v & Hv & Hw). exists v. split; [|done]. apply Hkeep; [done|]. by destruct Hw as [->| ->]. }
  exists tt, k'. split; [done|split; [split|by split; [|intros x _; apply Haw]]].
  - pose proof Hi as []. split; cbn [sch tim]; try done.
    + by eapply delete_ok.
    + destruct ki_current0 as (c' & v & Hc' & Hv & Hv1 & Hv2 & Huniq). assert (c' = c) as -> by congruence. exists c, u.
      assert (v = u) as -> by congruence. split_and!; [done|by apply Hcu|done|done|]. intros x w Hw%Hb. by apply Huniq.
    + by apply Haw.
    + intros x v Hv%Hb. by apply ki_thread0.
    + intros x d Hx. destruct (ki_asleep0 x d Hx) as (v & Hv & Hsv). exists v. split; [|done]. apply Hkeep; [done|by rewrite Hsv].
  - exists c. split; [done|]. exists u. split; [by apply Hcu|done].
Qed.

(** ** The state machine *)
Inductive kop :=
  | KTick
  | KYield
  | KSleep (tick : Z)
  | KWait (obj time : Z)
  | KExit
  | KResume (tid : Z)
  | KSuspend (tid : Z)
  | KInit (tid : Z) (static : bool) (priority tick : Z)
  | KControl (tid : Z) (cmd : thread_cmd)
  | KDetach (tid : Z)
  | KTimerInit (n time flag : Z)
  | KTimerStart (n : Z)
  | KTimerStop (n : Z)
  | KTimerControl (n : Z) (cmd : timer_cmd)
  | KTimerDetach (n : Z)
  | KEnter
  | KLeave
  | KIdle
  | KRelease (tid : Z).

Definition ignore {A} (m : M kernel A) : M kernel unit := m;; skip.

Definition run_kop (op : kop) : M kernel unit :=
  match op with
  | KTick => l ← gets (fun k => rt_timer_list (tim k)); rt_tick_increase user_timeout (S (length l))
  | KYield => rt_thread_yield
  | KSleep tick => rt_thread_sleep tick
  | KWait obj time => wait_for obj time
  | KExit => rt_thread_exit
  | KResume tid => ignore (rt_thread_resume tid)
  | KSuspend tid => ignore (rt_thread_suspend tid)
  | KInit tid static priority tick => rt_thread_init tid static priority tick
  | KControl tid cmd => ignore (rt_thread_control tid cmd)
  | KDetach tid => ignore (rt_thread_detach tid)
  | KTimerInit n time flag => tmr (rt_timer_init (UserTimer n) time flag)
  | KTimerStart n => tmr (rt_timer_start (UserTimer n))
  | KTimerStop n => ignore (tmr (rt_timer_stop (UserTimer n)))
  | KTimerControl n cmd => ignore (tmr (rt_timer_control (UserTimer n) cmd))
  | KTimerDetach n => tmr (rt_timer_detach (UserTimer n))
  | KEnter => thr rt_enter_critical
  | KLeave => thr rt_exit_critical
  | KIdle => ignore rt_thread_idle_excute
  | KRelease tid => rt_object_delete tid
  end.

(** The conditions of the callers: an operation of the current thread that blocks or
    ends it is not the idle thread's and the scheduler is not locked; a thread or
    timer that is named exists, and is not created twice; a thread that is ended by
    another, or suspended, is not RUNNING; a time is less than half the range of the
    ticks, as rt_timer_start asserts; the idle thread does not lock the scheduler, and
    releases the threads that it has taken from the list of the defunct ones. *)
Definition may_block (k : kernel) : Prop := rt_current_thread (sch k) <> Some idle /\ rt_scheduler_lock_nest (sch k) = 0.

Definition may_end (tid : Z) (t : thread) : Prop :=
  stat_of t <> RT_THREAD_CLOSE /\ stat_of t <> RT_THREAD_RUNNING /\ tid <> idle.

Definition allowed (op : kop) (k : kernel) : Prop :=
  match op with
  | KTick | KYield | KLeave => True
  | KSleep tick => may_block k /\ 0 <= tick < half
  | KWait obj time => may_block k /\ time < half
  | KExit => may_block k
  | KResume tid => exists t, threads (sch k) !! tid = Some t /\ th_object t = true
  | KSuspend tid => exists t, threads (sch k) !! tid = Some t /\ th_object t = true /\ stat_of t <> RT_THREAD_RUNNING /\ tid <> idle
  | KInit tid _ priority _ => threads (sch k) !! tid = None /\ timer_objs (tim k) !! ThreadTimer tid = None /\
      0 <= priority < RT_THREAD_PRIORITY_MAX
  | KControl tid RT_THREAD_CTRL_STARTUP => exists t, threads (sch k) !! tid = Some t /\ stat_of t = RT_THREAD_INIT
  | KControl tid RT_THREAD_CTRL_CLOSE => exists t, threads (sch k) !! tid = Some t /\ may_end tid t /\ th_static t = false
  | KControl tid (RT_THREAD_CTRL_CHANGE_PRIORITY p) => exists t, threads (sch k) !! tid = Some t /\ th_object t = true /\
      0 <= p < RT_THREAD_PRIORITY_MAX
  | KDetach tid => exists t, threads (sch k) !! tid = Some t /\ may_end tid t /\ th_static t = true
  | KTimerInit n time flag => timer_objs (tim k) !! UserTimer n = None /\ user_timer_ok (MkTimer flag time 0)
  | KTimerStart n | KTimerStop n | KTimerDetach n => is_Some (timer_objs (tim k) !! UserTimer n)
  | KTimerControl n cmd => exists tm, timer_objs (tim k) !! UserTimer n = Some tm /\ user_timer_ok (controlled cmd tm)
  | KEnter => rt_scheduler_lock_nest (sch k) < 2 ^ 15 - 1
  | KIdle => rt_current_thread (sch k) = Some idle /\ rt_scheduler_lock_nest (sch k) = 0
  | KRelease tid => exists t, threads (sch k) !! tid = Some t /\ stat_of t = RT_THREAD_CLOSE /\ th_static t = false /\
      tid ∉ rt_thread_defunct (sch k)
  end.

(** The threads whose sleep an operation may end. *)
Definition affects (op : kop) (x : Z) : Prop :=
  match op with
  | KTick => exists n, woken n x
  | KResume tid | KSuspend tid | KInit tid _ _ _ | KDetach tid => x = tid
  | KControl tid RT_THREAD_CTRL_STARTUP | KControl tid RT_THREAD_CTRL_CLOSE => x = tid
  | _ => False
  end.

Definition is_tick (op : kop) : bool := match op with KTick => true | _ => false end.

Inductive kstep : kernel -> kop -> kernel -> Prop :=
  | kstep_run k op k' : allowed op k -> run_kop op k = Ok (tt, k') -> kstep k op k'.

Inductive ksteps : kernel -> list kop -> kernel -> Prop :=
  | ksteps_nil k : ksteps k [] k
  | ksteps_cons k op k1 ops k2 : kstep k op k1 -> ksteps k1 ops k2 -> ksteps k (op :: ops) k2.

(** What a step does to a sleeping thread. *)
Definition sleeps_on (op : kop) (k k' : kernel) : Prop :=
  forall x d, ~ affects op x -> asleep x d k ->
    if is_tick op then if 1 <? d then asleep x (d - 1) k' else awake x k' else asleep x d k'.

(** A sleeping thread is not the current one. *)
Lemma asleep_not_current k c x d : kernel_ok k -> rt_current_thread (sch k) = Some c -> asleep x d k -> c <> x.
Proof.
  intros [Hi Hcpu] Hc Hx ->. destruct (ki_asleep _ _ _ Hi x d Hx) as (t & Ht & Hs).
  by apply (suspended_not_current _ _ _ Hcpu Ht Hs).
Qed.

Lemma steps_ignore {A} X (m : M kernel A) k : steps X m k -> steps X (ignore m) k.
Proof. intros (v & k' & E & H). exists tt, k'. split; [unfold ignore; by erewrite run_bind_ok by exact E|exact H]. Qed.

Lemma steps_kop X op k : steps X (run_kop op) k -> is_tick op = false -> (forall x d, asleep x d k -> X x -> affects op x) ->
  exists k', run_kop op k = Ok (tt, k') /\ kernel_ok k' /\ sleeps_on op k k'.
Proof.
  intros ([] & k' & E & Hk' & Hm) Ht HX. exists k'. split_and!; [done|done|].
  intros x d Hx Ha. rewrite Ht. apply Hm; [|done]. intros HXx. by apply Hx, (HX x d).
Qed.

(** A block or end of the current thread affects no sleeping thread. *)
Lemma block_kop op k c : kernel_ok k -> rt_current_thread (sch k) = Some c -> steps (eq c) (run_kop op) k -> is_tick op = false ->
  exists k', run_kop op k = Ok (tt, k') /\ kernel_ok k' /\ sleeps_on op k k'.
Proof.
  intros Hk Hc Hs Ht. apply (steps_kop _ _ _ Hs Ht). intros x d Hx <-. by destruct (asleep_not_current k c c d Hk Hc Hx).
Qed.

Lemma kernel_ok_lo k : good 1 None k -> kernel_ok k.
Proof.
  intros [Hi Hc]. split; [|done]. eapply inv_lo; [exact Hi|]. destruct (ki_timers _ _ _ Hi). split; try done.
  eapply Forall_impl; [exact tok_range|]. cbn. lia.
Qed.

Lemma control_kop tid cmd k : kernel_ok k -> allowed (KControl tid cmd) k ->
  exists k', run_kop (KControl tid cmd) k = Ok (tt, k') /\ kernel_ok k' /\ sleeps_on (KControl tid cmd) k k'.
Proof.
  intros Hk Ha. destruct cmd as [| |p]; cbn [allowed] in Ha.
  - destruct Ha as (t & Ht & Hs). eapply steps_kop; [apply steps_ignore; by eapply rt_thread_startup_ok|done|]. by intros x d _ <-.
  - destruct Ha as (t & Ht & (H1 & H2 & H3) & H4). eapply steps_kop; [apply steps_ignore; by eapply rt_thread_delete_steps|done|]. by intros x d _ <-.
  - destruct Ha as (t & Ht & Ho & Hp).
    destruct (rt_thread_change_priority_ok k tid t p Hk Ht Ho Hp) as (v & k' & E & Hk' & Hm).
    apply (steps_kop nobody); [|done|by intros x d _ []]. exists tt, k'. split; [|done].
    cbn [run_kop rt_thread_control]. unfold ignore. rewrite run_bind_bind. by erewrite run_bind_ok by exact E.
Qed.

(** An operation that is allowed returns, and keeps the invariant. *)
Lemma kop_ok op k : kernel_ok k -> allowed op k ->
  exists k', run_kop op k = Ok (tt, k') /\ kernel_ok k' /\ sleeps_on op k k'.
Proof.
  intros Hk Ha. destruct op; cbn [allowed] in Ha.
  - destruct (rt_tick_increase_ok k (S (length (rt_timer_list (tim k)))) Hk) as (k' & E & Hg & _ & _ & Hs); [lia|].
    exists k'. split_and!; [done|by apply kernel_ok_lo|]. intros x d Hx Hd. apply Hs; [|done]. intros n Hn. apply Hx. by exists n.
  - eapply steps_kop; [by apply rt_thread_yield_steps|done|by intros x d _ []].
  - destruct Ha as [[Hid Hn0] Hn]. destruct (kernel_current k Hk) as (c & t & Hc & _ & _).
    eapply (block_kop _ _ c Hk Hc); [|done].
    destruct (rt_thread_sleep_ok k c tick Hk Hc) as (k' & E & Hk' & Hm & _); [congruence|done|done|]. by exists tt, k'.
  - destruct Ha as [[Hid Hn0] Hn]. destruct (kernel_current k Hk) as (c & t & Hc & _ & _).
    eapply (block_kop _ _ c Hk Hc); [|done].
    destruct (wait_for_ok k c obj time Hk Hc) as (k' & E & Hk' & Hm); [congruence|done|done|]. by exists tt, k'.
  - destruct Ha as [Hid Hn0]. destruct (kernel_current k Hk) as (c & t & Hc & _ & _).
    eapply (block_kop _ _ c Hk Hc); [|done]. apply rt_thread_exit_ok; [done|done|congruence|done].
  - destruct Ha as (t & Ht & Ho). eapply steps_kop; [apply steps_ignore; by eapply rt_thread_resume_steps|done|]. by intros x d _ <-.
  - destruct Ha as (t & Ht & Ho & Hs & Hid). eapply steps_kop; [apply steps_ignore; by eapply rt_thread_suspend_steps|done|]. by intros x d _ <-.
  - destruct Ha as (Hno & Htm & Hp). eapply steps_kop; [by apply rt_thread_init_ok|done|]. by intros x d _ <-.
  - by apply control_kop.
  - destruct Ha as (t & Ht & (H1 & H2 & H3) & H4). eapply steps_kop; [apply steps_ignore; by eapply rt_thread_detach_steps|done|]. by intros x d _ <-.
  - destruct Ha as [Hno Hu]. eapply steps_kop; [by apply user_init_steps|done|by intros x d _ []].
  - destruct Ha as [tm Htm]. eapply steps_kop; [by eapply user_start_steps|done|by intros x d _ []].
  - destruct Ha as [tm Htm]. eapply steps_kop; [apply steps_ignore; by eapply user_stop_steps|done|by intros x d _ []].
  - destruct Ha as (tm & Htm & Hu). eapply steps_kop; [apply steps_ignore; by eapply user_control_steps|done|by intros x d _ []].
  - destruct Ha as [tm Htm]. eapply steps_kop; [by eapply user_detach_steps|done|by intros x d _ []].
  - eapply steps_kop; [by apply enter_steps|done|by intros x d _ []].
  - eapply steps_kop; [by apply leave_steps|done|by intros x d _ []].
  - eapply steps_kop; [apply steps_ignore, rt_thread_idle_excute_steps; [done|apply Ha]|done|by intros x d _ []].
  - destruct Ha as (t & Ht & Hs & _ & Hd). eapply steps_kop; [by eapply rt_object_delete_steps|done|by intros x d _ []].
Qed.

Lemma kstep_ok k op k' : kernel_ok k -> kstep k op k' -> kernel_ok k' /\ sleeps_on op k k'.
Proof.
  intros Hk Hs. inversion Hs as [? ? ? Ha E]; subst. destruct (kop_ok op k Hk Ha) as (k1 & E1 & H). rewrite E in E1. by injection E1 as <-.
Qed.

Lemma ksteps_ok k ops k' : ksteps k ops k' -> kernel_ok k -> kernel_ok k'.
Proof.
  induction 1 as [|k op k1 ops k2 Hs _ IH]; [done|]. intros Hk. apply IH. by apply (kstep_ok k op k1).
Qed.

Definition ticks (ops : list kop) : Z := Z.of_nat (length (filter (fun op => is_tick op = true) ops)).

Lemma ticks_cons op ops : ticks (op :: ops) = (if is_tick op then 1 else 0) + ticks ops.
Proof. unfold ticks. rewrite filter_cons. destruct (is_tick op); case_decide; cbn [length]; try done; lia. Qed.

Lemma ticks_nonneg ops : 0 <= ticks ops.
Proof. unfold ticks. lia. Qed.

(** A thread sleeps through fewer ticks than it has left. *)
Lemma sleeps_through k ops k' : ksteps k ops k' -> kernel_ok k -> forall x d, Forall (fun op => ~ affects op x) ops ->
  asleep x d k -> ticks ops < Z.max 1 d -> asleep x (d - ticks ops) k'.
Proof.
  induction 1 as [|k op k1 ops k2 Hs _ IH]; intros Hk x d Hx Hd Ht; [by rewrite Z.sub_0_r|].
  rewrite ticks_cons in Ht |- *. apply Forall_cons in Hx as [Hx Hxs]. destruct (kstep_ok k op k1 Hk Hs) as [Hk1 Hso].
  specialize (Hso x d Hx Hd). pose proof (ticks_nonneg ops). destruct (is_tick op).
  - destruct (Z.ltb_spec 1 d); [|lia]. replace (d - (1 + ticks ops)) with (d - 1 - ticks ops) by lia. apply IH; [done|done|done|lia].
  - apply IH; [done|done|done|lia].
Qed.
End Kernel.

(** ** The start of the system *)

(** The static memory before the start, and the state of a system with only the idle
    thread. *)
Definition kernel0 : kernel := MkKernel (MkSched ∅ [] 0 None 0 0 [] ∅) (MkTimers ∅ [] 0 0).
Definition idle_thread : thread := MkThr RT_THREAD_RUNNING 31 31 (1 ≪ 31) 32 32 RT_EOK true true false.
Definition idle_alone : kernel :=
  MkKernel (MkSched {[ 0 := idle_thread ]} (replicate 32 []) 0 (Some 0) 31 0 [] ∅) (MkTimers {[ ThreadTimer 0 := MkTimer 0 0 0 ]} [] 0 0).

Lemma idle_alone_ok : kernel_ok 0 idle_alone.
Proof.
  assert (forall x t, threads (sch idle_alone) !! x = Some t -> x = 0 /\ t = idle_thread) as Hth.
  { cbn. intros x t H. by apply lookup_singleton_Some in H as [<- <-]. }
  assert (forall id, ~ active (tim idle_alone) id) as Hact.
  { intros id (t & Ht & Hf). cbn in Ht. by apply lookup_singleton_Some in Ht as [_ <-]. }
  assert (runs (sch idle_alone) 0) as Hruns by (split; [done|]; by exists idle_thread).
  split; [|by exists 0]. split.
  - split; cbn [sch idle_alone rt_thread_priority_table rt_thread_ready_priority_group rt_thread_defunct wait_lists]; try done.
    + intros p _. rewrite Z.bits_0. destruct (replicate 32 [] !! Z.to_nat p) as [l|] eqn:E; [|done]. by apply lookup_replicate in E as [-> _].
    + intros p l x [-> _]%lookup_replicate Hx. by apply not_elem_of_nil in Hx.
    + intros p l [-> _]%lookup_replicate. constructor.
    + by intros x t [_ ->]%Hth.
    + by intros x t [_ ->]%Hth.
    + intros x Hx. by apply not_elem_of_nil in Hx.
  - exists 0, idle_thread. split_and!; try done. by intros x u [-> _]%Hth.
  - done.
  - exists idle_thread. split; [done|by right].
  - split; cbn; try done; [constructor|constructor|by intros id ?%Hact].
  - intros x t [-> ->]%Hth. split; [done|]. intros _. split; [done|]. by exists (MkTimer 0 0 0).
  - intros x d Hx. by apply not_elem_of_nil in Hx.
  - cbn. intros n tm H. by apply lookup_singleton_Some in H as [? _].
Qed.

Lemma kernel_ok_current_priority idle k p : kernel_ok idle k -> kernel_ok idle (MkKernel ((sch k) <| rt_current_priority := p |>) (tim k)).
Proof. intros [[] Hc]. split; [|done]. split; try done. by eapply ready_inv_ext. Qed.

(** The state after an operation, for the computed examples. *)
Definition state_of (r : outcome (unit * kernel)) : kernel := match r with Ok (_, k) => k | _ => kernel0 end.
Definition booted : kernel := state_of (rtthread_startup 1 0 kernel0).

(** A computed step. *)
Lemma kop_state idle user_timeout woken `{!TimeoutSafe idle user_timeout woken} op k : kernel_ok idle k -> allowed idle op k ->
  kernel_ok idle (state_of (run_kop user_timeout op k)).
Proof. intros Hk Ha. destruct (kop_ok idle user_timeout woken op k Hk Ha) as (k' & -> & H & _). exact H. Qed.

(** The application's timer 5 wakes the thread 2. *)
Definition wakes (n : Z) : list Z := if n =? 5 then [2] else [].
Definition on_timeout (n : Z) : M kernel unit := wake_threads (wakes n).

Definition main_made : kernel := state_of (run_kop on_timeout (KInit 1 false RT_MAIN_THREAD_PRIORITY 20) idle_alone).
Definition main_started : kernel := state_of (run_kop on_timeout (KControl 1 RT_THREAD_CTRL_STARTUP) main_made).

Lemma booted_ok : kernel_ok 0 booted.
Proof.
  assert (kernel_ok 0 main_made) as Hk1 by (apply (kop_state 0 on_timeout _); [exact idle_alone_ok|by split_and!]).
  assert (kernel_ok 0 main_started) as Hk2.
  { apply (kop_state 0 on_timeout _ _ _ Hk1). exists (MkThr RT_THREAD_INIT 10 10 0 20 20 RT_EOK true false false).
    split; vm_compute; reflexivity. }
  assert (booted = MkKernel ((sch main_started) <| rt_current_priority := 0 |>) (tim main_started)) as ->; [|by apply kernel_ok_current_priority].
  vm_compute. reflexivity.
Qed.

Lemma kstep_state idle user_timeout woken `{!TimeoutSafe idle user_timeout woken} op k : kernel_ok idle k -> allowed idle op k ->
  kstep idle user_timeout k op (state_of (run_kop user_timeout op k)).
Proof.
  intros Hk Ha. apply kstep_run; [done|]. destruct (kop_ok idle user_timeout woken op k Hk Ha) as (k' & E & _). by rewrite E.
Qed.

Definition slept : kernel := state_of (run_kop on_timeout (KSleep 3) booted).
Definition slept1 : kernel := state_of (run_kop on_timeout KTick slept).
Definition slept2 : kernel := state_of (run_kop on_timeout KTick slept1).
Definition slept3 : kernel := state_of (run_kop on_timeout KTick slept2).

Lemma slept_ok : kernel_ok 0 slept /\ kernel_ok 0 slept1 /\ kernel_ok 0 slept2.
Proof.
  assert (kernel_ok 0 slept) as H by (apply (kop_state 0 on_timeout _ _ _ booted_ok); vm_compute; by repeat split).
  assert (kernel_ok 0 slept1) as H1 by by apply (kop_state 0 on_timeout _ _ _ H).
  refine (conj H (conj H1 _)). by apply (kop_state 0 on_timeout _ _ _ H1).
Qed.

Lemma main_not_woken : ~ affects (fun n x => x ∈ wakes n) KTick 1.
Proof.
  intros [n Hn]. unfold wakes in Hn. case_match; [by apply list_elem_of_singleton in Hn|by apply not_elem_of_nil in Hn].
Qed.

(** ** What the kernel guarantees *)





(** the start of the system, rtthread_startup, puts the main thread on the
    processor with the idle thread READY, in a state of the kernel that is in order. *)
Theorem kernel_boots : exists k, rtthread_startup 1 0 kernel0 = Ok (tt, k) /\ kernel_ok 0 k /\ runs (sch k) 1 /\
  rt_thread_priority_table (sch k) !! 31%nat = Some [0].
Proof.
  exists booted. split_and!; [vm_compute; reflexivity|exact booted_ok| |vm_compute; reflexivity].
  split; [vm_compute; reflexivity|]. eexists. split; vm_compute; reflexivity.
Qed.



(** rt_thread_mdelay with a negative time does not wait for ever, as its
    conversion to ticks says: the time becomes RT_WAITING_FOREVER, that is the tick
    count 0xFFFFFFFF, and the assertion of rt_timer_start on it fails. *)
Theorem mdelay_forever_asserts idle k c ms : kernel_ok idle k -> rt_current_thread (sch k) = Some c -> c <> idle -> ms < 0 ->
  rt_thread_mdelay ms k = Fault FAssert.
Proof.
  intros Hk Hc Hid Hms. destruct (kernel_current _ k Hk) as (c' & t & Hc' & Ht & Hs). assert (c' = c) as -> by congruence.
  destruct Hk as [Hi Hcpu]. pose proof (current_object _ _ _ _ _ _ Hi Ht Hs) as Ho.
  destruct (suspend_ok idle 0 k c t Hi Ht (or_intror Hs) Hid) as (k1 & E1 & Hi1 & _ & _ & Ht1 & _).
  destruct (thread_timer _ _ _ _ _ _ Hi1 Ht1) as (_ & tm & Htm & _); [by rewrite stat_of_with|].
  unfold rt_thread_mdelay, rt_tick_from_millisecond. rewrite (proj2 (Z.ltb_lt ms 0)) by done. change (u32 RT_WAITING_FOREVER) with 0xFFFFFFFF.
  unfold rt_thread_sleep. erewrite run_current by exact Hc. erewrite run_object by done. erewrite run_bind_ok by exact E1.
  erewrite run_tmr by (unfold rt_timer_control; erewrite run_get_timer by exact Htm; reflexivity).
  apply run_bind_fault. unfold tmr, zoom. rewrite (long_timer_asserts (ThreadTimer c) (tm <| tm_init_tick := 0xFFFFFFFF |>)); [done| |done].
  cbn. by rewrite lookup_insert_eq.
Qed.

Lemma mdelay_forever_asserts_witness : rt_thread_mdelay (-1) booted = Fault FAssert.
Proof. apply (mdelay_forever_asserts 0 booted 1 (-1) booted_ok); [vm_compute; reflexivity|lia|lia]. Defined.
