(* ===== verification/Cyclic.v ===== *)
(** * Cyclic arrays

    What an array used as a ring holds: [cyc], with the effect of writing behind
    the data and of reading from the front.  Shared by the byte ring buffer and
    the kernel mailbox. *)
From S2P Require Import Prelude.

Section Cyc.
Context {A : Type}.
Implicit Types b data ptr : list A.

(** [n] cells of the ring of size [sz] held in [b], from cell [r] on. *)
Definition cyc (b : list A) (sz r n : Z) : list A :=
  take (Z.to_nat n)
    (drop (Z.to_nat r) (take (Z.to_nat sz) b) ++ take (Z.to_nat r) (take (Z.to_nat sz) b)).

Lemma cyc_length b sz r n : 0 <= n <= sz -> sz <= Z.of_nat (length b) -> 0 <= r < sz ->
  length (cyc b sz r n) = Z.to_nat n.
Proof. intros. unfold cyc. rewrite length_take, length_app, length_drop, !length_take. lia. Qed.

Lemma cyc_lookup b sz r n (i : nat) :
  0 <= n <= sz -> sz <= Z.of_nat (length b) -> 0 <= r < sz -> Z.of_nat i < n ->
  cyc b sz r n !! i = b !! Z.to_nat ((r + Z.of_nat i) mod sz).
Proof.
  intros. unfold cyc. rewrite lookup_take, decide_True, mod_wrap by lia.
  case_decide.
  - rewrite lookup_app_l by (rewrite length_drop, length_take; lia).
    rewrite lookup_drop, lookup_take, decide_True by lia. f_equal. lia.
  - rewrite lookup_app_r by (rewrite length_drop, length_take; lia).
    rewrite length_drop, length_take, !lookup_take, !decide_True by lia. f_equal. lia.
Qed.

(** Writing [k] cells after the data, overwriting the oldest when it overflows. *)
Lemma cyc_write b b' data sz r n k :
  0 <= n <= sz -> sz <= Z.of_nat (length b) -> length b' = length b -> 0 <= r < sz ->
  0 <= k <= sz -> k <= Z.of_nat (length data) ->
  (forall j : nat, Z.of_nat j < sz ->
     b' !! j = if decide ((Z.of_nat j - (r + n)) mod sz < k)
               then data !! Z.to_nat ((Z.of_nat j - (r + n)) mod sz) else b !! j) ->
  let ex := Z.max 0 (n + k - sz) in
  cyc b' sz ((r + ex) mod sz) (n + k - ex)
    = drop (Z.to_nat ex) (cyc b sz r n ++ take (Z.to_nat k) data).
Proof.
  intros Hn Hb Hb' Hr Hk Hd Hw ex.
  assert (0 <= (r + ex) mod sz < sz) by (apply Z.mod_pos_bound; lia).
  apply list_eq_same_length with (n := Z.to_nat (n + k - ex)).
  { rewrite length_drop, length_app, cyc_length, length_take; lia. }
  { rewrite cyc_length; lia. }
  intros i x y Hi Hx Hy. revert Hx Hy.
  rewrite cyc_lookup, Zplus_mod_idemp_l by lia.
  assert (0 <= (r + ex + Z.of_nat i) mod sz < sz) by (apply Z.mod_pos_bound; lia).
  rewrite Hw, Z2Nat.id, <- Zminus_mod_idemp_l, Z.mod_mod by lia.
  rewrite Zminus_mod_idemp_l, lookup_drop.
  replace (r + ex + Z.of_nat i - (r + n)) with (ex + Z.of_nat i - n) by lia.
  destruct (decide (n <= ex + Z.of_nat i)).
  - rewrite (Z.mod_small (_ - n)), decide_True by lia.
    rewrite lookup_app_r, cyc_length, lookup_take, decide_True by (rewrite ?cyc_length; lia).
    replace (Z.to_nat ex + i - Z.to_nat n)%nat with (Z.to_nat (ex + Z.of_nat i - n)) by lia.
    congruence.
  - rewrite mod_wrap_neg, decide_False by lia.
    rewrite lookup_app_l, cyc_lookup by (rewrite ?cyc_length; lia).
    replace (r + Z.of_nat (Z.to_nat ex + i)) with (r + ex + Z.of_nat i) by lia. congruence.
Qed.

Lemma cyc_take b sz r n k :
  0 <= k <= n -> n <= sz -> sz <= Z.of_nat (length b) -> 0 <= r < sz ->
  cyc b sz r k = take (Z.to_nat k) (cyc b sz r n).
Proof.
  intros. unfold cyc. rewrite (take_take (_ ++ _)). f_equal. lia.
Qed.

Lemma cyc_drop b sz r n k :
  0 <= k <= n -> n <= sz -> sz <= Z.of_nat (length b) -> 0 <= r < sz ->
  cyc b sz ((r + k) mod sz) (n - k) = drop (Z.to_nat k) (cyc b sz r n).
Proof.
  intros. assert (0 <= (r + k) mod sz < sz) by (apply Z.mod_pos_bound; lia).
  apply list_eq_same_length with (n := Z.to_nat (n - k)).
  { rewrite length_drop, cyc_length; lia. }
  { rewrite cyc_length; lia. }
  intros i x y Hi Hx Hy. revert Hx Hy.
  rewrite lookup_drop, !cyc_lookup, Zplus_mod_idemp_l by lia.
  replace (r + Z.of_nat (Z.to_nat k + i)) with (r + k + Z.of_nat i) by lia. congruence.
Qed.

(** An array whose first [k] cells are those of the ring. *)
Lemma cyc_prefix b sz r k (p p' : list A) :
  0 <= k <= sz -> sz <= Z.of_nat (length b) -> 0 <= r < sz ->
  (forall i : nat, p' !! i = if decide (Z.of_nat i < k)
                             then b !! Z.to_nat ((r + Z.of_nat i) mod sz) else p !! i) ->
  p' = cyc b sz r k ++ drop (Z.to_nat k) p.
Proof.
  intros Hk Hb Hr Hp. apply list_eq. intros i. rewrite Hp. case_decide.
  - rewrite lookup_app_l, cyc_lookup by (rewrite ?cyc_length; lia). done.
  - rewrite lookup_app_r, cyc_length, lookup_drop by (rewrite ?cyc_length; lia). f_equal. lia.
Qed.

(** ** Data laid around the ring *)

(** [k] cells of [ptr] from [off] on, laid around the ring from cell [w]. *)
Definition laid (b b' ptr : list A) (sz w off k : Z) : Prop :=
  length b' = length b /\
  forall j : nat, Z.of_nat j < sz ->
    b' !! j = if decide ((Z.of_nat j - w) mod sz < k)
              then drop (Z.to_nat off) ptr !! Z.to_nat ((Z.of_nat j - w) mod sz)
              else b !! j.

Lemma laid_straight b ptr sz w off k :
  0 <= w -> 0 <= k -> w + k < sz -> sz <= Z.of_nat (length b) ->
  0 <= off -> off + k <= Z.of_nat (length ptr) ->
  exists b', memcpy b w ptr off k = Ok b' /\ laid b b' ptr sz w off k.
Proof.
  intros. destruct (memcpy_total b w ptr off k) as [b' Hm]; [lia..|].
  exists b'. split; [done|]. split; [by eapply memcpy_length|]. intros j Hj.
  rewrite (memcpy_lookup _ _ _ _ _ _ j Hm), lookup_drop.
  destruct (decide (Z.of_nat j < w)).
  - by rewrite mod_wrap_neg, !decide_False by lia.
  - rewrite Z.mod_small by lia. repeat case_decide; try lia; [f_equal; lia|done].
Qed.

Lemma laid_around b ptr sz w off k :
  0 <= w < sz -> sz - w <= k <= sz -> sz <= Z.of_nat (length b) ->
  0 <= off -> off + k <= Z.of_nat (length ptr) ->
  exists b1 b', memcpy b w ptr off (sz - w) = Ok b1 /\
    memcpy b1 0 ptr (off + (sz - w)) (k - (sz - w)) = Ok b' /\ laid b b' ptr sz w off k.
Proof.
  intros. destruct (memcpy_total b w ptr off (sz - w)) as [b1 Hm1]; [lia..|].
  pose proof (memcpy_length _ _ _ _ _ _ Hm1).
  destruct (memcpy_total b1 0 ptr (off + (sz - w)) (k - (sz - w))) as [b' Hm2]; [lia..|].
  exists b1, b'. split; [done|]. split; [done|].
  pose proof (memcpy_length _ _ _ _ _ _ Hm2). split; [lia|]. intros j Hj.
  rewrite (memcpy_lookup _ _ _ _ _ _ j Hm2), (memcpy_lookup _ _ _ _ _ _ j Hm1), lookup_drop.
  destruct (decide (Z.of_nat j < w)).
  - rewrite mod_wrap_neg by lia. repeat case_decide; try lia; [f_equal; lia|done].
  - rewrite Z.mod_small by lia. repeat case_decide; try lia; [f_equal; lia..].
Qed.

(** A single cell written at the write index. *)
Lemma laid_one b sz w ch :
  0 <= w < sz -> sz <= Z.of_nat (length b) ->
  laid b (<[Z.to_nat w := ch]> b) [ch] sz w 0 1.
Proof.
  intros. split; [apply length_insert|]. intros j Hj.
  destruct (decide (Z.of_nat j = w)) as [<-|].
  - rewrite Z.sub_diag, Z.mod_0_l, decide_True, Nat2Z.id, list_lookup_insert_eq by lia. done.
  - rewrite list_lookup_insert_ne by lia. rewrite decide_False; [done|].
    destruct (decide (Z.of_nat j < w)); [rewrite mod_wrap_neg | rewrite Z.mod_small]; lia.
Qed.
(** The cell behind the data, and the first cell. *)
Lemma cyc_snoc b sz r n x : sz <= Z.of_nat (length b) -> 0 <= r < sz -> 0 <= n < sz ->
  cyc (<[Z.to_nat ((r + n) mod sz) := x]> b) sz r (n + 1) = cyc b sz r n ++ [x].
Proof.
  intros Hb Hr Hn. pose proof (Z.mod_pos_bound (r + n) sz ltac:(lia)).
  pose proof (cyc_write b (<[Z.to_nat ((r + n) mod sz) := x]> b) [x] sz r n 1) as Hc. cbn zeta in Hc.
  rewrite Z.max_l, Z.add_0_r, (Z.mod_small r), Z.sub_0_r in Hc by lia. apply Hc; clear Hc; [lia|lia|apply length_insert|lia|lia|cbn; lia|].
  intros j Hj. destruct (laid_one b sz ((r + n) mod sz) x) as [_ Hl]; [lia|lia|]. by rewrite (Hl j Hj), Zminus_mod_idemp_r.
Qed.

Lemma cyc_cons b sz r n : sz <= Z.of_nat (length b) -> 0 <= r < sz -> 0 < n <= sz ->
  exists x, zget b r = Ok x /\ cyc b sz r n = x :: cyc b sz ((r + 1) mod sz) (n - 1).
Proof.
  intros Hb Hr Hn. destruct (zget_ok b r) as (x & E & Hx); [lia|]. exists x. split; [done|].
  rewrite (cyc_drop b sz r n 1) by lia. pose proof (cyc_lookup b sz r n 0) as H0.
  rewrite Z.add_0_r, Z.mod_small, Hx in H0 by lia.
  destruct (cyc b sz r n); [by specialize (H0 ltac:(lia) ltac:(lia) ltac:(lia) ltac:(lia))|]. by injection H0 as ->; try lia.
Qed.
End Cyc.
