(* ===== verification/ByteQueue.v ===== *)
(** * Bounded byte queues: the contract of a byte buffer

    What a device driver relies on when it stores received bytes: a bounded
    FIFO.  [ByteQueue] is the interface, its laws say that an implementation
    simulates [spec_step], and the client theorems (delivery in order, nothing
    lost, nothing invented) are proved against the interface alone. *)
From S2P Require Import Prelude.

Inductive bq_op :=
  | OpPut (data : list Z)
  | OpPutchar (ch : Z)
  | OpPutcharForce (ch : Z)
  | OpGet (len : Z)
  | OpGetchar
  | OpReset.

Inductive bq_reply :=
  | RCount (n : Z)
  | RBytes (bytes : list Z)
  | RByte (ch : option Z)
  | RUnit.

(** Lengths travel through [rt_uint16_t] parameters. *)
Definition op_ok (op : bq_op) : Prop :=
  match op with
  | OpPut data => (Z.of_nat (length data) < 65536)%Z
  | OpGet len => 0 <= len < 65536
  | _ => True
  end.

(** One operation on a queue [q] of capacity [cap]. *)
Definition spec_step (cap : nat) (op : bq_op) (q : list Z) : bq_reply * list Z :=
  match op with
  | OpPut data =>
      let k := Nat.min (length data) (cap - length q) in
      (RCount (Z.of_nat k), q ++ take k data)
  | OpPutchar ch =>
      if decide (length q < cap)%nat then (RCount 1, q ++ [ch]) else (RCount 0, q)
  | OpPutcharForce ch => (RCount 1, drop (S (length q) - cap) (q ++ [ch]))
  | OpGet len =>
      let k := Nat.min (Z.to_nat len) (length q) in (RBytes (take k q), drop k q)
  | OpGetchar => (RByte (head q), tail q)
  | OpReset => (RUnit, [])
  end.

Class ByteQueue (S : Type) := {
  bq_run : bq_op -> M S bq_reply;
  bq_repr : S -> nat -> list Z -> Prop;
  bq_capacity : forall s cap q, bq_repr s cap q -> (length q <= cap)%nat;
  bq_simulates : forall s cap q op,
    bq_repr s cap q -> op_ok op ->
    exists s', bq_run op s = Ok ((spec_step cap op q).1, s') /\
               bq_repr s' cap (spec_step cap op q).2
}.

(** ** Sequences of operations *)
Section Client.
Context {S : Type} {Q : ByteQueue S}.

Fixpoint run_ops (ops : list bq_op) : M S (list bq_reply) :=
  match ops with
  | [] => mret []
  | op :: ops => r ← bq_run op; rs ← run_ops ops; mret (r :: rs)
  end.

Fixpoint spec_ops (cap : nat) (ops : list bq_op) (q : list Z) : list bq_reply * list Z :=
  match ops with
  | [] => ([], q)
  | op :: ops =>
      let '(r, q) := spec_step cap op q in
      let '(rs, q) := spec_ops cap ops q in (r :: rs, q)
  end.

Lemma run_ops_simulates ops : forall s cap q,
  bq_repr s cap q -> Forall op_ok ops ->
  exists s', run_ops ops s = Ok ((spec_ops cap ops q).1, s') /\
             bq_repr s' cap (spec_ops cap ops q).2.
Proof.
  induction ops as [|op ops IH]; intros s cap q Hs Hok; inversion_clear Hok; cbn.
  - by exists s.
  - destruct (bq_simulates s cap q op) as (s1 & Hr & Hs1); [done..|].
    rewrite (run_bind_ok _ _ _ _ _ Hr).
    destruct (spec_step cap op q) as [r q1]; cbn in *.
    destruct (IH s1 cap q1) as (s2 & Hr2 & Hs2); [done..|].
    rewrite (run_bind_ok _ _ _ _ _ Hr2).
    destruct (spec_ops cap ops q1) as [rs q2]. by exists s2.
Qed.

(** Bytes a reply delivers, and bytes an operation handed over. *)
Definition delivered (r : bq_reply) : list Z :=
  match r with RBytes l => l | RByte (Some ch) => [ch] | _ => [] end.

Definition accepted (op : bq_op) (r : bq_reply) : list Z :=
  match op, r with
  | OpPut data, RCount n => take (Z.to_nat n) data
  | OpPutchar ch, RCount n => if n =? 1 then [ch] else []
  | _, _ => []
  end.

(** Operations that never discard stored bytes. *)
Definition keeps (op : bq_op) : bool :=
  match op with OpPutcharForce _ | OpReset => false | _ => true end.

Lemma spec_step_conserves cap op q : keeps op = true ->
  q ++ accepted op (spec_step cap op q).1
    = delivered (spec_step cap op q).1 ++ (spec_step cap op q).2.
Proof.
  destruct op; cbn; intros H; try done.
  - by rewrite Nat2Z.id.
  - by case_decide; cbn; rewrite ?app_nil_r.
  - by rewrite app_nil_r, take_drop.
  - by destruct q; rewrite ?app_nil_r.
Qed.

Lemma spec_ops_conserves cap ops : forall q,
  forallb keeps ops = true ->
  q ++ concat (zip_with accepted ops (spec_ops cap ops q).1)
    = concat (map delivered (spec_ops cap ops q).1) ++ (spec_ops cap ops q).2.
Proof.
  induction ops as [|op ops IH]; intros q H; cbn in *; [by rewrite app_nil_r|].
  apply andb_true_iff in H as [Hop Hops].
  pose proof (spec_step_conserves cap op q Hop) as Hc.
  destruct (spec_step cap op q) as [r q1]; cbn in Hc.
  specialize (IH q1 Hops). destruct (spec_ops cap ops q1) as [rs q2]; cbn in *.
  by rewrite app_assoc, Hc, <- !app_assoc, IH.
Qed.

(** Delivery in order: what comes out, followed by what is still stored, is what
    was stored followed by what was accepted. *)
Lemma run_ops_fifo s cap q ops :
  bq_repr s cap q -> Forall op_ok ops -> forallb keeps ops = true ->
  exists rs s' q', run_ops ops s = Ok (rs, s') /\ bq_repr s' cap q' /\
    (length q' <= cap)%nat /\
    q ++ concat (zip_with accepted ops rs) = concat (map delivered rs) ++ q'.
Proof.
  intros Hs Hok Hk. destruct (run_ops_simulates ops s cap q) as (s' & Hr & Hs'); [done..|].
  eexists _, s', _. split; [exact Hr|]. split; [exact Hs'|].
  split; [by eapply bq_capacity|]. by apply spec_ops_conserves.
Qed.
End Client.
