(* ===== verification/RingBuffer.v ===== *)
(** * Ring buffer (src/drivers/src/ringbuffer.c)

    The mirrored circular buffer of the device drivers: its record, one
    definition per function of the C file, the abstract byte queue it
    represents, and the theorems that each operation refines the queue.

    The struct's bit fields keep their widths ([u1] mirrors, [u15] indices);
    every access to [buffer_ptr] and to the caller's array is bounds-checked by
    [memcpy], [zget] and [zset].  The tests [rb != RT_NULL] are not modelled:
    the record is the object the pointer designates. *)
From S2P Require Import Prelude Cyclic ByteQueue.

(** ** The C definitions *)
Record rt_ringbuffer := MkRb {
  buffer_ptr : list Z;
  read_mirror : Z;
  read_index : Z;
  write_mirror : Z;
  write_index : Z;
  buffer_size : Z
}.

#[export] Instance rt_ringbuffer_eta : Eta rt_ringbuffer := fun r =>
  MkRb (buffer_ptr r) (read_mirror r) (read_index r)
       (write_mirror r) (write_index r) (buffer_size r).

Inductive rt_ringbuffer_state :=
  | RT_RINGBUFFER_EMPTY
  | RT_RINGBUFFER_FULL
  | RT_RINGBUFFER_HALFFULL.

#[export] Instance rt_ringbuffer_state_eq_dec : EqDecision rt_ringbuffer_state.
Proof. solve_decision. Defined.

Definition RT_ALIGN_SIZE : Z := 4.
Definition RT_ALIGN_DOWN (size align : Z) : Z := Z.land size (Z.lnot (align - 1)).

(** [~mirror] stored back into a one-bit field. *)
Definition flip (mirror : Z) : Z := u1 (Z.lnot mirror).

Definition rt_ringbuffer_status (rb : rt_ringbuffer) : rt_ringbuffer_state :=
  if read_index rb =? write_index rb then
    if read_mirror rb =? write_mirror rb then RT_RINGBUFFER_EMPTY
    else RT_RINGBUFFER_FULL
  else RT_RINGBUFFER_HALFFULL.

Definition rt_ringbuffer_data_len (rb : rt_ringbuffer) : Z :=
  match rt_ringbuffer_status rb with
  | RT_RINGBUFFER_EMPTY => 0
  | RT_RINGBUFFER_FULL => u32 (buffer_size rb)
  | RT_RINGBUFFER_HALFFULL =>
      if write_index rb >? read_index rb then u32 (write_index rb - read_index rb)
      else u32 (buffer_size rb - (read_index rb - write_index rb))
  end.

Definition rt_ringbuffer_space_len (rb : rt_ringbuffer) : Z :=
  u32 (buffer_size rb - rt_ringbuffer_data_len rb).

Definition rt_ringbuffer_get_size (rb : rt_ringbuffer) : Z := u16 (buffer_size rb).

Definition rt_ringbuffer_init (pool : list Z) (size : Z) : M rt_ringbuffer unit :=
  RT_ASSERT (size >? 0);;
  read_index ::= 0;; read_mirror ::= 0;;
  write_index ::= 0;; write_mirror ::= 0;;
  buffer_ptr ::= pool;;
  buffer_size ::= RT_ALIGN_DOWN size RT_ALIGN_SIZE.

Definition rt_ringbuffer_reset : M rt_ringbuffer unit :=
  read_mirror ::= 0;; read_index ::= 0;;
  write_mirror ::= 0;; write_index ::= 0.

Definition rt_ringbuffer_put (ptr : list Z) (len : Z) : M rt_ringbuffer Z :=
  rb ← gets id;
  let size := u16 (rt_ringbuffer_space_len rb) in
  if size =? 0 then mret 0 else
  let len := if size <? len then size else len in
  let tail := buffer_size rb - write_index rb in
  if tail >? len then
    b ← lift (memcpy (buffer_ptr rb) (write_index rb) ptr 0 len);
    buffer_ptr ::= b;;
    write_index ::= u15 (write_index rb + len);;
    mret len
  else
    b ← lift (memcpy (buffer_ptr rb) (write_index rb) ptr 0 tail);
    b ← lift (memcpy b 0 ptr tail (len - tail));
    buffer_ptr ::= b;;
    write_mirror ::= flip (write_mirror rb);;
    write_index ::= u15 (len - tail);;
    mret len.

Definition rt_ringbuffer_put_force (ptr : list Z) (len : Z) : M rt_ringbuffer Z :=
  rb ← gets id;
  let space_length := u16 (rt_ringbuffer_space_len rb) in
  let skipped := if len >? buffer_size rb then len - buffer_size rb else 0 in
  let len := if len >? buffer_size rb then u16 (buffer_size rb) else len in
  let tail := buffer_size rb - write_index rb in
  if tail >? len then
    b ← lift (memcpy (buffer_ptr rb) (write_index rb) ptr skipped len);
    buffer_ptr ::= b;;
    write_index ::= u15 (write_index rb + len);;
    w ← gets write_index;
    (when len >? space_length do (read_index ::= w));;
    mret len
  else
    b ← lift (memcpy (buffer_ptr rb) (write_index rb) ptr skipped tail);
    b ← lift (memcpy b 0 ptr (skipped + tail) (len - tail));
    buffer_ptr ::= b;;
    write_mirror ::= flip (write_mirror rb);;
    write_index ::= u15 (len - tail);;
    w ← gets write_index;
    (when len >? space_length do
      (read_mirror ::= flip (read_mirror rb);; read_index ::= w));;
    mret len.

(** The caller's array [ptr] is returned as the copy leaves it. *)
Definition rt_ringbuffer_get (ptr : list Z) (len : Z) : M rt_ringbuffer (Z * list Z) :=
  rb ← gets id;
  let size := rt_ringbuffer_data_len rb in
  if size =? 0 then mret (0, ptr) else
  let len := if size <? len then u16 size else len in
  let tail := buffer_size rb - read_index rb in
  if tail >? len then
    p ← lift (memcpy ptr 0 (buffer_ptr rb) (read_index rb) len);
    read_index ::= u15 (read_index rb + len);;
    mret (len, p)
  else
    p ← lift (memcpy ptr 0 (buffer_ptr rb) (read_index rb) tail);
    p ← lift (memcpy p tail (buffer_ptr rb) 0 (len - tail));
    read_mirror ::= flip (read_mirror rb);;
    read_index ::= u15 (len - tail);;
    mret (len, p).

Definition rt_ringbuffer_putchar (ch : Z) : M rt_ringbuffer Z :=
  rb ← gets id;
  if rt_ringbuffer_space_len rb =? 0 then mret 0 else
  b ← lift (zset (buffer_ptr rb) (write_index rb) ch);
  buffer_ptr ::= b;;
  (if write_index rb =? buffer_size rb - 1 then
     write_mirror ::= flip (write_mirror rb);; write_index ::= 0
   else write_index ::= u15 (write_index rb + 1));;
  mret 1.

Definition rt_ringbuffer_putchar_force (ch : Z) : M rt_ringbuffer Z :=
  rb ← gets id;
  let old_state := rt_ringbuffer_status rb in
  b ← lift (zset (buffer_ptr rb) (write_index rb) ch);
  buffer_ptr ::= b;;
  (if write_index rb =? buffer_size rb - 1 then
     write_mirror ::= flip (write_mirror rb);; write_index ::= 0;;
     w ← gets write_index;
     when bool_decide (old_state = RT_RINGBUFFER_FULL) do
       (read_mirror ::= flip (read_mirror rb);; read_index ::= w)
   else
     write_index ::= u15 (write_index rb + 1);;
     w ← gets write_index;
     when bool_decide (old_state = RT_RINGBUFFER_FULL) do (read_index ::= w));;
  mret 1.

(** [None]: the function returned 0 without writing [*ch]. *)
Definition rt_ringbuffer_getchar : M rt_ringbuffer (option Z) :=
  rb ← gets id;
  if rt_ringbuffer_data_len rb =? 0 then mret None else
  ch ← lift (zget (buffer_ptr rb) (read_index rb));
  (if read_index rb =? buffer_size rb - 1 then
     read_mirror ::= flip (read_mirror rb);; read_index ::= 0
   else read_index ::= u15 (read_index rb + 1));;
  mret (Some ch).

(** [sizeof(struct rt_ringbuffer)] on the 32-bit target. *)
Definition sizeof_rt_ringbuffer : Z := 12.

(** [rt_malloc] is a parameter: [malloc n] is the fresh block, if any. *)
Definition rt_ringbuffer_create (malloc : Z -> option (list Z)) (size : Z) :
    outcome (option rt_ringbuffer) :=
  if negb (size >? 0) then Fault FAssert else
  let size := u16 (RT_ALIGN_DOWN size RT_ALIGN_SIZE) in
  match malloc sizeof_rt_ringbuffer with
  | None => Ok None
  | Some _ =>
      match malloc size with
      | None => Ok None
      | Some pool =>
          '(_, rb) ← rt_ringbuffer_init pool (s16 size) (MkRb [] 0 0 0 0 0);
          Ok (Some rb)
      end
  end.

(** ** The byte queue a ring buffer represents *)

Definition contents (rb : rt_ringbuffer) : list Z :=
  cyc (buffer_ptr rb) (buffer_size rb) (read_index rb) (rt_ringbuffer_data_len rb).

Record wf (rb : rt_ringbuffer) : Prop := {
  wf_size : 0 < buffer_size rb < 32768;
  wf_pool : buffer_size rb <= Z.of_nat (length (buffer_ptr rb));
  wf_read : 0 <= read_index rb < buffer_size rb;
  wf_write : 0 <= write_index rb < buffer_size rb;
  wf_rmirror : read_mirror rb = 0 \/ read_mirror rb = 1;
  wf_wmirror : write_mirror rb = 0 \/ write_mirror rb = 1;
  wf_order : if decide (read_mirror rb = write_mirror rb)
             then read_index rb <= write_index rb
             else write_index rb <= read_index rb
}.

Lemma flip_bit m : m = 0 \/ m = 1 -> flip m = 1 - m.
Proof. by intros [-> | ->]. Qed.

Lemma flip_is_bit m : m = 0 \/ m = 1 -> flip m = 0 \/ flip m = 1.
Proof. intros [-> | ->]; auto. Qed.

#[export] Hint Resolve flip_is_bit : cmodel.

Lemma data_len_eq rb : wf rb ->
  rt_ringbuffer_data_len rb =
    if decide (read_mirror rb = write_mirror rb) then write_index rb - read_index rb
    else buffer_size rb - (read_index rb - write_index rb).
Proof.
  intros [? ? ? ? ? ? Ho]. unfold rt_ringbuffer_data_len, rt_ringbuffer_status.
  case_decide as Hm; rewrite ?Hm, ?Z.eqb_refl.
  - destruct (Z.eqb_spec (read_index rb) (write_index rb)); [lia|].
    rewrite (proj2 (Z.gtb_lt _ _)) by lia. apply u32_small; lia.
  - destruct (Z.eqb_spec (read_index rb) (write_index rb)).
    + rewrite (proj2 (Z.eqb_neq _ _)) by done. rewrite u32_small; lia.
    + destruct (Z.gtb_spec (write_index rb) (read_index rb)); [lia|]. apply u32_small; lia.
Qed.

Lemma data_len_bound rb : wf rb -> 0 <= rt_ringbuffer_data_len rb <= buffer_size rb.
Proof. intros H. rewrite data_len_eq by done. destruct H. repeat case_decide; lia. Qed.

Lemma space_len_eq rb : wf rb ->
  rt_ringbuffer_space_len rb = buffer_size rb - rt_ringbuffer_data_len rb.
Proof.
  intros H. pose proof (data_len_bound _ H). destruct H.
  apply u32_small. lia.
Qed.

(** The write index is the read index advanced by the data length. *)
Lemma write_index_eq rb : wf rb ->
  write_index rb = (read_index rb + rt_ringbuffer_data_len rb) mod buffer_size rb.
Proof.
  intros H. rewrite data_len_eq by done. destruct H.
  rewrite mod_wrap by (repeat case_decide; lia). repeat case_decide; lia.
Qed.

(** Data appended to the ring: the queue gains it, dropping the [ex] oldest bytes. *)
Lemma contents_appended rb rb' ptr off k :
  let n := rt_ringbuffer_data_len rb in
  let ex := Z.max 0 (n + k - buffer_size rb) in
  wf rb -> wf rb' -> buffer_size rb' = buffer_size rb ->
  laid (buffer_ptr rb) (buffer_ptr rb') ptr (buffer_size rb) (write_index rb) off k ->
  0 <= k <= buffer_size rb -> 0 <= off -> off + k <= Z.of_nat (length ptr) ->
  read_index rb' = (read_index rb + ex) mod buffer_size rb ->
  rt_ringbuffer_data_len rb' = n + k - ex ->
  contents rb' = drop (Z.to_nat ex) (contents rb ++ take (Z.to_nat k) (drop (Z.to_nat off) ptr)).
Proof.
  intros n ex Hwf Hwf' Hsz [Hlen Hlaid] Hk Hoff Hptr Hr Hn.
  unfold contents. rewrite Hsz, Hr, Hn.
  pose proof (data_len_bound _ Hwf). pose proof (write_index_eq _ Hwf) as Hw. destruct Hwf.
  apply cyc_write; rewrite ?length_drop; try lia.
  intros j Hj. rewrite Hlaid by done. rewrite Hw.
  by rewrite (Zminus_mod_idemp_r (Z.of_nat j)).
Qed.

(** Compute the fields of updated records; run the code. *)
Ltac rb_fields := cbv beta delta [upd id];
  cbn [buffer_ptr read_mirror read_index write_mirror write_index buffer_size].
Ltac rb_run := c_run; rb_fields.

(** Well-formedness of a record whose fields are known. *)
Ltac rb_wf :=
  constructor; rb_fields; rewrite ?flip_bit by done; repeat case_decide; try lia.

(** Appending [k] bytes: the outcome shared by [put] and [put_force]. *)
Definition appends (rb rb' : rt_ringbuffer) (data : list Z) : Prop :=
  wf rb' /\ buffer_size rb' = buffer_size rb /\
  contents rb' = contents rb ++ data.

(** Appending to a full ring: only the newest [buffer_size] bytes are kept. *)
Definition overwrites (rb rb' : rt_ringbuffer) (data : list Z) : Prop :=
  wf rb' /\ buffer_size rb' = buffer_size rb /\
  contents rb' = drop (length (contents rb ++ data) - Z.to_nat (buffer_size rb))
                   (contents rb ++ data).

(** Removing the [k] oldest bytes. *)
Definition removes (rb rb' : rt_ringbuffer) (k : Z) : Prop :=
  wf rb' /\ buffer_size rb' = buffer_size rb /\
  contents rb' = drop (Z.to_nat k) (contents rb).

Section Operations.
Context (rb : rt_ringbuffer) (Hwf : wf rb).

Lemma space_u16 :
  u16 (rt_ringbuffer_space_len rb) = buffer_size rb - rt_ringbuffer_data_len rb.
Proof.
  pose proof (data_len_bound _ Hwf). pose proof (wf_size _ Hwf).
  rewrite space_len_eq by done. apply u16_small. lia.
Qed.

Lemma appends_intro rb' ptr off k :
  wf rb' -> buffer_size rb' = buffer_size rb ->
  laid (buffer_ptr rb) (buffer_ptr rb') ptr (buffer_size rb) (write_index rb) off k ->
  0 <= off -> off + k <= Z.of_nat (length ptr) ->
  0 <= k <= buffer_size rb - rt_ringbuffer_data_len rb ->
  read_index rb' = read_index rb ->
  rt_ringbuffer_data_len rb' = rt_ringbuffer_data_len rb + k ->
  appends rb rb' (take (Z.to_nat k) (drop (Z.to_nat off) ptr)).
Proof.
  intros. pose proof (data_len_bound _ Hwf). split; [done|]. split; [done|].
  rewrite (contents_appended rb rb' ptr off k); try done; try lia.
  - by rewrite Z.max_l, drop_0 by lia.
  - rewrite Z.max_l, Z.add_0_r by lia. symmetry. destruct Hwf. rewrite Z.mod_small; lia.
Qed.

(** The goal [appends _ _ (take k (drop off ptr))], all fields being known. *)
Ltac rb_appends ptr off :=
  let H := fresh in rb_fields;
  match goal with |- appends _ ?r _ => assert (wf r) as H by rb_wf end;
  apply (appends_intro _ ptr off); rb_fields; try done; try lia;
  rewrite (data_len_eq _ H); rb_fields; rewrite ?flip_bit by done;
  repeat case_decide; lia.

Lemma put_outcome ptr len :
  0 <= len -> len <= Z.of_nat (length ptr) ->
  let k := Z.min len (buffer_size rb - rt_ringbuffer_data_len rb) in
  exists rb', rt_ringbuffer_put ptr len rb = Ok (k, rb') /\
    appends rb rb' (take (Z.to_nat k) ptr).
Proof.
  intros Hl Hp k. assert (k = Z.min len (buffer_size rb - rt_ringbuffer_data_len rb)) as Hk
    by done. clearbody k.
  pose proof (data_len_bound _ Hwf) as Hn.
  pose proof (data_len_eq _ Hwf) as Hd. pose proof Hwf as [? ? ? ? ? ? ?].
  unfold rt_ringbuffer_put. rb_run. rewrite space_u16.
  destruct (Z.eqb_spec (buffer_size rb - rt_ringbuffer_data_len rb) 0).
  { exists rb. replace k with 0 by lia. split; [done|]. unfold appends. by rewrite take_0, app_nil_r. }
  replace (if _ <? len then _ else len) with k by (destruct (Z.ltb_spec (buffer_size rb - rt_ringbuffer_data_len rb) len); lia).
  destruct (Z.gtb_spec (buffer_size rb - write_index rb) k).
  - destruct (laid_straight (buffer_ptr rb) ptr (buffer_size rb) (write_index rb) 0 k)
      as (b' & -> & Hlaid); [lia..|]. rb_run.
    rewrite u15_small by lia. eexists. split; [done|].
    pose proof (proj1 Hlaid). rb_appends ptr 0.
  - destruct (laid_around (buffer_ptr rb) ptr (buffer_size rb) (write_index rb) 0 k)
      as (b1 & b' & -> & Hm & Hlaid); [lia..|]. rb_run. rewrite Z.add_0_l in Hm. rewrite Hm. rb_run.
    rewrite u15_small by lia. eexists. split; [done|].
    pose proof (proj1 Hlaid). rb_appends ptr 0.
Qed.

(** Bytes overwritten by [put_force] and [putchar_force]: the newest [size] remain. *)
Lemma overwrites_intro rb' ptr off k :
  let ex := Z.max 0 (rt_ringbuffer_data_len rb + k - buffer_size rb) in
  wf rb' -> buffer_size rb' = buffer_size rb ->
  laid (buffer_ptr rb) (buffer_ptr rb') ptr (buffer_size rb) (write_index rb) off k ->
  0 <= off -> off + k <= Z.of_nat (length ptr) -> 0 <= k <= buffer_size rb ->
  read_index rb' = (if decide (ex = 0) then read_index rb else write_index rb') ->
  rt_ringbuffer_data_len rb' = rt_ringbuffer_data_len rb + k - ex ->
  write_index rb' = (write_index rb + k) mod buffer_size rb ->
  overwrites rb rb' (take (Z.to_nat k) (drop (Z.to_nat off) ptr)).
Proof.
  intros ex Hwf' Hsz Hlaid Hoff Hptr Hk Hr Hn Hw.
  pose proof (data_len_bound _ Hwf). pose proof (write_index_eq _ Hwf) as Hwi.
  split; [done|]. split; [done|].
  rewrite (contents_appended rb rb' ptr off k); try done.
  - f_equal. rewrite length_app, length_take, length_drop. unfold contents.
    destruct Hwf. rewrite cyc_length; lia.
  - rewrite Hr. fold ex. destruct Hwf, (decide (ex = 0)) as [He|He].
    + by rewrite He, Z.add_0_r, Z.mod_small by lia.
    + rewrite Hw, Hwi, Zplus_mod_idemp_l.
      replace (read_index rb + rt_ringbuffer_data_len rb + k)
        with (read_index rb + ex + 1 * buffer_size rb) by lia.
      by rewrite Z_mod_plus_full.
Qed.

Ltac rb_overwrites :=
  let H := fresh in rb_fields;
  match goal with |- overwrites _ ?r _ => assert (wf r) as H by rb_wf end;
  apply overwrites_intro; rb_fields; try done; try lia;
  [ repeat case_decide; lia
  | rewrite (data_len_eq _ H); rb_fields; rewrite ?flip_bit by done;
    repeat case_decide; lia
  | rewrite mod_wrap by lia; repeat case_decide; lia ].

Let space := buffer_size rb - rt_ringbuffer_data_len rb.

Lemma put_force_outcome ptr len :
  0 <= len -> len <= Z.of_nat (length ptr) ->
  let k := Z.min len (buffer_size rb) in
  let lost := k > space /\ read_mirror rb = write_mirror rb in
  exists rb', rt_ringbuffer_put_force ptr len rb = Ok (k, rb') /\
    (~ lost -> overwrites rb rb' (take (Z.to_nat k) (drop (Z.to_nat (len - k)) ptr))) /\
    (lost -> wf rb' /\ contents rb' = []).
Proof.
  intros Hl Hp k lost. assert (k = Z.min len (buffer_size rb)) as Hk by done. clearbody k.
  assert (space = buffer_size rb - rt_ringbuffer_data_len rb) as Hs by done.
  pose proof (data_len_bound _ Hwf) as Hn.
  pose proof (data_len_eq _ Hwf) as Hd. pose proof Hwf as [? ? ? ? ? ? ?].
  unfold rt_ringbuffer_put_force. rb_run. rewrite space_u16, <- Hs.
  rewrite (u16_small (buffer_size rb)) by lia.
  replace (if len >? _ then _ else len) with k by (destruct (Z.gtb_spec len (buffer_size rb)); lia).
  replace (if len >? _ then _ else 0) with (len - k)
    by (destruct (Z.gtb_spec len (buffer_size rb)); lia).
  destruct (Z.gtb_spec (buffer_size rb - write_index rb) k).
  - destruct (laid_straight (buffer_ptr rb) ptr (buffer_size rb) (write_index rb) (len - k) k)
      as (b' & -> & Hlaid); [lia..|]. rb_run. rewrite u15_small by lia.
    pose proof (proj1 Hlaid). subst lost.
    destruct (Z.gtb_spec k space); rb_run; (eexists; split; [done|]).
    + split; [|intros [_ Hm]; exfalso; repeat case_decide; (congruence || lia)].
      intros _. rb_overwrites.
    + split; [intros _; rb_overwrites | lia].
  - destruct (laid_around (buffer_ptr rb) ptr (buffer_size rb) (write_index rb) (len - k) k)
      as (b1 & b' & -> & Hm & Hlaid); [lia..|]. rb_run. rewrite Hm. rb_run.
    rewrite u15_small by lia. pose proof (proj1 Hlaid). subst lost.
    destruct (Z.gtb_spec k space); rb_run; (eexists; split; [done|]).
    + split.
      * intros Hnl. assert (read_mirror rb <> write_mirror rb) by (intros ?; apply Hnl; lia).
        rb_overwrites.
      * intros [_ He]. match goal with |- wf ?r /\ _ => assert (wf r) as Hwf' by rb_wf end.
        split; [done|]. unfold contents. rewrite (data_len_eq _ Hwf'). rb_fields.
        by rewrite He, decide_True, Z.sub_diag by done.
    + split; [intros _; rb_overwrites | lia].
Qed.

Lemma putchar_outcome ch :
  rt_ringbuffer_data_len rb < buffer_size rb ->
  exists rb', rt_ringbuffer_putchar ch rb = Ok (1, rb') /\ appends rb rb' [ch].
Proof.
  intros Hn'. pose proof (data_len_bound _ Hwf) as Hn.
  pose proof (data_len_eq _ Hwf) as Hd. pose proof Hwf as [? ? ? ? ? ? ?].
  unfold rt_ringbuffer_putchar. rb_run. rewrite space_len_eq by done.
  destruct (Z.eqb_spec (buffer_size rb - rt_ringbuffer_data_len rb) 0); [lia|].
  rewrite zset_ok by lia. rb_run.
  destruct (laid_one (buffer_ptr rb) (buffer_size rb) (write_index rb) ch) as [Hl1 Hl2]; [lia..|].
  destruct (Z.eqb_spec (write_index rb) (buffer_size rb - 1)); rb_run;
    rewrite ?u15_small by lia; (eexists; split; [done|]);
    change (appends rb ?r [ch]) with (appends rb r (take (Z.to_nat 1) (drop (Z.to_nat 0) [ch])));
    rb_appends [ch] 0.
Qed.

Lemma putchar_force_outcome ch :
  exists rb', rt_ringbuffer_putchar_force ch rb = Ok (1, rb') /\ overwrites rb rb' [ch].
Proof.
  pose proof (data_len_bound _ Hwf) as Hn.
  pose proof (data_len_eq _ Hwf) as Hd. pose proof Hwf as [? ? ? ? ? ? ?].
  destruct (laid_one (buffer_ptr rb) (buffer_size rb) (write_index rb) ch) as [Hl1 Hl2]; [lia..|].
  unfold rt_ringbuffer_putchar_force. rb_run. rewrite zset_ok by lia. rb_run.
  unfold rt_ringbuffer_status.
  destruct (Z.eqb_spec (write_index rb) (buffer_size rb - 1)),
    (Z.eqb_spec (read_index rb) (write_index rb)),
    (Z.eqb_spec (read_mirror rb) (write_mirror rb)); rewrite ?bool_decide_eq_true_2, ?bool_decide_eq_false_2 by done; rb_run;
    rewrite ?u15_small by lia; (eexists; split; [done|]);
    change (overwrites rb ?r [ch])
      with (overwrites rb r (take (Z.to_nat 1) (drop (Z.to_nat 0) [ch])));
    rb_overwrites.
Qed.

(** Removing [k] bytes moves the read index and nothing else. *)
Lemma removes_intro rb' k :
  wf rb' -> buffer_size rb' = buffer_size rb -> buffer_ptr rb' = buffer_ptr rb ->
  0 <= k <= rt_ringbuffer_data_len rb ->
  read_index rb' = (read_index rb + k) mod buffer_size rb ->
  rt_ringbuffer_data_len rb' = rt_ringbuffer_data_len rb - k ->
  removes rb rb' k.
Proof.
  intros Hwf' Hsz Hb Hk Hr Hn. split; [done|]. split; [done|]. unfold contents.
  rewrite Hsz, Hb, Hr, Hn. pose proof (data_len_bound _ Hwf). destruct Hwf.
  apply cyc_drop; lia.
Qed.

Ltac rb_removes :=
  let H := fresh in rb_fields;
  match goal with |- removes _ ?r _ => assert (wf r) as H by rb_wf end;
  apply removes_intro; rb_fields; try done; try lia;
  [ rewrite mod_wrap by lia; repeat case_decide; lia
  | rewrite (data_len_eq _ H); rb_fields; rewrite ?flip_bit by done;
    repeat case_decide; lia ].

(** The two copies of [get] fill the front of the caller's array from the queue. *)
Lemma get_copies ptr k :
  0 <= k <= rt_ringbuffer_data_len rb -> k <= Z.of_nat (length ptr) ->
  let tail := buffer_size rb - read_index rb in
  let out := take (Z.to_nat k) (contents rb) ++ drop (Z.to_nat k) ptr in
  (k < tail -> memcpy ptr 0 (buffer_ptr rb) (read_index rb) k = Ok out) /\
  (tail <= k -> exists p, memcpy ptr 0 (buffer_ptr rb) (read_index rb) tail = Ok p /\
     memcpy p tail (buffer_ptr rb) 0 (k - tail) = Ok out).
Proof.
  intros Hk Hp tail out. pose proof (data_len_bound _ Hwf) as Hn. pose proof Hwf as [? ? ? ? _ _ _].
  assert (out = cyc (buffer_ptr rb) (buffer_size rb) (read_index rb) k ++ drop (Z.to_nat k) ptr)
    as Hout by (unfold out, contents; f_equal; symmetry; apply cyc_take; lia).
  subst tail. rewrite Hout. split; intros Ht.
  - destruct (memcpy_total ptr 0 (buffer_ptr rb) (read_index rb) k) as [p Hm]; [lia..|].
    rewrite Hm. f_equal. apply cyc_prefix; [lia..|]. intros i.
    rewrite (memcpy_lookup _ _ _ _ _ _ i Hm).
    repeat case_decide; try lia; [|done]. f_equal. rewrite Z.mod_small; lia.
  - destruct (memcpy_total ptr 0 (buffer_ptr rb) (read_index rb) (buffer_size rb - read_index rb))
      as [p Hm]; [lia..|]. exists p. split; [done|]. pose proof (memcpy_length _ _ _ _ _ _ Hm).
    destruct (memcpy_total p (buffer_size rb - read_index rb) (buffer_ptr rb) 0
      (k - (buffer_size rb - read_index rb))) as [q Hq]; [lia..|].
    rewrite Hq. f_equal. apply cyc_prefix; [lia..|]. intros i.
    rewrite (memcpy_lookup _ _ _ _ _ _ i Hq), (memcpy_lookup _ _ _ _ _ _ i Hm).
    repeat case_decide; try lia; try done; rewrite mod_wrap by lia;
      case_decide; try lia; f_equal; lia.
Qed.

Lemma get_outcome ptr len :
  0 <= len -> len <= Z.of_nat (length ptr) ->
  let k := Z.min len (rt_ringbuffer_data_len rb) in
  exists rb', rt_ringbuffer_get ptr len rb =
      Ok ((k, take (Z.to_nat k) (contents rb) ++ drop (Z.to_nat k) ptr), rb') /\
    removes rb rb' k.
Proof.
  intros Hl Hp k. assert (k = Z.min len (rt_ringbuffer_data_len rb)) as Hk by done. clearbody k.
  pose proof (data_len_bound _ Hwf) as Hn.
  destruct (get_copies ptr k) as [Hstraight Haround]; [lia..|].
  pose proof (data_len_eq _ Hwf) as Hd. pose proof Hwf as [? ? ? ? ? ? ?].
  unfold rt_ringbuffer_get. rb_run.
  destruct (Z.eqb_spec (rt_ringbuffer_data_len rb) 0) as [E|E].
  { exists rb. replace k with 0 by lia. split; [done|].
    apply removes_intro; try done; try lia. rewrite Z.add_0_r, Z.mod_small; lia. }
  replace (if _ <? len then _ else len) with k by
    (rewrite u16_small by lia; destruct (Z.ltb_spec (rt_ringbuffer_data_len rb) len); lia).
  destruct (Z.gtb_spec (buffer_size rb - read_index rb) k).
  - rewrite Hstraight by lia. rb_run. rewrite u15_small by lia.
    eexists. split; [done|]. rb_removes.
  - destruct Haround as (p & -> & Hm); [lia|]. rb_run. rewrite Hm. rb_run.
    rewrite u15_small by lia. eexists. split; [done|]. rb_removes.
Qed.

Lemma getchar_outcome :
  match contents rb with
  | [] => rt_ringbuffer_getchar rb = Ok (None, rb)
  | ch :: _ => exists rb', rt_ringbuffer_getchar rb = Ok (Some ch, rb') /\ removes rb rb' 1
  end.
Proof.
  pose proof (data_len_bound _ Hwf) as Hn. pose proof (data_len_eq _ Hwf) as Hd.
  pose proof Hwf as [? ? ? ? ? ? ?].
  assert (length (contents rb) = Z.to_nat (rt_ringbuffer_data_len rb)) as Hlen
    by (unfold contents; apply cyc_length; lia).
  unfold rt_ringbuffer_getchar. rb_run.
  destruct (contents rb) as [|ch rest] eqn:Hc; cbn [length] in Hlen.
  { by replace (rt_ringbuffer_data_len rb) with 0 by lia. }
  rewrite (proj2 (Z.eqb_neq _ _)) by lia.
  assert (buffer_ptr rb !! Z.to_nat (read_index rb) = Some ch) as Hch.
  { change (Some ch) with ((ch :: rest) !! 0%nat). rewrite <- Hc. unfold contents.
    rewrite cyc_lookup, Z.add_0_r, Z.mod_small by lia. done. }
  rewrite (zget_Some _ _ ch) by (done || lia). rb_run.
  destruct (Z.eqb_spec (read_index rb) (buffer_size rb - 1)); rb_run;
    rewrite ?u15_small by lia; (eexists; split; [done|]); rb_removes.
Qed.

Lemma reset_outcome :
  exists rb', rt_ringbuffer_reset rb = Ok (tt, rb') /\ wf rb' /\
    buffer_size rb' = buffer_size rb /\ contents rb' = [].
Proof.
  pose proof Hwf as [? ? ? ? ? ? ?]. unfold rt_ringbuffer_reset. rb_run.
  eexists. split; [done|]. rb_fields. split; [rb_wf|done].
Qed.
End Operations.

(** ** The ring buffer implements the queue interface *)
Definition rb_run_op (op : bq_op) : M rt_ringbuffer bq_reply :=
  match op with
  | OpPut data => n ← rt_ringbuffer_put data (Z.of_nat (length data)); mret (RCount n)
  | OpPutchar ch => n ← rt_ringbuffer_putchar ch; mret (RCount n)
  | OpPutcharForce ch => n ← rt_ringbuffer_putchar_force ch; mret (RCount n)
  | OpGet len =>
      '(n, p) ← rt_ringbuffer_get (replicate (Z.to_nat len) 0) len;
      mret (RBytes (take (Z.to_nat n) p))
  | OpGetchar => ch ← rt_ringbuffer_getchar; mret (RByte ch)
  | OpReset => rt_ringbuffer_reset;; mret RUnit
  end.

Definition rb_repr (rb : rt_ringbuffer) (cap : nat) (q : list Z) : Prop :=
  wf rb /\ buffer_size rb = Z.of_nat cap /\ contents rb = q.

Lemma contents_length rb : wf rb ->
  Z.of_nat (length (contents rb)) = rt_ringbuffer_data_len rb.
Proof.
  intros H. pose proof (data_len_bound _ H). destruct H.
  unfold contents. rewrite cyc_length; lia.
Qed.

Lemma rb_repr_capacity rb cap q : rb_repr rb cap q -> (length q <= cap)%nat.
Proof.
  intros (Hwf & Hsz & <-). pose proof (contents_length _ Hwf).
  pose proof (data_len_bound _ Hwf). lia.
Qed.

Lemma putchar_full rb ch : wf rb -> rt_ringbuffer_data_len rb = buffer_size rb ->
  rt_ringbuffer_putchar ch rb = Ok (0, rb).
Proof.
  intros Hwf Hf. unfold rt_ringbuffer_putchar. rb_run.
  by rewrite space_len_eq, Hf, Z.sub_diag by done.
Qed.

Lemma rb_simulates rb cap q op : rb_repr rb cap q -> op_ok op ->
  exists rb', rb_run_op op rb = Ok ((spec_step cap op q).1, rb') /\
              rb_repr rb' cap (spec_step cap op q).2.
Proof.
  intros (Hwf & Hsz & <-) Hok. pose proof (contents_length _ Hwf) as Hlen.
  pose proof (data_len_bound _ Hwf) as Hb. unfold rb_repr.
  destruct op as [data|ch|ch|len| |]; cbn [rb_run_op spec_step op_ok] in *.
  - destruct (put_outcome rb Hwf data (Z.of_nat (length data))) as (rb' & Hr & Hw & Hs & Hc); [lia..|].
    rewrite (run_bind_ok _ _ _ _ _ Hr). exists rb'. rewrite Hs, Hc.
    replace (Z.min _ _) with
      (Z.of_nat (length data `min` (cap - length (contents rb)))) by lia.
    by rewrite Nat2Z.id.
  - case_decide.
    + destruct (putchar_outcome rb Hwf ch) as (rb' & Hr & Hw & Hs & Hc); [lia|].
      rewrite (run_bind_ok _ _ _ _ _ Hr). exists rb'. by rewrite Hs, Hc.
    + rewrite (run_bind_ok _ _ _ _ _ (putchar_full rb ch Hwf ltac:(lia))). by exists rb.
  - destruct (putchar_force_outcome rb Hwf ch) as (rb' & Hr & Hw & Hs & Hc).
    rewrite (run_bind_ok _ _ _ _ _ Hr). exists rb'. rewrite Hs, Hc, Hsz, Nat2Z.id, length_app.
    by rewrite Nat.add_1_r.
  - destruct (get_outcome rb Hwf (replicate (Z.to_nat len) 0) len) as (rb' & Hr & Hw & Hs & Hc);
      [rewrite ?length_replicate; lia..|].
    rewrite (run_bind_ok _ _ _ _ _ Hr). exists rb'. rewrite Hs, Hc.
    replace (Z.to_nat (Z.min _ _)) with (Z.to_nat len `min` length (contents rb))%nat by lia.
    rewrite take_app_length'; [done|]. rewrite length_take. lia.
  - pose proof (getchar_outcome rb Hwf) as Hg. destruct (contents rb) as [|ch rest] eqn:E.
    + rewrite (run_bind_ok _ _ _ _ _ Hg). by exists rb.
    + destruct Hg as (rb' & Hr & Hw & Hs & Hc). rewrite (run_bind_ok _ _ _ _ _ Hr).
      exists rb'. by rewrite Hs, Hc, E.
  - destruct (reset_outcome rb Hwf) as (rb' & Hr & Hw & Hs & Hc).
    rewrite (run_bind_ok _ _ _ _ _ Hr). exists rb'. by rewrite Hs, Hc.
Qed.

#[export] Instance ringbuffer_queue : ByteQueue rt_ringbuffer := {
  bq_run := rb_run_op;
  bq_repr := rb_repr;
  bq_capacity := rb_repr_capacity;
  bq_simulates := rb_simulates
}.

Lemma align_down_4 size : RT_ALIGN_DOWN size RT_ALIGN_SIZE = size - size mod 4.
Proof.
  unfold RT_ALIGN_DOWN, RT_ALIGN_SIZE. change (Z.lnot (4 - 1)) with (Z.lnot (Z.ones 2)).
  rewrite <- Z.ldiff_land, Z.ldiff_ones_r, Z.shiftl_mul_pow2, Z.shiftr_div_pow2 by lia.
  change (2 ^ 2) with 4. pose proof (Z.div_mod size 4). lia.
Qed.

Lemma init_outcome rb0 pool size :
  4 <= size < 32768 -> size <= Z.of_nat (length pool) ->
  exists rb, rt_ringbuffer_init pool size rb0 = Ok (tt, rb) /\
    rb_repr rb (Z.to_nat (size - size mod 4)) [].
Proof.
  intros Hs Hp. pose proof (Z.mod_pos_bound size 4).
  pose proof (Z.div_mod size 4). unfold rt_ringbuffer_init.
  rewrite (proj2 (Z.gtb_lt size 0)) by lia. rb_run. rewrite align_down_4.
  eexists. split; [done|]. unfold rb_repr. rb_fields.
  split; [rb_wf|]. split; [lia|done].
Qed.

(** ** Properties *)

(** C31: a ring buffer initialised over any pool of at least four bytes behaves, for
    every sequence of operations (put, putchar, putchar_force, get, getchar, reset),
    exactly as a bounded queue of capacity [size] rounded down to a multiple of
    four: every call terminates without an out-of-bounds access, returns what the
    queue returns, and the bytes in the ring are the bytes in the queue. *)
Theorem ringbuffer_refines_queue rb0 pool size ops :
  4 <= size < 32768 -> size <= Z.of_nat (length pool) -> Forall op_ok ops ->
  exists rb rb', rt_ringbuffer_init pool size rb0 = Ok (tt, rb) /\
    let spec := spec_ops (Z.to_nat (size - size mod 4)) ops [] in
    run_ops ops rb = Ok (spec.1, rb') /\ wf rb' /\ contents rb' = spec.2.
Proof.
  intros Hs Hp Hok. destruct (init_outcome rb0 pool size) as (rb & Hi & Hr); [done..|].
  destruct (run_ops_simulates (Q := ringbuffer_queue) ops rb _ [] Hr Hok) as (rb' & Hrun & Hwf & _ & Hc).
  by exists rb, rb'.
Qed.

Example ringbuffer_refines_queue_witness :
  exists rb rb', rt_ringbuffer_init (replicate 9 0) 9 (MkRb [] 0 0 0 0 0) = Ok (tt, rb) /\
    let spec := spec_ops 8 [OpPut [1;2;3;4;5;6]; OpGet 4; OpPut [7;8;9;10;11;12;13];
                            OpPutcharForce 14; OpGetchar] [] in
    run_ops [OpPut [1;2;3;4;5;6]; OpGet 4; OpPut [7;8;9;10;11;12;13];
             OpPutcharForce 14; OpGetchar] rb = Ok (spec.1, rb') /\
    wf rb' /\ contents rb' = spec.2.
Proof.
  apply (ringbuffer_refines_queue _ (replicate 9 0) 9); [lia | vm_compute; discriminate |].
  repeat constructor; cbn; lia.
Defined.

(** first in, first out.  For every sequence of operations that do not discard
    stored bytes, the bytes delivered by [get] and [getchar] followed by the bytes
    still stored are the bytes accepted by [put] and [putchar], in order: nothing is
    lost, duplicated, reordered or invented, and the ring never holds more than its
    capacity. *)
Theorem ringbuffer_fifo rb0 pool size ops :
  4 <= size < 32768 -> size <= Z.of_nat (length pool) -> Forall op_ok ops ->
  forallb keeps ops = true ->
  exists rb rs rb', rt_ringbuffer_init pool size rb0 = Ok (tt, rb) /\
    run_ops ops rb = Ok (rs, rb') /\
    Z.of_nat (length (contents rb')) <= size /\
    concat (zip_with accepted ops rs) = concat (map delivered rs) ++ contents rb'.
Proof.
  intros Hs Hp Hok Hk. destruct (init_outcome rb0 pool size) as (rb & Hi & Hr); [done..|].
  destruct (run_ops_fifo (Q := ringbuffer_queue) rb _ [] ops Hr Hok Hk) as (rs & rb' & q' & Hrun & (_ & _ & <-) & Hcap & Hq).
  exists rb, rs, rb'. pose proof (Z.mod_pos_bound size 4).
  split; [done|]. split; [done|]. split; [lia|done].
Qed.

Example ringbuffer_fifo_witness :
  exists rb rs rb', rt_ringbuffer_init (replicate 8 0) 8 (MkRb [] 0 0 0 0 0) = Ok (tt, rb) /\
    run_ops [OpPut [1;2;3;4;5;6]; OpGet 4; OpPut [7;8;9]; OpGet 3] rb = Ok (rs, rb') /\
    Z.of_nat (length (contents rb')) <= 8 /\
    concat (zip_with accepted [OpPut [1;2;3;4;5;6]; OpGet 4; OpPut [7;8;9]; OpGet 3] rs)
      = concat (map delivered rs) ++ contents rb'.
Proof.
  apply (ringbuffer_fifo _ (replicate 8 0) 8); [lia | vm_compute; discriminate | | reflexivity].
  repeat constructor; cbn; lia.
Defined.

(** [rt_ringbuffer_put_force] stores [k = min(len, buffer_size)] bytes, the last
    ones of the data, and returns [k].  It keeps exactly the newest [buffer_size]
    bytes, except when it overflows a ring whose read and write indices are in the
    same mirror: it then flips both mirrors and leaves the ring empty. *)
Theorem ringbuffer_put_force rb ptr len :
  wf rb -> 0 <= len <= Z.of_nat (length ptr) ->
  let k := Z.min len (buffer_size rb) in
  let data := take (Z.to_nat k) (drop (Z.to_nat (len - k)) ptr) in
  let overflow := rt_ringbuffer_data_len rb + k > buffer_size rb in
  exists rb', rt_ringbuffer_put_force ptr len rb = Ok (k, rb') /\ wf rb' /\
    contents rb' =
      if decide (overflow /\ read_mirror rb = write_mirror rb) then []
      else drop (length (contents rb ++ data) - Z.to_nat (buffer_size rb)) (contents rb ++ data).
Proof.
  intros Hwf [Hl Hp] k data overflow.
  destruct (put_force_outcome rb Hwf ptr len Hl Hp) as (rb' & Hr & Hkeep & Hlost).
  exists rb'. split; [done|]. subst overflow. case_decide as Ho.
  - apply Hlost. subst k. destruct Ho. split; [lia|done].
  - destruct Hkeep as (? & ? & ?); [subst k; intros []; apply Ho; split; [lia|done] | done].
Qed.

Example ringbuffer_put_force_witness :
  let rb := MkRb [1;2;3;4;5;6;7;8] 0 2 0 4 8 in
  contents rb = [3;4] /\
  exists rb', rt_ringbuffer_put_force [10;11;12;13;14;15;16] 7 rb = Ok (7, rb') /\ wf rb' /\
    contents rb' = [].
Proof.
  split; [reflexivity|].
  apply (ringbuffer_put_force (MkRb [1;2;3;4;5;6;7;8] 0 2 0 4 8) [10;11;12;13;14;15;16] 7).
  - constructor; cbn -[decide]; try case_decide; lia.
  - cbn; lia.
Defined.
