(* ===== verification/ModbusCrc.v ===== *)
(** * CRC-16 of Modbus RTU (src/pck/freemodbus/modbus/rtu/mbcrc.c)

    The two look-up tables and the table-driven routine of the C file, the
    bit-serial CRC of the Modbus specification (reflected polynomial 0xA001,
    initial value 0xFFFF), their equivalence, and what the checksum detects. *)
From S2P Require Import Prelude.

(** ** The C definitions *)
Definition aucCRCHi : list Z :=
  [0x00; 0xc1; 0x81; 0x40; 0x01; 0xc0; 0x80; 0x41; 0x01; 0xc0; 0x80; 0x41;
   0x00; 0xc1; 0x81; 0x40; 0x01; 0xc0; 0x80; 0x41; 0x00; 0xc1; 0x81; 0x40;
   0x00; 0xc1; 0x81; 0x40; 0x01; 0xc0; 0x80; 0x41; 0x01; 0xc0; 0x80; 0x41;
   0x00; 0xc1; 0x81; 0x40; 0x00; 0xc1; 0x81; 0x40; 0x01; 0xc0; 0x80; 0x41;
   0x00; 0xc1; 0x81; 0x40; 0x01; 0xc0; 0x80; 0x41; 0x01; 0xc0; 0x80; 0x41;
   0x00; 0xc1; 0x81; 0x40; 0x01; 0xc0; 0x80; 0x41; 0x00; 0xc1; 0x81; 0x40;
   0x00; 0xc1; 0x81; 0x40; 0x01; 0xc0; 0x80; 0x41; 0x00; 0xc1; 0x81; 0x40;
   0x01; 0xc0; 0x80; 0x41; 0x01; 0xc0; 0x80; 0x41; 0x00; 0xc1; 0x81; 0x40;
   0x00; 0xc1; 0x81; 0x40; 0x01; 0xc0; 0x80; 0x41; 0x01; 0xc0; 0x80; 0x41;
   0x00; 0xc1; 0x81; 0x40; 0x01; 0xc0; 0x80; 0x41; 0x00; 0xc1; 0x81; 0x40;
   0x00; 0xc1; 0x81; 0x40; 0x01; 0xc0; 0x80; 0x41; 0x01; 0xc0; 0x80; 0x41;
   0x00; 0xc1; 0x81; 0x40; 0x00; 0xc1; 0x81; 0x40; 0x01; 0xc0; 0x80; 0x41;
   0x00; 0xc1; 0x81; 0x40; 0x01; 0xc0; 0x80; 0x41; 0x01; 0xc0; 0x80; 0x41;
   0x00; 0xc1; 0x81; 0x40; 0x00; 0xc1; 0x81; 0x40; 0x01; 0xc0; 0x80; 0x41;
   0x01; 0xc0; 0x80; 0x41; 0x00; 0xc1; 0x81; 0x40; 0x01; 0xc0; 0x80; 0x41;
   0x00; 0xc1; 0x81; 0x40; 0x00; 0xc1; 0x81; 0x40; 0x01; 0xc0; 0x80; 0x41;
   0x00; 0xc1; 0x81; 0x40; 0x01; 0xc0; 0x80; 0x41; 0x01; 0xc0; 0x80; 0x41;
   0x00; 0xc1; 0x81; 0x40; 0x01; 0xc0; 0x80; 0x41; 0x00; 0xc1; 0x81; 0x40;
   0x00; 0xc1; 0x81; 0x40; 0x01; 0xc0; 0x80; 0x41; 0x01; 0xc0; 0x80; 0x41;
   0x00; 0xc1; 0x81; 0x40; 0x00; 0xc1; 0x81; 0x40; 0x01; 0xc0; 0x80; 0x41;
   0x00; 0xc1; 0x81; 0x40; 0x01; 0xc0; 0x80; 0x41; 0x01; 0xc0; 0x80; 0x41;
   0x00; 0xc1; 0x81; 0x40].

Definition aucCRCLo : list Z :=
  [0x00; 0xc0; 0xc1; 0x01; 0xc3; 0x03; 0x02; 0xc2; 0xc6; 0x06; 0x07; 0xc7;
   0x05; 0xc5; 0xc4; 0x04; 0xcc; 0x0c; 0x0d; 0xcd; 0x0f; 0xcf; 0xce; 0x0e;
   0x0a; 0xca; 0xcb; 0x0b; 0xc9; 0x09; 0x08; 0xc8; 0xd8; 0x18; 0x19; 0xd9;
   0x1b; 0xdb; 0xda; 0x1a; 0x1e; 0xde; 0xdf; 0x1f; 0xdd; 0x1d; 0x1c; 0xdc;
   0x14; 0xd4; 0xd5; 0x15; 0xd7; 0x17; 0x16; 0xd6; 0xd2; 0x12; 0x13; 0xd3;
   0x11; 0xd1; 0xd0; 0x10; 0xf0; 0x30; 0x31; 0xf1; 0x33; 0xf3; 0xf2; 0x32;
   0x36; 0xf6; 0xf7; 0x37; 0xf5; 0x35; 0x34; 0xf4; 0x3c; 0xfc; 0xfd; 0x3d;
   0xff; 0x3f; 0x3e; 0xfe; 0xfa; 0x3a; 0x3b; 0xfb; 0x39; 0xf9; 0xf8; 0x38;
   0x28; 0xe8; 0xe9; 0x29; 0xeb; 0x2b; 0x2a; 0xea; 0xee; 0x2e; 0x2f; 0xef;
   0x2d; 0xed; 0xec; 0x2c; 0xe4; 0x24; 0x25; 0xe5; 0x27; 0xe7; 0xe6; 0x26;
   0x22; 0xe2; 0xe3; 0x23; 0xe1; 0x21; 0x20; 0xe0; 0xa0; 0x60; 0x61; 0xa1;
   0x63; 0xa3; 0xa2; 0x62; 0x66; 0xa6; 0xa7; 0x67; 0xa5; 0x65; 0x64; 0xa4;
   0x6c; 0xac; 0xad; 0x6d; 0xaf; 0x6f; 0x6e; 0xae; 0xaa; 0x6a; 0x6b; 0xab;
   0x69; 0xa9; 0xa8; 0x68; 0x78; 0xb8; 0xb9; 0x79; 0xbb; 0x7b; 0x7a; 0xba;
   0xbe; 0x7e; 0x7f; 0xbf; 0x7d; 0xbd; 0xbc; 0x7c; 0xb4; 0x74; 0x75; 0xb5;
   0x77; 0xb7; 0xb6; 0x76; 0x72; 0xb2; 0xb3; 0x73; 0xb1; 0x71; 0x70; 0xb0;
   0x50; 0x90; 0x91; 0x51; 0x93; 0x53; 0x52; 0x92; 0x96; 0x56; 0x57; 0x97;
   0x55; 0x95; 0x94; 0x54; 0x9c; 0x5c; 0x5d; 0x9d; 0x5f; 0x9f; 0x9e; 0x5e;
   0x5a; 0x9a; 0x9b; 0x5b; 0x99; 0x59; 0x58; 0x98; 0x88; 0x48; 0x49; 0x89;
   0x4b; 0x8b; 0x8a; 0x4a; 0x4e; 0x8e; 0x8f; 0x4f; 0x8d; 0x4d; 0x4c; 0x8c;
   0x44; 0x84; 0x85; 0x45; 0x87; 0x47; 0x46; 0x86; 0x82; 0x42; 0x43; 0x83;
   0x41; 0x81; 0x80; 0x40].

(** The loop [while( usLen-- )]; [pucFrame] advances over the rest of the array. *)
Fixpoint usMBCRC16_loop (usLen : nat) (pucFrame : list Z) (ucCRCHi ucCRCLo : Z) :
    outcome (Z * Z) :=
  match usLen with
  | O => Ok (ucCRCHi, ucCRCLo)
  | S usLen =>
      match pucFrame with
      | [] => Fault FOutOfBounds
      | byte :: pucFrame =>
          let iIndex := Z.lxor ucCRCLo byte in
          hi ← zget aucCRCHi iIndex;
          lo ← zget aucCRCLo iIndex;
          usMBCRC16_loop usLen pucFrame lo (u8 (Z.lxor ucCRCHi hi))
      end
  end.

Definition usMBCRC16 (pucFrame : list Z) (usLen : Z) : outcome Z :=
  '(ucCRCHi, ucCRCLo) ← usMBCRC16_loop (Z.to_nat usLen) pucFrame 0xff 0xff;
  Ok (u16 (Z.lor (Z.shiftl ucCRCHi 8) ucCRCLo)).

(** ** The bit-serial reference *)
Definition crc_bit (c : Z) : Z :=
  Z.lxor (Z.shiftr c 1) (if Z.odd c then 0xa001 else 0).

Definition crc_byte (c b : Z) : Z := Nat.iter 8 crc_bit (Z.lxor c b).

Definition crc16 (init : Z) (frame : list Z) : Z := foldl crc_byte init frame.

Lemma crc16_nil init : crc16 init [] = init.
Proof. done. Qed.

Lemma crc16_cons init b frame : crc16 init (b :: frame) = crc16 (crc_byte init b) frame.
Proof. done. Qed.

Lemma crc16_app init f1 f2 : crc16 init (f1 ++ f2) = crc16 (crc16 init f1) f2.
Proof. apply foldl_app. Qed.

Lemma crc_byte_eq c b : crc_byte c b = Nat.iter 8 crc_bit (Z.lxor c b).
Proof. reflexivity. Qed.

(** ** Linearity *)
Lemma crc_bit_lxor a b : crc_bit (Z.lxor a b) = Z.lxor (crc_bit a) (crc_bit b).
Proof.
  unfold crc_bit. rewrite <- !Z.bit0_odd, Z.lxor_spec, Z.shiftr_lxor.
  apply Z.bits_inj'. intros i Hi. rewrite !Z.lxor_spec.
  destruct (Z.testbit a 0), (Z.testbit b 0); cbn [xorb];
    rewrite ?Z.bits_0; destruct (Z.testbit 0xa001 i), (Z.testbit (a ≫ 1) i), (Z.testbit (b ≫ 1) i); done.
Qed.

Lemma crc_bits_lxor n a b :
  Nat.iter n crc_bit (Z.lxor a b) = Z.lxor (Nat.iter n crc_bit a) (Nat.iter n crc_bit b).
Proof. induction n as [|n IH]; [done|]. by rewrite !Nat.iter_succ, IH, crc_bit_lxor. Qed.

Lemma crc_bit_double a : crc_bit (2 * a) = a.
Proof.
  unfold crc_bit. rewrite Z.odd_mul. cbn [Z.odd andb].
  rewrite Z.lxor_0_r, Z.shiftr_div_pow2, Z.mul_comm, Z.div_mul by done. done.
Qed.

(** Eight steps consume a byte that is zero. *)
Lemma crc_bits_shift h : Nat.iter 8 crc_bit (h ≪ 8) = h.
Proof.
  rewrite Z.shiftl_mul_pow2 by lia.
  replace (h * 2 ^ 8) with (2 * (2 * (2 * (2 * (2 * (2 * (2 * (2 * h)))))))) by lia.
  cbn [Nat.iter nat_rect]. by rewrite !crc_bit_double.
Qed.

Lemma crc_bit_range c : 0 <= c < 65536 -> 0 <= crc_bit c < 65536.
Proof.
  intros Hc. unfold crc_bit. apply (lxor_range 16); [done| |by destruct (Z.odd c)].
  rewrite Z.shiftr_div_pow2 by done.
  split; [apply Z.div_pos; lia|apply Z.div_lt_upper_bound; lia].
Qed.

Lemma crc_bits_range n c : 0 <= c < 65536 -> 0 <= Nat.iter n crc_bit c < 65536.
Proof. intros. induction n; [done|]. rewrite Nat.iter_succ. by apply crc_bit_range. Qed.

(** Each step can be undone: bit 15 of the result tells which branch was taken. *)
Lemma crc_bit_inj a b : 0 <= a < 65536 -> 0 <= b < 65536 -> crc_bit a = crc_bit b -> a = b.
Proof.
  intros Ha Hb. unfold crc_bit. intros H.
  assert (forall c, 0 <= c < 65536 -> Z.testbit (c ≫ 1) 15 = false) as Htop.
  { intros c Hc. rewrite Z.shiftr_spec by done. apply (testbit_high 16); lia. }
  assert (Z.odd a = Z.odd b) as Hodd.
  { apply (f_equal (fun z => Z.testbit z 15)) in H. rewrite !Z.lxor_spec, !Htop in H by done.
    by destruct (Z.odd a), (Z.odd b). }
  rewrite Hodd in H. apply (f_equal (fun z => Z.lxor z (if Z.odd b then 0xa001 else 0))) in H.
  rewrite !Z.lxor_assoc, Z.lxor_nilpotent, !Z.lxor_0_r in H.
  rewrite !Z.shiftr_div_pow2 in H by done. change (2 ^ 1) with 2 in H.
  rewrite (Z.div_mod a 2), (Z.div_mod b 2), H, !Zmod_odd, Hodd by done. done.
Qed.

Lemma crc_bits_inj n a b : 0 <= a < 65536 -> 0 <= b < 65536 ->
  Nat.iter n crc_bit a = Nat.iter n crc_bit b -> a = b.
Proof.
  intros Ha Hb. induction n as [|n IH]; [done|]. rewrite !Nat.iter_succ.
  intros H. apply IH, crc_bit_inj; auto using crc_bits_range.
Qed.

(** ** The tables are the bit-serial routine, precomputed *)
Definition table_entry_ok (i : Z) : bool :=
  match aucCRCHi !! Z.to_nat i, aucCRCLo !! Z.to_nat i with
  | Some lo, Some hi => Nat.iter 8 crc_bit i =? hi * 256 + lo
  | _, _ => false
  end && (if i =? 0 then true else 256 <=? Nat.iter 8 crc_bit i).

Lemma tables_ok : forallb (fun n => table_entry_ok (Z.of_nat n)) (seq 0 256) = true.
Proof. vm_compute. reflexivity. Qed.

Lemma table_entry i : is_byte i -> table_entry_ok i = true.
Proof.
  intros Hi. pose proof tables_ok as H. rewrite forallb_forall in H.
  rewrite <- (Z2Nat.id i) by (unfold is_byte in *; lia).
  apply H, in_seq. unfold is_byte in *. lia.
Qed.

Definition tables_bytes : forallb (fun b => bool_decide (is_byte b)) (aucCRCHi ++ aucCRCLo) = true :=
  eq_refl.

Lemma table_lookup i : is_byte i ->
  exists hi lo, zget aucCRCHi i = Ok lo /\ zget aucCRCLo i = Ok hi /\
    is_byte hi /\ is_byte lo /\ Nat.iter 8 crc_bit i = hi * 256 + lo.
Proof.
  intros Hi. pose proof (table_entry i Hi) as H. apply andb_true_iff in H as [H _].
  destruct (aucCRCHi !! Z.to_nat i) as [lo|] eqn:Elo; [|done].
  destruct (aucCRCLo !! Z.to_nat i) as [hi|] eqn:Ehi; [|done].
  exists hi, lo. apply Z.eqb_eq in H.
  pose proof tables_bytes as Hb. rewrite forallb_forall in Hb.
  split; [apply zget_Some; [unfold is_byte in Hi; lia | done]|].
  split; [apply zget_Some; [unfold is_byte in Hi; lia | done]|].
  split; [|split; [|done]]; eapply bool_decide_eq_true, Hb, list_elem_of_In, elem_of_app;
    [right|left]; by eapply list_elem_of_lookup_2.
Qed.

(** Only the zero byte leaves the high part of the register zero. *)
Lemma crc_bits_small d : is_byte d -> 0 <= Nat.iter 8 crc_bit d < 256 -> d = 0.
Proof.
  intros Hd Hs. pose proof (table_entry d Hd) as H. apply andb_true_iff in H as [_ H].
  destruct (Z.eqb_spec d 0); [done|]. apply Z.leb_le in H. lia.
Qed.

(** ** Equivalence of the C routine with the reference *)
Lemma crc_byte_split hi lo b : is_byte hi -> is_byte lo ->
  crc_byte (hi * 256 + lo) b = Z.lxor hi (Nat.iter 8 crc_bit (Z.lxor lo b)).
Proof.
  intros Hhi Hlo. unfold crc_byte. change 256 with (2 ^ 8).
  rewrite <- lor_shift_add, <- Z.lxor_lor by (done || apply land_shift_0; done).
  by rewrite Z.lxor_assoc, crc_bits_lxor, crc_bits_shift.
Qed.

Lemma crc_loop_ref frame : forall n hi lo,
  is_bytes frame -> (n <= length frame)%nat -> is_byte hi -> is_byte lo ->
  exists hi' lo', usMBCRC16_loop n frame hi lo = Ok (hi', lo') /\ is_byte hi' /\ is_byte lo' /\
    crc16 (hi * 256 + lo) (take n frame) = hi' * 256 + lo'.
Proof.
  induction frame as [|b frame IH]; intros [|n] hi lo Hb Hn Hhi Hlo; cbn in Hn; try lia;
    [by exists hi, lo..|]. inversion_clear Hb as [|? ? Hb1 Hb2].
  destruct (table_lookup (Z.lxor lo b)) as (h & l & Hl1 & Hl2 & Hh & Hl & Ht);
    [by apply (lxor_range 8)|].
  cbn [usMBCRC16_loop mbind outcome_bind]. rewrite Hl1. cbn [mbind outcome_bind]. rewrite Hl2.
  cbn [mbind outcome_bind].
  assert (is_byte (Z.lxor hi l)) as Hx by (by apply (lxor_range 8)). rewrite u8_id by done.
  destruct (IH n h (Z.lxor hi l)) as (hi' & lo' & Hr & Hhi' & Hlo' & Hc); [done|lia|done|done|].
  exists hi', lo'. split; [exact Hr|]. split; [done|]. split; [done|].
  rewrite <- Hc. cbn [take]. rewrite crc16_cons, crc_byte_split, Ht by done. change 256 with (2 ^ 8).
  rewrite <- !lor_shift_add, <- !Z.lxor_lor by (done || apply land_shift_0; done).
  by rewrite (Z.lxor_comm hi), Z.lxor_assoc, (Z.lxor_comm l).
Qed.

Lemma crc16_range init frame : 0 <= init < 65536 -> is_bytes frame ->
  0 <= crc16 init frame < 65536.
Proof.
  revert init. induction frame as [|b frame IH]; intros init Hi Hb; [done|].
  inversion_clear Hb. apply IH; [|done]. apply crc_bits_range, (lxor_range 16); [done..|].
  unfold is_byte in *. lia.
Qed.

Lemma usMBCRC16_ref frame len :
  is_bytes frame -> 0 <= len <= Z.of_nat (length frame) ->
  usMBCRC16 frame len = Ok (crc16 0xffff (take (Z.to_nat len) frame)).
Proof.
  intros Hb Hl. unfold usMBCRC16.
  destruct (crc_loop_ref frame (Z.to_nat len) 0xff 0xff) as (hi & lo & -> & Hhi & Hlo & Hc);
    [done|lia|done..|]. cbn [mbind outcome_bind]. f_equal.
  rewrite lor_shift_add by done. change (0xffff) with (0xff * 256 + 0xff). rewrite Hc.
  apply u16_small. unfold is_byte in *. lia.
Qed.

(** ** What the check value guarantees *)

(** The two bytes a sender appends: low part first. *)
Definition crc_lo (c : Z) : Z := u8 (Z.land c 0xff).
Definition crc_hi (c : Z) : Z := u8 (c ≫ 8).

Lemma crc_lo_mod c : crc_lo c = c mod 256.
Proof.
  unfold crc_lo, uint. change 0xff with (Z.ones 8).
  rewrite Z.land_ones, Z.mod_mod by done. done.
Qed.

Lemma crc_hi_div c : 0 <= c < 65536 -> crc_hi c = c / 256.
Proof.
  intros. unfold crc_hi. rewrite Z.shiftr_div_pow2 by done. change (2 ^ 8) with 256.
  apply u8_id. unfold is_byte. split; [apply Z.div_pos|apply Z.div_lt_upper_bound]; lia.
Qed.

Lemma crc_lo_byte c : is_byte (crc_lo c).
Proof. apply u8_byte. Qed.
Lemma crc_hi_byte c : is_byte (crc_hi c).
Proof. apply u8_byte. Qed.

Lemma crc_byte_self c : crc_byte c c = 0.
Proof. unfold crc_byte. by rewrite Z.lxor_nilpotent. Qed.

(** Feeding the register its own two bytes clears it. *)
Lemma crc16_own c : 0 <= c < 65536 -> crc16 c [crc_lo c; crc_hi c] = 0.
Proof.
  intros Hc. rewrite crc_lo_mod, crc_hi_div by done.
  pose proof (Z.mod_pos_bound c 256). pose proof (Z.div_mod c 256).
  assert (is_byte (c / 256)) by (unfold is_byte; split; [apply Z.div_pos|apply Z.div_lt_upper_bound]; lia).
  rewrite crc16_cons. replace c with (c / 256 * 256 + c mod 256) at 1 by lia.
  rewrite crc_byte_split, Z.lxor_nilpotent by (done || unfold is_byte; lia).
  change (Nat.iter 8 crc_bit 0) with 0. rewrite Z.lxor_0_r, crc16_cons.
  by rewrite crc_byte_self, crc16_nil.
Qed.

(** An RTU frame: address, PDU, checksum low byte first. *)
Definition rtu_frame (addr : Z) (pdu : list Z) : list Z :=
  let body := addr :: pdu in
  body ++ [crc_lo (crc16 0xffff body); crc_hi (crc16 0xffff body)].

Lemma rtu_frame_length addr pdu : length (rtu_frame addr pdu) = (length pdu + 3)%nat.
Proof. unfold rtu_frame. rewrite length_app. cbn. lia. Qed.

Lemma rtu_frame_crc addr pdu : is_byte addr -> is_bytes pdu ->
  crc16 0xffff (rtu_frame addr pdu) = 0.
Proof.
  intros Ha Hp. unfold rtu_frame. rewrite crc16_app. apply crc16_own, crc16_range; [done|].
  by constructor.
Qed.

Lemma rtu_frame_bytes addr pdu : is_byte addr -> is_bytes pdu -> is_bytes (rtu_frame addr pdu).
Proof.
  intros Ha Hp. unfold rtu_frame. apply Forall_app. split; [by constructor|].
  repeat constructor; try apply crc_lo_byte; apply crc_hi_byte.
Qed.


Lemma crc_byte_range c b : 0 <= c < 65536 -> is_byte b -> 0 <= crc_byte c b < 65536.
Proof. intros Hc Hb. apply crc_bits_range, (lxor_range 16); unfold is_byte in *; lia. Qed.

Lemma crc_byte_inj c c' b b' : 0 <= c < 65536 -> 0 <= c' < 65536 -> is_byte b -> is_byte b' ->
  crc_byte c b = crc_byte c' b' -> Z.lxor c b = Z.lxor c' b'.
Proof.
  intros ???? H. rewrite !crc_byte_eq in H.
  apply crc_bits_inj in H; [done|apply (lxor_range 16); unfold is_byte in *; lia..].
Qed.

(** Different registers stay different whatever bytes follow. *)
Lemma crc16_init_inj frame : forall a b, 0 <= a < 65536 -> 0 <= b < 65536 ->
  is_bytes frame -> crc16 a frame = crc16 b frame -> a = b.
Proof.
  induction frame as [|x frame IH]; intros a b Ha Hb Hf H; [done|].
  inversion_clear Hf as [|? ? Hx Hf']. rewrite !crc16_cons in H.
  apply IH in H; [|by apply crc_byte_range..|done].
  apply crc_byte_inj in H; [|done..]. apply (f_equal (fun z => Z.lxor z x)) in H.
  by rewrite !Z.lxor_assoc, Z.lxor_nilpotent, !Z.lxor_0_r in H.
Qed.

Lemma lxor_swap x y b b' : Z.lxor x b = Z.lxor y b' -> Z.lxor x y = Z.lxor b b'.
Proof.
  intros H. rewrite <- (Z.lxor_0_r x), <- (Z.lxor_nilpotent b), <- Z.lxor_assoc, H.
  by rewrite !Z.lxor_assoc, (Z.lxor_comm b y), <- (Z.lxor_assoc b' y b), (Z.lxor_comm b' y),
    !Z.lxor_assoc, <- (Z.lxor_assoc y y), Z.lxor_nilpotent, Z.lxor_0_l, Z.lxor_comm.
Qed.

Lemma crc_byte_lxor c a a' :
  Z.lxor (crc_byte c a) (crc_byte c a') = Nat.iter 8 crc_bit (Z.lxor a a').
Proof.
  unfold crc_byte. rewrite <- crc_bits_lxor. f_equal.
  by rewrite Z.lxor_assoc, (Z.lxor_comm c a'), <- (Z.lxor_assoc a a' c), (Z.lxor_comm _ c),
    <- Z.lxor_assoc, Z.lxor_nilpotent, Z.lxor_0_l.
Qed.

(** Two adjacent bytes determine the register change. *)
Lemma crc16_pair_inj c a b a' b' :
  is_byte a -> is_byte b -> is_byte a' -> is_byte b' -> 0 <= c < 65536 ->
  crc16 c [a; b] = crc16 c [a'; b'] -> a = a' /\ b = b'.
Proof.
  intros Ha Hb Ha' Hb' Hc H.
  rewrite !crc16_cons, !crc16_nil in H.
  apply crc_byte_inj, lxor_swap in H; auto using crc_byte_range. rewrite crc_byte_lxor in H.
  assert (Z.lxor a a' = 0) as Hz.
  { apply crc_bits_small; [by apply (lxor_range 8)|]. rewrite H. by apply (lxor_range 8). }
  rewrite Hz in H. split; apply Z.lxor_eq; [done|by symmetry].
Qed.

(** ** Properties *)

(** C40: the table-driven [usMBCRC16] computes, for every array of bytes and every
    length within it, the bit-serial CRC-16 of the Modbus specification (initial
    value 0xFFFF, polynomial 0xA001) over that many bytes; it never reads outside the
    array or the tables and its result fits 16 bits. *)
Theorem crc_table_equals_bit_serial frame len :
  is_bytes frame -> 0 <= len <= Z.of_nat (length frame) ->
  usMBCRC16 frame len = Ok (crc16 0xffff (take (Z.to_nat len) frame)) /\
  0 <= crc16 0xffff (take (Z.to_nat len) frame) < 65536.
Proof.
  intros Hb Hl. split; [by apply usMBCRC16_ref|]. by apply crc16_range; [|apply Forall_take].
Qed.

Example crc_table_equals_bit_serial_witness :
  usMBCRC16 [0x01; 0x03; 0x00; 0x00; 0x00; 0x0a] 6 = Ok 0xcdc5 /\
  usMBCRC16 [0x01; 0x03; 0x00; 0x00; 0x00; 0x0a] 6
    = Ok (crc16 0xffff (take 6 [0x01; 0x03; 0x00; 0x00; 0x00; 0x0a])).
Proof.
  split; [reflexivity|].
  apply (crc_table_equals_bit_serial [0x01; 0x03; 0x00; 0x00; 0x00; 0x0a] 6);
    [bytes_ok | cbn; lia].
Defined.

(** a frame followed by its checksum, low byte first, has checksum zero: the
    receiver's test accepts every frame a sender completes. *)
Theorem crc_of_completed_frame_is_zero frame c :
  is_bytes frame -> usMBCRC16 frame (Z.of_nat (length frame)) = Ok c ->
  usMBCRC16 (frame ++ [crc_lo c; crc_hi c]) (Z.of_nat (length frame + 2)) = Ok 0.
Proof.
  intros Hb Hc. rewrite usMBCRC16_ref, Nat2Z.id, firstn_all in Hc by (done || lia).
  injection Hc as <-. rewrite usMBCRC16_ref.
  - rewrite Nat2Z.id, take_ge by (rewrite length_app; cbn; lia).
    rewrite crc16_app, crc16_own; [done|]. by apply crc16_range.
  - apply Forall_app. split; [done|]. by repeat constructor; try apply u8_byte.
  - rewrite length_app. cbn. lia.
Qed.

Example crc_of_completed_frame_is_zero_witness :
  usMBCRC16 ([0x01; 0x03; 0x00; 0x00; 0x00; 0x0a] ++ [crc_lo 0xcdc5; crc_hi 0xcdc5]) 8 = Ok 0.
Proof.
  apply (crc_of_completed_frame_is_zero [0x01; 0x03; 0x00; 0x00; 0x00; 0x0a] 0xcdc5);
    [bytes_ok | reflexivity].
Defined.

(** error detection.  If a frame passes the receiver's CRC test, then no frame that
    differs from it within two adjacent bytes (every burst of up to 9 bits, and any
    corruption of one byte or of two neighbours) passes it. *)
Theorem crc_detects_adjacent_corruption pre a b a' b' post :
  is_bytes pre -> is_bytes post -> is_bytes [a; b] -> is_bytes [a'; b'] ->
  [a; b] <> [a'; b'] ->
  usMBCRC16 (pre ++ [a; b] ++ post) (Z.of_nat (length (pre ++ [a; b] ++ post))) = Ok 0 ->
  usMBCRC16 (pre ++ [a'; b'] ++ post) (Z.of_nat (length (pre ++ [a'; b'] ++ post))) <> Ok 0.
Proof.
  intros Hpre Hpost Hab Hab' Hne H1 H2.
  rewrite usMBCRC16_ref, Nat2Z.id, firstn_all in H1, H2
    by (rewrite ?Forall_app; auto || lia).
  injection H1 as H1. injection H2 as H2. rewrite <- H1 in H2.
  change (a :: b :: post) with ([a; b] ++ post) in H2.
  change (a' :: b' :: post) with ([a'; b'] ++ post) in H2. rewrite !crc16_app in H2.
  assert (0 <= crc16 0xffff pre < 65536) as Hc by by apply crc16_range.
  apply crc16_init_inj in H2; [|by apply crc16_range..|done].
  inversion_clear Hab as [|? ? ? Hb]. inversion_clear Hb.
  inversion_clear Hab' as [|? ? ? Hb']. inversion_clear Hb'.
  apply Hne. apply crc16_pair_inj in H2 as [-> ->]; done.
Qed.

Example crc_detects_adjacent_corruption_witness :
  usMBCRC16 ([0x01; 0x03] ++ [0x10; 0x20] ++ [0x00; 0x0a; 0xc5; 0xcd]) 8 <> Ok 0.
Proof.
  apply (crc_detects_adjacent_corruption [0x01; 0x03] 0x00 0x00 0x10 0x20
    [0x00; 0x0a; 0xc5; 0xcd]); [bytes_ok..|discriminate|reflexivity].
Defined.
