(* ===== verification/Ipc.v ===== *)
(** * Kernel IPC: suspended threads, semaphores, events (src/Kernel/ipc.c)

    Each function body between disabling and enabling interrupts is one step.
    An operation that may suspend its caller is split where the code calls
    [rt_schedule]: [IpcSuspend] says that the caller is now in the object's
    list, and the [_resumed] definition is what the caller does once another
    thread or its own timer has made it ready again.  Threads made ready are
    returned, in the order the code resumes them. *)
From Stdlib Require Import Sorting.Sorted.
From S2P Require Import Prelude.

(** ** The C definitions *)

Definition RT_EVENT_FLAG_AND : Z := 1.
Definition RT_EVENT_FLAG_OR : Z := 2.
Definition RT_EVENT_FLAG_CLEAR : Z := 4.

Inductive ipc_flag := RT_IPC_FLAG_FIFO | RT_IPC_FLAG_PRIO.
Inductive ipc_cmd := RT_IPC_CMD_UNKNOWN | RT_IPC_CMD_RESET.

(** The fields of a thread that the IPC code uses. *)
Record rt_thread := MkThread {
  tid : Z;
  current_priority : Z;
  event_set : Z;
  event_info : Z;
  error : Z
}.

#[export] Instance rt_thread_eta : Eta rt_thread := fun t =>
  MkThread (tid t) (current_priority t) (event_set t) (event_info t) (error t).

(** What an operation that may wait does to its caller: it returns an error
    code, or leaves the caller suspended, with its timer started if any. *)
Inductive ipc_wait :=
  | IpcReturn (err : Z)
  | IpcSuspend (timer : option Z).

Definition wait_timer (time : Z) : option Z := if time >? 0 then Some time else None.

Fixpoint insert_by_priority (lst : list rt_thread) (thread : rt_thread) : list rt_thread :=
  match lst with
  | [] => [thread]
  | sthread :: n =>
      if current_priority thread <? current_priority sthread then thread :: sthread :: n
      else sthread :: insert_by_priority n thread
  end.

Definition rt_ipc_list_suspend (lst : list rt_thread) (thread : rt_thread)
    (flag : ipc_flag) : list rt_thread :=
  match flag with
  | RT_IPC_FLAG_FIFO => lst ++ [thread]
  | RT_IPC_FLAG_PRIO => insert_by_priority lst thread
  end.

(** The first thread and the list without it; the callers test for emptiness. *)
Definition rt_ipc_list_resume (lst : list rt_thread) :
    outcome (rt_thread * list rt_thread) :=
  match lst with
  | thread :: lst => Ok (thread, lst)
  | [] => Fault FOutOfBounds
  end.

Definition rt_ipc_list_resume_all (lst : list rt_thread) : list rt_thread :=
  map (fun thread => thread <| error := - RT_ERROR |>) lst.

(** A waiting thread's timer fires. *)
Definition rt_thread_timeout (lst : list rt_thread) (t : Z) :
    list rt_thread * list rt_thread :=
  (filter (fun thread => tid thread <> t) lst,
   map (fun thread => thread <| error := - RT_ETIMEOUT |>)
     (filter (fun thread => tid thread = t) lst)).

(** *** Semaphores *)
Record rt_semaphore := MkSem {
  sem_value : Z;
  sem_suspend_thread : list rt_thread;
  sem_flag : ipc_flag
}.

#[export] Instance rt_semaphore_eta : Eta rt_semaphore := fun s =>
  MkSem (sem_value s) (sem_suspend_thread s) (sem_flag s).

Definition rt_sem_init (value : Z) (flag : ipc_flag) : rt_semaphore :=
  MkSem (u16 value) [] flag.

Definition rt_sem_detach (sem : rt_semaphore) : list rt_thread :=
  rt_ipc_list_resume_all (sem_suspend_thread sem).

Definition rt_sem_take (thread : rt_thread) (time : Z) (sem : rt_semaphore) :
    ipc_wait * rt_semaphore :=
  if sem_value sem >? 0 then
    (IpcReturn RT_EOK, sem <| sem_value := u16 (sem_value sem - 1) |>)
  else if time =? 0 then (IpcReturn (- RT_ETIMEOUT), sem)
  else
    let thread := thread <| error := RT_EOK |> in
    (IpcSuspend (wait_timer time),
     sem <| sem_suspend_thread :=
       rt_ipc_list_suspend (sem_suspend_thread sem) thread (sem_flag sem) |>).

(** After [rt_schedule]. *)
Definition rt_sem_take_resumed (thread : rt_thread) : Z := error thread.

Definition rt_sem_trytake (thread : rt_thread) (sem : rt_semaphore) : ipc_wait * rt_semaphore :=
  rt_sem_take thread 0 sem.

Definition rt_sem_release (sem : rt_semaphore) : outcome (list rt_thread * rt_semaphore) :=
  if bool_decide (sem_suspend_thread sem <> []) then
    '(thread, rest) ← rt_ipc_list_resume (sem_suspend_thread sem);
    Ok ([thread], sem <| sem_suspend_thread := rest |>)
  else Ok ([], sem <| sem_value := u16 (sem_value sem + 1) |>).

Definition rt_sem_control (cmd : ipc_cmd) (arg : Z) (sem : rt_semaphore) :
    Z * list rt_thread * rt_semaphore :=
  match cmd with
  | RT_IPC_CMD_RESET =>
      (RT_EOK, rt_ipc_list_resume_all (sem_suspend_thread sem),
       sem <| sem_suspend_thread := [] |> <| sem_value := u16 arg |>)
  | RT_IPC_CMD_UNKNOWN => (- RT_ERROR, [], sem)
  end.

(** *** Events *)
Record rt_event := MkEvent {
  ev_set : Z;
  ev_suspend_thread : list rt_thread;
  ev_flag : ipc_flag
}.

#[export] Instance rt_event_eta : Eta rt_event := fun e =>
  MkEvent (ev_set e) (ev_suspend_thread e) (ev_flag e).

Definition rt_event_init (flag : ipc_flag) : rt_event := MkEvent 0 [] flag.

Definition rt_event_detach (event : rt_event) : list rt_thread :=
  rt_ipc_list_resume_all (ev_suspend_thread event).

Definition has_flag (opt flag : Z) : bool := negb (Z.land opt flag =? 0).

(** The test [rt_event_send] makes for one suspended thread, with the thread as
    the test leaves it. *)
Definition event_satisfies (set : Z) (thread : rt_thread) : option rt_thread :=
  if has_flag (event_info thread) RT_EVENT_FLAG_AND then
    if Z.land (event_set thread) set =? event_set thread then Some thread else None
  else if has_flag (event_info thread) RT_EVENT_FLAG_OR then
    if negb (Z.land (event_set thread) set =? 0)
    then Some (thread <| event_set := Z.land (event_set thread) set |>) else None
  else None.

(** The new set, the threads left in the list, the threads resumed. *)
Fixpoint rt_event_send_loop (set : Z) (lst : list rt_thread) :
    Z * list rt_thread * list rt_thread :=
  match lst with
  | [] => (set, [], [])
  | thread :: n =>
      match event_satisfies set thread with
      | Some thread =>
          let set := if has_flag (event_info thread) RT_EVENT_FLAG_CLEAR
                     then Z.land set (Z.lnot (event_set thread)) else set in
          let '(set, waiting, resumed) := rt_event_send_loop set n in
          (set, waiting, thread :: resumed)
      | None =>
          let '(set, waiting, resumed) := rt_event_send_loop set n in
          (set, thread :: waiting, resumed)
      end
  end.

Definition rt_event_send (set : Z) (event : rt_event) : Z * list rt_thread * rt_event :=
  if set =? 0 then (- RT_ERROR, [], event) else
  let '(set, waiting, resumed) :=
    rt_event_send_loop (Z.lor (ev_set event) set) (ev_suspend_thread event) in
  (RT_EOK, resumed, event <| ev_set := set |> <| ev_suspend_thread := waiting |>).

(** The result carries [*recved] when it is written. *)
Definition rt_event_recv (thread : rt_thread) (set opt timeout : Z) (event : rt_event) :
    outcome (ipc_wait * option Z * rt_event) :=
  if set =? 0 then Ok (IpcReturn (- RT_ERROR), None, event) else
  let thread := thread <| error := RT_EOK |> in
  status ← (if has_flag opt RT_EVENT_FLAG_AND then
              Ok (Z.land (ev_set event) set =? set)
            else if has_flag opt RT_EVENT_FLAG_OR then
              Ok (negb (Z.land (ev_set event) set =? 0))
            else Fault FAssert);
  if status : bool then
    Ok (IpcReturn RT_EOK, Some (Z.land (ev_set event) set),
        if has_flag opt RT_EVENT_FLAG_CLEAR
        then event <| ev_set := Z.land (ev_set event) (Z.lnot set) |> else event)
  else if timeout =? 0 then Ok (IpcReturn (- RT_ETIMEOUT), None, event)
  else
    let thread := thread <| event_set := set |> <| event_info := opt |> in
    Ok (IpcSuspend (wait_timer timeout), None,
        event <| ev_suspend_thread :=
          rt_ipc_list_suspend (ev_suspend_thread event) thread (ev_flag event) |>).

(** After [rt_schedule]: the error code, and [*recved] when it is written. *)
Definition rt_event_recv_resumed (thread : rt_thread) : Z * option Z :=
  if negb (error thread =? RT_EOK) then (error thread, None)
  else (error thread, Some (event_set thread)).

Definition rt_event_control (cmd : ipc_cmd) (event : rt_event) :
    Z * list rt_thread * rt_event :=
  match cmd with
  | RT_IPC_CMD_RESET =>
      (RT_EOK, rt_ipc_list_resume_all (ev_suspend_thread event),
       event <| ev_suspend_thread := [] |> <| ev_set := 0 |>)
  | RT_IPC_CMD_UNKNOWN => (- RT_ERROR, [], event)
  end.

(** ** Waiting lists in priority order *)
Definition priority_le (a b : rt_thread) : Prop := current_priority a <= current_priority b.
Abbreviation by_priority := (StronglySorted priority_le).

Lemma insert_by_priority_perm lst t : insert_by_priority lst t ≡ₚ t :: lst.
Proof.
  induction lst as [|s n IH]; [done|]. cbn. destruct (_ <? _); [done|].
  rewrite IH. apply Permutation_swap.
Qed.

Lemma insert_by_priority_sorted lst t : by_priority lst -> by_priority (insert_by_priority lst t).
Proof.
  induction lst as [|s n IH]; intros Hs; cbn; [repeat constructor|].
  apply StronglySorted_inv in Hs as [Hn Hall].
  destruct (Z.ltb_spec (current_priority t) (current_priority s)).
  - constructor; [by constructor|]. constructor; [unfold priority_le; lia|].
    eapply Forall_impl; [exact Hall|]. unfold priority_le. lia.
  - constructor; [by apply IH|]. rewrite insert_by_priority_perm.
    constructor; [unfold priority_le; lia|done].
Qed.

(** A thread queues behind the waiters of its own priority or a higher one. *)
Lemma insert_by_priority_position lst t : by_priority lst ->
  insert_by_priority lst t =
    filter (fun s => current_priority s <= current_priority t) lst ++
    t :: filter (fun s => current_priority t < current_priority s) lst.
Proof.
  induction lst as [|s n IH]; intros Hs; [done|]. cbn [insert_by_priority].
  apply StronglySorted_inv in Hs as [Hn Hall]. rewrite !filter_cons.
  destruct (Z.ltb_spec (current_priority t) (current_priority s)).
  - rewrite decide_False, decide_True by lia.
    assert (Forall (fun u => current_priority t < current_priority u) n) as Hu
      by (eapply Forall_impl; [exact Hall|]; unfold priority_le; lia).
    rewrite filter_none, filter_all; [done..|].
    eapply Forall_impl; [exact Hu|]. cbn. lia.
  - rewrite decide_True, decide_False by lia. cbn. f_equal. by apply IH.
Qed.

Lemma list_suspend_perm lst t flag : rt_ipc_list_suspend lst t flag ≡ₚ t :: lst.
Proof.
  destruct flag; cbn; [symmetry; apply Permutation_cons_append|apply insert_by_priority_perm].
Qed.

Lemma filter_sorted (P : rt_thread -> Prop) `{forall t, Decision (P t)} lst :
  by_priority lst -> by_priority (filter P lst).
Proof.
  induction 1 as [|t lst Hs IH Hall]; [constructor|].
  rewrite filter_cons. case_decide; [|done]. constructor; [done|].
  by apply Forall_filter.
Qed.

(** ** Semaphores: every release is granted once *)

(** What the threads of a program do to one semaphore; [SemTimeout]: the timer
    of a waiting thread fires. *)
Inductive sem_op :=
  | SemTake (thread : rt_thread) (time : Z)
  | SemRelease
  | SemTimeout (t : Z).

(** How many takes a step grants: an immediate return with success, or a
    resumed thread whose [rt_sem_take] then returns success. *)
Definition granted_now (w : ipc_wait) : Z :=
  match w with
  | IpcReturn e => if e =? RT_EOK then 1 else 0
  | IpcSuspend _ => 0
  end.

Definition granted_resumed (resumed : list rt_thread) : Z :=
  Z.of_nat (length (filter (fun t => rt_sem_take_resumed t = RT_EOK) resumed)).

Definition sem_step (op : sem_op) (s : rt_semaphore) : outcome (Z * rt_semaphore) :=
  match op with
  | SemTake thread time =>
      let '(w, s) := rt_sem_take thread time s in Ok (granted_now w, s)
  | SemRelease =>
      '(resumed, s) ← rt_sem_release s; Ok (granted_resumed resumed, s)
  | SemTimeout t =>
      let '(waiting, resumed) := rt_thread_timeout (sem_suspend_thread s) t in
      Ok (granted_resumed resumed, s <| sem_suspend_thread := waiting |>)
  end.

Fixpoint sem_run (ops : list sem_op) (s : rt_semaphore) : outcome (Z * rt_semaphore) :=
  match ops with
  | [] => Ok (0, s)
  | op :: ops =>
      '(n, s) ← sem_step op s;
      '(m, s) ← sem_run ops s;
      Ok (n + m, s)
  end.

Definition is_release (op : sem_op) : Z := match op with SemRelease => 1 | _ => 0 end.
Fixpoint releases (ops : list sem_op) : Z :=
  match ops with
  | [] => 0
  | op :: ops => is_release op + releases ops
  end.

Record sem_wf (s : rt_semaphore) : Prop := {
  sem_wf_value : 0 <= sem_value s < 65536;
  sem_wf_idle : 0 < sem_value s -> sem_suspend_thread s = [];
  sem_wf_error : Forall (fun t => error t = RT_EOK) (sem_suspend_thread s);
  sem_wf_order : sem_flag s = RT_IPC_FLAG_PRIO -> by_priority (sem_suspend_thread s)
}.

Ltac sem_fields := cbv beta delta [upd id]; cbn [sem_value sem_suspend_thread sem_flag] in *.

Lemma granted_timeouts l :
  granted_resumed (map (fun thread => thread <| error := - RT_ETIMEOUT |>) l) = 0.
Proof.
  unfold granted_resumed. induction l as [|t l IH]; [done|]. cbn [map].
  by rewrite filter_cons_False by done.
Qed.

(** A step succeeds, keeps the invariant, and accounts for what it granted. *)
Definition sem_step_accounted (op : sem_op) (s : rt_semaphore) : Prop :=
  exists n s', sem_step op s = Ok (n, s') /\ sem_wf s' /\ sem_flag s' = sem_flag s /\
    sem_value s' = sem_value s + is_release op - n.

Lemma sem_take_ok thread time s : sem_wf s -> sem_step_accounted (SemTake thread time) s.
Proof.
  intros [Hv Hi He Ho]. unfold sem_step_accounted. cbn [sem_step is_release]. unfold rt_sem_take.
  destruct (Z.gtb_spec (sem_value s) 0); [|destruct (Z.eqb_spec time 0)];
    eexists _, _; (split; [done|]); sem_fields.
  - rewrite u16_small by lia. cbn. split; [|split; [done|lia]].
    split; cbn; [lia|intros; apply Hi; lia|done|done].
  - change (granted_now (IpcReturn (- RT_ETIMEOUT))) with 0. split; [by split|split; [done|lia]].
  - split; [|cbn; split; [done|lia]]. split; cbn; [lia|lia| |].
    + rewrite list_suspend_perm. by constructor.
    + intros Hf. rewrite Hf in *. by apply insert_by_priority_sorted, Ho.
Qed.

Lemma sem_release_ok s : sem_wf s -> sem_value s + 1 < 65536 -> sem_step_accounted SemRelease s.
Proof.
  intros [Hv Hi He Ho] Hmax. unfold sem_step_accounted. cbn [sem_step is_release]. unfold rt_sem_release.
  destruct (sem_suspend_thread s) as [|t l] eqn:El.
  - eexists _, _; (split; [done|]); sem_fields. rewrite El, u16_small by lia.
    change (granted_resumed []) with 0. split; [|cbn; split; [done|lia]]. split; cbn; try done; lia.
  - assert (sem_value s = 0) by (destruct (decide (0 < sem_value s)) as [H0|]; [by specialize (Hi H0)|lia]).
    apply Forall_cons in He as [Ht He].
    eexists _, _; (split; [done|]); sem_fields.
    split; [|cbn; unfold granted_resumed; rewrite filter_cons_True by done; cbn; split; [done|lia]].
    split; cbn; [lia|lia|done|]. intros Hf. by specialize (Ho Hf) as [? ?]%StronglySorted_inv.
Qed.

Lemma sem_timeout_ok t s : sem_wf s -> sem_step_accounted (SemTimeout t) s.
Proof.
  intros [Hv Hi He Ho]. unfold sem_step_accounted. cbn. rewrite granted_timeouts.
  eexists _, _; (split; [done|]); sem_fields.
  split; [|cbn; split; [done|lia]]. split; cbn; [lia|intros H0; by rewrite Hi| |].
  - by apply Forall_filter.
  - intros Hf. by apply filter_sorted, Ho.
Qed.

Lemma sem_step_ok op s : sem_wf s -> sem_value s + is_release op < 65536 -> sem_step_accounted op s.
Proof. destruct op; auto using sem_take_ok, sem_release_ok, sem_timeout_ok. Qed.

Lemma sem_step_bound op s n s' : sem_step op s = Ok (n, s') -> 0 <= n.
Proof.
  destruct op; cbn.
  - destruct (rt_sem_take _ _ _) as [[e|] ?]; intros [= <- <-]; cbn; [destruct (_ =? _)|]; lia.
  - destruct (rt_sem_release s) as [[]| |]; [|done..]. intros [= <- <-]. unfold granted_resumed. lia.
  - intros [= <- <-]. unfold granted_resumed. lia.
Qed.

Lemma is_release_nonneg op : 0 <= is_release op.
Proof. by destruct op. Qed.

Lemma releases_nonneg ops : 0 <= releases ops.
Proof. induction ops as [|op ops IH]; cbn; [lia|]. pose proof (is_release_nonneg op). lia. Qed.

Lemma sem_run_ok ops : forall s, sem_wf s -> sem_value s + releases ops < 65536 ->
  exists n s', sem_run ops s = Ok (n, s') /\ sem_wf s' /\ sem_flag s' = sem_flag s /\
    sem_value s' = sem_value s + releases ops - n.
Proof.
  induction ops as [|op ops IH]; intros s Hwf Hmax; cbn [sem_run releases] in *.
  - exists 0, s. repeat split; try apply Hwf; lia.
  - pose proof (releases_nonneg ops).
    destruct (sem_step_ok op s Hwf) as (n & s1 & Hs & Hwf1 & Hf1 & Hv1); [lia|].
    pose proof (sem_step_bound _ _ _ _ Hs).
    destruct (IH s1 Hwf1) as (m & s2 & Hr & Hwf2 & Hf2 & Hv2); [lia|].
    exists (n + m), s2. rewrite Hs. cbn [mbind outcome_bind]. rewrite Hr.
    repeat split; try apply Hwf2; [congruence|lia].
Qed.

Lemma sem_init_wf value flag : 0 <= value < 65536 -> sem_wf (rt_sem_init value flag).
Proof. intros. split; cbn; rewrite ?u16_small by done; auto; try lia; constructor. Qed.

(** ** Events: no thread sleeps on a condition that holds *)
Definition bits_within (a b : Z) : Prop := Z.land a b = a.

Lemma bits_within_refl a : bits_within a a.
Proof. apply Z.land_diag. Qed.

Lemma bits_within_trans a b c : bits_within a b -> bits_within b c -> bits_within a c.
Proof. unfold bits_within. intros <- Hb. by rewrite <- Z.land_assoc, Hb. Qed.

Lemma bits_within_land a b : bits_within (Z.land a b) a.
Proof. unfold bits_within. by rewrite (Z.land_comm a b), <- Z.land_assoc, Z.land_diag. Qed.

Lemma land_lnot_disjoint a b c : bits_within c (Z.land a (Z.lnot b)) -> Z.land b c = 0.
Proof.
  unfold bits_within. intros <-. apply Z.bits_inj'. intros i Hi.
  rewrite !Z.land_spec, Z.lnot_spec, Z.bits_0 by done.
  by destruct (Z.testbit b i), (Z.testbit c i), (Z.testbit a i).
Qed.

(** A condition that fails keeps failing when bits are cleared. *)
Lemma event_satisfies_mono s s' t :
  bits_within s' s -> event_satisfies s t = None -> event_satisfies s' t = None.
Proof.
  unfold bits_within, event_satisfies. intros Hs.
  destruct (has_flag _ _).
  - destruct (Z.eqb_spec (Z.land (event_set t) s) (event_set t)) as [|Hn]; [done|]. intros _.
    destruct (Z.eqb_spec (Z.land (event_set t) s') (event_set t)) as [He|]; [|done].
    destruct Hn. by rewrite <- He, <- Z.land_assoc, Hs.
  - destruct (has_flag _ _); [|done].
    destruct (Z.eqb_spec (Z.land (event_set t) s) 0) as [Hz|]; [|done]. intros _.
    rewrite <- Hs, (Z.land_comm s'), Z.land_assoc, Hz, Z.land_0_l. done.
Qed.

(** The thread that a satisfied condition hands on. *)
Lemma event_satisfies_Some s t t' : event_satisfies s t = Some t' ->
  tid t' = tid t /\ error t' = error t /\ event_info t' = event_info t /\
  bits_within (event_set t') s /\ bits_within (event_set t') (event_set t) /\
  (has_flag (event_info t) RT_EVENT_FLAG_AND = true -> event_set t' = event_set t) /\
  (has_flag (event_info t) RT_EVENT_FLAG_AND = false -> event_set t' <> 0).
Proof.
  unfold event_satisfies. destruct (has_flag (event_info t) RT_EVENT_FLAG_AND) eqn:Ea.
  - destruct (Z.eqb_spec (Z.land (event_set t) s) (event_set t)) as [He|]; [|done]. intros [= <-].
    split_and!; try done; try congruence; apply bits_within_refl.
  - destruct (has_flag (event_info t) RT_EVENT_FLAG_OR); [|done].
    destruct (Z.eqb_spec (Z.land (event_set t) s) 0); [done|]. intros [= <-].
    cbv beta delta [upd id]; cbn.
    split_and!; try done; try congruence; [rewrite Z.land_comm|]; apply bits_within_land.
Qed.

(** What [*recved] of one resumed thread takes away from the ones behind it. *)
Definition consumes (t : rt_thread) : Z :=
  if has_flag (event_info t) RT_EVENT_FLAG_CLEAR then event_set t else 0.

(** A resumed thread is one of the waiting ones, with a non-empty part of the
    events it asked for (all of them for AND) among those that were set. *)
Definition delivered_from (lst : list rt_thread) (set : Z) (t' : rt_thread) : Prop :=
  exists t, t ∈ lst /\ tid t' = tid t /\ error t' = error t /\ event_info t' = event_info t /\
    bits_within (event_set t') (Z.land (event_set t) set) /\
    (has_flag (event_info t) RT_EVENT_FLAG_AND = true -> event_set t' = event_set t) /\
    (has_flag (event_info t) RT_EVENT_FLAG_AND = false -> event_set t' <> 0).

Definition no_double_delivery (resumed : list rt_thread) : Prop :=
  ForallOrdPairs (fun t u => Z.land (consumes t) (event_set u) = 0) resumed.

Lemma send_loop_set set t :
  (if has_flag (event_info t) RT_EVENT_FLAG_CLEAR
   then Z.land set (Z.lnot (event_set t)) else set) = Z.land set (Z.lnot (consumes t)).
Proof. unfold consumes. destruct (has_flag _ _); [done|]. by rewrite Z.lnot_0, Z.land_m1_r. Qed.

Lemma bits_within_meet a b c : bits_within a b -> bits_within a c -> bits_within a (Z.land b c).
Proof. unfold bits_within. intros Hb Hc. by rewrite Z.land_assoc, Hb, Hc. Qed.

Lemma delivered_from_weaken l l' s s' t' :
  (forall t, t ∈ l -> t ∈ l') -> bits_within s s' -> delivered_from l s t' -> delivered_from l' s' t'.
Proof.
  intros Hl Hs (t & Hin & ? & ? & ? & Hw & ? & ?). exists t. split_and!; auto.
  eapply bits_within_trans; [exact Hw|]. apply bits_within_meet; [apply bits_within_land|].
  eapply bits_within_trans; [rewrite Z.land_comm; apply bits_within_land|done].
Qed.

Record send_loop_post (set : Z) (lst : list rt_thread)
    (set' : Z) (waiting resumed : list rt_thread) : Prop := {
  slp_set : bits_within set' set;
  slp_left : set' = foldl (fun s t => Z.land s (Z.lnot (consumes t))) set resumed;
  slp_waiting : Forall (fun t => event_satisfies set' t = None) waiting;
  slp_sublist : waiting `sublist_of` lst;
  slp_tids : map tid (resumed ++ waiting) ≡ₚ map tid lst;
  slp_delivered : Forall (delivered_from lst set) resumed;
  slp_disjoint : no_double_delivery resumed
}.

Lemma rt_event_send_loop_ok lst : forall set set' waiting resumed,
  rt_event_send_loop set lst = (set', waiting, resumed) ->
  send_loop_post set lst set' waiting resumed.
Proof.
  induction lst as [|t n IH]; intros set set' waiting resumed Hl; cbn in Hl.
  { injection Hl as <- <- <-. split; try done; [apply bits_within_refl|constructor]. }
  destruct (event_satisfies set t) as [t'|] eqn:Es.
  - apply event_satisfies_Some in Es as (Htid & Herr & Hinfo & Hin & Hin' & Ha & Ho).
    rewrite send_loop_set in Hl. set (set2 := Z.land set (Z.lnot (consumes t'))) in Hl.
    destruct (rt_event_send_loop set2 n) as [[s w] r] eqn:El. injection Hl as <- <- <-.
    destruct (IH _ _ _ _ El) as [Is Il Iw Isub Ip Id Ix].
    assert (bits_within set2 set) as H2 by apply bits_within_land. split.
    + by eapply bits_within_trans.
    + done.
    + done.
    + by apply sublist_cons.
    + cbn. by rewrite Htid, Ip.
    + constructor.
      * exists t. split_and!; auto using bits_within_meet; set_solver.
      * eapply Forall_impl; [exact Id|]. intros u. apply delivered_from_weaken; [set_solver|done].
    + constructor; [|done]. eapply Forall_impl; [exact Id|].
      intros u (u0 & _ & _ & _ & _ & Hw & _). apply (land_lnot_disjoint set).
      eapply bits_within_trans; [exact Hw|]. rewrite Z.land_comm. apply bits_within_land.
  - destruct (rt_event_send_loop set n) as [[s w] r] eqn:El. injection Hl as <- <- <-.
    destruct (IH _ _ _ _ El) as [Is Il Iw Isub Ip Id Ix]. split; [done|done| | | | |done].
    + constructor; [|done]. by eapply event_satisfies_mono.
    + by apply sublist_skip.
    + rewrite map_app in *. cbn. by rewrite <- Permutation_middle, Ip.
    + eapply Forall_impl; [exact Id|]. intros u. apply delivered_from_weaken; [set_solver|apply bits_within_refl].
Qed.

Record ev_wf (e : rt_event) : Prop := {
  ev_wf_waiting : Forall (fun t => event_satisfies (ev_set e) t = None) (ev_suspend_thread e);
  ev_wf_error : Forall (fun t => error t = RT_EOK) (ev_suspend_thread e);
  ev_wf_order : ev_flag e = RT_IPC_FLAG_PRIO -> by_priority (ev_suspend_thread e)
}.

Lemma sublist_sorted l l' : l `sublist_of` l' -> by_priority l' -> by_priority l.
Proof.
  induction 1 as [|t l l' Hl IH|t l l' Hl IH]; intros Hs; [done| |].
  - apply StronglySorted_inv in Hs as [Hs Hall]. constructor; [by apply IH|].
    by eapply sublist_Forall.
  - apply StronglySorted_inv in Hs as [Hs _]. by apply IH.
Qed.

Lemma rt_event_send_wf set e : ev_wf e -> ev_wf (rt_event_send set e).2.
Proof.
  intros [Hw He Ho]. unfold rt_event_send. destruct (_ =? 0); [by split|].
  destruct (rt_event_send_loop _ _) as [[s w] r] eqn:El.
  destruct (rt_event_send_loop_ok _ _ _ _ _ El) as [_ _ Iw Isub _ _ _].
  split; cbn; [done|by eapply sublist_Forall|]. intros Hf. eapply sublist_sorted; eauto.
Qed.

Lemma rt_event_recv_wf thread set opt timeout e w r e' :
  ev_wf e -> rt_event_recv thread set opt timeout e = Ok (w, r, e') -> ev_wf e'.
Proof.
  intros [Hw He Ho]. unfold rt_event_recv. destruct (set =? 0); [by intros [= <- <- <-]|].
  destruct (if has_flag opt RT_EVENT_FLAG_AND then _ else _) as [status| |] eqn:Est; [|done..].
  cbn [mbind outcome_bind]. destruct status; [|destruct (timeout =? 0)]; intros [= <- <- <-];
    [|by split|].
  - destruct (has_flag opt RT_EVENT_FLAG_CLEAR); [|by split]. split; cbn; [|done..].
    eapply Forall_impl; [exact Hw|]. cbn. intros t. apply event_satisfies_mono, bits_within_land.
  - split; cbn.
    + rewrite list_suspend_perm. constructor; [|done].
      unfold event_satisfies. cbn. revert Est.
      destruct (has_flag opt RT_EVENT_FLAG_AND), (has_flag opt RT_EVENT_FLAG_OR);
        rewrite ?(Z.land_comm set); intros [= ->]; done.
    + rewrite list_suspend_perm. by constructor.
    + intros Hf. rewrite Hf in *. by apply insert_by_priority_sorted, Ho.
Qed.

Lemma rt_event_recv_valid thread set opt timeout e :
  has_flag opt RT_EVENT_FLAG_AND = true \/ has_flag opt RT_EVENT_FLAG_OR = true ->
  exists w r e', rt_event_recv thread set opt timeout e = Ok (w, r, e').
Proof.
  intros Hopt. unfold rt_event_recv. destruct (set =? 0); [by eexists _, _, _|].
  destruct (has_flag opt RT_EVENT_FLAG_AND).
  2: destruct (has_flag opt RT_EVENT_FLAG_OR); [|by destruct Hopt].
  all: cbn [mbind outcome_bind]; match goal with |- context [if ?b then _ else _] => destruct b end;
    [|destruct (timeout =? 0)]; eexists _, _, _; reflexivity.
Qed.

(** What the threads and interrupts of a program do to one event object. *)
Inductive ev_op :=
  | EvSend (set : Z)
  | EvRecv (thread : rt_thread) (set opt timeout : Z)
  | EvTimeout (t : Z)
  | EvReset.

Definition ev_op_valid (op : ev_op) : Prop :=
  match op with
  | EvRecv _ _ opt _ => has_flag opt RT_EVENT_FLAG_AND = true \/ has_flag opt RT_EVENT_FLAG_OR = true
  | _ => True
  end.

#[export] Instance ev_op_valid_dec op : Decision (ev_op_valid op).
Proof. destruct op; cbn; apply _. Defined.

Definition ev_step (op : ev_op) (e : rt_event) : outcome rt_event :=
  match op with
  | EvSend set => Ok (rt_event_send set e).2
  | EvRecv thread set opt timeout =>
      '(_, _, e) ← rt_event_recv thread set opt timeout e; Ok e
  | EvTimeout t =>
      Ok (e <| ev_suspend_thread := (rt_thread_timeout (ev_suspend_thread e) t).1 |>)
  | EvReset => Ok (rt_event_control RT_IPC_CMD_RESET e).2
  end.

Fixpoint ev_run (ops : list ev_op) (e : rt_event) : outcome rt_event :=
  match ops with
  | [] => Ok e
  | op :: ops => e ← ev_step op e; ev_run ops e
  end.

Lemma ev_step_ok op e : ev_wf e -> ev_op_valid op ->
  exists e', ev_step op e = Ok e' /\ ev_wf e'.
Proof.
  intros Hwf Hop. destruct op as [set|thread set opt timeout|t|]; cbn [ev_step ev_op_valid] in *.
  - eexists. split; [done|]. by apply rt_event_send_wf.
  - destruct (rt_event_recv_valid thread set opt timeout e Hop) as (w & r & e' & Hr).
    exists e'. rewrite Hr. split; [done|]. by eapply rt_event_recv_wf.
  - eexists. split; [done|]. destruct Hwf as [Hw He Ho].
    split; cbn; [by apply Forall_filter|by apply Forall_filter|].
    intros Hf. by apply filter_sorted, Ho.
  - eexists. split; [done|]. split; cbn; constructor.
Qed.

Lemma ev_run_ok ops : forall e, ev_wf e -> Forall ev_op_valid ops ->
  exists e', ev_run ops e = Ok e' /\ ev_wf e'.
Proof.
  induction ops as [|op ops IH]; intros e Hwf Hops; cbn [ev_run]; [by exists e|].
  apply Forall_cons in Hops as [Hop Hops].
  destruct (ev_step_ok op e Hwf Hop) as (e1 & -> & Hwf1). by apply IH.
Qed.

(** ** The properties *)

(** C38: Whatever sequence of takes, releases and wait timeouts the threads of a program perform on a semaphore, no operation faults, the count equals the initial value plus the releases minus the takes that were granted (as long as it fits its 16 bits), a thread only ever waits while the count is zero, no waiting thread carries an error code, and the waiting list of a priority semaphore is in priority order. *)
Theorem sem_conservation ops value flag :
  0 <= value -> value + releases ops < 65536 ->
  exists granted s,
    sem_run ops (rt_sem_init value flag) = Ok (granted, s) /\
    sem_value s = value + releases ops - granted /\
    0 <= sem_value s < 65536 /\
    (sem_suspend_thread s <> [] -> sem_value s = 0) /\
    Forall (fun t => error t = RT_EOK) (sem_suspend_thread s) /\
    (flag = RT_IPC_FLAG_PRIO -> by_priority (sem_suspend_thread s)).
Proof.
  intros Hv Hmax. pose proof (releases_nonneg ops).
  destruct (sem_run_ok ops _ (sem_init_wf value flag ltac:(lia))) as (n & s & Hr & Hwf & Hf & Hs).
  { cbn. rewrite u16_small; lia. }
  cbn in Hs, Hf. rewrite u16_small in Hs by lia. destruct Hwf as [Hb Hi He Ho].
  exists n, s. split_and!; [done..|lia|lia| |done|by rewrite <- Hf].
  intros Hne. destruct (decide (0 < sem_value s)); [|lia]. destruct Hne. by apply Hi.
Qed.

Definition sem_example : list sem_op :=
  [SemTake (MkThread 1 10 0 0 0) (-1); SemTake (MkThread 2 20 0 0 0) (-1);
   SemTake (MkThread 3 5 0 0 0) 7; SemRelease; SemTimeout 2; SemRelease].

Lemma sem_conservation_witness :
  exists granted s, sem_run sem_example (rt_sem_init 1 RT_IPC_FLAG_PRIO) = Ok (granted, s) /\
    sem_value s = 1 + releases sem_example - granted.
Proof.
  destruct (sem_conservation sem_example 1 RT_IPC_FLAG_PRIO) as (g & s & H1 & H2 & _); [lia|reflexivity|].
  exists g, s. by split.
Defined.


Definition ev_example : list ev_op :=
  [EvRecv (MkThread 1 10 0 0 0) 3 5 (-1); EvRecv (MkThread 2 20 0 0 0) 6 6 (-1); EvSend 1; EvSend 6].


(** [rt_event_send] with a non-empty set returns RT_EOK and splits the waiting threads into resumed and still waiting, keeping the order of the latter: each resumed thread receives a non-empty part of the events it asked for (all of them for AND), taken from the events then set; what a CLEAR receiver takes is neither delivered to a thread resumed after it nor left in the event set; the remaining threads' conditions are false. *)
Theorem event_send_delivery set e status resumed e' :
  set <> 0 -> rt_event_send set e = (status, resumed, e') ->
  status = RT_EOK /\
  map tid (resumed ++ ev_suspend_thread e') ≡ₚ map tid (ev_suspend_thread e) /\
  ev_suspend_thread e' `sublist_of` ev_suspend_thread e /\
  Forall (delivered_from (ev_suspend_thread e) (Z.lor (ev_set e) set)) resumed /\
  no_double_delivery resumed /\
  ev_set e' = foldl (fun s t => Z.land s (Z.lnot (consumes t))) (Z.lor (ev_set e) set) resumed /\
  Forall (fun t => event_satisfies (ev_set e') t = None) (ev_suspend_thread e').
Proof.
  intros Hset. unfold rt_event_send. destruct (Z.eqb_spec set 0); [done|].
  destruct (rt_event_send_loop _ _) as [[s w] r] eqn:El. intros [= <- <- <-].
  destruct (rt_event_send_loop_ok _ _ _ _ _ El). by split_and!.
Qed.

Definition ev_two_waiting : rt_event :=
  MkEvent 0 [MkThread 1 10 3 6 0; MkThread 2 20 5 2 0; MkThread 3 20 1 1 0] RT_IPC_FLAG_PRIO.

Lemma event_send_delivery_witness :
  rt_event_send 1 ev_two_waiting =
    (RT_EOK, [MkThread 1 10 1 6 0], MkEvent 0 [MkThread 2 20 5 2 0; MkThread 3 20 1 1 0] RT_IPC_FLAG_PRIO) /\
  no_double_delivery [MkThread 1 10 1 6 0].
Proof.
  split; [reflexivity|].
  apply (event_send_delivery 1 ev_two_waiting RT_EOK _
    (MkEvent 0 [MkThread 2 20 5 2 0; MkThread 3 20 1 1 0] RT_IPC_FLAG_PRIO)); [lia|reflexivity].
Defined.
