(* ===== verification/IpcMutex.v ===== *)
(** * Kernel mutexes (src/Kernel/ipc.c)

    Recursive mutexes with ownership and priority inheritance.  The record holds
    the fields of [struct rt_mutex] and, as [priority_of], the current priority
    of every thread, which the code reads and changes through the thread
    pointers.  As in [Ipc], an operation stops where the code calls
    [rt_schedule], and [rt_mutex_take_resumed] is its continuation. *)
From Stdlib Require Import Sorting.Sorted.
From S2P Require Import Prelude Ipc.

(** ** The C definitions *)

Record rt_mutex := MkMutex {
  mx_value : Z;
  mx_owner : option Z;
  mx_original_priority : Z;
  mx_hold : Z;
  mx_suspend_thread : list rt_thread;
  mx_flag : ipc_flag;
  priority_of : Z -> Z
}.

#[export] Instance rt_mutex_eta : Eta rt_mutex := fun m =>
  MkMutex (mx_value m) (mx_owner m) (mx_original_priority m) (mx_hold m)
          (mx_suspend_thread m) (mx_flag m) (priority_of m).

Definition rt_mutex_init (flag : ipc_flag) (priority : Z -> Z) : rt_mutex :=
  MkMutex 1 None 0xff 0 [] flag priority.

Definition rt_mutex_detach (mutex : rt_mutex) : list rt_thread :=
  rt_ipc_list_resume_all (mx_suspend_thread mutex).

(** [rt_thread_control(t, RT_THREAD_CTRL_CHANGE_PRIORITY, &p)]. *)
Definition change_priority (t p : Z) (mutex : rt_mutex) : rt_mutex :=
  mutex <| priority_of := fun u => if decide (u = t) then p else priority_of mutex u |>.

(** The thread [t] with its error number reset. *)
Definition self (t : Z) (mutex : rt_mutex) : rt_thread :=
  MkThread t (priority_of mutex t) 0 0 RT_EOK.

(** From the label [__again] to the suspension. *)
Definition rt_mutex_take_again (t time : Z) (mutex : rt_mutex) : outcome (ipc_wait * rt_mutex) :=
  if mx_value mutex >? 0 then
    Ok (IpcReturn RT_EOK,
        mutex <| mx_value := u16 (mx_value mutex - 1) |>
              <| mx_owner := Some t |>
              <| mx_original_priority := u8 (priority_of mutex t) |>
              <| mx_hold := u8 (mx_hold mutex + 1) |>)
  else if time =? 0 then Ok (IpcReturn (- RT_ETIMEOUT), mutex)
  else
    match mx_owner mutex with
    | None => Fault FNull
    | Some owner =>
        let mutex := if priority_of mutex t <? priority_of mutex owner
                     then change_priority owner (priority_of mutex t) mutex else mutex in
        Ok (IpcSuspend (wait_timer time),
            mutex <| mx_suspend_thread :=
              rt_ipc_list_suspend (mx_suspend_thread mutex) (self t mutex) (mx_flag mutex) |>)
    end.

Definition rt_mutex_take (t time : Z) (mutex : rt_mutex) : outcome (ipc_wait * rt_mutex) :=
  if bool_decide (mx_owner mutex = Some t) then
    Ok (IpcReturn RT_EOK, mutex <| mx_hold := u8 (mx_hold mutex + 1) |>)
  else rt_mutex_take_again t time mutex.

(** After [rt_schedule]. *)
Definition rt_mutex_take_resumed (thread : rt_thread) (time : Z) (mutex : rt_mutex) :
    outcome (ipc_wait * rt_mutex) :=
  if negb (error thread =? RT_EOK) then
    if error thread =? - RT_EINTR then rt_mutex_take_again (tid thread) time mutex
    else Ok (IpcReturn (error thread), mutex)
  else Ok (IpcReturn RT_EOK, mutex).

(** The error code, and the thread resumed if any. *)
Definition rt_mutex_release (t : Z) (mutex : rt_mutex) :
    outcome (Z * list rt_thread * rt_mutex) :=
  if bool_decide (mx_owner mutex <> Some t) then Ok (- RT_ERROR, [], mutex) else
  let mutex := mutex <| mx_hold := u8 (mx_hold mutex - 1) |> in
  if mx_hold mutex =? 0 then
    let mutex := if negb (mx_original_priority mutex =? priority_of mutex t)
                 then change_priority t (mx_original_priority mutex) mutex else mutex in
    if bool_decide (mx_suspend_thread mutex <> []) then
      '(thread, rest) ← rt_ipc_list_resume (mx_suspend_thread mutex);
      Ok (RT_EOK, [thread],
          mutex <| mx_owner := Some (tid thread) |>
                <| mx_original_priority := u8 (priority_of mutex (tid thread)) |>
                <| mx_hold := u8 (mx_hold mutex + 1) |>
                <| mx_suspend_thread := rest |>)
    else
      Ok (RT_EOK, [],
          mutex <| mx_value := u16 (mx_value mutex + 1) |>
                <| mx_owner := None |>
                <| mx_original_priority := 0xff |>)
  else Ok (RT_EOK, [], mutex).

Definition rt_mutex_control (cmd : ipc_cmd) (mutex : rt_mutex) : Z * rt_mutex :=
  (- RT_ERROR, mutex).

(** ** Reachable mutexes

    A thread that waits cannot run, so it cannot take or release; a thread woken
    by a signal tries again; a timeout takes a thread off the list.  Nested takes
    stay below the 8-bit counter's limit. *)
Definition waiting (m : rt_mutex) : list Z := map tid (mx_suspend_thread m).

Inductive mx_reachable (flag : ipc_flag) : rt_mutex -> Prop :=
  | mx_reach_init priority :
      (forall t, 0 <= priority t < 256) ->
      mx_reachable flag (rt_mutex_init flag priority)
  | mx_reach_take m t time w m' :
      mx_reachable flag m -> t ∉ waiting m -> mx_hold m < 255 ->
      rt_mutex_take t time m = Ok (w, m') -> mx_reachable flag m'
  | mx_reach_retry m thread time w m' :
      mx_reachable flag m -> tid thread ∉ waiting m -> mx_owner m <> Some (tid thread) ->
      mx_hold m < 255 -> error thread = - RT_EINTR ->
      rt_mutex_take_resumed thread time m = Ok (w, m') -> mx_reachable flag m'
  | mx_reach_release m t e r m' :
      mx_reachable flag m -> t ∉ waiting m ->
      rt_mutex_release t m = Ok (e, r, m') -> mx_reachable flag m'
  | mx_reach_timeout m t :
      mx_reachable flag m ->
      mx_reachable flag
        (m <| mx_suspend_thread := (rt_thread_timeout (mx_suspend_thread m) t).1 |>).

(** Who owns, who waits. *)
Inductive mx_shape (m : rt_mutex) : Prop :=
  | mx_free : mx_value m = 1 -> mx_owner m = None -> mx_hold m = 0 ->
      mx_suspend_thread m = [] -> mx_shape m
  | mx_owned o : mx_value m = 0 -> mx_owner m = Some o -> 1 <= mx_hold m <= 255 ->
      o ∉ waiting m -> mx_shape m.

(** The owner runs at least as urgently as every waiter and as it did when it
    took the mutex; a smaller number is a higher priority. *)
Definition inherits (m : rt_mutex) : Prop :=
  forall o, mx_owner m = Some o ->
    priority_of m o <= mx_original_priority m /\
    forall u, u ∈ waiting m -> priority_of m o <= priority_of m u.

Record mx_wf (flag : ipc_flag) (m : rt_mutex) : Prop := {
  mx_wf_flag : mx_flag m = flag;
  mx_wf_shape : mx_shape m;
  mx_wf_nodup : NoDup (waiting m);
  mx_wf_priority : forall t, 0 <= priority_of m t < 256;
  mx_wf_original : 0 <= mx_original_priority m < 256;
  mx_wf_waiters : Forall (fun t => error t = RT_EOK /\ current_priority t = priority_of m (tid t))
                    (mx_suspend_thread m);
  mx_wf_order : flag = RT_IPC_FLAG_PRIO -> by_priority (mx_suspend_thread m) /\ inherits m
}.

Ltac mx_fields :=
  cbv beta delta [upd id change_priority self] in *;
  cbn [mx_value mx_owner mx_original_priority mx_hold mx_suspend_thread mx_flag priority_of
       tid current_priority error fst snd] in *.

Lemma waiting_suspend l t flag : map tid (rt_ipc_list_suspend l t flag) ≡ₚ tid t :: map tid l.
Proof. by rewrite list_suspend_perm. Qed.

Lemma mx_init_wf flag priority :
  (forall t, 0 <= priority t < 256) -> mx_wf flag (rt_mutex_init flag priority).
Proof.
  intros Hp. split; cbn; try done; try constructor; try done; constructor.
Qed.

(** Changing the owner's priority touches no waiter. *)
Lemma waiters_change_priority (f : Z -> Z) (l : list rt_thread) o p : o ∉ map tid l ->
  Forall (fun t => error t = RT_EOK /\ current_priority t = f (tid t)) l ->
  Forall (fun t => error t = RT_EOK /\
            current_priority t = (if decide (tid t = o) then p else f (tid t))) l.
Proof.
  intros Ho Hl. rewrite Forall_forall in *. intros t Ht. rewrite decide_False; [by apply Hl|].
  intros <-. apply Ho. by apply list_elem_of_fmap_2.
Qed.

Lemma take_owned_wf flag m t : mx_wf flag m -> mx_owner m = Some t -> mx_hold m < 255 ->
  mx_wf flag (m <| mx_hold := u8 (mx_hold m + 1) |>).
Proof.
  intros [Hf Hs Hn Hp Ho Hw Hi] Ht Hh. mx_fields. destruct Hs as [|o Hv Hown Hhold Hnot]; [congruence|].
  rewrite u8_id by (unfold is_byte; lia). split; cbn; try done.
  by apply (mx_owned _ o); cbn; [| |lia|].
Qed.

Lemma take_free_wf flag m t : mx_wf flag m -> mx_value m > 0 ->
  mx_wf flag
    (m <| mx_value := u16 (mx_value m - 1) |> <| mx_owner := Some t |>
       <| mx_original_priority := u8 (priority_of m t) |> <| mx_hold := u8 (mx_hold m + 1) |>).
Proof.
  intros [Hf Hs Hn Hp Ho Hw Hi] Hv. destruct Hs as [Hv1 Hown Hhold Hnil|]; [|lia]. mx_fields.
  rewrite Hv1, Hhold, Hnil in *. rewrite (u8_id (priority_of m t)) by apply Hp. split; cbn; try done.
  - apply (mx_owned _ t); cbn; try done. by intros ?%not_elem_of_nil.
  - constructor.
  - intros HF. split; [constructor|].
    intros o [= <-]. cbn. split; [lia|]. by intros u Hu%not_elem_of_nil.
Qed.

(** The owner's priority raised to that of the thread about to wait. *)
Definition boost (m : rt_mutex) (o t : Z) : rt_mutex :=
  if priority_of m t <? priority_of m o then change_priority o (priority_of m t) m else m.

Lemma boost_spec m o t : o <> t ->
  mx_value (boost m o t) = mx_value m /\ mx_owner (boost m o t) = mx_owner m /\
  mx_original_priority (boost m o t) = mx_original_priority m /\
  mx_hold (boost m o t) = mx_hold m /\ mx_flag (boost m o t) = mx_flag m /\
  mx_suspend_thread (boost m o t) = mx_suspend_thread m /\
  forall u, priority_of (boost m o t) u =
    if decide (u = o) then Z.min (priority_of m o) (priority_of m t) else priority_of m u.
Proof.
  intros Hne. unfold boost. destruct (Z.ltb_spec (priority_of m t) (priority_of m o)).
  - split_and!; try done. intros u. cbn. destruct (decide (u = o)); [lia|done].
  - split_and!; try done. intros u. destruct (decide (u = o)) as [->|]; [lia|done].
Qed.

Lemma take_wait_wf flag m o t : mx_wf flag m -> mx_owner m = Some o -> o <> t ->
  t ∉ waiting m ->
  mx_wf flag ((boost m o t) <| mx_suspend_thread :=
    rt_ipc_list_suspend (mx_suspend_thread (boost m o t)) (self t (boost m o t))
      (mx_flag (boost m o t)) |>).
Proof.
  intros [Hf Hs Hn Hp Ho Hw Hi] Hown Hne Ht.
  destruct (boost_spec m o t Hne) as (Ev & Eo & Eor & Eh & Ef & Es & Ep).
  set (b := boost m o t) in *. clearbody b. mx_fields. rewrite Es, Ef in *.
  destruct Hs as [|o' Hv Hown' Hhold Hnot]; [congruence|]. replace o' with o in * by congruence.
  split; cbn; rewrite ?Eor; try done.
  - apply (mx_owned _ o); cbn; rewrite ?Ev, ?Eo, ?Eh; try done.
    unfold waiting. cbn. rewrite waiting_suspend. cbn. by apply not_elem_of_cons.
  - unfold waiting. cbn. rewrite waiting_suspend. by constructor.
  - intros u. rewrite Ep. case_decide; [|done]. pose proof (Hp o). pose proof (Hp t). lia.
  - rewrite list_suspend_perm. constructor; [done|]. cbn.
    apply (waiters_change_priority _ _ o (Z.min (priority_of m o) (priority_of m t))) in Hw; [|done].
    eapply Forall_impl; [exact Hw|]. intros u [? Hu]. by rewrite Ep.
  - intros HF. destruct (Hi HF) as [Hsort Hinh]. split.
    + rewrite Hf, HF. by apply insert_by_priority_sorted.
    + intros o1 Ho1. cbn in *. replace o1 with o in * by congruence.
      destruct (Hinh o Hown) as [Hor Hall]. rewrite Ep, decide_True by done. split; [lia|].
      unfold waiting. cbn. intros u. rewrite waiting_suspend, elem_of_cons. cbn.
      intros [->|Hu]; rewrite Ep; [rewrite decide_False by done; lia|].
      specialize (Hall u Hu). rewrite decide_False; [lia|]. intros ->. by apply Hnot.
Qed.

Lemma rt_mutex_take_wf flag m t time : mx_wf flag m -> t ∉ waiting m -> mx_hold m < 255 ->
  exists w m', rt_mutex_take t time m = Ok (w, m') /\ mx_wf flag m'.
Proof.
  intros Hwf Ht Hh. unfold rt_mutex_take. case_bool_decide as Hown.
  { eexists _, _. split; [done|]. by apply (take_owned_wf _ _ t). }
  unfold rt_mutex_take_again. destruct (Z.gtb_spec (mx_value m) 0).
  { eexists _, _. split; [done|]. apply take_free_wf; [done|lia]. }
  destruct (Z.eqb_spec time 0). { eexists _, _. by split. }
  destruct (mx_owner m) as [o|] eqn:Eo.
  - eexists _, _. split; [done|]. apply take_wait_wf; [done..|congruence|done].
  - destruct (mx_wf_shape _ _ Hwf); [lia|congruence].
Qed.

Lemma rt_mutex_again_eq t time m : mx_owner m <> Some t ->
  rt_mutex_take_again t time m = rt_mutex_take t time m.
Proof. intros. unfold rt_mutex_take. by rewrite bool_decide_eq_false_2. Qed.

(** The last release of an owner: its priority goes back, and the first waiter
    (if any) becomes the owner. *)
Definition restored (m : rt_mutex) (t : Z) : Z -> Z :=
  fun u => if decide (u = t) then mx_original_priority m else priority_of m u.

Lemma rt_mutex_release_eq m t : mx_owner m = Some t -> mx_hold m = 1 ->
  exists m', rt_mutex_release t m = Ok (RT_EOK, take 1 (mx_suspend_thread m), m') /\
    mx_suspend_thread m' = drop 1 (mx_suspend_thread m) /\ mx_flag m' = mx_flag m /\
    (forall u, priority_of m' u = restored m t u) /\
    match mx_suspend_thread m with
    | [] => mx_owner m' = None /\ mx_value m' = u16 (mx_value m + 1) /\ mx_hold m' = 0 /\
            mx_original_priority m' = 0xff
    | w :: _ => mx_owner m' = Some (tid w) /\ mx_value m' = mx_value m /\ mx_hold m' = 1 /\
            mx_original_priority m' = u8 (restored m t (tid w))
    end.
Proof.
  intros Ho Hh. unfold rt_mutex_release. rewrite bool_decide_eq_false_2 by (intros []; done).
  mx_fields. rewrite Hh. change (u8 (1 - 1)) with 0. cbn [Z.eqb].
  unfold restored. destruct (Z.eqb_spec (mx_original_priority m) (priority_of m t)) as [He|Hne]; cbn [negb];
    destruct (mx_suspend_thread m) as [|w l] eqn:Es; cbn; rewrite ?Es; cbn;
    eexists; (split; [done|]); cbn; split_and!; try done; intros; try case_decide; congruence.
Qed.

Lemma restored_other m t u : u <> t -> restored m t u = priority_of m u.
Proof. intros. unfold restored. by rewrite decide_False. Qed.

Lemma waiter_not_owner m o w l : mx_suspend_thread m = w :: l -> o ∉ waiting m -> tid w <> o.
Proof. intros Hs Hn <-. apply Hn. unfold waiting. rewrite Hs. by left. Qed.

Lemma restored_range flag m t u : mx_wf flag m -> 0 <= restored m t u < 256.
Proof. intros []. unfold restored. by case_decide. Qed.

Lemma restored_waiters m t l : t ∉ map tid l ->
  Forall (fun x => error x = RT_EOK /\ current_priority x = priority_of m (tid x)) l ->
  Forall (fun x => error x = RT_EOK /\ current_priority x = restored m t (tid x)) l.
Proof. apply waiters_change_priority. Qed.

Lemma release_free_wf flag m m' t : mx_wf flag m -> mx_flag m' = mx_flag m ->
  mx_suspend_thread m' = [] -> (forall u, priority_of m' u = restored m t u) ->
  mx_value m' = 1 -> mx_owner m' = None -> mx_hold m' = 0 -> mx_original_priority m' = 0xff ->
  mx_wf flag m'.
Proof.
  intros Hwf Hf Hs Hp Hv Ho Hh Hor. split; unfold waiting, inherits; rewrite ?Hs, ?Hor; cbn.
  - rewrite Hf. apply Hwf.
  - by apply mx_free.
  - constructor.
  - intros u. rewrite Hp. by eapply restored_range.
  - lia.
  - constructor.
  - intros _. split; [constructor|congruence].
Qed.

Lemma release_handoff_wf flag m m' t w l : mx_wf flag m -> t ∉ waiting m ->
  mx_suspend_thread m = w :: l -> mx_flag m' = mx_flag m ->
  mx_suspend_thread m' = l -> (forall u, priority_of m' u = restored m t u) ->
  mx_value m' = 0 -> mx_owner m' = Some (tid w) -> mx_hold m' = 1 ->
  mx_original_priority m' = u8 (restored m t (tid w)) ->
  mx_wf flag m'.
Proof.
  intros Hwf Ht Es Hf Hs Hp Hv Ho Hh Hor.
  rewrite u8_id in Hor by (eapply restored_range; exact Hwf).
  pose proof (fun u => restored_range _ _ t u Hwf) as Hr.
  destruct Hwf as [Hf0 _ Hn _ _ Hw Hi]. unfold waiting in *. rewrite Es in *.
  apply (restored_waiters m t) in Hw; [|done]. cbn in Hn.
  apply NoDup_cons in Hn as [Hwn Hn]. apply Forall_cons in Hw as [[_ Hpw] Hw].
  split; unfold waiting; rewrite ?Hs, ?Hor; [congruence| |done| |done| |].
  - apply (mx_owned _ (tid w)); unfold waiting; rewrite ?Hs; [done|done|lia|done].
  - intros u. by rewrite Hp.
  - eapply Forall_impl; [exact Hw|]. intros u [? Hu]. by rewrite Hp.
  - intros HF. destruct (Hi HF) as [[Hsort Hall]%StronglySorted_inv _]. split; [done|].
    intros o Hoo. rewrite Ho in Hoo. injection Hoo as <-. rewrite Hor, Hp. split; [done|].
    unfold waiting. rewrite Hs. intros u (x & -> & Hx)%list_elem_of_fmap.
    rewrite Forall_forall in Hall, Hw. specialize (Hall x Hx). destruct (Hw x Hx) as [_ Hux].
    unfold priority_le in Hall. rewrite Hp. lia.
Qed.

Lemma release_last_wf flag m t e r m' : mx_wf flag m -> mx_owner m = Some t -> mx_hold m = 1 ->
  rt_mutex_release t m = Ok (e, r, m') -> mx_wf flag m'.
Proof.
  intros Hwf Hown Hh Hrel.
  destruct (rt_mutex_release_eq m t Hown Hh) as (m1 & Hrel1 & Hs1 & Hf1 & Hp1 & Hm1).
  rewrite Hrel in Hrel1. injection Hrel1 as -> -> ->.
  assert (mx_value m = 0 /\ t ∉ waiting m) as [Hv Hnot].
  { destruct (mx_wf_shape _ _ Hwf) as [|o ? Hown']; [congruence|].
    by replace t with o by congruence. }
  destruct (mx_suspend_thread m) as [|w l] eqn:Es; destruct Hm1 as (Ho1 & Hv1 & Hh1 & Hor1).
  - eapply release_free_wf; eauto. by rewrite Hv1, Hv.
  - eapply release_handoff_wf; eauto. congruence.
Qed.

Lemma release_nested_wf flag m t : mx_wf flag m -> mx_owner m = Some t -> mx_hold m <> 1 ->
  exists m', rt_mutex_release t m = Ok (RT_EOK, [], m') /\ mx_wf flag m' /\
    mx_hold m' = mx_hold m - 1 /\ mx_owner m' = mx_owner m.
Proof.
  intros [Hf Hs Hn Hp Ho Hw Hi] Hown Hh. unfold rt_mutex_release.
  rewrite bool_decide_eq_false_2 by (intros []; done). mx_fields.
  destruct Hs as [|o Hv Hown' Hhold Hnot]; [congruence|]. replace o with t in * by congruence.
  rewrite u8_id by (unfold is_byte; lia). destruct (Z.eqb_spec (mx_hold m - 1) 0); [lia|].
  eexists. split; [done|]. cbn. split; [|done]. split; cbn; try done.
  apply (mx_owned _ t); cbn; [done|done|lia|done].
Qed.

Lemma rt_mutex_release_wf flag m t : mx_wf flag m ->
  exists e r m', rt_mutex_release t m = Ok (e, r, m') /\ mx_wf flag m'.
Proof.
  intros Hwf. destruct (decide (mx_owner m = Some t)) as [Hown|Hown].
  - destruct (decide (mx_hold m = 1)) as [Hh|Hh].
    + destruct (rt_mutex_release_eq m t Hown Hh) as (m1 & Hrel & _).
      eexists _, _, m1. split; [exact Hrel|]. by eapply release_last_wf.
    + destruct (release_nested_wf flag m t Hwf Hown Hh) as (m1 & Hrel & ? & _). by eexists _, _, m1.
  - unfold rt_mutex_release. rewrite bool_decide_eq_true_2 by done. by eexists _, _, _.
Qed.

Lemma mx_timeout_wf flag m t : mx_wf flag m ->
  mx_wf flag (m <| mx_suspend_thread := (rt_thread_timeout (mx_suspend_thread m) t).1 |>).
Proof.
  intros [Hf Hs Hn Hp Ho Hw Hi]. mx_fields.
  assert (forall u, u ∈ map tid (filter (fun x => tid x <> t) (mx_suspend_thread m)) -> u ∈ waiting m) as Hsub.
  { intros u (x & -> & [_ Hx]%list_elem_of_filter)%list_elem_of_fmap. by apply list_elem_of_fmap_2. }
  split; unfold waiting; cbn; try done.
  - destruct Hs as [? ? ? Hnil|o]; [apply mx_free; cbn; try done; by rewrite Hnil|].
    apply (mx_owned _ o); cbn; auto.
  - by apply NoDup_map_filter.
  - by apply Forall_filter.
  - intros HF. destruct (Hi HF) as [Hsort Hinh]. split; [by apply filter_sorted|].
    intros o Hoo. destruct (Hinh o Hoo) as [? Hall]. cbn. split; [done|]. auto.
Qed.

Lemma mx_reachable_wf flag m : mx_reachable flag m -> mx_wf flag m.
Proof.
  induction 1 as [|m t time w m' _ IH Ht Hh Htake|m th time w m' _ IH Ht Ho Hh He Htake
                 |m t e r m' _ IH Ht Hrel|m t _ IH].
  - by apply mx_init_wf.
  - destruct (rt_mutex_take_wf flag m t time IH Ht Hh) as (? & ? & He & ?). congruence.
  - unfold rt_mutex_take_resumed in Htake. rewrite He in Htake.
    change (rt_mutex_take_again (tid th) time m = Ok (w, m')) in Htake.
    rewrite rt_mutex_again_eq in Htake by done.
    destruct (rt_mutex_take_wf flag m (tid th) time IH Ht Hh) as (? & ? & ? & ?). congruence.
  - destruct (rt_mutex_release_wf flag m t IH) as (? & ? & ? & He & ?). congruence.
  - by apply mx_timeout_wf.
Qed.

(** ** The properties *)


(** Three threads of priorities 20, 10 and 5. *)
Definition mx_example_prio (t : Z) : Z := if t =? 1 then 20 else if t =? 2 then 10 else 5.

Definition mx_start (flag : ipc_flag) : rt_mutex := rt_mutex_init flag mx_example_prio.

Definition mx_contended (flag : ipc_flag) : outcome rt_mutex :=
  '(_, m) ← rt_mutex_take 1 (-1) (mx_start flag);
  '(_, m) ← rt_mutex_take 2 (-1) m;
  '(_, m) ← rt_mutex_take 3 (-1) m;
  Ok m.

Lemma mx_contended_reachable flag m : mx_contended flag = Ok m -> mx_reachable flag m.
Proof.
  unfold mx_contended. intros Hm.
  destruct (rt_mutex_take 1 (-1) _) as [[w1 m1]| |] eqn:E1; [|done..].
  cbn [mbind outcome_bind] in Hm.
  destruct (rt_mutex_take 2 (-1) m1) as [[w2 m2]| |] eqn:E2; [|done..].
  cbn [mbind outcome_bind] in Hm.
  destruct (rt_mutex_take 3 (-1) m2) as [[w3 m3]| |] eqn:E3; [|done..]. injection Hm as <-.
  assert (mx_reachable flag (mx_start flag)) as H0.
  { apply mx_reach_init. intros t. unfold mx_example_prio. repeat destruct (_ =? _); lia. }
  assert (waiting m1 = [] /\ mx_hold m1 = 1) as [W1 D1].
  { clear -E1. destruct flag; vm_compute in E1; by injection E1 as <- <-. }
  assert (waiting m2 = [2] /\ mx_hold m2 = 1) as [W2 D2].
  { clear -E1 E2. destruct flag; vm_compute in E1; injection E1 as <- <-;
      vm_compute in E2; by injection E2 as <- <-. }
  assert (mx_reachable flag m1) as H1.
  { eapply mx_reach_take; [exact H0| |reflexivity|exact E1]. by intros ?%not_elem_of_nil. }
  assert (mx_reachable flag m2) as H2.
  { eapply mx_reach_take; [exact H1| |lia|exact E2]. rewrite W1. by intros ?%not_elem_of_nil. }
  eapply mx_reach_take; [exact H2| |lia|exact E3]. rewrite W2. by intros ?%list_elem_of_singleton.
Qed.




(** A FIFO mutex does not pass the boost on: with threads of priority 20, 10 and 5 queued in this order, releasing it makes the thread of priority 10 the owner while the more urgent thread of priority 5 still waits, and the new owner keeps its own priority. *)
Theorem mutex_fifo_inversion :
  exists m m', mx_contended RT_IPC_FLAG_FIFO = Ok m /\
    rt_mutex_release 1 m = Ok (RT_EOK, [MkThread 2 10 0 0 RT_EOK], m') /\
    mx_owner m' = Some 2 /\ waiting m' = [3] /\
    priority_of m' 3 < priority_of m' 2.
Proof. do 2 eexists. split_and!; vm_compute; reflexivity. Qed.
