(* ===== verification/IpcMailbox.v ===== *)
(** * Kernel mailboxes (src/Kernel/ipc.c)

    A mailbox is a ring of mails with a list of waiting receivers and a list of
    waiting senders.  The loops of [rt_mb_send_wait] and [rt_mb_recv] go around
    only through a suspension: [.._loop] is one pass of the body, from the loop
    test to either the suspension or the return, and [.._resumed] is what a woken
    thread does, with the ticks that elapsed while it waited. *)
From S2P Require Import Prelude Cyclic Ipc.

(** ** The C definitions *)
Record rt_mailbox := MkMb {
  msg_pool : list Z;
  mb_size : Z;
  mb_entry : Z;
  in_offset : Z;
  out_offset : Z;
  mb_suspend_thread : list rt_thread;
  suspend_sender_thread : list rt_thread;
  mb_flag : ipc_flag
}.

#[export] Instance rt_mailbox_eta : Eta rt_mailbox := fun m =>
  MkMb (msg_pool m) (mb_size m) (mb_entry m) (in_offset m) (out_offset m)
       (mb_suspend_thread m) (suspend_sender_thread m) (mb_flag m).

Definition rt_mb_init (msgpool : list Z) (size : Z) (flag : ipc_flag) : rt_mailbox :=
  MkMb msgpool (u16 size) 0 0 0 [] [] flag.

Definition rt_mb_detach (mb : rt_mailbox) : list rt_thread :=
  rt_ipc_list_resume_all (mb_suspend_thread mb) ++
  rt_ipc_list_resume_all (suspend_sender_thread mb).

(** What a step reports: the caller's fate, the mail read if any, the thread
    resumed if any. *)
Record mb_effect := MbEffect {
  mb_wait : ipc_wait;
  mb_value : option Z;
  mb_resumed : list rt_thread
}.

(** The first waiting thread is resumed, if there is one. *)
Definition resume_first (lst : list rt_thread) :
    outcome (list rt_thread * list rt_thread) :=
  if bool_decide (lst <> []) then
    '(thread, rest) ← rt_ipc_list_resume lst; Ok ([thread], rest)
  else Ok ([], lst).

(** [timeout -= tick_delta; if (timeout < 0) timeout = 0;] *)
Definition remaining_timeout (timeout elapsed : Z) : Z :=
  if timeout >? 0 then
    let timeout := s32 (timeout - elapsed) in
    if timeout <? 0 then 0 else timeout
  else timeout.

Definition mb_store (value : Z) (mb : rt_mailbox) : outcome (mb_effect * rt_mailbox) :=
  pool ← zset (msg_pool mb) (in_offset mb) value;
  let in_ := u16 (in_offset mb + 1) in
  let in_ := if in_ >=? mb_size mb then 0 else in_ in
  '(resumed, receivers) ← resume_first (mb_suspend_thread mb);
  Ok (MbEffect (IpcReturn RT_EOK) None resumed,
      mb <| msg_pool := pool |> <| in_offset := in_ |>
         <| mb_entry := u16 (mb_entry mb + 1) |> <| mb_suspend_thread := receivers |>).

Definition rt_mb_send_loop (thread : rt_thread) (value timeout : Z) (mb : rt_mailbox) :
    outcome (mb_effect * rt_mailbox) :=
  if mb_entry mb =? mb_size mb then
    let thread := thread <| error := RT_EOK |> in
    if timeout =? 0 then Ok (MbEffect (IpcReturn (- RT_EFULL)) None [], mb)
    else
      Ok (MbEffect (IpcSuspend (wait_timer timeout)) None [],
          mb <| suspend_sender_thread :=
            rt_ipc_list_suspend (suspend_sender_thread mb) thread (mb_flag mb) |>)
  else mb_store value mb.

Definition rt_mb_send_wait (thread : rt_thread) (value timeout : Z) (mb : rt_mailbox) :
    outcome (mb_effect * rt_mailbox) :=
  if (mb_entry mb =? mb_size mb) && (timeout =? 0) then
    Ok (MbEffect (IpcReturn (- RT_EFULL)) None [], mb)
  else rt_mb_send_loop thread value timeout mb.

Definition rt_mb_send_resumed (thread : rt_thread) (value timeout elapsed : Z)
    (mb : rt_mailbox) : outcome (mb_effect * rt_mailbox) :=
  if negb (error thread =? RT_EOK) then Ok (MbEffect (IpcReturn (error thread)) None [], mb)
  else rt_mb_send_loop thread value (remaining_timeout timeout elapsed) mb.

Definition rt_mb_send (thread : rt_thread) (value : Z) (mb : rt_mailbox) :
    outcome (mb_effect * rt_mailbox) :=
  rt_mb_send_wait thread value 0 mb.

Definition mb_fetch (mb : rt_mailbox) : outcome (mb_effect * rt_mailbox) :=
  value ← zget (msg_pool mb) (out_offset mb);
  let out := u16 (out_offset mb + 1) in
  let out := if out >=? mb_size mb then 0 else out in
  '(resumed, senders) ← resume_first (suspend_sender_thread mb);
  Ok (MbEffect (IpcReturn RT_EOK) (Some value) resumed,
      mb <| out_offset := out |> <| mb_entry := u16 (mb_entry mb - 1) |>
         <| suspend_sender_thread := senders |>).

Definition rt_mb_recv_loop (thread : rt_thread) (timeout : Z) (mb : rt_mailbox) :
    outcome (mb_effect * rt_mailbox) :=
  if mb_entry mb =? 0 then
    let thread := thread <| error := RT_EOK |> in
    if timeout =? 0 then Ok (MbEffect (IpcReturn (- RT_ETIMEOUT)) None [], mb)
    else
      Ok (MbEffect (IpcSuspend (wait_timer timeout)) None [],
          mb <| mb_suspend_thread :=
            rt_ipc_list_suspend (mb_suspend_thread mb) thread (mb_flag mb) |>)
  else mb_fetch mb.

Definition rt_mb_recv (thread : rt_thread) (timeout : Z) (mb : rt_mailbox) :
    outcome (mb_effect * rt_mailbox) :=
  if (mb_entry mb =? 0) && (timeout =? 0) then
    Ok (MbEffect (IpcReturn (- RT_ETIMEOUT)) None [], mb)
  else rt_mb_recv_loop thread timeout mb.

Definition rt_mb_recv_resumed (thread : rt_thread) (timeout elapsed : Z)
    (mb : rt_mailbox) : outcome (mb_effect * rt_mailbox) :=
  if negb (error thread =? RT_EOK) then Ok (MbEffect (IpcReturn (error thread)) None [], mb)
  else rt_mb_recv_loop thread (remaining_timeout timeout elapsed) mb.

Definition rt_mb_control (cmd : ipc_cmd) (mb : rt_mailbox) :
    Z * list rt_thread * rt_mailbox :=
  match cmd with
  | RT_IPC_CMD_RESET =>
      (RT_EOK,
       rt_ipc_list_resume_all (mb_suspend_thread mb) ++
         rt_ipc_list_resume_all (suspend_sender_thread mb),
       mb <| mb_suspend_thread := [] |> <| suspend_sender_thread := [] |>
          <| mb_entry := 0 |> <| in_offset := 0 |> <| out_offset := 0 |>)
  | RT_IPC_CMD_UNKNOWN => (- RT_ERROR, [], mb)
  end.

(** ** The queue of mails *)
Record mb_wf (mb : rt_mailbox) : Prop := {
  mb_wf_size : 0 < mb_size mb < 65536;
  mb_wf_pool : mb_size mb <= Z.of_nat (length (msg_pool mb));
  mb_wf_entry : 0 <= mb_entry mb <= mb_size mb;
  mb_wf_out : 0 <= out_offset mb < mb_size mb;
  mb_wf_in : in_offset mb = (out_offset mb + mb_entry mb) mod mb_size mb
}.

Definition mails (mb : rt_mailbox) : list Z :=
  cyc (msg_pool mb) (mb_size mb) (out_offset mb) (mb_entry mb).

Ltac mb_fields :=
  cbv beta delta [upd id] in *;
  cbn [msg_pool mb_size mb_entry in_offset out_offset mb_suspend_thread
       suspend_sender_thread mb_flag mb_wait mb_value mb_resumed] in *.

Lemma resume_first_eq lst : resume_first lst = Ok (take 1 lst, drop 1 lst).
Proof. by destruct lst. Qed.

Lemma next_offset sz i : 0 < sz < 65536 -> 0 <= i < sz ->
  (let j := u16 (i + 1) in if j >=? sz then 0 else j) = (i + 1) mod sz.
Proof.
  intros. cbn zeta. rewrite mod_wrap by lia. destruct (decide (i + 1 < 65536)).
  - rewrite u16_small by lia. rewrite Z.geb_leb. destruct (Z.leb_spec sz (i + 1)); case_decide; lia.
  - replace (i + 1) with 65536 by lia. change (u16 65536) with 0. lia.
Qed.

Lemma mails_length mb : mb_wf mb -> length (mails mb) = Z.to_nat (mb_entry mb).
Proof. intros []. apply cyc_length; lia. Qed.

Lemma mb_store_ok value mb : mb_wf mb -> mb_entry mb < mb_size mb ->
  exists mb', mb_store value mb =
      Ok (MbEffect (IpcReturn RT_EOK) None (take 1 (mb_suspend_thread mb)), mb') /\
    mb_wf mb' /\ mails mb' = mails mb ++ [value] /\ mb_size mb' = mb_size mb /\
    mb_suspend_thread mb' = drop 1 (mb_suspend_thread mb) /\
    suspend_sender_thread mb' = suspend_sender_thread mb.
Proof.
  intros [Hs Hp He Ho Hi] Hroom.
  assert (0 <= in_offset mb < mb_size mb) as Hin by (rewrite Hi; apply Z.mod_pos_bound; lia).
  unfold mb_store. rewrite zset_ok by lia. cbn [mbind outcome_bind].
  rewrite resume_first_eq. cbn [mbind outcome_bind].
  eexists. split; [done|]. mb_fields. rewrite next_offset, u16_small by lia.
  pose proof (laid_one (msg_pool mb) (mb_size mb) (in_offset mb) value Hin Hp) as [Hlen Hlaid].
  split; [split; mb_fields; rewrite ?length_insert; try lia|].
  { rewrite Hi, Zplus_mod_idemp_l. f_equal. lia. }
  split; [|done]. unfold mails. mb_fields.
  pose proof (cyc_write (msg_pool mb) (<[Z.to_nat (in_offset mb) := value]> (msg_pool mb)) [value]
    (mb_size mb) (out_offset mb) (mb_entry mb) 1) as Hc. cbn zeta in Hc.
  rewrite Z.max_l, Z.add_0_r, Z.mod_small, Z.sub_0_r, drop_0 in Hc by lia.
  apply Hc; cbn; try lia. intros j Hj. rewrite Hlaid by done. cbn.
  rewrite Hi, Zminus_mod_idemp_r. done.
Qed.

Lemma mb_fetch_ok mb : mb_wf mb -> 0 < mb_entry mb ->
  exists v q mb', mails mb = v :: q /\ mb_fetch mb =
      Ok (MbEffect (IpcReturn RT_EOK) (Some v) (take 1 (suspend_sender_thread mb)), mb') /\
    mb_wf mb' /\ mails mb' = q /\ mb_size mb' = mb_size mb /\
    suspend_sender_thread mb' = drop 1 (suspend_sender_thread mb) /\
    mb_suspend_thread mb' = mb_suspend_thread mb.
Proof.
  intros Hwf Hne. pose proof (mails_length mb Hwf) as Hlen. destruct Hwf as [Hs Hp He Ho Hi].
  destruct (mails mb) as [|v q] eqn:Em; [cbn in Hlen; lia|].
  assert (zget (msg_pool mb) (out_offset mb) = Ok v) as Hget.
  { apply zget_Some; [lia|]. assert (mails mb !! 0%nat = Some v) as Hv by by rewrite Em.
    revert Hv. unfold mails. rewrite cyc_lookup, Z.add_0_r, Z.mod_small by lia. done. }
  exists v, q. unfold mb_fetch. rewrite Hget. cbn [mbind outcome_bind].
  rewrite resume_first_eq. cbn [mbind outcome_bind].
  eexists. split; [done|]. split; [done|]. mb_fields. rewrite next_offset, u16_small by lia.
  split; [split; mb_fields; try lia|].
  { apply Z.mod_pos_bound. lia. }
  { rewrite Hi, Zplus_mod_idemp_l. f_equal. lia. }
  split; [|done]. unfold mails in *. mb_fields.
  rewrite (cyc_drop _ _ _ (mb_entry mb) 1) by lia. by rewrite Em.
Qed.

(** ** Runs of a mailbox *)
Inductive mb_op :=
  | MbSend (thread : rt_thread) (value timeout : Z)
  | MbSendResumed (thread : rt_thread) (value timeout elapsed : Z)
  | MbRecv (thread : rt_thread) (timeout : Z)
  | MbRecvResumed (thread : rt_thread) (timeout elapsed : Z)
  | MbTimeout (t : Z).

Definition mb_exec (op : mb_op) (mb : rt_mailbox) : outcome (mb_effect * rt_mailbox) :=
  match op with
  | MbSend thread value timeout => rt_mb_send_wait thread value timeout mb
  | MbSendResumed thread value timeout elapsed =>
      rt_mb_send_resumed thread value timeout elapsed mb
  | MbRecv thread timeout => rt_mb_recv thread timeout mb
  | MbRecvResumed thread timeout elapsed => rt_mb_recv_resumed thread timeout elapsed mb
  | MbTimeout t =>
      Ok (MbEffect (IpcReturn RT_EOK) None [],
          mb <| mb_suspend_thread := (rt_thread_timeout (mb_suspend_thread mb) t).1 |>
             <| suspend_sender_thread := (rt_thread_timeout (suspend_sender_thread mb) t).1 |>)
  end.

(** The mail a step puts in: that of a send which returns success. *)
Definition mb_accepts (op : mb_op) (e : mb_effect) : list Z :=
  match op, mb_wait e with
  | MbSend _ value _, IpcReturn err | MbSendResumed _ value _ _, IpcReturn err =>
      if err =? RT_EOK then [value] else []
  | _, _ => []
  end.

(** The mail a step hands out, in [*value]. *)
Definition mb_delivers (e : mb_effect) : list Z :=
  match mb_value e with Some value => [value] | None => [] end.

Fixpoint mb_run (ops : list mb_op) (mb : rt_mailbox) : outcome (list Z * list Z * rt_mailbox) :=
  match ops with
  | [] => Ok ([], [], mb)
  | op :: ops =>
      '(e, mb) ← mb_exec op mb;
      '(sent, received, mb) ← mb_run ops mb;
      Ok (mb_accepts op e ++ sent, mb_delivers e ++ received, mb)
  end.

(** What one step does to the queue of mails. *)
Definition mb_step_fifo (op : mb_op) (mb : rt_mailbox) : Prop :=
  exists e mb', mb_exec op mb = Ok (e, mb') /\ mb_wf mb' /\ mb_size mb' = mb_size mb /\
    mails mb ++ mb_accepts op e = mb_delivers e ++ mails mb'.

(** The queue is left alone. *)
Lemma mb_step_idle op mb e mb' : mb_wf mb ->
  mb_exec op mb = Ok (e, mb') -> mb_accepts op e = [] -> mb_delivers e = [] ->
  msg_pool mb' = msg_pool mb -> mb_size mb' = mb_size mb -> mb_entry mb' = mb_entry mb ->
  in_offset mb' = in_offset mb -> out_offset mb' = out_offset mb ->
  mb_step_fifo op mb.
Proof.
  intros [] He Ha Hd Ep Es Ee Ei Eo. exists e, mb'. rewrite Ha, Hd, app_nil_r.
  split_and!; [done| |done|]; [|unfold mails; cbn; congruence].
  split; rewrite ?Ep, ?Es, ?Ee, ?Ei, ?Eo; done.
Qed.

Lemma mb_send_loop_fifo thread value timeout mb op : mb_wf mb ->
  mb_exec op mb = rt_mb_send_loop thread value timeout mb ->
  (forall err, mb_accepts op (MbEffect (IpcReturn err) None []) = if err =? RT_EOK then [value] else []) ->
  (forall e, mb_accepts op e = mb_accepts op (MbEffect (mb_wait e) None [])) ->
  (forall timer, mb_accepts op (MbEffect (IpcSuspend timer) None []) = []) ->
  mb_step_fifo op mb.
Proof.
  intros Hwf He Hret Hany Hsusp. unfold rt_mb_send_loop in He.
  destruct (Z.eqb_spec (mb_entry mb) (mb_size mb)) as [Hfull|Hroom].
  - destruct (timeout =? 0).
    + eapply mb_step_idle; [done|exact He|by rewrite Hret|done..].
    + eapply mb_step_idle; [done|exact He|by rewrite Hsusp|done..].
  - destruct (mb_store_ok value mb Hwf) as (mb' & Hst & Hwf' & Hm & Hsz & _);
      [pose proof (mb_wf_entry _ Hwf); lia|].
    exists (MbEffect (IpcReturn RT_EOK) None (take 1 (mb_suspend_thread mb))), mb'.
    rewrite Hany. cbn [mb_wait]. rewrite Hret. cbn. by rewrite He.
Qed.

Lemma mb_recv_loop_fifo thread timeout mb op : mb_wf mb ->
  mb_exec op mb = rt_mb_recv_loop thread timeout mb ->
  (forall e, mb_accepts op e = []) ->
  mb_step_fifo op mb.
Proof.
  intros Hwf He Hany. unfold rt_mb_recv_loop in He.
  destruct (Z.eqb_spec (mb_entry mb) 0) as [Hempty|Hne].
  - destruct (timeout =? 0); (eapply mb_step_idle; [done|exact He|done..]).
  - destruct (mb_fetch_ok mb Hwf) as (v & q & mb' & Hm & Hf & Hwf' & Hm' & Hsz & _);
      [pose proof (mb_wf_entry _ Hwf); lia|].
    eexists _, mb'. rewrite He, Hf. split; [done|]. rewrite Hany, app_nil_r, Hm, Hm'. done.
Qed.

Lemma mb_exec_fifo op mb : mb_wf mb -> mb_step_fifo op mb.
Proof.
  intros Hwf. destruct op as [thread v t|thread v t el|thread t|thread t el|t].
  - destruct ((mb_entry mb =? mb_size mb) && (t =? 0)) eqn:Ef.
    + eapply mb_step_idle; [done|cbn; unfold rt_mb_send_wait; by rewrite Ef|done..].
    + eapply (mb_send_loop_fifo thread v t); [done|cbn; unfold rt_mb_send_wait; by rewrite Ef|done..].
  - destruct (Z.eqb_spec (error thread) RT_EOK) as [Ee|Ee].
    + eapply (mb_send_loop_fifo thread v (remaining_timeout t el)); [done| |done..].
      cbn. unfold rt_mb_send_resumed. by rewrite Ee.
    + eapply mb_step_idle; [done|cbn; unfold rt_mb_send_resumed; by rewrite (proj2 (Z.eqb_neq _ _) Ee)| |done..].
      cbn. by rewrite (proj2 (Z.eqb_neq _ _) Ee).
  - destruct ((mb_entry mb =? 0) && (t =? 0)) eqn:Ef.
    + eapply mb_step_idle; [done|cbn; unfold rt_mb_recv; by rewrite Ef|done..].
    + eapply (mb_recv_loop_fifo thread t); [done|cbn; unfold rt_mb_recv; by rewrite Ef|done].
  - destruct (Z.eqb_spec (error thread) RT_EOK) as [Ee|Ee].
    + eapply (mb_recv_loop_fifo thread (remaining_timeout t el)); [done| |done].
      cbn. unfold rt_mb_recv_resumed. by rewrite Ee.
    + eapply mb_step_idle; [done|cbn; unfold rt_mb_recv_resumed; by rewrite (proj2 (Z.eqb_neq _ _) Ee)|done..].
  - eapply mb_step_idle; [done|reflexivity|done..].
Qed.

Lemma mb_run_fifo ops : forall mb, mb_wf mb ->
  exists sent received mb', mb_run ops mb = Ok (sent, received, mb') /\ mb_wf mb' /\
    mb_size mb' = mb_size mb /\ mails mb ++ sent = received ++ mails mb'.
Proof.
  induction ops as [|op ops IH]; intros mb Hwf; cbn [mb_run].
  - exists [], [], mb. by rewrite app_nil_r.
  - destruct (mb_exec_fifo op mb Hwf) as (e & mb1 & -> & Hwf1 & Hsz1 & Hq1).
    destruct (IH mb1 Hwf1) as (sent & received & mb2 & Hr & Hwf2 & Hsz2 & Hq2).
    cbn [mbind outcome_bind]. rewrite Hr. eexists _, _, mb2. split; [done|].
    split_and!; [done|congruence|]. by rewrite app_assoc, Hq1, <- !app_assoc, Hq2.
Qed.

(** ** The properties *)

(** C39: A mailbox is a bounded FIFO under every interleaving of sends, receives, wake-ups (with any elapsed time) and wait timeouts of its threads: no operation faults or leaves the pool, at most [size] mails are stored, and the mails of the sends that returned success are, in order, exactly the mails delivered so far followed by the ones still stored. *)
Theorem mailbox_fifo ops pool size flag :
  0 < size < 65536 -> size <= Z.of_nat (length pool) ->
  exists sent received mb,
    mb_run ops (rt_mb_init pool size flag) = Ok (sent, received, mb) /\
    sent = received ++ mails mb /\
    Z.of_nat (length (mails mb)) <= size.
Proof.
  intros Hs Hp.
  assert (mb_wf (rt_mb_init pool size flag)) as Hwf.
  { split; cbn; rewrite ?u16_small by lia; try lia. by rewrite Z.mod_small by lia. }
  destruct (mb_run_fifo ops _ Hwf) as (sent & received & mb & Hr & Hwf' & Hsz & Hq).
  exists sent, received, mb. split_and!; [done|done|].
  rewrite mails_length by done. pose proof (mb_wf_entry _ Hwf').
  cbn in Hsz. rewrite u16_small in Hsz by lia. lia.
Qed.

Definition mb_example : list mb_op :=
  let t1 := MkThread 1 10 0 0 0 in
  let t2 := MkThread 2 10 0 0 0 in
  [MbRecv t2 5; MbSend t1 11 0; MbSend t1 12 0; MbSend t1 13 7; MbRecvResumed t2 5 2;
   MbSendResumed t1 13 7 3; MbRecv t2 0; MbSend t1 14 0; MbTimeout 1].

Lemma mailbox_fifo_witness :
  exists sent received mb,
    mb_run mb_example (rt_mb_init [0; 0] 2 RT_IPC_FLAG_PRIO) = Ok (sent, received, mb) /\
    sent = received ++ mails mb /\ Z.of_nat (length (mails mb)) <= 2.
Proof. apply (mailbox_fifo mb_example [0; 0] 2 RT_IPC_FLAG_PRIO); cbn; lia. Defined.

(** One send or receive, on every branch: on a full mailbox a send without timeout returns -RT_EFULL and changes nothing, with a timeout it only queues its thread among the waiting senders; on an empty one a receive likewise returns -RT_ETIMEOUT or queues its thread; otherwise a send appends its mail, a receive takes the oldest mail, and exactly the first thread waiting on the other side (if any) is resumed. *)
Theorem mailbox_branches thread value timeout mb :
  mb_wf mb ->
  (mb_entry mb = mb_size mb -> timeout = 0 ->
     rt_mb_send_wait thread value timeout mb = Ok (MbEffect (IpcReturn (- RT_EFULL)) None [], mb)) /\
  (mb_entry mb = mb_size mb -> timeout <> 0 ->
     exists mb', rt_mb_send_wait thread value timeout mb =
         Ok (MbEffect (IpcSuspend (wait_timer timeout)) None [], mb') /\ mails mb' = mails mb /\
       suspend_sender_thread mb' ≡ₚ thread <| error := RT_EOK |> :: suspend_sender_thread mb) /\
  (mb_entry mb <> mb_size mb ->
     exists mb', rt_mb_send_wait thread value timeout mb =
         Ok (MbEffect (IpcReturn RT_EOK) None (take 1 (mb_suspend_thread mb)), mb') /\
       mails mb' = mails mb ++ [value] /\ mb_suspend_thread mb' = drop 1 (mb_suspend_thread mb)) /\
  (mails mb = [] -> timeout = 0 ->
     rt_mb_recv thread timeout mb = Ok (MbEffect (IpcReturn (- RT_ETIMEOUT)) None [], mb)) /\
  (mails mb = [] -> timeout <> 0 ->
     exists mb', rt_mb_recv thread timeout mb =
         Ok (MbEffect (IpcSuspend (wait_timer timeout)) None [], mb') /\ mails mb' = mails mb /\
       mb_suspend_thread mb' ≡ₚ thread <| error := RT_EOK |> :: mb_suspend_thread mb) /\
  (forall v q, mails mb = v :: q ->
     exists mb', rt_mb_recv thread timeout mb =
         Ok (MbEffect (IpcReturn RT_EOK) (Some v) (take 1 (suspend_sender_thread mb)), mb') /\
       mails mb' = q /\ suspend_sender_thread mb' = drop 1 (suspend_sender_thread mb)).
Proof.
  intros Hwf. pose proof (mails_length mb Hwf) as Hlen. pose proof (mb_wf_entry _ Hwf) as He.
  unfold rt_mb_send_wait, rt_mb_recv, rt_mb_send_loop, rt_mb_recv_loop. split_and!.
  - intros -> ->. by rewrite Z.eqb_refl.
  - intros -> Ht. rewrite Z.eqb_refl, (proj2 (Z.eqb_neq _ _) Ht). cbn [andb].
    eexists. split; [done|]. split; [done|]. apply list_suspend_perm.
  - intros Hne. rewrite (proj2 (Z.eqb_neq _ _) Hne). cbn [andb].
    destruct (mb_store_ok value mb Hwf) as (mb' & ? & _ & ? & _ & ? & _); [lia|]. by exists mb'.
  - intros Hm ->. rewrite Hm in Hlen. cbn in Hlen. by replace (mb_entry mb) with 0 by lia.
  - intros Hm Ht. rewrite Hm in Hlen. cbn in Hlen.
    replace (mb_entry mb) with 0 by lia. rewrite (proj2 (Z.eqb_neq _ _) Ht). cbn [andb Z.eqb].
    eexists. split; [done|]. split; [done|]. apply list_suspend_perm.
  - intros v q Hm. rewrite Hm in Hlen. cbn in Hlen. rewrite (proj2 (Z.eqb_neq (mb_entry mb) 0)) by lia.
    cbn [andb]. destruct (mb_fetch_ok mb Hwf) as (v' & q' & mb' & Hm' & ? & _ & ? & _ & ? & _); [lia|].
    rewrite Hm in Hm'. injection Hm' as <- <-. by exists mb'.
Qed.

Lemma mailbox_branches_witness :
  rt_mb_send_wait (MkThread 1 10 0 0 0) 7 0 (MkMb [5; 6] 2 2 0 0 [] [] RT_IPC_FLAG_FIFO) =
    Ok (MbEffect (IpcReturn (- RT_EFULL)) None [], MkMb [5; 6] 2 2 0 0 [] [] RT_IPC_FLAG_FIFO).
Proof.
  destruct (mailbox_branches (MkThread 1 10 0 0 0) 7 0 (MkMb [5; 6] 2 2 0 0 [] [] RT_IPC_FLAG_FIFO))
    as [H _]; [split; cbn; try lia; reflexivity|]. apply H; reflexivity.
Defined.
