(* ===== verification/IpcMq.v ===== *)
(** * Kernel message queues (src/Kernel/ipc.c)

    The pool of a message queue is an array of nodes; free messages and queued
    messages are two singly linked lists threaded through the nodes' [next]
    pointers, a node being designated by its index in the pool.  Sending and
    receiving copy the message with interrupts enabled, between two critical
    sections, so each is two steps ([.._begin], [.._end]) with the node private
    to the thread in between; [rt_mq_send], [rt_mq_urgent] and the receiving
    functions compose them. *)
From S2P Require Import Prelude Ipc IpcMailbox.

(** ** The C definitions *)
Record rt_mq_message := MkMsg {
  next : option nat;
  payload : list Z
}.

#[export] Instance rt_mq_message_eta : Eta rt_mq_message := fun m =>
  MkMsg (next m) (payload m).

Record rt_messagequeue := MkMq {
  msgs : list rt_mq_message;
  msg_size : Z;
  max_msgs : Z;
  mq_entry : Z;
  msg_queue_head : option nat;
  msg_queue_tail : option nat;
  msg_queue_free : option nat;
  mq_suspend_thread : list rt_thread;
  mq_flag : ipc_flag
}.

#[export] Instance rt_messagequeue_eta : Eta rt_messagequeue := fun m =>
  MkMq (msgs m) (msg_size m) (max_msgs m) (mq_entry m) (msg_queue_head m)
       (msg_queue_tail m) (msg_queue_free m) (mq_suspend_thread m) (mq_flag m).

Definition RT_ALIGN (size align : Z) : Z := Z.land (size + align - 1) (Z.lnot (align - 1)).
Definition sizeof_rt_mq_message : Z := 4.

(** The node at an address of the pool. *)
Definition node (l : list rt_mq_message) (i : nat) : outcome rt_mq_message :=
  match l !! i with Some n => Ok n | None => Fault FOutOfBounds end.

Definition set_next (l : list rt_mq_message) (i : nat) (p : option nat) :
    outcome (list rt_mq_message) :=
  n ← node l i; Ok (<[i := n <| next := p |>]> l).

(** The loop of [rt_mq_init] that links every node into the free list. *)
Fixpoint link_free (temp n : nat) (l : list rt_mq_message) (free : option nat) :
    outcome (list rt_mq_message * option nat) :=
  match n with
  | O => Ok (l, free)
  | S n => l ← set_next l temp free; link_free (S temp) n l (Some temp)
  end.

(** The nodes that the pool's bytes are divided into. *)
Definition pool_nodes (msgpool : list Z) (size : Z) (n : nat) : list rt_mq_message :=
  map (fun i => MkMsg None
         (take (Z.to_nat size)
           (drop (Z.to_nat (Z.of_nat i * (size + sizeof_rt_mq_message) + sizeof_rt_mq_message)) msgpool)))
      (seq 0 n).

Definition rt_mq_init (msgpool : list Z) (size pool_size : Z) (flag : ipc_flag) :
    outcome rt_messagequeue :=
  let size := u16 (RT_ALIGN size 4) in
  let max := u16 (pool_size / (size + sizeof_rt_mq_message)) in
  '(l, free) ← link_free 0 (Z.to_nat max) (pool_nodes msgpool size (Z.to_nat max)) None;
  Ok (MkMq l size max 0 None None free [] flag).

(** Up to the end of the first critical section: an error code, or the node. *)
Definition rt_mq_send_begin (size : Z) (mq : rt_messagequeue) :
    outcome ((Z + nat) * rt_messagequeue) :=
  if size =? 0 then Fault FAssert else
  if size >? msg_size mq then Ok (inl (- RT_ERROR), mq) else
  match msg_queue_free mq with
  | None => Ok (inl (- RT_EFULL), mq)
  | Some msg =>
      n ← node (msgs mq) msg;
      Ok (inr msg, mq <| msg_queue_free := next n |>)
  end.

(** [rt_memcpy(msg + 1, buffer, size)]. *)
Definition fill (l : list rt_mq_message) (msg : nat) (buffer : list Z) (size : Z) :
    outcome (list rt_mq_message) :=
  n ← node l msg;
  data ← memcpy (payload n) 0 buffer 0 size;
  Ok (<[msg := n <| payload := data |>]> l).

Definition mq_wake (mq : rt_messagequeue) : outcome (list rt_thread * rt_messagequeue) :=
  '(resumed, rest) ← resume_first (mq_suspend_thread mq);
  Ok (resumed, mq <| mq_suspend_thread := rest |>).

Definition rt_mq_send_end (msg : nat) (buffer : list Z) (size : Z) (mq : rt_messagequeue) :
    outcome (list rt_thread * rt_messagequeue) :=
  l ← set_next (msgs mq) msg None;
  l ← fill l msg buffer size;
  l ← match msg_queue_tail mq with
      | Some tail => set_next l tail (Some msg)
      | None => Ok l
      end;
  let head := match msg_queue_head mq with None => Some msg | Some h => Some h end in
  mq_wake (mq <| msgs := l |> <| msg_queue_tail := Some msg |>
              <| msg_queue_head := head |> <| mq_entry := u16 (mq_entry mq + 1) |>).

Definition rt_mq_urgent_end (msg : nat) (buffer : list Z) (size : Z) (mq : rt_messagequeue) :
    outcome (list rt_thread * rt_messagequeue) :=
  l ← fill (msgs mq) msg buffer size;
  l ← set_next l msg (msg_queue_head mq);
  let tail := match msg_queue_tail mq with None => Some msg | Some t => Some t end in
  mq_wake (mq <| msgs := l |> <| msg_queue_head := Some msg |>
              <| msg_queue_tail := tail |> <| mq_entry := u16 (mq_entry mq + 1) |>).

Definition send_with (finish : nat -> list Z -> Z -> rt_messagequeue ->
    outcome (list rt_thread * rt_messagequeue))
    (buffer : list Z) (size : Z) (mq : rt_messagequeue) :
    outcome (Z * list rt_thread * rt_messagequeue) :=
  '(r, mq) ← rt_mq_send_begin size mq;
  match r with
  | inl err => Ok (err, [], mq)
  | inr msg => '(resumed, mq) ← finish msg buffer size mq; Ok (RT_EOK, resumed, mq)
  end.

Definition rt_mq_send := send_with rt_mq_send_end.

(** The first critical section of [rt_mq_urgent] is the same code. *)
Definition rt_mq_urgent := send_with rt_mq_urgent_end.

(** Unlink the first message. *)
Definition mq_take (mq : rt_messagequeue) : outcome (nat * rt_messagequeue) :=
  match msg_queue_head mq with
  | None => Fault FNull
  | Some msg =>
      n ← node (msgs mq) msg;
      let tail := if bool_decide (msg_queue_tail mq = Some msg) then None
                  else msg_queue_tail mq in
      Ok (msg, mq <| msg_queue_head := next n |> <| msg_queue_tail := tail |>
                  <| mq_entry := u16 (mq_entry mq - 1) |>)
  end.

(** One pass of the waiting loop: the caller's fate, or the node taken. *)
Definition rt_mq_recv_loop (thread : rt_thread) (timeout : Z) (mq : rt_messagequeue) :
    outcome ((ipc_wait + nat) * rt_messagequeue) :=
  if mq_entry mq =? 0 then
    let thread := thread <| error := RT_EOK |> in
    if timeout =? 0 then Ok (inl (IpcReturn (- RT_ETIMEOUT)), mq)
    else
      Ok (inl (IpcSuspend (wait_timer timeout)),
          mq <| mq_suspend_thread :=
            rt_ipc_list_suspend (mq_suspend_thread mq) thread (mq_flag mq) |>)
  else '(msg, mq) ← mq_take mq; Ok (inr msg, mq).

Definition rt_mq_recv_begin (thread : rt_thread) (size timeout : Z) (mq : rt_messagequeue) :
    outcome ((ipc_wait + nat) * rt_messagequeue) :=
  if size =? 0 then Fault FAssert else
  if (mq_entry mq =? 0) && (timeout =? 0) then Ok (inl (IpcReturn (- RT_ETIMEOUT)), mq)
  else rt_mq_recv_loop thread timeout mq.

Definition rt_mq_recv_resumed (thread : rt_thread) (timeout elapsed : Z)
    (mq : rt_messagequeue) : outcome ((ipc_wait + nat) * rt_messagequeue) :=
  if negb (error thread =? RT_EOK) then Ok (inl (IpcReturn (error thread)), mq)
  else rt_mq_recv_loop thread (remaining_timeout timeout elapsed) mq.

(** Copy the message out and put its node back on the free list. *)
Definition rt_mq_recv_end (msg : nat) (buffer : list Z) (size : Z) (mq : rt_messagequeue) :
    outcome (list Z * rt_messagequeue) :=
  n ← node (msgs mq) msg;
  buffer ← memcpy buffer 0 (payload n) 0 (if size >? msg_size mq then msg_size mq else size);
  l ← set_next (msgs mq) msg (msg_queue_free mq);
  Ok (buffer, mq <| msgs := l |> <| msg_queue_free := Some msg |>).

Definition rt_mq_recv (thread : rt_thread) (buffer : list Z) (size timeout : Z)
    (mq : rt_messagequeue) : outcome (ipc_wait * list Z * rt_messagequeue) :=
  '(r, mq) ← rt_mq_recv_begin thread size timeout mq;
  match r with
  | inl w => Ok (w, buffer, mq)
  | inr msg =>
      '(buffer, mq) ← rt_mq_recv_end msg buffer size mq;
      Ok (IpcReturn RT_EOK, buffer, mq)
  end.

(** The loop of [rt_mq_control] that releases every queued message; out of fuel
    it would go on for ever. *)
Fixpoint release_all (fuel : nat) (mq : rt_messagequeue) : outcome rt_messagequeue :=
  match msg_queue_head mq with
  | None => Ok mq
  | Some msg =>
      match fuel with
      | O => Blocked
      | S fuel =>
          n ← node (msgs mq) msg;
          let tail := if bool_decide (msg_queue_tail mq = Some msg) then None
                      else msg_queue_tail mq in
          l ← set_next (msgs mq) msg (msg_queue_free mq);
          release_all fuel
            (mq <| msg_queue_head := next n |> <| msg_queue_tail := tail |>
                <| msgs := l |> <| msg_queue_free := Some msg |>)
      end
  end.

Definition rt_mq_control (cmd : ipc_cmd) (mq : rt_messagequeue) :
    outcome (Z * list rt_thread * rt_messagequeue) :=
  match cmd with
  | RT_IPC_CMD_RESET =>
      let resumed := rt_ipc_list_resume_all (mq_suspend_thread mq) in
      mq ← release_all (length (msgs mq)) (mq <| mq_suspend_thread := [] |>);
      Ok (RT_EOK, resumed, mq <| mq_entry := 0 |>)
  | RT_IPC_CMD_UNKNOWN => Ok (- RT_ERROR, [], mq)
  end.

(** ** Lists threaded through the pool *)
Fixpoint chain (l : list rt_mq_message) (p : option nat) (ids : list nat) : Prop :=
  match ids with
  | [] => p = None
  | i :: ids => p = Some i /\ exists n, l !! i = Some n /\ chain l (next n) ids
  end.

(** [l'] has the next pointers of [l], except for the nodes of [ids]. *)
Definition same_next (ids : list nat) (l l' : list rt_mq_message) : Prop :=
  forall i, i ∉ ids -> next <$> (l' !! i) = next <$> (l !! i).

Definition same_payload (ids : list nat) (l l' : list rt_mq_message) : Prop :=
  forall i, i ∉ ids -> payload <$> (l' !! i) = payload <$> (l !! i).

Lemma chain_frame l l' touched : same_next touched l l' ->
  forall ids p, (forall i, i ∈ ids -> i ∉ touched) -> chain l p ids -> chain l' p ids.
Proof.
  intros Hs. induction ids as [|i ids IH]; intros p Hd; [done|]. cbn.
  intros (-> & n & Hn & Hc). split; [done|].
  pose proof (Hs i (Hd i ltac:(by left))) as Hi. rewrite Hn in Hi.
  destruct (l' !! i) as [n'|]; [|done]. injection Hi as Hi.
  exists n'. split; [done|]. rewrite Hi. apply IH; [|done]. intros j Hj. apply Hd. by right.
Qed.

Lemma chain_lookup l p ids i : chain l p ids -> i ∈ ids -> exists n, l !! i = Some n.
Proof.
  revert p. induction ids as [|j ids IH]; intros p; [by intros _ ?%not_elem_of_nil|].
  cbn. intros (_ & n & Hn & Hc) [->|Hi]%elem_of_cons; [by exists n|]. by eapply IH.
Qed.

(** Linking a node behind the last one. *)
Lemma chain_snoc l l' p ids t m nm :
  chain l p (ids ++ [t]) -> NoDup (ids ++ [t]) -> same_next [t; m] l l' ->
  m ∉ ids ++ [t] -> next <$> (l' !! t) = Some (Some m) ->
  l' !! m = Some nm -> next nm = None -> chain l' p (ids ++ [t; m]).
Proof.
  intros Hc Hnd Hs Hm Ht Hnm Hnn. revert p Hc Hnd Hm. induction ids as [|i ids IH]; intros p Hc Hnd Hm.
  - cbn in *. destruct Hc as (-> & n & Hn & _). split; [done|].
    destruct (l' !! t) as [n'|]; [|done]. injection Ht as Ht.
    exists n'. split; [done|]. split; [done|]. by exists nm.
  - cbn in Hc, Hnd, Hm |- *. destruct Hc as (-> & n & Hn & Hc). split; [done|].
    apply NoDup_cons in Hnd as [Hi Hnd]. apply not_elem_of_cons in Hm as [Hmi Hm].
    assert (i ∉ [t; m]) as Hit.
    { rewrite !elem_of_cons. intros [->|[->|?%not_elem_of_nil]]; [|done..]. apply Hi.
      apply elem_of_app. right. by left. }
    specialize (Hs i Hit). rewrite Hn in Hs. destruct (l' !! i) as [n'|]; [|done]. injection Hs as Hs.
    exists n'. split; [done|]. rewrite Hs. by apply IH.
Qed.

Lemma node_ok l i : (i < length l)%nat -> exists n, node l i = Ok n /\ l !! i = Some n.
Proof.
  intros [n Hn]%lookup_lt_is_Some_2. exists n. unfold node. by rewrite Hn.
Qed.

Lemma set_next_ok l i p : (i < length l)%nat -> exists l' n, set_next l i p = Ok l' /\
  length l' = length l /\ same_next [i] l l' /\ same_payload [] l l' /\
  l' !! i = Some n /\ next n = p.
Proof.
  intros Hi. destruct (node_ok l i Hi) as (n & Hn & Hl). unfold set_next. rewrite Hn.
  cbn [mbind outcome_bind]. eexists _, _. split; [done|]. split; [apply length_insert|].
  split; [|split; [|split; [by apply list_lookup_insert_eq|done]]].
  - intros j Hj. rewrite list_lookup_insert_ne; [done|]. intros ->. apply Hj. by left.
  - intros j _. destruct (decide (i = j)) as [<-|].
    + by rewrite list_lookup_insert_eq, Hl.
    + by rewrite list_lookup_insert_ne.
Qed.

Definition sized (sz : Z) (l : list rt_mq_message) : Prop :=
  Forall (fun n => Z.of_nat (length (payload n)) = sz) l.

Lemma fill_ok l i buffer size sz : (i < length l)%nat -> sized sz l -> 0 <= size <= sz ->
  size <= Z.of_nat (length buffer) -> exists l' n n', fill l i buffer size = Ok l' /\
  length l' = length l /\ same_next [] l l' /\ same_payload [i] l l' /\ sized sz l' /\
  l !! i = Some n /\ l' !! i = Some n' /\
  payload n' = take (Z.to_nat size) buffer ++ drop (Z.to_nat size) (payload n).
Proof.
  intros Hi Hsz Hs Hb. destruct (node_ok l i Hi) as (n & Hn & Hl). unfold fill. rewrite Hn.
  pose proof (Forall_lookup_1 _ _ _ _ Hsz Hl) as Hlen. cbn in Hlen.
  destruct (memcpy_total (payload n) 0 buffer 0 size) as [d Hd]; [lia..|].
  cbn [mbind outcome_bind]. rewrite Hd. cbn [mbind outcome_bind].
  eexists _, n, _. split; [done|]. split; [apply length_insert|].
  split_and!; [| | |done|by apply list_lookup_insert_eq|].
  - intros j _. destruct (decide (i = j)) as [<-|].
    + by rewrite list_lookup_insert_eq, Hl.
    + by rewrite list_lookup_insert_ne.
  - intros j Hj. rewrite list_lookup_insert_ne; [done|]. intros ->. apply Hj. by left.
  - apply Forall_insert; [done|]. cbn. pose proof (memcpy_length _ _ _ _ _ _ Hd). lia.
  - cbn. rewrite memcpy_ok in Hd by lia. injection Hd as <-. cbn. by rewrite drop_0.
Qed.

Lemma same_next_trans a b l1 l2 l3 : same_next a l1 l2 -> same_next b l2 l3 -> same_next (a ++ b) l1 l3.
Proof. intros H1 H2 i Hi. rewrite H2, H1; [done|set_solver..]. Qed.

Lemma same_payload_trans a b l1 l2 l3 :
  same_payload a l1 l2 -> same_payload b l2 l3 -> same_payload (a ++ b) l1 l3.
Proof. intros H1 H2 i Hi. rewrite H2, H1; [done|set_solver..]. Qed.

Lemma same_payload_sized l l' sz : length l' = length l -> same_payload [] l l' ->
  sized sz l -> sized sz l'.
Proof.
  intros Hlen Hs Hsz. apply Forall_lookup. intros i n Hn.
  specialize (Hs i (not_elem_of_nil i)). rewrite Hn in Hs.
  destruct (l !! i) as [n0|] eqn:E; [|done]. injection Hs as ->.
  by apply (Forall_lookup_1 _ _ _ _ Hsz E).
Qed.

(** ** The invariant: queued, free and private nodes partition the pool *)
Record mq_wf (mq : rt_messagequeue) (q f held : list nat) : Prop := {
  mq_wf_len : length (msgs mq) = Z.to_nat (max_msgs mq);
  mq_wf_max : 0 <= max_msgs mq < 65536;
  mq_wf_size : 0 <= msg_size mq;
  mq_wf_sized : sized (msg_size mq) (msgs mq);
  mq_wf_queue : chain (msgs mq) (msg_queue_head mq) q;
  mq_wf_free : chain (msgs mq) (msg_queue_free mq) f;
  mq_wf_tail : msg_queue_tail mq = last q;
  mq_wf_entry : mq_entry mq = Z.of_nat (length q);
  mq_wf_parts : q ++ f ++ held ≡ₚ seq 0 (Z.to_nat (max_msgs mq))
}.

(** The queued messages, oldest first. *)
Definition messages (mq : rt_messagequeue) (q : list nat) : list (list Z) :=
  omap (fun i => payload <$> (msgs mq !! i)) q.

Ltac mq_fields :=
  cbv beta delta [upd id] in *;
  cbn [msgs msg_size max_msgs mq_entry msg_queue_head msg_queue_tail msg_queue_free
       mq_suspend_thread mq_flag] in *.

Lemma mq_wf_nodup mq q f held : mq_wf mq q f held -> NoDup (q ++ f ++ held).
Proof. intros []. rewrite mq_wf_parts0. apply NoDup_ListNoDup, seq_NoDup. Qed.

Lemma mq_wf_bound mq q f held i : mq_wf mq q f held -> i ∈ q ++ f ++ held -> (i < length (msgs mq))%nat.
Proof.
  intros [] Hi. rewrite mq_wf_parts0 in Hi. rewrite mq_wf_len0.
  apply list_elem_of_In, in_seq in Hi. lia.
Qed.

Lemma mq_wf_length mq q f held : mq_wf mq q f held ->
  (length q + length f + length held)%nat = Z.to_nat (max_msgs mq).
Proof.
  intros []. apply Permutation_length in mq_wf_parts0.
  rewrite !length_app, length_seq in mq_wf_parts0. lia.
Qed.

Lemma mq_wf_held_perm mq q f held held' : held ≡ₚ held' -> mq_wf mq q f held -> mq_wf mq q f held'.
Proof. intros Hp []. split; try done. by rewrite <- Hp. Qed.

Lemma messages_frame mq mq' q touched : same_payload touched (msgs mq) (msgs mq') ->
  (forall i, i ∈ q -> i ∉ touched) -> messages mq' q = messages mq q.
Proof.
  unfold messages. intros Hs. induction q as [|i q IH]; intros Hd; [done|]. cbn.
  rewrite (Hs i) by (apply Hd; by left). rewrite IH; [done|]. intros j Hj. apply Hd. by right.
Qed.

Lemma rt_mq_send_begin_ok size mq q f held : mq_wf mq q f held -> 0 < size ->
  (size > msg_size mq /\ rt_mq_send_begin size mq = Ok (inl (- RT_ERROR), mq)) \/
  (size <= msg_size mq /\ f = [] /\ rt_mq_send_begin size mq = Ok (inl (- RT_EFULL), mq)) \/
  (size <= msg_size mq /\ exists i f' mq', f = i :: f' /\
     rt_mq_send_begin size mq = Ok (inr i, mq') /\ mq_wf mq' q f' (i :: held) /\
     msgs mq' = msgs mq /\ msg_size mq' = msg_size mq /\ mq_suspend_thread mq' = mq_suspend_thread mq).
Proof.
  intros Hwf Hsz. pose proof Hwf as []. unfold rt_mq_send_begin.
  destruct (Z.eqb_spec size 0); [lia|]. destruct (Z.gtb_spec size (msg_size mq)); [left; split; [lia|done]|].
  right. destruct f as [|i f'].
  - cbn in mq_wf_free0. rewrite mq_wf_free0. by left.
  - right. split; [lia|]. destruct mq_wf_free0 as (-> & nd & Hn & Hc). unfold node. rewrite Hn.
    eexists i, f', _. split; [done|]. split; [done|]. split; [|done]. split; mq_fields; try done.
    rewrite <- mq_wf_parts0. solve_Permutation.
Qed.

Lemma mq_wake_ok mq q f held : mq_wf mq q f held ->
  exists mq', mq_wake mq = Ok (take 1 (mq_suspend_thread mq), mq') /\ mq_wf mq' q f held /\
    msgs mq' = msgs mq /\ msg_size mq' = msg_size mq.
Proof.
  intros []. unfold mq_wake. rewrite resume_first_eq. cbn [mbind outcome_bind].
  eexists. split; [done|]. split; [|done]. split; mq_fields; done.
Qed.

Lemma mq_entry_incr mq q f i held : mq_wf mq q f (i :: held) ->
  u16 (mq_entry mq + 1) = Z.of_nat (S (length q)).
Proof.
  intros Hwf. pose proof (mq_wf_length _ _ _ _ Hwf). destruct Hwf. cbn in *.
  rewrite u16_small; lia.
Qed.

(** What a finished send has written into its node. *)
Definition sent_payload (buffer : list Z) (size : Z) (old new : list Z) : Prop :=
  new = take (Z.to_nat size) buffer ++ drop (Z.to_nat size) old.

Lemma rt_mq_urgent_end_ok i buffer size mq q f held :
  mq_wf mq q f (i :: held) -> 0 <= size <= msg_size mq -> size <= Z.of_nat (length buffer) ->
  exists mq' old new, rt_mq_urgent_end i buffer size mq = Ok (take 1 (mq_suspend_thread mq), mq') /\
    mq_wf mq' (i :: q) f held /\ payload <$> (msgs mq !! i) = Some old /\
    sent_payload buffer size old new /\ messages mq' (i :: q) = new :: messages mq q /\
    msg_size mq' = msg_size mq.
Proof.
  intros Hwf Hs Hb. pose proof (mq_wf_nodup _ _ _ _ Hwf) as Hnd.
  assert (i < length (msgs mq))%nat as Hi by (eapply mq_wf_bound; [done|set_solver]).
  pose proof (mq_entry_incr _ _ _ _ _ Hwf) as Hent. pose proof Hwf as [].
  unfold rt_mq_urgent_end.
  destruct (fill_ok (msgs mq) i buffer size (msg_size mq)) as
    (l1 & n & n1 & -> & Hl1 & Hn1 & Hp1 & Hz1 & Hi0 & Hi1 & Hpay); [done..|].
  cbn [mbind outcome_bind].
  destruct (set_next_ok l1 i (msg_queue_head mq)) as (l2 & n2 & -> & Hl2 & Hn2 & Hp2 & Hi2 & Hnx); [lia|].
  cbn [mbind outcome_bind].
  pose proof (same_next_trans _ _ _ _ _ Hn1 Hn2) as Hn. pose proof (same_payload_trans _ _ _ _ _ Hp1 Hp2) as Hp.
  assert (forall j, j ∈ q ++ f ++ held -> j ∉ [i]) as Hfresh.
  { intros j Hj ->%list_elem_of_singleton. revert Hnd. rewrite <- !Permutation_middle.
    by intros [Hin _]%NoDup_cons. }
  match goal with |- context [mq_wake ?m] => destruct (mq_wake_ok m (i :: q) f held)
    as (mq' & -> & Hwf' & Hmsgs & Hmsz) end.
  { split; mq_fields; [lia|done|done|by eapply same_payload_sized| | | |done|].
    - split; [done|]. exists n2. split; [done|]. rewrite Hnx.
      eapply chain_frame; [exact Hn| |done]. intros j Hj. apply Hfresh. set_solver.
    - eapply chain_frame; [exact Hn| |done]. intros j Hj. apply Hfresh. set_solver.
    - rewrite mq_wf_tail0, last_cons. by destruct (last q).
    - rewrite <- mq_wf_parts0. solve_Permutation. }
  exists mq', (payload n), (payload n1). split; [done|]. split; [exact Hwf'|].
  split_and!; [by rewrite Hi0|done| |by rewrite Hmsz].
  assert (messages mq' q = messages mq q) as Hq.
  { eapply (messages_frame mq mq' q ([i] ++ [])); [by rewrite Hmsgs|].
    intros j Hj. rewrite app_nil_r. apply Hfresh. set_solver. }
  pose proof (Hp2 i (not_elem_of_nil i)) as Hpi. rewrite Hi1 in Hpi.
  unfold messages in *. cbn. rewrite Hmsgs in *. mq_fields. by rewrite Hpi, Hq.
Qed.

(** The node of a send, filled and terminated, before it is linked. *)
Lemma send_node_ok i buffer size mq q f held :
  mq_wf mq q f (i :: held) -> 0 <= size <= msg_size mq -> size <= Z.of_nat (length buffer) ->
  exists l1 l2 old nd, set_next (msgs mq) i None = Ok l1 /\ fill l1 i buffer size = Ok l2 /\
    length l2 = length (msgs mq) /\ same_next [i] (msgs mq) l2 /\ same_payload [i] (msgs mq) l2 /\
    sized (msg_size mq) l2 /\ payload <$> (msgs mq !! i) = Some old /\
    l2 !! i = Some nd /\ next nd = None /\ sent_payload buffer size old (payload nd).
Proof.
  intros Hwf Hs Hb.
  assert (i < length (msgs mq))%nat as Hi by (eapply mq_wf_bound; [done|rewrite !elem_of_app; right; right; by left]).
  destruct (set_next_ok (msgs mq) i None) as (l1 & n1 & E1 & Hl1 & Hn1 & Hp1 & Hi1 & Hnx); [done|].
  destruct (fill_ok l1 i buffer size (msg_size mq)) as
    (l2 & n & n2 & E2 & Hl2 & Hn2 & Hp2 & Hz2 & Hi0 & Hi2 & Hpay); [lia| |done..|].
  { by eapply same_payload_sized; [|done|apply Hwf]. }
  exists l1, l2, (payload n), n2. split_and!; try done.
  - lia.
  - rewrite <- (app_nil_r [i]). by eapply same_next_trans.
  - rewrite <- (app_nil_l [i]). by eapply same_payload_trans.
  - rewrite <- (Hp1 i (not_elem_of_nil i)). by rewrite Hi0.
  - pose proof (Hn2 i (not_elem_of_nil i)) as Hx. rewrite Hi2, Hi1 in Hx. injection Hx as Hx. congruence.
Qed.

(** What linking a finished node behind the queue leaves. *)
Lemma rt_mq_send_link mq mq' q f i held l2 l3 nd : mq_wf mq q f (i :: held) ->
  length l3 = length (msgs mq) -> same_next [i] (msgs mq) l2 -> sized (msg_size mq) l3 ->
  l3 !! i = Some nd -> next nd = None ->
  match last q with
  | None => l3 = l2
  | Some t => same_next [t] l2 l3 /\ next <$> (l3 !! t) = Some (Some i)
  end ->
  msgs mq' = l3 -> msg_size mq' = msg_size mq -> max_msgs mq' = max_msgs mq ->
  mq_entry mq' = u16 (mq_entry mq + 1) ->
  msg_queue_head mq' = match msg_queue_head mq with None => Some i | Some h => Some h end ->
  msg_queue_tail mq' = Some i -> msg_queue_free mq' = msg_queue_free mq ->
  mq_wf mq' (q ++ [i]) f held.
Proof.
  intros Hwf Hl3 Hn2 Hz3 Hi3 Hnd Hlast E1 E2 E3 E4 E5 E6 E7.
  pose proof (mq_wf_nodup _ _ _ _ Hwf) as Hdup. pose proof (mq_entry_incr _ _ _ _ _ Hwf) as Hent.
  destruct Hwf as [].
  assert ((i ∉ q) /\ (i ∉ f)) as [Hiq Hif].
  { revert Hdup. rewrite app_assoc, <- Permutation_middle. intros [Hin _]%NoDup_cons.
    rewrite !elem_of_app in Hin. naive_solver. }
  assert (forall j, j ∈ f -> j ∉ q) as Hfq.
  { intros j Hj Hq. apply NoDup_app in Hdup as (_ & Hd & _). apply (Hd j Hq). apply elem_of_app. by left. }
  split; rewrite ?E1, ?E2, ?E3, ?E4, ?E5, ?E6, ?E7; [lia|done|done|done| | | | |].
  - destruct (last q) as [t|] eqn:El.
    + destruct Hlast as [Hn3 Ht]. apply last_Some in El as [q0 ->].
      replace (match msg_queue_head mq with None => Some i | Some h => Some h end) with (msg_queue_head mq)
        by (destruct q0; cbn in mq_wf_queue0; destruct mq_wf_queue0 as [-> _]; done).
      rewrite <- app_assoc. eapply (chain_snoc (msgs mq)); [done| | |done|done|done|done].
      * apply NoDup_app in Hdup. apply Hdup.
      * intros j Hj. rewrite (Hn3 j), (Hn2 j); set_solver.
    + apply last_None in El as ->. cbn in mq_wf_queue0. rewrite mq_wf_queue0. cbn. split; [done|]. by exists nd.
  - assert (same_next (i :: q) (msgs mq) l3) as Hn3.
    { intros j Hj. destruct (last q) as [t|] eqn:El; [|subst; apply Hn2; set_solver].
      destruct Hlast as [Hn3 _]. apply last_Some in El as [q0 ->]. rewrite (Hn3 j), (Hn2 j); set_solver. }
    eapply chain_frame; [exact Hn3| |done]. intros j Hj [->|Hq]%elem_of_cons; [done|]. by apply (Hfq j).
  - by rewrite last_snoc.
  - rewrite Hent, length_app. cbn. lia.
  - rewrite <- mq_wf_parts0. solve_Permutation.
Qed.

Lemma rt_mq_send_end_ok i buffer size mq q f held :
  mq_wf mq q f (i :: held) -> 0 <= size <= msg_size mq -> size <= Z.of_nat (length buffer) ->
  exists mq' old new, rt_mq_send_end i buffer size mq = Ok (take 1 (mq_suspend_thread mq), mq') /\
    mq_wf mq' (q ++ [i]) f held /\ payload <$> (msgs mq !! i) = Some old /\
    sent_payload buffer size old new /\ messages mq' (q ++ [i]) = messages mq q ++ [new] /\
    msg_size mq' = msg_size mq.
Proof.
  intros Hwf Hs Hb.
  destruct (send_node_ok i buffer size mq q f held Hwf Hs Hb) as
    (l1 & l2 & old & nd & E1 & E2 & Hl2 & Hn2 & Hp2 & Hz2 & Hold & Hi2 & Hnd & Hpay).
  unfold rt_mq_send_end. rewrite E1. cbn [mbind outcome_bind]. rewrite E2. cbn [mbind outcome_bind].
  assert (i ∉ q) as Hiq.
  { pose proof (mq_wf_nodup _ _ _ _ Hwf) as Hdup. revert Hdup. rewrite app_assoc, <- Permutation_middle.
    intros [Hin _]%NoDup_cons. rewrite !elem_of_app in Hin. naive_solver. }
  assert (exists l3 nd3, match msg_queue_tail mq with Some tail => set_next l2 tail (Some i) | None => Ok l2 end
      = Ok l3 /\ length l3 = length (msgs mq) /\ same_payload [] l2 l3 /\ l3 !! i = Some nd3 /\
      next nd3 = None /\ match last q with None => l3 = l2
        | Some t => same_next [t] l2 l3 /\ next <$> (l3 !! t) = Some (Some i) end)
    as (l3 & nd3 & -> & Hl3 & Hp3 & Hi3 & Hnd3 & Hlast).
  { rewrite (mq_wf_tail _ _ _ _ Hwf). destruct (last q) as [t|] eqn:El; [|by exists l2, nd].
    apply last_Some in El as [q0 ->].
    destruct (set_next_ok l2 t (Some i)) as (l3 & nt & E3 & Hl3 & Hn3 & Hp3 & Ht3 & Hnt).
    { rewrite Hl2. eapply mq_wf_bound; [done|]. rewrite !elem_of_app. left. right. by left. }
    assert (i ∉ [t]) as Hit by set_solver. pose proof (Hn3 i Hit) as Hx. rewrite Hi2 in Hx.
    destruct (l3 !! i) as [nd3|] eqn:Ei3; [|done]. injection Hx as Hx.
    exists l3, nd3. split_and!; [done|lia|done|done|congruence|done|by rewrite Ht3; cbn; rewrite Hnt]. }
  cbn [mbind outcome_bind].
  match goal with |- context [mq_wake ?m] => destruct (mq_wake_ok m (q ++ [i]) f held)
    as (mq' & -> & Hwf' & Hmsgs & Hmsz) end.
  { eapply (rt_mq_send_link mq _ q f i held l2 l3 nd3); try done. by eapply same_payload_sized; [|done|done]; lia. }
  exists mq', old, (payload nd). split; [done|]. split; [exact Hwf'|]. mq_fields.
  split_and!; [done|done| |done].
  assert (messages mq' q = messages mq q) as Hq.
  { eapply (messages_frame mq mq' q ([i] ++ [])); [rewrite Hmsgs; by eapply same_payload_trans|].
    intros j Hj. rewrite app_nil_r. set_solver. }
  pose proof (Hp3 i (not_elem_of_nil i)) as Hpi. rewrite Hi2 in Hpi.
  unfold messages in *. rewrite omap_app, Hq. cbn. rewrite Hmsgs, Hpi. done.
Qed.

Lemma mq_take_ok mq q f held : mq_wf mq q f held -> mq_entry mq <> 0 ->
  exists i q' mq', q = i :: q' /\ mq_take mq = Ok (i, mq') /\ mq_wf mq' q' f (i :: held) /\
    msgs mq' = msgs mq /\ msg_size mq' = msg_size mq /\ mq_suspend_thread mq' = mq_suspend_thread mq.
Proof.
  intros Hwf Hne. pose proof (mq_wf_nodup _ _ _ _ Hwf) as Hdup.
  pose proof (mq_wf_length _ _ _ _ Hwf) as Hlen. destruct Hwf as [].
  destruct q as [|i q']; [cbn in *; lia|]. unfold mq_take.
  destruct mq_wf_queue0 as (-> & n & Hn & Hc). unfold node. rewrite Hn. cbn [mbind outcome_bind].
  eexists i, q', _. split; [done|]. split; [done|]. split; [|done]. split; mq_fields; try done.
  - rewrite mq_wf_tail0. destruct q' as [|x q']; [by rewrite bool_decide_eq_true_2|].
    rewrite bool_decide_eq_false_2; [done|]. intros Hl. change (last (x :: q') = Some i) in Hl.
    apply last_Some_elem_of in Hl. cbn in Hdup. apply NoDup_cons in Hdup as [Hi _].
    apply Hi. change (x :: q' ++ f ++ held) with ((x :: q') ++ f ++ held). apply elem_of_app. by left.
  - cbn in *. rewrite mq_wf_entry0, u16_small by lia. lia.
  - rewrite <- mq_wf_parts0. cbn. rewrite !app_assoc, <- Permutation_middle. solve_Permutation.
Qed.

(** What a receiver finds in its buffer. *)
Definition received (sz size : Z) (data buffer buffer' : list Z) : Prop :=
  let k := Z.to_nat (Z.min size sz) in buffer' = take k data ++ drop k buffer.

Lemma rt_mq_recv_end_ok i buffer size mq q f held : mq_wf mq q f (i :: held) ->
  0 <= size <= Z.of_nat (length buffer) ->
  exists mq' buffer' data, rt_mq_recv_end i buffer size mq = Ok (buffer', mq') /\
    mq_wf mq' q (i :: f) held /\ payload <$> (msgs mq !! i) = Some data /\
    received (msg_size mq) size data buffer buffer' /\
    same_payload [] (msgs mq) (msgs mq') /\ msg_size mq' = msg_size mq.
Proof.
  intros Hwf Hs. pose proof (mq_wf_nodup _ _ _ _ Hwf) as Hdup.
  assert (i < length (msgs mq))%nat as Hi by (eapply mq_wf_bound; [done|rewrite !elem_of_app; right; right; by left]).
  assert (forall j, j ∈ q ++ f -> j ∉ [i]) as Hfresh.
  { intros j Hj ->%list_elem_of_singleton. revert Hdup. rewrite app_assoc, <- Permutation_middle.
    intros [Hin _]%NoDup_cons. apply Hin. apply elem_of_app. by left. }
  destruct Hwf as []. unfold rt_mq_recv_end.
  destruct (node_ok (msgs mq) i Hi) as (n & En & Hn). rewrite En. cbn [mbind outcome_bind].
  pose proof (Forall_lookup_1 _ _ _ _ mq_wf_sized0 Hn) as Hlen. cbn in Hlen.
  assert ((if size >? msg_size mq then msg_size mq else size) = Z.min size (msg_size mq)) as ->
    by (destruct (Z.gtb_spec size (msg_size mq)); lia).
  rewrite memcpy_ok by lia. cbn [mbind outcome_bind].
  destruct (set_next_ok (msgs mq) i (msg_queue_free mq)) as (l1 & n1 & -> & Hl1 & Hn1 & Hp1 & Hi1 & Hnx); [done|].
  cbn [mbind outcome_bind]. eexists _, _, (payload n). split; [done|]. mq_fields.
  split; [|split; [by rewrite Hn|]; split; [by unfold received; cbn|done]].
  split; mq_fields; [lia|done|done|by eapply same_payload_sized| | |done|done|].
  - eapply chain_frame; [exact Hn1| |done]. intros j Hj. apply Hfresh, elem_of_app. by left.
  - split; [done|]. exists n1. split; [done|]. rewrite Hnx.
    eapply chain_frame; [exact Hn1| |done]. intros j Hj. apply Hfresh, elem_of_app. by right.
  - rewrite <- mq_wf_parts0. solve_Permutation.
Qed.

Lemma mq_suspend_wf mq q f held l : mq_wf mq q f held ->
  mq_wf (mq <| mq_suspend_thread := l |>) q f held.
Proof. intros []. by split. Qed.

(** One pass of the receiving loop: a waiting or timed-out caller leaves the
    queue alone, otherwise the oldest message is unlinked. *)
Lemma rt_mq_recv_loop_ok thread timeout mq q f held : mq_wf mq q f held ->
  (q = [] /\ exists w mq', rt_mq_recv_loop thread timeout mq = Ok (inl w, mq') /\ mq_wf mq' q f held /\
     msgs mq' = msgs mq) \/
  (exists i q' mq', q = i :: q' /\ rt_mq_recv_loop thread timeout mq = Ok (inr i, mq') /\
     mq_wf mq' q' f (i :: held) /\ msgs mq' = msgs mq /\ msg_size mq' = msg_size mq).
Proof.
  intros Hwf. unfold rt_mq_recv_loop. destruct (Z.eqb_spec (mq_entry mq) 0) as [He|He].
  - left. split.
    { destruct q; [done|]. rewrite (mq_wf_entry _ _ _ _ Hwf) in He. cbn in He. lia. }
    destruct (timeout =? 0); eexists _, _; (split; [done|]); split; try done. by apply mq_suspend_wf.
  - right. destruct (mq_take_ok mq q f held Hwf He) as (i & q' & mq' & -> & Ht & ? & ? & ? & _).
    exists i, q', mq'. rewrite Ht. done.
Qed.

(** The release loop does not count: its states are well formed up to [entry]. *)
Definition mq_wf_uncounted (mq : rt_messagequeue) (q f held : list nat) : Prop :=
  mq_wf (mq <| mq_entry := Z.of_nat (length q) |>) q f held.

Lemma release_one_ok mq i q f held : mq_wf_uncounted mq (i :: q) f held ->
  exists n l, node (msgs mq) i = Ok n /\ set_next (msgs mq) i (msg_queue_free mq) = Ok l /\
    mq_wf_uncounted
      (mq <| msg_queue_head := next n |>
          <| msg_queue_tail := if bool_decide (msg_queue_tail mq = Some i) then None else msg_queue_tail mq |>
          <| msgs := l |> <| msg_queue_free := Some i |>) q (i :: f) held.
Proof.
  intros Hwf. unfold mq_wf_uncounted in *.
  destruct (mq_take_ok _ _ _ _ Hwf) as (i' & q' & mq1 & Heq & Ht & Hwf1 & _); [cbn; lia|].
  injection Heq as <- <-.
  destruct (rt_mq_recv_end_ok i [] 0 mq1 q f held Hwf1 ltac:(cbn; lia)) as (mq2 & b & d & Hr & Hwf2 & _).
  unfold mq_take in Ht. mq_fields. destruct (mq_wf_queue _ _ _ _ Hwf) as [Hh _]. cbn in Hh.
  rewrite Hh in Ht. destruct (node (msgs mq) i) as [n| |] eqn:En; [|done..]. injection Ht as <-.
  unfold rt_mq_recv_end in Hr. mq_fields. rewrite En in Hr. cbn [mbind outcome_bind] in Hr.
  destruct (memcpy _ _ _ _ _) as [b'| |]; [|done..]. cbn [mbind outcome_bind] in Hr.
  destruct (set_next (msgs mq) i (msg_queue_free mq)) as [l| |] eqn:El; [|done..].
  injection Hr as <- <-. exists n, l. split_and!; [done..|]. mq_fields.
  destruct Hwf2. mq_fields. by split; mq_fields.
Qed.

Lemma release_all_ok : forall fuel mq q f held, mq_wf_uncounted mq q f held -> (length q <= fuel)%nat ->
  exists mq' f', release_all fuel mq = Ok mq' /\ mq_wf (mq' <| mq_entry := 0 |>) [] f' held.
Proof.
  induction fuel as [|fuel IH]; intros mq q f held Hwf Hfuel; cbn [release_all];
    destruct q as [|i q]; cbn in Hfuel; try lia.
  1,2: destruct (mq_wf_queue _ _ _ _ Hwf); exists mq, f; split; [|exact Hwf];
    pose proof (mq_wf_queue _ _ _ _ Hwf) as Hh; cbn in Hh; by rewrite Hh.
  destruct (mq_wf_queue _ _ _ _ Hwf) as [Hh _]. cbn in Hh. rewrite Hh.
  destruct (release_one_ok mq i q f held Hwf) as (n & l & -> & -> & Hwf1).
  cbn [mbind outcome_bind]. eapply IH; [exact Hwf1|lia].
Qed.

Lemma rt_mq_reset_ok mq q f held : mq_wf mq q f held ->
  exists mq' f', rt_mq_control RT_IPC_CMD_RESET mq =
      Ok (RT_EOK, rt_ipc_list_resume_all (mq_suspend_thread mq), mq') /\ mq_wf mq' [] f' held.
Proof.
  intros Hwf. pose proof (mq_wf_length _ _ _ _ Hwf). cbn [rt_mq_control].
  destruct (release_all_ok (length (msgs mq)) (mq <| mq_suspend_thread := [] |>) q f held)
    as (mq' & f' & -> & Hwf'); [| |by exists (mq' <| mq_entry := 0 |>), f'].
  - destruct Hwf. by split; mq_fields.
  - rewrite (mq_wf_len _ _ _ _ Hwf). lia.
Qed.

(** ** Initialisation *)
Lemma link_free_ok n : forall temp l free, (temp + n <= length l)%nat ->
  forall f, chain l free f -> (forall i, i ∈ f -> (i < temp)%nat) ->
  exists l' free' f', link_free temp n l free = Ok (l', free') /\ length l' = length l /\
    same_payload [] l l' /\ chain l' free' (f' ++ f) /\ f' ≡ₚ seq temp n.
Proof.
  induction n as [|n IH]; intros temp l free Hlen f Hf Hlt.
  - by exists l, free, [].
  - cbn [link_free]. destruct (set_next_ok l temp free) as (l1 & nd & -> & Hl1 & Hn1 & Hp1 & Ht & Hnx); [lia|].
    cbn [mbind outcome_bind].
    assert (chain l1 (Some temp) (temp :: f)) as Hc.
    { split; [done|]. exists nd. split; [done|]. rewrite Hnx. eapply chain_frame; [exact Hn1| |done].
      intros j Hj ->%list_elem_of_singleton. apply Hlt in Hj. lia. }
    destruct (IH (S temp) l1 (Some temp) ltac:(lia) (temp :: f) Hc) as
      (l2 & free2 & f2 & -> & Hl2 & Hp2 & Hc2 & Hperm).
    { intros j [->|Hj]%elem_of_cons; [lia|]. apply Hlt in Hj. lia. }
    exists l2, free2, (f2 ++ [temp]). split_and!; [done|lia| |by rewrite <- app_assoc|].
    + rewrite <- (app_nil_r []). by eapply same_payload_trans.
    + rewrite Hperm. cbn. solve_Permutation.
Qed.

Lemma pool_nodes_sized msgpool size n : 0 <= size ->
  Z.of_nat n * (size + sizeof_rt_mq_message) <= Z.of_nat (length msgpool) ->
  sized size (pool_nodes msgpool size n).
Proof.
  intros Hs Hp. unfold sized, pool_nodes. apply Forall_forall.
  intros x (i & -> & Hi)%list_elem_of_fmap. apply list_elem_of_In, in_seq in Hi. cbn.
  rewrite length_take, length_drop. unfold sizeof_rt_mq_message in *. nia.
Qed.

Lemma rt_mq_init_ok msgpool size pool_size flag :
  let sz := u16 (RT_ALIGN size 4) in
  0 <= pool_size <= Z.of_nat (length msgpool) -> pool_size / (sz + 4) < 65536 ->
  exists mq f, rt_mq_init msgpool size pool_size flag = Ok mq /\ mq_wf mq [] f [] /\
    msg_size mq = sz /\ max_msgs mq = pool_size / (sz + 4).
Proof.
  intros sz Hp Hmax. unfold rt_mq_init. fold sz. unfold sizeof_rt_mq_message.
  assert (0 <= sz < 65536) as Hsz by (apply uint_range; lia).
  assert (0 <= pool_size / (sz + 4)) by (apply Z.div_pos; lia).
  rewrite u16_small by lia. set (max := pool_size / (sz + 4)) in *.
  set (l0 := pool_nodes msgpool sz (Z.to_nat max)).
  assert (length l0 = Z.to_nat max) as Hl0 by (unfold l0, pool_nodes; by rewrite length_map, length_seq).
  destruct (link_free_ok (Z.to_nat max) 0 l0 None ltac:(lia) [] eq_refl) as
    (l1 & free & f & -> & Hl1 & Hp1 & Hc & Hperm); [by intros ? ?%not_elem_of_nil|].
  cbn [mbind outcome_bind]. eexists _, f. split; [done|]. split; [|done].
  rewrite app_nil_r in Hc. split; mq_fields; try done; try lia.
  - eapply same_payload_sized; [done|done|]. apply pool_nodes_sized; [lia|].
    unfold sizeof_rt_mq_message. rewrite Z2Nat.id by done.
    pose proof (Z.mul_div_le pool_size (sz + 4)). unfold max. lia.
  - cbn. by rewrite app_nil_r.
Qed.

(** ** Interleavings: the queue with the nodes private to its threads *)
Inductive mq_reachable : rt_messagequeue -> list nat -> Prop :=
  | mq_reach_init msgpool size pool_size flag mq :
      0 <= pool_size <= Z.of_nat (length msgpool) ->
      pool_size / (u16 (RT_ALIGN size 4) + 4) < 65536 ->
      rt_mq_init msgpool size pool_size flag = Ok mq -> mq_reachable mq []
  | mq_reach_send_begin mq held size i mq' :
      mq_reachable mq held -> 0 < size ->
      rt_mq_send_begin size mq = Ok (inr i, mq') -> mq_reachable mq' (i :: held)
  | mq_reach_send_end mq held held' i buffer size resumed mq' :
      mq_reachable mq held -> held ≡ₚ i :: held' ->
      0 < size <= msg_size mq -> size <= Z.of_nat (length buffer) ->
      rt_mq_send_end i buffer size mq = Ok (resumed, mq') -> mq_reachable mq' held'
  | mq_reach_urgent_end mq held held' i buffer size resumed mq' :
      mq_reachable mq held -> held ≡ₚ i :: held' ->
      0 < size <= msg_size mq -> size <= Z.of_nat (length buffer) ->
      rt_mq_urgent_end i buffer size mq = Ok (resumed, mq') -> mq_reachable mq' held'
  | mq_reach_recv mq held thread timeout r mq' :
      mq_reachable mq held -> rt_mq_recv_loop thread timeout mq = Ok (r, mq') ->
      mq_reachable mq' (match r with inl _ => held | inr i => i :: held end)
  | mq_reach_recv_end mq held held' i buffer size buffer' mq' :
      mq_reachable mq held -> held ≡ₚ i :: held' ->
      0 < size <= Z.of_nat (length buffer) ->
      rt_mq_recv_end i buffer size mq = Ok (buffer', mq') -> mq_reachable mq' held'
  | mq_reach_timeout mq held t :
      mq_reachable mq held ->
      mq_reachable (mq <| mq_suspend_thread := (rt_thread_timeout (mq_suspend_thread mq) t).1 |>) held
  | mq_reach_reset mq held e resumed mq' :
      mq_reachable mq held ->
      rt_mq_control RT_IPC_CMD_RESET mq = Ok (e, resumed, mq') -> mq_reachable mq' held.

Lemma mq_reachable_wf mq held : mq_reachable mq held -> exists q f, mq_wf mq q f held.
Proof.
  induction 1 as [msgpool size pool_size flag mq Hp Hm Hi
    |mq held size i mq' _ (q & f & Hwf) Hs Hb
    |mq held held' i buffer size resumed mq' _ (q & f & Hwf) Hperm Hs Hlen He
    |mq held held' i buffer size resumed mq' _ (q & f & Hwf) Hperm Hs Hlen He
    |mq held thread timeout r mq' _ (q & f & Hwf) Hr
    |mq held held' i buffer size buffer' mq' _ (q & f & Hwf) Hperm Hs He
    |mq held t _ (q & f & Hwf)
    |mq held e resumed mq' _ (q & f & Hwf) Hr].
  - destruct (rt_mq_init_ok msgpool size pool_size flag Hp Hm) as (mq1 & f & Hi1 & Hwf & _).
    exists [], f. congruence.
  - destruct (rt_mq_send_begin_ok size mq q f held Hwf Hs) as
      [[_ E]|[(_ & _ & E)|(_ & j & f' & mq1 & _ & E & Hwf1 & _)]]; rewrite Hb in E; [done..|].
    injection E as <- <-. by exists q, f'.
  - apply (mq_wf_held_perm _ _ _ _ _ Hperm) in Hwf.
    destruct (rt_mq_send_end_ok i buffer size mq q f held' Hwf ltac:(lia) Hlen) as (mq1 & ? & ? & E & Hwf1 & _).
    exists (q ++ [i]), f. congruence.
  - apply (mq_wf_held_perm _ _ _ _ _ Hperm) in Hwf.
    destruct (rt_mq_urgent_end_ok i buffer size mq q f held' Hwf ltac:(lia) Hlen) as (mq1 & ? & ? & E & Hwf1 & _).
    exists (i :: q), f. congruence.
  - destruct (rt_mq_recv_loop_ok thread timeout mq q f held Hwf) as
      [(_ & w & mq1 & E & Hwf1 & _)|(i & q' & mq1 & _ & E & Hwf1 & _)]; rewrite Hr in E; injection E as -> ->.
    + by exists q, f.
    + by exists q', f.
  - apply (mq_wf_held_perm _ _ _ _ _ Hperm) in Hwf.
    destruct (rt_mq_recv_end_ok i buffer size mq q f held' Hwf ltac:(lia)) as (mq1 & ? & ? & E & Hwf1 & _).
    exists q, (i :: f). congruence.
  - exists q, f. by apply mq_suspend_wf.
  - destruct (rt_mq_reset_ok mq q f held Hwf) as (mq1 & f' & E & Hwf1). exists [], f'. congruence.
Qed.

(** A whole send, and a whole receive, as one thread performs them undisturbed. *)
Lemma rt_mq_send_ok mq q f held buffer size : mq_wf mq q f held ->
  0 < size <= msg_size mq -> size <= Z.of_nat (length buffer) -> f <> [] ->
  exists q' f' old new mq', rt_mq_send buffer size mq = Ok (RT_EOK, take 1 (mq_suspend_thread mq), mq') /\
    mq_wf mq' q' f' held /\ messages mq' q' = messages mq q ++ [new] /\ sent_payload buffer size old new.
Proof.
  intros Hwf Hs Hb Hf.
  destruct (rt_mq_send_begin_ok size mq q f held Hwf ltac:(lia)) as
    [[Hbig E]|[(Hfit & -> & E)|(Hfit & i & f' & mq1 & -> & E & Hwf1 & Em & Esz & Esu)]]; [lia|done|].
  destruct (rt_mq_send_end_ok i buffer size mq1 q f' held Hwf1 ltac:(lia) Hb)
    as (mq2 & old & new & E2 & Hwf2 & _ & Hnew & Hmsgs & _).
  unfold rt_mq_send, send_with. rewrite E. cbn [mbind outcome_bind]. rewrite E2, Esu. cbn [mbind outcome_bind].
  eexists _, f', old, new, mq2. split; [done|]. split; [exact Hwf2|]. split; [|exact Hnew].
  rewrite Hmsgs. unfold messages. by rewrite Em.
Qed.

Lemma rt_mq_urgent_ok mq q f held buffer size : mq_wf mq q f held ->
  0 < size <= msg_size mq -> size <= Z.of_nat (length buffer) -> f <> [] ->
  exists q' f' old new mq', rt_mq_urgent buffer size mq = Ok (RT_EOK, take 1 (mq_suspend_thread mq), mq') /\
    mq_wf mq' q' f' held /\ messages mq' q' = new :: messages mq q /\ sent_payload buffer size old new.
Proof.
  intros Hwf Hs Hb Hf.
  destruct (rt_mq_send_begin_ok size mq q f held Hwf ltac:(lia)) as
    [[Hbig E]|[(Hfit & -> & E)|(Hfit & i & f' & mq1 & -> & E & Hwf1 & Em & Esz & Esu)]]; [lia|done|].
  destruct (rt_mq_urgent_end_ok i buffer size mq1 q f' held Hwf1 ltac:(lia) Hb)
    as (mq2 & old & new & E2 & Hwf2 & _ & Hnew & Hmsgs & _).
  unfold rt_mq_urgent, send_with. rewrite E. cbn [mbind outcome_bind]. rewrite E2, Esu. cbn [mbind outcome_bind].
  eexists _, f', old, new, mq2. split; [done|]. split; [exact Hwf2|]. split; [|exact Hnew].
  rewrite Hmsgs. unfold messages. by rewrite Em.
Qed.

Lemma rt_mq_recv_ok mq q f held thread buffer size timeout : mq_wf mq q f held ->
  0 < size <= Z.of_nat (length buffer) -> q <> [] ->
  exists data rest q' f' buffer' mq', messages mq q = data :: rest /\
    rt_mq_recv thread buffer size timeout mq = Ok (IpcReturn RT_EOK, buffer', mq') /\
    mq_wf mq' q' f' held /\ messages mq' q' = rest /\ received (msg_size mq) size data buffer buffer'.
Proof.
  intros Hwf Hs Hq. unfold rt_mq_recv, rt_mq_recv_begin.
  destruct (Z.eqb_spec size 0); [lia|]. destruct (Z.eqb_spec (mq_entry mq) 0) as [He|He]; cbn [andb].
  { destruct q; [done|]. rewrite (mq_wf_entry _ _ _ _ Hwf) in He. cbn in He. lia. }
  destruct (rt_mq_recv_loop_ok thread timeout mq q f held Hwf) as
    [[-> _]|(i & q' & mq1 & -> & E & Hwf1 & Em & Esz)]; [done|].
  rewrite E. cbn [mbind outcome_bind].
  destruct (rt_mq_recv_end_ok i buffer size mq1 q' f held Hwf1 ltac:(lia)) as
    (mq2 & b & data & -> & Hwf2 & Hdata & Hrec & Hpay & Hsz2). cbn [mbind outcome_bind].
  exists data, (messages mq q'), q', (i :: f), b, mq2. split_and!; [|done|done| |by rewrite <- Esz].
  - unfold messages. cbn. rewrite Em in Hdata. by rewrite Hdata.
  - rewrite (messages_frame mq1 mq2 q' []) by (done || intros ? _; apply not_elem_of_nil).
    unfold messages. by rewrite Em.
Qed.

(** ** The properties *)

(** C35: Message queue memory safety under interleaving: in every state reachable from [rt_mq_init] by any interleaving of the critical sections of sends, urgent sends and receives of several threads, of wait timeouts and of resets, the queue and free lists are acyclic, end in NULL, and together with the nodes that threads are copying partition the pool; [entry] counts the queue and [tail] is its last node; and no step a thread can take from there faults, runs off the pool or loops for ever (reset included). *)
Theorem mq_pool_integrity mq held :
  mq_reachable mq held ->
  exists q f,
    chain (msgs mq) (msg_queue_head mq) q /\ chain (msgs mq) (msg_queue_free mq) f /\
    msg_queue_tail mq = last q /\ mq_entry mq = Z.of_nat (length q) /\
    q ++ f ++ held ≡ₚ seq 0 (Z.to_nat (max_msgs mq)) /\
    (forall size, 0 < size -> exists r mq', rt_mq_send_begin size mq = Ok (r, mq')) /\
    (forall i held' buffer size, held ≡ₚ i :: held' -> 0 < size <= msg_size mq ->
       size <= Z.of_nat (length buffer) ->
       (exists r mq', rt_mq_send_end i buffer size mq = Ok (r, mq')) /\
       (exists r mq', rt_mq_urgent_end i buffer size mq = Ok (r, mq')) /\
       (exists b mq', rt_mq_recv_end i buffer size mq = Ok (b, mq'))) /\
    (forall thread timeout, exists r mq', rt_mq_recv_loop thread timeout mq = Ok (r, mq')) /\
    (exists r mq', rt_mq_control RT_IPC_CMD_RESET mq = Ok (r, mq')).
Proof.
  intros (q & f & Hwf)%mq_reachable_wf. exists q, f. split_and!; try apply Hwf.
  - intros size Hs. destruct (rt_mq_send_begin_ok size mq q f held Hwf Hs) as
      [[_ E]|[(_ & _ & E)|(_ & j & f' & mq1 & _ & E & _)]]; by eexists _, _.
  - intros i held' buffer size Hperm Hs Hlen. apply (mq_wf_held_perm _ _ _ _ _ Hperm) in Hwf.
    destruct (rt_mq_send_end_ok i buffer size mq q f held' Hwf ltac:(lia) Hlen) as (? & ? & ? & ? & _).
    destruct (rt_mq_urgent_end_ok i buffer size mq q f held' Hwf ltac:(lia) Hlen) as (? & ? & ? & ? & _).
    destruct (rt_mq_recv_end_ok i buffer size mq q f held' Hwf ltac:(lia)) as (? & ? & ? & ? & _).
    split_and!; by eexists _, _.
  - intros thread timeout. destruct (rt_mq_recv_loop_ok thread timeout mq q f held Hwf) as
      [(_ & w & mq1 & E & _)|(i & q' & mq1 & _ & E & _)]; by eexists _, _.
  - destruct (rt_mq_reset_ok mq q f held Hwf) as (mq1 & f' & E & _). by eexists _, _.
Qed.

Definition mq_example : outcome rt_messagequeue :=
  mq ← rt_mq_init (repeat 0 24) 3 24 RT_IPC_FLAG_FIFO;
  '(_, mq) ← rt_mq_send_begin 2 mq;
  Ok mq.

Lemma mq_example_reachable mq : mq_example = Ok mq -> mq_reachable mq [2%nat].
Proof.
  unfold mq_example. destruct (rt_mq_init _ _ _ _) as [mq0| |] eqn:E0; [|done..].
  cbn [mbind outcome_bind]. destruct (rt_mq_send_begin 2 mq0) as [[r mq1]| |] eqn:E1; [|done..].
  intros [= <-]. assert (r = inr 2%nat) as ->.
  { vm_compute in E0. injection E0 as <-. vm_compute in E1. by injection E1 as <- _. }
  eapply (mq_reach_send_begin _ _ 2); [|lia|exact E1].
  apply (mq_reach_init (repeat 0 24) 3 24 RT_IPC_FLAG_FIFO); [cbn; lia|reflexivity|exact E0].
Qed.

Lemma mq_pool_integrity_witness :
  exists mq q f, mq_example = Ok mq /\ chain (msgs mq) (msg_queue_head mq) q /\
    chain (msgs mq) (msg_queue_free mq) f /\ q ++ f ++ [2%nat] ≡ₚ seq 0 3.
Proof.
  eexists. destruct (mq_pool_integrity _ [2%nat] (mq_example_reachable _ eq_refl))
    as (q & f & H1 & H2 & _ & _ & H3 & _).
  exists q, f. split; [reflexivity|]. split; [exact H1|]. split; [exact H2|exact H3].
Defined.

(** C36: A message queue refines a bounded deque of messages: a send of an admissible size fails with -RT_EFULL exactly when no node is free, and otherwise returns RT_EOK, stores the sender's bytes behind (rt_mq_urgent: before) the queued messages, and resumes the first waiting receiver; a receive of a queued message returns RT_EOK, copies the oldest message (cut to the caller's size) into the buffer and removes exactly it; oversized sends return -RT_ERROR and change nothing. *)
Theorem mq_refines_deque mq q f held buffer size thread timeout :
  mq_wf mq q f held -> 0 < size <= Z.of_nat (length buffer) ->
  (msg_size mq < size -> rt_mq_send buffer size mq = Ok (- RT_ERROR, [], mq)) /\
  (size <= msg_size mq -> f = [] -> rt_mq_send buffer size mq = Ok (- RT_EFULL, [], mq)) /\
  (size <= msg_size mq -> f <> [] ->
     exists q' f' old new mq', rt_mq_send buffer size mq = Ok (RT_EOK, take 1 (mq_suspend_thread mq), mq') /\
       mq_wf mq' q' f' held /\ messages mq' q' = messages mq q ++ [new] /\ sent_payload buffer size old new) /\
  (size <= msg_size mq -> f <> [] ->
     exists q' f' old new mq', rt_mq_urgent buffer size mq = Ok (RT_EOK, take 1 (mq_suspend_thread mq), mq') /\
       mq_wf mq' q' f' held /\ messages mq' q' = new :: messages mq q /\ sent_payload buffer size old new) /\
  (q <> [] ->
     exists data rest q' f' buffer' mq', messages mq q = data :: rest /\
       rt_mq_recv thread buffer size timeout mq = Ok (IpcReturn RT_EOK, buffer', mq') /\
       mq_wf mq' q' f' held /\ messages mq' q' = rest /\
       received (msg_size mq) size data buffer buffer').
Proof.
  intros Hwf Hs. split_and!.
  - intros Hbig. unfold rt_mq_send, send_with, rt_mq_send_begin.
    destruct (Z.eqb_spec size 0); [lia|]. destruct (Z.gtb_spec size (msg_size mq)); [done|lia].
  - intros Hfit ->. unfold rt_mq_send, send_with, rt_mq_send_begin.
    destruct (Z.eqb_spec size 0); [lia|]. destruct (Z.gtb_spec size (msg_size mq)); [lia|].
    pose proof (mq_wf_free _ _ _ _ Hwf) as Hf. cbn in Hf. by rewrite Hf.
  - intros Hfit Hf. apply (rt_mq_send_ok mq q f); [done|lia|lia|done].
  - intros Hfit Hf. apply (rt_mq_urgent_ok mq q f); [done|lia|lia|done].
  - intros Hq. by apply (rt_mq_recv_ok mq q f).
Qed.

(** Two messages, one free node. *)
Definition mq_two : rt_messagequeue :=
  MkMq [MkMsg None [1; 2; 3; 4]; MkMsg (Some 0%nat) [5; 6; 7; 8]; MkMsg None [0; 0; 0; 0]]
       4 3 2 (Some 1%nat) (Some 0%nat) (Some 2%nat) [] RT_IPC_FLAG_FIFO.

Lemma mq_two_wf : mq_wf mq_two [1%nat; 0%nat] [2%nat] [].
Proof.
  split; cbn; try done; try lia.
  - repeat constructor.
  - split; [done|]. eexists. split; [done|]. split; [done|]. by eexists.
  - split; [done|]. by eexists.
  - change ([1%nat; 0%nat; 2%nat] ≡ₚ [0%nat; 1%nat; 2%nat]). apply Permutation_swap.
Qed.

Lemma mq_refines_deque_witness :
  exists q' f' old new mq', rt_mq_send [9; 9] 2 mq_two = Ok (RT_EOK, [], mq') /\
    mq_wf mq' q' f' [] /\ messages mq' q' = [[5; 6; 7; 8]; [1; 2; 3; 4]] ++ [new] /\
    sent_payload [9; 9] 2 old new.
Proof.
  destruct (mq_refines_deque mq_two _ _ _ [9; 9] 2 (MkThread 1 10 0 0 0) 0 mq_two_wf) as (_ & _ & H & _);
    [cbn; lia|].
  apply H; [cbn; lia|done].
Defined.
