(* ===== verification/DataQueue.v ===== *)
(** * Data queues (src/drivers/src/dataqueue.c)

    The queue of blocks that a serial device transmits by DMA.  A block is its data
    and its size; an interrupt-disabled region is one step, a function that waits is
    cut where it calls the scheduler, and threads made ready are returned, as in
    Ipc.v.  The indices are free-running 16-bit counters.  [evt_notify] is the list
    of the events it has been called with, when it is set. *)
From S2P Require Import Prelude Cyclic Ipc.

Definition RT_DATAQUEUE_EVENT_POP : Z := 1.
Definition RT_DATAQUEUE_EVENT_PUSH : Z := 2.
Definition RT_DATAQUEUE_EVENT_LWM : Z := 3.

Section DataQueue.
Context {A : Type}.

Record rt_data_queue := MkDq {
  dq_size : Z;
  lwm : Z;
  dq_get : Z;
  dq_put : Z;
  dq_queue : list (option (A * Z));
  suspended_push_list : list rt_thread;
  suspended_pop_list : list rt_thread;
  evt_notify : option (list Z)
}.
#[export] Instance rt_data_queue_eta : Eta rt_data_queue := fun q =>
  MkDq (dq_size q) (lwm q) (dq_get q) (dq_put q) (dq_queue q) (suspended_push_list q) (suspended_pop_list q) (evt_notify q).

(** [alloc]: whether the allocation of the array succeeds. *)
Definition rt_data_queue_init (size lwm : Z) (notify alloc : bool) : Z * rt_data_queue :=
  let q := MkDq (u16 size) (u16 lwm) 0 0 [] [] [] (if notify then Some [] else None) in
  if alloc then (RT_EOK, q <| dq_queue := replicate (Z.to_nat (u16 size)) None |>) else (- RT_ENOMEM, q).

Definition notify (event : Z) : M rt_data_queue unit :=
  evts ← gets evt_notify;
  match evts with Some l => evt_notify ::= Some (l ++ [event]) | None => skip end.

(** The item in [queue[i % size]]; a division by 0 is a fault. *)
Definition dq_slot (i : Z) (q : rt_data_queue) : outcome Z :=
  if dq_size q =? 0 then Fault FOutOfBounds else Ok (i mod dq_size q).

(** From the test of the loop on; a thread that is woken runs it again unless it
    comes back with an error. *)
Definition rt_data_queue_push (self : rt_thread) (data : A) (size timeout : Z) : M rt_data_queue (ipc_wait * list rt_thread) :=
  q ← gets id;
  if dq_put q - dq_get q =? dq_size q then
    if timeout =? 0 then mret (IpcReturn (- RT_ETIMEOUT), [])
    else
      suspended_push_list ::= suspended_push_list q ++ [self <| error := RT_EOK |>];;
      mret (IpcSuspend (wait_timer timeout), [])
  else
    i ← lift (dq_slot (dq_put q) q);
    l ← lift (zset (dq_queue q) i (Some (data, size)));
    dq_queue ::= l;;
    dq_put ::= u16 (dq_put q + 1);;
    match suspended_pop_list q with
    | thread :: rest => suspended_pop_list ::= rest;; mret (IpcReturn RT_EOK, [thread])
    | [] => notify RT_DATAQUEUE_EVENT_PUSH;; mret (IpcReturn RT_EOK, [])
    end.

Definition rt_data_queue_push_resumed (self : rt_thread) (data : A) (size timeout : Z) : M rt_data_queue (ipc_wait * list rt_thread) :=
  if negb (error self =? RT_EOK) then mret (IpcReturn (error self), [])
  else rt_data_queue_push self data size timeout.

(** The item is what [data_ptr] and [size] point to afterwards. *)
Definition rt_data_queue_pop (self : rt_thread) (timeout : Z) : M rt_data_queue (ipc_wait * option (A * Z) * list rt_thread) :=
  q ← gets id;
  if dq_get q =? dq_put q then
    if timeout =? 0 then mret (IpcReturn (- RT_ETIMEOUT), None, [])
    else
      suspended_pop_list ::= suspended_pop_list q ++ [self <| error := RT_EOK |>];;
      mret (IpcSuspend (wait_timer timeout), None, [])
  else
    i ← lift (dq_slot (dq_get q) q);
    item ← lift (zget (dq_queue q) i);
    let get := u16 (dq_get q + 1) in
    dq_get ::= get;;
    if dq_put q - get <=? lwm q then
      match suspended_push_list q with
      | thread :: rest =>
          suspended_push_list ::= rest;; notify RT_DATAQUEUE_EVENT_LWM;; mret (IpcReturn RT_EOK, item, [thread])
      | [] => notify RT_DATAQUEUE_EVENT_LWM;; mret (IpcReturn RT_EOK, item, [])
      end
    else notify RT_DATAQUEUE_EVENT_POP;; mret (IpcReturn RT_EOK, item, []).

Definition rt_data_queue_pop_resumed (self : rt_thread) (timeout : Z) : M rt_data_queue (ipc_wait * option (A * Z) * list rt_thread) :=
  if negb (error self =? RT_EOK) then mret (IpcReturn (error self), None, [])
  else rt_data_queue_pop self timeout.

Definition rt_data_queue_peak : M rt_data_queue (Z * option (A * Z)) :=
  q ← gets id;
  if dq_get q =? dq_put q then mret (- RT_EEMPTY, None)
  else
    i ← lift (dq_slot (dq_get q) q);
    item ← lift (zget (dq_queue q) i);
    mret (RT_EOK, item).

Definition rt_data_queue_reset : M rt_data_queue (list rt_thread) :=
  q ← gets id;
  suspended_pop_list ::= [];; suspended_push_list ::= [];;
  mret (rt_ipc_list_resume_all (suspended_pop_list q) ++ rt_ipc_list_resume_all (suspended_push_list q)).
End DataQueue.
Arguments rt_data_queue A : clear implicits.

(** ** A bounded queue *)
Section Refinement.
Context {A : Type}.
Implicit Types (q : rt_data_queue A) (items : list (A * Z)).

(** The counters have not wrapped. *)
Record dq_holds (size : Z) (items : list (A * Z)) (q : rt_data_queue A) : Prop := {
  dh_size : dq_size q = size;
  dh_pos : 0 < size;
  dh_array : Z.of_nat (length (dq_queue q)) = size;
  dh_get : 0 <= dq_get q;
  dh_put : dq_put q = dq_get q + Z.of_nat (length items);
  dh_range : dq_put q < 65536;
  dh_room : Z.of_nat (length items) <= size;
  dh_items : cyc (dq_queue q) size (dq_get q mod size) (Z.of_nat (length items)) = Some <$> items
}.

Inductive dq_op := DqPush (data : A) (size : Z) | DqPop | DqPeak.
Inductive dq_reply := DqErr (err : Z) (item : option (A * Z)).

(** Calls that do not wait, by a thread [self]. *)
Definition dq_run (self : rt_thread) (op : dq_op) : M (rt_data_queue A) (option dq_reply) :=
  match op with
  | DqPush data size =>
      '(w, _) ← rt_data_queue_push self data size 0;
      mret match w with IpcReturn e => Some (DqErr e None) | IpcSuspend _ => None end
  | DqPop =>
      '(w, item, _) ← rt_data_queue_pop self 0;
      mret match w with IpcReturn e => Some (DqErr e item) | IpcSuspend _ => None end
  | DqPeak => '(e, item) ← rt_data_queue_peak; mret (Some (DqErr e item))
  end.

Definition dq_spec (size : Z) (op : dq_op) (items : list (A * Z)) : dq_reply * list (A * Z) :=
  match op with
  | DqPush data n =>
      if Z.of_nat (length items) =? size then (DqErr (- RT_ETIMEOUT) None, items)
      else (DqErr RT_EOK None, items ++ [(data, n)])
  | DqPop =>
      match items with
      | [] => (DqErr (- RT_ETIMEOUT) None, [])
      | item :: items => (DqErr RT_EOK (Some item), items)
      end
  | DqPeak =>
      match items with
      | [] => (DqErr (- RT_EEMPTY) None, [])
      | item :: _ => (DqErr RT_EOK (Some item), items)
      end
  end.

Fixpoint dq_runs (self : rt_thread) (ops : list dq_op) : M (rt_data_queue A) (list (option dq_reply)) :=
  match ops with
  | [] => mret []
  | op :: ops => r ← dq_run self op; rs ← dq_runs self ops; mret (r :: rs)
  end.

Fixpoint dq_specs (size : Z) (ops : list dq_op) (items : list (A * Z)) : list dq_reply * list (A * Z) :=
  match ops with
  | [] => ([], items)
  | op :: ops =>
      let '(r, items) := dq_spec size op items in
      let '(rs, items) := dq_specs size ops items in
      (r :: rs, items)
  end.
Lemma dq_slot_ok (size i : Z) q : dq_size q = size -> 0 < size -> dq_slot i q = Ok (i mod size).
Proof. intros Hs Hp. unfold dq_slot. rewrite Hs. by rewrite (proj2 (Z.eqb_neq size 0)) by lia. Qed.

Lemma notify_ok event q : exists evts, notify event q = Ok (tt, q <| evt_notify := evts |>).
Proof. unfold notify. c_run. destruct q, evt_notify0; by eexists. Qed.

Lemma dq_push_ok self size items q data n : dq_holds size items q -> dq_put q < 65535 -> Z.of_nat (length items) <> size ->
  exists w q', rt_data_queue_push self data n 0 q = Ok (IpcReturn RT_EOK, w, q') /\
    dq_holds size (items ++ [(data, n)]) q' /\ dq_put q' = dq_put q + 1.
Proof.
  intros [Hs Hp Ha Hg Hput Hr Hroom Hi] Hlt Hne. unfold rt_data_queue_push. c_run. unfold id.
  rewrite (proj2 (Z.eqb_neq (dq_put q - dq_get q) _)), (dq_slot_ok size) by lia. rewrite run_bind_lift.
  pose proof (Z.mod_pos_bound (dq_put q) size Hp). rewrite zset_ok by lia. c_run. rewrite u16_small by lia.
  assert (forall l evts, dq_holds size (items ++ [(data, n)])
    (q <| dq_queue := <[Z.to_nat (dq_put q mod size) := Some (data, n)]> (dq_queue q) |> <| dq_put := dq_put q + 1 |>
       <| suspended_pop_list := l |> <| evt_notify := evts |>)) as Hh.
  { intros l evts. split; try (cbn; rewrite ?length_insert, ?length_app; cbn; lia).
    change (cyc (<[Z.to_nat (dq_put q mod size) := Some (data, n)]> (dq_queue q)) size (dq_get q mod size)
      (Z.of_nat (length (items ++ [(data, n)]))) = Some <$> (items ++ [(data, n)])).
    rewrite length_app, Nat2Z.inj_add, fmap_app. rewrite <- Hi, Hput.
    rewrite <- Zplus_mod_idemp_l. apply cyc_snoc; [lia|apply Z.mod_pos_bound; lia|lia]. }
  destruct (suspended_pop_list q) as [|thread rest] eqn:El.
  - edestruct (notify_ok RT_DATAQUEUE_EVENT_PUSH) as [evts E]. erewrite run_bind_ok by exact E.
    eexists _, _. split; [done|]. split; [|done]. specialize (Hh [] evts). destruct q. cbn in *. by subst.
  - eexists _, _. split; [done|]. split; [|done]. specialize (Hh rest (evt_notify q)). destruct q. exact Hh.
Qed.

Lemma dq_first size item items q : dq_holds size (item :: items) q ->
  dq_get q <> dq_put q /\ zget (dq_queue q) (dq_get q mod size) = Ok (Some item) /\
  cyc (dq_queue q) size ((dq_get q + 1) mod size) (Z.of_nat (length items)) = Some <$> items.
Proof.
  intros [Hs Hp Ha Hg Hput Hr Hroom Hi]. cbn [length] in *. split; [lia|].
  destruct (cyc_cons (dq_queue q) size (dq_get q mod size) (Z.of_nat (S (length items)))) as (x & Ex & Ec);
    [lia|apply Z.mod_pos_bound; lia|lia|].
  rewrite Hi, Zplus_mod_idemp_l, fmap_cons in Ec. simplify_list_eq. split; [done|].
  replace (Z.of_nat (length items)) with (Z.of_nat (S (length items)) - 1) by lia. done.
Qed.

Lemma dq_pop_ok self size item items q : dq_holds size (item :: items) q ->
  exists w q', rt_data_queue_pop self 0 q = Ok (IpcReturn RT_EOK, Some item, w, q') /\
    dq_holds size items q' /\ dq_put q' = dq_put q.
Proof.
  intros H. destruct (dq_first size item items q H) as (Hne & E & Hc). destruct H as [Hs Hp Ha Hg Hput Hr Hroom Hi].
  cbn [length] in *. unfold rt_data_queue_pop. c_run. unfold id. rewrite (proj2 (Z.eqb_neq _ _)), (dq_slot_ok size) by lia.
  rewrite run_bind_lift, E. c_run. rewrite u16_small by lia.
  assert (forall l evts, dq_holds size items
    (q <| dq_get := dq_get q + 1 |> <| suspended_push_list := l |> <| evt_notify := evts |>)) as Hh.
  { intros l evts. split; cbn; try lia. done. }
  destruct (_ <=? lwm q); [destruct (suspended_push_list q) as [|thread rest] eqn:El|]; c_run;
    (edestruct notify_ok as [evts En]; erewrite run_bind_ok by exact En; eexists _, _; split; [done|]; split; [|done]).
  - specialize (Hh [] evts). destruct q. cbn in *. by subst.
  - specialize (Hh rest evts). destruct q. exact Hh.
  - specialize (Hh (suspended_push_list q) evts). destruct q. exact Hh.
Qed.

Lemma dq_run_ok self size op items q : dq_holds size items q -> dq_put q < 65535 ->
  exists q', dq_run self op q = Ok (Some (dq_spec size op items).1, q') /\
    dq_holds size (dq_spec size op items).2 q' /\ dq_put q' <= dq_put q + 1.
Proof.
  intros H Hlt. destruct op as [data n| |]; cbn [dq_run dq_spec].
  - destruct (Z.eqb_spec (Z.of_nat (length items)) size) as [He|Hne].
    + exists q. split; [|split; [done|lia]]. destruct H. unfold rt_data_queue_push. c_run. unfold id.
      by rewrite (proj2 (Z.eqb_eq (dq_put q - dq_get q) _)) by lia.
    + destruct (dq_push_ok self size items q data n H Hlt Hne) as (w & q' & E & H' & Hp).
      erewrite run_bind_ok by exact E. exists q'. split; [done|]. split; [done|lia].
  - destruct items as [|item items].
    + exists q. split; [|split; [done|lia]]. destruct H as [_ _ _ _ Hput]. unfold rt_data_queue_pop. c_run. unfold id.
      by rewrite (proj2 (Z.eqb_eq (dq_get q) _)) by (cbn in Hput; lia).
    + destruct (dq_pop_ok self size item items q H) as (w & q' & E & H' & Hp).
      erewrite run_bind_ok by exact E. exists q'. split; [done|]. split; [done|lia].
  - exists q. split; [|split; [by destruct items|lia]]. unfold rt_data_queue_peak. c_run. unfold id.
    destruct items as [|item items].
    + destruct H as [_ _ _ _ Hput]. by rewrite (proj2 (Z.eqb_eq (dq_get q) _)) by (cbn in Hput; lia).
    + destruct (dq_first size item items q H) as (Hne & E & _). rewrite (proj2 (Z.eqb_neq _ _)), (dq_slot_ok size) by
        (try apply H; done). c_run. rewrite E. by c_run.
Qed.

Lemma dq_runs_ok self size ops : forall items q, dq_holds size items q -> dq_put q + Z.of_nat (length ops) < 65536 ->
  exists q', dq_runs self ops q = Ok (Some <$> (dq_specs size ops items).1, q') /\
    dq_holds size (dq_specs size ops items).2 q'.
Proof.
  induction ops as [|op ops IH]; intros items q H Hn; cbn [dq_runs dq_specs length] in *; [by exists q|].
  destruct (dq_run_ok self size op items q H ltac:(lia)) as (q1 & E & H1 & Hp1). erewrite run_bind_ok by exact E.
  destruct (dq_spec size op items) as [r items1]. cbn [fst snd] in *.
  destruct (IH items1 q1 H1 ltac:(lia)) as (q2 & E2 & H2). erewrite run_bind_ok by exact E2.
  destruct (dq_specs size ops items1) as [rs items2]. by exists q2.
Qed.

Lemma dq_init_holds size lwm notify : 0 < size < 65536 -> exists q, rt_data_queue_init size lwm notify true = (RT_EOK, q) /\
  dq_holds size [] q /\ dq_put q = 0.
Proof.
  intros Hs. eexists. split; [reflexivity|]. split; [|done]. rewrite u16_small by lia.
  split; cbn; rewrite ?length_replicate, ?u16_small; try lia. done.
Qed.

(** The array when the counter of pushes wraps. *)
Lemma dq_wrap_full self size items q x1 n1 x2 n2 : dq_holds size items q -> dq_put q = 65535 -> Z.of_nat (length items) = size - 1 ->
  65536 mod size = 0 ->
  exists q', dq_runs self [DqPush x1 n1; DqPush x2 n2] q = Ok ([Some (DqErr RT_EOK None); Some (DqErr RT_EOK None)], q') /\
    dq_get q' = dq_get q /\ zget (dq_queue q') (dq_get q' mod size) = Ok (Some (x2, n2)).
Proof.
  intros [Hs Hp Ha Hg Hput Hr Hroom Hi] H65 Hlen Hdiv. cbn [dq_runs].
  assert (forall x n p q0, dq_put q0 = p -> 0 <= p < 65536 -> dq_size q0 = size -> Z.of_nat (length (dq_queue q0)) = size -> p - dq_get q0 <> size ->
    exists q1, dq_run self (DqPush x n) q0 = Ok (Some (DqErr RT_EOK None), q1) /\
      dq_put q1 = u16 (p + 1) /\ dq_get q1 = dq_get q0 /\ dq_size q1 = size /\
      dq_queue q1 = <[Z.to_nat (p mod size) := Some (x, n)]> (dq_queue q0)) as Hpush.
  { clear - Hp. intros x n p q0 <- Hp0 Hs Ha Hne. cbn [dq_run]. unfold rt_data_queue_push. c_run. unfold id.
    rewrite (proj2 (Z.eqb_neq _ _)), (dq_slot_ok size) by congruence. c_run.
    pose proof (Z.mod_pos_bound (dq_put q0) size Hp). rewrite zset_ok by lia. c_run.
    destruct (suspended_pop_list q0).
    - rewrite !run_bind_bind. edestruct notify_ok as [evts En]. erewrite run_bind_ok by exact En. eexists _. by split.
    - eexists _. by split. }
  destruct (Hpush x1 n1 65535 q) as (q1 & E1 & Hp1 & Hg1 & Hs1 & Hq1); [done|lia|done|done|lia|].
  change (u16 (65535 + 1)) with 0 in Hp1.
  destruct (Hpush x2 n2 0 q1) as (q2 & E2 & Hp2 & Hg2 & Hs2 & Hq2); [done|lia|done|by rewrite Hq1, length_insert|lia|].
  erewrite run_bind_ok by exact E1. rewrite run_bind_bind. erewrite run_bind_ok by exact E2. c_run.
  exists q2. split; [done|]. split; [congruence|]. replace (dq_get q2 mod size) with 0.
  - rewrite Hq2, Z.mod_0_l by lia. apply zget_Some; [done|]. apply list_lookup_insert_eq. rewrite Hq1, length_insert. lia.
  - replace (dq_get q2) with (65536 - size) by lia. by rewrite Zminus_mod, Hdiv, Z_mod_same_full.
Qed.

End Refinement.
Arguments dq_op A : clear implicits.
Arguments dq_reply A : clear implicits.

Definition dq_self : rt_thread := MkThread 1 10 0 0 0.

