(* ===== verification/Serial.v ===== *)
(** * Serial devices (src/drivers/serial/serial.c, src/drivers/src/completion.c)

    The class [Uart] is the table of operations a UART driver registers.  A serial
    device receives by polling, by interrupts into a software FIFO, or by DMA into a
    FIFO or straight into the reader's buffer, and sends by polling, by interrupts or by
    DMA from a data queue; [open_flag] says which.  [serial_rx] and [serial_tx] are the
    allocated structures behind the void pointers of the code, and using one as the
    wrong kind is a fault.  [mallocs] are the results of the allocations to come.  The
    callbacks are recorded: [indications] are the sizes [rx_indicate] was called with,
    [completions] the blocks [tx_complete] was called with. *)
From S2P Require Import Prelude Cyclic Ipc DataQueue Object Device.

Record serial_configure := MkCfg {
  baud_rate : Z;
  data_bits : Z;
  stop_bits : Z;
  parity : Z;
  bit_order : Z;
  invert : Z;
  bufsz : Z
}.
#[export] Instance serial_configure_eta : Eta serial_configure := fun c =>
  MkCfg (baud_rate c) (data_bits c) (stop_bits c) (parity c) (bit_order c) (invert c) (bufsz c).

Definition RT_SERIAL_RB_BUFSZ : Z := 64.
Definition RT_SERIAL_CONFIG_DEFAULT : serial_configure := MkCfg 115200 8 0 0 0 0 RT_SERIAL_RB_BUFSZ.
Definition RT_SERIAL_EVENT_RX_IND : Z := 0x01.
Definition RT_SERIAL_EVENT_TX_DONE : Z := 0x02.
Definition RT_SERIAL_EVENT_RX_DMADONE : Z := 0x03.
Definition RT_SERIAL_EVENT_TX_DMADONE : Z := 0x04.
Definition RT_SERIAL_DMA_RX : Z := 0x01.
Definition RT_SERIAL_DMA_TX : Z := 0x02.

(** What the argument of a control command points to, or the word it is. *)
Inductive serial_arg := ArgWord (w : Z) | ArgConfig (cfg : serial_configure).

(** The operations of a UART driver; [dma_transmit] gets the data to send, or the number
    of bytes to receive, and the direction. *)
Class Uart (H : Type) := {
  configure : serial_configure -> M H Z;
  control : Z -> serial_arg -> M H Z;
  putc : Z -> M H Z;
  getc : M H Z;
  dma_transmit : option (list Z -> Z -> Z -> M H unit)
}.

(** ** The software FIFO *)
Record rt_serial_rx_fifo := MkFifo {
  buffer : list Z;
  put_index : Z;
  get_index : Z;
  is_full : bool
}.
#[export] Instance rt_serial_rx_fifo_eta : Eta rt_serial_rx_fifo := fun f =>
  MkFifo (buffer f) (put_index f) (get_index f) (is_full f).

Definition fifo_init (bufsz : Z) : rt_serial_rx_fifo := MkFifo (replicate (Z.to_nat bufsz) 0) 0 0 false.

(** An index that has been advanced by one. *)
Definition wrapped (bufsz i : Z) : Z := if bufsz <=? u16 (i + 1) then 0 else u16 (i + 1).

(** One turn of the loop of [_serial_int_rx]; [None]: there is no data. *)
Definition fifo_get (bufsz : Z) : M rt_serial_rx_fifo (option Z) :=
  f ← gets id;
  if (get_index f =? put_index f) && negb (is_full f) then mret None else
  ch ← lift (zget (buffer f) (get_index f));
  get_index ::= wrapped bufsz (get_index f);;
  is_full ::= false;;
  mret (Some (Z.land ch 0xff)).

(** One turn of the loop of the receive interrupt, with the character read. *)
Definition fifo_put (bufsz ch : Z) : M rt_serial_rx_fifo unit :=
  f ← gets id;
  b ← lift (zset (buffer f) (put_index f) (u8 ch));
  buffer ::= b;;
  put_index ::= wrapped bufsz (put_index f);;
  (when wrapped bufsz (put_index f) =? get_index f do (
     get_index ::= wrapped bufsz (get_index f);;
     is_full ::= true)).

Definition _serial_fifo_calc_recved_len (bufsz : Z) (f : rt_serial_rx_fifo) : Z :=
  if put_index f =? get_index f then if is_full f then bufsz else 0
  else if get_index f <? put_index f then put_index f - get_index f
  else bufsz - (get_index f - put_index f).

Definition rt_dma_recv_update_get_index (bufsz len : Z) : M rt_serial_rx_fifo unit :=
  f ← gets id;
  RT_ASSERT (len <=? _serial_fifo_calc_recved_len bufsz f);;
  (when is_full f && negb (len =? 0) do is_full ::= false);;
  let g := u16 (get_index f + len) in
  get_index ::= if bufsz <=? g then g mod bufsz else g.

Definition rt_dma_recv_update_put_index (bufsz len : Z) : M rt_serial_rx_fifo unit :=
  f ← gets id;
  let p := u16 (put_index f + len) in
  (if get_index f <=? put_index f then
     if bufsz <=? p then
       put_index ::= p mod bufsz;;
       (when get_index f <=? p mod bufsz do is_full ::= true)
     else put_index ::= p
   else
     if get_index f <=? p then
       put_index ::= (if bufsz <=? p then p mod bufsz else p);;
       is_full ::= true
     else put_index ::= p);;
  f ← gets id;
  (when is_full f do get_index ::= put_index f);;
  f ← gets id;
  (when bufsz <=? get_index f do get_index ::= 0).

(** Copying out of the FIFO, in one piece or two. *)
Definition fifo_copy (bufsz n : Z) (f : rt_serial_rx_fifo) : outcome (list Z) :=
  let dst := replicate (Z.to_nat n) 0 in
  if get_index f + n <? bufsz then memcpy dst 0 (buffer f) (get_index f) n
  else
    d ← memcpy dst 0 (buffer f) (get_index f) (bufsz - get_index f);
    memcpy d (bufsz - get_index f) (buffer f) 0 (n + get_index f - bufsz).

Definition fifo_dma_read (bufsz length : Z) : M rt_serial_rx_fifo (list Z) :=
  f ← gets id;
  let recved := _serial_fifo_calc_recved_len bufsz f in
  let n := if length <? recved then length else recved in
  data ← lift (fifo_copy bufsz n f);
  rt_dma_recv_update_get_index bufsz n;;
  mret data.

(** ** Completions *)
Record rt_completion := MkCompletion { completed : bool; suspended : bool }.
#[export] Instance rt_completion_eta : Eta rt_completion := fun c => MkCompletion (completed c) (suspended c).

Definition rt_completion_init : rt_completion := MkCompletion false false.

(** With RT_WAITING_FOREVER; whether the caller is suspended. *)
Definition rt_completion_wait : M rt_completion bool :=
  c ← gets id;
  if completed c then completed ::= false;; mret false
  else
    RT_ASSERT (negb (suspended c));;
    suspended ::= true;;
    mret true.

Definition rt_completion_wait_resumed : M rt_completion unit := completed ::= false.

(** Whether a thread is resumed. *)
Definition rt_completion_done : M rt_completion bool :=
  c ← gets id;
  if completed c then mret false
  else
    completed ::= true;;
    suspended ::= false;;
    mret (suspended c).

(** ** The device *)
Inductive serial_rx_data := RxFifo (f : rt_serial_rx_fifo) | RxDma (activated : bool).
Inductive serial_tx_data := TxFifo (c : rt_completion) | TxDma (activated : bool) (q : rt_data_queue (list Z)).

Record rt_serial_device (H : Type) := MkSerial {
  s_parent : rt_device;
  uart : H;
  config : serial_configure;
  serial_rx : option serial_rx_data;
  serial_tx : option serial_tx_data;
  mallocs : list bool;
  indications : list Z;
  completions : list (list Z)
}.
Arguments MkSerial {H}.
Arguments s_parent {H}.
Arguments uart {H}.
Arguments config {H}.
Arguments serial_rx {H}.
Arguments serial_tx {H}.
Arguments mallocs {H}.
Arguments indications {H}.
Arguments completions {H}.
#[export] Instance rt_serial_device_eta H : Eta (rt_serial_device H) := fun s =>
  MkSerial (s_parent s) (uart s) (config s) (serial_rx s) (serial_tx s) (mallocs s) (indications s) (completions s).

Section Serial.
Context {H : Type} `{!Uart H}.
Abbreviation D := (M (rt_serial_device H)).

Definition rt_malloc : D bool :=
  l ← gets mallocs;
  match l with
  | [] => mret true
  | ok :: l => mallocs ::= l;; mret ok
  end.

(** An access to the FIFO behind [serial_rx]. *)
Definition with_fifo {A} (m : M rt_serial_rx_fifo A) : D A :=
  rx ← gets serial_rx;
  match rx with
  | Some (RxFifo f) =>
      '(a, f) ← lift (m f);
      serial_rx ::= Some (RxFifo f);;
      mret a
  | Some (RxDma _) => lift (Fault FOutOfBounds)
  | None => lift (Fault FNull)
  end.

Definition with_completion {A} (m : M rt_completion A) : D A :=
  tx ← gets serial_tx;
  match tx with
  | Some (TxFifo c) =>
      '(a, c) ← lift (m c);
      serial_tx ::= Some (TxFifo c);;
      mret a
  | Some (TxDma _ _) => lift (Fault FOutOfBounds)
  | None => lift (Fault FNull)
  end.

Definition RT_ASSERT_rx : D unit := rx ← gets serial_rx; RT_ASSERT (bool_decide (is_Some rx)).
Definition RT_ASSERT_tx : D unit := tx ← gets serial_tx; RT_ASSERT (bool_decide (is_Some tx)).

Definition uart_getc : D Z := zoom uart getc.
Definition uart_putc (c : Z) : D Z := zoom uart (putc c).
Definition uart_control (cmd : Z) (arg : serial_arg) : D Z := zoom uart (control cmd arg).
Definition uart_configure (cfg : serial_configure) : D Z := zoom uart (configure cfg).

(** *** Polling *)
Fixpoint _serial_poll_rx (length : nat) : D (list Z) :=
  match length with
  | O => mret []
  | Datatypes.S length =>
      ch ← uart_getc;
      if ch =? -1 then mret []
      else if ch =? 10 then mret [u8 ch]
      else rest ← _serial_poll_rx length; mret (u8 ch :: rest)
  end.

Fixpoint poll_tx (data : list Z) : D unit :=
  match data with
  | [] => skip
  | c :: data =>
      d ← gets s_parent;
      (when (c =? 10) && has (open_flag d) RT_DEVICE_FLAG_STREAM do (uart_putc 13;; skip));;
      uart_putc c;;
      poll_tx data
  end.

Definition _serial_poll_tx (data : list Z) : D written :=
  poll_tx data;;
  mret (Written (Z.of_nat (length data))).

(** *** Interrupts *)
Fixpoint int_rx (length : nat) : D (list Z) :=
  match length with
  | O => mret []
  | Datatypes.S length =>
      cfg ← gets config;
      ch ← with_fifo (fifo_get (bufsz cfg));
      match ch with
      | None => mret []
      | Some c => rest ← int_rx length; mret (c :: rest)
      end
  end.

Definition _serial_int_rx (length : nat) : D (list Z) := RT_ASSERT_rx;; int_rx length.

(** Sending one byte; [false]: the thread waits for the completion.  A completion left
    over from before lets the loop try again once. *)
Fixpoint int_tx_byte (tries : nat) (c : Z) : D bool :=
  match tries with
  | O => lift Blocked
  | Datatypes.S tries =>
      r ← uart_putc c;
      if r =? -1 then
        waits ← with_completion rt_completion_wait;
        if (waits : bool) then mret false else int_tx_byte tries c
      else mret true
  end.

Fixpoint int_tx (data : list Z) : D (list Z) :=
  match data with
  | [] => mret []
  | c :: rest =>
      done ← int_tx_byte 2 c;
      if (done : bool) then int_tx rest else mret data
  end.

(** [size]: the length of the whole block, of which [data] is left. *)
Definition int_tx_from (size : Z) (data : list Z) : D written :=
  rest ← int_tx data;
  mret (match rest with [] => Written size | _ => TxWaits rest end).

Definition _serial_int_tx (data : list Z) : D written := RT_ASSERT_tx;; int_tx_from (Z.of_nat (length data)) data.

Definition _serial_int_tx_resumed (size : Z) (data : list Z) : D written :=
  with_completion rt_completion_wait_resumed;;
  int_tx_from size data.

(** *** DMA *)
Definition dma (data : list Z) (length direction : Z) : D unit :=
  match dma_transmit with
  | Some transmit => zoom uart (transmit data length direction)
  | None => lift (Fault FNull)
  end.

(** The returned size and the bytes stored so far. *)
Definition _serial_dma_rx (length : Z) : D (Z * list Z) :=
  cfg ← gets config;
  if bufsz cfg =? 0 then
    RT_ASSERT_rx;;
    rx ← gets serial_rx;
    match rx with
    | Some (RxDma true) => mret (0, [])
    | Some (RxDma false) =>
        serial_rx ::= Some (RxDma true);;
        RT_ASSERT (match dma_transmit (H := H) with Some _ => true | None => false end);;
        dma [] length RT_SERIAL_DMA_RX;;
        mret (length, [])
    | _ => lift (Fault FOutOfBounds)
    end
  else
    RT_ASSERT_rx;;
    data ← with_fifo (fifo_dma_read (bufsz cfg) length);
    mret (Z.of_nat (List.length data), data).

(** After the block has been pushed. *)
Definition dma_tx_pushed (data : list Z) (w : ipc_wait) : D written :=
  tx ← gets serial_tx;
  match w, tx with
  | IpcSuspend _, _ => mret (TxWaits data)
  | IpcReturn err, Some (TxDma activated q) =>
      if negb (err =? RT_EOK) then mret (Written 0) else
      (when negb activated do (
         serial_tx ::= Some (TxDma true q);;
         dma data (Z.of_nat (length data)) RT_SERIAL_DMA_TX));;
      mret (Written (Z.of_nat (length data)))
  | IpcReturn _, _ => lift (Fault FOutOfBounds)
  end.

Definition with_queue {A} (m : M (rt_data_queue (list Z)) A) : D A :=
  tx ← gets serial_tx;
  match tx with
  | Some (TxDma activated q) =>
      '(a, q) ← lift (m q);
      serial_tx ::= Some (TxDma activated q);;
      mret a
  | Some (TxFifo _) => lift (Fault FOutOfBounds)
  | None => lift (Fault FNull)
  end.

Definition _serial_dma_tx (self : rt_thread) (data : list Z) : D written :=
  '(w, _) ← with_queue (rt_data_queue_push self data (Z.of_nat (length data)) RT_WAITING_FOREVER);
  dma_tx_pushed data w.

Definition _serial_dma_tx_resumed (self : rt_thread) (data : list Z) : D written :=
  '(w, _) ← with_queue (rt_data_queue_push_resumed self data (Z.of_nat (length data)) RT_WAITING_FOREVER);
  dma_tx_pushed data w.
(** *** The device interface *)
Definition rt_serial_init : D Z :=
  serial_rx ::= None;;
  serial_tx ::= None;;
  cfg ← gets config;
  uart_configure cfg.

Definition or_open (bits : Z) : D unit := zoom s_parent (d ← gets id; open_flag ::= Z.lor (open_flag d) bits).
Definition clear_open (bits : Z) : D unit := zoom s_parent (d ← gets id; open_flag ::= Z.land (open_flag d) (Z.lnot bits)).

(** The receive and the transmit half of [rt_serial_open]. *)
Definition serial_open_rx (oflag : Z) : D unit :=
  rx ← gets serial_rx;
  match rx with
  | None =>
      cfg ← gets config;
      if has oflag RT_DEVICE_FLAG_INT_RX then
        ok ← rt_malloc;
        RT_ASSERT ok;;
        serial_rx ::= Some (RxFifo (fifo_init (bufsz cfg)));;
        or_open RT_DEVICE_FLAG_INT_RX;;
        uart_control RT_DEVICE_CTRL_SET_INT (ArgWord RT_DEVICE_FLAG_INT_RX);;
        skip
      else if has oflag RT_DEVICE_FLAG_DMA_RX then
        (if bufsz cfg =? 0 then
           ok ← rt_malloc;
           RT_ASSERT ok;;
           serial_rx ::= Some (RxDma false)
         else
           ok ← rt_malloc;
           RT_ASSERT ok;;
           serial_rx ::= Some (RxFifo (fifo_init (bufsz cfg)));;
           uart_control RT_DEVICE_CTRL_CONFIG (ArgWord RT_DEVICE_FLAG_DMA_RX);;
           skip);;
        or_open RT_DEVICE_FLAG_DMA_RX
      else serial_rx ::= None
  | Some _ =>
      if has oflag RT_DEVICE_FLAG_INT_RX then or_open RT_DEVICE_FLAG_INT_RX
      else when has oflag RT_DEVICE_FLAG_DMA_RX do or_open RT_DEVICE_FLAG_DMA_RX
  end.

Definition serial_open_tx (oflag : Z) : D unit :=
  tx ← gets serial_tx;
  match tx with
  | None =>
      if has oflag RT_DEVICE_FLAG_INT_TX then
        ok ← rt_malloc;
        RT_ASSERT ok;;
        serial_tx ::= Some (TxFifo rt_completion_init);;
        or_open RT_DEVICE_FLAG_INT_TX;;
        uart_control RT_DEVICE_CTRL_SET_INT (ArgWord RT_DEVICE_FLAG_INT_TX);;
        skip
      else if has oflag RT_DEVICE_FLAG_DMA_TX then
        ok ← rt_malloc;
        RT_ASSERT ok;;
        alloc ← rt_malloc;
        let '(_, q) := rt_data_queue_init 8 4 false alloc in
        serial_tx ::= Some (TxDma false q);;
        or_open RT_DEVICE_FLAG_DMA_TX
      else serial_tx ::= None
  | Some _ =>
      if has oflag RT_DEVICE_FLAG_INT_TX then or_open RT_DEVICE_FLAG_INT_TX
      else when has oflag RT_DEVICE_FLAG_DMA_TX do or_open RT_DEVICE_FLAG_DMA_TX
  end.

(** A mode the device was not registered with. *)
Definition refused (flags oflag : Z) : bool :=
  existsb (fun bit => has oflag bit && negb (has flags bit))
    [RT_DEVICE_FLAG_DMA_RX; RT_DEVICE_FLAG_DMA_TX; RT_DEVICE_FLAG_INT_RX; RT_DEVICE_FLAG_INT_TX].

Definition rt_serial_open (oflag : Z) : D Z :=
  d ← gets s_parent;
  if refused (flag d) oflag then mret (- RT_EIO) else
  let stream_flag :=
    if has oflag RT_DEVICE_FLAG_STREAM || has (open_flag d) RT_DEVICE_FLAG_STREAM then RT_DEVICE_FLAG_STREAM else 0 in
  zoom s_parent (open_flag ::= Z.land oflag 0xff);;
  serial_open_rx oflag;;
  serial_open_tx oflag;;
  or_open stream_flag;;
  mret RT_EOK.

Definition rt_serial_close : D Z :=
  d ← gets s_parent;
  if 1 <? ref_count d then mret RT_EOK else
  (if has (open_flag d) RT_DEVICE_FLAG_INT_RX then
     RT_ASSERT_rx;;
     serial_rx ::= None;;
     clear_open RT_DEVICE_FLAG_INT_RX;;
     uart_control RT_DEVICE_CTRL_CLR_INT (ArgWord RT_DEVICE_FLAG_INT_RX);;
     skip
   else when has (open_flag d) RT_DEVICE_FLAG_DMA_RX do (
     RT_ASSERT_rx;;
     uart_control RT_DEVICE_CTRL_CLR_INT (ArgWord RT_DEVICE_FLAG_DMA_RX);;
     serial_rx ::= None;;
     clear_open RT_DEVICE_FLAG_DMA_RX));;
  d ← gets s_parent;
  (if has (open_flag d) RT_DEVICE_FLAG_INT_TX then
     RT_ASSERT_tx;;
     serial_tx ::= None;;
     clear_open RT_DEVICE_FLAG_INT_TX;;
     uart_control RT_DEVICE_CTRL_CLR_INT (ArgWord RT_DEVICE_FLAG_INT_TX);;
     skip
   else when has (open_flag d) RT_DEVICE_FLAG_DMA_TX do (
     RT_ASSERT_tx;;
     serial_tx ::= None;;
     clear_open RT_DEVICE_FLAG_DMA_TX));;
  mret RT_EOK.

Definition rt_serial_read (pos size : Z) : D (Z * list Z) :=
  if size =? 0 then mret (0, []) else
  d ← gets s_parent;
  if has (open_flag d) RT_DEVICE_FLAG_INT_RX then
    data ← _serial_int_rx (Z.to_nat size); mret (Z.of_nat (length data), data)
  else if has (open_flag d) RT_DEVICE_FLAG_DMA_RX then _serial_dma_rx size
  else data ← _serial_poll_rx (Z.to_nat size); mret (Z.of_nat (length data), data).

Definition rt_serial_write (self : rt_thread) (pos : Z) (data : list Z) : D written :=
  match data with
  | [] => mret (Written 0)
  | _ =>
      d ← gets s_parent;
      if has (open_flag d) RT_DEVICE_FLAG_INT_TX then _serial_int_tx data
      else if has (open_flag d) RT_DEVICE_FLAG_DMA_TX then _serial_dma_tx self data
      else _serial_poll_tx data
  end.

Definition rt_serial_control (cmd : Z) (args : serial_arg) : D Z :=
  d ← gets s_parent;
  if cmd =? RT_DEVICE_CTRL_SUSPEND then zoom s_parent (flag ::= Z.lor (flag d) RT_DEVICE_FLAG_SUSPENDED);; mret RT_EOK
  else if cmd =? RT_DEVICE_CTRL_RESUME then zoom s_parent (flag ::= Z.land (flag d) (Z.lnot RT_DEVICE_FLAG_SUSPENDED));; mret RT_EOK
  else if cmd =? RT_DEVICE_CTRL_CONFIG then
    match args with
    | ArgWord w => if w =? 0 then mret RT_EOK else lift (Fault FOutOfBounds)
    | ArgConfig new =>
        cfg ← gets config;
        if negb (bufsz new =? bufsz cfg) && negb (ref_count d =? 0) then mret RT_EBUSY else
        config ::= new;;
        (when negb (ref_count d =? 0) do (uart_configure new;; skip));;
        mret RT_EOK
    end
  else uart_control cmd args.

(** *** The interrupt service routine *)

(** The loop over the received characters; [fuel] bounds the calls of [getc]. *)
Fixpoint rx_loop (fuel : nat) : D unit :=
  match fuel with
  | O => lift Blocked
  | Datatypes.S fuel =>
      ch ← uart_getc;
      if ch =? -1 then skip else
      cfg ← gets config;
      with_fifo (fifo_put (bufsz cfg) ch);;
      rx_loop fuel
  end.

Definition indicate (n : Z) : D unit := l ← gets indications; indications ::= l ++ [n].

Definition isr_rx_ind (fuel : nat) : D unit :=
  RT_ASSERT_rx;;
  rx_loop fuel;;
  d ← gets s_parent;
  when rx_indicate d do (
    cfg ← gets config;
    f ← with_fifo (gets id);
    let rx_length := if get_index f <=? put_index f then put_index f - get_index f
                     else bufsz cfg - (get_index f - put_index f) in
    when negb (rx_length =? 0) do indicate rx_length).

Definition isr_tx_dmadone (self : rt_thread) : D unit :=
  '(_, last, _) ← with_queue (rt_data_queue_pop self 0);
  '(err, next) ← with_queue rt_data_queue_peak;
  tx ← gets serial_tx;
  (match tx with
   | Some (TxDma _ q) =>
       if err =? RT_EOK then
         '(data, size) ← lift (match next with Some item => Ok item | None => Fault FUninit end);
         serial_tx ::= Some (TxDma true q);;
         dma data size RT_SERIAL_DMA_TX
       else serial_tx ::= Some (TxDma false q)
   | _ => lift (Fault FOutOfBounds)
   end);;
  d ← gets s_parent;
  when tx_complete d do (
    match last with
    | Some (data, _) => l ← gets completions; completions ::= l ++ [data]
    | None => lift (Fault FUninit)
    end).

Definition isr_rx_dmadone (length : Z) : D unit :=
  cfg ← gets config;
  d ← gets s_parent;
  if bufsz cfg =? 0 then
    RT_ASSERT_rx;;
    RT_ASSERT (rx_indicate d);;
    indicate length;;
    rx ← gets serial_rx;
    match rx with
    | Some (RxDma _) => serial_rx ::= Some (RxDma false)
    | _ => lift (Fault FOutOfBounds)
    end
  else
    RT_ASSERT_rx;;
    with_fifo (rt_dma_recv_update_put_index (bufsz cfg) length);;
    f ← with_fifo (gets id);
    when rx_indicate d do indicate (_serial_fifo_calc_recved_len (bufsz cfg) f).

Definition rt_hw_serial_isr (fuel : nat) (self : rt_thread) (event : Z) : D unit :=
  let e := Z.land event 0xff in
  if e =? RT_SERIAL_EVENT_RX_IND then isr_rx_ind fuel
  else if e =? RT_SERIAL_EVENT_TX_DONE then
    RT_ASSERT_tx;; with_completion rt_completion_done;; skip
  else if e =? RT_SERIAL_EVENT_TX_DMADONE then isr_tx_dmadone self
  else when e =? RT_SERIAL_EVENT_RX_DMADONE do isr_rx_dmadone (Z.land event (Z.lnot 0xff) ≫ 8).
End Serial.

(** The functions that [rt_hw_serial_register] installs; [self] is the calling thread. *)
Definition serial_driver {H : Type} `{!Uart H} (self : rt_thread) : DeviceDriver (rt_serial_device H) := {|
  parent := s_parent;
  parent_setter := _;
  parent_upd := fun _ _ => eq_refl;
  device_arg := serial_arg;
  device_init := Some rt_serial_init;
  device_open := Some rt_serial_open;
  device_close := Some rt_serial_close;
  device_read := Some rt_serial_read;
  device_write := Some (rt_serial_write self);
  device_control := Some rt_serial_control
|}.

(** The device structure that [rt_hw_serial_register] fills in before it registers it. *)
Definition rt_hw_serial_register (a : Z) (n : list Z) (flags : Z) : M objects (Z * option rt_device) :=
  rt_device_register (Some (a, MkDevice false 0 0 0 false false)) n flags.

(** ** The FIFO as a queue of the last bytes *)
Section Fifo.
Context (n : Z) (Hn : 2 <= n < 65536).
Implicit Types (f : rt_serial_rx_fifo) (q : list Z).

Record fifo_holds q f : Prop := {
  fh_buffer : Z.of_nat (length (buffer f)) = n;
  fh_get : 0 <= get_index f < n;
  fh_put : put_index f = (get_index f + Z.of_nat (length q)) mod n;
  fh_room : Z.of_nat (length q) < n;
  fh_full : is_full f = true -> q <> [];
  fh_data : cyc (buffer f) n (get_index f) (Z.of_nat (length q)) = q
}.

(** What is kept when a byte arrives. *)
Definition fifo_push (c : Z) q : list Z := if Z.of_nat (length q) <? n - 1 then q ++ [c] else tail q ++ [c].

Lemma fifo_init_holds : fifo_holds [] (fifo_init n).
Proof. split; cbn; rewrite ?length_replicate; try lia; done. Qed.

Lemma wrapped_mod i : 0 <= i < n -> wrapped n i = (i + 1) mod n.
Proof.
  intros Hi. unfold wrapped. rewrite u16_small by lia. rewrite mod_wrap by lia.
  destruct (Z.leb_spec n (i + 1)); case_decide; lia.
Qed.

Lemma fifo_not_empty q f : fifo_holds q f -> q <> [] -> (get_index f =? put_index f) = false.
Proof.
  intros [Hb Hg Hp Hr _ _] Hq. apply Z.eqb_neq. rewrite Hp. destruct q; [done|]. cbn [length] in *.
  rewrite mod_wrap by lia. case_decide; lia.
Qed.

Lemma fifo_get_ok q f : fifo_holds q f -> is_bytes q ->
  exists f', fifo_get n f = Ok (head q, f') /\ fifo_holds (tail q) f'.
Proof.
  intros H Hq. unfold fifo_get. c_run. unfold id. destruct q as [|c q].
  - exists f. split; [|done]. destruct H as [_ Hg Hp _ Hf _]. cbn in Hp. rewrite Z.add_0_r, Z.mod_small in Hp by lia.
    rewrite Hp, Z.eqb_refl. destruct (is_full f); [by specialize (Hf eq_refl)|done].
  - rewrite (fifo_not_empty (c :: q) f H) by done. cbn [andb]. destruct H as [Hb Hg Hp Hr Hf Hd]. cbn [length] in *.
    destruct (cyc_cons (buffer f) n (get_index f) (Z.of_nat (S (length q)))) as (x & E & Ec); [lia..|].
    rewrite Hd in Ec. injection Ec as -> Ec. rewrite E. c_run. rewrite wrapped_mod by lia.
    apply Forall_cons in Hq as [Hc Hq]. change 0xff with (Z.ones 8). rewrite Z.land_ones, Z.mod_small by (unfold is_byte in Hc; lia).
    eexists. split; [done|]. pose proof (Z.mod_pos_bound (get_index f + 1) n ltac:(lia)).
    split; cbn; try lia; try done.
    + rewrite Hp, Zplus_mod_idemp_l. f_equal. lia.
    + rewrite Ec at 2. f_equal. lia.
Qed.

Lemma fifo_put_ok q f c : fifo_holds q f ->
  exists f', fifo_put n c f = Ok (tt, f') /\ fifo_holds (fifo_push (u8 c) q) f'.
Proof.
  intros [Hb Hg Hp Hr Hf Hd]. unfold fifo_put, fifo_push. c_run. unfold id.
  pose proof (Z.mod_pos_bound (get_index f + Z.of_nat (length q)) n ltac:(lia)) as Hm. rewrite zset_ok by lia. c_run.
  assert (wrapped n (put_index f) = (get_index f + Z.of_nat (length q) + 1) mod n) as ->.
  { rewrite wrapped_mod by lia. by rewrite Hp, Zplus_mod_idemp_l. }
  rewrite (wrapped_mod (get_index f)) by lia.
  pose proof (cyc_snoc (buffer f) n (get_index f) (Z.of_nat (length q)) (u8 c) ltac:(lia) ltac:(lia) ltac:(lia)) as Hc. rewrite Hd, <- Hp in Hc.
  destruct (Z.ltb_spec (Z.of_nat (length q)) (n - 1)).
  - rewrite (proj2 (Z.eqb_neq _ _)) by (rewrite mod_wrap by lia; case_decide; lia). eexists. split; [done|].
    split; cbn; rewrite ?length_insert, ?length_app; cbn; try lia.
    + f_equal. lia.
    + intros _. by destruct q.
    + rewrite <- Hc. f_equal. lia.
  - assert ((get_index f + Z.of_nat (length q) + 1) mod n = get_index f) as ->.
    { replace (get_index f + Z.of_nat (length q) + 1) with (get_index f + 1 * n) by lia. by rewrite Z_mod_plus_full, Z.mod_small. }
    rewrite Z.eqb_refl. c_run. eexists. split; [done|]. pose proof (Z.mod_pos_bound (get_index f + 1) n ltac:(lia)).
    destruct q as [|x q]; [cbn in *; lia|]. cbn [tail length] in *.
    split; cbn; rewrite ?length_insert, ?length_app; cbn; try lia.
    + rewrite Zplus_mod_idemp_l. replace (get_index f + 1 + Z.of_nat (length q + 1)) with (get_index f + 1 * n) by lia.
      by rewrite Z_mod_plus_full, Z.mod_small.
    + intros _. by destruct q.
    + pose proof (cyc_drop (<[Z.to_nat (put_index f):=u8 c]> (buffer f)) n (get_index f) (Z.of_nat (S (length q)) + 1) 1) as Hdr.
      rewrite Hc in Hdr. change (drop (Z.to_nat 1) ((x :: q) ++ [u8 c])) with (q ++ [u8 c]) in Hdr.
      rewrite <- Hdr by (rewrite ?length_insert; lia). f_equal. lia.
Qed.
Lemma fifo_length_ok q f : fifo_holds q f ->
  (if get_index f <=? put_index f then put_index f - get_index f else n - (get_index f - put_index f)) = Z.of_nat (length q).
Proof.
  intros [Hb Hg Hp Hr _ _]. rewrite Hp, mod_wrap by lia. case_decide.
  - rewrite (proj2 (Z.leb_le _ _)) by lia. lia.
  - rewrite (proj2 (Z.leb_gt _ _)) by lia. lia.
Qed.

Lemma fifo_push_bytes c q : is_byte c -> is_bytes q -> is_bytes (fifo_push c q).
Proof.
  intros Hc Hq. unfold fifo_push. destruct (_ <? _); apply Forall_app; (split; [|by apply Forall_singleton]); [done|].
  destruct q; [done|]. by inversion Hq.
Qed.

(** Reading through the device. *)
Context {H : Type} `{!Uart H}.
Implicit Types (s : rt_serial_device H).

Lemma run_with_fifo {A} (m : M rt_serial_rx_fifo A) f f' a s : serial_rx s = Some (RxFifo f) -> m f = Ok (a, f') ->
  with_fifo m s = Ok (a, s <| serial_rx := Some (RxFifo f') |>).
Proof. intros Hs Hm. unfold with_fifo. c_run. rewrite Hs. c_run. rewrite Hm. c_run. done. Qed.

Lemma int_rx_ok k : forall q f s, serial_rx s = Some (RxFifo f) -> bufsz (config s) = n -> fifo_holds q f -> is_bytes q ->
  exists f', int_rx k s = Ok (take k q, s <| serial_rx := Some (RxFifo f') |>) /\ fifo_holds (drop k q) f'.
Proof.
  induction k as [|k IH]; intros q f s Hs Hc Hf Hq; cbn [int_rx].
  - exists f. split; [|done]. destruct s. cbn in *. by rewrite Hs.
  - rewrite run_bind_gets, Hc. destruct (fifo_get_ok q f Hf Hq) as (f1 & E1 & Hf1).
    erewrite run_bind_ok by (by apply (run_with_fifo _ f)). destruct q as [|c q]; cbn [head tail] in *.
    + exists f1. by rewrite take_nil, drop_nil.
    + destruct (IH q f1 (s <| serial_rx := Some (RxFifo f1) |>)) as (f2 & E2 & Hf2); [done|done|done|by inversion Hq|].
      erewrite run_bind_ok by exact E2. by exists f2.
Qed.
End Fifo.
