(* ===== verification/SerialDma.v ===== *)
(** * DMA reception of a serial device (src/drivers/serial/serial.c)

    The FIFO that the DMA controller fills: [dma_store] is the controller, which lays the
    received bytes around the FIFO from the put index on, and [dma_in] the transfer with
    the service routine's update behind it.  The FIFO keeps the last [bufsz] bytes.  The
    board's UART driver does not offer DMA (Uart.v). *)
From S2P Require Import Prelude Cyclic Ipc DataQueue Object Device Serial.

Fixpoint dma_store (n p : Z) (data b : list Z) : outcome (list Z) :=
  match data with
  | [] => Ok b
  | c :: data => b ← zset b (p mod n) c; dma_store n (p + 1) data b
  end.

Definition dma_in (n : Z) (data : list Z) : M rt_serial_rx_fifo unit :=
  f ← gets id;
  b ← lift (dma_store n (put_index f) data (buffer f));
  buffer ::= b;;
  rt_dma_recv_update_put_index n (Z.of_nat (length data)).

(** Transfers and reads; a reply is what a read returned. *)
Inductive dma_event := DmaIn (data : list Z) | DmaRead (size : Z).

Definition dma_run (n : Z) (ev : dma_event) : M rt_serial_rx_fifo (list Z) :=
  match ev with
  | DmaIn data => dma_in n data;; mret []
  | DmaRead size => fifo_dma_read n size
  end.

Fixpoint dma_runs (n : Z) (evs : list dma_event) : M rt_serial_rx_fifo (list (list Z)) :=
  match evs with
  | [] => mret []
  | ev :: evs => r ← dma_run n ev; rs ← dma_runs n evs; mret (r :: rs)
  end.

(** The last [n] bytes of a list, and the queue that keeps them. *)
Definition last_bytes (n : Z) (l : list Z) : list Z := drop (length l - Z.to_nat n) l.

Definition dma_spec (n : Z) (ev : dma_event) (q : list Z) : list Z * list Z :=
  match ev with
  | DmaIn data => ([], last_bytes n (q ++ data))
  | DmaRead size => (take (Z.to_nat size) q, drop (Z.to_nat size) q)
  end.

Fixpoint dma_specs (n : Z) (evs : list dma_event) (q : list Z) : list (list Z) * list Z :=
  match evs with
  | [] => ([], q)
  | ev :: evs =>
      let '(r, q) := dma_spec n ev q in
      let '(rs, q) := dma_specs n evs q in
      (r :: rs, q)
  end.

Definition dma_event_ok (n : Z) (ev : dma_event) : Prop :=
  match ev with DmaIn data => Z.of_nat (length data) <= n | DmaRead size => 0 <= size end.

Section DmaFifo.
Context (n : Z) (Hn : 1 <= n <= 32768).
Implicit Types (f : rt_serial_rx_fifo) (q data : list Z).

Record dma_holds q f : Prop := {
  dm_buffer : Z.of_nat (length (buffer f)) = n;
  dm_get : 0 <= get_index f < n;
  dm_put : put_index f = (get_index f + Z.of_nat (length q)) mod n;
  dm_room : Z.of_nat (length q) <= n;
  dm_full : is_full f = (Z.of_nat (length q) =? n);
  dm_data : cyc (buffer f) n (get_index f) (Z.of_nat (length q)) = q
}.

Lemma dma_init_holds : dma_holds [] (fifo_init n).
Proof. split; cbn; rewrite ?length_replicate; try lia; try done. symmetry. apply Z.eqb_neq. lia. Qed.

Lemma step_mod (j p : Z) : 0 <= j < n ->
  ((j - p) mod n = 0 -> (j - (p + 1)) mod n = n - 1 /\ j = p mod n) /\
  ((j - p) mod n <> 0 -> (j - (p + 1)) mod n = (j - p) mod n - 1 /\ j <> p mod n).
Proof.
  intros Hj. pose proof (Z.mod_pos_bound p n ltac:(lia)) as Hp.
  assert ((j - p) mod n = (j - p mod n) mod n) as -> by (by rewrite Zminus_mod_idemp_r).
  assert ((j - (p + 1)) mod n = (j - p mod n - 1) mod n) as ->.
  { replace (j - (p + 1)) with (j - 1 - p) by lia. rewrite <- Zminus_mod_idemp_r. f_equal. lia. }
  destruct (decide (j = p mod n)) as [->|Hne].
  - rewrite Z.sub_diag, Z.mod_0_l by lia. split; [|done]. intros _. rewrite mod_wrap_neg by lia. lia.
  - destruct (decide (p mod n < j)).
    + rewrite (Z.mod_small (j - p mod n)), (Z.mod_small (j - p mod n - 1)) by lia. split; lia.
    + rewrite (mod_wrap_neg n (j - p mod n)), (mod_wrap_neg n (j - p mod n - 1)) by lia. split; lia.
Qed.

Lemma dma_store_ok data : forall p b, Z.of_nat (length b) = n -> Z.of_nat (length data) <= n ->
  exists b', dma_store n p data b = Ok b' /\ length b' = length b /\
    forall j : nat, Z.of_nat j < n ->
      b' !! j = if decide ((Z.of_nat j - p) mod n < Z.of_nat (length data)) then data !! Z.to_nat ((Z.of_nat j - p) mod n) else b !! j.
Proof.
  induction data as [|c data IH]; intros p b Hb Hd; cbn [dma_store length] in *.
  - exists b. split; [done|]. split; [done|]. intros j Hj. pose proof (Z.mod_pos_bound (Z.of_nat j - p) n ltac:(lia)). by rewrite decide_False by lia.
  - pose proof (Z.mod_pos_bound p n ltac:(lia)) as Hp. rewrite zset_ok by lia. cbn [mbind outcome_bind].
    destruct (IH (p + 1) (<[Z.to_nat (p mod n) := c]> b)) as (b' & E & Hl & Hi); [by rewrite length_insert|lia|].
    exists b'. split; [done|]. rewrite length_insert in Hl. split; [done|]. intros j Hj. rewrite (Hi j Hj).
    pose proof (Z.mod_pos_bound (Z.of_nat j - p) n ltac:(lia)) as Hx.
    destruct (step_mod (Z.of_nat j) p ltac:(lia)) as [H0 H1]. destruct (decide ((Z.of_nat j - p) mod n = 0)) as [Ez|Ez].
    + destruct (H0 Ez) as [-> Hj']. rewrite Ez, decide_False, decide_True by lia. rewrite <- Hj', Nat2Z.id. cbn.
      apply list_lookup_insert_eq. lia.
    + destruct (H1 Ez) as [-> Hj']. repeat case_decide; try lia.
      * replace (Z.to_nat ((Z.of_nat j - p) mod n)) with (S (Z.to_nat ((Z.of_nat j - p) mod n - 1))) by lia. done.
      * apply list_lookup_insert_ne. lia.
Qed.
Lemma last_bytes_length l : length (last_bytes n l) = Nat.min (length l) (Z.to_nat n).
Proof. unfold last_bytes. rewrite length_drop. lia. Qed.

(** What the update does to the indices. *)
Lemma update_put_ok q f b k : dma_holds q f -> 0 <= k <= n ->
  let m := Z.of_nat (length q) + k in
  let ex := Z.max 0 (m - n) in
  rt_dma_recv_update_put_index n k (f <| buffer := b |>) =
    Ok (tt, MkFifo b ((put_index f + k) mod n) ((get_index f + ex) mod n) (m - ex =? n)).
Proof.
  intros [Hb Hg Hp Hr Hf _] Hk m ex. destruct f as [buf put get full]. cbn [buffer put_index get_index is_full] in *.
  assert (0 <= put < n) as Hput by (rewrite Hp; apply Z.mod_pos_bound; lia).
  pose proof Hp as Hp'. rewrite mod_wrap in Hp' by lia.
  unfold rt_dma_recv_update_put_index. c_run. unfold id. cbn [put_index get_index is_full upd]. rewrite u16_small by lia.
  erewrite (run_bind_ok _ _ _ tt (MkFifo b ((put + k) mod n) get (n <=? m))).
  2: { rewrite mod_wrap by lia. subst full. case_decide; repeat case_decide;
       destruct (Z.leb_spec get put); destruct (Z.leb_spec n (put + k)); try lia;
       rewrite ?(mod_wrap n (put + k)) by lia; rewrite ?decide_False by lia;
       try destruct (Z.leb_spec get (put + k)); try lia;
       try destruct (Z.leb_spec get (put + k - n)); try lia;
       destruct (Z.leb_spec n m); try lia; try done;
       (destruct (Z.eqb_spec (Z.of_nat (length q)) n); try lia; done). }
  c_run. unfold id. destruct (Z.leb_spec n m).
  - cbn [is_full]. c_run. cbn [get_index put_index upd]. pose proof (Z.mod_pos_bound (put + k) n ltac:(lia)). rewrite (proj2 (Z.leb_gt _ _)) by lia.
    unfold skip. rewrite run_ret. do 2 f_equal.
    assert ((get + ex) mod n = (put + k) mod n) as ->.
    { rewrite Hp, Zplus_mod_idemp_l. replace (get + Z.of_nat (length q) + k) with (get + ex + 1 * n) by lia. by rewrite Z_mod_plus_full. }
    by rewrite (proj2 (Z.eqb_eq (m - ex) n)) by lia.
  - cbn [is_full]. c_run. cbn [get_index put_index upd]. rewrite (proj2 (Z.leb_gt _ _)) by lia. unfold skip. rewrite run_ret. do 2 f_equal.
    rewrite (Z.mod_small (get + ex)) by lia. rewrite (proj2 (Z.eqb_neq (m - ex) n)) by lia. f_equal. lia.
Qed.

Lemma dma_in_ok q f data : dma_holds q f -> Z.of_nat (length data) <= n ->
  exists f', dma_in n data f = Ok (tt, f') /\ dma_holds (last_bytes n (q ++ data)) f'.
Proof.
  intros H Hd. destruct (dma_store_ok data (put_index f) (buffer f) (dm_buffer _ _ H) Hd) as (b' & E & Hl & Hi).
  unfold dma_in. c_run. unfold id. rewrite E. c_run. rewrite (update_put_ok q f b' _ H) by lia.
  eexists. split; [done|]. destruct H as [Hb Hg Hp Hr Hf Hc]. set (ex := Z.max 0 _).
  assert (Z.of_nat (length (last_bytes n (q ++ data))) = Z.of_nat (length q) + Z.of_nat (length data) - ex) as Hlen.
  { rewrite last_bytes_length, length_app. lia. }
  split; cbn [buffer put_index get_index is_full]; rewrite ?Hlen; try lia.
  - apply Z.mod_pos_bound. lia.
  - rewrite Hp, !Zplus_mod_idemp_l. f_equal. lia.
  - pose proof (cyc_write (buffer f) b' data n (get_index f) (Z.of_nat (length q)) (Z.of_nat (length data))
      ltac:(lia) ltac:(lia) ltac:(lia) ltac:(lia) ltac:(lia) ltac:(lia)) as Hw. cbn zeta in Hw. fold ex in Hw.
    rewrite Hw; clear Hw.
    + rewrite Hc, Nat2Z.id, firstn_all. unfold last_bytes. f_equal. rewrite length_app. lia.
    + intros j Hj. rewrite (Hi j Hj), Hp. by rewrite Zminus_mod_idemp_r.
Qed.

Lemma recved_ok q f : dma_holds q f -> _serial_fifo_calc_recved_len n f = Z.of_nat (length q).
Proof.
  intros [Hb Hg Hp Hr Hf _]. unfold _serial_fifo_calc_recved_len. rewrite Hf. rewrite mod_wrap in Hp by lia.
  destruct (Z.eqb_spec (put_index f) (get_index f)); destruct (Z.eqb_spec (Z.of_nat (length q)) n); try (case_decide; lia).
  all: destruct (Z.ltb_spec (get_index f) (put_index f)); case_decide; lia.
Qed.

Lemma fifo_copy_ok q f k : dma_holds q f -> 0 <= k <= Z.of_nat (length q) -> fifo_copy n k f = Ok (take (Z.to_nat k) q).
Proof.
  intros [Hb Hg Hp Hr Hf Hc] Hk. rewrite <- Hc, <- (cyc_take _ _ _ _ k) by lia. unfold fifo_copy.
  destruct (Z.ltb_spec (get_index f + k) n).
  - destruct (memcpy_total (replicate (Z.to_nat k) 0) 0 (buffer f) (get_index f) k) as [d Ed]; rewrite ?length_replicate; try lia.
    rewrite Ed. f_equal. rewrite (cyc_prefix (buffer f) n (get_index f) k (replicate (Z.to_nat k) 0) d); try lia.
    + rewrite drop_ge by (rewrite length_replicate; lia). apply app_nil_r.
    + intros i. rewrite (memcpy_lookup _ _ _ _ _ _ i Ed). repeat case_decide; try lia; [|done].
      rewrite Z.mod_small by lia. f_equal. lia.
  - destruct (memcpy_total (replicate (Z.to_nat k) 0) 0 (buffer f) (get_index f) (n - get_index f)) as [d Ed]; rewrite ?length_replicate; try lia.
    pose proof (memcpy_length _ _ _ _ _ _ Ed) as Hl. rewrite length_replicate in Hl. rewrite Ed. cbn [mbind outcome_bind].
    destruct (memcpy_total d (n - get_index f) (buffer f) 0 (k + get_index f - n)) as [d2 Ed2]; try lia.
    rewrite Ed2. f_equal. rewrite (cyc_prefix (buffer f) n (get_index f) k (replicate (Z.to_nat k) 0) d2); try lia.
    + rewrite drop_ge by (rewrite length_replicate; lia). apply app_nil_r.
    + intros i. rewrite (memcpy_lookup _ _ _ _ _ _ i Ed2), (memcpy_lookup _ _ _ _ _ _ i Ed).
      repeat case_decide; try lia; try done.
      * rewrite mod_wrap, decide_False by lia. f_equal. lia.
      * rewrite Z.mod_small by lia. f_equal. lia.
Qed.

Lemma dma_read_ok q f size : dma_holds q f -> 0 <= size ->
  exists f', fifo_dma_read n size f = Ok (take (Z.to_nat size) q, f') /\ dma_holds (drop (Z.to_nat size) q) f'.
Proof.
  intros H Hs. unfold fifo_dma_read. c_run. unfold id. rewrite (recved_ok q f H). set (k := if size <? _ then _ else _).
  assert (0 <= k <= Z.of_nat (length q)) as Hk by (subst k; destruct (Z.ltb_spec size (Z.of_nat (length q))); lia).
  assert (take (Z.to_nat size) q = take (Z.to_nat k) q /\ drop (Z.to_nat size) q = drop (Z.to_nat k) q) as [-> ->].
  { subst k. destruct (Z.ltb_spec size (Z.of_nat (length q))); [done|]. rewrite !take_ge, !drop_ge by lia. done. }
  rewrite (fifo_copy_ok q f k H Hk). c_run. unfold rt_dma_recv_update_get_index. rewrite run_bind_bind, run_bind_gets. unfold id.
  clearbody k. rewrite (recved_ok q f H), (proj2 (Z.leb_le k _)) by lia. c_run.
  destruct H as [Hb Hg Hp Hr Hf Hc]. rewrite u16_small by lia.
  pose proof (Z.mod_pos_bound (get_index f + k) n ltac:(lia)) as Hm.
  assert (forall b, b = (Z.of_nat (length q) - k =? n) -> dma_holds (drop (Z.to_nat k) q)
    (MkFifo (buffer f) (put_index f) ((get_index f + k) mod n) b)) as Hh.
  { intros b ->. split; cbn [buffer put_index get_index is_full]; rewrite ?length_drop; try lia.
    - rewrite Hp, Zplus_mod_idemp_l. f_equal. lia.
    - f_equal. lia.
    - rewrite <- Hc at 2. rewrite <- (cyc_drop _ _ _ _ k) by lia. f_equal. lia. }
  assert ((if n <=? get_index f + k then (get_index f + k) mod n else get_index f + k) = (get_index f + k) mod n) as Hw.
  { destruct (Z.leb_spec n (get_index f + k)); [done|]. by rewrite Z.mod_small by lia. }
  rewrite Hw. rewrite Hf. destruct (Z.eqb_spec (Z.of_nat (length q)) n); cbn [andb].
  - destruct (Z.eqb_spec k 0); cbn [negb]; c_run; (eexists; split; [done|]).
    + specialize (Hh true). destruct f. cbn in *. subst. apply Hh. symmetry. apply Z.eqb_eq. lia.
    + apply Hh. symmetry. apply Z.eqb_neq. lia.
  - c_run. eexists. split; [done|]. specialize (Hh false). destruct f. cbn in *. subst. apply Hh. symmetry. apply Z.eqb_neq. lia.
Qed.

Lemma dma_runs_ok evs : forall q f, dma_holds q f -> Forall (dma_event_ok n) evs ->
  exists f', dma_runs n evs f = Ok ((dma_specs n evs q).1, f') /\ dma_holds (dma_specs n evs q).2 f'.
Proof.
  induction evs as [|ev evs IH]; intros q f H Hok; cbn [dma_runs dma_specs]; [by exists f|].
  apply Forall_cons in Hok as [Hev Hok].
  assert (exists f1, dma_run n ev f = Ok ((dma_spec n ev q).1, f1) /\ dma_holds (dma_spec n ev q).2 f1) as (f1 & E1 & H1).
  { destruct ev as [data|size]; cbn [dma_run dma_spec dma_event_ok fst snd] in *.
    - destruct (dma_in_ok q f data H Hev) as (f1 & E & H1). exists f1. by erewrite run_bind_ok by exact E.
    - by apply dma_read_ok. }
  erewrite run_bind_ok by exact E1. destruct (dma_spec n ev q) as [r q1]. cbn [fst snd] in *.
  destruct (IH q1 f1 H1 Hok) as (f2 & E2 & H2). erewrite run_bind_ok by exact E2.
  destruct (dma_specs n evs q1) as [rs q2]. by exists f2.
Qed.
End DmaFifo.

(** C20: the FIFO of DMA reception keeps the last bufsz bytes.  For any sequence of
    transfers, each of at most bufsz bytes, which the controller lays around the FIFO,
    and of reads, the reads return what a queue that drops its oldest bytes returns, in
    one copy or two; the indices wrap without an access outside the buffer. *)
Theorem dma_fifo_keeps_last n evs : 1 <= n <= 32768 -> Forall (dma_event_ok n) evs ->
  exists f, dma_runs n evs (fifo_init n) = Ok ((dma_specs n evs []).1, f) /\ dma_holds n (dma_specs n evs []).2 f.
Proof. intros Hn Hok. apply dma_runs_ok; [done|by apply dma_init_holds|done]. Qed.

Lemma dma_fifo_keeps_last_witness : exists f,
  dma_runs 4 [DmaIn [1; 2; 3]; DmaRead 2; DmaIn [4; 5; 6; 7]; DmaRead 3; DmaIn [8]; DmaRead 9] (fifo_init 4) =
    Ok ([[]; [1; 2]; []; [4; 5; 6]; []; [7; 8]], f).
Proof.
  destruct (dma_fifo_keeps_last 4 [DmaIn [1; 2; 3]; DmaRead 2; DmaIn [4; 5; 6; 7]; DmaRead 3; DmaIn [8]; DmaRead 9]) as (f & E & _); [lia| |].
  - repeat constructor; cbn; lia.
  - exists f. exact E.
Defined.
