(* ===== verification/Uart.v ===== *)
(** * The board's UARTs (src/bsp/stm32f10x-controller/drivers/drv_usart.c)

    The driver under the serial devices: an instance of [Uart].  [stm32_uart] is the
    handle together with the part of the hardware the driver touches: the receive data
    register and its flag RXNE, the two enables of the receive interrupt, and the bytes
    sent on the wire.  A byte that arrives while RXNE is set is lost, as the hardware
    keeps the old one; reading the data register clears RXNE.

    The device as a whole, with the layers above it (serial.c, device.c), runs as a
    machine of events: bytes on the wire, interrupts and the calls of threads.  The line
    it implements, [line], is a queue that keeps the last bytes. *)
From Stdlib Require Import String.
From S2P Require Import Prelude CString Ipc DataQueue Object Device Serial.

(** ** The driver *)
Inductive word_length := UART_WORDLENGTH_8B | UART_WORDLENGTH_9B.
Inductive stop_length := UART_STOPBITS_1 | UART_STOPBITS_2.
Inductive parity_mode := UART_PARITY_NONE | UART_PARITY_ODD | UART_PARITY_EVEN.

Record uart_init := MkInit { BaudRate : Z; WordLength : word_length; StopBits : stop_length; Parity : parity_mode }.

Record stm32_uart := MkUart {
  Init : uart_init;
  gState_reset : bool;
  DR : Z;
  RXNE : bool;
  RXNEIE : bool;
  irq : bool;
  sent : list Z
}.
#[export] Instance stm32_uart_eta : Eta stm32_uart := fun u =>
  MkUart (Init u) (gState_reset u) (DR u) (RXNE u) (RXNEIE u) (irq u) (sent u).

(** What HAL_UART_Init does to the handle: the first time it calls HAL_UART_MspInit, which
    enables the interrupt in the NVIC; it succeeds for every handle. *)
Definition HAL_UART_Init : M stm32_uart unit :=
  u ← gets id;
  (when gState_reset u do irq ::= true);;
  gState_reset ::= false.

Definition stm32_configure (cfg : serial_configure) : M stm32_uart Z :=
  Init ::= MkInit (baud_rate cfg)
    (if data_bits cfg =? 9 then UART_WORDLENGTH_9B else UART_WORDLENGTH_8B)
    (if stop_bits cfg =? 1 then UART_STOPBITS_2 else UART_STOPBITS_1)
    (if parity cfg =? 1 then UART_PARITY_ODD else if parity cfg =? 2 then UART_PARITY_EVEN else UART_PARITY_NONE);;
  HAL_UART_Init;;
  mret RT_EOK.

Definition stm32_control (cmd : Z) (arg : serial_arg) : M stm32_uart Z :=
  (if cmd =? RT_DEVICE_CTRL_CLR_INT then irq ::= false;; RXNEIE ::= false
   else when cmd =? RT_DEVICE_CTRL_SET_INT do (irq ::= true;; RXNEIE ::= true));;
  mret RT_EOK.

Definition stm32_putc (c : Z) : M stm32_uart Z :=
  u ← gets id;
  sent ::= sent u ++ [u8 c];;
  mret 1.

Definition stm32_getc : M stm32_uart Z :=
  u ← gets id;
  if RXNE u then RXNE ::= false;; mret (Z.land (DR u) 0xff) else mret (-1).

#[export] Instance stm32_uart_ops : Uart stm32_uart := {
  configure := stm32_configure;
  control := stm32_control;
  putc := stm32_putc;
  getc := stm32_getc;
  dma_transmit := None
}.

(** The hardware receives a byte. *)
Definition uart_arrive (c : Z) (u : stm32_uart) : stm32_uart :=
  if RXNE u then u else u <| DR := c |> <| RXNE := true |>.

(** [late]: a byte that arrives after the last look at RXNE, before it is cleared.  The
    loop of the service routine reads the register twice. *)
Definition uart_isr (self : rt_thread) (late : option Z) : M (rt_serial_device stm32_uart) unit :=
  u ← gets uart;
  when RXNE u && RXNEIE u do (
    rt_hw_serial_isr 2 self RT_SERIAL_EVENT_RX_IND;;
    zoom uart (modify (fun u => match late with Some c => uart_arrive c u | None => u end));;
    zoom uart (RXNE ::= false)).

Definition uart_reset : stm32_uart := MkUart (MkInit 0 UART_WORDLENGTH_8B UART_STOPBITS_1 UART_PARITY_NONE) true 0 false false false [].

(** serial1 and serial2 at the addresses [a1] and [a2], and their registration. *)
Definition usart_device (d : rt_device) : rt_serial_device stm32_uart :=
  MkSerial d uart_reset RT_SERIAL_CONFIG_DEFAULT None None [] [] [].

Definition rt_hw_usart_init (a1 a2 : Z) : M objects (list (option (rt_serial_device stm32_uart))) :=
  '(_, d1) ← rt_hw_serial_register a1 (chars "uart1") (Z.lor RT_DEVICE_FLAG_RDWR RT_DEVICE_FLAG_INT_RX);
  '(_, d2) ← rt_hw_serial_register a2 (chars "uart2") (Z.lor RT_DEVICE_FLAG_RDWR RT_DEVICE_FLAG_INT_RX);
  mret [usart_device <$> d1; usart_device <$> d2].

(** ** The device as a machine *)
Section Machine.
Context (self : rt_thread).
#[local] Instance driver : DeviceDriver (rt_serial_device stm32_uart) := serial_driver self.

Inductive uart_event :=
  | UByte (c : Z)
  | UInterrupt (late : option Z)
  | UOpen (stream : bool)
  | UClose
  | URead (size : Z)
  | UWrite (data : list Z)
  | UIndicate (on : bool)
  | UEnable (on : bool).

Inductive uart_reply := RNone | RErr (err : Z) | RData (size : Z) (data : list Z) | RSent (w : written).

(** Opened for interrupts; the interrupt is taken when the NVIC lets it through; [UEnable]
    is the control command that the Modbus port sends to the driver directly. *)
Definition uart_run (ev : uart_event) : M (rt_serial_device stm32_uart) uart_reply :=
  match ev with
  | UByte c => zoom uart (modify (uart_arrive c));; mret RNone
  | UInterrupt late => u ← gets uart; (when irq u do uart_isr self late);; mret RNone
  | UOpen stream =>
      r ← rt_device_open (Z.lor (Z.lor RT_DEVICE_OFLAG_RDWR RT_DEVICE_FLAG_INT_RX) (if stream then RT_DEVICE_FLAG_STREAM else 0));
      mret (RErr r)
  | UClose => r ← rt_device_close; mret (RErr r)
  | URead size => '(n, data) ← rt_device_read 0 size; mret (RData n data)
  | UWrite data => w ← rt_device_write 0 data; mret (RSent w)
  | UIndicate on => r ← rt_device_set_rx_indicate on; mret (RErr r)
  | UEnable on => r ← uart_control (if on then RT_DEVICE_CTRL_SET_INT else RT_DEVICE_CTRL_CLR_INT) (ArgWord RT_DEVICE_FLAG_INT_RX); mret (RErr r)
  end.

Fixpoint uart_runs (evs : list uart_event) : M (rt_serial_device stm32_uart) (list uart_reply) :=
  match evs with
  | [] => mret []
  | ev :: evs => r ← uart_run ev; rs ← uart_runs evs; mret (r :: rs)
  end.
End Machine.

(** ** The line *)
Record line := MkLine {
  held : option Z;
  queue : list Z;
  opens : Z;
  stream : bool;
  enabled : bool;
  wire : list Z;
  indicating : bool;
  indicated : list Z
}.
#[export] Instance line_eta : Eta line := fun l =>
  MkLine (held l) (queue l) (opens l) (stream l) (enabled l) (wire l) (indicating l) (indicated l).

(** What goes out for the data of a write. *)
Definition on_wire (stream : bool) (data : list Z) : list Z :=
  flat_map (fun c => (if (c =? 10) && stream then [13] else []) ++ [u8 c]) data.

Definition line_step (n : Z) (ev : uart_event) (l : line) : uart_reply * line :=
  match ev with
  | UByte c => (RNone, l <| held := match held l with Some c' => Some c' | None => Some c end |>)
  | UInterrupt _ =>
      (RNone,
       match held l with
       | Some c =>
           if enabled l then
             let q := fifo_push n (u8 c) (queue l) in
             l <| held := None |> <| queue := q |>
               <| indicated := if indicating l then indicated l ++ [Z.of_nat (length q)] else indicated l |>
           else l
       | None => l
       end)
  | UOpen st =>
      (RErr RT_EOK,
       if opens l =? 0 then l <| opens := 1 |> <| queue := [] |> <| enabled := true |> <| stream := st |>
       else l <| opens := opens l + 1 |> <| stream := st || stream l |>)
  | UClose =>
      if opens l =? 0 then (RErr (- RT_ERROR), l)
      else (RErr RT_EOK,
            if opens l =? 1 then l <| opens := 0 |> <| queue := [] |> <| enabled := false |> <| stream := false |>
            else l <| opens := opens l - 1 |>)
  | URead size =>
      if opens l =? 0 then (RData 0 [], l)
      else let data := take (Z.to_nat size) (queue l) in
           (RData (Z.of_nat (length data)) data, l <| queue := drop (Z.to_nat size) (queue l) |>)
  | UWrite data =>
      if opens l =? 0 then (RSent (Written 0), l)
      else (RSent (Written (Z.of_nat (length data))), l <| wire := wire l ++ on_wire (stream l) data |>)
  | UIndicate on => (RErr RT_EOK, l <| indicating := on |>)
  | UEnable on => (RErr RT_EOK, l <| enabled := on |>)
  end.

Fixpoint line_steps (n : Z) (evs : list uart_event) (l : line) : list uart_reply * line :=
  match evs with
  | [] => ([], l)
  | ev :: evs =>
      let '(r, l) := line_step n ev l in
      let '(rs, l) := line_steps n evs l in
      (r :: rs, l)
  end.

(** What the callers see to: the receive interrupt is only switched on or off while the
    device is open, and it is opened at most 255 times. *)
Definition event_ok (ev : uart_event) (l : line) : Prop :=
  match ev with
  | UByte c => is_byte c
  | UInterrupt late => forall c, late = Some c -> is_byte c
  | UOpen _ => opens l < 255
  | URead size => 0 <= size < 2 ^ 31
  | UEnable _ => opens l <> 0
  | _ => True
  end.

Fixpoint events_ok (n : Z) (evs : list uart_event) (l : line) : Prop :=
  match evs with
  | [] => True
  | ev :: evs => event_ok ev l /\ events_ok n evs (line_step n ev l).2
  end.

Definition line_closed : line := MkLine None [] 0 false false [] false [].

(** ** The device implements the line *)
Section Refinement.
Context (n : Z) (Hn : 2 <= n < 65536) (self : rt_thread).

Definition device_flags (act : bool) : Z := if act then 0x113 else 0x103.
Definition open_flags (stream : bool) : Z := if stream then 0x14b else 0x10b.

(** A closed and an open device, with the line it implements. *)
Inductive represents : line -> rt_serial_device stm32_uart -> Prop :=
  | RepClosed act ind init gs dr rxne nvic w cfg inds comps : bufsz cfg = n -> is_byte dr ->
      represents (MkLine (if (rxne : bool) then Some dr else None) [] 0 false false w ind inds)
        (MkSerial (MkDevice true (device_flags act) 0 0 ind false) (MkUart init gs dr rxne false nvic w) cfg None None [] inds comps)
  | RepOpen refs st ind init gs dr rxne en w cfg inds comps q f : bufsz cfg = n -> is_byte dr ->
      1 <= refs < 256 -> is_bytes q -> fifo_holds n q f ->
      represents (MkLine (if (rxne : bool) then Some dr else None) q refs st en w ind inds)
        (MkSerial (MkDevice true (device_flags true) (open_flags st) refs ind false) (MkUart init gs dr rxne en en w) cfg
           (Some (RxFifo f)) None [] inds comps).

Definition implements (ev : uart_event) (l : line) (s : rt_serial_device stm32_uart) : Prop :=
  exists s', uart_run self ev s = Ok ((line_step n ev l).1, s') /\ represents (line_step n ev l).2 s'.

(** The cases of [represents]. *)
Ltac rep_cases H :=
  destruct H as [act ind init gs dr rxne nvic w cfg inds comps Hc Hd|refs st ind init gs dr rxne en w cfg inds comps q f Hc Hd Hr Hq Hf].

Lemma byte_ok c l s : represents l s -> is_byte c -> implements (UByte c) l s.
Proof.
  intros H Hb. rep_cases H; (destruct rxne; (eexists; split; [reflexivity|])).
  - by apply (RepClosed act ind init gs dr true).
  - by apply (RepClosed act ind init gs c true).
  - by apply (RepOpen refs st ind init gs dr true).
  - by apply (RepOpen refs st ind init gs c true).
Qed.

Lemma again_open (st' : bool) refs (st : bool) ind (u : stm32_uart) cfg f inds comps : 1 <= refs < 255 ->
  rt_device_open (DeviceDriver0 := driver self) (Z.lor (Z.lor RT_DEVICE_OFLAG_RDWR RT_DEVICE_FLAG_INT_RX) (if st' then RT_DEVICE_FLAG_STREAM else 0))
    (MkSerial (MkDevice true (device_flags true) (open_flags st) refs ind false) u cfg (Some (RxFifo f)) None [] inds comps) =
  Ok (RT_EOK, MkSerial (MkDevice true (device_flags true) (open_flags (st' || st)) (refs + 1) ind false) u cfg (Some (RxFifo f)) None [] inds comps).
Proof.
  intros Hr. set (s := MkSerial _ _ _ _ _ _ _ _) at 1.
  rewrite (rt_device_open_again rt_serial_open _ s (s <| s_parent := (s_parent s) <| open_flag := if st' || st then 0x143 else 0x103 |> |>)).
    + subst s. unfold opened. cbn. rewrite u8_id by (unfold is_byte; lia). by destruct st', st.
    + done.
    + done.
    + done.
    + done.
    + by destruct st', st.
    + cbn. rewrite u8_id by (unfold is_byte; lia). lia.
Qed.
Lemma first_open (st' act : bool) ind init gs dr (rxne nvic : bool) w cfg inds comps : exists init' gs',
  uart_run self (UOpen st') (MkSerial (MkDevice true (device_flags act) 0 0 ind false) (MkUart init gs dr rxne false nvic w) cfg None None [] inds comps) =
  Ok (RErr RT_EOK, MkSerial (MkDevice true (device_flags true) (open_flags st') 1 ind false) (MkUart init' gs' dr rxne true true w) cfg (Some (RxFifo (fifo_init (bufsz cfg)))) None [] inds comps).
Proof. destruct act, st', gs; eexists _, _; reflexivity. Qed.

Lemma open_ok st' l s : represents l s -> opens l < 255 -> implements (UOpen st') l s.
Proof.
  intros H Ho. rep_cases H; unfold implements; cbn [line_step opens fst snd] in *.
  - destruct (first_open st' act ind init gs dr rxne nvic w cfg inds comps) as (init' & gs' & E). eexists. split; [exact E|].
    apply (RepOpen 1); [exact Hc|exact Hd|lia|exact (Forall_nil_2 _)|rewrite Hc; by apply fifo_init_holds].
  - rewrite (proj2 (Z.eqb_neq refs 0)) by lia. eexists. split.
    + cbn [uart_run]. erewrite run_bind_ok by (apply again_open; lia). reflexivity.
    + apply RepOpen; done || lia.
Qed.

Lemma last_close (st : bool) ind u cfg f inds comps : exists irq',
  rt_device_close (DeviceDriver0 := driver self)
    (MkSerial (MkDevice true (device_flags true) (open_flags st) 1 ind false) u cfg (Some (RxFifo f)) None [] inds comps) =
  Ok (RT_EOK, MkSerial (MkDevice true (device_flags true) 0 0 ind false) (u <| RXNEIE := false |> <| irq := irq' |>) cfg None None [] inds comps).
Proof. exists false. destruct u, st; reflexivity. Qed.

Lemma close_ok l s : represents l s -> implements UClose l s.
Proof.
  intros H. rep_cases H; unfold implements; cbn [line_step opens fst snd] in *.
  - exists (MkSerial (MkDevice true (device_flags act) 0 0 ind false) (MkUart init gs dr rxne false nvic w) cfg None None [] inds comps).
    split; [reflexivity|by apply RepClosed].
  - rewrite (proj2 (Z.eqb_neq refs 0)) by lia. destruct (Z.eqb_spec refs 1) as [->|Hne].
    + destruct (last_close st ind (MkUart init gs dr rxne en en w) cfg f inds comps) as (irq' & E). eexists. split.
      * cbn [uart_run]. erewrite run_bind_ok by exact E. reflexivity.
      * by apply (RepClosed true).
    + eexists. split.
      * cbn [uart_run]. erewrite run_bind_ok by (apply rt_device_close_shared; [done|cbn; lia]). reflexivity.
      * apply (RepOpen (refs - 1)); done || lia.
Qed.

Lemma read_ok size l s : represents l s -> 0 <= size -> implements (URead size) l s.
Proof.
  intros H Hs. rep_cases H; unfold implements; cbn [line_step opens queue fst snd] in *.
  - eexists. split; [reflexivity|by apply RepClosed].
  - rewrite (proj2 (Z.eqb_neq refs 0)) by lia. set (s := MkSerial _ _ _ _ _ _ _ _).
    destruct (int_rx_ok n Hn (Z.to_nat size) q f s) as (f' & E & Hf'); [done|done|done|done|].
    exists (s <| serial_rx := Some (RxFifo f') |>). split; [|by apply RepOpen; try apply Forall_drop].
    cbn [uart_run]. rewrite (run_bind_ok _ _ _ (Z.of_nat (length (take (Z.to_nat size) q)), take (Z.to_nat size) q) (s <| serial_rx := Some (RxFifo f') |>)); [done|].
    rewrite (rt_device_read_open rt_serial_read) by (done || (cbn; lia)).
    unfold rt_serial_read. destruct (Z.eqb_spec size 0) as [->|Hne].
    + cbn in E. injection E as <-. done.
    + rewrite run_bind_gets. replace (has (open_flag (s_parent s)) RT_DEVICE_FLAG_INT_RX) with true by (by destruct st).
      unfold _serial_int_rx, RT_ASSERT_rx. rewrite !run_bind_bind, run_bind_gets. cbn [serial_rx s]. rewrite bool_decide_eq_true_2 by done.
      rewrite run_bind_assert. erewrite run_bind_ok by exact E. done.
Qed.

Lemma on_wire_cons st c data : on_wire st (c :: data) = (if (c =? 10) && st then [13] else []) ++ [u8 c] ++ on_wire st data.
Proof. cbn. by rewrite <- app_assoc. Qed.

Lemma poll_tx_ok data : forall p init gs dr (rxne en nvic : bool) w cfg rx ms inds comps,
  poll_tx data (MkSerial p (MkUart init gs dr rxne en nvic w) cfg rx None ms inds comps) =
  Ok (tt, MkSerial p (MkUart init gs dr rxne en nvic (w ++ on_wire (has (open_flag p) RT_DEVICE_FLAG_STREAM) data)) cfg rx None ms inds comps).
Proof.
  induction data as [|c data IH]; intros; cbn [poll_tx]; [by rewrite app_nil_r|]. rewrite on_wire_cons.
  rewrite run_bind_gets. cbn [s_parent]. destruct ((c =? 10) && has (open_flag p) RT_DEVICE_FLAG_STREAM).
  - erewrite run_bind_ok by reflexivity. erewrite run_bind_ok by reflexivity.
    etransitivity; [apply (IH p init gs dr rxne en nvic ((w ++ [u8 13]) ++ [u8 c]))|]. by rewrite <- !app_assoc.
  - rewrite run_bind_skip. erewrite run_bind_ok by reflexivity. etransitivity; [apply (IH p init gs dr rxne en nvic (w ++ [u8 c]))|]. by rewrite <- !app_assoc.
Qed.

Lemma write_ok data l s : represents l s -> implements (UWrite data) l s.
Proof.
  intros H. rep_cases H; unfold implements; cbn [line_step opens stream wire fst snd] in *.
  - eexists. split; [reflexivity|by apply RepClosed].
  - rewrite (proj2 (Z.eqb_neq refs 0)) by lia. eexists. split; [|apply (RepOpen refs st ind init gs dr rxne en (w ++ on_wire st data)); done].
    cbn [uart_run]. erewrite run_bind_ok; [by rewrite run_ret|].
    rewrite (rt_device_write_open (rt_serial_write self)) by (done || (cbn; lia)).
    destruct data as [|c data]; [cbn; by rewrite app_nil_r|]. unfold rt_serial_write. rewrite run_bind_gets.
    cbn [s_parent open_flag]. replace (has (open_flags st) RT_DEVICE_FLAG_INT_TX) with false by (by destruct st).
    replace (has (open_flags st) RT_DEVICE_FLAG_DMA_TX) with false by (by destruct st).
    unfold _serial_poll_tx. erewrite run_bind_ok by apply poll_tx_ok. cbn [open_flag].
    replace (has (open_flags st) RT_DEVICE_FLAG_STREAM) with st by (by destruct st). done.
Qed.
Lemma low_byte c : is_byte c -> Z.land c 0xff = c /\ (c =? -1) = false.
Proof.
  intros Hc. unfold is_byte in Hc. split; [|apply Z.eqb_neq; lia]. change 0xff with (Z.ones 8). rewrite Z.land_ones by lia. apply Z.mod_small. lia.
Qed.

(** The receive interrupt with a byte in the register. *)
Lemma isr_rx_ind_ok p init gs dr w cfg inds comps q f : bufsz cfg = n -> is_byte dr -> fifo_holds n q f ->
  exists f', fifo_holds n (fifo_push n dr q) f' /\
    isr_rx_ind 2 (MkSerial p (MkUart init gs dr true true true w) cfg (Some (RxFifo f)) None [] inds comps) =
    Ok (tt, MkSerial p (MkUart init gs dr false true true w) cfg (Some (RxFifo f')) None []
      (if rx_indicate p then inds ++ [Z.of_nat (length (fifo_push n dr q))] else inds) comps).
Proof.
  intros Hc Hd Hf. destruct (low_byte dr Hd) as [Hl H1]. destruct (fifo_put_ok n Hn q f dr Hf) as (f' & E & Hf').
  rewrite (u8_id dr) in Hf' by done. exists f'. split; [done|].
  set (s := fun rxne f inds => MkSerial p (MkUart init gs dr rxne true true w) cfg (Some (RxFifo f)) None [] inds comps).
  change (isr_rx_ind 2 (s true f inds) = Ok (tt, s false f' (if rx_indicate p then inds ++ [Z.of_nat (length (fifo_push n dr q))] else inds))).
  unfold isr_rx_ind. rewrite (run_bind_ok _ _ _ tt (s true f inds)) by done.
  assert (rx_loop 2 (s true f inds) = Ok (tt, s false f' inds)) as Eloop.
  { cbn [rx_loop]. assert (uart_getc (s true f inds) = Ok (Z.land dr 0xff, s false f inds)) as Eg by done. rewrite Hl in Eg.
    rewrite (run_bind_ok _ _ _ _ _ Eg). rewrite H1, run_bind_gets.
    change (config (s false f inds)) with cfg. rewrite Hc.
    rewrite (run_bind_ok _ _ _ tt (s false f' inds)) by (by apply (run_with_fifo _ f)).
    by rewrite (run_bind_ok _ _ _ (-1) (s false f' inds)) by done. }
  rewrite (run_bind_ok _ _ _ _ _ Eloop), run_bind_gets. change (s_parent (s false f' inds)) with p.
  destruct (rx_indicate p); [|done]. rewrite run_bind_gets. change (config (s false f' inds)) with cfg.
  rewrite (run_bind_ok _ _ _ f' (s false f' inds)) by (by apply (run_with_fifo _ f')).
  rewrite Hc, (fifo_length_ok n Hn (fifo_push n dr q) f' Hf').
  rewrite (proj2 (Z.eqb_neq _ 0)) by (unfold fifo_push; destruct (_ <? _); rewrite length_app; cbn; lia). done.
Qed.

Lemma interrupt_ok late l s : represents l s -> (forall c, late = Some c -> is_byte c) -> implements (UInterrupt late) l s.
Proof.
  intros H Hlate. rep_cases H; unfold implements; cbn [line_step held queue enabled indicating indicated fst snd] in *.
  - destruct rxne, nvic; (eexists; split; [reflexivity|]); first [by apply (RepClosed act ind init gs dr true)|by apply (RepClosed act ind init gs dr false)].
  - destruct en; [|destruct rxne; (eexists; split; [reflexivity|]); first [by apply (RepOpen refs st ind init gs dr true false)|by apply (RepOpen refs st ind init gs dr false false)]].
    destruct rxne; [|eexists; split; [reflexivity|]; by apply (RepOpen refs st ind init gs dr false true)].
    destruct (isr_rx_ind_ok (MkDevice true (device_flags true) (open_flags st) refs ind false) init gs dr w cfg inds comps q f Hc Hd Hf)
      as (f' & Hf' & E).
    rewrite (u8_id dr) by done. eexists. split.
    + cbn [uart_run]. rewrite run_bind_gets. cbn [irq uart]. erewrite run_bind_ok.
      2: { unfold uart_isr. rewrite run_bind_gets. cbn [RXNE RXNEIE uart andb]. erewrite run_bind_ok by exact E.
        erewrite run_bind_ok by reflexivity. reflexivity. }
      reflexivity.
    + cbn [rx_indicate]. destruct late as [c|].
      * apply (RepOpen refs st ind init gs c false true); (exact Hc || exact Hr || exact Hf' || (by apply Hlate) || by apply fifo_push_bytes).
      * apply (RepOpen refs st ind init gs dr false true); (done || by apply fifo_push_bytes).
Qed.
Lemma indicate_ok on l s : represents l s -> implements (UIndicate on) l s.
Proof.
  intros H. rep_cases H; (eexists; split; [reflexivity|]).
  - by apply (RepClosed act on).
  - by apply (RepOpen refs st on).
Qed.

Lemma irq_enable_ok on l s : represents l s -> opens l <> 0 -> implements (UEnable on) l s.
Proof.
  intros H Ho. rep_cases H; [done|]. destruct on; (eexists; split; [reflexivity|]); by apply (RepOpen refs st ind).
Qed.

Lemma uart_run_ok ev l s : represents l s -> event_ok ev l -> implements ev l s.
Proof.
  intros H Hok. destruct ev; cbn [event_ok] in Hok.
  - by apply byte_ok.
  - by apply interrupt_ok.
  - by apply open_ok.
  - by apply close_ok.
  - apply read_ok; [done|lia].
  - by apply write_ok.
  - by apply indicate_ok.
  - by apply irq_enable_ok.
Qed.

Lemma uart_runs_ok evs : forall l s, represents l s -> events_ok n evs l ->
  exists s', uart_runs self evs s = Ok ((line_steps n evs l).1, s') /\ represents (line_steps n evs l).2 s'.
Proof.
  induction evs as [|ev evs IH]; intros l s H Hok; cbn [uart_runs line_steps events_ok] in *; [by exists s|].
  destruct Hok as [Hev Hok]. destruct (uart_run_ok ev l s H Hev) as (s1 & E1 & H1). erewrite run_bind_ok by exact E1.
  destruct (line_step n ev l) as [r l1]. cbn [fst snd] in *. destruct (IH l1 s1 H1 Hok) as (s2 & E2 & H2).
  erewrite run_bind_ok by exact E2. destruct (line_steps n evs l1) as [rs l2]. by exists s2.
Qed.

(** *** Bytes that are not lost *)
Definition received (evs : list uart_event) : list Z := flat_map (fun ev => match ev with UByte c => [c] | _ => [] end) evs.
Definition data_read (r : uart_reply) : list Z := match r with RData _ data => data | _ => [] end.
Definition in_register (l : line) : list Z := match held l with Some c => [c] | None => [] end.

(** Every byte finds the register empty, every interrupt room in the queue; the device
    stays open with its interrupt on, and no byte falls into the gap of the interrupt. *)
Fixpoint keeps_up (evs : list uart_event) (l : line) : Prop :=
  match evs with
  | [] => True
  | ev :: evs =>
      match ev with
      | UByte _ => held l = None
      | UInterrupt late => late = None /\ Z.of_nat (length (queue l)) < n - 1
      | UClose | UEnable _ => False
      | _ => True
      end /\ keeps_up evs (line_step n ev l).2
  end.

Lemma line_step_conserves ev l : event_ok ev l -> opens l <> 0 -> 0 <= opens l -> enabled l = true -> (forall c, held l = Some c -> is_byte c) ->
  keeps_up [ev] l ->
  let l' := (line_step n ev l).2 in
  data_read (line_step n ev l).1 ++ queue l' ++ in_register l' = queue l ++ in_register l ++ received [ev] /\
  opens l' <> 0 /\ 0 <= opens l' /\ enabled l' = true /\ (forall c, held l' = Some c -> is_byte c).
Proof.
  intros Hok Ho Ho0 He Hh [Hk _]. destruct l as [h q o st en w ind inds]. unfold in_register. cbn [held queue opens enabled] in *. subst en.
  destruct ev as [c|late|st'| |size|data|on|on]; cbn [line_step held queue opens enabled fst snd data_read received flat_map] in *; try done.
  - subst h. cbn. split; [done|]. split_and!; [done|done|done|]. by intros ? [= <-].
  - destruct Hk as [-> Hlen]. destruct h as [c|]; [|cbn; rewrite !app_nil_r; by split_and!].
    unfold fifo_push. rewrite (proj2 (Z.ltb_lt _ _)), (u8_id c) by (lia || by apply Hh). cbn. rewrite !app_nil_r. by split_and!.
  - rewrite (proj2 (Z.eqb_neq o 0)) by lia. cbn in *. rewrite app_nil_r. split_and!; done || lia.
  - rewrite (proj2 (Z.eqb_neq o 0)) by lia. cbn. rewrite app_nil_r, app_assoc, take_drop. by split_and!.
  - rewrite (proj2 (Z.eqb_neq o 0)) by lia. cbn. rewrite app_nil_r. by split_and!.
  - cbn. rewrite app_nil_r. by split_and!.
Qed.

Lemma keeps_up_open evs : forall l, events_ok n evs l -> 0 < opens l -> keeps_up evs l -> opens (line_steps n evs l).2 <> 0.
Proof.
  induction evs as [|ev evs IH]; intros l Hok Ho Hk; [cbn; lia|]. destruct Hok as [Hev Hok]. destruct Hk as [Hk1 Hk]. cbn [line_steps].
  assert (0 < opens (line_step n ev l).2) as Ho'.
  { destruct l as [h q o st en w ind inds]. cbn in Ho. destruct ev; cbn; try done; repeat case_match; cbn; try done; lia. }
  specialize (IH _ Hok Ho' Hk). destruct (line_step n ev l) as [r l1]. cbn [snd] in *. by destruct (line_steps n evs l1).
Qed.

Lemma line_steps_conserve evs : forall l, events_ok n evs l -> opens l <> 0 -> 0 <= opens l -> enabled l = true ->
  (forall c, held l = Some c -> is_byte c) -> keeps_up evs l ->
  let l' := (line_steps n evs l).2 in
  concat (map data_read (line_steps n evs l).1) ++ queue l' ++ in_register l' = queue l ++ in_register l ++ received evs.
Proof.
  induction evs as [|ev evs IH]; intros l Hok Ho Ho0 He Hh Hk; cbn zeta; [cbn; by rewrite app_nil_r|].
  destruct Hok as [Hev Hok]. destruct Hk as [Hk1 Hk].
  destruct (line_step_conserves ev l Hev Ho Ho0 He Hh (conj Hk1 I)) as (Hc & Ho' & Ho0' & He' & Hh').
  cbn [line_steps]. destruct (line_step n ev l) as [r l1]. cbn [fst snd] in *.
  specialize (IH l1 Hok Ho' Ho0' He' Hh' Hk). destruct (line_steps n evs l1) as [rs l2]. cbn [fst snd map concat] in *.
  change (received (ev :: evs)) with ((match ev with UByte c => [c] | _ => [] end) ++ received evs).
  rewrite <- app_assoc, IH. rewrite app_assoc, app_assoc, <- (app_assoc (data_read r)), Hc. cbn [received flat_map].
  rewrite app_nil_r, <- !app_assoc. done.
Qed.
End Refinement.

(** ** The properties *)

(** A device as [rt_hw_usart_init] leaves it, with another configuration if [cfg] says so. *)
Definition registered_device (cfg : serial_configure) : rt_serial_device stm32_uart :=
  (usart_device (MkDevice true 0x103 0 0 false false)) <| config := cfg |>.

Lemma registered_represents n cfg : bufsz cfg = n -> represents n line_closed (registered_device cfg).
Proof. intros Hc. apply (RepClosed n false false _ true 0 false false [] cfg [] []); [done|]. unfold is_byte. lia. Qed.

(** What a device that implements an open line shows of it. *)
Lemma represents_open n l s : represents n l s -> 0 < opens l ->
  sent (uart s) = wire l /\ exists f, serial_rx s = Some (RxFifo f) /\ fifo_holds n (queue l) f.
Proof. intros [] Ho; [cbn in Ho; lia|]. split; [done|]. by exists f. Qed.

Lemma literal_name (w : string) : forallb (fun c => (1 <=? c) && (c <? 256)) (chars w) = true -> name_ok (chars w).
Proof.
  intros H. rewrite forallb_forall in H. split; apply Forall_forall; intros c Hc; apply list_elem_of_In, H in Hc; c_bool; unfold is_byte; lia.
Qed.

Lemma rt_hw_usart_init_ok a1 a2 : a1 <> a2 -> exists s, rt_hw_usart_init a1 a2 no_kernel_objects =
    Ok ([Some (registered_device RT_SERIAL_CONFIG_DEFAULT); Some (registered_device RT_SERIAL_CONFIG_DEFAULT)], s) /\
    rt_device_find (chars "uart1") s = Ok (Some a1, s) /\ rt_device_find (chars "uart2") s = Ok (Some a2, s).
Proof.
  intros Ha. pose proof (literal_name "uart1" eq_refl) as H1. pose proof (literal_name "uart2" eq_refl) as H2.
  set (flags := Z.lor RT_DEVICE_FLAG_RDWR RT_DEVICE_FLAG_INT_RX).
  destruct (rt_device_register_ok a1 (MkDevice false 0 0 0 false false) (chars "uart1") flags [] no_kernel_objects objects_ok_init H1)
    as (s1 & E1 & O1); [apply not_elem_of_nil|].
  destruct (rt_device_register_ok a2 (MkDevice false 0 0 0 false false) (chars "uart2") flags _ s1 O1 H2) as (s2 & E2 & O2).
  { rewrite fmap_cons, elem_of_cons. intros [Heq|Hx]; [by apply Ha|by apply not_elem_of_nil in Hx]. }
  exists s2. split; [|split].
  - unfold rt_hw_usart_init, rt_hw_serial_register. erewrite run_bind_ok by exact E1. cbv beta iota. erewrite run_bind_ok by exact E2. done.
  - by rewrite (rt_device_find_ok _ _ _ O2 H1).
  - by rewrite (rt_device_find_ok _ _ _ O2 H2).
Qed.



(** bytes are not lost as long as the readers keep up: from opening the device on, if
    every byte finds the data register empty, every interrupt finds room in the queue and
    no byte arrives between the interrupt's last look and its clearing of the flag, then
    what the reads returned, what is queued and what is in the register are together
    exactly the bytes that arrived, in order. *)
Theorem uart_keeps_up self cfg st evs : 2 <= bufsz cfg < 65536 -> events_ok (bufsz cfg) (UOpen st :: evs) line_closed ->
  keeps_up (bufsz cfg) evs (line_step (bufsz cfg) (UOpen st) line_closed).2 ->
  exists rs s q rest, uart_runs self (UOpen st :: evs) (registered_device cfg) = Ok (RErr RT_EOK :: rs, s) /\
    (exists f, serial_rx s = Some (RxFifo f) /\ fifo_holds (bufsz cfg) q f) /\
    rest = (if RXNE (uart s) then [DR (uart s)] else []) /\
    concat (map data_read rs) ++ q ++ rest = received evs.
Proof.
  intros Hn Hok Hk. destruct (uart_runs_ok (bufsz cfg) Hn self _ line_closed _ (registered_represents _ cfg eq_refl) Hok) as (s & E & Hr).
  assert (forall c, held (line_step (bufsz cfg) (UOpen st) line_closed).2 = Some c -> is_byte c) as Hh by done.
  pose proof (line_steps_conserve (bufsz cfg) evs _ (proj2 Hok) ltac:(cbn; lia) ltac:(cbn; lia) eq_refl Hh Hk) as Hc.
  cbn [line_steps] in *. destruct (line_step (bufsz cfg) (UOpen st) line_closed) as [r l1] eqn:El. injection El as <- <-.
  cbn [fst snd] in *. set (l1 := line_closed <| opens := 1 |> <| queue := [] |> <| enabled := true |> <| stream := st |>) in *.
  assert (opens (line_steps (bufsz cfg) evs l1).2 <> 0) as Ho by (apply keeps_up_open; [exact (proj2 Hok)|cbn; lia|exact Hk]).
  destruct (line_steps (bufsz cfg) evs l1) as [rs l]. cbn [fst snd] in *.
  exists rs, s. destruct Hr; [done|]. eexists q, _. split; [exact E|]. split; [by exists f|]. split; [done|].
  cbn in Hc. rewrite <- Hc. unfold in_register. cbn. by destruct rxne.
Qed.

Lemma uart_keeps_up_witness : exists rs s q rest, uart_runs dq_self
    [UOpen false; UByte 1; UInterrupt None; UByte 2; UInterrupt None; URead 1; UByte 3] (registered_device RT_SERIAL_CONFIG_DEFAULT) = Ok (RErr RT_EOK :: rs, s) /\
  concat (map data_read rs) ++ q ++ rest = [1; 2; 3].
Proof.
  destruct (uart_keeps_up dq_self RT_SERIAL_CONFIG_DEFAULT false [UByte 1; UInterrupt None; UByte 2; UInterrupt None; URead 1; UByte 3])
    as (rs & s & q & rest & E & _ & _ & Hc); [unfold RT_SERIAL_CONFIG_DEFAULT, RT_SERIAL_RB_BUFSZ; cbn; lia| | |exists rs, s, q, rest; split; [exact E|exact Hc]].
  - cbn. unfold is_byte. split_and!; try lia; done.
  - cbn. split_and!; try lia; done.
Defined.

Section Cases.
Context (self : rt_thread).
Implicit Types (cfg : serial_configure) (s : rt_serial_device stm32_uart).

Definition open_with (flags : Z) : M (rt_serial_device stm32_uart) Z :=
  rt_device_open (DeviceDriver0 := driver self) (Z.lor RT_DEVICE_OFLAG_RDWR flags).

Lemma open_dma cfg : exists init', open_with RT_DEVICE_FLAG_DMA_RX (registered_device cfg) =
  Ok (- RT_EIO, MkSerial (MkDevice true 0x113 0 0 false false) (MkUart init' false 0 false false true []) cfg None None [] [] []).
Proof. eexists. reflexivity. Qed.

Lemma open_int cfg init' : exists s, open_with RT_DEVICE_FLAG_INT_RX (MkSerial (MkDevice true 0x113 0 0 false false) (MkUart init' false 0 false false true []) cfg None None [] [] []) =
  Ok (RT_EOK, s) /\ ref_count (s_parent s) = 1.
Proof. eexists (MkSerial (MkDevice true 0x113 0x10b 1 false false) (MkUart init' false 0 false true true []) cfg (Some (RxFifo (fifo_init (bufsz cfg)))) None [] [] []). split; reflexivity. Qed.

Lemma open_no_memory cfg ms : open_with RT_DEVICE_FLAG_INT_RX ((registered_device cfg) <| mallocs := false :: ms |>) = Fault FAssert.
Proof. reflexivity. Qed.

Lemma open_256 n l s : represents n l s -> opens l = 255 -> open_with RT_DEVICE_FLAG_INT_RX s = Fault FAssert.
Proof. intros Hr Ho. destruct Hr; [done|]. cbn in Ho. subst refs. by destruct st. Qed.

Lemma closed_interrupt cfg c : uart_runs self [UEnable true; UByte c; UInterrupt None] (registered_device cfg) = Fault FAssert.
Proof. reflexivity. Qed.
(** An open device with [q] in its queue, and what opening it for polling makes of it. *)
Definition shared (oflag refs : Z) init' cfg f : rt_serial_device stm32_uart :=
  MkSerial (MkDevice true 0x113 oflag refs false false) (MkUart init' false 0 false true true []) cfg (Some (RxFifo f)) None [] [] [].

Lemma open_again_polling init' cfg f : open_with 0 (shared 0x10b 1 init' cfg f) = Ok (RT_EOK, shared 0x00b 2 init' cfg f).
Proof. reflexivity. Qed.

Lemma read_polling init' cfg f : uart_run self (URead 1) (shared 0x00b 2 init' cfg f) = Ok (RData 0 [], shared 0x00b 2 init' cfg f).
Proof. reflexivity. Qed.

Lemma close_polling init' cfg f : uart_runs self [UClose; UClose] (shared 0x00b 2 init' cfg f) = Ok ([RErr RT_EOK; RErr RT_EOK], shared 0 0 init' cfg f).
Proof. reflexivity. Qed.
End Cases.

(** what opening a UART can run into.  (1) The board's devices are registered without
    DMA: opening one for DMA reception is refused with -RT_EIO and opens nothing, and
    opening it for interrupts then succeeds, as the AT client tries one after the other.
    (2) Without memory for the queue an assertion fails.  (3) So does the 256th open.
    (4) The receive interrupt of a closed device fails an assertion: the Modbus port must
    not enable it after closing.  (5) Opening an open device without interrupt reception
    turns its readers to polling while the interrupt keeps the bytes: a read finds
    nothing whatever is queued, and the last close leaves the queue allocated and the
    interrupt on. *)
Theorem uart_open_cases self cfg init' :
  (exists s, open_with self RT_DEVICE_FLAG_DMA_RX (registered_device cfg) = Ok (- RT_EIO, s) /\
     ref_count (s_parent s) = 0 /\ serial_rx s = None /\
     exists s', open_with self RT_DEVICE_FLAG_INT_RX s = Ok (RT_EOK, s') /\ ref_count (s_parent s') = 1) /\
  (forall ms, open_with self RT_DEVICE_FLAG_INT_RX ((registered_device cfg) <| mallocs := false :: ms |>) = Fault FAssert) /\
  (forall n l s, represents n l s -> opens l = 255 -> open_with self RT_DEVICE_FLAG_INT_RX s = Fault FAssert) /\
  (forall c, uart_runs self [UEnable true; UByte c; UInterrupt None] (registered_device cfg) = Fault FAssert) /\
  (forall f, exists s1 s2, open_with self 0 (shared 0x10b 1 init' cfg f) = Ok (RT_EOK, s1) /\
     uart_run self (URead 1) s1 = Ok (RData 0 [], s1) /\
     uart_runs self [UClose; UClose] s1 = Ok ([RErr RT_EOK; RErr RT_EOK], s2) /\
     ref_count (s_parent s2) = 0 /\ serial_rx s2 = Some (RxFifo f) /\ RXNEIE (uart s2) = true).
Proof.
  split; [|split; [|split; [|split]]].
  - destruct (open_dma self cfg) as (i & E). eexists. split; [exact E|]. split; [done|]. split; [done|]. apply open_int.
  - intros ms. apply open_no_memory.
  - intros n l s. apply open_256.
  - intros c. apply closed_interrupt.
  - intros f. exists (shared 0x00b 2 init' cfg f), (shared 0 0 init' cfg f).
    split; [apply open_again_polling|]. split; [apply read_polling|]. split; [apply close_polling|done].
Qed.
