(* ===== verification/AtClient.v ===== *)
(** * AT client (src/pck/at/src/at_client.c, at_utils.c)

    The single AT client of the board (AT_CLIENT_NUM_MAX is 1): its structure,
    the response objects on the heap, the command buffer, and the parser thread.
    The parser thread is the loop of [client_parser] around [at_recv_readline];
    one turn of [at_recv_readline]'s loop, after [at_client_getchar] has returned
    a character, is [readline_char], and [client_parser_char] is that turn
    together with what follows when it completes a line.  The thread's locals
    are the record [parser_locals].

    [at_obj_exec_cmd] stops where its caller suspends, on the client's mutex or
    on the response semaphore, and [_locked] and [_resumed] are its
    continuations.  Characters are bytes; the serial device is the list of bytes
    written to it. *)
From stdpp Require Import gmap.
From S2P Require Import Prelude CString Ipc IpcMutex.

(** ** Types *)
Definition AT_CMD_MAX_LEN : Z := 128.

Definition AT_RESP_END_OK : list Z := [79; 75].
Definition AT_RESP_END_ERROR : list Z := [69; 82; 82; 79; 82].
Definition AT_RESP_END_FAIL : list Z := [70; 65; 73; 76].

Inductive at_resp_status := AT_RESP_OK | AT_RESP_ERROR | AT_RESP_TIMEOUT | AT_RESP_BUFF_FULL.
#[export] Instance at_resp_status_eq_dec : EqDecision at_resp_status.
Proof. solve_decision. Defined.

Inductive at_status := AT_STATUS_UNINITIALIZED | AT_STATUS_INITIALIZED | AT_STATUS_BUSY.

(** [buf] is [None] for a null pointer. *)
Record at_response := MkResp {
  buf : option (list Z);
  buf_size : Z;
  line_num : Z;
  line_counts : Z;
  timeout : Z
}.
#[export] Instance at_response_eta : Eta at_response := fun r =>
  MkResp (buf r) (buf_size r) (line_num r) (line_counts r) (timeout r).

Record at_urc := MkUrc { cmd_prefix : list Z; cmd_suffix : list Z; urc_func : bool }.

Record at_client := MkClient {
  device : bool;
  status : at_status;
  end_sign : Z;
  recv_buffer : list Z;
  recv_bufsz : Z;
  cur_recv_len : Z;
  rx_notice : rt_semaphore;
  lock : rt_mutex;
  resp : option Z;
  resp_notice : rt_semaphore;
  resp_status : at_resp_status;
  urc_table : option (list at_urc)
}.
#[export] Instance at_client_eta : Eta at_client := fun c =>
  MkClient (device c) (status c) (end_sign c) (recv_buffer c) (recv_bufsz c) (cur_recv_len c)
    (rx_notice c) (lock c) (resp c) (resp_notice c) (resp_status c) (urc_table c).

(** The locals of [client_parser] and [at_recv_readline]. *)
Record parser_locals := MkLocals {
  resp_buf_len : Z;
  lines : Z;
  read_len : Z;
  last_ch : Z;
  is_full : bool
}.
#[export] Instance parser_locals_eta : Eta parser_locals := fun l =>
  MkLocals (resp_buf_len l) (lines l) (read_len l) (last_ch l) (is_full l).

(** [responses] are the response objects allocated and not yet freed; [oom] says
    which of the coming allocations fail. *)
Record at_sys := MkAt {
  client : at_client;
  locals : parser_locals;
  tx : list Z;
  send_buf : list Z;
  last_cmd_len : Z;
  responses : gmap Z at_response;
  next_resp : Z;
  oom : list bool;
  at_ready : list rt_thread;
  urc_calls : list (list Z)
}.
#[export] Instance at_sys_eta : Eta at_sys := fun a =>
  MkAt (client a) (locals a) (tx a) (send_buf a) (last_cmd_len a) (responses a) (next_resp a)
    (oom a) (at_ready a) (urc_calls a).

(** Update one field of the client or of the parser's locals. *)
Notation "'cl' f '::=' v" := (modify (fun a => a <| client := (client a) <| f := v |> |>))
  (at level 70, f at level 0, no associativity) : c_scope.
Notation "'lo' f '::=' v" := (modify (fun a => a <| locals := (locals a) <| f := v |> |>))
  (at level 70, f at level 0, no associativity) : c_scope.

(** ** Response objects *)
Definition alloc_ok : M at_sys bool :=
  l ← gets oom;
  match l with
  | [] => mret true
  | fails :: l => oom ::= l;; mret (negb fails)
  end.

(** Dereference of a response pointer. *)
Definition get_resp (r : Z) : M at_sys at_response :=
  o ← gets (fun a => responses a !! r);
  match o with
  | Some resp => mret resp
  | None => lift (Fault FNull)
  end.
Definition put_resp (r : Z) (x : at_response) : M at_sys unit :=
  modify (fun a => a <| responses := <[r := x]> (responses a) |>).

(** The buffer of a response. *)
Definition resp_array (x : at_response) : M at_sys (list Z) :=
  match buf x with
  | Some b => mret b
  | None => lift (Fault FNull)
  end.

Definition at_create_resp (buf_size line_num timeout : Z) : M at_sys (option Z) :=
  ok ← alloc_ok;
  if negb ok then mret None else
  ok ← alloc_ok;
  if negb ok then mret None else
  r ← gets next_resp;
  next_resp ::= r + 1;;
  put_resp r (MkResp (Some (replicate (Z.to_nat buf_size) 0)) buf_size line_num 0 timeout);;
  mret (Some r).

Definition at_delete_resp (resp : option Z) : M at_sys unit :=
  match resp with
  | Some r =>
      get_resp r;;
      modify (fun a => a <| responses := delete r (responses a) |>)
  | None => skip
  end.

(** [rt_realloc] keeps what fits, here followed by zeros; on failure the old
    block stays allocated, unreachable, and [resp->buf] is null. *)
Definition at_resp_set_info (r buf_size' line_num' timeout' : Z) : M at_sys (option Z) :=
  x ← get_resp r;
  let set := x <| line_num := line_num' |> <| timeout := timeout' |> in
  if negb (buf_size x =? buf_size') then
    ok ← alloc_ok;
    if ok : bool then
      let b := take (Z.to_nat buf_size') (default [] (buf x) ++ replicate (Z.to_nat buf_size') 0) in
      put_resp r (set <| buf_size := buf_size' |> <| buf := Some b |>);; mret (Some r)
    else put_resp r (x <| buf_size := buf_size' |> <| buf := None |>);; mret None
  else put_resp r set;; mret (Some r).

(** The loops over the stored lines; the result is an offset in [resp->buf]. *)
Fixpoint get_line_loop (n : nat) (b : list Z) (resp_buf line_num resp_line : Z) :
    outcome (option Z) :=
  match n with
  | O => Ok None
  | S n =>
      if resp_line =? line_num then Ok (Some resp_buf)
      else s ← c_string b resp_buf;
           get_line_loop n b (resp_buf + Z.of_nat (length s) + 1) (line_num + 1) resp_line
  end.

Definition at_resp_get_line (r resp_line : Z) : M at_sys (option Z) :=
  x ← get_resp r;
  if (resp_line >? line_counts x) || (resp_line <=? 0) then mret None
  else b ← resp_array x; lift (get_line_loop (Z.to_nat (line_counts x)) b 0 1 resp_line).

Fixpoint get_line_kw_loop (n : nat) (b : list Z) (resp_buf : Z) (keyword : list Z) :
    outcome (option Z) :=
  match n with
  | O => Ok None
  | S n =>
      s ← c_string b resp_buf;
      if bool_decide (strstr s keyword <> None) then Ok (Some resp_buf)
      else get_line_kw_loop n b (resp_buf + Z.of_nat (length s) + 1) keyword
  end.

Definition at_resp_get_line_by_kw (r : Z) (keyword : list Z) : M at_sys (option Z) :=
  x ← get_resp r;
  if line_counts x <=? 0 then mret None
  else b ← resp_array x; lift (get_line_kw_loop (Z.to_nat (line_counts x)) b 0 keyword).

(** ** Commands (at_utils.c) *)

(** [vsnprintf] of a format without arguments: a conversion other than a
    doubled percent sign reads an argument that is not there. *)
Fixpoint format_output (fmt : list Z) : outcome (list Z) :=
  match fmt with
  | [] => Ok []
  | 37 :: 37 :: fmt => s ← format_output fmt; Ok (37 :: s)
  | 37 :: _ => Fault FUninit
  | c :: fmt => s ← format_output fmt; Ok (c :: s)
  end.

(** [rt_device_write(device, 0, buffer, size)]. *)
Definition device_write (b : list Z) (size : Z) : M at_sys unit :=
  out ← lift (memcpy (replicate (Z.to_nat size) 0) 0 b 0 size);
  modify (upd (field := tx) (fun t => t ++ out)).

Definition at_vprintf (format : list Z) : M at_sys unit :=
  out ← lift (format_output format);
  b ← gets send_buf;
  let out_nul := take (Z.to_nat (AT_CMD_MAX_LEN - 1)) out ++ [0] in
  b ← lift (memcpy b 0 out_nul 0 (Z.of_nat (length out_nul)));
  send_buf ::= b;;
  last_cmd_len ::= Z.of_nat (length out);;
  device_write b (Z.of_nat (length out)).

Definition at_vprintfln (format : list Z) : M at_sys unit :=
  at_vprintf format;;
  device_write [13; 10] 2.

(** ** Execution of a command *)
Inductive exec_wait :=
  | ExecReturn (result : Z)
  | ExecLock
  | ExecResponse.

(** [rt_mutex_release(client->lock)]. *)
Definition release_lock (self : Z) : M at_sys unit :=
  m ← gets (fun a => lock (client a));
  '(_, woken, m) ← lift (rt_mutex_release self m);
  cl lock ::= m;;
  modify (upd (field := at_ready) (fun l => l ++ woken)).

(** From the label [__exit]. *)
Definition exec_exit (self result : Z) : M at_sys Z :=
  cl resp ::= None;;
  release_lock self;;
  mret result.

(** After [rt_sem_take] has returned [err]. *)
Definition exec_response (self err : Z) : M at_sys Z :=
  if negb (err =? RT_EOK) then
    cl resp_status ::= AT_RESP_TIMEOUT;;
    exec_exit self (- RT_ETIMEOUT)
  else
    st ← gets (fun a => resp_status (client a));
    if bool_decide (st <> AT_RESP_OK) then exec_exit self (- RT_ERROR)
    else exec_exit self RT_EOK.

(** From the wait for the response on, which the caller takes [timeout] ticks to
    give up. *)
Definition wait_response (self : rt_thread) (timeout : Z) : M at_sys exec_wait :=
  s ← gets (fun a => resp_notice (client a));
  let '(w, s) := rt_sem_take self timeout s in
  cl resp_notice ::= s;;
  match w with
  | IpcReturn err => result ← exec_response (tid self) err; mret (ExecReturn result)
  | IpcSuspend _ => mret ExecResponse
  end.

(** With the mutex held. *)
Definition at_obj_exec_cmd_locked (self : rt_thread) (r : option Z) (cmd : list Z) : M at_sys exec_wait :=
  cl resp_status ::= AT_RESP_OK;;
  cl resp ::= r;;
  at_vprintfln cmd;;
  match r with
  | None => result ← exec_exit (tid self) RT_EOK; mret (ExecReturn result)
  | Some r =>
      x ← get_resp r;
      put_resp r (x <| line_counts := 0 |>);;
      wait_response self (timeout x)
  end.

Definition at_obj_exec_cmd (self : rt_thread) (r : option Z) (cmd : list Z) : M at_sys exec_wait :=
  dev ← gets (fun a => device (client a));
  if negb dev then mret (ExecReturn (- RT_ERROR)) else
  m ← gets (fun a => lock (client a));
  '(w, m) ← lift (rt_mutex_take (tid self) RT_WAITING_FOREVER m);
  cl lock ::= m;;
  match w with
  | IpcReturn _ => at_obj_exec_cmd_locked self r cmd
  | IpcSuspend _ => mret ExecLock
  end.

(** The thread runs again after waiting for the response. *)
Definition at_obj_exec_cmd_resumed (thread : rt_thread) : M at_sys Z :=
  exec_response (tid thread) (rt_sem_take_resumed thread).

(** ** The parser thread *)
Definition urc_matches (line : list Z) (u : at_urc) : bool :=
  negb (length line <? length (cmd_prefix u) + length (cmd_suffix u))%nat &&
  starts_with (cmd_prefix u) line &&
  starts_with (cmd_suffix u) (drop (length line - length (cmd_suffix u)) line).

Definition get_urc_obj (c : at_client) : option at_urc :=
  match urc_table c with
  | None => None
  | Some table =>
      let line := take (Z.to_nat (cur_recv_len c)) (recv_buffer c) in
      snd <$> list_find (fun u => urc_matches line u = true) table
  end.

(** [memset(client->recv_buffer, 0x00, client->recv_bufsz)]. *)
Definition clear_recv : M at_sys unit :=
  modify (fun a => a <| client := (client a)
    <| recv_buffer := replicate (Z.to_nat (recv_bufsz (client a))) 0 |>
    <| cur_recv_len := 0 |> |>).

(** [at_recv_readline] up to its loop. *)
Definition readline_start : M at_sys unit :=
  clear_recv;;
  lo read_len ::= 0;; lo last_ch ::= 0;; lo is_full ::= false.

(** One turn of the loop: the result when the function returns. *)
Definition readline_char (ch : Z) : M at_sys (option Z) :=
  c ← gets client;
  n ← gets (fun a => read_len (locals a));
  (if n <? recv_bufsz c then
     b ← lift (zset (recv_buffer c) n ch);
     cl recv_buffer ::= b;;
     lo read_len ::= n + 1;;
     cl cur_recv_len ::= n + 1
   else lo is_full ::= true);;
  c ← gets client;
  l ← gets locals;
  if ((ch =? 10) && (last_ch l =? 13)) || (negb (end_sign c =? 0) && (ch =? end_sign c))
     || bool_decide (is_Some (get_urc_obj c)) then
    if is_full l then clear_recv;; mret (Some (- RT_EFULL))
    else mret (Some (read_len l))
  else
    lo last_ch ::= ch;;
    mret None.

(** [memcmp(client->recv_buffer, s, strlen(s)) == 0]. *)
Definition recv_begins (b s : list Z) : outcome bool :=
  if (length b <? length s)%nat then Fault FOutOfBounds else Ok (starts_with s b).

(** The response is complete: hand it to the waiting thread. *)
Definition finish_response (r : Z) (st : at_resp_status) : M at_sys unit :=
  cl resp_status ::= st;;
  x ← get_resp r;
  l ← gets locals;
  put_resp r (x <| line_counts := lines l |>);;
  cl resp ::= None;;
  s ← gets (fun a => resp_notice (client a));
  '(woken, s) ← lift (rt_sem_release s);
  cl resp_notice ::= s;;
  modify (upd (field := at_ready) (fun t => t ++ woken));;
  lo resp_buf_len ::= 0;; lo lines ::= 0.

(** A line that belongs to the response [r]. *)
Definition response_line (r : Z) : M at_sys unit :=
  c ← gets client;
  b ← lift (zset (recv_buffer c) (cur_recv_len c - 1) 0);
  cl recv_buffer ::= b;;
  x ← get_resp r;
  l ← gets locals;
  (if resp_buf_len l + cur_recv_len c <? buf_size x then
     rb ← resp_array x;
     rb ← lift (memcpy rb (resp_buf_len l) b 0 (cur_recv_len c));
     put_resp r (x <| buf := Some rb |>);;
     lo resp_buf_len ::= resp_buf_len l + cur_recv_len c;;
     lo lines ::= lines l + 1
   else cl resp_status ::= AT_RESP_BUFF_FULL);;
  n ← gets (fun a => lines (locals a));
  ok ← lift (recv_begins b AT_RESP_END_OK);
  if ok && (line_num x =? 0) then finish_response r AT_RESP_OK else
  text ← lift (c_string b 0);
  fail ← (if bool_decide (strstr text AT_RESP_END_ERROR <> None) then mret true
          else lift (recv_begins b AT_RESP_END_FAIL));
  if fail : bool then finish_response r AT_RESP_ERROR
  else if (n =? line_num x) && negb (line_num x =? 0) then finish_response r AT_RESP_OK
  else skip.

(** The body of [client_parser]'s loop after [at_recv_readline] returned. *)
Definition client_parser_line (len : Z) : M at_sys unit :=
  if len >? 0 then
    c ← gets client;
    match get_urc_obj c with
    | Some urc =>
        when urc_func urc do
          modify (upd (field := urc_calls)
            (fun log => log ++ [take (Z.to_nat (cur_recv_len c)) (recv_buffer c)]))
    | None =>
        match resp c with
        | Some r => response_line r
        | None => skip
        end
    end
  else skip.

(** One character read by the parser thread. *)
Definition client_parser_char (ch : Z) : M at_sys unit :=
  done ← readline_char ch;
  match done with
  | Some len => client_parser_line len;; readline_start
  | None => skip
  end.

Fixpoint client_parser (input : list Z) : M at_sys unit :=
  match input with
  | [] => skip
  | ch :: input => client_parser_char ch;; client_parser input
  end.

(** ** Reading a line *)

(** The parser thread has read [pre] of the current line. *)
Definition reading (pre : list Z) (a : at_sys) : at_sys :=
  a <| client := (client a)
         <| recv_buffer := pre ++ replicate (Z.to_nat (recv_bufsz (client a)) - length pre) 0 |>
         <| cur_recv_len := Z.of_nat (length pre) |> |>
    <| locals := (locals a) <| read_len := Z.of_nat (length pre) |>
         <| last_ch := default 0 (last pre) |> <| is_full := false |> |>.

(** Lines end with CR LF only: no end sign and no URC table are set, as in this
    program. *)
Definition plain_lines (c : at_client) : Prop := end_sign c = 0 /\ urc_table c = None.

Definition wire (l : list Z) : list Z := l ++ [13; 10].

Lemma insert_next pre n ch : (0 < n)%nat ->
  <[length pre := ch]> (pre ++ replicate n 0) = (pre ++ [ch]) ++ replicate (n - 1) 0.
Proof.
  intros Hn. destruct n as [|n]; [lia|]. rewrite insert_app_r_alt, Nat.sub_diag by lia. cbn.
  by rewrite Nat.sub_0_r, <- app_assoc.
Qed.

Lemma readline_char_reading ch pre a : plain_lines (client a) ->
  Z.of_nat (length pre) < recv_bufsz (client a) ->
  readline_char ch (reading pre a) =
    if (ch =? 10) && (default 0 (last pre) =? 13)
    then Ok (Some (Z.of_nat (length pre) + 1),
             (reading (pre ++ [ch]) a) <| locals := (locals (reading (pre ++ [ch]) a))
                <| last_ch := default 0 (last pre) |> |>)
    else Ok (None, reading (pre ++ [ch]) a).
Proof.
  intros [He Hu] Hl. destruct a as [c l tx0 sb ll rs nr oo rd uc].
  destruct c as [dv st es rb bs cr rx lk rp rn rst ut], l as [rbl ln rl lc fu]. cbn in He, Hu, Hl. subst.
  unfold readline_char, reading, get_urc_obj. c_run. cbn -[replicate Z.of_nat].
  destruct (Z.ltb_spec (Z.of_nat (length pre)) bs); [|lia].
  rewrite zset_ok by (rewrite length_app, length_replicate; lia). rewrite Nat2Z.id.
  rewrite insert_next by lia. c_run. cbn -[replicate Z.of_nat].
  rewrite !orb_false_r.
  assert (Z.of_nat (length (pre ++ [ch])) = Z.of_nat (length pre) + 1) as Hn
    by (rewrite length_app; cbn; lia).
  assert (Z.to_nat bs - length (pre ++ [ch]) = Z.to_nat bs - length pre - 1)%nat as Hm
    by (rewrite length_app; cbn; lia).
  destruct ((ch =? 10) && _); rewrite Hn, Hm, ?last_snoc; done.
Qed.

(** ** Memory safety of the parser *)

(** The invariant of the parser thread between two characters. *)
Record at_wf (a : at_sys) : Prop := {
  wf_bufsz : 4 <= recv_bufsz (client a);
  wf_recv : Z.of_nat (length (recv_buffer (client a))) = recv_bufsz (client a);
  wf_cur : 0 <= cur_recv_len (client a) <= read_len (locals a);
  wf_read : read_len (locals a) <= recv_bufsz (client a);
  wf_resp_len : 0 <= resp_buf_len (locals a);
  wf_resp : forall r, resp (client a) = Some r ->
    exists x b, responses a !! r = Some x /\ buf x = Some b /\ Z.of_nat (length b) = buf_size x
}.

(** A computation that succeeds and keeps the invariant. *)
Definition keeps {A} (P : A -> at_sys -> Prop) (m : M at_sys A) (a : at_sys) : Prop :=
  exists v a', m a = Ok (v, a') /\ at_wf a' /\ P v a'.

Lemma keeps_bind {A B} (P : A -> at_sys -> Prop) (Q : B -> at_sys -> Prop)
    (m : M at_sys A) (k : A -> M at_sys B) a :
  keeps P m a -> (forall v a', at_wf a' -> P v a' -> keeps Q (k v) a') -> keeps Q (m ≫= k) a.
Proof.
  intros (v & a' & Hm & Hw & HP) Hk. destruct (Hk v a' Hw HP) as (w & a2 & Hk2 & Hw2 & HQ).
  exists w, a2. unfold mbind, M_bind. by rewrite Hm.
Qed.

Lemma keeps_gets {A B} (Q : B -> at_sys -> Prop) (f : at_sys -> A) (k : A -> M at_sys B) a :
  keeps Q (k (f a)) a -> keeps Q (gets f ≫= k) a.
Proof. done. Qed.

Lemma keeps_modify {B} (Q : B -> at_sys -> Prop) f (k : unit -> M at_sys B) a :
  keeps Q (k tt) (f a) -> keeps Q (modify f ≫= k) a.
Proof. done. Qed.

Lemma keeps_ok {A B} (Q : B -> at_sys -> Prop) (m : M at_sys A) (k : A -> M at_sys B) a v a' :
  m a = Ok (v, a') -> keeps Q (k v) a' -> keeps Q (m ≫= k) a.
Proof. intros Hm (w & a2 & Hk & H). exists w, a2. unfold mbind, M_bind. by rewrite Hm. Qed.

Lemma keeps_lift {A B} (Q : B -> at_sys -> Prop) o (v : A) (k : A -> M at_sys B) a :
  o = Ok v -> keeps Q (k v) a -> keeps Q (lift o ≫= k) a.
Proof. by intros ->. Qed.

Lemma keeps_done {A} (Q : A -> at_sys -> Prop) (m : M at_sys A) a v a' :
  m a = Ok (v, a') -> at_wf a' -> Q v a' -> keeps Q m a.
Proof. intros. by exists v, a'. Qed.

Ltac keeps_run := repeat first [apply keeps_gets | apply keeps_modify]; cbv beta.

Lemma clear_recv_keeps a : at_wf a -> keeps (fun _ _ => True) clear_recv a.
Proof.
  intros []. eexists _, _. split; [done|]. split; [|done].
  split; cbn; rewrite ?length_replicate; done || lia.
Qed.

Lemma readline_start_keeps a : at_wf a -> keeps (fun _ _ => True) readline_start a.
Proof.
  intros []. eexists _, _. split; [done|]. split; [|done].
  split; cbn; rewrite ?length_replicate; done || lia.
Qed.

(** A positive result is the length of what the buffer holds. *)
Lemma readline_char_keeps ch a : at_wf a ->
  keeps (fun v a => forall len, v = Some len -> 0 < len -> 0 < cur_recv_len (client a)) (readline_char ch) a.
Proof.
  intros Hwf. unfold readline_char. keeps_run.
  eapply (keeps_bind (fun _ a => 0 < read_len (locals a) -> 0 < cur_recv_len (client a) \/ is_full (locals a) = true)).
  - destruct Hwf as []. destruct (Z.ltb_spec (read_len (locals a)) (recv_bufsz (client a))).
    + eapply keeps_lift; [apply zset_ok; lia|]. keeps_run. eapply keeps_done; [done| |cbn; lia].
      split; cbn; rewrite ?length_insert; done || lia.
    + eapply keeps_done; [done|by split|]. by right.
  - clear. intros [] a Hwf Hlen. keeps_run. destruct (_ || _ || _).
    + destruct (is_full (locals a)) eqn:Ef.
      * eapply keeps_bind; [by apply clear_recv_keeps|]. intros [] a' Hwf' _.
        eapply keeps_done; [done..|]. intros len [= <-]. unfold RT_EFULL. lia.
      * eapply keeps_done; [done..|]. intros len [= <-] Hp. destruct (Hlen Hp); [done|congruence].
    + keeps_run. eapply keeps_done; [done| |done]. destruct Hwf. by split.
Qed.

Lemma c_string_within b n : 0 < n -> n <= Z.of_nat (length b) -> b !! Z.to_nat (n - 1) = Some 0 ->
  exists s, c_string b 0 = Ok s.
Proof.
  intros Hn Hl Hz. unfold c_string. rewrite decide_True by lia. rewrite drop_0.
  revert n Hn Hl Hz. induction b as [|c b IH]; intros n Hn Hl Hz; cbn in Hl; [lia|]. cbn [string_of].
  destruct (Z.eqb_spec c 0); [by exists []|].
  destruct (decide (n = 1)) as [->|]; [by injection Hz|].
  destruct (IH (n - 1)) as (s & ->); [lia|lia| |by exists (c :: s)].
  replace (Z.to_nat (n - 1)) with (S (Z.to_nat (n - 1 - 1))) in Hz by lia. done.
Qed.

Lemma recv_begins_ok b s : (length s <= length b)%nat -> recv_begins b s = Ok (starts_with s b).
Proof. intros. unfold recv_begins. destruct (Nat.ltb_spec (length b) (length s)); [lia|done]. Qed.

Lemma get_resp_Some r x a : responses a !! r = Some x -> get_resp r a = Ok (x, a).
Proof. intros H. unfold get_resp. c_run. by rewrite H. Qed.

Lemma sem_release_total s : exists w s', rt_sem_release s = Ok (w, s').
Proof. unfold rt_sem_release. case_bool_decide; [|by eexists _, _]. by destruct (sem_suspend_thread s); [done|eexists _, _]. Qed.

Lemma finish_response_keeps r st a x b : at_wf a ->
  responses a !! r = Some x -> buf x = Some b -> Z.of_nat (length b) = buf_size x ->
  keeps (fun _ _ => True) (finish_response r st) a.
Proof.
  intros [] Hr Hb Hl. unfold finish_response. keeps_run.
  eapply keeps_ok; [by apply get_resp_Some|]. unfold put_resp. keeps_run.
  destruct (sem_release_total (resp_notice (client a))) as (w & s & Es).
  eapply keeps_lift; [exact Es|]. keeps_run. eapply keeps_done; [done| |done].
  split; cbn; done || lia.
Qed.

(** Storing the line, the first half of [response_line]. *)
Lemma response_line_keeps r a : at_wf a -> 0 < cur_recv_len (client a) -> resp (client a) = Some r ->
  keeps (fun _ _ => True) (response_line r) a.
Proof.
  intros Hwf Hc Hr. pose proof Hwf as []. destruct (wf_resp0 r Hr) as (x & b & Hx & Hb & Hbl).
  unfold response_line. keeps_run.
  set (line := <[Z.to_nat (cur_recv_len (client a) - 1) := 0]> (recv_buffer (client a))).
  assert (Z.of_nat (length line) = recv_bufsz (client a)) as Hline by (unfold line; by rewrite length_insert).
  eapply keeps_lift; [apply zset_ok; lia|]. keeps_run. fold line.
  eapply keeps_ok; [by apply get_resp_Some|]. cbn beta. keeps_run.
  eapply (keeps_bind (fun _ a' => exists x' b', responses a' !! r = Some x' /\ buf x' = Some b' /\
    Z.of_nat (length b') = buf_size x')).
  - cbn [locals upd]. destruct (Z.ltb_spec (resp_buf_len (locals a) + cur_recv_len (client a)) (buf_size x)).
    + unfold resp_array. rewrite Hb. eapply keeps_ok; [done|].
      destruct (memcpy_total b (resp_buf_len (locals a)) line 0 (cur_recv_len (client a))) as [d Hd]; [lia..|].
      pose proof (memcpy_length _ _ _ _ _ _ Hd).
      eapply keeps_lift; [exact Hd|]. unfold put_resp. keeps_run. eapply keeps_done; [done| |].
      * split; cbn; try done; try lia. rewrite Hr. intros r' [= <-]. eexists _, _. rewrite lookup_insert_eq.
        split_and!; [done|done|cbn; lia].
      * cbn. eexists _, _. rewrite lookup_insert_eq. split_and!; [done|done|cbn; lia].
    + eapply keeps_done; [done| |by exists x, b]. split; cbn; try done; lia.
  - clear - Hline Hc wf_bufsz0 wf_cur0 wf_read0. intros [] a' Hwf (x' & b' & Hx & Hb & Hl). keeps_run.
    eapply keeps_lift; [apply recv_begins_ok; cbn; lia|].
    destruct (_ && _); [by eapply finish_response_keeps|].
    destruct (c_string_within line (cur_recv_len (client a))) as [text Htext]; [lia|lia| |].
    { unfold line. apply list_lookup_insert_eq. unfold line in Hline. rewrite length_insert in Hline. lia. }
    eapply keeps_lift; [exact Htext|].
    eapply (keeps_bind (fun _ a => a = a')).
    + case_bool_decide; [by eexists _, _|].
      eexists _, _. split; [rewrite recv_begins_ok by (cbn; lia); done|done].
    + intros fail a2 _ ->. destruct fail; [by eapply finish_response_keeps|].
      destruct (_ && _); [by eapply finish_response_keeps|]. by eexists _, _.
Qed.

Lemma client_parser_line_keeps len a : at_wf a -> (0 < len -> 0 < cur_recv_len (client a)) ->
  keeps (fun _ _ => True) (client_parser_line len) a.
Proof.
  intros Hwf Hc. unfold client_parser_line. destruct (Z.gtb_spec len 0); [|by eexists _, _].
  keeps_run. destruct (get_urc_obj (client a)).
  - destruct (urc_func _); [|by eexists _, _]. eapply keeps_done; [done| |done]. destruct Hwf. by split.
  - destruct (resp (client a)) as [r|] eqn:Er; [|by eexists _, _]. apply response_line_keeps; auto.
Qed.

Lemma client_parser_keeps input : forall a, at_wf a -> keeps (fun _ _ => True) (client_parser input) a.
Proof.
  induction input as [|ch input IH]; intros a Hwf; cbn [client_parser]; [by eexists _, _|].
  eapply (keeps_bind (fun _ _ => True)); [|intros; by apply IH]. unfold client_parser_char.
  eapply keeps_bind; [by apply readline_char_keeps|]. clear a Hwf. intros [len|] a Hwf Hl; [|by eexists _, _].
  eapply keeps_bind; [by apply client_parser_line_keeps, Hl|].
  intros [] a2 Hwf2 _.
  by apply readline_start_keeps.
Qed.

(** ** What a response line does *)

(** A line as the response buffer holds it. *)
Definition stored (l : list Z) : list Z := l ++ [13; 0].
Definition stored_size (ls : list (list Z)) : Z := Z.of_nat (length (concat (stored <$> ls))).

(** The lines kept after [l] has arrived: one that does not fit is dropped. *)
Definition accept (base size : Z) (kept : list (list Z)) (l : list Z) : list (list Z) :=
  if base + stored_size kept + Z.of_nat (length (stored l)) <? size then kept ++ [l] else kept.

(** The status with which a line ends the response, [n] lines being stored. *)
Definition line_verdict (num n : Z) (l : list Z) : option at_resp_status :=
  if starts_with AT_RESP_END_OK l && (num =? 0) then Some AT_RESP_OK
  else if bool_decide (strstr (l ++ [13]) AT_RESP_END_ERROR <> None) || starts_with AT_RESP_END_FAIL l
  then Some AT_RESP_ERROR
  else if (n =? num) && negb (num =? 0) then Some AT_RESP_OK
  else None.

(** A line of text that fits the receive buffer. *)
Definition line_ok (bufsz : Z) (l : list Z) : Prop :=
  is_chars l /\ 10 ∉ l /\ Z.of_nat (length l) + 2 <= bufsz.

#[export] Instance line_ok_dec bufsz l : Decision (line_ok bufsz l).
Proof. unfold line_ok. apply _. Defined.

(** What the parser leaves alone. *)
Record parser_frame (r : Z) (a a' : at_sys) : Prop := {
  pf_tx : tx a' = tx a;
  pf_lock : lock (client a') = lock (client a);
  pf_device : device (client a') = device (client a);
  pf_bufsz : recv_bufsz (client a') = recv_bufsz (client a);
  pf_send : send_buf a' = send_buf a;
  pf_others : forall r', r' <> r -> responses a' !! r' = responses a !! r'
}.

(** The response [r] is awaited: [base] cells and [k] lines were counted before
    its lines, of which [kept] are stored. *)
Record awaits (r : Z) (x : at_response) (base k : Z) (kept : list (list Z)) (a : at_sys) : Prop := {
  aw_plain : plain_lines (client a);
  aw_resp : resp (client a) = Some r;
  aw_x : responses a !! r = Some (x <| buf := Some (replicate (Z.to_nat base) 0 ++
    concat (stored <$> kept) ++ replicate (Z.to_nat (buf_size x - base - stored_size kept)) 0) |>);
  aw_len : resp_buf_len (locals a) = base + stored_size kept;
  aw_lines : lines (locals a) = k + Z.of_nat (length kept);
  aw_reading : a = reading [] a
}.

(** The response is complete. *)
Record answered (r : Z) (x : at_response) (base k : Z) (kept : list (list Z)) (st : at_resp_status)
    (notice : rt_semaphore) (ready : list rt_thread) (a : at_sys) : Prop := {
  an_plain : plain_lines (client a);
  an_resp : resp (client a) = None;
  an_status : resp_status (client a) = st;
  an_x : responses a !! r = Some (x <| buf := Some (replicate (Z.to_nat base) 0 ++
    concat (stored <$> kept) ++ replicate (Z.to_nat (buf_size x - base - stored_size kept)) 0) |>
    <| line_counts := k + Z.of_nat (length kept) |>);
  an_len : resp_buf_len (locals a) = 0;
  an_lines : lines (locals a) = 0;
  an_reading : a = reading [] a;
  an_notice : exists woken s, rt_sem_release notice = Ok (woken, s) /\
    resp_notice (client a) = s /\ at_ready a = ready ++ woken
}.

Lemma starts_with_stored t l z : 13 ∉ t -> starts_with t (stored l ++ z) = starts_with t l.
Proof.
  intros Ht. apply eq_bool_prop_intro. rewrite !Is_true_true, !starts_with_true. unfold stored.
  rewrite <- app_assoc. cbn [app]. generalize (13 :: 0 :: z) (eq_refl : hd_error (13 :: 0 :: z) = Some 13).
  intros u Hu. split.
  - revert l. induction t as [|c t IH]; intros l Hp; [apply prefix_nil|].
    apply not_elem_of_cons in Ht as [Hc Ht]. destruct l as [|d l].
    + destruct u as [|e u]; [done|]. injection Hu as ->. destruct Hp as [? [= ? _]]. congruence.
    + destruct (prefix_cons_inv_1 _ _ _ _ Hp) as []. apply prefix_cons, IH; [done|].
      by eapply prefix_cons_inv_2.
  - intros [w ->]. rewrite <- app_assoc. by apply prefix_app_r.
Qed.

Lemma stored_cell l z : <[S (length l) := 0]> (wire l ++ z) = stored l ++ z.
Proof.
  unfold wire, stored. rewrite <- !app_assoc. cbn [app].
  rewrite insert_app_r_alt by lia. replace (S (length l) - length l)%nat with 1%nat by lia. done.
Qed.

Lemma c_string_stored l z : is_chars l -> c_string (stored l ++ z) 0 = Ok (l ++ [13]).
Proof.
  intros Hl. unfold c_string, stored. rewrite decide_True by lia. rewrite drop_0.
  replace ((l ++ [13; 0]) ++ z) with (nul (l ++ [13]) ++ z)
    by (unfold nul; by rewrite <- !app_assoc).
  apply string_of_nul. by apply Forall_app_2; [|repeat constructor].
Qed.

Lemma memcpy_append p m s z : (length s <= m)%nat ->
  memcpy (p ++ replicate m 0) (Z.of_nat (length p)) (s ++ z) 0 (Z.of_nat (length s)) =
    Ok (p ++ s ++ replicate (m - length s) 0).
Proof.
  intros Hm. rewrite memcpy_ok by (rewrite ?length_app, ?length_replicate; lia).
  rewrite !Nat2Z.id, drop_0, !take_app_length. do 3 f_equal.
  replace (Z.to_nat (Z.of_nat (length p) + Z.of_nat (length s))) with (length p + length s)%nat by lia.
  rewrite <- drop_drop, drop_app_length, drop_replicate. done.
Qed.

Lemma reading_nil pre a : reading [] (reading pre a) = reading [] a.
Proof. by destruct a as [[] []]. Qed.

(** Between two lines, field by field. *)
Definition between_lines (a : at_sys) : Prop :=
  recv_buffer (client a) = replicate (Z.to_nat (recv_bufsz (client a))) 0 /\
  cur_recv_len (client a) = 0 /\ read_len (locals a) = 0 /\ last_ch (locals a) = 0 /\
  is_full (locals a) = false.

Lemma reading_iff a : a = reading [] a <-> between_lines a.
Proof.
  destruct a as [[] []]. unfold reading, between_lines. cbn. rewrite Nat.sub_0_r. split.
  - intros [= -> -> -> -> ->]. done.
  - intros (-> & -> & -> & -> & ->). done.
Qed.

Lemma readline_start_reading a : readline_start a = Ok (tt, reading [] a).
Proof.
  destruct a as [[] []]. unfold readline_start, clear_recv, reading. c_run. cbn.
  by rewrite Nat.sub_0_r.
Qed.

Lemma client_parser_chars l : forall pre a, plain_lines (client a) -> 10 ∉ l ->
  Z.of_nat (length pre + length l) <= recv_bufsz (client a) ->
  client_parser l (reading pre a) = Ok (tt, reading (pre ++ l) a).
Proof.
  induction l as [|c l IH]; intros pre a Hp Hl Hb; cbn [client_parser].
  { by rewrite app_nil_r. }
  apply not_elem_of_cons in Hl as [Hc Hl]. cbn [length] in Hb.
  unfold client_parser_char. rewrite run_bind_bind.
  erewrite run_bind_ok by (rewrite readline_char_reading by (done || lia);
    destruct (Z.eqb_spec c 10); [congruence|]; reflexivity).
  cbn beta iota. rewrite run_bind_skip.
  rewrite IH by (rewrite ?length_app; cbn; done || lia). by rewrite <- app_assoc.
Qed.

Lemma client_parser_app l1 l2 a a' : client_parser l1 a = Ok (tt, a') ->
  client_parser (l1 ++ l2) a = client_parser l2 a'.
Proof.
  revert a. induction l1 as [|c l1 IH]; intros a; cbn [client_parser app].
  - by intros [= <-].
  - unfold mbind, M_bind. destruct (client_parser_char c a) as [[[] a1]| |]; [|done..]. apply IH.
Qed.

(** The parser thread when it has read a whole line. *)
Definition line_read (l : list Z) (a : at_sys) : at_sys :=
  (reading (wire l) a) <| locals := (locals (reading (wire l) a)) <| last_ch := 13 |> |>.

Lemma client_parser_wire l a : plain_lines (client a) -> 10 ∉ l ->
  Z.of_nat (length l) + 2 <= recv_bufsz (client a) ->
  client_parser (wire l) (reading [] a) =
    (client_parser_line (Z.of_nat (length l) + 2);; readline_start) (line_read l a).
Proof.
  intros Hp Hl Hb. unfold wire. replace (l ++ [13; 10]) with ((l ++ [13]) ++ [10]) by by rewrite <- app_assoc.
  erewrite client_parser_app by (apply client_parser_chars;
    [done|set_solver|rewrite length_app; cbn; lia]).
  cbn [app client_parser]. unfold client_parser_char. rewrite run_bind_bind.
  erewrite run_bind_ok by (rewrite readline_char_reading by (rewrite ?length_app; cbn; done || lia);
    rewrite last_snoc; reflexivity).
  cbn beta iota. rewrite run_bind_bind.
  replace (Z.of_nat (length (l ++ [13])) + 1) with (Z.of_nat (length l) + 2) by (rewrite length_app; cbn; lia).
  unfold line_read, wire. replace (l ++ [13; 10]) with ((l ++ [13]) ++ [10]) by by rewrite <- app_assoc.
  cbn [default]. unfold mbind, M_bind.
  destruct (client_parser_line _ _) as [[[] a1]| |]; [|done..]. by destruct (readline_start a1) as [[[] a2]| |].
Qed.

Lemma stored_size_snoc ls l : stored_size (ls ++ [l]) = stored_size ls + Z.of_nat (length (stored l)).
Proof. unfold stored_size. rewrite fmap_app, concat_app, length_app. cbn. rewrite app_nil_r. lia. Qed.

Lemma stored_size_nonneg ls : 0 <= stored_size ls.
Proof. unfold stored_size. lia. Qed.

(** A stored line replaces the zeros behind the lines before it. *)
Lemma store_next x base kept l z :
  0 <= base -> base + stored_size kept + Z.of_nat (length (stored l)) < buf_size x ->
  memcpy (replicate (Z.to_nat base) 0 ++ concat (stored <$> kept) ++
      replicate (Z.to_nat (buf_size x - base - stored_size kept)) 0)
    (base + stored_size kept) (stored l ++ z) 0 (Z.of_nat (length (stored l))) =
  Ok (replicate (Z.to_nat base) 0 ++ concat (stored <$> (kept ++ [l])) ++
      replicate (Z.to_nat (buf_size x - base - stored_size (kept ++ [l]))) 0).
Proof.
  intros Hb Hl. pose proof (stored_size_nonneg kept). rewrite app_assoc.
  replace (base + stored_size kept)
    with (Z.of_nat (length (replicate (Z.to_nat base) 0 ++ concat (stored <$> kept))))
    by (unfold stored_size; rewrite length_app, length_replicate; lia).
  rewrite memcpy_append by lia. rewrite stored_size_snoc, fmap_app, concat_app. cbn.
  rewrite app_nil_r, <- !app_assoc. do 5 f_equal. lia.
Qed.

Section Line.
Context (r : Z) (x : at_response) (base k : Z) (kept : list (list Z)) (l : list Z) (a : at_sys).
Context (Ha : awaits r x base k kept a) (Hbase : 0 <= base) (Hbufsz : 4 <= recv_bufsz (client a)).
Context (Hl : line_ok (recv_bufsz (client a)) l).

Definition kept' : list (list Z) := accept base (buf_size x) kept l.
Definition spare : list Z := replicate (Z.to_nat (recv_bufsz (client a)) - length (wire l)) 0.

(** The state once the line is stored or dropped. *)
Definition line_stored : at_sys :=
  (line_read l a) <| client := (client (line_read l a)) <| recv_buffer := stored l ++ spare |>
      <| resp_status := if decide (kept' = kept) then AT_RESP_BUFF_FULL else resp_status (client a) |> |>
    <| locals := (locals (line_read l a)) <| resp_buf_len := base + stored_size kept' |>
      <| lines := k + Z.of_nat (length kept') |> |>
    <| responses := <[r := x <| buf := Some (replicate (Z.to_nat base) 0 ++
        concat (stored <$> kept') ++ replicate (Z.to_nat (buf_size x - base - stored_size kept')) 0) |>]>
        (responses a) |>.

Lemma accept_cases :
  (kept' = kept ++ [l] /\ kept' <> kept /\ base + stored_size kept + Z.of_nat (length (stored l)) < buf_size x) \/
  (kept' = kept /\ buf_size x <= base + stored_size kept + Z.of_nat (length (stored l))).
Proof.
  unfold kept', accept. destruct (Z.ltb_spec (base + stored_size kept + Z.of_nat (length (stored l))) (buf_size x)).
  - left. split_and!; [done| |done]. intros E%(f_equal length). rewrite length_app in E. cbn in E. lia.
  - by right.
Qed.

(** The second half of [response_line]: the verdict on the line. *)
Definition judge : M at_sys unit :=
  n ← gets (fun a => lines (locals a));
  ok ← lift (recv_begins (stored l ++ spare) AT_RESP_END_OK);
  if ok && (line_num x =? 0) then finish_response r AT_RESP_OK else
  text ← lift (c_string (stored l ++ spare) 0);
  fail ← (if bool_decide (strstr text AT_RESP_END_ERROR <> None) then mret true
          else lift (recv_begins (stored l ++ spare) AT_RESP_END_FAIL));
  if fail : bool then finish_response r AT_RESP_ERROR
  else if (n =? line_num x) && negb (line_num x =? 0) then finish_response r AT_RESP_OK
  else skip.

Lemma response_line_stores : response_line r (line_read l a) = judge line_stored.
Proof using Ha Hbase Hbufsz Hl.
  destruct Ha as [[He Hu] Hr Hx Hrl Hln Hrd]. destruct Hl as (Hc & H10 & Hlen).
  pose proof (stored_size_nonneg kept) as Hsz.
  unfold response_line. rewrite run_bind_gets.
  assert (cur_recv_len (client (line_read l a)) = Z.of_nat (length l) + 2) as Hcur.
  { unfold line_read, wire. cbn. rewrite length_app. cbn. lia. }
  assert (recv_buffer (client (line_read l a)) = wire l ++ spare) as Hbuf by done.
  rewrite Hcur, Hbuf. rewrite zset_ok.
  2: { unfold wire. rewrite !length_app. cbn. lia. }
  replace (Z.to_nat (Z.of_nat (length l) + 2 - 1)) with (S (length l)) by lia. rewrite stored_cell.
  rewrite run_bind_lift, run_bind_modify.
  erewrite run_bind_ok by (apply get_resp_Some; exact Hx). cbn beta. rewrite run_bind_gets.
  set (b := (line_read l a) <| client := (client (line_read l a)) <| recv_buffer := stored l ++ spare |> |>).
  assert (resp_buf_len (locals b) = base + stored_size kept) as -> by exact Hrl.
  change (buf_size (x <| buf := _ |>)) with (buf_size x).
  replace (Z.of_nat (length l) + 2) with (Z.of_nat (length (stored l)))
    by (unfold stored; rewrite length_app; cbn; lia).
  unfold judge, line_stored.
  destruct accept_cases as [(Ek & Hne & Hfit)|[Ek Hfull]].
  - destruct (Z.ltb_spec (base + stored_size kept + Z.of_nat (length (stored l))) (buf_size x)); [|lia].
    unfold resp_array. cbn [buf upd]. rewrite run_bind_bind, run_bind_ret.
    rewrite store_next by done. rewrite run_bind_bind, run_bind_lift.
    unfold put_resp. c_run. rewrite decide_False by done. rewrite Ek.
    destruct a as [[] [] ? ? ? ? ? ? ? ?]. cbn in *. subst.
    rewrite stored_size_snoc, length_app, Nat2Z.inj_add, !Z.add_assoc. done.
  - destruct (Z.ltb_spec (base + stored_size kept + Z.of_nat (length (stored l))) (buf_size x)); [lia|].
    rewrite Ek, decide_True by done. c_run.
    destruct a as [[] [] ? ? ? rs ? ? ? ?]. cbn in *. subst.
    by rewrite (insert_id rs r _ Hx).
Qed.
Lemma judge_verdict : judge line_stored =
  match line_verdict (line_num x) (k + Z.of_nat (length kept')) l with
  | Some st => finish_response r st line_stored
  | None => Ok (tt, line_stored)
  end.
Proof using Ha Hbase Hbufsz Hl.
  destruct Hl as (Hc & _ & Hlen). unfold judge. rewrite run_bind_gets.
  assert (4 <= length (stored l ++ spare))%nat.
  { unfold stored, spare, wire. rewrite !length_app, length_replicate. cbn. lia. }
  rewrite !recv_begins_ok by (cbn; lia). rewrite !starts_with_stored by (unfold AT_RESP_END_OK, AT_RESP_END_FAIL; set_solver).
  rewrite run_bind_lift, c_string_stored by done.
  change (lines (locals line_stored)) with (k + Z.of_nat (length kept')). unfold line_verdict.
  destruct (_ && (line_num x =? 0)); [done|]. rewrite run_bind_lift.
  destruct (bool_decide (strstr _ _ <> None)); cbn [orb]; [by rewrite run_bind_ret|].
  rewrite run_bind_lift. destruct (starts_with AT_RESP_END_FAIL l); [done|].
  by destruct ((_ =? line_num x) && _).
Qed.
End Line.

Lemma finish_response_run r st b x woken s : responses b !! r = Some x ->
  rt_sem_release (resp_notice (client b)) = Ok (woken, s) ->
  finish_response r st b = Ok (tt,
    b <| client := (client b) <| resp_status := st |> <| resp := None |> <| resp_notice := s |> |>
      <| responses := <[r := x <| line_counts := lines (locals b) |>]> (responses b) |>
      <| at_ready := at_ready b ++ woken |>
      <| locals := (locals b) <| resp_buf_len := 0 |> <| lines := 0 |> |>).
Proof.
  intros Hx Hs. unfold finish_response. rewrite run_bind_modify.
  erewrite run_bind_ok by (apply get_resp_Some; exact Hx). cbn beta. unfold put_resp. c_run.
  destruct b as [[] []]. cbn in Hs |- *. rewrite Hs. rewrite run_bind_lift. by c_run.
Qed.

(** One line of the response: stored or dropped, and either the response goes on
    or it is complete. *)
Lemma await_line r x base k kept l a :
  awaits r x base k kept a -> 0 <= base -> 4 <= recv_bufsz (client a) ->
  line_ok (recv_bufsz (client a)) l ->
  let kept := accept base (buf_size x) kept l in
  exists a', client_parser (wire l) a = Ok (tt, a') /\ parser_frame r a a' /\
    match line_verdict (line_num x) (k + Z.of_nat (length kept)) l with
    | None => awaits r x base k kept a' /\ resp_notice (client a') = resp_notice (client a) /\
        at_ready a' = at_ready a
    | Some st => answered r x base k kept st (resp_notice (client a)) (at_ready a) a'
    end.
Proof.
  intros Ha Hbase Hbufsz Hl k'. pose proof (aw_plain _ _ _ _ _ _ Ha) as Hp.
  pose proof (aw_resp _ _ _ _ _ _ Ha) as Hr. assert (client_parser (wire l) a = client_parser (wire l) (reading [] a)) as ->
    by (f_equal; exact (aw_reading _ _ _ _ _ _ Ha)).
  rewrite client_parser_wire by (apply Hl || done).
  unfold client_parser_line. destruct (Z.gtb_spec (Z.of_nat (length l) + 2) 0); [|lia].
  rewrite run_bind_bind, run_bind_gets.
  assert (get_urc_obj (client (line_read l a)) = None) as -> by (unfold get_urc_obj; destruct Hp as [_ Hu]; by cbn; rewrite Hu).
  change (resp (client (line_read l a))) with (resp (client a)). rewrite Hr.
  unfold mbind, M_bind. rewrite (response_line_stores r x base k kept l a Ha Hbase Hbufsz Hl).
  rewrite (judge_verdict r x base k kept l a Ha Hbase Hbufsz Hl).
  change (kept' x base kept l) with k'. set (b := line_stored r x base k kept l a).
  assert (responses b !! r = Some (x <| buf := Some (replicate (Z.to_nat base) 0 ++
    concat (stored <$> k') ++ replicate (Z.to_nat (buf_size x - base - stored_size k')) 0) |>)) as Hx
    by apply lookup_insert_eq.
  destruct (line_verdict _ _ l) as [st|].
  - destruct (sem_release_total (resp_notice (client a))) as (woken & s & Es).
    rewrite (finish_response_run r st b _ woken s Hx Es), readline_start_reading.
    eexists. split; [done|]. split.
    + split; try done. intros r' Hne. cbn. by rewrite !lookup_insert_ne by congruence.
    + split; try done; [|by exists woken, s].
      cbn. by rewrite lookup_insert_eq.
  - rewrite readline_start_reading. eexists. split; [done|]. split; [|split; [|done]].
    + split; try done. intros r' Hne. cbn. by rewrite lookup_insert_ne by congruence.
    + by split.
Qed.

(** ** Whole responses *)

(** The lines of a response up to the one that completes it: the status, and the
    lines stored. *)
Fixpoint response_run (x : at_response) (base k : Z) (kept ls : list (list Z)) :
    option (at_resp_status * list (list Z)) :=
  match ls with
  | [] => None
  | l :: ls =>
      let kept := accept base (buf_size x) kept l in
      match line_verdict (line_num x) (k + Z.of_nat (length kept)) l with
      | Some st => match ls with [] => Some (st, kept) | _ :: _ => None end
      | None => response_run x base k kept ls
      end
  end.

Lemma response_run_ext x y base k kept ls : buf_size x = buf_size y -> line_num x = line_num y ->
  response_run x base k kept ls = response_run y base k kept ls.
Proof.
  intros Hb Hn. revert kept. induction ls as [|l ls IH]; intros kept; [done|]. cbn [response_run].
  rewrite Hb, Hn. destruct (line_verdict _ _ l); [done|apply IH].
Qed.

(** The kept lines are some of the received ones, in order. *)
Lemma response_run_keeps x base k ls st kept2 : forall kept,
  response_run x base k kept ls = Some (st, kept2) -> exists l, kept2 = kept ++ l /\ sublist l ls.
Proof.
  induction ls as [|l ls IH]; intros kept; cbn [response_run]; [done|].
  assert (exists d, accept base (buf_size x) kept l = kept ++ d /\ sublist d [l]) as (d & Hd & Hs).
  { unfold accept. destruct (_ <? _); [by exists [l]|]. exists []. rewrite app_nil_r. split; [done|]. apply sublist_nil_l. }
  rewrite Hd. destruct (line_verdict _ _ l).
  - destruct ls; [|done]. intros [= <- <-]. by exists d.
  - intros (l2 & -> & Hl2)%IH. exists (d ++ l2). split; [by rewrite app_assoc|].
    change (l :: ls) with ([l] ++ ls). by apply sublist_app.
Qed.

Lemma response_run_sublist x base k kept ls st kept2 :
  response_run x base k kept ls = Some (st, kept2) -> sublist kept [] -> sublist kept2 ls.
Proof.
  intros (l & -> & Hl)%response_run_keeps ->%sublist_nil_r. done.
Qed.

(** The bytes of the lines on the wire. *)
Definition wire_lines (ls : list (list Z)) : list Z := concat (wire <$> ls).

Lemma parser_frame_trans r a b c : parser_frame r a b -> parser_frame r b c -> parser_frame r a c.
Proof. intros [] []. split; try congruence. intros r' Hr'. by rewrite pf_others1, pf_others0. Qed.

Lemma client_parser_lines l ls a a' : client_parser (wire l) a = Ok (tt, a') ->
  client_parser (wire_lines (l :: ls)) a = client_parser (wire_lines ls) a'.
Proof. intros H. unfold wire_lines. cbn. by apply client_parser_app. Qed.

Lemma await_lines r x base k ls st kept2 : 0 <= base -> forall kept a,
  awaits r x base k kept a -> 4 <= recv_bufsz (client a) ->
  Forall (line_ok (recv_bufsz (client a))) ls ->
  response_run x base k kept ls = Some (st, kept2) ->
  exists a', client_parser (wire_lines ls) a = Ok (tt, a') /\ parser_frame r a a' /\
    answered r x base k kept2 st (resp_notice (client a)) (at_ready a) a'.
Proof.
  intros Hbase. induction ls as [|l ls IH]; intros kept a Ha Hsz Hls; cbn [response_run]; [done|].
  apply Forall_cons in Hls as [Hl Hls].
  destruct (await_line r x base k kept l a Ha Hbase Hsz Hl) as (a1 & E & Hf & Hv).
  rewrite (client_parser_lines _ _ _ _ E). destruct (line_verdict _ _ l) as [st'|].
  - destruct ls; [|done]. intros [= <- <-]. by exists a1.
  - destruct Hv as (Ha1 & Hn & Hr). intros Hrun. pose proof (pf_bufsz _ _ _ Hf) as Hb.
    destruct (IH _ a1 Ha1) as (a2 & E2 & Hf2 & Han); [lia|by rewrite Hb|done|].
    exists a2. split_and!; [done|by eapply parser_frame_trans|]. by rewrite <- Hn, <- Hr.
Qed.

(** Some lines of a response that does not complete. *)
Fixpoint partial_run (x : at_response) (base k : Z) (kept ls : list (list Z)) : option (list (list Z)) :=
  match ls with
  | [] => Some kept
  | l :: ls =>
      let kept := accept base (buf_size x) kept l in
      match line_verdict (line_num x) (k + Z.of_nat (length kept)) l with
      | Some _ => None
      | None => partial_run x base k kept ls
      end
  end.

Lemma partial_run_ext x y base k kept ls : buf_size x = buf_size y -> line_num x = line_num y ->
  partial_run x base k kept ls = partial_run y base k kept ls.
Proof.
  intros Hb Hn. revert kept. induction ls as [|l ls IH]; intros kept; [done|]. cbn [partial_run].
  rewrite Hb, Hn. destruct (line_verdict _ _ l); [done|apply IH].
Qed.

Lemma await_partial r x base k ls kept2 : 0 <= base -> forall kept a,
  awaits r x base k kept a -> 4 <= recv_bufsz (client a) ->
  Forall (line_ok (recv_bufsz (client a))) ls ->
  partial_run x base k kept ls = Some kept2 ->
  exists a', client_parser (wire_lines ls) a = Ok (tt, a') /\ parser_frame r a a' /\
    awaits r x base k kept2 a' /\ resp_notice (client a') = resp_notice (client a).
Proof.
  intros Hbase. induction ls as [|l ls IH]; intros kept a Ha Hsz Hls; cbn [partial_run].
  { intros [= <-]. by exists a. }
  apply Forall_cons in Hls as [Hl Hls].
  destruct (await_line r x base k kept l a Ha Hbase Hsz Hl) as (a1 & E & Hf & Hv).
  rewrite (client_parser_lines _ _ _ _ E). destruct (line_verdict _ _ l) as [st'|]; [done|].
  destruct Hv as (Ha1 & Hn & Hr). intros Hrun. pose proof (pf_bufsz _ _ _ Hf) as Hb.
  destruct (IH _ a1 Ha1) as (a2 & E2 & Hf2 & Ha2 & Hn2); [lia|by rewrite Hb|done|].
  exists a2. split_and!; [done|by eapply parser_frame_trans|done|congruence].
Qed.

(** ** Reading the lines back *)
Lemma c_string_at p l z : is_chars l ->
  c_string (p ++ stored l ++ z) (Z.of_nat (length p)) = Ok (l ++ [13]).
Proof.
  intros Hl. rewrite <- (c_string_stored l z Hl). unfold c_string.
  rewrite !decide_True by lia. by rewrite Nat2Z.id, drop_app_length, drop_0.
Qed.

Lemma stored_split kept j l z : kept !! j = Some l ->
  concat (stored <$> kept) ++ z =
    concat (stored <$> take j kept) ++ stored l ++ (concat (stored <$> drop (S j) kept) ++ z).
Proof.
  intros Hj. rewrite <- (take_drop_middle kept j l Hj) at 1.
  by rewrite fmap_app, concat_app, fmap_cons, <- app_assoc; cbn; rewrite <- app_assoc.
Qed.

Lemma stored_size_take kept j l : kept !! j = Some l ->
  stored_size (take (S j) kept) = stored_size (take j kept) + Z.of_nat (length (l ++ [13])) + 1.
Proof.
  intros Hj. rewrite (take_S_r _ _ _ Hj), stored_size_snoc. unfold stored.
  rewrite !length_app. cbn. lia.
Qed.

Lemma get_line_loop_ok kept z i n : Forall is_chars kept -> (i < length kept)%nat ->
  forall j, (j <= i)%nat -> (i < n + j)%nat ->
  get_line_loop n (concat (stored <$> kept) ++ z) (stored_size (take j kept))
    (Z.of_nat j + 1) (Z.of_nat i + 1) = Ok (Some (stored_size (take i kept))).
Proof.
  intros Hc Hi. induction n as [|n IH]; intros j Hj Hn; cbn [get_line_loop]; [lia|].
  destruct (Z.eqb_spec (Z.of_nat i + 1) (Z.of_nat j + 1)) as [E|E].
  - assert (i = j) as -> by lia. done.
  - destruct (lookup_lt_is_Some_2 kept j) as [l Hl]; [lia|].
    rewrite (stored_split kept j l z Hl) at 1. unfold stored_size at 1.
    rewrite c_string_at by (by eapply Forall_lookup_1). cbn [mbind outcome_bind].
    fold (stored_size (take j kept)). rewrite <- (stored_size_take _ _ _ Hl).
    replace (Z.of_nat j + 1 + 1) with (Z.of_nat (S j) + 1) by lia. apply IH; lia.
Qed.

(** The stored lines, by number. *)
Lemma at_resp_get_line_ok r x kept z a i l :
  responses a !! r = Some x -> buf x = Some (concat (stored <$> kept) ++ z) ->
  line_counts x = Z.of_nat (length kept) -> Forall is_chars kept -> kept !! i = Some l ->
  exists off, at_resp_get_line r (Z.of_nat i + 1) a = Ok (Some off, a) /\
    c_string (concat (stored <$> kept) ++ z) off = Ok (l ++ [13]).
Proof.
  intros Hx Hb Hn Hc Hi. pose proof (lookup_lt_Some _ _ _ Hi) as Hlt.
  exists (stored_size (take i kept)). split.
  - unfold at_resp_get_line. erewrite run_bind_ok by (apply get_resp_Some; exact Hx). cbn beta.
    rewrite Hn. destruct (Z.gtb_spec (Z.of_nat i + 1) (Z.of_nat (length kept))); [lia|].
    destruct (Z.leb_spec (Z.of_nat i + 1) 0); [lia|]. cbn [orb]. unfold resp_array. rewrite Hb, run_bind_ret.
    pose proof (get_line_loop_ok kept z i (Z.to_nat (Z.of_nat (length kept))) Hc Hlt O) as E.
    change (stored_size (take 0 kept)) with 0 in E. change (Z.of_nat 0 + 1) with 1 in E.
    unfold lift. by rewrite E by lia.
  - rewrite (stored_split kept i l z Hi). unfold stored_size. apply c_string_at. by eapply Forall_lookup_1.
Qed.

(** ** The properties *)

(** C3: Whatever bytes arrive, in whatever lines and with whatever URC table and end sign, the parser thread never reads or writes outside the receive buffer or the response buffer and keeps its invariant: the receive length stays within the receive buffer, and the response being filled stays a live object whose buffer has the size it was created with. *)
Theorem at_parser_safe a input : at_wf a ->
  exists a', client_parser input a = Ok (tt, a') /\ at_wf a'.
Proof.
  intros Hwf. destruct (client_parser_keeps input a Hwf) as ([] & a' & E & Hwf' & _). by exists a'.
Qed.

(** A client with a 16-byte receive buffer whose response, of 8 bytes, is awaited. *)
Definition filling_at : at_sys :=
  MkAt (MkClient true AT_STATUS_INITIALIZED 62 (replicate 16 0) 16 0
          (rt_sem_init 0 RT_IPC_FLAG_FIFO) (rt_mutex_init RT_IPC_FLAG_FIFO (fun _ => 10)) (Some 1)
          (rt_sem_init 0 RT_IPC_FLAG_FIFO) AT_RESP_OK (Some [MkUrc [43] [13; 10] true]))
    (MkLocals 0 0 0 0 false) [] (replicate 128 0) 0
    {[1 := MkResp (Some (replicate 8 0)) 8 0 0 500]} 2 [] [] [].

Lemma at_parser_safe_witness :
  exists a', client_parser [65; 13; 10; 43; 13; 10; 62; 79; 75; 13; 10] filling_at = Ok (tt, a') /\ at_wf a'.
Proof.
  apply (at_parser_safe filling_at). split; try done; try (cbn; lia).
  intros r [= <-]. by eexists _, _.
Defined.
