(* ===== verification/AtExchange.v ===== *)
(** * AT commands and their responses (src/pck/at/src/at_client.c)

    The thread that executes a command and the parser thread together: what
    [at_obj_exec_cmd] puts on the line, what the parser makes of the answer, what
    the caller gets back, and what a timeout leaves behind. *)
From stdpp Require Import gmap.
From S2P Require Import Prelude CString Ipc IpcMutex AtClient.

(** ** The mutex and the command buffer *)
Record lock_free (m : rt_mutex) : Prop := {
  lf_value : mx_value m = 1;
  lf_owner : mx_owner m = None;
  lf_hold : mx_hold m = 0;
  lf_waiters : mx_suspend_thread m = []
}.

Record lock_held (t : Z) (m : rt_mutex) : Prop := {
  lh_value : mx_value m = 0;
  lh_owner : mx_owner m = Some t;
  lh_hold : mx_hold m = 1;
  lh_waiters : mx_suspend_thread m = []
}.

Lemma take_free t time m : lock_free m ->
  exists m', rt_mutex_take t time m = Ok (IpcReturn RT_EOK, m') /\ lock_held t m'.
Proof.
  intros [Hv Ho Hh Hw]. unfold rt_mutex_take. rewrite Ho. unfold rt_mutex_take_again. rewrite Hv.
  eexists. split; [done|]. split; cbn; by rewrite ?Hv, ?Hh.
Qed.

Lemma release_held t m : lock_held t m ->
  exists m', rt_mutex_release t m = Ok (RT_EOK, [], m') /\ lock_free m'.
Proof.
  intros [Hv Ho Hh Hw]. unfold rt_mutex_release. rewrite Ho, bool_decide_false by naive_solver.
  cbn -[u8]. rewrite Hh. change (u8 (1 - 1)) with 0. cbv iota.
  change (0 =? 0) with true. cbv iota. destruct (negb _); cbn -[u16]; rewrite Hw;
    (eexists; split; [done|split; cbn; by rewrite ?Hv]).
Qed.

Lemma device_write_run b n a : 0 <= n -> n <= Z.of_nat (length b) ->
  device_write b n a = Ok (tt, a <| tx := tx a ++ take (Z.to_nat n) b |>).
Proof.
  intros Hn Hl. unfold device_write. rewrite memcpy_ok by (rewrite ?length_replicate; lia).
  rewrite run_bind_lift. unfold modify. do 2 f_equal. destruct a. cbn.
  rewrite drop_replicate, Nat.sub_diag. cbn. by rewrite drop_0, app_nil_r.
Qed.

(** A command of fewer than AT_CMD_MAX_LEN characters goes out whole. *)
Lemma at_vprintfln_run fmt out a : format_output fmt = Ok out ->
  Z.of_nat (length out) < AT_CMD_MAX_LEN -> Z.of_nat (length (send_buf a)) = AT_CMD_MAX_LEN ->
  exists b, at_vprintfln fmt a = Ok (tt,
    a <| send_buf := b |> <| last_cmd_len := Z.of_nat (length out) |>
      <| tx := tx a ++ out ++ [13; 10] |>) /\ Z.of_nat (length b) = AT_CMD_MAX_LEN.
Proof.
  unfold AT_CMD_MAX_LEN. intros Hf Hl Hs. unfold at_vprintfln, at_vprintf. rewrite Hf. c_run.
  assert (take (Z.to_nat (AT_CMD_MAX_LEN - 1)) out = out) as -> by (apply take_ge; unfold AT_CMD_MAX_LEN; lia).
  destruct (memcpy_total (send_buf a) 0 (out ++ [0]) 0 (Z.of_nat (length (out ++ [0])))) as [b Hb];
    [rewrite ?length_app; cbn; lia..|].
  pose proof (memcpy_length _ _ _ _ _ _ Hb) as Hbl. rewrite Hb. c_run.
  assert (take (length out) b = out) as Hout.
  { rewrite memcpy_ok in Hb by (rewrite ?length_app; cbn; lia). injection Hb as <-.
    rewrite drop_0, Nat2Z.id. change (take (Z.to_nat 0) (send_buf a)) with ([] : list Z).
    cbn [app]. rewrite firstn_all. by rewrite <- app_assoc, take_app_length. }
  erewrite run_bind_ok by (apply device_write_run; lia). cbn beta.
  rewrite device_write_run by (cbn; lia). exists b. split; [|lia]. do 2 f_equal.
  destruct a. cbn. rewrite Nat2Z.id, Hout. by rewrite <- app_assoc.
Qed.

(** ** Between two commands *)

(** No command is being executed; [base] cells and [k] lines are left over in
    the parser's counters. *)
Record at_idle (base k : Z) (a : at_sys) : Prop := {
  id_device : device (client a) = true;
  id_plain : plain_lines (client a);
  id_bufsz : 4 <= recv_bufsz (client a);
  id_lock : lock_free (lock (client a));
  id_resp : resp (client a) = None;
  id_notice : sem_value (resp_notice (client a)) = 0 /\ sem_suspend_thread (resp_notice (client a)) = [];
  id_send : Z.of_nat (length (send_buf a)) = AT_CMD_MAX_LEN;
  id_len : resp_buf_len (locals a) = base;
  id_lines : lines (locals a) = k;
  id_reading : a = reading [] a
}.

(** A thread waits for the response. *)
Record at_waiting (th : rt_thread) (a : at_sys) : Prop := {
  wt_device : device (client a) = true;
  wt_lock : lock_held (tid th) (lock (client a));
  wt_notice : sem_value (resp_notice (client a)) = 0 /\ sem_suspend_thread (resp_notice (client a)) = [th];
  wt_status : resp_status (client a) = AT_RESP_OK;
  wt_send : Z.of_nat (length (send_buf a)) = AT_CMD_MAX_LEN
}.

(** A response object as [at_create_resp] makes it. *)
Definition fresh_resp (x : at_response) : Prop :=
  0 <= buf_size x /\ buf x = Some (replicate (Z.to_nat (buf_size x)) 0).

Definition waiting_thread (self : rt_thread) : rt_thread := self <| error := RT_EOK |>.

(** The command is out and the caller is about to wait. *)
Definition sent (r : Z) (x : at_response) (out : list Z) (m : rt_mutex) (b : list Z) (a : at_sys) : at_sys :=
  a <| client := (client a) <| lock := m |> <| resp_status := AT_RESP_OK |> <| resp := Some r |> |>
    <| send_buf := b |> <| last_cmd_len := Z.of_nat (length out) |>
    <| tx := tx a ++ out ++ [13; 10] |>
    <| responses := <[r := x <| line_counts := 0 |>]> (responses a) |>.

Lemma exec_sends self r x cmd out a :
  device (client a) = true -> lock_free (lock (client a)) ->
  Z.of_nat (length (send_buf a)) = AT_CMD_MAX_LEN ->
  responses a !! r = Some x -> format_output cmd = Ok out -> Z.of_nat (length out) < AT_CMD_MAX_LEN ->
  exists m b, at_obj_exec_cmd self (Some r) cmd a = wait_response self (timeout x) (sent r x out m b a) /\
    lock_held (tid self) m /\ Z.of_nat (length b) = AT_CMD_MAX_LEN.
Proof.
  intros Hd Hlk Hs Hx Hf Hlen. unfold at_obj_exec_cmd. rewrite run_bind_gets, Hd. cbn [negb]. rewrite run_bind_gets.
  destruct (take_free (tid self) RT_WAITING_FOREVER _ Hlk) as (m & Hm & Hheld). rewrite Hm, run_bind_lift.
  rewrite run_bind_modify. unfold at_obj_exec_cmd_locked. rewrite !run_bind_modify.
  match goal with |- context [(at_vprintfln cmd ≫= _) ?s] => set (s1 := s) end.
  destruct (at_vprintfln_run cmd out s1 Hf Hlen Hs) as (b & Hsb & Hsl).
  erewrite run_bind_ok by exact Hsb. cbn beta.
  erewrite run_bind_ok by (apply get_resp_Some; exact Hx). cbn beta. unfold put_resp. rewrite run_bind_modify.
  exists m, b. split; [|done]. by destruct a.
Qed.

Lemma exec_starts self r x cmd out base k a :
  at_idle base k a -> 0 <= base <= buf_size x -> responses a !! r = Some x -> fresh_resp x ->
  timeout x <> 0 -> format_output cmd = Ok out -> Z.of_nat (length out) < AT_CMD_MAX_LEN ->
  exists a1, at_obj_exec_cmd self (Some r) cmd a = Ok (ExecResponse, a1) /\
    tx a1 = tx a ++ out ++ [13; 10] /\
    awaits r (x <| line_counts := 0 |>) base k [] a1 /\ at_waiting (waiting_thread self) a1 /\
    recv_bufsz (client a1) = recv_bufsz (client a) /\ at_ready a1 = at_ready a /\
    (forall r', r' <> r -> responses a1 !! r' = responses a !! r').
Proof.
  intros [Hd Hp Hb Hlk Hr [Hn0 Hn1] Hs Hl Hk Hrd%reading_iff] Hbase Hx [Hx0 Hxb] Ht Hf Hlen.
  destruct (exec_sends self r x cmd out a Hd Hlk Hs Hx Hf Hlen) as (m & b & -> & Hheld & Hsl).
  unfold wait_response. rewrite run_bind_gets. change (resp_notice (client (sent _ _ _ _ _ a))) with (resp_notice (client a)).
  unfold rt_sem_take. rewrite Hn0. change (0 >? 0) with false. cbv iota. destruct (Z.eqb_spec (timeout x) 0); [done|].
  c_run. eexists. split; [done|]. split; [done|].
  destruct a as [[] [] ? ? ? rs ? ? ? ?]. cbn in *. subst. split_and!; try done.
  - split; try done; cbn; change (stored_size []) with 0; try lia; [|by apply reading_iff].
    rewrite lookup_insert_eq. do 2 f_equal. unfold fresh_resp in *. cbn.
    destruct x. cbn in *. rewrite Hxb. do 2 f_equal. rewrite <- replicate_add.
    replace (Z.to_nat base + Z.to_nat (buf_size - base - 0))%nat with (Z.to_nat buf_size) by lia. done.
  - split; try done. cbn. rewrite Hn1. by destruct (sem_flag _).
  - intros r' Hne. cbn. by rewrite lookup_insert_ne by congruence.
Qed.

Definition exec_result (err : Z) (st : at_resp_status) : Z :=
  if negb (err =? RT_EOK) then - RT_ETIMEOUT else if bool_decide (st <> AT_RESP_OK) then - RT_ERROR else RT_EOK.

Lemma exec_finishes t err a : lock_held t (lock (client a)) ->
  exists m st, exec_response t err a = Ok (exec_result err (resp_status (client a)),
    a <| client := (client a) <| resp_status := st |> <| resp := None |> <| lock := m |> |>) /\
    lock_free m.
Proof.
  intros Hl. destruct (release_held t _ Hl) as (m & Hm & Hfree). exists m.
  unfold exec_response, exec_result, exec_exit, release_lock.
  destruct (negb (err =? RT_EOK)); [exists AT_RESP_TIMEOUT|exists (resp_status (client a)); rewrite run_bind_gets;
    destruct (bool_decide _)]; (split; [|done]); c_run; cbn [client lock upd];
    match goal with |- context [rt_mutex_release t ?l] => change l with (lock (client a)) end;
    rewrite Hm; c_run; destruct a as [[] []]; unfold upd; cbn; by rewrite app_nil_r.
Qed.

(** The answer wakes the waiting thread. *)
Lemma release_waiting th s : sem_value s = 0 /\ sem_suspend_thread s = [th] ->
  exists s', rt_sem_release s = Ok ([th], s') /\ sem_value s' = 0 /\ sem_suspend_thread s' = [].
Proof.
  intros [Hv Hs]. unfold rt_sem_release. rewrite Hs, bool_decide_true by done. by eexists.
Qed.

(** A whole exchange, whatever the parser's counters held before it. *)
Lemma exchange self r x cmd out base k ls st kept a :
  at_idle base k a -> 0 <= base <= buf_size x -> responses a !! r = Some x -> fresh_resp x ->
  timeout x <> 0 -> format_output cmd = Ok out -> Z.of_nat (length out) < AT_CMD_MAX_LEN ->
  Forall (line_ok (recv_bufsz (client a))) ls ->
  response_run x base k [] ls = Some (st, kept) ->
  exists a1 a2 a3,
    at_obj_exec_cmd self (Some r) cmd a = Ok (ExecResponse, a1) /\
    tx a1 = tx a ++ out ++ [13; 10] /\
    client_parser (wire_lines ls) a1 = Ok (tt, a2) /\
    at_ready a2 = at_ready a ++ [waiting_thread self] /\
    at_obj_exec_cmd_resumed (waiting_thread self) a2 = Ok (exec_result RT_EOK st, a3) /\
    at_idle 0 0 a3 /\ tx a3 = tx a1 /\
    sem_suspend_thread (resp_notice (client a2)) = [] /\
    (forall r', r' <> r -> responses a3 !! r' = responses a !! r') /\
    recv_bufsz (client a3) = recv_bufsz (client a) /\
    responses a3 !! r = Some (x <| buf := Some (replicate (Z.to_nat base) 0 ++
      concat (stored <$> kept) ++ replicate (Z.to_nat (buf_size x - base - stored_size kept)) 0) |>
      <| line_counts := k + Z.of_nat (length kept) |>).
Proof.
  intros Hid Hbase Hx Hfresh Ht Hf Hlen Hls Hrun.
  destruct (exec_starts self r x cmd out base k a) as (a1 & E1 & Htx & Haw & [Hwd Hwl Hwn Hws Hwsb] & Hbz & Hrdy & Ho1); [done..|].
  destruct Hid as [Hd Hp Hb Hlk Hr Hn Hs Hl Hk Hrd].
  destruct (await_lines r (x <| line_counts := 0 |>) base k ls st kept) with (kept := ([] : list (list Z))) (a := a1)
    as (a2 & E2 & [Htx2 Hlk2 Hd2 Hb2 Hsb2 Ho2] & Han); [lia|done|by rewrite Hbz|by rewrite Hbz|by rewrite <- Hrun; apply response_run_ext|].
  destruct Han as [Hap Har Hast Hax Hal Haln Hard (woken & s & Hrel & Hns & Hready)].
  destruct (release_waiting _ _ Hwn) as (s' & Hrel' & Hs0 & Hsl). rewrite Hrel' in Hrel. injection Hrel as <- <-.
  rewrite <- Hlk2 in Hwl.
  destruct (exec_finishes (tid (waiting_thread self)) RT_EOK a2 Hwl) as (m & st' & E3 & Hfree).
  rewrite Hast in E3. exists a1, a2. eexists. split_and!; [done|done|exact E2|congruence|exact E3| |done| | | | ].
  - split; try done; cbn; try congruence; [by rewrite Hns|].
    apply reading_iff in Hard. by apply reading_iff.
  - by rewrite Hns.
  - intros r' Hne. cbn. by rewrite Ho2, Ho1.
  - cbn. congruence.
  - cbn. rewrite Hax. destruct x. done.
Qed.

(** ** A client at work *)
Definition example_resp (size : Z) : at_response := MkResp (Some (replicate (Z.to_nat size) 0)) size 0 0 500.

Definition example_at : at_sys :=
  MkAt (MkClient true AT_STATUS_INITIALIZED 0 (replicate 16 0) 16 0
          (rt_sem_init 0 RT_IPC_FLAG_FIFO) (rt_mutex_init RT_IPC_FLAG_FIFO (fun _ => 10)) None
          (rt_sem_init 0 RT_IPC_FLAG_FIFO) AT_RESP_OK None)
    (MkLocals 0 0 0 0 false) [] (replicate 128 0) 0
    {[1 := example_resp 12; 2 := example_resp 64]} 3 [] [] [].

Definition at_thread : rt_thread := MkThread 5 2 0 0 0.
Definition AT_JOIN : list Z := [65; 84; 43; 74; 79; 73; 78].
Definition line_OK : list Z := [79; 75].

Lemma example_at_idle : at_idle 0 0 example_at.
Proof. by split. Qed.

Lemma example_resp_fresh size : 0 <= size -> fresh_resp (example_resp size).
Proof. by split. Qed.

Ltac lines_ok := apply (bool_decide_unpack _); vm_compute; exact I.

(** ** The properties *)

(** C2: One AT exchange, from an idle client: the command goes out followed by CR LF and the caller waits; the answer's lines (text without NUL or LF, short enough for the receive buffer) up to the one that completes it wake the caller, which gets 0 when that line begins with OK (or is the last of the lines asked for) and -1 when it contains ERROR or begins with FAIL; every line that was kept is read back by its number, followed by CR; a line number that was not received gives NULL; and the client is idle again.  Lines that overflow the response buffer are dropped silently: the status that says so is overwritten by the completing line, so the caller still gets 0. *)
Theorem at_exec_exchange self r x cmd out ls st kept a :
  at_idle 0 0 a -> responses a !! r = Some x -> fresh_resp x -> timeout x <> 0 ->
  format_output cmd = Ok out -> Z.of_nat (length out) < AT_CMD_MAX_LEN ->
  Forall (line_ok (recv_bufsz (client a))) ls ->
  response_run x 0 0 [] ls = Some (st, kept) ->
  exists a1 a2 a3,
    at_obj_exec_cmd self (Some r) cmd a = Ok (ExecResponse, a1) /\
    tx a1 = tx a ++ out ++ [13; 10] /\
    client_parser (wire_lines ls) a1 = Ok (tt, a2) /\
    at_ready a2 = at_ready a ++ [waiting_thread self] /\
    at_obj_exec_cmd_resumed (waiting_thread self) a2 =
      Ok (if decide (st = AT_RESP_OK) then 0 else -1, a3) /\
    at_idle 0 0 a3 /\ tx a3 = tx a1 /\
    (forall i l, kept !! i = Some l -> exists off b y,
       at_resp_get_line r (Z.of_nat i + 1) a3 = Ok (Some off, a3) /\
       responses a3 !! r = Some y /\ buf y = Some b /\ c_string b off = Ok (l ++ [13])) /\
    (forall n, n <= 0 \/ Z.of_nat (length kept) < n -> at_resp_get_line r n a3 = Ok (None, a3)) /\
    sublist kept ls.
Proof.
  intros Hid Hx Hfresh Ht Hf Hlen Hls Hrun.
  destruct (exchange self r x cmd out 0 0 ls st kept a) as (a1 & a2 & a3 & E1 & Htx & E2 & Hrdy & E3 & Hid3 & Htx3 & _ & _ & _ & Hx3);
    try done; [by destruct Hfresh|].
  change (replicate (Z.to_nat 0) 0) with ([] : list Z) in Hx3. cbn [app] in Hx3. rewrite Z.add_0_l in Hx3.
  assert (sublist kept ls) as Hsub by by eapply (response_run_sublist x 0 0 []).
  exists a1, a2, a3. split_and!; try done.
  - rewrite E3. unfold exec_result. cbn. by destruct st.
  - intros i l Hi. edestruct at_resp_get_line_ok as (off & Ho & Hc); [exact Hx3|done|done| |exact Hi|].
    + eapply sublist_Forall; [exact Hsub|]. eapply Forall_impl; [exact Hls|]. by intros ? [].
    + eexists off, _, _. split_and!; [exact Ho|exact Hx3|done|exact Hc].
  - intros n Hn. unfold at_resp_get_line. erewrite run_bind_ok by (apply get_resp_Some; exact Hx3).
    cbn beta. match goal with |- context [line_counts ?y] =>
      assert (line_counts y = Z.of_nat (length kept)) as -> by done end.
    destruct (Z.gtb_spec n (Z.of_nat (length kept))), (Z.leb_spec n 0); try lia; by c_run.
Qed.

(** ** What a timeout leaves behind *)

(** The timer of the thread waiting for the response fires. *)
Definition response_timeout (t : Z) (a : at_sys) : at_sys :=
  a <| client := (client a) <| resp_notice := (resp_notice (client a))
    <| sem_suspend_thread := (rt_thread_timeout (sem_suspend_thread (resp_notice (client a))) t).1 |> |> |>.

Definition timed_out_thread (self : rt_thread) : rt_thread := self <| error := - RT_ETIMEOUT |>.

Lemma timeout_waiter th s : sem_suspend_thread s = [th] ->
  (rt_thread_timeout (sem_suspend_thread s) (tid th)).1 = [].
Proof. intros ->. unfold rt_thread_timeout. cbn [fst]. by rewrite filter_cons_False by (by intros []). Qed.

(** With nobody waiting the notification is kept. *)
Lemma release_unheard s woken s' : sem_value s = 0 -> sem_suspend_thread s = [] ->
  rt_sem_release s = Ok (woken, s') -> sem_value s' = 1.
Proof.
  intros Hv Hs. unfold rt_sem_release. rewrite Hs, bool_decide_false by naive_solver.
  intros [= _ <-]. cbn. by rewrite Hv.
Qed.

(** A response of which only some lines arrive, up to the caller's return. *)
Lemma partial_exchange self r x cmd out ls kept a :
  at_idle 0 0 a -> responses a !! r = Some x -> fresh_resp x -> timeout x <> 0 ->
  format_output cmd = Ok out -> Z.of_nat (length out) < AT_CMD_MAX_LEN ->
  Forall (line_ok (recv_bufsz (client a))) ls -> partial_run x 0 0 [] ls = Some kept ->
  exists a1 a2 a3,
    at_obj_exec_cmd self (Some r) cmd a = Ok (ExecResponse, a1) /\
    client_parser (wire_lines ls) a1 = Ok (tt, a2) /\
    at_obj_exec_cmd_resumed (timed_out_thread self) (response_timeout (tid self) a2) =
      Ok (- RT_ETIMEOUT, a3) /\
    at_idle (stored_size kept) (Z.of_nat (length kept)) a3 /\
    (forall r', r' <> r -> responses a3 !! r' = responses a !! r') /\
    recv_bufsz (client a3) = recv_bufsz (client a).
Proof.
  intros Hid Hx Hfresh Ht Hf Hlen Hls Hrun.
  destruct (exec_starts self r x cmd out 0 0 a) as
    (a1 & E1 & Htx & Haw & [Hwd Hwl Hwn Hws Hwsb] & Hbz & Hrdy & Ho1); try done; [by destruct Hfresh|].
  destruct Hid as [Hd Hp Hb Hlk Hr Hn Hs Hl Hk Hrd].
  destruct (await_partial r (x <| line_counts := 0 |>) 0 0 ls kept) with (kept := ([] : list (list Z))) (a := a1)
    as (a2 & E2 & [Htx2 Hlk2 Hd2 Hb2 Hsb2 Ho2] & [Hap Har Hax Hal Haln Hard] & Hn2);
    [lia|done|by rewrite Hbz|by rewrite Hbz|by rewrite <- Hrun; apply partial_run_ext|].
  exists a1, a2. rewrite <- Hlk2 in Hwl.
  destruct (exec_finishes (tid (timed_out_thread self)) (- RT_ETIMEOUT) (response_timeout (tid self) a2) Hwl)
    as (m & st & E3 & Hfree).
  eexists. split_and!; [done|done|exact E3| | |].
  - split; try done; cbn; try congruence.
    + rewrite Hn2. destruct Hwn as [Hv Hw]. split; [done|]. by apply (timeout_waiter (waiting_thread self)).
    + apply reading_iff in Hard. by apply reading_iff.
  - intros r' Hne. cbn. by rewrite Ho2, Ho1.
  - cbn. congruence.
Qed.

(** "AB", a line that no longer fits the twelve cells, and "OK". *)
Definition overflowing_answer : list (list Z) := [[65; 66]; [67; 68; 69; 70; 71; 72]; line_OK].

Lemma at_exec_exchange_witness :
  exists a1 a2 a3, at_obj_exec_cmd at_thread (Some 1) AT_JOIN example_at = Ok (ExecResponse, a1) /\
    client_parser (wire_lines overflowing_answer) a1 = Ok (tt, a2) /\
    at_obj_exec_cmd_resumed (waiting_thread at_thread) a2 = Ok (0, a3) /\ at_idle 0 0 a3.
Proof.
  destruct (at_exec_exchange at_thread 1 (example_resp 12) AT_JOIN AT_JOIN overflowing_answer
    AT_RESP_OK [[65; 66]; line_OK] example_at) as (a1 & a2 & a3 & H1 & _ & H2 & _ & H3 & H4 & _);
    [apply example_at_idle|reflexivity|by apply example_resp_fresh|done|reflexivity|reflexivity|lines_ok|reflexivity|].
  exists a1, a2, a3. by split_and!.
Defined.

(** A timeout desynchronises the client.  When a response stops after some of its lines and the caller times out with -2, the parser keeps counting the lines and bytes it stored for it; the next command, although it succeeds with 0, finds its own lines shifted: its line count includes the stale lines, and line 1 reads as the empty string, whatever the device answered. *)
Theorem at_timeout_desynchronises self r x cmd out ls kept a r2 y cmd2 out2 ls2 kept2 :
  at_idle 0 0 a -> r2 <> r ->
  responses a !! r = Some x -> fresh_resp x -> timeout x <> 0 ->
  responses a !! r2 = Some y -> fresh_resp y -> timeout y <> 0 ->
  format_output cmd = Ok out -> Z.of_nat (length out) < AT_CMD_MAX_LEN ->
  format_output cmd2 = Ok out2 -> Z.of_nat (length out2) < AT_CMD_MAX_LEN ->
  Forall (line_ok (recv_bufsz (client a))) ls -> Forall (line_ok (recv_bufsz (client a))) ls2 ->
  partial_run x 0 0 [] ls = Some kept -> kept <> [] -> stored_size kept <= buf_size y ->
  response_run y (stored_size kept) (Z.of_nat (length kept)) [] ls2 = Some (AT_RESP_OK, kept2) ->
  exists a1 a2 a3 a4 a5 a6,
    at_obj_exec_cmd self (Some r) cmd a = Ok (ExecResponse, a1) /\
    client_parser (wire_lines ls) a1 = Ok (tt, a2) /\
    at_obj_exec_cmd_resumed (timed_out_thread self) (response_timeout (tid self) a2) = Ok (-2, a3) /\
    at_obj_exec_cmd self (Some r2) cmd2 a3 = Ok (ExecResponse, a4) /\
    client_parser (wire_lines ls2) a4 = Ok (tt, a5) /\
    at_obj_exec_cmd_resumed (waiting_thread self) a5 = Ok (0, a6) /\
    exists z b, responses a6 !! r2 = Some z /\ buf z = Some b /\
      line_counts z = Z.of_nat (length kept) + Z.of_nat (length kept2) /\
      at_resp_get_line r2 1 a6 = Ok (Some 0, a6) /\ c_string b 0 = Ok [].
Proof.
  intros Hid Hne Hx Hfx Htx Hy Hfy Hty Hf Hl Hf2 Hl2 Hls Hls2 Hrun Hk Hsz Hrun2.
  destruct (partial_exchange self r x cmd out ls kept a) as (a1 & a2 & a3 & E1 & E2 & E3 & Hid3 & Ho & Hb); [done..|].
  destruct (exchange self r2 y cmd2 out2 (stored_size kept) (Z.of_nat (length kept)) ls2 AT_RESP_OK kept2 a3)
    as (a4 & a5 & a6 & E4 & _ & E5 & _ & E6 & _ & _ & _ & _ & _ & Hz); try done.
  { split; [apply stored_size_nonneg|done]. }
  { by rewrite Ho. }
  { by rewrite Hb. }
  exists a1, a2, a3, a4, a5, a6. split_and!; [done..|]. eexists _, _. split_and!; [exact Hz|done|done| |].
  - unfold at_resp_get_line. erewrite run_bind_ok by (apply get_resp_Some; exact Hz). cbn beta.
    match goal with |- context [line_counts ?y] =>
      assert (line_counts y = Z.of_nat (length kept) + Z.of_nat (length kept2)) as -> by done end.
    assert (1 <= length kept)%nat by (by destruct kept; [|cbn; lia]).
    destruct (Z.gtb_spec 1 (Z.of_nat (length kept) + Z.of_nat (length kept2))); [lia|]. cbn [orb].
    destruct (Z.to_nat (Z.of_nat (length kept) + Z.of_nat (length kept2))) eqn:En; [lia|]. done.
  - destruct kept as [|l kept]; [done|].
    assert (1 <= stored_size (l :: kept)).
    { unfold stored_size, stored. cbn. rewrite !length_app. cbn. lia. }
    destruct (Z.to_nat (stored_size (l :: kept))) eqn:En; [lia|]. done.
Qed.

Lemma at_timeout_desynchronises_witness :
  exists a3 a4 a5 a6,
    at_obj_exec_cmd at_thread (Some 2) AT_JOIN a3 = Ok (ExecResponse, a4) /\
    client_parser (wire_lines [[65; 66]; line_OK]) a4 = Ok (tt, a5) /\
    at_obj_exec_cmd_resumed (waiting_thread at_thread) a5 = Ok (0, a6) /\
    exists z b, responses a6 !! 2 = Some z /\ buf z = Some b /\ line_counts z = 3 /\ c_string b 0 = Ok [].
Proof.
  destruct (at_timeout_desynchronises at_thread 1 (example_resp 12) AT_JOIN AT_JOIN [[88]] [[88]] example_at
    2 (example_resp 64) AT_JOIN AT_JOIN [[65; 66]; line_OK] [[65; 66]; line_OK])
    as (_ & _ & a3 & a4 & a5 & a6 & _ & _ & _ & H4 & H5 & H6 & z & b & Hz & Hb & Hc & _ & Hs);
    [apply example_at_idle|lia|reflexivity|by apply example_resp_fresh|done|reflexivity|by apply example_resp_fresh
    |done|reflexivity..|lines_ok|lines_ok|reflexivity|done|vm_compute; congruence|reflexivity|].
  exists a3, a4, a5, a6. split_and!; [done..|]. by exists z, b.
Defined.

(** A response that completes after the caller's timer has fired but before the caller runs leaves a notification behind: the caller still gets -2, and the next command returns 0 at once, without waiting and without a line of answer. *)
Theorem at_stale_notice self r x cmd out ls st kept a r2 y cmd2 out2 :
  at_idle 0 0 a -> r2 <> r ->
  responses a !! r = Some x -> fresh_resp x -> timeout x <> 0 -> responses a !! r2 = Some y ->
  format_output cmd = Ok out -> Z.of_nat (length out) < AT_CMD_MAX_LEN ->
  format_output cmd2 = Ok out2 -> Z.of_nat (length out2) < AT_CMD_MAX_LEN ->
  Forall (line_ok (recv_bufsz (client a))) ls ->
  response_run x 0 0 [] ls = Some (st, kept) ->
  exists a1 a2 a3 a4,
    at_obj_exec_cmd self (Some r) cmd a = Ok (ExecResponse, a1) /\
    client_parser (wire_lines ls) (response_timeout (tid self) a1) = Ok (tt, a2) /\
    at_obj_exec_cmd_resumed (timed_out_thread self) a2 = Ok (-2, a3) /\
    at_obj_exec_cmd self (Some r2) cmd2 a3 = Ok (ExecReturn 0, a4) /\
    responses a4 !! r2 = Some (y <| line_counts := 0 |>).
Proof.
  intros Hid Hne Hx Hfx Htx Hy Hf Hl Hf2 Hl2 Hls Hrun.
  destruct (exec_starts self r x cmd out 0 0 a) as
    (a1 & E1 & _ & Haw & [Hwd Hwl Hwn Hws Hwsb] & Hbz & _ & Ho1); try done; [by destruct Hfx|].
  destruct Hid as [Hd Hp Hb Hlk Hr Hn Hs Hlen Hk Hrd].
  destruct (await_lines r (x <| line_counts := 0 |>) 0 0 ls st kept) with (kept := ([] : list (list Z)))
    (a := response_timeout (tid self) a1)
    as (a2 & E2 & [Htx2 Hlk2 Hd2 Hb2 Hsb2 Ho2] & [Hap Har Hast Hax Hal Haln Hard (woken & s & Hrel & Hns & _)]);
    [lia| |cbn; lia|cbn; by rewrite Hbz|by rewrite <- Hrun; apply response_run_ext|].
  { destruct Haw as [? ? ? ? ? Hread%reading_iff]. split; try done. by apply reading_iff. }
  assert (sem_value s = 1) as Hs1.
  { refine (release_unheard _ _ _ _ _ Hrel); [apply Hwn|]. apply (timeout_waiter (waiting_thread self)), Hwn. }
  assert (lock (client a2) = lock (client a1)) as Hlk3 by exact Hlk2. rewrite <- Hlk3 in Hwl.
  destruct (exec_finishes (tid (timed_out_thread self)) (- RT_ETIMEOUT) a2 Hwl) as (m & st' & E3 & Hfree).
  match type of E3 with _ = Ok (_, ?s) => set (a3 := s) in E3 end.
  destruct (exec_sends self r2 y cmd2 out2 a3) as (m2 & b2 & E4 & Hheld2 & _); try done.
  { cbn. by rewrite Hd2. }
  { cbn. by rewrite Hsb2. }
  { cbn. by rewrite Ho2, Ho1. }
  destruct (exec_finishes (tid self) RT_EOK (sent r2 y out2 m2 b2 a3 <| client :=
    (client (sent r2 y out2 m2 b2 a3)) <| resp_notice := s <| sem_value := u16 (sem_value s - 1) |> |> |>) Hheld2)
    as (m3 & st3 & E5 & _).
  exists a1, a2, a3. eexists. split_and!; [done|done|exact E3| |].
  - rewrite E4. unfold wait_response. rewrite run_bind_gets.
    change (resp_notice (client (sent r2 y out2 m2 b2 a3))) with (resp_notice (client a2)). rewrite Hns.
    unfold rt_sem_take. rewrite Hs1. change (1 >? 0) with true. cbv iota. rewrite run_bind_modify.
    rewrite Hs1 in E5. erewrite run_bind_ok by exact E5. done.
  - cbn. apply lookup_insert_eq.
Qed.

Lemma at_stale_notice_witness :
  exists a3 a4, at_obj_exec_cmd at_thread (Some 2) AT_JOIN a3 = Ok (ExecReturn 0, a4) /\
    responses a4 !! 2 = Some ((example_resp 64) <| line_counts := 0 |>).
Proof.
  destruct (at_stale_notice at_thread 1 (example_resp 12) AT_JOIN AT_JOIN [line_OK] AT_RESP_OK [line_OK] example_at
    2 (example_resp 64) AT_JOIN AT_JOIN) as (_ & _ & a3 & a4 & _ & _ & _ & H4 & H5);
    [apply example_at_idle|lia|reflexivity|by apply example_resp_fresh|done|reflexivity..|lines_ok|reflexivity|].
  by exists a3, a4.
Defined.
