(* ===== verification/AtSetup.v ===== *)
(** * AT client: initialisation, connection test, character input
    (src/pck/at/src/at_client.c)

    [at_client_init] and [at_client_para_init], with the kernel objects they
    create and, on failure, destroy; [at_client_obj_wait_connect], whose loop is
    bounded by the tick counter; [at_client_getchar] against the receive
    interrupt [at_client_rx_ind], as a machine that interrupts can enter between
    any two of its kernel calls; and the remaining small operations. *)
From stdpp Require Import gmap.
From S2P Require Import Prelude CString KClock Ipc IpcMutex AtClient AtExchange.

(** ** Initialisation *)
Definition AT_CLIENT_NUM_MAX : Z := 1.

Inductive at_object := ODevice | ORecvBuffer | OLock | ORxNotice | ORespNotice | OParser.
#[export] Instance at_object_eq_dec : EqDecision at_object.
Proof. solve_decision. Defined.

(** The only entry of [at_client_table], before its threads run: which of its
    pointers are set. *)
Record at_slot := MkSlot {
  s_device : bool;
  s_status : at_status;
  s_recv_bufsz : Z;
  s_recv_buffer : bool;
  s_lock : bool;
  s_rx_notice : bool;
  s_resp_notice : bool;
  s_parser : bool
}.
#[export] Instance at_slot_eta : Eta at_slot := fun s =>
  MkSlot (s_device s) (s_status s) (s_recv_bufsz s) (s_recv_buffer s) (s_lock s)
    (s_rx_notice s) (s_resp_notice s) (s_parser s).

Definition slot_zero : at_slot :=
  MkSlot false AT_STATUS_UNINITIALIZED 0 false false false false false.

(** [objects] are alive; [creations] says which of the coming creations succeed
    (all, once it is used up); [open_results] are the results of opening the
    device with DMA and with interrupt reception. *)
Record at_env := MkEnv {
  slot : at_slot;
  objects : list at_object;
  creations : list bool;
  at_client_num : Z;
  started : bool;
  dev_present : bool;
  dev_char : bool;
  open_results : Z * Z
}.
#[export] Instance at_env_eta : Eta at_env := fun e =>
  MkEnv (slot e) (objects e) (creations e) (at_client_num e) (started e) (dev_present e)
    (dev_char e) (open_results e).

Definition create (o : at_object) : M at_env bool :=
  l ← gets creations;
  creations ::= tail l;;
  if default true (head l) then
    modify (upd (field := objects) (fun os => o :: os));; mret true
  else mret false.

Definition destroy (o : at_object) : M at_env unit :=
  modify (upd (field := objects) (filter (fun o' => o' <> o))).

Notation "'sl' f '::=' v" := (modify (fun e => e <| slot := (slot e) <| f := v |> |>))
  (at level 70, f at level 0, no associativity) : c_scope.

(** One [..._create] call with its test: [false] goes to the label [__exit]. *)
Definition para_create (o : at_object) (set : bool -> at_slot -> at_slot) (next : M at_env Z) : M at_env Z :=
  ok ← create o;
  modify (fun e => e <| slot := set ok (slot e) |>);;
  if ok : bool then next else mret (- RT_ENOMEM).

(** From the label [__exit] with an error. *)
Definition para_cleanup : M at_env unit :=
  s ← gets slot;
  (when s_lock s do destroy OLock);;
  (when s_rx_notice s do destroy ORxNotice);;
  (when s_resp_notice s do destroy ORespNotice);;
  (when s_device s do destroy ODevice);;
  (when s_recv_buffer s do destroy ORecvBuffer);;
  slot ::= slot_zero.

Definition at_client_para_init : M at_env Z :=
  sl s_status ::= AT_STATUS_UNINITIALIZED;;
  result ← para_create ORecvBuffer (fun b s => s <| s_recv_buffer := b |>)
    (para_create OLock (fun b s => s <| s_lock := b |>)
      (para_create ORxNotice (fun b s => s <| s_rx_notice := b |>)
        (para_create ORespNotice (fun b s => s <| s_resp_notice := b |>)
          (para_create OParser (fun b s => s <| s_parser := b |>)
            (mret RT_EOK)))));
  (if negb (result =? RT_EOK) then para_cleanup
   else modify (upd (field := at_client_num) (fun n => n + 1)));;
  mret result.

(** Open with DMA reception, else with interrupt reception. *)
Definition open_device : M at_env unit :=
  e ← gets id;
  let '(dma, int) := open_results e in
  let open_result := if dma =? - RT_EIO then int else dma in
  RT_ASSERT (open_result =? RT_EOK);;
  modify (upd (field := objects) (fun os => ODevice :: os)).

Definition at_client_init (recv_bufsz : Z) : M at_env Z :=
  RT_ASSERT (recv_bufsz >? 0);;
  used ← gets (fun e => s_device (slot e));
  if used : bool then mret (- RT_EFULL) else
  sl s_recv_bufsz ::= recv_bufsz;;
  found ← gets dev_present;
  sl s_device ::= found;;
  if negb found then mret (- RT_ERROR) else
  char ← gets dev_char;
  RT_ASSERT char;;
  open_device;;
  result ← at_client_para_init;
  (if result =? RT_EOK then
     sl s_status ::= AT_STATUS_INITIALIZED;;
     started ::= true
   else skip);;
  mret result.

(** ** Small operations of a client that may be a null pointer *)
Definition at_client_obj_send (b : list Z) (size : Z) : M at_sys Z :=
  dev ← gets (fun a => device (client a));
  if negb dev then mret 0 else device_write b size;; mret size.

Definition at_obj_set_end_sign (ch : Z) : M at_sys unit :=
  dev ← gets (fun a => device (client a));
  if negb dev then skip else cl end_sign ::= ch.

(** The prefixes and suffixes are strings, never null here. *)
Definition at_obj_set_urc_table (table : list at_urc) : M at_sys unit :=
  dev ← gets (fun a => device (client a));
  if negb dev then skip else cl urc_table ::= Some table.

(** ** The connection test *)
Definition AT_PING : list Z := [65; 84; 13; 10].

(** The loop: [take i] is what the i-th [rt_sem_take(client->resp_notice,
    resp->timeout)] answers (true: notified) and the ticks it lasts. *)
Fixpoint wait_connect_loop (fuel : nat) (take : nat -> bool * Z) (i : nat)
    (start now ticks : Z) (r : Z) : M at_sys Z :=
  match fuel with
  | O => fun _ => Blocked
  | S fuel =>
      if u32 (now - start) >? u32 ticks then mret (- RT_ETIMEOUT)
      else
        x ← get_resp r;
        put_resp r (x <| line_counts := 0 |>);;
        device_write AT_PING 4;;
        let '(notified, lasted) := take i in
        if notified : bool then mret RT_EOK
        else wait_connect_loop fuel take (S i) start (u32 (now + lasted)) ticks r
  end.

Definition at_client_obj_wait_connect (fuel : nat) (take : nat -> bool * Z)
    (self : Z) (now timeout : Z) : M at_sys Z :=
  dev ← gets (fun a => device (client a));
  if negb dev then mret (- RT_ERROR) else
  resp ← at_create_resp 16 0 (rt_tick_from_millisecond 500);
  match resp with
  | None => mret (- RT_ENOMEM)
  | Some r =>
      m ← gets (fun a => lock (client a));
      '(w, m) ← lift (rt_mutex_take self RT_WAITING_FOREVER m);
      cl lock ::= m;;
      match w with
      | IpcSuspend _ => fun _ => Blocked
      | IpcReturn _ =>
          modify (fun a => a <| client := (client a) <| AtClient.resp := Some r |> |>);;
          result ← wait_connect_loop fuel take 0 now now (rt_tick_from_millisecond timeout) r;
          at_delete_resp (Some r);;
          modify (fun a => a <| client := (client a) <| AtClient.resp := None |> |>);;
          release_lock self;;
          mret result
      end
  end.

(** ** Character input and the receive interrupt *)

(** Where the parser thread is in [at_client_getchar]'s loop. *)
Inductive rx_pc :=
  | RxRead
  | RxReset
  | RxTake
  | RxWaiting
  | RxReturn (err : Z).

#[export] Instance rx_pc_eq_dec : EqDecision rx_pc.
Proof. solve_decision. Defined.

Record rx_state := MkRx {
  rx_fifo : list Z;
  rx_sem : rt_semaphore;
  pc : rx_pc;
  got : list Z
}.
#[export] Instance rx_state_eta : Eta rx_state := fun s =>
  MkRx (rx_fifo s) (rx_sem s) (pc s) (got s).

(** What [rt_sem_take] came back with. *)
Definition rx_taken (err : Z) : rx_pc := if negb (err =? RT_EOK) then RxReturn err else RxRead.

(** One kernel call of [at_client_getchar]; a character read is appended to
    [got], and the function is called again. *)
Definition getchar_step (self : rt_thread) (timeout : Z) (s : rx_state) : rx_state :=
  match pc s with
  | RxRead =>
      match rx_fifo s with
      | ch :: rest => s <| rx_fifo := rest |> <| got := got s ++ [ch] |>
      | [] => s <| pc := RxReset |>
      end
  | RxReset =>
      let '(_, _, sem) := rt_sem_control RT_IPC_CMD_RESET 0 (rx_sem s) in
      s <| rx_sem := sem |> <| pc := RxTake |>
  | RxTake =>
      let '(w, sem) := rt_sem_take self (rt_tick_from_millisecond timeout) (rx_sem s) in
      match w with
      | IpcReturn err => s <| rx_sem := sem |> <| pc := rx_taken err |>
      | IpcSuspend _ => s <| rx_sem := sem |> <| pc := RxWaiting |>
      end
  | RxWaiting | RxReturn _ => s
  end.

(** The driver has put bytes into the FIFO and calls [at_client_rx_ind]. *)
Definition at_client_rx_ind (bytes : list Z) (s : rx_state) : outcome rx_state :=
  let s := s <| rx_fifo := rx_fifo s ++ bytes |> in
  if Z.of_nat (length bytes) >? 0 then
    '(woken, sem) ← rt_sem_release (rx_sem s);
    Ok (s <| rx_sem := sem |>
          <| pc := match woken with
                   | thread :: _ => rx_taken (rt_sem_take_resumed thread)
                   | [] => pc s
                   end |>)
  else Ok s.

(** A schedule: the thread runs to its next kernel call, or bytes arrive. *)
Inductive rx_event := RxRun | RxBytes (bytes : list Z).

Definition rx_step (self : rt_thread) (ev : rx_event) (s : rx_state) : outcome rx_state :=
  match ev with
  | RxRun => Ok (getchar_step self RT_WAITING_FOREVER s)
  | RxBytes bytes => at_client_rx_ind bytes s
  end.

Fixpoint rx_schedule (self : rt_thread) (evs : list rx_event) (s : rx_state) : outcome rx_state :=
  match evs with
  | [] => Ok s
  | ev :: evs => s ← rx_step self ev s; rx_schedule self evs s
  end.

Definition rx_start : rx_state := MkRx [] (rt_sem_init 0 RT_IPC_FLAG_FIFO) RxRead [].

(** ** Initialisation *)
Definition no_objects : list at_object := [].

(** The objects of a client that works. *)
Definition at_objects : list at_object := [OParser; ORespNotice; ORxNotice; OLock; ORecvBuffer; ODevice].

(** [at_client_para_init] after the device was opened. *)
Lemma para_init_cases bufsz cs num p c op :
  let e := MkEnv (slot_zero <| s_recv_bufsz := bufsz |> <| s_device := true |>) [ODevice] cs num false p c op in
  exists cs',
    at_client_para_init e = Ok (RT_EOK,
      MkEnv (MkSlot true AT_STATUS_UNINITIALIZED bufsz true true true true true) at_objects cs' (num + 1) false p c op) \/
    at_client_para_init e = Ok (- RT_ENOMEM, MkEnv slot_zero no_objects cs' num false p c op).
Proof.
  intros e. subst e.
  destruct cs as [|[] [|[] [|[] [|[] [|[] cs]]]]]; eexists; first [by left | by right].
Qed.

(** ** The connection test *)
Lemma device_write_ping a : device_write AT_PING 4 a = Ok (tt, a <| tx := tx a ++ AT_PING |>).
Proof. by destruct a. Qed.

(** The attempts that time out move the clock on by at least [quantum]. *)
Definition slow_takes (quantum : Z) (take : nat -> bool * Z) : Prop :=
  forall i, (take i).1 = false -> quantum <= (take i).2 < 2 ^ 31.

(** Enough turns for what is left of the time. *)
Definition turns (ticks elapsed quantum : Z) : Z :=
  if elapsed >? ticks then 0 else (ticks - elapsed) / quantum + 1.

Lemma turns_next ticks e d q : 0 < q -> q <= d -> e <= ticks ->
  turns ticks (e + d) q + 1 <= turns ticks e q.
Proof.
  intros Hq Hd He. unfold turns. destruct (Z.gtb_spec e ticks); [lia|].
  destruct (Z.gtb_spec (e + d) ticks).
  - pose proof (Z.div_pos (ticks - e) q). lia.
  - assert ((ticks - (e + d)) / q <= (ticks - e - q) / q) by (apply Z.div_le_mono; lia).
    replace (ticks - e - q) with (ticks - e + (-1) * q) in * by lia. rewrite Z.div_add in * by lia. lia.
Qed.

Lemma turns_nonneg ticks e q : 0 < q -> 0 <= turns ticks e q.
Proof.
  intros. unfold turns. destruct (Z.gtb_spec e ticks); [lia|]. pose proof (Z.div_pos (ticks - e) q). lia.
Qed.

(** What the loop leaves: pings on the line, the response object in place. *)
Record pinged (r : Z) (n : nat) (a a' : at_sys) : Prop := {
  pg_tx : tx a' = tx a ++ concat (replicate n AT_PING);
  pg_client : client a' = client a;
  pg_resp : is_Some (responses a' !! r);
  pg_others : delete r (responses a') = delete r (responses a);
  pg_ready : at_ready a' = at_ready a
}.

Lemma wait_loop_ends take r ticks quantum start : slow_takes quantum take -> 0 < quantum ->
  0 <= ticks < 2 ^ 31 -> forall fuel i elapsed a,
  0 <= elapsed < 2 ^ 32 -> is_Some (responses a !! r) ->
  turns ticks elapsed quantum < Z.of_nat fuel ->
  exists result a' n, wait_connect_loop fuel take i start (u32 (start + elapsed)) ticks r a = Ok (result, a') /\
    (result = RT_EOK \/ (result = - RT_ETIMEOUT /\ forall j, (i <= j < i + n)%nat -> (take j).1 = false)) /\
    Z.of_nat n <= turns ticks elapsed quantum /\ pinged r n a a'.
Proof.
  intros Htake Hq Ht fuel. induction fuel as [|fuel IH]; intros i e a He Hr Hf.
  { pose proof (turns_nonneg ticks e quantum Hq). lia. }
  cbn [wait_connect_loop].
  assert (u32 (u32 (start + e) - start) = e) as ->.
  { unfold uint. rewrite Zminus_mod_idemp_l. replace (start + e - start) with e by lia. by apply Z.mod_small. }
  rewrite (u32_small ticks) by lia. destruct (Z.gtb_spec e ticks).
  - exists (- RT_ETIMEOUT), a, O. split_and!; [done|right; split; [done|lia]|by apply turns_nonneg|].
    split; try done. by rewrite app_nil_r.
  - destruct Hr as [x Hx]. erewrite run_bind_ok by (apply get_resp_Some; exact Hx). cbn beta.
    unfold put_resp. rewrite run_bind_modify.
    match goal with |- context [(device_write AT_PING 4 ≫= _) ?s] => set (s1 := s) end.
    erewrite run_bind_ok by apply device_write_ping. cbn beta.
    pose proof (turns_nonneg ticks e quantum Hq) as Hn0.
    set (a1 := s1 <| tx := tx s1 ++ AT_PING |>).
    assert (pinged r 1 a a1) as Hp1.
    { split; try done; cbn; [by rewrite lookup_insert_eq|by rewrite delete_insert_eq]. }
    destruct (take i) as [notified lasted] eqn:Ei. destruct notified.
    + exists RT_EOK, a1, 1%nat. split_and!; [done|by left| |done].
      unfold turns. destruct (Z.gtb_spec e ticks); [lia|]. pose proof (Z.div_pos (ticks - e) quantum). lia.
    + pose proof (Htake i) as Hi. rewrite Ei in Hi. cbn in Hi. specialize (Hi eq_refl).
      pose proof (turns_next ticks e lasted quantum Hq ltac:(lia) ltac:(lia)) as Hnext.
      assert (u32 (u32 (start + e) + lasted) = u32 (start + (e + lasted))) as ->.
      { unfold uint. by rewrite Zplus_mod_idemp_l, Z.add_assoc. }
      destruct (IH (S i) (e + lasted) a1) as (result & a' & n & E & Hres & Hn & [P1 P2 P3 P4 P5]);
        [lia|apply Hp1|lia|].
      exists result, a', (S n). split_and!; [exact E| |lia|].
      * destruct Hres as [->|[-> Hno]]; [by left|]. right. split; [done|]. intros j Hj.
        destruct (decide (j = i)) as [->|]; [by rewrite Ei|]. apply Hno. lia.
      * destruct Hp1 as [Q1 Q2 Q3 Q4 Q5]. split; try congruence; try done.
        rewrite P1, Q1. cbn [replicate concat]. by rewrite app_nil_r, <- app_assoc.
Qed.

(** ** Receive interrupts *)

(** No interrupt brings bytes between the failed read and the reset of the
    semaphore. *)
Fixpoint quiet (self : rt_thread) (evs : list rx_event) (s : rx_state) : Prop :=
  match evs with
  | [] => True
  | ev :: evs =>
      match ev with
      | RxBytes (_ :: _) => pc s <> RxReset
      | _ => True
      end /\ match rx_step self ev s with Ok s => quiet self evs s | _ => True end
  end.

Fixpoint arrived (evs : list rx_event) : list Z :=
  match evs with
  | [] => []
  | RxRun :: evs => arrived evs
  | RxBytes bytes :: evs => bytes ++ arrived evs
  end.

Definition rx_waiter (self : rt_thread) : rt_thread := self <| error := RT_EOK |>.

(** [n] bounds the notifications so far; [q]: the schedule was quiet so far. *)
Record rx_wf (self : rt_thread) (n : Z) (q : Prop) (s : rx_state) : Prop := {
  rw_value : 0 <= sem_value (rx_sem s) <= n;
  rw_running : pc s <> RxWaiting -> sem_suspend_thread (rx_sem s) = [];
  rw_waiting : pc s = RxWaiting -> sem_suspend_thread (rx_sem s) = [rx_waiter self] /\ sem_value (rx_sem s) = 0;
  rw_return : forall err, pc s <> RxReturn err;
  rw_reset : q -> pc s = RxReset -> rx_fifo s = [];
  rw_take : q -> pc s = RxTake -> sem_value (rx_sem s) = 0 -> rx_fifo s = [];
  rw_sleep : q -> pc s = RxWaiting -> rx_fifo s = []
}.

Lemma getchar_step_ok self n q s : n < 65536 -> rx_wf self n q s ->
  let s' := getchar_step self RT_WAITING_FOREVER s in
  rx_wf self n q s' /\ got s' ++ rx_fifo s' = got s ++ rx_fifo s.
Proof.
  destruct s as [fifo sem p cs]. intros Hn [Hv Hr Hw Hret Hq1 Hq2 Hq3]. cbn in *. destruct p; cbn.
  - destruct fifo as [|ch fifo]; cbn.
    + split; [|done]. split; cbn; try done; auto.
    + split; [|by rewrite <- app_assoc]. split; cbn; try done; auto.
  - split; [|done]. split; cbn; try done; [change (u16 0) with 0; lia|]. intros Hq _ _. by apply Hq1.
  - specialize (Hr ltac:(done)). unfold rt_sem_take. destruct (Z.gtb_spec (sem_value sem) 0); cbn.
    + split; [|done]. split; cbn; try done. rewrite u16_small; lia.
    + split; [|done]. split; cbn; try done.
      * intros _. rewrite Hr. split; [|lia]. by destruct (sem_flag sem).
      * intros Hq _. apply Hq2; [done|done|lia].
  - split; [|done]. by split.
  - by destruct (Hret err).
Qed.

Lemma rx_ind_ok self n (q q' : Prop) bytes s : n + 1 < 65536 -> rx_wf self n q s ->
  (q' -> q /\ (bytes <> [] -> pc s <> RxReset)) ->
  exists s', at_client_rx_ind bytes s = Ok s' /\ rx_wf self (n + 1) q' s' /\
    got s' ++ rx_fifo s' = (got s ++ rx_fifo s) ++ bytes.
Proof.
  destruct s as [fifo sem p cs]. intros Hn [Hv Hr Hw Hret Hq1 Hq2 Hq3] Hq'. cbn in *.
  unfold at_client_rx_ind. cbn. destruct bytes as [|b bytes]; cbn.
  { rewrite !app_nil_r. eexists. split; [done|]. split; [|done].
    split; cbn; try done; [lia|..]; intros [Hq _]%Hq'; auto. }
  unfold rt_sem_release. destruct (decide (p = RxWaiting)) as [->|Hp].
  - destruct (Hw eq_refl) as [Hwt Hv0]. rewrite Hwt, bool_decide_true by done. cbn.
    eexists. split; [done|]. cbn. split; [|by rewrite app_assoc]. split; cbn; try done. lia.
  - specialize (Hr Hp). rewrite Hr, bool_decide_false by naive_solver. cbn.
    eexists. split; [done|]. cbn. split; [|by rewrite app_assoc].
    split; cbn; try done; rewrite ?u16_small by lia.
    + lia.
    + intros [Hq Hne]%Hq' ->. by destruct Hne.
    + intros _ _. lia.
Qed.

Lemma rx_schedule_app self evs1 evs2 s :
  rx_schedule self (evs1 ++ evs2) s = (s ← rx_schedule self evs1 s; rx_schedule self evs2 s).
Proof.
  revert s. induction evs1 as [|ev evs1 IH]; intros s; [done|]. cbn [app rx_schedule].
  destruct (rx_step self ev s); [|done..]. cbn [mbind outcome_bind]. apply IH.
Qed.

Lemma rx_schedule_ok self evs : forall n (q : Prop) s, rx_wf self n q s ->
  n + Z.of_nat (length evs) < 65536 ->
  exists s', rx_schedule self evs s = Ok s' /\
    rx_wf self (n + Z.of_nat (length evs)) (q /\ quiet self evs s) s' /\
    got s' ++ rx_fifo s' = (got s ++ rx_fifo s) ++ arrived evs.
Proof.
  induction evs as [|ev evs IH]; intros n q s Hwf Hn; cbn [rx_schedule quiet arrived length] in *.
  { exists s. rewrite Z.add_0_r, app_nil_r. split_and!; [done| |done].
    destruct Hwf. split; auto; intros [? _]; auto. }
  assert (exists s1, rx_step self ev s = Ok s1 /\
    rx_wf self (n + 1) (q /\ match ev with RxBytes (_ :: _) => pc s <> RxReset | _ => True end) s1 /\
    got s1 ++ rx_fifo s1 = (got s ++ rx_fifo s) ++ arrived [ev]) as (s1 & E & Hwf1 & Hc1).
  { destruct ev as [|bytes]; cbn [rx_step arrived].
    - destruct (getchar_step_ok self n q s ltac:(lia) Hwf) as [[] Hc]. eexists. split; [done|].
      rewrite app_nil_r. split; [|done]. split; try done; [lia|..]; intros [? _]; auto.
    - rewrite app_nil_r. apply (rx_ind_ok self n q); [lia|done|]. intros [Hq Hb]. split; [done|].
      by destruct bytes. }
  rewrite E. cbn [mbind outcome_bind].
  destruct (IH (n + 1) _ s1 Hwf1 ltac:(lia)) as (s2 & E2 & Hwf2 & Hc2). exists s2. split; [done|]. split.
  - replace (n + Z.of_nat (S (length evs))) with (n + 1 + Z.of_nat (length evs)) by lia.
    destruct Hwf2. split; try done; intros (Hq & Hev & Hqs); auto.
  - rewrite Hc2, Hc1, <- app_assoc. f_equal. destruct ev; cbn; [done|by rewrite app_nil_r].
Qed.

(** ** The properties *)

(** C8: [at_client_init] on the free client slot fails cleanly: whichever of its allocations and object creations fail, a non-zero result (-1 for a missing device, -5 for lack of memory) leaves no object alive and the slot free, so that it can be tried again; 0 means that the device, the buffer, the mutex, both semaphores and the parser thread exist, the thread is started and the client is initialised; a second initialisation is refused with -3 and changes nothing. *)
Theorem at_client_init_clean bufsz cs num present op : 0 < bufsz -> op.1 = RT_EOK \/ (op.1 = - RT_EIO /\ op.2 = RT_EOK) ->
  exists result e, at_client_init bufsz (MkEnv slot_zero [] cs num false present true op) = Ok (result, e) /\
    ((result = 0 /\ present = true /\ objects e = at_objects /\ started e = true /\
      s_status (slot e) = AT_STATUS_INITIALIZED /\
      forall bufsz', 0 < bufsz' -> at_client_init bufsz' e = Ok (-3, e)) \/
     ((result = -1 /\ present = false \/ result = -5 /\ present = true) /\
      objects e = [] /\ started e = false /\ s_device (slot e) = false)).
Proof.
  intros Hb Hop. unfold at_client_init. destruct (Z.gtb_spec bufsz 0); [|lia].
  rewrite run_bind_assert, run_bind_gets. cbn [slot slot_zero s_device]. rewrite run_bind_modify.
  rewrite run_bind_gets. destruct present.
  2: { eexists _, _. split; [done|]. right. split; [by left|done]. }
  rewrite run_bind_modify. cbn [dev_present upd negb]. rewrite run_bind_gets.
  assert (forall cs' , open_device (MkEnv (slot_zero <| s_recv_bufsz := bufsz |> <| s_device := true |>) [] cs' num false true true op) =
    Ok (tt, MkEnv (slot_zero <| s_recv_bufsz := bufsz |> <| s_device := true |>) [ODevice] cs' num false true true op)) as Hopen.
  { intros cs'. unfold open_device. destruct op as [dma int]. cbn in Hop. c_run. cbn [open_results id].
    assert ((if dma =? - RT_EIO then int else dma) = RT_EOK) as -> by (destruct Hop as [->|[-> ->]]; done).
    done. }
  cbn [dev_char upd]. rewrite run_bind_assert.
  erewrite run_bind_ok by apply Hopen. cbn beta.
  destruct (para_init_cases bufsz cs num true true op) as [cs' [E|E]]; erewrite run_bind_ok by exact E; cbn beta.
  - eexists _, _. split; [done|]. left. split_and!; try done. intros bufsz' Hb'. unfold at_client_init.
    destruct (Z.gtb_spec bufsz' 0); [|lia]. done.
  - eexists _, _. split; [done|]. right. split; [by right|done].
Qed.

Lemma at_client_init_clean_witness :
  exists result e, at_client_init 512 (MkEnv slot_zero [] [true; true; false] 0 false true true (-8, 0)) = Ok (result, e) /\
    ((result = 0 /\ objects e = at_objects) \/ objects e = []).
Proof.
  destruct (at_client_init_clean 512 [true; true; false] 0 true (-8, 0)) as (result & e & H1 & H2); [lia|by right|].
  exists result, e. split; [done|]. naive_solver.
Defined.


(** Two attempts that time out across the wrap of the tick counter, then a
    notification. *)
Definition third_answers (i : nat) : bool * Z := if (i <? 2)%nat then (false, 60) else (true, 5).


(** Character input against the receive interrupt, for every interleaving of fewer than 65536 kernel calls and interrupts: no byte is lost, duplicated or reordered (what [at_client_getchar] has returned followed by the FIFO is what arrived), the function never fails, and as long as no interrupt falls between the read that found the FIFO empty and the reset of the semaphore, the thread never sleeps on a non-empty FIFO.  An interrupt that does fall there is forgotten by the reset: the thread then sleeps although a byte is available, until the next byte arrives. *)
Theorem at_getchar_delivery self evs : Z.of_nat (length evs) < 65536 ->
  exists s, rx_schedule self evs rx_start = Ok s /\
    got s ++ rx_fifo s = arrived evs /\ (forall err, pc s <> RxReturn err) /\
    (pc s = RxWaiting -> sem_suspend_thread (rx_sem s) = [rx_waiter self]) /\
    (quiet self evs rx_start -> pc s = RxWaiting -> rx_fifo s = []) /\
    forall n b, exists s', rx_schedule self ([RxRun; RxBytes [b]; RxRun; RxRun] ++ replicate n RxRun) rx_start = Ok s' /\
      pc s' = RxWaiting /\ rx_fifo s' = [b].
Proof.
  intros Hn. destruct (rx_schedule_ok self evs 0 True rx_start) as (s & E & [] & Hc); [by split|lia|].
  exists s. split_and!; [done|done|done|naive_solver|naive_solver|].
  intros n b. assert (forall k s0, pc s0 = RxWaiting -> rx_schedule self (replicate k RxRun) s0 = Ok s0) as Hidle.
  { intros k s0 Hs0. induction k as [|k IHk]; [done|]. cbn [replicate rx_schedule rx_step].
    unfold getchar_step. rewrite Hs0. cbn [mbind outcome_bind]. done. }
  rewrite rx_schedule_app.
  assert (exists s', rx_schedule self [RxRun; RxBytes [b]; RxRun; RxRun] rx_start = Ok s' /\
    pc s' = RxWaiting /\ rx_fifo s' = [b]) as (s' & -> & Hp & Hf) by (by eexists).
  exists s'. cbn [mbind outcome_bind]. by rewrite Hidle.
Qed.

Lemma at_getchar_delivery_witness :
  exists s, rx_schedule at_thread [RxRun; RxRun; RxRun; RxBytes [79; 75]; RxRun] rx_start = Ok s /\
    got s ++ rx_fifo s = [79; 75].
Proof.
  destruct (at_getchar_delivery at_thread [RxRun; RxRun; RxRun; RxBytes [79; 75]; RxRun]) as (s & H1 & H2 & _);
    [done|by exists s].
Defined.
