(* ===== verification/AtRadio.v ===== *)
(** * Radio module commands (src/bsp/stm32f10x-controller/applications/AT_client_radio.c)

    The commands of the LoRa module on top of the AT client.  The module itself
    is a parameter: [modem] gives, for everything sent so far, the bytes it
    answers before the caller's wait ends; [at_exec_cmd] runs
    [at_obj_exec_cmd], lets the module answer, and ends the wait by the parser's
    notification or by the timeout.  [scan_eof] is what [vsscanf] returns when a
    line ends inside the format after a suppressed conversion, 0 or EOF (-1)
    depending on the C library.

    The functions repeat one block, creating a response, executing a command,
    returning on errors and deleting the response: [radio_exec].  Fixed-size
    arrays are lists; a write past their end is a fault. *)
From stdpp Require Import gmap.
From Stdlib Require Import String.
From S2P Require Import Prelude CString KClock Ipc IpcMutex AtClient AtExchange AtSetup.

(** ** Types *)
Inductive AtError_t :=
  | AT_ER_OK | AT_ER_CREAT_RESP | AT_ER_SEND_ERROR | AT_ER_SEND_TIMEOUT | AT_ER_GET_LINE
  | AT_ER_GET_KW | AT_ER_PARSE_LINE | AT_ER_PARSE_KW | AT_ER_OTHER.
#[export] Instance AtError_eq_dec : EqDecision AtError_t.
Proof. solve_decision. Defined.

Inductive AtRadioStatue_t :=
  | AT_RADIO_STATUE_SLEEP | AT_RADIO_STATUE_JOIN | AT_RADIO_STATUE_SEND
  | AT_RADIO_STATUE_CYCLE_SEND | AT_RADIO_STATUE_NULL | AT_RADIO_STATUE_WAIT
  | AT_RADIO_STATUE_LOSE.
#[export] Instance AtRadioStatue_eq_dec : EqDecision AtRadioStatue_t.
Proof. solve_decision. Defined.

(** The strings of [AtRadioInfo_t]. *)
Record AtRadioInfo_t := MkInfo { devEui : list Z; appEui : list Z; appKey : list Z }.

(** ** Strings *)

(** A character array initialised with a literal. *)
Definition char_array (size : nat) (s : list Z) : list Z := take size (s ++ replicate size 0).

Definition hex_digit (d : Z) : Z := let d := u8 (d + 0x30) in if d >? 0x39 then u8 (d + 0x07) else d.

(** The loop from [i]; [n] bytes are left. *)
Fixpoint byte_2_hexstr_loop (n : nat) (source dest : list Z) (i : Z) : outcome (list Z) :=
  match n with
  | O => Ok dest
  | S n =>
      b ← zget source i;
      dest ← zset dest (i * 2) (hex_digit (b ≫ 4));
      dest ← zset dest (i * 2 + 1) (hex_digit (Z.land b 0x0f));
      byte_2_hexstr_loop n source dest (i + 1)
  end.

Definition byte_2_hexstr (source dest : list Z) (sourceLen : Z) : outcome (list Z) :=
  byte_2_hexstr_loop (Z.to_nat sourceLen) source dest 0.

(** The second loop of [strcat_m], which copies up to and including the NUL. *)
Fixpoint strcat_copy (fuel : nat) (dest str : list Z) (cp i : Z) : outcome (list Z) :=
  match fuel with
  | O => Blocked
  | S fuel =>
      c ← zget str i;
      dest ← zset dest cp c;
      if c =? 0 then Ok dest else strcat_copy fuel dest str (cp + 1) (i + 1)
  end.

(** The first loop of [strcat_m], which looks for the end of [dest]. *)
Fixpoint strcat_find (fuel : nat) (dest : list Z) (cp : Z) : outcome Z :=
  match fuel with
  | O => Blocked
  | S fuel => c ← zget dest cp; if c =? 0 then Ok cp else strcat_find fuel dest (cp + 1)
  end.

Definition strcat_m (dest str : list Z) : outcome (list Z) :=
  cp ← strcat_find (S (length dest)) dest 0;
  strcat_copy (S (length str)) dest str cp 0.

(** ** [vsscanf] for the two formats used *)
Definition is_space (c : Z) : bool := (c =? 32) || ((9 <=? c) && (c <=? 13)).
Definition is_digit (c : Z) : bool := (48 <=? c) && (c <=? 57).

Fixpoint span (p : Z -> bool) (s : list Z) : list Z * list Z :=
  match s with
  | [] => ([], [])
  | c :: s => if p c then let '(a, b) := span p s in (c :: a, b) else ([], c :: s)
  end.

(** ["%*[^:]:%s"]: the return value and the word assigned. *)
Definition scan_word (scan_eof : Z) (line : list Z) : Z * option (list Z) :=
  match span (fun c => negb (c =? 58)) line with
  | ([], []) => (-1, None)
  | ([], _) => (0, None)
  | (_, []) => (scan_eof, None)
  | (_, _ :: rest) =>
      match span (fun c => negb (is_space c)) (snd (span is_space rest)) with
      | ([], _) => (scan_eof, None)
      | (word, _) => (1, Some word)
      end
  end.

(** ["%d"]: white space, a sign, digits. *)
Definition scan_d (s : list Z) : option (Z * list Z) :=
  let s := snd (span is_space s) in
  let '(sign, s) := match s with
                    | 45 :: s => (-1, s)
                    | 43 :: s => (1, s)
                    | s => (1, s)
                    end in
  match span is_digit s with
  | ([], _) => None
  | (ds, rest) => Some (sign * foldl (fun n d => 10 * n + (d - 48)) 0 ds, rest)
  end.

(** [n] times ["%d"], separated by commas: the values assigned. *)
Fixpoint scan_ds (n : nat) (s : list Z) : list Z :=
  match n with
  | O => []
  | S n =>
      match scan_d s with
      | None => []
      | Some (v, 44 :: rest) => v :: scan_ds n rest
      | Some (v, _) => [v]
      end
  end.

(** ["%*[^=]=%d,%d,%d,%d,%d"]: the return value and the values assigned. *)
Definition scan_uart (scan_eof : Z) (line : list Z) : Z * list Z :=
  match span (fun c => negb (c =? 61)) line with
  | ([], []) => (-1, [])
  | ([], _) => (0, [])
  | (_, []) => (scan_eof, [])
  | (_, _ :: rest) =>
      match scan_ds 5 rest with
      | [] => (if bool_decide (snd (span is_space rest) = []) then scan_eof else 0, [])
      | vs => (Z.of_nat (length vs), vs)
      end
  end.

(** ** The commands *)
Section Radio.
Context (modem : list Z -> list Z) (scan_eof : Z) (self : rt_thread).

Definition at_exec_cmd (r : option Z) (cmd : list Z) : M at_sys Z :=
  w ← at_obj_exec_cmd self r cmd;
  match w with
  | ExecReturn result => mret result
  | ExecLock => lift Blocked
  | ExecResponse =>
      sent ← gets tx;
      client_parser (modem sent);;
      waiters ← gets (fun a => sem_suspend_thread (resp_notice (client a)));
      if bool_decide (waiters = []) then at_obj_exec_cmd_resumed (waiting_thread self)
      else modify (response_timeout (tid self));; at_obj_exec_cmd_resumed (timed_out_thread self)
  end.

(** [resp = at_create_resp(..)] to the error returns; the response is still to
    be deleted when the result is AT_ER_OK. *)
Definition radio_try (size : Z) (cmd : list Z) : M at_sys (AtError_t * option Z) :=
  resp ← at_create_resp size 0 (rt_tick_from_millisecond 5000);
  match resp with
  | None => mret (AT_ER_CREAT_RESP, None)
  | Some r =>
      re ← at_exec_cmd (Some r) cmd;
      if re =? -1 then mret (AT_ER_SEND_ERROR, Some r)
      else if re =? -2 then mret (AT_ER_SEND_TIMEOUT, Some r)
      else mret (AT_ER_OK, Some r)
  end.

Definition radio_exec (size : Z) (cmd : list Z) : M at_sys AtError_t :=
  '(e, r) ← radio_try size cmd;
  if bool_decide (e = AT_ER_OK) then at_delete_resp r;; mret AT_ER_OK else mret e.

(** [vsscanf] of the response's line at an offset, -1 without a line; [scan]
    gives the return value and what was assigned. *)
Definition parse_args {A} (nothing : A) (scan : list Z -> Z * A) (r : Z) (line : option Z) : M at_sys (Z * A) :=
  match line with
  | None => mret (-1, nothing)
  | Some off =>
      x ← get_resp r;
      b ← resp_array x;
      s ← lift (c_string b off);
      mret (scan s)
  end.

Definition at_resp_parse_line_args {A} (nothing : A) (scan : list Z -> Z * A) (r resp_line : Z) : M at_sys (Z * A) :=
  line ← at_resp_get_line r resp_line;
  parse_args nothing scan r line.

Definition at_resp_parse_line_args_by_kw {A} (nothing : A) (scan : list Z -> Z * A) (r : Z) (keyword : list Z) : M at_sys (Z * A) :=
  line ← at_resp_get_line_by_kw r keyword;
  parse_args nothing scan r line.

(** The values of [UartCfg] that were assigned. *)
Definition at_radio_find_uart_config : M at_sys (AtError_t * list Z) :=
  '(e, resp) ← radio_try 64 (chars "AT+UART?");
  match e, resp with
  | AT_ER_OK, Some r =>
      '(n, vs) ← at_resp_parse_line_args [] (scan_uart scan_eof) r 1;
      if n =? 0 then mret (AT_ER_PARSE_LINE, vs)
      else at_delete_resp resp;; mret (AT_ER_OK, vs)
  | _, _ => mret (e, [])
  end.

(** The word is stored in [char str[10]]; the logging and the comparisons read
    it whether or not it was assigned. *)
Definition statue_word (word : option (list Z)) : outcome (list Z) :=
  match word with
  | None => Fault FUninit
  | Some w => if (length w + 1 <=? 10)%nat then Ok w else Fault FOutOfBounds
  end.

Definition statue_of (str : list Z) : option AtRadioStatue_t :=
  if strcmp str (chars "LORA_SLEEP") =? 0 then Some AT_RADIO_STATUE_SLEEP
  else if strcmp str (chars "LORA_JOIN") =? 0 then Some AT_RADIO_STATUE_JOIN
  else if strcmp str (chars "LORA_SEND") =? 0 then Some AT_RADIO_STATUE_SEND
  else if strcmp str (chars "LORA_CYCLE_SEND") =? 0 then Some AT_RADIO_STATUE_CYCLE_SEND
  else if strcmp str (chars "LORA_NULL") =? 0 then Some AT_RADIO_STATUE_NULL
  else if strcmp str (chars "LORA_WAIT_JOIN") =? 0 then Some AT_RADIO_STATUE_WAIT
  else None.

(** [*statue] as the function leaves it. *)
Definition at_radio_get_statue (statue : AtRadioStatue_t) : M at_sys (AtError_t * AtRadioStatue_t) :=
  '(e, resp) ← radio_try 64 (chars "AT+STATUE");
  match e, resp with
  | AT_ER_OK, Some r =>
      '(n, word) ← at_resp_parse_line_args_by_kw None (scan_word scan_eof) r (chars "+STATUE");
      if n =? 0 then mret (AT_ER_PARSE_KW, statue)
      else
        str ← lift (statue_word word);
        at_delete_resp resp;;
        mret (AT_ER_OK, default statue (statue_of str))
  | AT_ER_SEND_TIMEOUT, _ => mret (e, AT_RADIO_STATUE_LOSE)
  | _, _ => mret (e, statue)
  end.

Definition at_radio_join_net : M at_sys AtError_t :=
  e ← radio_exec 10 (chars "AT+JOIN=60,1");
  if bool_decide (e <> AT_ER_OK) then mret e else radio_exec 64 (chars "AT+JOIN").

Definition at_radio_send_hex (data : list Z) (size : Z) : M at_sys AtError_t :=
  let sendStr := char_array 512 (chars "AT+SENDHEX=") in
  str ← lift (byte_2_hexstr data (replicate 256 0) size);
  resp ← at_create_resp 64 0 (rt_tick_from_millisecond 5000);
  match resp with
  | None => mret AT_ER_CREAT_RESP
  | Some r =>
      sendStr ← lift (strcat_m sendStr str);
      cmd ← lift (c_string sendStr 0);
      re ← at_exec_cmd (Some r) cmd;
      if re =? -1 then mret AT_ER_SEND_ERROR
      else if re =? -2 then mret AT_ER_SEND_TIMEOUT
      else at_delete_resp (Some r);; mret AT_ER_OK
  end.

Definition at_radio_set_autojoin (mode : Z) : M at_sys AtError_t :=
  let sendStr := char_array 50 (chars "AT+AUTOJOIN=") in
  sendStr ← lift (strcat_m sendStr (nul (if mode =? 1 then chars "1" else chars "0")));
  cmd ← lift (c_string sendStr 0);
  radio_exec 64 cmd.

(** One line of [str[3][100]]. *)
Definition otaa_command (prefix s : list Z) : outcome (list Z) :=
  a ← strcat_m (char_array 100 prefix) (nul s);
  c_string a 0.

Definition at_radio_set_OTAA_info (info : option AtRadioInfo_t) : M at_sys AtError_t :=
  match info with
  | None => mret AT_ER_OTHER
  | Some info =>
      str0 ← lift (otaa_command (chars "AT+DEVEUI=") (devEui info));
      str1 ← lift (otaa_command (chars "AT+APPEUI=") (appEui info));
      str2 ← lift (otaa_command (chars "AT+APPKEY=") (appKey info));
      e ← radio_exec 64 str0;
      if bool_decide (e <> AT_ER_OK) then mret e else
      e ← radio_exec 64 str1;
      if bool_decide (e <> AT_ER_OK) then mret e else
      radio_exec 100 str2
  end.
End Radio.

(** ** The hexadecimal text *)
Definition hex (data : list Z) : list Z :=
  concat ((fun b => [hex_digit (b ≫ 4); hex_digit (Z.land b 0x0f)]) <$> data).

Definition unhex_digit (c : Z) : Z := if c <=? 57 then c - 48 else c - 55.
Fixpoint unhex (s : list Z) : list Z :=
  match s with
  | h :: l :: s => (16 * unhex_digit h + unhex_digit l) :: unhex s
  | _ => []
  end.

Lemma hex_digit_cases d : 0 <= d < 16 ->
  unhex_digit (hex_digit d) = d /\ (48 <= hex_digit d <= 57 \/ 65 <= hex_digit d <= 70).
Proof.
  intros Hd. unfold hex_digit, unhex_digit. rewrite (u8_id (d + 0x30)) by (unfold is_byte; lia).
  destruct (Z.gtb_spec (d + 0x30) 0x39).
  - rewrite (u8_id (d + 0x30 + 0x07)) by (unfold is_byte; lia).
    destruct (Z.leb_spec (d + 0x30 + 0x07) 57); lia.
  - destruct (Z.leb_spec (d + 0x30) 57); lia.
Qed.

Lemma nibbles b : is_byte b -> 0 <= b ≫ 4 < 16 /\ 0 <= Z.land b 0x0f < 16 /\ 16 * (b ≫ 4) + Z.land b 0x0f = b.
Proof.
  unfold is_byte. intros Hb. change 0x0f with (Z.ones 4). rewrite Z.land_ones, Z.shiftr_div_pow2 by lia.
  change (2 ^ 4) with 16. Z.to_euclidean_division_equations. lia.
Qed.

Lemma unhex_hex data : is_bytes data -> unhex (hex data) = data.
Proof.
  induction 1 as [|b data Hb _ IH]; [done|]. destruct (nibbles b Hb) as (Hh & Hl & Heq).
  unfold hex in *. cbn. rewrite IH. f_equal.
  rewrite (proj1 (hex_digit_cases _ Hh)), (proj1 (hex_digit_cases _ Hl)). done.
Qed.

Lemma hex_length data : length (hex data) = (2 * length data)%nat.
Proof. induction data as [|b data IH]; [done|]. unfold hex in *. cbn. lia. Qed.

Lemma hex_plain data : is_bytes data -> Forall (fun c => c <> 0 /\ c <> 37) (hex data).
Proof.
  induction 1 as [|b data Hb _ IH]; [constructor|]. destruct (nibbles b Hb) as (Hh & Hl & _).
  pose proof (proj2 (hex_digit_cases _ Hh)). pose proof (proj2 (hex_digit_cases _ Hl)).
  unfold hex in *. cbn. constructor; [lia|]. constructor; [lia|done].
Qed.

(** Only the digits 0 to 9 and A to F. *)
Definition is_hex (c : Z) : Prop := 48 <= c <= 57 \/ 65 <= c <= 70.

Lemma hex_digits data : is_bytes data -> Forall is_hex (hex data).
Proof.
  induction 1 as [|b data Hb _ IH]; [constructor|]. destruct (nibbles b Hb) as (Hh & Hl & _).
  unfold hex in *. cbn. constructor; [|constructor; [|done]]; unfold is_hex; by apply hex_digit_cases.
Qed.

Lemma hex_app d1 d2 : hex (d1 ++ d2) = hex d1 ++ hex d2.
Proof. unfold hex. by rewrite fmap_app, concat_app. Qed.

Lemma byte_2_hexstr_step n source pre m b : source !! length pre = Some b -> (2 <= m)%nat ->
  byte_2_hexstr_loop (S n) source (hex pre ++ replicate m 0) (Z.of_nat (length pre)) =
    byte_2_hexstr_loop n source (hex (pre ++ [b]) ++ replicate (m - 1 - 1) 0) (Z.of_nat (length (pre ++ [b]))).
Proof.
  intros Hb Hm. cbn [byte_2_hexstr_loop].
  rewrite (zget_Some _ _ b) by (lia || by rewrite Nat2Z.id). cbn [mbind outcome_bind].
  assert (forall c m' r, (0 < m')%nat -> zset (r ++ replicate m' 0) (Z.of_nat (length r)) c =
    Ok ((r ++ [c]) ++ replicate (m' - 1) 0)) as Hset.
  { intros c m' r Hm'. rewrite zset_ok by (rewrite length_app, length_replicate; lia).
    by rewrite Nat2Z.id, insert_next. }
  replace (Z.of_nat (length pre) * 2) with (Z.of_nat (length (hex pre))) by (rewrite hex_length; lia).
  rewrite Hset by lia. cbn [mbind outcome_bind].
  replace (Z.of_nat (length (hex pre)) + 1) with (Z.of_nat (length (hex pre ++ [hex_digit (b ≫ 4)])))
    by (rewrite length_app; cbn; lia).
  rewrite Hset by lia. cbn [mbind outcome_bind].
  replace ((hex pre ++ [hex_digit (b ≫ 4)]) ++ [hex_digit (Z.land b 0x0f)]) with (hex (pre ++ [b]))
    by (rewrite hex_app, <- app_assoc; done).
  by replace (Z.of_nat (length pre) + 1) with (Z.of_nat (length (pre ++ [b]))) by (rewrite length_app; cbn; lia).
Qed.

Lemma byte_2_hexstr_loop_ok n : forall source pre m,
  (length pre + n <= length source)%nat -> (2 * n <= m)%nat -> pre = take (length pre) source ->
  byte_2_hexstr_loop n source (hex pre ++ replicate m 0) (Z.of_nat (length pre)) =
    Ok (hex (take (length pre + n) source) ++ replicate (m - 2 * n) 0).
Proof.
  induction n as [|n IH]; intros source pre m Hl Hm Hpre.
  { cbn [byte_2_hexstr_loop]. rewrite Nat.add_0_r, <- Hpre, Nat.sub_0_r. done. }
  destruct (lookup_lt_is_Some_2 source (length pre)) as [b Hb]; [lia|].
  rewrite (byte_2_hexstr_step _ _ _ _ b) by (done || lia). rewrite IH.
  - rewrite length_app. cbn [length].
    replace (length pre + 1 + n)%nat with (length pre + S n)%nat by lia.
    by replace (m - 1 - 1 - 2 * n)%nat with (m - 2 * S n)%nat by lia.
  - rewrite length_app. cbn. lia.
  - lia.
  - rewrite length_app. cbn [length]. rewrite Nat.add_1_r, (take_S_r _ _ b Hb). by rewrite <- Hpre.
Qed.

(** More bytes than the text has room for. *)
Lemma byte_2_hexstr_loop_over n : forall source pre m,
  (length pre + n <= length source)%nat -> (2 * m < 2 * n)%nat ->
  byte_2_hexstr_loop n source (hex pre ++ replicate (2 * m) 0) (Z.of_nat (length pre)) = Fault FOutOfBounds.
Proof.
  induction n as [|n IH]; intros source pre m Hl Hm; [lia|].
  destruct (lookup_lt_is_Some_2 source (length pre)) as [b Hb]; [lia|]. destruct m as [|m].
  - cbn [byte_2_hexstr_loop]. rewrite (zget_Some _ _ b) by (lia || by rewrite Nat2Z.id). cbn [mbind outcome_bind].
    unfold zset. rewrite decide_False; [done|]. rewrite length_app, hex_length. cbn. lia.
  - rewrite (byte_2_hexstr_step _ _ _ _ b) by (done || lia).
    replace (2 * S m - 1 - 1)%nat with (2 * m)%nat by lia. apply IH; [rewrite length_app; cbn; lia|lia].
Qed.

(** ** String concatenation *)
Lemma strcat_find_ok s r fuel p : is_chars s -> (length s < fuel)%nat ->
  strcat_find fuel (p ++ nul s ++ r) (Z.of_nat (length p)) = Ok (Z.of_nat (length p + length s)).
Proof.
  revert fuel p. induction s as [|c s IH]; intros [|fuel] p Hs Hf; cbn [length] in *; try lia; cbn [strcat_find].
  - rewrite (zget_Some _ _ 0) by (lia || (rewrite Nat2Z.id, lookup_app_r, Nat.sub_diag by lia; done)).
    cbn. do 2 f_equal. lia.
  - apply Forall_cons in Hs as [Hc Hs].
    rewrite (zget_Some _ _ c) by (lia || (rewrite Nat2Z.id, lookup_app_r, Nat.sub_diag by lia; done)).
    cbn [mbind outcome_bind]. destruct (Z.eqb_spec c 0); [done|].
    replace (p ++ nul (c :: s) ++ r) with ((p ++ [c]) ++ nul s ++ r)
      by (unfold nul; by rewrite <- app_assoc).
    replace (Z.of_nat (length p) + 1) with (Z.of_nat (length (p ++ [c]))) by (rewrite length_app; cbn; lia).
    rewrite IH by (done || lia). do 2 f_equal. rewrite length_app. cbn. lia.
Qed.

Lemma strcat_copy_ok t z : forall fuel p pre m, is_chars t -> (length t < fuel)%nat -> (length t < m)%nat ->
  strcat_copy fuel (p ++ replicate m 0) (pre ++ nul t ++ z) (Z.of_nat (length p)) (Z.of_nat (length pre)) =
    Ok (p ++ t ++ replicate (m - length t) 0).
Proof.
  induction t as [|c t IH]; intros [|fuel] p pre m Ht Hf Hm; cbn [length] in *; try lia; cbn [strcat_copy].
  - rewrite (zget_Some _ _ 0) by (lia || (rewrite Nat2Z.id, lookup_app_r, Nat.sub_diag by lia; done)).
    cbn [mbind outcome_bind]. rewrite zset_ok by (rewrite length_app, length_replicate; lia).
    rewrite Nat2Z.id, insert_next by lia. cbn. f_equal. rewrite <- app_assoc. f_equal.
    change ([0] ++ replicate (m - 1) 0) with (replicate (S (m - 1)) 0). f_equal. lia.
  - apply Forall_cons in Ht as [Hc Ht].
    rewrite (zget_Some _ _ c) by (lia || (rewrite Nat2Z.id, lookup_app_r, Nat.sub_diag by lia; done)).
    cbn [mbind outcome_bind]. rewrite zset_ok by (rewrite length_app, length_replicate; lia).
    rewrite Nat2Z.id, insert_next by lia. cbn [mbind outcome_bind]. destruct (Z.eqb_spec c 0); [done|].
    replace (pre ++ nul (c :: t) ++ z) with ((pre ++ [c]) ++ nul t ++ z)
      by (unfold nul; by rewrite <- app_assoc).
    replace (Z.of_nat (length p) + 1) with (Z.of_nat (length (p ++ [c]))) by (rewrite length_app; cbn; lia).
    replace (Z.of_nat (length pre) + 1) with (Z.of_nat (length (pre ++ [c]))) by (rewrite length_app; cbn; lia).
    rewrite IH by (done || lia). f_equal. rewrite <- app_assoc. cbn [app]. do 3 f_equal. f_equal. lia.
Qed.

(** A string appended to one that is followed by zeros. *)
Lemma strcat_m_ok s t z m : is_chars s -> is_chars t -> (length t < m)%nat ->
  strcat_m (s ++ replicate m 0) (nul t ++ z) = Ok (s ++ t ++ replicate (m - length t) 0).
Proof.
  intros Hs Ht Hm. unfold strcat_m. destruct m as [|m]; [lia|].
  change (s ++ replicate (S m) 0) with (s ++ [0] ++ replicate m 0). rewrite app_assoc.
  pose proof (strcat_find_ok s (replicate m 0) (S (length ((s ++ [0]) ++ replicate m 0))) [] Hs) as E.
  cbn [app length] in E. unfold nul in E at 1. change (Z.of_nat 0) with 0 in E. rewrite E.
  2: { rewrite !length_app. cbn. lia. }
  cbn [mbind outcome_bind]. rewrite <- app_assoc. change ([0] ++ replicate m 0) with (replicate (S m) 0).
  apply (strcat_copy_ok t z _ s [] (S m) Ht); [|done].
  unfold nul. rewrite !length_app. cbn. lia.
Qed.

(** ** A command that the module answers *)
Definition new_resp (size timeout : Z) : at_response := MkResp (Some (replicate (Z.to_nat size) 0)) size 0 0 timeout.

(** The response object after [kept] lines. *)
Definition filled_resp (x : at_response) (kept : list (list Z)) : at_response :=
  x <| buf := Some (concat (stored <$> kept) ++
         replicate (Z.to_nat (buf_size x - stored_size kept)) 0) |>
    <| line_counts := Z.of_nat (length kept) |>.

(** The two allocations of [at_create_resp] succeed. *)
Definition can_alloc (a : at_sys) : Prop := Forall (fun fails => fails = false) (take 2 (oom a)).

(** The state with a new response object. *)
Definition created (x : at_response) (a : at_sys) : at_sys :=
  a <| oom := drop 2 (oom a) |> <| next_resp := next_resp a + 1 |>
    <| responses := <[next_resp a := x]> (responses a) |>.

Lemma at_create_resp_run size t a : can_alloc a ->
  at_create_resp size 0 t a = Ok (Some (next_resp a), created (new_resp size t) a).
Proof.
  unfold can_alloc, at_create_resp, alloc_ok, put_resp. intros H.
  destruct a as [? ? ? ? ? ? ? [|f1 [|f2 l]] ? ?]; cbn in H;
    repeat match goal with H : Forall _ (_ :: _) |- _ => apply Forall_cons in H as [-> H] end; done.
Qed.

Lemma at_delete_resp_run r x a : responses a !! r = Some x ->
  at_delete_resp (Some r) a = Ok (tt, a <| responses := delete r (responses a) |>).
Proof. intros H. unfold at_delete_resp. erewrite run_bind_ok by (by apply get_resp_Some). done. Qed.

Lemma at_idle_created x base k a : at_idle base k a -> at_idle base k (created x a).
Proof.
  intros [? ? ? ? ? ? ? ? ? Hr%reading_iff]. split; try done. by apply reading_iff.
Qed.

Definition code_of (st : at_resp_status) : AtError_t :=
  if bool_decide (st = AT_RESP_OK) then AT_ER_OK else AT_ER_SEND_ERROR.

Section Answered.
Context (modem : list Z -> list Z) (self : rt_thread).
Context (size : Z) (Hsize : 0 <= size) (cmd out : list Z).
Context (Hf : format_output cmd = Ok out) (Hlen : Z.of_nat (length out) < AT_CMD_MAX_LEN).
Context (ls kept : list (list Z)) (st : at_resp_status).
Context (Hrun : response_run (new_resp size 500) 0 0 [] ls = Some (st, kept)).

(** From a response object to the result of the command. *)
Lemma at_exec_answered r a : at_idle 0 0 a -> responses a !! r = Some (new_resp size 500) ->
  Forall (line_ok (recv_bufsz (client a))) ls ->
  modem (tx a ++ out ++ [13; 10]) = wire_lines ls ->
  exists a', at_exec_cmd modem self (Some r) cmd a =
      Ok (if decide (st = AT_RESP_OK) then 0 else -1, a') /\
    at_idle 0 0 a' /\ tx a' = tx a ++ out ++ [13; 10] /\
    responses a' = <[r := filled_resp (new_resp size 500) kept]> (responses a) /\
    recv_bufsz (client a') = recv_bufsz (client a).
Proof using Hsize Hf Hlen Hrun.
  intros Hid Hr Hls Hm.
  destruct (exchange self r (new_resp size 500) cmd out 0 0 ls st kept a)
    as (a1 & a2 & a3 & E1 & Htx & E2 & Hrdy & E3 & Hid3 & Htx3 & Hw & Ho & Hb & Hx3); try done.
  exists a3. split_and!; [|done|congruence| |done].
  - unfold at_exec_cmd. erewrite run_bind_ok by exact E1. cbn beta iota. rewrite run_bind_gets, Htx, Hm.
    erewrite run_bind_ok by exact E2. cbn beta. rewrite run_bind_gets, Hw, bool_decide_true by done.
    rewrite E3. unfold exec_result. cbn. by destruct st.
  - apply map_eq. intros i. destruct (decide (i = r)) as [->|].
    + rewrite lookup_insert_eq, Hx3. unfold filled_resp. rewrite Z.add_0_l, Z.sub_0_r. done.
    + rewrite lookup_insert_ne by done. by apply Ho.
Qed.

Lemma radio_answered a : at_idle 0 0 a -> can_alloc a ->
  Forall (line_ok (recv_bufsz (client a))) ls ->
  modem (tx a ++ out ++ [13; 10]) = wire_lines ls ->
  exists a', radio_try modem self size cmd a = Ok ((code_of st, Some (next_resp a)), a') /\
    at_idle 0 0 a' /\ tx a' = tx a ++ out ++ [13; 10] /\
    responses a' = <[next_resp a := filled_resp (new_resp size 500) kept]> (responses a).
Proof using Hsize Hf Hlen Hrun.
  intros Hid Ha Hls Hm.
  destruct (at_exec_answered (next_resp a) (created (new_resp size 500) a)) as (a' & E & Hid' & Htx & Hresp & _);
    [by apply at_idle_created|apply lookup_insert_eq|done|done|].
  exists a'. split_and!; [|done|done|].
  - unfold radio_try. change (rt_tick_from_millisecond 5000) with 500.
    erewrite run_bind_ok by (by apply at_create_resp_run). cbn beta iota.
    erewrite run_bind_ok by exact E. cbn beta. by destruct st.
  - rewrite Hresp. cbn. by rewrite insert_insert_eq.
Qed.
End Answered.

(** ** The text of AT+SENDHEX *)
Definition sendhex (data : list Z) : list Z := chars "AT+SENDHEX=" ++ hex data.

Lemma format_output_plain s : Forall (fun c => c <> 37) s -> format_output s = Ok s.
Proof.
  induction 1 as [|c s Hc _ IH]; [done|]. cbn. rewrite IH.
  destruct c as [|p|p]; try done. do 6 (destruct p as [p|p|]; try done).
Qed.

Lemma char_array_zeros size s : (length s <= size)%nat ->
  char_array size s = s ++ replicate (size - length s) 0.
Proof.
  intros Hl. unfold char_array. rewrite take_app, take_ge by lia. f_equal.
  rewrite take_replicate. f_equal. lia.
Qed.

Lemma c_string_zeros s m : is_chars s -> (0 < m)%nat -> c_string (s ++ replicate m 0) 0 = Ok s.
Proof.
  intros Hs Hm. destruct m as [|m]; [lia|]. unfold c_string. rewrite decide_True by lia. rewrite drop_0.
  change (replicate (S m) 0) with ([0] ++ replicate m 0). rewrite app_assoc. by apply string_of_nul.
Qed.

Lemma byte_2_hexstr_ok data m : (2 * length data <= m)%nat ->
  byte_2_hexstr data (replicate m 0) (Z.of_nat (length data)) =
    Ok (hex data ++ replicate (m - 2 * length data) 0).
Proof.
  intros Hm. unfold byte_2_hexstr. rewrite Nat2Z.id.
  pose proof (byte_2_hexstr_loop_ok (length data) data [] m) as E.
  change (hex [] ++ replicate m 0) with (replicate m 0) in E. change (Z.of_nat (length [])) with 0 in E.
  rewrite E by (done || (cbn; lia)). cbn [length Nat.add]. by rewrite firstn_all.
Qed.

Lemma hex_chars data : is_bytes data -> is_chars (hex data).
Proof. intros H. eapply Forall_impl; [by apply hex_plain|]. by intros c []. Qed.

Lemma sendhex_plain data : is_bytes data -> is_chars (sendhex data) /\ format_output (sendhex data) = Ok (sendhex data).
Proof.
  intros H. split.
  - apply Forall_app_2; [by apply (bool_decide_unpack _)|by apply hex_chars].
  - apply format_output_plain, Forall_app_2; [by apply (bool_decide_unpack _)|].
    eapply Forall_impl; [by apply hex_plain|]. by intros c [].
Qed.

Lemma sendhex_length data : length (sendhex data) = (11 + 2 * length data)%nat.
Proof. unfold sendhex. rewrite length_app, hex_length. done. Qed.

(** Up to 127 bytes the text is built; the state is that of the new response. *)
Lemma send_hex_built modem self data a : is_bytes data -> (length data <= 127)%nat -> can_alloc a ->
  at_radio_send_hex modem self data (Z.of_nat (length data)) a =
    (re ← at_exec_cmd modem self (Some (next_resp a)) (sendhex data);
     if re =? -1 then mret AT_ER_SEND_ERROR
     else if re =? -2 then mret AT_ER_SEND_TIMEOUT
     else at_delete_resp (Some (next_resp a));; mret AT_ER_OK) (created (new_resp 64 500) a).
Proof.
  intros Hd Hl Ha. unfold at_radio_send_hex. rewrite byte_2_hexstr_ok by lia. rewrite run_bind_lift.
  change (rt_tick_from_millisecond 5000) with 500.
  erewrite run_bind_ok by (by apply at_create_resp_run). cbn beta iota.
  rewrite char_array_zeros by (vm_compute; lia).
  replace (replicate (256 - 2 * length data) 0) with (0 :: replicate (255 - 2 * length data) 0)
    by (change (replicate (S (255 - 2 * length data)) 0 = replicate (256 - 2 * length data) 0); f_equal; lia).
  replace (hex data ++ 0 :: replicate (255 - 2 * length data) 0)
    with (nul (hex data) ++ replicate (255 - 2 * length data) 0) by (unfold nul; by rewrite <- app_assoc).
  change (512 - length (chars "AT+SENDHEX="))%nat with 501%nat.
  rewrite strcat_m_ok by (rewrite ?hex_length; (lia || by apply hex_chars || by apply (bool_decide_unpack _))).
  rewrite run_bind_lift, app_assoc. fold (sendhex data).
  rewrite c_string_zeros by (rewrite ?hex_length; (lia || by apply sendhex_plain)).
  by rewrite run_bind_lift.
Qed.

Lemma byte_2_hexstr_over data m : (m < length data)%nat ->
  byte_2_hexstr data (replicate (2 * m) 0) (Z.of_nat (length data)) = Fault FOutOfBounds.
Proof.
  intros Hm. unfold byte_2_hexstr. rewrite Nat2Z.id.
  apply (byte_2_hexstr_loop_over (length data) data [] m); cbn; lia.
Qed.

(** Without a NUL the copy runs past the end of the source. *)
Lemma strcat_copy_over t : forall fuel p pre m, is_chars t -> (length t < fuel)%nat -> (length t <= m)%nat ->
  strcat_copy fuel (p ++ replicate m 0) (pre ++ t) (Z.of_nat (length p)) (Z.of_nat (length pre)) = Fault FOutOfBounds.
Proof.
  induction t as [|c t IH]; intros [|fuel] p pre m Ht Hf Hm; cbn [length] in *; try lia; cbn [strcat_copy].
  - rewrite app_nil_r. unfold zget. rewrite decide_True by lia. rewrite Nat2Z.id, lookup_ge_None_2 by lia. done.
  - apply Forall_cons in Ht as [Hc Ht].
    rewrite (zget_Some _ _ c) by (lia || (rewrite Nat2Z.id, lookup_app_r, Nat.sub_diag by lia; done)).
    cbn [mbind outcome_bind]. rewrite zset_ok by (rewrite length_app, length_replicate; lia).
    rewrite Nat2Z.id, insert_next by lia. cbn [mbind outcome_bind]. destruct (Z.eqb_spec c 0); [done|].
    replace (pre ++ c :: t) with ((pre ++ [c]) ++ t) by by rewrite <- app_assoc.
    replace (Z.of_nat (length p) + 1) with (Z.of_nat (length (p ++ [c]))) by (rewrite length_app; cbn; lia).
    replace (Z.of_nat (length pre) + 1) with (Z.of_nat (length (pre ++ [c]))) by (rewrite length_app; cbn; lia).
    by rewrite IH by (done || lia).
Qed.

(** A command longer than the buffer it was formatted into is sent from behind it. *)
Lemma exec_overrun self r cmd out a : device (client a) = true -> lock_free (lock (client a)) ->
  Z.of_nat (length (send_buf a)) = AT_CMD_MAX_LEN ->
  format_output cmd = Ok out -> AT_CMD_MAX_LEN < Z.of_nat (length out) ->
  at_obj_exec_cmd self r cmd a = Fault FOutOfBounds.
Proof.
  unfold AT_CMD_MAX_LEN. intros Hd Hlk Hs Hf Hl.
  unfold at_obj_exec_cmd. rewrite run_bind_gets, Hd. cbn [negb]. rewrite run_bind_gets.
  destruct (take_free (tid self) RT_WAITING_FOREVER _ Hlk) as (m & Hm & _). rewrite Hm, run_bind_lift, run_bind_modify.
  unfold at_obj_exec_cmd_locked. rewrite !run_bind_modify. apply run_bind_fault.
  unfold at_vprintfln, at_vprintf. rewrite Hf. apply run_bind_fault. rewrite run_bind_lift, run_bind_gets.
  match goal with |- context [memcpy ?d 0 ?s 0 ?n] => destruct (memcpy_total d 0 s 0 n) as [b Hb] end;
    [lia|lia| |lia|lia|].
  { cbn -[Z.of_nat length]. rewrite length_app, length_take. unfold AT_CMD_MAX_LEN. cbn [length]. cbn in Hs |- *. lia. }
  pose proof (memcpy_length _ _ _ _ _ _ Hb) as Hbl. rewrite Hb, run_bind_lift, !run_bind_modify.
  unfold device_write. apply run_bind_fault. unfold memcpy. rewrite decide_False; [done|].
  cbn in Hbl. lia.
Qed.

(** ** The properties *)

(** C5: [at_radio_send_hex] with up to 58 bytes: when the module answers OK, the text on the line is AT+SENDHEX= followed by two digits 0-9, A-F per byte, from which the bytes can be read back, the result is AT_ER_OK, and the response object is freed again; with 59 to 255 bytes (the comment allows 128) the command overruns the AT client's 128-byte buffer, or the function's own 256-byte one. *)
Theorem at_radio_send_hex_correct modem self data a : at_idle 0 0 a -> can_alloc a ->
  is_bytes data -> responses a !! next_resp a = None ->
  modem (tx a ++ sendhex data ++ [13; 10]) = wire_lines [line_OK] ->
  ((length data <= 58)%nat ->
    exists a', at_radio_send_hex modem self data (Z.of_nat (length data)) a = Ok (AT_ER_OK, a') /\
      tx a' = tx a ++ chars "AT+SENDHEX=" ++ hex data ++ [13; 10] /\
      Forall is_hex (hex data) /\ unhex (hex data) = data /\
      responses a' = responses a /\ at_idle 0 0 a') /\
  ((59 <= length data <= 255)%nat ->
    at_radio_send_hex modem self data (Z.of_nat (length data)) a = Fault FOutOfBounds).
Proof.
  intros Hid Ha Hd Hn Hm. pose proof Hid as [Hdev _ Hb Hlk _ _ Hs _ _ _].
  destruct (sendhex_plain data Hd) as [_ Hf]. pose proof (sendhex_length data) as Hl.
  split; [intros H58|intros H255].
  - destruct (at_exec_answered modem self 64 ltac:(lia) (sendhex data) (sendhex data) Hf
      ltac:(unfold AT_CMD_MAX_LEN; lia) [line_OK] [line_OK] AT_RESP_OK eq_refl (next_resp a)
      (created (new_resp 64 500) a)) as (a' & E & Hid' & Htx & Hr & _);
      [by apply at_idle_created|apply lookup_insert_eq| |done|].
    { constructor; [|done]. split_and!; [by apply (bool_decide_unpack _)..|cbn; lia]. }
    eexists. split_and!.
    + rewrite send_hex_built by (done || lia). erewrite run_bind_ok by exact E. cbn beta. change (0 =? -1) with false. change (0 =? -2) with false. cbv iota.
      erewrite run_bind_ok by (eapply at_delete_resp_run; rewrite Hr; apply lookup_insert_eq). done.
    + cbn. rewrite Htx. unfold sendhex. by rewrite <- app_assoc.
    + by apply hex_digits.
    + by apply unhex_hex.
    + cbn. rewrite Hr. cbn. by rewrite insert_insert_eq, delete_insert_id.
    + destruct Hid' as [? ? ? ? ? ? ? ? ? Hrd%reading_iff]. split; try done. by apply reading_iff.
  - destruct (decide (length data <= 127)%nat) as [H127|].
    { rewrite send_hex_built by done. apply run_bind_fault. unfold at_exec_cmd. apply run_bind_fault.
      eapply exec_overrun; [done..|]. unfold AT_CMD_MAX_LEN. lia. }
    unfold at_radio_send_hex. destruct (decide (length data = 128)%nat) as [H128|].
    + rewrite byte_2_hexstr_ok by lia. rewrite run_bind_lift. change (rt_tick_from_millisecond 5000) with 500.
      erewrite run_bind_ok by (by apply at_create_resp_run). cbn beta iota. apply run_bind_fault.
      rewrite char_array_zeros by (vm_compute; lia). rewrite H128. change (256 - 2 * 128)%nat with O.
      rewrite app_nil_r. change (512 - length (chars "AT+SENDHEX="))%nat with 501%nat. unfold strcat_m.
      change (chars "AT+SENDHEX=" ++ replicate 501 0) with (nul (chars "AT+SENDHEX=") ++ replicate 500 0).
      pose proof (strcat_find_ok (chars "AT+SENDHEX=") (replicate 500 0) 513 []) as E.
      cbn [app] in E. change (length (nul (chars "AT+SENDHEX=") ++ replicate 500 0)) with 512%nat.
      change (Z.of_nat (length [])) with 0 in E. rewrite E by (by apply (bool_decide_unpack _) || (cbn; lia)).
      change (nul (chars "AT+SENDHEX=") ++ replicate 500 0) with (chars "AT+SENDHEX=" ++ replicate 501 0).
      cbn [mbind outcome_bind]. unfold lift.
      by rewrite (strcat_copy_over (hex data) _ (chars "AT+SENDHEX=") [] 501)
        by (rewrite ?hex_length; (lia || by apply hex_chars)).
    + change (replicate 256 0) with (replicate (2 * 128) 0). by rewrite byte_2_hexstr_over by lia.
Qed.

Lemma at_radio_send_hex_correct_witness :
  (exists a', at_radio_send_hex (fun _ => wire_lines [line_OK]) at_thread [0x1f; 0xa0] 2 example_at = Ok (AT_ER_OK, a') /\
    tx a' = chars "AT+SENDHEX=1FA0" ++ [13; 10]) /\
  at_radio_send_hex (fun _ => wire_lines [line_OK]) at_thread (replicate 59 7) 59 example_at = Fault FOutOfBounds.
Proof.
  split.
  - destruct (at_radio_send_hex_correct (fun _ => wire_lines [line_OK]) at_thread [0x1f; 0xa0] example_at)
      as [(a' & E & Htx & _) _]; [apply example_at_idle|constructor|bytes_ok|done|done|cbn; lia|]. exists a'. split; [exact E|exact Htx].
  - destruct (at_radio_send_hex_correct (fun _ => wire_lines [line_OK]) at_thread (replicate 59 7) example_at)
      as [_ E]; [apply example_at_idle|constructor|by apply (bool_decide_unpack _)|done|done|].
    exact (E ltac:(rewrite length_replicate; lia)).
Defined.

(** ** The answer to AT+STATUE *)
Definition statue_line (w : list Z) : list Z := chars "+STATUE:" ++ w.

(** A word as [%s] reads it. *)
Definition is_word (w : list Z) : Prop := w <> [] /\ Forall (fun c => c <> 0 /\ is_space c = false) w.

#[export] Instance is_word_dec w : Decision (is_word w).
Proof. unfold is_word. apply _. Defined.

Lemma span_app p w c r : Forall (fun x => p x = true) w -> p c = false -> span p (w ++ c :: r) = (w, c :: r).
Proof.
  intros Hw Hc. induction Hw as [|x w Hx _ IH]; cbn.
  - by rewrite Hc.
  - by rewrite Hx, IH.
Qed.

Lemma scan_word_statue scan_eof w : is_word w -> scan_word scan_eof (statue_line w ++ [13]) = (1, Some w).
Proof.
  intros [Hne Hw]. unfold scan_word, statue_line.
  replace ((chars "+STATUE:" ++ w) ++ [13]) with (chars "+STATUE" ++ 58 :: (w ++ [13])) by by rewrite <- app_assoc.
  rewrite span_app by (done || by apply (bool_decide_unpack _)).
  destruct w as [|c w]; [done|]. change (chars "+STATUE") with (43 :: chars "STATUE").
  assert (span is_space ((c :: w) ++ [13]) = ([], (c :: w) ++ [13])) as ->.
  { apply Forall_cons in Hw as [[_ Hc] _]. cbn. by rewrite Hc. }
  cbn [snd]. rewrite span_app; [done| |done].
  eapply Forall_impl; [exact Hw|]. intros x [_ Hx]. by rewrite Hx.
Qed.

(** The line can be told from the final one and from an error. *)
Lemma statue_run w : (length w <= 40)%nat -> strstr (statue_line w ++ [13]) AT_RESP_END_ERROR = None ->
  response_run (new_resp 64 500) 0 0 [] [statue_line w; line_OK] = Some (AT_RESP_OK, [statue_line w; line_OK]).
Proof.
  intros Hl He. assert (length (stored (statue_line w)) = length w + 10)%nat as Hs.
  { unfold stored, statue_line. rewrite !length_app. cbn. lia. }
  assert (accept 0 64 [] (statue_line w) = [statue_line w]) as Ha.
  { unfold accept. rewrite Hs. change (stored_size []) with 0. destruct (Z.ltb_spec (0 + 0 + Z.of_nat (length w + 10)) 64); [done|lia]. }
  assert (accept 0 64 [statue_line w] line_OK = [statue_line w; line_OK]) as Ha2.
  { unfold accept. change [statue_line w] with ([] ++ [statue_line w]) at 1. rewrite stored_size_snoc, Hs.
    change (stored_size []) with 0. change (Z.of_nat (length (stored line_OK))) with 4.
    destruct (Z.ltb_spec (0 + (0 + Z.of_nat (length w + 10)) + 4) 64); [done|lia]. }
  cbn [response_run]. change (buf_size (new_resp 64 500)) with 64. rewrite Ha, Ha2.
  assert (forall n, line_verdict 0 n (statue_line w) = None) as Hv.
  { intros n. unfold line_verdict. rewrite He, bool_decide_false by naive_solver.
    change (starts_with AT_RESP_END_OK (statue_line w)) with false.
    change (starts_with AT_RESP_END_FAIL (statue_line w)) with false. cbn. by destruct (n =? 0). }
  change (line_num (new_resp 64 500)) with 0. by rewrite Hv.
Qed.

Lemma find_statue scan_eof r a w : is_word w ->
  responses a !! r = Some (filled_resp (new_resp 64 500) [statue_line w; line_OK]) ->
  at_resp_parse_line_args_by_kw None (scan_word scan_eof) r (chars "+STATUE") a = Ok ((1, Some w), a).
Proof.
  intros Hword Hr. pose proof Hword as [_ Hw].
  assert (c_string (concat (stored <$> [statue_line w; line_OK]) ++
    replicate (Z.to_nat (64 - stored_size [statue_line w; line_OK])) 0) 0 = Ok (statue_line w ++ [13])) as Hs.
  { cbn [fmap list_fmap concat]. rewrite <- app_assoc. apply c_string_stored.
    apply Forall_app_2; [by apply (bool_decide_unpack _)|]. eapply Forall_impl; [exact Hw|]. by intros c []. }
  assert (at_resp_get_line_by_kw r (chars "+STATUE") a = Ok (Some 0, a)) as E.
  { unfold at_resp_get_line_by_kw. erewrite run_bind_ok by (by apply get_resp_Some). cbn beta.
    change (line_counts (filled_resp _ _)) with 2. cbn [Z.leb Z.compare].
    unfold resp_array. change (buf (filled_resp (new_resp 64 500) ?k)) with
      (Some (concat (stored <$> k) ++ replicate (Z.to_nat (64 - stored_size k)) 0)).
    cbv iota. rewrite run_bind_ret. unfold lift. change (Z.to_nat 2) with 2%nat. cbn [get_line_kw_loop]. rewrite Hs.
    cbn [mbind outcome_bind]. rewrite bool_decide_true; [done|]. unfold statue_line.
    destruct (strstr_app [] (chars "+STATUE") ([58] ++ w ++ [13])) as [i Hi].
    cbn [app] in Hi. change (chars "+STATUE:") with (chars "+STATUE" ++ [58]). rewrite <- !app_assoc. cbn [app].
    by rewrite Hi. }
  unfold at_resp_parse_line_args_by_kw. erewrite run_bind_ok by exact E. cbn beta. unfold parse_args.
  erewrite run_bind_ok by (by apply get_resp_Some). cbn beta. unfold resp_array.
  change (buf (filled_resp (new_resp 64 500) ?k)) with
    (Some (concat (stored <$> k) ++ replicate (Z.to_nat (64 - stored_size k)) 0)).
  cbv iota. rewrite run_bind_ret, Hs, run_bind_lift. by rewrite scan_word_statue.
Qed.

(** [at_radio_get_statue] reads the module's state into an array of 10 characters: a state of up to 9 letters (LORA_JOIN, LORA_SEND and LORA_NULL) is recognised, an unknown one leaves the caller's value, and the response object is freed; a longer state, which LORA_SLEEP, LORA_WAIT_JOIN and LORA_CYCLE_SEND are, overflows the array; and an answer OK without the +STATUE line makes the function compare the array uninitialised, because the missing keyword is reported as -1 and not as 0. *)
Theorem at_radio_get_statue_words modem scan_eof self statue w a : at_idle 0 0 a -> can_alloc a ->
  responses a !! next_resp a = None -> is_word w -> (length w <= 40)%nat ->
  Z.of_nat (length w) + 10 <= recv_bufsz (client a) ->
  strstr (statue_line w ++ [13]) AT_RESP_END_ERROR = None ->
  let command := tx a ++ chars "AT+STATUE" ++ [13; 10] in
  (modem command = wire_lines [statue_line w; line_OK] -> (length w <= 9)%nat ->
   exists a', at_radio_get_statue modem scan_eof self statue a =
     Ok ((AT_ER_OK, default statue (statue_of w)), a') /\ responses a' = responses a /\ tx a' = command) /\
  (modem command = wire_lines [statue_line w; line_OK] -> (10 <= length w)%nat ->
   at_radio_get_statue modem scan_eof self statue a = Fault FOutOfBounds) /\
  (modem command = wire_lines [line_OK] -> at_radio_get_statue modem scan_eof self statue a = Fault FUninit).
Proof.
  intros Hid Ha Hn Hw Hl Hb He command. pose proof (id_bufsz _ _ _ Hid) as H4.
  assert (line_ok (recv_bufsz (client a)) line_OK) as Hok.
  { split_and!; [by apply (bool_decide_unpack _)..|cbn; lia]. }
  assert (line_ok (recv_bufsz (client a)) (statue_line w)) as Hline.
  { destruct Hw as [_ Hw]. split_and!.
    - apply Forall_app_2; [by apply (bool_decide_unpack _)|]. eapply Forall_impl; [exact Hw|]. by intros c [].
    - intros [H|H]%elem_of_app; [revert H; by apply (bool_decide_unpack _)|].
      rewrite Forall_forall in Hw. by destruct (Hw _ H).
    - unfold statue_line. rewrite length_app. cbn. lia. }
  assert (modem command = wire_lines [statue_line w; line_OK] -> exists a1,
    at_radio_get_statue modem scan_eof self statue a =
      (str ← lift (statue_word (Some w)); at_delete_resp (Some (next_resp a));;
       mret (AT_ER_OK, default statue (statue_of str))) a1 /\ tx a1 = command /\
    responses a1 = <[next_resp a := filled_resp (new_resp 64 500) [statue_line w; line_OK]]> (responses a)) as Hfound.
  { intros Hm. destruct (radio_answered modem self 64 ltac:(lia) (chars "AT+STATUE") (chars "AT+STATUE") eq_refl eq_refl
      [statue_line w; line_OK] _ AT_RESP_OK (statue_run w Hl He) a) as (a1 & E & _ & Htx & Hr); [done|done|by auto using Forall_cons_2, Forall_nil_2|done|].
    exists a1. split_and!; [|done|done]. match goal with |- _ = ?r => set (rest := r) end.
    unfold at_radio_get_statue. erewrite run_bind_ok by exact E. change (code_of AT_RESP_OK) with AT_ER_OK. cbn beta iota.
    erewrite run_bind_ok by (apply (find_statue scan_eof _ _ w Hw); rewrite Hr; apply lookup_insert_eq). done. }
  split_and!; intros Hm.
  - intros H9. destruct (Hfound Hm) as (a1 & -> & Htx & Hr). unfold statue_word.
    destruct (Nat.leb_spec (length w + 1) 10); [|lia]. rewrite run_bind_lift.
    erewrite run_bind_ok by (eapply at_delete_resp_run; rewrite Hr; apply lookup_insert_eq).
    eexists. split_and!; [done| |done]. cbn. rewrite Hr. by rewrite delete_insert_id.
  - intros H10. destruct (Hfound Hm) as (a1 & -> & _). unfold statue_word.
    by destruct (Nat.leb_spec (length w + 1) 10); [lia|].
  - destruct (radio_answered modem self 64 ltac:(lia) (chars "AT+STATUE") (chars "AT+STATUE") eq_refl eq_refl
      [line_OK] [line_OK] AT_RESP_OK eq_refl a) as (a1 & E & _ & _ & Hr); [done|done|by auto using Forall_cons_2, Forall_nil_2|done|].
    unfold at_radio_get_statue. erewrite run_bind_ok by exact E. change (code_of AT_RESP_OK) with AT_ER_OK. cbn beta iota.
    assert (at_resp_get_line_by_kw (next_resp a) (chars "+STATUE") a1 = Ok (None, a1)) as E1.
    { unfold at_resp_get_line_by_kw. erewrite run_bind_ok by (apply get_resp_Some; rewrite Hr; apply lookup_insert_eq).
      reflexivity. }
    unfold at_resp_parse_line_args_by_kw. rewrite run_bind_bind. erewrite run_bind_ok by exact E1. reflexivity.
Qed.

(** The board's client: 512 bytes of receive buffer. *)
Definition radio_at : at_sys :=
  example_at <| client := (client example_at) <| recv_bufsz := 512 |> <| recv_buffer := replicate 512 0 |> |>.

Lemma radio_at_idle : at_idle 0 0 radio_at.
Proof. by split. Qed.

Lemma at_radio_get_statue_words_witness :
  (exists a', at_radio_get_statue (fun _ => wire_lines [statue_line (chars "LORA_JOIN"); line_OK]) 0 at_thread
     AT_RADIO_STATUE_NULL radio_at = Ok ((AT_ER_OK, AT_RADIO_STATUE_JOIN), a')) /\
  at_radio_get_statue (fun _ => wire_lines [statue_line (chars "LORA_SLEEP"); line_OK]) 0 at_thread
     AT_RADIO_STATUE_NULL radio_at = Fault FOutOfBounds /\
  at_radio_get_statue (fun _ => wire_lines [line_OK]) 0 at_thread AT_RADIO_STATUE_NULL radio_at = Fault FUninit.
Proof.
  split_and!.
  - destruct (at_radio_get_statue_words (fun _ => wire_lines [statue_line (chars "LORA_JOIN"); line_OK]) 0 at_thread
      AT_RADIO_STATUE_NULL (chars "LORA_JOIN") radio_at) as [H _];
      [apply radio_at_idle|constructor|done|by apply (bool_decide_unpack _)|cbn; lia|cbn; lia|done|].
    destruct H as (a' & E & _); [done|cbn; lia|]. exists a'. exact E.
  - destruct (at_radio_get_statue_words (fun _ => wire_lines [statue_line (chars "LORA_SLEEP"); line_OK]) 0 at_thread
      AT_RADIO_STATUE_NULL (chars "LORA_SLEEP") radio_at) as (_ & H & _);
      [apply radio_at_idle|constructor|done|by apply (bool_decide_unpack _)|cbn; lia|cbn; lia|done|].
    exact (H eq_refl ltac:(cbn; lia)).
  - destruct (at_radio_get_statue_words (fun _ => wire_lines [line_OK]) 0 at_thread
      AT_RADIO_STATUE_NULL (chars "LORA_JOIN") radio_at) as (_ & _ & H);
      [apply radio_at_idle|constructor|done|by apply (bool_decide_unpack _)|cbn; lia|cbn; lia|done|].
    exact (H eq_refl).
Defined.
