(* ===== verification/AtAnyAnswer.v ===== *)
(** * Whatever the module answers (at_client.c, AT_client_radio.c)

    The exchange of AtExchange.v assumes an answer made of complete lines.  Here
    the module sends any bytes at all, or none: the parser either goes on waiting
    or has handed the response over exactly once, and touches no other response
    object; so a command always returns, with one of four codes. *)
From stdpp Require Import gmap.
From Stdlib Require Import String.
From S2P Require Import Prelude CString KClock Ipc IpcMutex AtClient AtExchange AtSetup AtRadio.

(** ** A response is awaited or has been handed over *)
Section Phase.
Context (r : Z) (notice : rt_semaphore) (a0 : at_sys).

Record awaited (a : at_sys) : Prop := {
  ph_tx : tx a = tx a0;
  ph_lock : lock (client a) = lock (client a0);
  ph_device : device (client a) = device (client a0);
  ph_send : send_buf a = send_buf a0;
  ph_next : next_resp a = next_resp a0;
  ph_others : forall r', r' <> r -> responses a !! r' = responses a0 !! r';
  ph_exists : is_Some (responses a !! r);
  ph_notice : (resp (client a) = Some r /\ resp_notice (client a) = notice) \/
    (resp (client a) = None /\ exists w, rt_sem_release notice = Ok (w, resp_notice (client a)))
}.

(** The response is still awaited. *)
Definition pending (a : at_sys) : Prop := awaited a /\ resp (client a) = Some r.

Lemma leads_get_resp (P : at_sys -> Prop) i : leads P P (get_resp i).
Proof. apply (leads_bind P P P); [apply leads_gets|]. intros [x|]; [apply leads_ret|apply leads_lift]. Qed.

Lemma leads_resp_array (P : at_sys -> Prop) x : leads P P (resp_array x).
Proof. unfold resp_array. destruct (buf x); [apply leads_ret|apply leads_lift]. Qed.

(** Changes of the parser's own fields. *)
Definition own (f : at_sys -> at_sys) : Prop := forall a,
  tx (f a) = tx a /\ lock (client (f a)) = lock (client a) /\ device (client (f a)) = device (client a) /\
  send_buf (f a) = send_buf a /\ next_resp (f a) = next_resp a /\ responses (f a) = responses a /\
  resp (client (f a)) = resp (client a) /\ resp_notice (client (f a)) = resp_notice (client a).

Lemma own_awaited f a : own f -> awaited a -> awaited (f a).
Proof.
  intros Hf []. destruct (Hf a) as (? & ? & ? & ? & ? & Hr & Hp & Hn).
  split; rewrite ?Hr, ?Hp, ?Hn; congruence || done.
Qed.

Lemma own_pending f a : own f -> pending a -> pending (f a).
Proof. intros Hf [Ha Hr]. split; [by apply own_awaited|]. by destruct (Hf a) as (_ & _ & _ & _ & _ & _ & -> & _). Qed.

Lemma leads_own f : own f -> leads awaited awaited (modify f).
Proof. intros Hf. apply leads_modify. intros a. by apply own_awaited. Qed.

Lemma leads_own_pending f : own f -> leads pending pending (modify f).
Proof. intros Hf. apply leads_modify. intros a. by apply own_pending. Qed.

Lemma leads_put_resp x : leads pending pending (put_resp r x).
Proof.
  apply leads_modify. intros a [[] Hr]. split; [|done]. split; cbn; try done.
  - intros r' Hne. rewrite lookup_insert_ne by congruence. auto.
  - by rewrite lookup_insert_eq.
Qed.

Lemma leads_finish st : leads pending awaited (finish_response r st).
Proof.
  intros a v a' [[] Hr]. destruct ph_exists0 as [x Hx].
  destruct (sem_release_total (resp_notice (client a))) as (w & s & Es).
  rewrite (finish_response_run _ _ _ _ _ _ Hx Es). intros [= _ <-].
  destruct ph_notice0 as [[_ Hn]|[Hn _]]; [|congruence]. rewrite Hn in Es.
  split; cbn; try done.
  - intros r' Hne. rewrite lookup_insert_ne by congruence. auto.
  - by rewrite lookup_insert_eq.
  - right. by split; [|exists w].
Qed.

Lemma leads_weaken {A} (m : M at_sys A) : leads pending pending m -> leads pending awaited m.
Proof. intros H a v a' HP E. by destruct (H a v a' HP E). Qed.

Ltac leads_step :=
  match goal with
  | |- leads _ _ (mret _) => apply leads_ret
  | |- leads _ _ skip => apply leads_ret
  | |- leads _ _ (gets _) => apply leads_gets
  | |- leads _ _ (lift _) => apply leads_lift
  | |- leads awaited awaited (modify _) => apply leads_own; by intros [[]]
  | |- leads pending pending (modify _) => apply leads_own_pending; by intros [[]]
  | |- leads _ _ (get_resp _) => apply leads_get_resp
  | |- leads _ _ (resp_array _) => apply leads_resp_array
  | |- leads _ _ (put_resp r _) => apply leads_put_resp
  | |- leads pending awaited (finish_response r _) => apply leads_finish
  | |- leads pending awaited skip => apply leads_weaken
  | |- leads ?P _ (_ ≫= _) => apply (leads_bind P P); [|intros ?]
  | |- leads _ _ (if ?b then _ else _) => destruct b
  | |- leads _ _ (match ?o with Some _ => _ | None => _ end) => destruct o
  end.

Lemma leads_clear_recv : leads awaited awaited clear_recv.
Proof. unfold clear_recv. repeat leads_step. Qed.

Lemma leads_response_line : leads pending awaited (response_line r).
Proof. unfold response_line. repeat leads_step. Qed.

Lemma leads_readline_start : leads awaited awaited readline_start.
Proof. unfold readline_start, clear_recv. repeat leads_step. Qed.

Lemma leads_readline_char ch : leads awaited awaited (readline_char ch).
Proof. unfold readline_char, clear_recv. repeat leads_step. Qed.

Lemma leads_parser_line len : leads awaited awaited (client_parser_line len).
Proof.
  unfold client_parser_line. destruct (len >? 0); [|apply leads_ret].
  intros a v a' Ha. rewrite run_bind_gets. destruct (get_urc_obj (client a)).
  - apply (fun H : leads awaited awaited _ => H a v a' Ha). repeat leads_step.
  - destruct (resp (client a)) as [r'|] eqn:E; [|by intros [= _ <-]].
    assert (r' = r) as -> by (destruct (ph_notice _ Ha) as [[]|[]]; congruence).
    intros E'. eapply leads_response_line; [by split|exact E'].
Qed.

Lemma leads_client_parser input : leads awaited awaited (client_parser input).
Proof.
  induction input as [|ch input IH]; [apply leads_ret|]. cbn [client_parser].
  apply (leads_bind awaited awaited); [|intros _; apply IH]. unfold client_parser_char.
  apply (leads_bind awaited awaited); [apply leads_readline_char|]. intros [len|]; [|apply leads_ret].
  apply (leads_bind awaited awaited); [apply leads_parser_line|]. intros _. apply leads_readline_start.
Qed.
End Phase.

(** ** A command with any answer *)

(** No command is being executed and a response object can be used. *)
Record radio_ready (a : at_sys) : Prop := {
  rr_wf : at_wf a;
  rr_device : device (client a) = true;
  rr_lock : lock_free (lock (client a));
  rr_resp : resp (client a) = None;
  rr_notice : sem_value (resp_notice (client a)) = 0 /\ sem_suspend_thread (resp_notice (client a)) = [];
  rr_send : Z.of_nat (length (send_buf a)) = AT_CMD_MAX_LEN
}.

Definition at_result (re : Z) : Prop := re = 0 \/ re = -1 \/ re = -2.

Section Answer.
Context (modem : list Z -> list Z) (self : rt_thread).
Context (size : Z) (Hsize : 0 <= size) (cmd out : list Z).
Context (Hf : format_output cmd = Ok out) (Hlen : Z.of_nat (length out) < AT_CMD_MAX_LEN).

(** The caller is suspended, with the parser ready to read the answer. *)
Lemma exec_suspends r a : radio_ready a -> responses a !! r = Some (new_resp size 500) ->
  exists a1, at_obj_exec_cmd self (Some r) cmd a = Ok (ExecResponse, a1) /\ at_wf a1 /\
    tx a1 = tx a ++ out ++ [13; 10] /\ next_resp a1 = next_resp a /\
    at_waiting (waiting_thread self) a1 /\ resp (client a1) = Some r /\
    (forall r', r' <> r -> responses a1 !! r' = responses a !! r') /\ is_Some (responses a1 !! r).
Proof using Hsize Hf Hlen.
  intros [[] Hd Hlk Hr [Hn0 Hn1] Hs] Hx.
  destruct (exec_sends self r _ cmd out a Hd Hlk Hs Hx Hf Hlen) as (m & b & -> & Hheld & Hsl).
  unfold wait_response. rewrite run_bind_gets. change (resp_notice (client (sent _ _ _ _ _ a))) with (resp_notice (client a)).
  unfold rt_sem_take. rewrite Hn0. change (0 >? 0) with false. change (timeout (new_resp size 500) =? 0) with false.
  cbv iota. c_run. eexists. split; [done|].
  destruct a as [[] [] ? ? ? rs ? ? ? ?]. cbn in *. subst. split_and!; try done.
  - split; cbn; try done. intros r' [= <-]. rewrite lookup_insert_eq. eexists _, _. split_and!; [done|done|].
    cbn. rewrite length_replicate. lia.
  - split; try done. cbn. rewrite Hn1. by destruct (sem_flag _).
  - intros r' Hne. cbn. by rewrite lookup_insert_ne by congruence.
  - cbn. by rewrite lookup_insert_eq.
Qed.

Lemma exec_returns_ready err a2 : at_wf a2 -> device (client a2) = true ->
  lock_held (tid self) (lock (client a2)) ->
  sem_value (resp_notice (client a2)) = 0 -> sem_suspend_thread (resp_notice (client a2)) = [] ->
  Z.of_nat (length (send_buf a2)) = AT_CMD_MAX_LEN ->
  exists re a3, exec_response (tid self) err a2 = Ok (re, a3) /\ at_result re /\ radio_ready a3 /\
    tx a3 = tx a2 /\ next_resp a3 = next_resp a2 /\ responses a3 = responses a2.
Proof.
  intros Hwf Hd Hl Hv Hw Hs. destruct (exec_finishes (tid self) err a2 Hl) as (m & st & E & Hm).
  eexists _, _. split_and!; [exact E| | |done..].
  - unfold exec_result, at_result, RT_ETIMEOUT, RT_ERROR, RT_EOK.
    destruct (negb _); [lia|]. destruct (bool_decide _); lia.
  - destruct Hwf. by split.
Qed.

(** The command returns, whatever the module answers. *)
Lemma at_exec_any r a : radio_ready a -> responses a !! r = Some (new_resp size 500) ->
  exists re a3, at_exec_cmd modem self (Some r) cmd a = Ok (re, a3) /\ at_result re /\ radio_ready a3 /\
    tx a3 = tx a ++ out ++ [13; 10] /\ next_resp a3 = next_resp a /\
    (forall r', r' <> r -> responses a3 !! r' = responses a !! r') /\ is_Some (responses a3 !! r).
Proof using Hsize Hf Hlen.
  intros Ha Hx. destruct (exec_suspends r a Ha Hx) as (a1 & E1 & Hwf1 & Htx1 & Hnx1 & [Hd1 Hl1 [Hv1 Hw1] _ Hs1] & Hr1 & Ho1 & He1).
  unfold at_exec_cmd. erewrite run_bind_ok by exact E1. cbn beta iota. rewrite run_bind_gets.
  destruct (client_parser_keeps (modem (tx a1)) a1 Hwf1) as ([] & a2 & E2 & Hwf2 & _).
  erewrite run_bind_ok by exact E2. cbn beta. rewrite run_bind_gets.
  assert (awaited r (resp_notice (client a1)) a1 a1) as Haw by (split; auto).
  destruct (leads_client_parser _ _ _ _ a1 tt a2 Haw E2) as [Htx2 Hl2 Hd2 Hs2 Hnx2 Ho2 He2 Hn2].
  rewrite <- Htx1, <- Hnx1, <- Htx2, <- Hnx2. rewrite <- Hl2 in Hl1.
  assert (forall r', r' <> r -> responses a2 !! r' = responses a !! r') as Ho by (intros r' Hne; rewrite Ho2 by done; auto).
  destruct Hn2 as [[_ Hn]|[_ [w Hn]]].
  - rewrite bool_decide_false by (rewrite Hn, Hw1; done). rewrite run_bind_modify.
    destruct (exec_returns_ready (- RT_ETIMEOUT) (response_timeout (tid self) a2))
      as (re & a3 & E3 & Hre & Hready & Htx3 & Hnx3 & Hr3); try done.
    + destruct Hwf2. by split.
    + by cbn; rewrite Hd2.
    + cbn. by rewrite Hn.
    + cbn. rewrite Hn. by apply (timeout_waiter (waiting_thread self)).
    + by cbn; rewrite Hs2.
    + exists re, a3. rewrite Hr3. by split_and!.
  - destruct (release_waiting (waiting_thread self) (resp_notice (client a1))) as (s' & Hs' & Hv' & Hw'); [done|].
    rewrite Hs' in Hn. injection Hn as _ Hn. rewrite bool_decide_true by (rewrite <- Hn; done).
    destruct (exec_returns_ready RT_EOK a2) as (re & a3 & E3 & Hre & Hready & Htx3 & Hnx3 & Hr3);
      [done|congruence|done|by rewrite <- Hn..|congruence|].
    exists re, a3. rewrite Hr3. by split_and!.
Qed.
End Answer.

(** No response object has an address that is still to be given out. *)
Definition fresh_next (a : at_sys) : Prop := forall r, next_resp a <= r -> responses a !! r = None.

Lemma at_create_resp_cases size t a :
  can_alloc a \/ exists l, at_create_resp size 0 t a = Ok (None, a <| oom := l |>).
Proof.
  unfold can_alloc, at_create_resp, alloc_ok. destruct a as [? ? ? ? ? ? ? [|[] [|[] l]] ? ?]; cbn;
    try (left; by repeat constructor); right; by eexists.
Qed.

(** How a command ends: what was sent, and the response objects left. *)
Definition ended (e : AtError_t) (sent : list (list Z)) (a a' : at_sys) : Prop :=
  tx a' = tx a ++ concat (wire <$> sent) /\
  match e with
  | AT_ER_OK | AT_ER_CREAT_RESP => responses a' = responses a
  | AT_ER_SEND_ERROR | AT_ER_SEND_TIMEOUT =>
      exists r x, responses a !! r = None /\ responses a' = <[r := x]> (responses a)
  | _ => False
  end.

Lemma ended_after e s1 s2 a b c : ended AT_ER_OK s1 a b -> ended e s2 b c -> ended e (s1 ++ s2) a c.
Proof.
  intros [Ht1 Hr1] [Ht2 Hr2]. split.
  - by rewrite Ht2, Ht1, fmap_app, concat_app, app_assoc.
  - cbn in Hr1. by rewrite Hr1 in Hr2.
Qed.

Section Commands.
Context (modem : list Z -> list Z) (self : rt_thread).

Lemma radio_exec_any size cmd out a : 0 <= size -> format_output cmd = Ok out ->
  Z.of_nat (length out) < AT_CMD_MAX_LEN -> radio_ready a -> fresh_next a ->
  exists e a', radio_exec modem self size cmd a = Ok (e, a') /\ radio_ready a' /\
    ended e (if decide (e = AT_ER_CREAT_RESP) then [] else [out]) a a' /\ fresh_next a'.
Proof.
  intros Hsize Hf Hlen Ha Hfresh. unfold radio_exec, radio_try. rewrite run_bind_bind.
  change (rt_tick_from_millisecond 5000) with 500.
  destruct (at_create_resp_cases size 500 a) as [Hc|[l El]].
  - erewrite run_bind_ok by (by apply at_create_resp_run). cbn beta iota. rewrite run_bind_bind.
    destruct (at_exec_any modem self size Hsize cmd out Hf Hlen (next_resp a) (created (new_resp size 500) a))
      as (re & a3 & E & Hre & Hr3 & Htx & Hnx & Ho & [x Hx]); [|apply lookup_insert_eq|].
    { destruct Ha as [[] ]. split; try done. split; try done. cbn. congruence. }
    erewrite run_bind_ok by exact E. cbn beta.
    assert (responses a3 = <[next_resp a := x]> (responses a)) as Hresp.
    { apply map_eq. intros i. destruct (decide (i = next_resp a)) as [->|Hi]; [by rewrite lookup_insert_eq|].
      rewrite Ho, lookup_insert_ne by done. cbn. by rewrite lookup_insert_ne by done. }
    assert (tx a3 = tx a ++ concat (wire <$> [out])) as Htx'.
    { rewrite Htx. cbn. unfold wire. by rewrite app_nil_r. }
    assert (fresh_next a3) as Hfresh3.
    { intros r Hr. rewrite Hnx in Hr. cbn in Hr. rewrite Hresp, lookup_insert_ne by lia. apply Hfresh. lia. }
    destruct Hre as [->|[->| ->]];
      cbn beta iota delta [Z.eqb Pos.eqb]; rewrite run_bind_ret; cbv beta iota;
      [rewrite bool_decide_true by done|rewrite bool_decide_false by done..].
    + erewrite run_bind_ok by (by eapply at_delete_resp_run).
      exists AT_ER_OK. eexists. split; [done|]. split; [|split; [split|]].
      * destruct Hr3 as [[] ]. split; try done. split; try done. cbn. congruence.
      * exact Htx'.
      * cbn. rewrite Hresp. apply delete_insert_id, Hfresh. lia.
      * intros r Hr. cbn in *. destruct (decide (r = next_resp a)) as [->|]; [apply lookup_delete_eq|].
        rewrite lookup_delete_ne by done. by apply Hfresh3.
    + exists AT_ER_SEND_ERROR, a3. split_and!; [done|done| |done].
      split; [done|]. exists (next_resp a), x. split; [apply Hfresh; lia|done].
    + exists AT_ER_SEND_TIMEOUT, a3. split_and!; [done|done| |done].
      split; [done|]. exists (next_resp a), x. split; [apply Hfresh; lia|done].
  - erewrite run_bind_ok by exact El. cbn beta iota. rewrite run_bind_ret. exists AT_ER_CREAT_RESP. eexists.
    split; [done|]. split; [|split; [split; [|done]|done]].
    + destruct Ha as [[] ]. split; try done.
    + cbn. by rewrite app_nil_r.
Qed.

(** Commands executed one after the other until one fails: the result is one of
    the four codes, some of the commands have been sent, in order, and all of them
    on success. *)
Definition sends (cmds : list (list Z)) (m : M at_sys AtError_t) : Prop := forall a,
  radio_ready a -> fresh_next a ->
  exists e n a', m a = Ok (e, a') /\ radio_ready a' /\ ended e (take n cmds) a a' /\
    (e = AT_ER_OK -> n = length cmds) /\ fresh_next a'.

Lemma sends_exec size cmd out : 0 <= size -> format_output cmd = Ok out ->
  Z.of_nat (length out) < AT_CMD_MAX_LEN -> sends [out] (radio_exec modem self size cmd).
Proof.
  intros Hsize Hf Hlen a Ha Hfr.
  destruct (radio_exec_any size cmd out a Hsize Hf Hlen Ha Hfr) as (e & a' & E & Ha' & He & Hfr').
  exists e, (if decide (e = AT_ER_CREAT_RESP) then 0%nat else 1%nat), a'. split_and!; [done|done| | |done].
  - by destruct (decide (e = AT_ER_CREAT_RESP)).
  - by intros ->.
Qed.

Lemma sends_seq cmds1 cmds2 m1 m2 : sends cmds1 m1 -> sends cmds2 m2 ->
  sends (cmds1 ++ cmds2) (e ← m1; if bool_decide (e <> AT_ER_OK) then mret e else m2).
Proof.
  intros H1 H2 a Ha Hfr. destruct (H1 a Ha Hfr) as (e1 & n1 & a1 & E1 & Ha1 & He1 & Hok1 & Hfr1).
  erewrite run_bind_ok by exact E1. cbn beta. destruct (decide (e1 = AT_ER_OK)) as [->|Hne].
  - rewrite (Hok1 eq_refl) in He1. rewrite bool_decide_false by naive_solver.
    destruct (H2 a1 Ha1 Hfr1) as (e2 & n2 & a2 & E2 & Ha2 & He2 & Hok2 & Hfr2).
    exists e2, (length cmds1 + n2)%nat, a2. split_and!; [done|done| | |done].
    + rewrite take_app_add'; [|done]. rewrite firstn_all in He1. by eapply ended_after.
    + intros He. rewrite (Hok2 He). by rewrite length_app.
  - rewrite bool_decide_true by done. exists e1, (n1 `min` length cmds1)%nat, a1. split_and!; [done|done| |done|done].
    rewrite take_app_le by lia. destruct (Nat.min_spec n1 (length cmds1)) as [[_ ->]|[Hle ->]]; [done|].
    rewrite firstn_all. by rewrite take_ge in He1.
Qed.

Lemma sends_join_net : sends [chars "AT+JOIN=60,1"; chars "AT+JOIN"] (at_radio_join_net modem self).
Proof. apply (sends_seq [_] [_]); by apply sends_exec. Qed.
End Commands.

(** ** The two commands of the radio thread *)
Section Thread.
Context (modem : list Z -> list Z) (scan_eof : Z) (self : rt_thread).

(** Only the bytes to be sent matter. *)
Lemma byte_2_hexstr_take source n m : (n <= length source)%nat -> (2 * n <= m)%nat ->
  byte_2_hexstr source (replicate m 0) (Z.of_nat n) = Ok (hex (take n source) ++ replicate (m - 2 * n) 0).
Proof.
  intros Hn Hm. unfold byte_2_hexstr. rewrite Nat2Z.id.
  pose proof (byte_2_hexstr_loop_ok n source [] m) as E.
  change (hex [] ++ replicate m 0) with (replicate m 0) in E. change (Z.of_nat (length [])) with 0 in E.
  by rewrite E by (done || (cbn; lia)).
Qed.

Lemma sends_send_hex buf n : is_bytes buf -> (n <= length buf)%nat -> (n <= 58)%nat ->
  sends [sendhex (take n buf)] (at_radio_send_hex modem self buf (Z.of_nat n)).
Proof.
  intros Hb Hn H58. assert (is_bytes (take n buf)) as Hd by by apply Forall_take.
  assert (length (take n buf) = n) as Hln by (rewrite length_take; lia).
  destruct (sendhex_plain _ Hd) as [_ Hf]. pose proof (sendhex_length (take n buf)) as Hl. rewrite Hln in Hl.
  assert (sends [sendhex (take n buf)] (radio_exec modem self 64 (sendhex (take n buf)))) as Hs
    by (apply sends_exec; [lia|done|unfold AT_CMD_MAX_LEN; lia]).
  intros a Ha Hfr. destruct (Hs a Ha Hfr) as (e & k & a' & E & H). exists e, k, a'. split; [|done]. rewrite <- E.
  assert (at_radio_send_hex modem self buf (Z.of_nat n) a =
    at_radio_send_hex modem self (take n buf) (Z.of_nat (length (take n buf))) a) as ->.
  { unfold at_radio_send_hex. rewrite byte_2_hexstr_ok, byte_2_hexstr_take by lia. by rewrite Hln. }
  destruct (at_create_resp_cases 64 500 a) as [Hc|[l El]].
  - rewrite send_hex_built by (done || lia). unfold radio_exec, radio_try. rewrite run_bind_bind.
    change (rt_tick_from_millisecond 5000) with 500. erewrite (run_bind_ok (at_create_resp _ _ _)) by (by apply at_create_resp_run).
    cbn beta iota. rewrite run_bind_bind. unfold mbind, M_bind.
    destruct (at_exec_cmd _ _ _ _ _) as [[re a1]| |]; [|done..].
    destruct (re =? -1), (re =? -2); reflexivity.
  - unfold at_radio_send_hex, radio_exec, radio_try. rewrite byte_2_hexstr_ok by lia. rewrite run_bind_lift, run_bind_bind.
    change (rt_tick_from_millisecond 5000) with 500. erewrite run_bind_ok by exact El. cbn beta iota.
    by erewrite run_bind_ok by exact El.
Qed.

(** A status check that returns has sent its command, if it could. *)
Definition checked (a a' : at_sys) : Prop :=
  radio_ready a' /\ fresh_next a' /\ (tx a' = tx a \/ tx a' = tx a ++ wire (chars "AT+STATUE")).

Lemma leads_get_line_by_kw (P : at_sys -> Prop) r kw : leads P P (at_resp_get_line_by_kw r kw).
Proof.
  apply (leads_bind P P); [apply leads_get_resp|]. intros x. destruct (line_counts x <=? 0); [apply leads_ret|].
  apply (leads_bind P P); [apply leads_resp_array|]. intros b. apply leads_lift.
Qed.

Lemma leads_parse_by_kw {A} (P : at_sys -> Prop) (nothing : A) scan r kw :
  leads P P (at_resp_parse_line_args_by_kw nothing scan r kw).
Proof.
  apply (leads_bind P P); [apply leads_get_line_by_kw|]. intros [off|]; [|apply leads_ret].
  apply (leads_bind P P); [apply leads_get_resp|]. intros x.
  apply (leads_bind P P); [apply leads_resp_array|]. intros b.
  apply (leads_bind P P); [apply leads_lift|]. intros s. apply leads_ret.
Qed.

Lemma leads_delete_resp a0 r : leads (checked a0) (checked a0) (at_delete_resp (Some r)).
Proof.
  apply (leads_bind _ (checked a0)); [apply leads_get_resp|]. intros x. apply leads_modify.
  intros a ([[] ? ? Hr] & Hf & Ht). split_and!; [|intros i Hi; cbn in *; apply lookup_delete_None; auto|done].
  split; try done. split; try done. cbn. congruence.
Qed.

Lemma get_statue_checked st0 a v a' : radio_ready a -> fresh_next a ->
  at_radio_get_statue modem scan_eof self st0 a = Ok (v, a') -> checked a a'.
Proof.
  intros Ha Hfr. unfold at_radio_get_statue, radio_try. rewrite run_bind_bind.
  change (rt_tick_from_millisecond 5000) with 500.
  destruct (at_create_resp_cases 64 500 a) as [Hc|[l El]].
  - erewrite run_bind_ok by (by apply at_create_resp_run). cbn beta iota. rewrite run_bind_bind.
    destruct (at_exec_any modem self 64 ltac:(lia) (chars "AT+STATUE") (chars "AT+STATUE") eq_refl eq_refl
      (next_resp a) (created (new_resp 64 500) a)) as (re & a3 & E & Hre & Hr3 & Htx & Hnx & Ho & _); [|apply lookup_insert_eq|].
    { destruct Ha as [[] ]. split; try done. split; try done. cbn. congruence. }
    erewrite run_bind_ok by exact E. cbn beta.
    assert (checked a a3) as Hck.
    { split; [done|split; [|by right]]. intros i Hi. rewrite Hnx in Hi. cbn in Hi. rewrite Ho by lia. cbn.
      rewrite lookup_insert_ne by lia. apply Hfr. lia. }
    destruct Hre as [->|[->| ->]]; cbn beta iota delta [Z.eqb Pos.eqb]; rewrite run_bind_ret; cbv beta iota; intros Hret;
      [|injection Hret as _ <-; exact Hck|injection Hret as _ <-; exact Hck].
    refine ((_ : leads (checked a) (checked a) _) a3 v a' Hck Hret).
    apply (leads_bind _ (checked a)); [apply leads_parse_by_kw|]. intros [n word]. destruct (n =? 0); [apply leads_ret|].
    apply (leads_bind _ (checked a)); [apply leads_lift|]. intros w.
    apply (leads_bind _ (checked a)); [apply leads_delete_resp|]. intros. apply leads_ret.
  - erewrite run_bind_ok by exact El. cbn. intros [= _ <-]. split; [|split; [done|by left]].
    destruct Ha as [[] ]. split; try done.
Qed.
End Thread.
