(* ===== verification/RadioControl.v ===== *)
(** * The radio thread (src/bsp/stm32f10x-controller/applications/radio_control.c)

    [RadioBuffer] points to a heap record with the caller's pointer and the size;
    the caller's arrays are [arrays].  The radio thread is cut where it can be
    preempted by the main thread in a way that matters: [radio_step] runs it from
    one point of [radio_pc] to the next, [RadioSuspended] being the wait in
    [rt_event_recv].  The timer of the status check is not modelled beyond its
    being started; [radio_check_statue_timer_irq] is its handler.

    The board is built without FAL, so the functions for the flash partition are
    not compiled and [raido_join_config_join] of a null pointer does nothing. *)
From stdpp Require Import gmap.
From Stdlib Require Import String.
From S2P Require Import Prelude CString Ipc IpcMutex AtClient AtExchange AtSetup AtRadio AtAnyAnswer.

(** ** Types *)
Record Data_s := MkData { ptr : Z; size : Z }.

Definition RADIO_EVENT_SEND : Z := 1 ≪ 1.
Definition RADIO_EVENT_CHECK_STATUE : Z := 1 ≪ 2.

Inductive radio_pc :=
  | RadioStarting
  | RadioTop
  | RadioSuspended
  | RadioCheck (event : Z)
  | RadioSend (event : Z)
  | RadioFree.

Record radio_sys := MkRadio {
  arrays : gmap Z (list Z);
  RadioBuffer : option Z;
  datas : gmap Z Data_s;
  next_data : Z;
  data_oom : list bool;
  radioStatue : AtRadioStatue_t;
  radio_event : rt_event;
  check_started : bool;
  woken : list rt_thread;
  at_part : at_sys
}.
#[export] Instance radio_sys_eta : Eta radio_sys := fun r =>
  MkRadio (arrays r) (RadioBuffer r) (datas r) (next_data r) (data_oom r) (radioStatue r)
    (radio_event r) (check_started r) (woken r) (at_part r).

(** ** Operations *)
Definition send_event (set : Z) : M radio_sys unit :=
  e ← gets radio_event;
  let '(_, resumed, e) := rt_event_send set e in
  radio_event ::= e;;
  modify (upd (field := woken) (fun l => l ++ resumed)).

Definition malloc_data : M radio_sys (option Z) :=
  oom ← gets data_oom;
  data_oom ::= tail oom;;
  if default false (head oom) then mret None else
  p ← gets next_data;
  next_data ::= p + 1;;
  modify (fun r => r <| datas := <[p := MkData 0 0]> (datas r) |>);;
  mret (Some p).

(** The result of [rt_malloc] is used unchecked. *)
Definition radio_send (data size : Z) : M radio_sys Z :=
  if size >=? 50 then mret 1 else
  p ← malloc_data;
  RadioBuffer ::= p;;
  match p with
  | None => lift (Fault FNull)
  | Some p =>
      modify (fun r => r <| datas := <[p := MkData data size]> (datas r) |>);;
      send_event RADIO_EVENT_SEND;;
      mret 0
  end.

Definition radio_check_statue_timer_irq : M radio_sys unit := send_event RADIO_EVENT_CHECK_STATUE.

Definition radio_open_statue_check : M radio_sys unit := check_started ::= true.
Definition radio_close_statue_check : M radio_sys unit := check_started ::= false.

Definition radio_read_statue : M radio_sys Z :=
  st ← gets radioStatue;
  mret (if bool_decide (st = AT_RADIO_STATUE_LOSE) then 0 else 1).

(** A pointer to a live record, and the bytes it points to. *)
Definition get_data (p : option Z) : M radio_sys Data_s :=
  o ← gets (fun r => p ≫= fun p => datas r !! p);
  match o with
  | Some d => mret d
  | None => lift (Fault FNull)
  end.

Definition get_array (p : Z) : M radio_sys (list Z) :=
  o ← gets (fun r => arrays r !! p);
  match o with
  | Some b => mret b
  | None => lift (Fault FNull)
  end.

Section Radio.
Context (modem : list Z -> list Z) (scan_eof : Z) (self : rt_thread).

Definition check_statue : M radio_sys unit :=
  st ← gets radioStatue;
  '(_, st) ← zoom at_part (at_radio_get_statue modem scan_eof self st);
  radioStatue ::= st.

Definition raido_join_config_join (info : option AtRadioInfo_t) : M at_sys AtError_t :=
  match info with
  | None => mret AT_ER_OK
  | Some info =>
      re ← at_radio_set_OTAA_info modem self (Some info);
      if bool_decide (re <> AT_ER_OK) then mret re else
      re ← at_radio_set_autojoin modem self 1;
      if bool_decide (re <> AT_ER_OK) then mret re else
      at_radio_join_net modem self
  end.

(** The shell command; [strcpy] fits the lengths checked. *)
Definition radio_set (argv : list (list Z)) : M at_sys unit :=
  if negb (u8 (Z.of_nat (length argv)) =? 4) then skip else
  deveui ← lift (zget argv 1);
  if negb (Z.of_nat (length deveui) =? 16) then skip else
  appeui ← lift (zget argv 2);
  if negb (Z.of_nat (length appeui) =? 16) then skip else
  appeky ← lift (zget argv 3);
  if negb (Z.of_nat (length appeky) =? 32) then skip else
  raido_join_config_join (Some (MkInfo deveui appeui appeky));;
  skip.

(** [radio_thread_entry]. *)
Definition radio_step (pc : radio_pc) : M radio_sys radio_pc :=
  match pc with
  | RadioStarting =>
      check_statue;;
      radio_open_statue_check;;
      mret RadioTop
  | RadioTop =>
      st ← gets radioStatue;
      (when bool_decide (st = AT_RADIO_STATUE_WAIT) do
         (zoom at_part (raido_join_config_join None);; skip));;
      e ← gets radio_event;
      '(w, event, e) ← lift (rt_event_recv self (Z.lor RADIO_EVENT_SEND RADIO_EVENT_CHECK_STATUE)
                               (Z.lor RT_EVENT_FLAG_OR RT_EVENT_FLAG_CLEAR) RT_WAITING_FOREVER e);
      radio_event ::= e;;
      match w, event with
      | IpcReturn _, Some event => mret (RadioCheck event)
      | IpcReturn _, None => lift (Fault FUninit)
      | IpcSuspend _, _ => mret RadioSuspended
      end
  | RadioSuspended =>
      l ← gets woken;
      match l with
      | [] => lift Blocked
      | t :: l =>
          woken ::= l;;
          match rt_event_recv_resumed t with
          | (_, Some event) => mret (RadioCheck event)
          | (_, None) => lift (Fault FUninit)
          end
      end
  | RadioCheck event =>
      (when negb (Z.land event RADIO_EVENT_CHECK_STATUE =? 0) do check_statue);;
      mret (RadioSend event)
  | RadioSend event =>
      st ← gets radioStatue;
      if negb (Z.land event RADIO_EVENT_SEND =? 0) &&
         negb (bool_decide (st = AT_RADIO_STATUE_LOSE)) && negb (bool_decide (st = AT_RADIO_STATUE_WAIT)) then
        p ← gets RadioBuffer;
        d ← get_data p;
        b ← get_array (ptr d);
        zoom at_part (at_radio_send_hex modem self b (size d));;
        mret RadioFree
      else mret RadioTop
  | RadioFree =>
      p ← gets RadioBuffer;
      get_data p;;
      modify (fun r => r <| datas := match p with Some p => delete p (datas r) | None => datas r end |>);;
      mret RadioTop
  end.
End Radio.

(** ** A request to send *)

(** The record has been made and [RadioBuffer] points to it. *)
Definition requested (data n : Z) (r : radio_sys) : radio_sys :=
  r <| data_oom := tail (data_oom r) |> <| next_data := next_data r + 1 |>
    <| datas := <[next_data r := MkData data n]> (datas r) |> <| RadioBuffer := Some (next_data r) |>.

Lemma radio_send_run data n r : n < 50 ->
  radio_send data n r =
    if default false (head (data_oom r)) then Fault FNull
    else (send_event RADIO_EVENT_SEND;; mret 0) (requested data n r).
Proof.
  intros Hn. unfold radio_send, malloc_data. destruct (Z.geb_spec n 50); [lia|]. c_run.
  destruct (default false (head (data_oom r))); c_run; [done|]. unfold requested. destruct r; cbn.
  by rewrite insert_insert_eq.
Qed.

(** ** The commands of the configuration *)
Section Config.
Context (modem : list Z -> list Z) (self : rt_thread).

Definition otaa_commands (info : AtRadioInfo_t) : list (list Z) :=
  [chars "AT+DEVEUI=" ++ devEui info; chars "AT+APPEUI=" ++ appEui info; chars "AT+APPKEY=" ++ appKey info].

Definition join_commands (info : AtRadioInfo_t) : list (list Z) :=
  otaa_commands info ++ [chars "AT+AUTOJOIN=1"; chars "AT+JOIN=60,1"; chars "AT+JOIN"].

(** Text that [vsnprintf] prints as it is. *)
Definition plain_text (s : list Z) : Prop := Forall (fun c => c <> 0 /\ c <> 37) s.
#[export] Instance plain_text_dec s : Decision (plain_text s).
Proof. unfold plain_text. apply _. Defined.

Lemma otaa_command_ok prefix s : length prefix = 10%nat -> plain_text prefix -> plain_text s ->
  (length s <= 80)%nat -> otaa_command prefix s = Ok (prefix ++ s) /\ format_output (prefix ++ s) = Ok (prefix ++ s).
Proof.
  intros Hp Hpp Hsp Hl. assert (forall t, plain_text t -> is_chars t /\ Forall (fun c => c <> 37) t) as Hpt.
  { intros t Ht. split; (eapply Forall_impl; [exact Ht|]; by intros c []). }
  split.
  - unfold otaa_command. rewrite char_array_zeros by lia. rewrite Hp. change (100 - 10)%nat with 90%nat.
    replace (nul s) with (nul s ++ []) by apply app_nil_r.
    rewrite strcat_m_ok by (apply Hpt || lia; done). cbn [mbind outcome_bind]. rewrite app_assoc.
    apply c_string_zeros; [|lia]. by apply Forall_app_2; apply Hpt.
  - apply format_output_plain, Forall_app_2; by apply Hpt.
Qed.

Definition info_ok (info : AtRadioInfo_t) : Prop :=
  (length (devEui info) = 16%nat /\ length (appEui info) = 16%nat /\ length (appKey info) = 32%nat) /\
  plain_text (devEui info) /\ plain_text (appEui info) /\ plain_text (appKey info).

Lemma sends_ext cmds m1 m2 : (forall a, m1 a = m2 a) -> sends cmds m2 -> sends cmds m1.
Proof. intros He H a Ha Hf. rewrite He. by apply H. Qed.

Lemma sends_set_OTAA info : info_ok info -> sends (otaa_commands info) (at_radio_set_OTAA_info modem self (Some info)).
Proof.
  intros ((Hl1 & Hl2 & Hl3) & H1 & H2 & H3).
  destruct (otaa_command_ok (chars "AT+DEVEUI=") (devEui info)) as [E1 F1]; [done|by apply (bool_decide_unpack _)|done|lia|].
  destruct (otaa_command_ok (chars "AT+APPEUI=") (appEui info)) as [E2 F2]; [done|by apply (bool_decide_unpack _)|done|lia|].
  destruct (otaa_command_ok (chars "AT+APPKEY=") (appKey info)) as [E3 F3]; [done|by apply (bool_decide_unpack _)|done|lia|].
  eapply sends_ext.
  - intros a. unfold at_radio_set_OTAA_info. rewrite E1, E2, E3, !run_bind_lift. reflexivity.
  - apply (sends_seq [_] [_; _]); [|apply (sends_seq [_] [_])]; apply sends_exec;
      try done; try lia; rewrite length_app, ?Hl1, ?Hl2, ?Hl3; cbn; unfold AT_CMD_MAX_LEN; lia.
Qed.

Lemma sends_set_autojoin : sends [chars "AT+AUTOJOIN=1"] (at_radio_set_autojoin modem self 1).
Proof.
  eapply sends_ext; [|by apply (sends_exec modem self 64 (chars "AT+AUTOJOIN=1"))]. intros a. reflexivity.
Qed.

Lemma sends_config info : info_ok info -> sends (join_commands info) (raido_join_config_join modem self (Some info)).
Proof.
  intros Hi. apply (sends_seq (otaa_commands info) [_; _; _]); [by apply sends_set_OTAA|].
  apply (sends_seq [_] [_; _]); [apply sends_set_autojoin|apply sends_join_net].
Qed.
End Config.

(** ** The properties *)

(** The configuration of a [radio_set] line of four words of the right lengths. *)
Definition config_of (argv : list (list Z)) : option AtRadioInfo_t :=
  match argv with
  | [_; d; e; k] =>
      if decide (length d = 16 /\ length e = 16 /\ length k = 32)%nat then Some (MkInfo d e k) else None
  | _ => None
  end.

Lemma radio_set_run modem self argv a : (length argv < 256)%nat ->
  radio_set modem self argv a =
    match config_of argv with
    | Some info => (raido_join_config_join modem self (Some info);; skip) a
    | None => Ok (tt, a)
    end.
Proof.
  intros Hl. unfold radio_set. rewrite uint_small by lia.
  assert (forall (l : list Z) n, (Z.of_nat (length l) =? Z.of_nat n) = bool_decide (length l = n)) as Hb.
  { intros l n. case_bool_decide; [apply Z.eqb_eq|apply Z.eqb_neq]; lia. }
  destruct (Z.eqb_spec (Z.of_nat (length argv)) 4) as [H4|H4].
  - destruct argv as [|c [|d [|e [|k [|? ?]]]]]; cbn in H4; try lia. cbn [negb].
    change (zget [c; d; e; k] 1) with (Ok d). change (zget [c; d; e; k] 2) with (Ok e).
    change (zget [c; d; e; k] 3) with (Ok k). rewrite run_bind_lift. cbn [config_of].
    change 16 with (Z.of_nat 16) at 1. rewrite (Hb d). case_bool_decide; cbn [negb]; [|by rewrite decide_False by tauto]. rewrite run_bind_lift.
    change 16 with (Z.of_nat 16) at 1. rewrite (Hb e). case_bool_decide; cbn [negb]; [|by rewrite decide_False by tauto]. rewrite run_bind_lift.
    change 32 with (Z.of_nat 32) at 1. rewrite (Hb k). case_bool_decide; cbn [negb]; [|by rewrite decide_False by tauto].
    by rewrite decide_True by done.
  - cbn [negb]. destruct argv as [|c [|d [|e [|k [|? ?]]]]]; done.
Qed.

Lemma config_of_ok argv info : Forall plain_text argv -> config_of argv = Some info -> info_ok info.
Proof.
  intros Hp E. destruct argv as [|c [|d [|e [|k [|? ?]]]]]; try done. cbn in E. case_decide as Hd; [|done]. injection E as <-.
  apply Forall_cons in Hp as [_ [H1 [H2 [H3 _]%Forall_cons]%Forall_cons]%Forall_cons]. by split.
Qed.


(** A client as after start-up, whose third allocation fails. *)
Definition ready_at : at_sys := radio_at <| responses := ∅ |> <| oom := [false; false; true] |>.

Lemma ready_at_ready : radio_ready ready_at /\ fresh_next ready_at.
Proof. split; [by split|]. intros r _. done. Qed.


(** ** A request during a transmission *)
Lemma send_event_nobody set r : set <> 0 -> ev_suspend_thread (radio_event r) = [] ->
  send_event set r = Ok (tt, r <| radio_event := (radio_event r) <| ev_set := Z.lor (ev_set (radio_event r)) set |> |>).
Proof.
  intros Hs He. unfold send_event. rewrite run_bind_gets. unfold rt_event_send. destruct (Z.eqb_spec set 0); [done|].
  rewrite He. cbn [rt_event_send_loop]. rewrite run_bind_modify. unfold modify.
  destruct r as [? ? ? ? ? ? [] ? ? ?]. unfold upd. cbn in *. subst. by rewrite app_nil_r.
Qed.

Lemma event_bits set : Z.land set RADIO_EVENT_CHECK_STATUE = 0 ->
  Z.land (Z.lor set RADIO_EVENT_SEND) (Z.lor RADIO_EVENT_SEND RADIO_EVENT_CHECK_STATUE) = RADIO_EVENT_SEND.
Proof.
  intros H. rewrite Z.land_lor_distr_l, (Z.land_lor_distr_r set), H, Z.lor_0_r.
  change (Z.land RADIO_EVENT_SEND (Z.lor RADIO_EVENT_SEND RADIO_EVENT_CHECK_STATUE)) with RADIO_EVENT_SEND.
  rewrite Z.lor_comm. apply Z.bits_inj'. intros i _. rewrite Z.lor_spec, Z.land_spec.
  destruct (Z.testbit RADIO_EVENT_SEND i); [done|]. by rewrite andb_false_r.
Qed.

(** What a transmission has needed and leaves alone. *)
Lemma radio_send_step modem scan_eof self ev r r1 :
  radio_step modem scan_eof self (RadioSend ev) r = Ok (RadioFree, r1) ->
  exists a, r1 = r <| at_part := a |> /\ radioStatue r <> AT_RADIO_STATUE_LOSE /\ radioStatue r <> AT_RADIO_STATUE_WAIT /\
    exists p, RadioBuffer r = Some p /\ is_Some (datas r !! p).
Proof.
  cbn [radio_step]. rewrite run_bind_gets. destruct (_ && _ && _) eqn:Ec; [|done]. c_bool.
  rewrite run_bind_gets. unfold get_data, get_array. rewrite run_bind_bind, run_bind_gets.
  destruct (RadioBuffer r ≫= _) as [d|] eqn:Ed; [rewrite run_bind_ret|done].
  rewrite run_bind_bind, run_bind_gets. destruct (arrays r !! ptr d) as [b|]; [rewrite run_bind_ret|done].
  unfold zoom, mbind at 1, M_bind. destruct (at_radio_send_hex _ _ _ _ _) as [[v a]| |]; [|done..].
  intros [= <-]. exists a. split_and!; [done..|]. destruct (RadioBuffer r) as [p|]; [|done].
  exists p. split; [done|]. cbn in Ed. by eexists.
Qed.

(** A request that arrives while a frame is being sent.  [radio_send] replaces [RadioBuffer] although the radio thread is still using it; the thread, done with the first frame, then frees the new record, leaks the old one, and with the event of the new request uses the record it has just freed: the second frame is never sent and the thread reads freed memory. *)
Theorem radio_send_during_transmission modem scan_eof self ev r r1 data n :
  radio_step modem scan_eof self (RadioSend ev) r = Ok (RadioFree, r1) ->
  n < 50 -> default false (head (data_oom r1)) = false ->
  ev_suspend_thread (radio_event r1) = [] -> Z.land (ev_set (radio_event r1)) RADIO_EVENT_CHECK_STATUE = 0 ->
  exists r2 r3 r4, radio_send data n r1 = Ok (0, r2) /\
    radio_step modem scan_eof self RadioFree r2 = Ok (RadioTop, r3) /\
    radio_step modem scan_eof self RadioTop r3 = Ok (RadioCheck RADIO_EVENT_SEND, r4) /\
    radio_step modem scan_eof self (RadioCheck RADIO_EVENT_SEND) r4 = Ok (RadioSend RADIO_EVENT_SEND, r4) /\
    radio_step modem scan_eof self (RadioSend RADIO_EVENT_SEND) r4 = Fault FNull /\
    (forall p, RadioBuffer r = Some p -> p <> next_data r1 -> is_Some (datas r4 !! p)).
Proof.
  intros E Hn Ho He Hc. destruct (radio_send_step _ _ _ _ _ _ E) as (a & -> & Hl & Hw & p0 & Hp0 & Hd0).
  match goal with H : ev_suspend_thread (radio_event ?x) = [] |- _ => set (r1 := x) in * end.
  eexists _, _, _. split; [|split; [|split; [|split; [|split]]]].
  - rewrite radio_send_run, Ho by done. by erewrite run_bind_ok by by apply send_event_nobody.
  - cbn [radio_step]. rewrite run_bind_gets. cbn [RadioBuffer requested upd]. unfold get_data.
    rewrite run_bind_bind, run_bind_gets. cbn. rewrite lookup_insert_eq. cbn. reflexivity.
  - cbn [radio_step]. rewrite run_bind_gets. cbn. rewrite bool_decide_false by done. rewrite run_bind_skip, run_bind_gets.
    unfold rt_event_recv. cbn. rewrite event_bits by done. reflexivity.
  - reflexivity.
  - cbn [radio_step]. rewrite run_bind_gets. cbn. rewrite !bool_decide_false by done.
    change (negb (Z.land RADIO_EVENT_SEND RADIO_EVENT_SEND =? 0) && negb false && negb false) with true. cbv iota.
    rewrite run_bind_gets. unfold get_data. rewrite run_bind_bind, run_bind_gets. cbn. by rewrite lookup_delete_eq.
  - intros p Hp Hne. cbn. rewrite lookup_delete_ne, lookup_insert_ne by done. naive_solver.
Qed.

(** A radio thread about to send the record 1. *)
Definition sending_radio : radio_sys :=
  MkRadio {[1 := replicate 255 170]} (Some 1) {[1 := MkData 1 3]} 2 [] AT_RADIO_STATUE_JOIN
    (rt_event_init RT_IPC_FLAG_FIFO) true [] radio_at.

Definition answers_ok : list Z -> list Z := fun _ => wire_lines [line_OK].

(** The state a computation ends in. *)
Definition final {S A} (m : M S A) (s : S) : S :=
  match m s with
  | Ok (_, s) => s
  | _ => s
  end.

Lemma radio_send_during_transmission_witness :
  exists r2 r3 r4, radio_send 1 5 (final (radio_step answers_ok 0 at_thread (RadioSend 2)) sending_radio) = Ok (0, r2) /\
    radio_step answers_ok 0 at_thread RadioFree r2 = Ok (RadioTop, r3) /\
    radio_step answers_ok 0 at_thread RadioTop r3 = Ok (RadioCheck 2, r4) /\
    radio_step answers_ok 0 at_thread (RadioSend 2) r4 = Fault FNull.
Proof.
  destruct (radio_send_during_transmission answers_ok 0 at_thread 2 sending_radio
    (final (radio_step answers_ok 0 at_thread (RadioSend 2)) sending_radio) 1 5) as (r2 & r3 & r4 & E2 & E3 & E4 & _ & E5 & _).
  - vm_compute. reflexivity.
  - lia.
  - vm_compute. reflexivity.
  - vm_compute. reflexivity.
  - vm_compute. reflexivity.
  - exists r2, r3, r4. split; [exact E2|split; [exact E3|split; [exact E4|exact E5]]].
Defined.
