(* ===== verification/SensorList.v ===== *)
(** * The list of sensor nodes (src/bsp/stm32f10x-controller/applications/sensor_control.c)

    A singly linked list on the heap, kept by [SensorListHead], and the shell
    commands that change it.  The heap is a finite map from addresses to nodes;
    [junk] is what a node freshly returned by [rt_malloc] holds in its name.
    A loop over the list has one unit of fuel per live node and one more. *)
From stdpp Require Import gmap.
From Stdlib Require Import String.
From S2P Require Import Prelude CString.

Record SensorNode_s := MkNode { statue : Z; name : list Z; next : option Z }.
#[export] Instance SensorNode_s_eta : Eta SensorNode_s := fun n => MkNode (statue n) (name n) (next n).

Record sensor_sys := MkSensors {
  nodes : gmap Z SensorNode_s;
  SensorListHead : option Z;
  next_node : Z;
  node_oom : list bool
}.
#[export] Instance sensor_sys_eta : Eta sensor_sys := fun s =>
  MkSensors (nodes s) (SensorListHead s) (next_node s) (node_oom s).

(** ** Operations *)
Definition get_node (a : Z) : M sensor_sys SensorNode_s :=
  o ← gets (fun s => nodes s !! a);
  match o with
  | Some n => mret n
  | None => lift (Fault FNull)
  end.

Definition put_node (a : Z) (n : SensorNode_s) : M sensor_sys unit :=
  modify (fun s => s <| nodes := <[a := n]> (nodes s) |>).

Definition free_node (a : Z) : M sensor_sys unit :=
  get_node a;; modify (fun s => s <| nodes := delete a (nodes s) |>).

Definition malloc_node (junk : list Z) : M sensor_sys (option Z) :=
  oom ← gets node_oom;
  node_oom ::= tail oom;;
  if default false (head oom) then mret None else
  a ← gets next_node;
  next_node ::= a + 1;;
  put_node a (MkNode 0 junk None);;
  mret (Some a).

(** [rt_strcmp] of a node's name and a string. *)
Definition cmp_name (n : SensorNode_s) (s : list Z) : M sensor_sys Z :=
  t ← lift (c_string (name n) 0); mret (strcmp t s).

(** [strcpy(node->name, s)]. *)
Definition strcpy (dst s : list Z) : outcome (list Z) :=
  memcpy dst 0 (nul s) 0 (Z.of_nat (length s) + 1).

Definition add_sensor_node (junk s : list Z) : M sensor_sys Z :=
  node ← malloc_node junk;
  match node with
  | None => mret 1
  | Some a =>
      n ← get_node a;
      nm ← lift (strcpy (name n) s);
      put_node a (n <| name := nm |> <| statue := 0 |>);;
      h ← gets SensorListHead;
      n ← get_node a;
      match h with
      | None =>
          SensorListHead ::= Some a;;
          put_node a (n <| next := None |>)
      | Some _ =>
          put_node a (n <| next := h |>);;
          SensorListHead ::= Some a
      end;;
      mret 0
  end.

Fixpoint delete_loop (fuel : nat) (s : list Z) (LastNode Node : option Z) : M sensor_sys Z :=
  match fuel, Node with
  | O, _ => lift Blocked
  | S _, None => mret 1
  | S fuel, Some a =>
      n ← get_node a;
      c ← cmp_name n s;
      if c =? 0 then
        if bool_decide (LastNode = Node) then
          h ← gets SensorListHead;
          match h with
          | None => lift (Fault FNull)
          | Some h => x ← get_node h; SensorListHead ::= next x;; free_node a;; mret 0
          end
        else
          match LastNode with
          | None => lift (Fault FNull)
          | Some l => x ← get_node l; put_node l (x <| next := next n |>);; free_node a;; mret 0
          end
      else delete_loop fuel s Node (next n)
  end.

Definition delete_sensor_node (s : list Z) : M sensor_sys Z :=
  h ← gets SensorListHead;
  fuel ← gets (fun st => S (size (nodes st)));
  delete_loop fuel s h h.

Fixpoint alter_loop (fuel : nat) (s : list Z) (st : Z) (Node : option Z) : M sensor_sys Z :=
  match fuel, Node with
  | O, _ => lift Blocked
  | S _, None => mret 1
  | S fuel, Some a =>
      n ← get_node a;
      c ← cmp_name n s;
      if c =? 0 then put_node a (n <| statue := st |>);; mret 0
      else alter_loop fuel s st (next n)
  end.

Definition alter_sensor_node (s : list Z) (st : Z) : M sensor_sys Z :=
  h ← gets SensorListHead;
  fuel ← gets (fun st => S (size (nodes st)));
  alter_loop fuel s st h.

(** The result and [*statue], unless the node is not found. *)
Fixpoint find_loop (fuel : nat) (s : list Z) (Node : option Z) : M sensor_sys (Z * option Z) :=
  match fuel, Node with
  | O, _ => lift Blocked
  | S _, None => mret (1, None)
  | S fuel, Some a =>
      n ← get_node a;
      c ← cmp_name n s;
      if c =? 0 then mret (0, Some (statue n)) else find_loop fuel s (next n)
  end.

Definition find_sensor_node (s : list Z) : M sensor_sys (Z * option Z) :=
  h ← gets SensorListHead;
  fuel ← gets (fun st => S (size (nodes st)));
  find_loop fuel s h.

(** The lines printed. *)
Fixpoint display_loop (fuel : nat) (Node : option Z) : M sensor_sys (list (list Z * Z)) :=
  match fuel, Node with
  | O, _ => lift Blocked
  | S _, None => mret []
  | S fuel, Some a =>
      n ← get_node a;
      s ← lift (c_string (name n) 0);
      l ← display_loop fuel (next n);
      mret ((s, statue n) :: l)
  end.

Definition display_all_sensor_node : M sensor_sys (list (list Z * Z)) :=
  h ← gets SensorListHead;
  fuel ← gets (fun st => S (size (nodes st)));
  display_loop fuel h.

Definition sensor_get_statue (nm : option (list Z)) : M sensor_sys Z :=
  match nm with
  | None => display_all_sensor_node;; mret 0
  | Some s => '(_, st) ← find_sensor_node s; mret (default 0 st)
  end.

(** The shell commands: the words of the line, the command included; [argc] is
    their number in a char. *)
Definition add_node (junk : list Z) (argv : list (list Z)) : M sensor_sys unit :=
  if negb (u8 (Z.of_nat (length argv)) =? 2) then skip
  else s ← lift (zget argv 1); add_sensor_node junk s;; skip.

Definition delete_node (argv : list (list Z)) : M sensor_sys unit :=
  if negb (u8 (Z.of_nat (length argv)) =? 2) then skip
  else s ← lift (zget argv 1); delete_sensor_node s;; skip.

Definition alter_node (argv : list (list Z)) : M sensor_sys unit :=
  if negb (u8 (Z.of_nat (length argv)) =? 3) then skip
  else
    s ← lift (zget argv 1);
    v ← lift (zget argv 2);
    if strcmp v (chars "1") =? 0 then alter_sensor_node s 1;; skip
    else if strcmp v (chars "0") =? 0 then alter_sensor_node s 0;; skip
    else skip.

(** ** The abstract list: names and states, the newest first *)
Definition entry : Type := list Z * Z.

Fixpoint remove_entry (s : list Z) (l : list entry) : option (list entry) :=
  match l with
  | [] => None
  | e :: l => if decide (e.1 = s) then Some l else cons e <$> remove_entry s l
  end.

Fixpoint set_entry (s : list Z) (st : Z) (l : list entry) : option (list entry) :=
  match l with
  | [] => None
  | e :: l => if decide (e.1 = s) then Some ((e.1, st) :: l) else cons e <$> set_entry s st l
  end.

Fixpoint entry_status (s : list Z) (l : list entry) : option Z :=
  match l with
  | [] => None
  | e :: l => if decide (e.1 = s) then Some e.2 else entry_status s l
  end.

(** A piece of the list, from one pointer to another. *)
Fixpoint seg (h : gmap Z SensorNode_s) (p : option Z) (l : list (Z * SensorNode_s)) (q : option Z) : Prop :=
  match l with
  | [] => p = q
  | (a, n) :: l => p = Some a /\ h !! a = Some n /\ seg h (next n) l q
  end.

Definition holds (n : Z * SensorNode_s) (e : entry) : Prop :=
  c_string (name n.2) 0 = Ok e.1 /\ statue n.2 = e.2 /\ length (name n.2) = 10%nat.

Definition list_of (s : sensor_sys) (ns : list (Z * SensorNode_s)) : Prop :=
  seg (nodes s) (SensorListHead s) ns None /\ NoDup ns.*1 /\
  (forall a, is_Some (nodes s !! a) <-> a ∈ ns.*1) /\ Forall (fun a => a < next_node s) ns.*1.

(** The linked list stands for the entries, and nothing else is on the heap. *)
Definition represents (s : sensor_sys) (l : list entry) : Prop :=
  exists ns, list_of s ns /\ Forall2 holds ns l.

(** ** Pieces of the list *)
Lemma seg_app h p l1 l2 q : seg h p (l1 ++ l2) q <-> exists m, seg h p l1 m /\ seg h m l2 q.
Proof.
  revert p. induction l1 as [|[a n] l1 IH]; intros p; cbn.
  - split; [by exists p|]. by intros (m & -> & ?).
  - rewrite IH. naive_solver.
Qed.

Lemma seg_insert h p l q a n : a ∉ l.*1 -> seg h p l q -> seg (<[a := n]> h) p l q.
Proof.
  revert p. induction l as [|[b m] l IH]; intros p; cbn; [done|].
  intros [Hb Hl]%not_elem_of_cons (-> & Hh & Hs). rewrite lookup_insert_ne by done. auto.
Qed.

Lemma seg_delete h p l q a : a ∉ l.*1 -> seg h p l q -> seg (delete a h) p l q.
Proof.
  revert p. induction l as [|[b m] l IH]; intros p; cbn; [done|].
  intros [Hb Hl]%not_elem_of_cons (-> & Hh & Hs). rewrite lookup_delete_ne by done. auto.
Qed.

Lemma list_of_fuel s ns : list_of s ns -> size (nodes s) = length ns.
Proof.
  intros (_ & Hn & Hd & _). rewrite <- size_dom, <- (length_fmap fst ns), <- (size_list_to_set (C := gset Z)) by done.
  f_equal. apply set_eq. intros a. rewrite elem_of_dom, elem_of_list_to_set. apply Hd.
Qed.

Lemma get_node_Some a n s : nodes s !! a = Some n -> get_node a s = Ok (n, s).
Proof. intros H. unfold get_node. by rewrite run_bind_gets, H. Qed.

Lemma cmp_name_run n s t a : c_string (name n) 0 = Ok t -> cmp_name n s a = Ok (strcmp t s, a).
Proof. intros H. unfold cmp_name. by rewrite H. Qed.

(** The comparison of the loops. *)
Lemma cmp_entry n e s (A : Type) (x y : A) : holds n e -> is_chars s ->
  (if strcmp e.1 s =? 0 then x else y) = (if decide (e.1 = s) then x else y).
Proof.
  intros [Hn _] Hs. pose proof (c_string_Ok _ _ _ Hn) as (_ & Hc & _).
  pose proof (strcmp_0 _ _ Hc Hs). case_decide; destruct (Z.eqb_spec (strcmp e.1 s) 0); tauto.
Qed.

(** ** The loops *)
Section Loops.
Context (s : list Z) (Hs : is_chars s).

Lemma find_loop_ok st q ns l fuel : forall p, (length ns < fuel)%nat -> seg (nodes st) p ns None ->
  Forall2 holds ns l -> q = entry_status s l ->
  find_loop fuel s p st = Ok (if q is Some _ then 0 else 1, q, st).
Proof using Hs.
  intros p Hf Hseg Hh ->. revert p fuel Hf Hseg.
  induction Hh as [|[a n] e ns l Hn _ IH]; intros p [|fuel] Hf Hseg; cbn in Hf, Hseg; try lia; cbn [find_loop entry_status].
  - by rewrite Hseg.
  - destruct Hseg as (-> & Ha & Hseg). erewrite run_bind_ok by (by apply get_node_Some). cbn beta.
    erewrite run_bind_ok by (apply cmp_name_run, Hn). cbn beta. rewrite (cmp_entry _ _ _ _ _ _ Hn Hs). case_decide.
    + destruct Hn as (_ & Hst & _). cbn in Hst. by rewrite Hst.
    + apply IH; [lia|done].
Qed.

Lemma display_loop_ok st ns l fuel : forall p, (length ns < fuel)%nat -> seg (nodes st) p ns None ->
  Forall2 holds ns l -> display_loop fuel p st = Ok (l, st).
Proof.
  intros p Hf Hseg Hh. revert p fuel Hf Hseg.
  induction Hh as [|[a n] [nm v] ns l Hn _ IH]; intros p [|fuel] Hf Hseg; cbn in Hf, Hseg; try lia; cbn [display_loop].
  - by rewrite Hseg.
  - destruct Hseg as (-> & Ha & Hseg). erewrite run_bind_ok by (by apply get_node_Some). cbn beta.
    destruct Hn as (Hc & Hst & _). cbn in Hc, Hst. rewrite Hc, run_bind_lift.
    erewrite run_bind_ok by (apply IH; [lia|done]). cbn beta. by rewrite Hst.
Qed.

(** The state of the first node with the name is changed in place. *)
Lemma alter_loop_ok st v ns l fuel : forall p, (length ns < fuel)%nat -> seg (nodes st) p ns None ->
  NoDup ns.*1 -> Forall2 holds ns l ->
  match set_entry s v l with
  | None => alter_loop fuel s v p st = Ok (1, st)
  | Some l' => exists a n ns', alter_loop fuel s v p st = Ok (0, st <| nodes := <[a := n]> (nodes st) |>) /\
      a ∈ ns.*1 /\ ns'.*1 = ns.*1 /\ Forall2 holds ns' l' /\ seg (<[a := n]> (nodes st)) p ns' None
  end.
Proof using Hs.
  intros p Hf Hseg Hnd Hh. revert p fuel Hf Hseg Hnd.
  induction Hh as [|[a n] [nm w] ns l Hn Hh IH]; intros p [|fuel] Hf Hseg Hnd; cbn in Hf, Hseg; try lia; cbn [alter_loop set_entry].
  - by rewrite Hseg.
  - destruct Hseg as (-> & Ha & Hseg). apply NoDup_cons in Hnd as [Hni Hnd].
    assert (get_node a st = Ok (n, st)) as Eg by by apply get_node_Some.
    assert (forall k : Z -> M sensor_sys Z, (cmp_name n s ≫= k) st = k (strcmp nm s) st) as Ec
      by (intros k; erewrite run_bind_ok by (apply cmp_name_run, Hn); done).
    pose proof (cmp_entry _ _ s (M sensor_sys Z) (put_node a (n <| statue := v |>);; mret 0)
      (alter_loop fuel s v (next n)) Hn Hs) as Ed. cbn [fst] in Ed |- *.
    destruct (decide (nm = s)).
    + exists a, (n <| statue := v |>), ((a, n <| statue := v |>) :: ns).
      erewrite run_bind_ok by exact Eg. cbn beta. rewrite Ec, Ed. split_and!; [done|left|done| |].
      * destruct Hn as (Hc & _ & Hlen). constructor; [|done]. by split; [|split].
      * cbn. rewrite lookup_insert_eq. split_and!; [done..|]. by apply seg_insert.
    + specialize (IH (next n) fuel ltac:(lia) Hseg Hnd).
      destruct (set_entry s v l) as [l'|]; cbn; erewrite run_bind_ok by exact Eg; cbn beta; rewrite Ec, Ed; [|done].
      destruct IH as (b & m & ns' & E & Hb & Hns' & Hh' & Hs'). exists b, m, ((a, n) :: ns').
      split_and!; [done|by right|cbn; by f_equal|by constructor|].
      cbn. by rewrite lookup_insert_ne by (intros ->; done).
Qed.
End Loops.

(** ** Deletion *)

(** The node [a] is taken out of the list [ns]. *)
Record taken_out (st st' : sensor_sys) (a : Z) (ns ns' : list (Z * SensorNode_s)) : Prop := {
  to_seg : seg (nodes st') (SensorListHead st') ns' None;
  to_addresses : ns.*1 ≡ₚ a :: ns'.*1;
  to_heap : forall b, is_Some (nodes st' !! b) <-> b <> a /\ is_Some (nodes st !! b);
  to_next : next_node st' = next_node st;
  to_oom : node_oom st' = node_oom st
}.

Lemma free_node_run a n st : nodes st !! a = Some n ->
  free_node a st = Ok (tt, st <| nodes := delete a (nodes st) |>).
Proof. intros H. unfold free_node. by erewrite run_bind_ok by (by apply get_node_Some). Qed.

Lemma delete_heap (h : gmap Z SensorNode_s) a b : is_Some (delete a h !! b) <-> b <> a /\ is_Some (h !! b).
Proof.
  destruct (decide (b = a)) as [->|].
  - rewrite lookup_delete_eq. split; [by intros []|by intros []].
  - by rewrite lookup_delete_ne by done; tauto.
Qed.

Lemma unlink_first st a n ns : seg (nodes st) (SensorListHead st) ((a, n) :: ns) None ->
  NoDup ((a, n) :: ns).*1 ->
  taken_out st (st <| SensorListHead := next n |> <| nodes := delete a (nodes st) |>) a ((a, n) :: ns) ns.
Proof.
  cbn. intros (Hh & Ha & Hs) [Hn _]%NoDup_cons. split; try done.
  - cbn. by apply seg_delete.
  - intros b. apply delete_heap.
Qed.

Lemma unlink_later st b m a n ns0 ns : seg (nodes st) (SensorListHead st) ((ns0 ++ [(b, m)]) ++ (a, n) :: ns) None ->
  NoDup ((ns0 ++ [(b, m)]) ++ (a, n) :: ns).*1 ->
  taken_out st (st <| nodes := delete a (<[b := m <| next := next n |>]> (nodes st)) |>) a
    ((ns0 ++ [(b, m)]) ++ (a, n) :: ns) ((ns0 ++ [(b, m <| next := next n |>)]) ++ ns).
Proof.
  rewrite <- app_assoc. cbn [app]. intros (p & Hs0 & Hs)%seg_app Hnd. cbn in Hs. destruct Hs as (-> & Hb & _ & Ha & Hs).
  rewrite fmap_app in Hnd. apply NoDup_app in Hnd as (_ & H0 & Hnd). cbn in Hnd.
  apply NoDup_cons in Hnd as [[Hba Hbs]%not_elem_of_cons [Has _]%NoDup_cons].
  assert (a ∉ ns0.*1 /\ b ∉ ns0.*1) as [Ha0 Hb0].
  { split; intros Hin; eapply H0; [exact Hin|right; left|exact Hin|left]. }
  split; try done; cbn -[seg].
  - rewrite <- app_assoc. apply seg_app. exists (Some b). split; [by apply seg_delete, seg_insert|].
    cbn. rewrite lookup_delete_ne, lookup_insert_eq by done. split_and!; [done..|]. by apply seg_delete, seg_insert.
  - rewrite !fmap_app. cbn. rewrite <- !app_assoc. cbn. symmetry.
    rewrite <- !Permutation_middle. apply Permutation_swap.
  - intros c. rewrite delete_heap. destruct (decide (c = b)) as [->|].
    + rewrite lookup_insert_eq, Hb. split; intros [? _]; (split; [done|by eexists]).
    + by rewrite lookup_insert_ne by done.
Qed.

Lemma delete_loop_ok s (Hs : is_chars s) st ns2 l2 : Forall2 holds ns2 l2 ->
  forall ns1 l1 last node fuel, Forall2 holds ns1 l1 -> (length ns2 < fuel)%nat ->
  seg (nodes st) (SensorListHead st) (ns1 ++ ns2) None -> NoDup (ns1 ++ ns2).*1 ->
  seg (nodes st) node ns2 None ->
  (ns1 = [] /\ last = node) \/ (exists ns0 b m, ns1 = ns0 ++ [(b, m)] /\ last = Some b) ->
  match remove_entry s l2 with
  | None => delete_loop fuel s last node st = Ok (1, st)
  | Some l2' => exists st' a ns', delete_loop fuel s last node st = Ok (0, st') /\
      taken_out st st' a (ns1 ++ ns2) ns' /\ Forall2 holds ns' (l1 ++ l2')
  end.
Proof.
  induction 1 as [|[a n] [nm w] ns2 l2 Hn Hh IH]; intros ns1 l1 last node [|fuel] Hh1 Hf Hseg Hnd Hnode Hlast;
    cbn in Hf, Hnode; try lia; cbn [delete_loop remove_entry].
  { by rewrite Hnode. }
  destruct Hnode as (-> & Ha & Hnode).
  assert (get_node a st = Ok (n, st)) as Eg by by apply get_node_Some.
  assert (forall k : Z -> M sensor_sys Z, (cmp_name n s ≫= k) st = k (strcmp nm s) st) as Ec
    by (intros k; erewrite run_bind_ok by (apply cmp_name_run, Hn); done).
  cbn [fst]. destruct (decide (nm = s)) as [E|E].
  - erewrite run_bind_ok by exact Eg. cbn beta. rewrite Ec.
    rewrite (cmp_entry _ _ s _ _ _ Hn Hs). cbn [fst]. rewrite decide_True by done.
    destruct Hlast as [[-> ->]|(ns0 & b & m & -> & ->)].
    + rewrite bool_decide_true by done. pose proof Hseg as Hseg0. cbn in Hseg0. destruct Hseg0 as (Hhd & _).
      rewrite run_bind_gets, Hhd. erewrite run_bind_ok by exact Eg. cbn beta. rewrite run_bind_modify.
      erewrite run_bind_ok by (eapply (free_node_run a n); exact Ha).
      apply Forall2_nil_inv_l in Hh1 as ->. eexists _, a, ns2. split_and!; [done|exact (unlink_first st a n ns2 Hseg Hnd)|done].
    + assert (Some b <> Some a /\ nodes st !! b = Some m) as [Hba Hb].
      { pose proof Hseg as Hs2. rewrite <- app_assoc in Hs2. apply seg_app in Hs2 as (p & _ & (-> & Hb & _)). split; [|done].
        intros [= ->]. rewrite !fmap_app in Hnd. cbn in Hnd. rewrite <- app_assoc in Hnd.
        apply NoDup_app in Hnd as (_ & _ & Hnd). cbn in Hnd. apply NoDup_cons in Hnd as [Hni _]. apply Hni. left. }
      rewrite bool_decide_false by done. erewrite run_bind_ok by (by apply get_node_Some).
      unfold put_node. rewrite run_bind_modify.
      erewrite run_bind_ok by (eapply (free_node_run a n); cbn; rewrite lookup_insert_ne by congruence; exact Ha).
      eexists _, a, ((ns0 ++ [(b, m <| next := next n |>)]) ++ ns2). split_and!; [done|exact (unlink_later st b m a n ns0 ns2 Hseg Hnd)|].
      apply Forall2_app; [|done]. apply Forall2_app_inv_l in Hh1 as (k0 & k1 & Hk0 & Hk1 & ->). apply Forall2_app; [done|].
      inversion Hk1 as [|? e ? ? He Hnil]; subst. inversion Hnil; subst. constructor; [|constructor].
      destruct He as (? & ? & ?). by split; [|split].
  - assert (delete_loop (S fuel) s last (Some a) st = delete_loop fuel s (Some a) (next n) st) as Estep.
    { cbn [delete_loop]. erewrite run_bind_ok by exact Eg. cbn beta. rewrite Ec.
      rewrite (cmp_entry _ _ s _ _ _ Hn Hs). cbn [fst]. by rewrite decide_False by done. }
    specialize (IH (ns1 ++ [(a, n)]) (l1 ++ [(nm, w)]) (Some a) (next n) fuel).
    rewrite <- !app_assoc in IH. cbn [delete_loop] in Estep. rewrite Estep.
    assert (Forall2 holds (ns1 ++ [(a, n)]) (l1 ++ [(nm, w)])) as Hh2 by (apply Forall2_app; [done|by constructor; [|constructor]]).
    specialize (IH Hh2 ltac:(lia) Hseg Hnd Hnode ltac:(right; by eexists _, _, _)).
    destruct (remove_entry s l2) as [l2'|]; [|done]. cbn.
    destruct IH as (st' & c & ns' & E1 & Hout & Hh'). exists st', c, ns'. split_and!; [done..|].
    by rewrite <- app_assoc in Hh'.
Qed.

(** ** Every operation against the abstract list *)
Inductive sensor_op :=
  | OpAdd (s : list Z)
  | OpDelete (s : list Z)
  | OpAlter (s : list Z) (st : Z)
  | OpFind (s : list Z)
  | OpDisplay.

Inductive op_result := RCode (n : Z) | RFound (n : Z) (st : option Z) | RLines (l : list entry).

Definition run_op (junk : list Z) (op : sensor_op) : M sensor_sys op_result :=
  match op with
  | OpAdd s => n ← add_sensor_node junk s; mret (RCode n)
  | OpDelete s => n ← delete_sensor_node s; mret (RCode n)
  | OpAlter s st => n ← alter_sensor_node s st; mret (RCode n)
  | OpFind s => '(n, st) ← find_sensor_node s; mret (RFound n st)
  | OpDisplay => l ← display_all_sensor_node; mret (RLines l)
  end.

Fixpoint run_ops (junk : list Z) (ops : list sensor_op) : M sensor_sys (list op_result) :=
  match ops with
  | [] => mret []
  | op :: ops => r ← run_op junk op; rs ← run_ops junk ops; mret (r :: rs)
  end.

(** The abstract list and the allocations to come. *)
Definition code_of_option (o : option (list entry)) (l : list entry) : op_result * list entry :=
  match o with
  | None => (RCode 1, l)
  | Some l' => (RCode 0, l')
  end.

Definition spec_op (op : sensor_op) (l : list entry) (oom : list bool) : op_result * list entry * list bool :=
  match op with
  | OpAdd s => if default false (head oom) then (RCode 1, l, tail oom) else (RCode 0, (s, 0) :: l, tail oom)
  | OpDelete s => (code_of_option (remove_entry s l) l, oom)
  | OpAlter s st => (code_of_option (set_entry s st l) l, oom)
  | OpFind s => (RFound (if entry_status s l is Some _ then 0 else 1) (entry_status s l), l, oom)
  | OpDisplay => (RLines l, l, oom)
  end.

Fixpoint spec_ops (ops : list sensor_op) (l : list entry) (oom : list bool) : list op_result * list entry * list bool :=
  match ops with
  | [] => ([], l, oom)
  | op :: ops =>
      let '(r, l, oom) := spec_op op l oom in
      let '(rs, l, oom) := spec_ops ops l oom in (r :: rs, l, oom)
  end.

(** Names are strings; those added fit the node. *)
Definition op_ok (op : sensor_op) : Prop :=
  match op with
  | OpAdd s => is_chars s /\ (length s <= 9)%nat
  | OpDelete s | OpAlter s _ | OpFind s => is_chars s
  | OpDisplay => True
  end.

#[export] Instance op_ok_dec op : Decision (op_ok op).
Proof. destruct op; cbn; apply _. Defined.

Definition refines (s : sensor_sys) (l : list entry) (oom : list bool) : Prop :=
  represents s l /\ node_oom s = oom.

Section Refinement.
Context (junk : list Z) (Hjunk : length junk = 10%nat).

Lemma strcpy_ok s : is_chars s -> (length s <= 9)%nat ->
  exists nm, strcpy junk s = Ok nm /\ c_string nm 0 = Ok s /\ length nm = 10%nat.
Proof using Hjunk.
  intros Hs Hl. unfold strcpy, nul. rewrite memcpy_ok by (rewrite ?length_app; cbn; lia).
  eexists. split; [done|]. rewrite drop_0. change (take (Z.to_nat 0) junk) with ([] : list Z). cbn [app].
  rewrite take_ge by (rewrite length_app; cbn; lia). split.
  - unfold c_string. rewrite decide_True, drop_0 by lia. by apply string_of_nul.
  - rewrite !length_app, length_drop. cbn. lia.
Qed.

Lemma strcpy_over s : (10 <= length s)%nat -> strcpy junk s = Fault FOutOfBounds.
Proof using Hjunk. intros Hl. unfold strcpy, memcpy. rewrite decide_False by lia. done. Qed.

Lemma add_refines s st l oom : is_chars s -> (length s <= 9)%nat -> refines st l oom ->
  let '(r, l', oom') := spec_op (OpAdd s) l oom in
  exists st', run_op junk (OpAdd s) st = Ok (r, st') /\ refines st' l' oom'.
Proof using Hjunk.
  intros Hs Hl [(ns & (Hseg & Hnd & Hd & Hlt) & Hh) <-]. cbn [spec_op run_op].
  unfold add_sensor_node, malloc_node. c_run. destruct (default false (head (node_oom st))).
  { c_run. eexists. split; [done|]. split; [|done]. by exists ns. }
  destruct (strcpy_ok s Hs Hl) as (nm & Enm & Hnm & Hlen).
  set (a := next_node st).
  assert (a ∉ ns.*1) as Ha by (intros Hin; rewrite Forall_forall in Hlt; specialize (Hlt _ Hin); unfold a in *; lia).
  unfold put_node. c_run. cbn [next_node upd]. fold a.
  erewrite run_bind_ok by (apply get_node_Some; apply lookup_insert_eq). cbn beta. cbn [name]. rewrite Enm. c_run.
  cbn [SensorListHead upd]. erewrite run_bind_ok by (apply get_node_Some; apply lookup_insert_eq). cbn beta.
  assert (forall st', nodes st' = <[a := MkNode 0 nm (SensorListHead st)]> (nodes st) -> SensorListHead st' = Some a ->
    next_node st' = a + 1 -> node_oom st' = tail (node_oom st) -> refines st' ((s, 0) :: l) (tail (node_oom st))) as Hgoal.
  { intros st' En Eh Ex Eo. split; [|done]. exists ((a, MkNode 0 nm (SensorListHead st)) :: ns). split.
    - unfold list_of. rewrite En, Eh, Ex. cbn. rewrite lookup_insert_eq. split_and!; [done|done|by apply seg_insert|by constructor| |].
      + intros b. destruct (decide (b = a)) as [->|Hb].
        * rewrite lookup_insert_eq. split; [left|by eexists].
        * rewrite lookup_insert_ne, Hd by done. split; [by right|]. by intros [|]%elem_of_cons.
      + constructor; [lia|]. eapply Forall_impl; [exact Hlt|]. cbn. unfold a. lia.
    - constructor; [by split; [|split]|done]. }
  destruct (SensorListHead st) eqn:Eh; c_run; eexists; (split; [done|]); apply Hgoal; try done; cbn;
    by rewrite !insert_insert_eq.
Qed.

Lemma delete_refines s st l oom : is_chars s -> refines st l oom ->
  let '(r, l', oom') := spec_op (OpDelete s) l oom in
  exists st', run_op junk (OpDelete s) st = Ok (r, st') /\ refines st' l' oom'.
Proof.
  intros Hs [(ns & Hl & Hh) <-]. pose proof (list_of_fuel _ _ Hl) as Hf. pose proof Hl as (Hseg & Hnd & Hd & Hlt).
  cbn [spec_op run_op]. unfold delete_sensor_node. c_run. rewrite Hf.
  pose proof (delete_loop_ok s Hs st ns l Hh [] [] (SensorListHead st) (SensorListHead st) (S (length ns))
    (Forall2_nil_2 _ _ _) (Nat.lt_succ_diag_r _) Hseg Hnd Hseg (or_introl (conj eq_refl eq_refl))) as H.
  destruct (remove_entry s l) as [l'|]; cbn.
  - destruct H as (st' & a & ns' & E & [Hs' Hp Hheap Hn Ho] & Hh'). erewrite run_bind_ok by exact E. eexists. split; [done|].
    split; [|done]. exists ns'. split; [|done]. cbn [app] in Hp. rewrite Hp in Hnd. apply NoDup_cons in Hnd as [Ha Hnd].
    split_and!; [done|done| |].
    + intros b. rewrite Hheap, Hd, Hp, elem_of_cons. split; [tauto|]. intros Hb. split; [|by right]. by intros ->.
    + rewrite Hn. rewrite Hp in Hlt. by apply Forall_cons in Hlt as [].
  - erewrite run_bind_ok by exact H. eexists. split; [done|]. split; [|done]. by exists ns.
Qed.

Lemma alter_refines s v st l oom : is_chars s -> refines st l oom ->
  let '(r, l', oom') := spec_op (OpAlter s v) l oom in
  exists st', run_op junk (OpAlter s v) st = Ok (r, st') /\ refines st' l' oom'.
Proof.
  intros Hs [(ns & Hl & Hh) <-]. pose proof (list_of_fuel _ _ Hl) as Hf. pose proof Hl as (Hseg & Hnd & Hd & Hlt).
  cbn [spec_op run_op]. unfold alter_sensor_node. c_run. rewrite Hf.
  pose proof (alter_loop_ok s Hs st v ns l (S (length ns)) _ (Nat.lt_succ_diag_r _) Hseg Hnd Hh) as H.
  destruct (set_entry s v l) as [l'|]; cbn.
  - destruct H as (a & n & ns' & E & Ha & Hns & Hh' & Hs'). erewrite run_bind_ok by exact E. eexists. split; [done|].
    split; [|done]. exists ns'. split; [|done]. split_and!; cbn; rewrite ?Hns; try done.
    intros b. rewrite <- Hd. destruct (decide (b = a)) as [->|].
    + rewrite lookup_insert_eq. split; [intros _; by apply Hd|by eexists].
    + by rewrite lookup_insert_ne by done.
  - erewrite run_bind_ok by exact H. eexists. split; [done|]. split; [|done]. by exists ns.
Qed.

Lemma op_refines op st l oom : op_ok op -> refines st l oom ->
  let '(r, l', oom') := spec_op op l oom in
  exists st', run_op junk op st = Ok (r, st') /\ refines st' l' oom'.
Proof using Hjunk.
  destruct op as [s|s|s v|s|]; intros Hok Hst.
  - destruct Hok. by apply add_refines.
  - by apply delete_refines.
  - by apply alter_refines.
  - destruct Hst as [(ns & Hl & Hh) <-]. pose proof (list_of_fuel _ _ Hl) as Hf. pose proof Hl as (Hseg & _).
    cbn [spec_op run_op]. unfold find_sensor_node. c_run. rewrite Hf.
    erewrite run_bind_ok by (exact (find_loop_ok s Hok st _ ns l _ _ (Nat.lt_succ_diag_r _) Hseg Hh eq_refl)).
    eexists. split; [done|]. split; [|done]. by exists ns.
  - destruct Hst as [(ns & Hl & Hh) <-]. pose proof (list_of_fuel _ _ Hl) as Hf. pose proof Hl as (Hseg & _).
    cbn [spec_op run_op]. unfold display_all_sensor_node. c_run. rewrite Hf.
    erewrite run_bind_ok by (exact (display_loop_ok st ns l _ _ (Nat.lt_succ_diag_r _) Hseg Hh)).
    eexists. split; [done|]. split; [|done]. by exists ns.
Qed.

(** ** The properties *)

(** C6: The list of sensor nodes refines a list of names and states, the newest first.  Any sequence of additions, deletions, changes, look-ups and listings, from the empty list on and whatever allocations fail, runs without a bad access and ends (the list has no cycle); it returns what the abstract operations return, each of which acts on the first node of that name, and leaves exactly the nodes of the abstract list on the heap, so deletion leaks nothing.  Names of up to nine characters are assumed for additions: a longer one overflows the node. *)
Theorem sensor_list_refines ops st l oom : Forall op_ok ops -> refines st l oom ->
  (let '(rs, l', oom') := spec_ops ops l oom in
   exists st', run_ops junk ops st = Ok (rs, st') /\ refines st' l' oom') /\
  (forall s, (10 <= length s)%nat -> default false (head oom) = false ->
     run_op junk (OpAdd s) st = Fault FOutOfBounds).
Proof using Hjunk.
  intros Hops Hst. split.
  - revert st l oom Hst. induction Hops as [|op ops Hop _ IH]; intros st l oom Hst; cbn [spec_ops run_ops]; [by exists st|].
    pose proof (op_refines op st l oom Hop Hst) as H. destruct (spec_op op l oom) as [[r l1] oom1].
    destruct H as (st1 & E1 & Hst1). specialize (IH st1 l1 oom1 Hst1).
    destruct (spec_ops ops l1 oom1) as [[rs l2] oom2]. destruct IH as (st2 & E2 & Hst2).
    exists st2. split; [|done]. erewrite run_bind_ok by exact E1. cbn beta. by erewrite run_bind_ok by exact E2.
  - intros s Hl Ho. destruct Hst as [_ <-]. cbn [run_op]. apply run_bind_fault.
    unfold add_sensor_node, malloc_node, put_node. c_run. rewrite Ho. c_run. erewrite run_bind_ok by (apply get_node_Some; apply lookup_insert_eq). cbn beta. cbn [name].
    apply run_bind_fault. by rewrite strcpy_over.
Qed.
End Refinement.

Definition no_sensors : sensor_sys := MkSensors ∅ None 1 [false; true].

Lemma sensor_list_refines_witness :
  exists st', run_ops (replicate 10 7) [OpAdd (chars "temp"); OpAdd (chars "rain"); OpAdd (chars "humi"); OpAlter (chars "temp") 1;
      OpFind (chars "temp"); OpAdd (chars "temp"); OpDelete (chars "humi"); OpDisplay] no_sensors =
    Ok ([RCode 0; RCode 1; RCode 0; RCode 0; RFound 0 (Some 1); RCode 0; RCode 0;
         RLines [(chars "temp", 0); (chars "temp", 1)]], st') /\
    refines st' [(chars "temp", 0); (chars "temp", 1)] [].
Proof.
  apply (sensor_list_refines (replicate 10 7) eq_refl [OpAdd (chars "temp"); OpAdd (chars "rain"); OpAdd (chars "humi"); OpAlter (chars "temp") 1;
      OpFind (chars "temp"); OpAdd (chars "temp"); OpDelete (chars "humi"); OpDisplay] no_sensors [] [false; true]).
  - by apply (bool_decide_unpack _).
  - split; [|done]. exists []. split; [|constructor]. split_and!; [done|constructor| |constructor].
    intros a. cbn. rewrite lookup_empty. split; [by intros []|by intros ?%elem_of_nil].
Defined.
