(* ===== verification/SensorData.v ===== *)
(** * The frame of sensor values (sensor_control.c, protocol.h)

    [update_sensor] reads the sensors the protocol names, one after the other,
    into [SensorBuf].  The sensor drivers are parameters: [sensor_read] gives, for
    a device name, the bytes the driver stores and whose number it returns, or
    [None] when there is no such device.  [boot] is what the board's memory holds
    from address 0 on, which the code copies where it means to clear the buffer. *)
From Stdlib Require Import String.
From S2P Require Import Prelude CString KString.

Record SensorBuffer_s := MkBuffer { size : Z; buf : list Z }.
#[export] Instance SensorBuffer_s_eta : Eta SensorBuffer_s := fun s => MkBuffer (size s) (buf s).

Record sProtocol_s := MkProtocol { version : Z; amount : Z; sensor : list (list Z) }.

Definition Ptc : sProtocol_s :=
  MkProtocol 1 7 [chars "temp"; chars "humi"; chars "windDpend"; chars "windDirection"; chars "pm2_5";
                  chars "light"; chars "rain"].

(** [rt_memcmp] of the caller's buffer and [SensorBuf.buf]: the caller's buffer
    is only read. *)
Definition sensor_get_data (dest : list Z) (s : SensorBuffer_s) : outcome (Z * list Z) :=
  rt_memcmp (dest ++ buf s) 0 (Z.of_nat (length dest)) (size s);;
  Ok (size s, dest).

Section Update.
Context (ptc : sProtocol_s) (boot : list Z) (sensor_read : list Z -> option (list Z)).

(** The loop from [i]; [n] sensors are left. *)
Fixpoint use_protocol_v1_loop (n : nat) (i size : Z) : M SensorBuffer_s Z :=
  match n with
  | O => mret size
  | S n =>
      name ← lift (zget (sensor ptc) i);
      match sensor_read name with
      | None => use_protocol_v1_loop n (i + 1) size
      | Some bytes =>
          b ← gets buf;
          b ← lift (memcpy b size bytes 0 (Z.of_nat (length bytes)));
          buf ::= b;;
          use_protocol_v1_loop n (i + 1) (u8 (size + Z.of_nat (length bytes)))
      end
  end.

Definition use_protocol_v1 : M SensorBuffer_s unit :=
  sz ← use_protocol_v1_loop (Z.to_nat (amount ptc)) 0 0;
  size ::= sz.

(** The first half of [update_sensor], meant to clear the buffer. *)
Definition update_clear : M SensorBuffer_s unit :=
  size ::= 0;;
  b ← gets buf;
  b ← lift (memcpy b 0 boot 0 255);
  buf ::= b.

Definition update_read : M SensorBuffer_s unit :=
  if version ptc =? 1 then use_protocol_v1 else skip.

Definition update_sensor : M SensorBuffer_s unit := update_clear;; update_read.

(** ** The frame *)

(** What the sensors deliver, in the order of the protocol. *)
Definition frame : list Z :=
  concat ((fun name => default [] (sensor_read name)) <$> take (Z.to_nat (amount ptc)) (sensor ptc)).

Definition buffer_wf (s : SensorBuffer_s) : Prop := length (buf s) = 255%nat /\ 0 <= size s <= 255.

Lemma memcpy_middle (p bytes z : list Z) : (length bytes <= length z)%nat ->
  memcpy (p ++ z) (Z.of_nat (length p)) bytes 0 (Z.of_nat (length bytes)) =
    Ok (p ++ bytes ++ drop (length bytes) z).
Proof.
  intros Hl. rewrite memcpy_ok by (rewrite ?length_app; lia).
  rewrite !Nat2Z.id, take_app_length, drop_0, firstn_all. do 3 f_equal.
  replace (Z.to_nat (Z.of_nat (length p) + Z.of_nat (length bytes))) with (length p + length bytes)%nat by lia.
  by rewrite <- drop_drop, drop_app_length.
Qed.

(** The bytes [p] are in the buffer, [z] behind them; [names] are left to read. *)
Lemma use_protocol_v1_loop_ok names : forall i p z, length (p ++ z) = 255%nat ->
  drop i (sensor ptc) = names ++ drop (i + length names) (sensor ptc) -> (i + length names <= length (sensor ptc))%nat ->
  let rest := concat ((fun name => default [] (sensor_read name)) <$> names) in
  use_protocol_v1_loop (length names) (Z.of_nat i) (Z.of_nat (length p)) (MkBuffer 0 (p ++ z)) =
    if decide (length (p ++ rest) <= 255)%nat
    then Ok (Z.of_nat (length (p ++ rest)), MkBuffer 0 (p ++ rest ++ drop (length rest) z))
    else Fault FOutOfBounds.
Proof.
  induction names as [|nm names IH]; intros i p z Hl Hd Hi; cbn [use_protocol_v1_loop length].
  { cbn. rewrite app_nil_r. rewrite decide_True by (rewrite length_app in Hl; lia). by rewrite drop_0. }
  assert (sensor ptc !! i = Some nm) as Hnm.
  { rewrite <- (Nat.add_0_r i), <- lookup_drop, Hd. done. }
  assert (drop (S i) (sensor ptc) = names ++ drop (S i + length names) (sensor ptc)) as Hd'.
  { replace (S i + length names)%nat with (i + length (nm :: names))%nat by (cbn; lia).
    replace (S i) with (i + 1)%nat by lia. by rewrite <- drop_drop, Hd. }
  cbn [length] in Hi.
  rewrite (zget_Some _ _ nm) by (lia || by rewrite Nat2Z.id). rewrite run_bind_lift.
  replace (Z.of_nat i + 1) with (Z.of_nat (S i)) by lia. cbn [fmap list_fmap concat].
  destruct (sensor_read nm) as [bytes|]; cbn [default from_option id].
  2: { specialize (IH (S i) p z Hl Hd' ltac:(lia)). exact IH. }
  rewrite run_bind_gets. cbn [buf]. rewrite !length_app in *.
  destruct (decide (length p + length bytes <= 255)%nat) as [Hfit|Hover].
  - rewrite memcpy_middle by lia. rewrite run_bind_lift, run_bind_modify.
    change ((MkBuffer 0 (p ++ z)) <| buf := p ++ bytes ++ drop (length bytes) z |>)
      with (MkBuffer 0 (p ++ bytes ++ drop (length bytes) z)).
    rewrite app_assoc. rewrite uint_small by lia.
    replace (Z.of_nat (length p) + Z.of_nat (length bytes)) with (Z.of_nat (length (p ++ bytes))) by (rewrite length_app; lia).
    specialize (IH (S i) (p ++ bytes) (drop (length bytes) z)). cbn zeta in IH. rewrite IH; [|rewrite !length_app, length_drop; lia|done|lia].
    rewrite !length_app, drop_drop. rewrite <- !app_assoc. rewrite (Nat.add_assoc (length p)). done.
  - rewrite decide_False by lia. apply run_bind_fault. unfold memcpy. rewrite decide_False; [done|].
    rewrite length_app. lia.
Qed.

(** [update_clear] leaves the first 255 bytes of the memory. *)
Lemma update_clear_ok s : length (buf s) = 255%nat -> (255 <= length boot)%nat ->
  update_clear s = Ok (tt, MkBuffer 0 (take 255 boot)).
Proof.
  intros Hb Hl. unfold update_clear. c_run. destruct s as [n b]. cbn [buf upd] in *.
  rewrite memcpy_ok by (cbn; lia). change (take (Z.to_nat 0) b) with ([] : list Z). rewrite run_bind_lift. cbn [app].
  change (drop (Z.to_nat 0) boot) with boot. rewrite drop_ge by (cbn; lia). by rewrite app_nil_r.
Qed.

(** ** The properties *)


(** Nothing else changes the buffer's shape. *)
Lemma update_clear_wf s s' : buffer_wf s -> (255 <= length boot)%nat -> update_clear s = Ok (tt, s') -> buffer_wf s'.
Proof.
  intros [Hb _] Hl. rewrite update_clear_ok by done. intros [= <-]. split; cbn; [rewrite length_take; lia|lia].
Qed.

Lemma use_loop_wf n : forall i sz s v s', length (buf s) = 255%nat -> 0 <= sz <= 255 ->
  use_protocol_v1_loop n i sz s = Ok (v, s') -> length (buf s') = 255%nat /\ 0 <= v <= 255.
Proof.
  induction n as [|n IH]; intros i sz s v s' Hb Hsz; cbn [use_protocol_v1_loop]; [by intros [= <- <-]|].
  destruct (zget (sensor ptc) i) as [nm| |]; [rewrite run_bind_lift|done..].
  destruct (sensor_read nm) as [bytes|]; [|by apply IH]. rewrite run_bind_gets.
  destruct (memcpy _ _ _ _ _) as [b| |] eqn:E; [rewrite run_bind_lift, run_bind_modify|done..].
  apply memcpy_length in E. apply IH; [cbn; lia|]. pose proof (u8_byte (sz + Z.of_nat (length bytes))). unfold is_byte in *. lia.
Qed.

Lemma update_read_wf s s' : buffer_wf s -> update_read s = Ok (tt, s') -> buffer_wf s'.
Proof.
  intros [Hb Hs]. unfold update_read, use_protocol_v1. destruct (_ =? 1); [|by intros [= <-]].
  unfold mbind, M_bind. destruct (use_protocol_v1_loop _ _ _ _) as [[v s1]| |] eqn:E; [|done..].
  intros [= <-]. by destruct (use_loop_wf _ 0 0 s v s1 Hb ltac:(lia) E).
Qed.
End Update.

(** A board with a thermometer and a light sensor. *)
Definition two_drivers (name : list Z) : option (list Z) :=
  if bool_decide (name = chars "temp") then Some [1; 35]
  else if bool_decide (name = chars "light") then Some [7] else None.


(** The caller's buffer is returned as it was. *)
Lemma sensor_get_data_ok dest s : buffer_wf s -> length dest = 255%nat -> sensor_get_data dest s = Ok (size s, dest).
Proof.
  intros [Hb Hs] Hd. unfold sensor_get_data, rt_memcmp.
  destruct (rt_memcmp_ok (dest ++ buf s) (Z.to_nat (size s)) 0 (Z.of_nat (length dest))) as (r & -> & _); rewrite ?length_app; try lia.
  done.
Qed.
