(* ===== verification/Board.v ===== *)
(** * The main program and the board as a whole (main.c)

    The main thread, the radio thread, the sensor thread, the shell and the timer
    as the steps of one system: [main_cycle] is a turn of main's loop, [radio_step]
    a piece of the radio thread, and [update_clear] and [update_read] the two
    halves of an update of the sensor buffer.  The module's answers, the sensor
    drivers and the memory at address 0 are chosen anew in every step. *)
From stdpp Require Import gmap relations.
From Stdlib Require Import String.
From S2P Require Import Prelude CString Ipc IpcMutex AtClient AtExchange AtSetup AtRadio AtAnyAnswer RadioControl SensorData.

(** ** main.c *)

(** [int] is 32 bits; the loop from [n], over the characters left. *)
Fixpoint atoi_loop (s : list Z) (n : Z) : outcome Z :=
  match s with
  | [] => Fault FOutOfBounds
  | c :: s => if (48 <=? c) && (c <=? 57) then atoi_loop s (s32 (10 * n + (c - 48))) else Ok n
  end.

Definition atoi_ (s : list Z) : outcome Z := atoi_loop s 0.

Record board := MkBoard {
  radio : radio_sys;
  radio_thread : radio_pc;
  sensors : SensorBuffer_s;
  upload_cycle : Z
}.
#[export] Instance board_eta : Eta board := fun b =>
  MkBoard (radio b) (radio_thread b) (sensors b) (upload_cycle b).

(** The words of the shell line; a missing one is a null pointer.  A wrong number
    of words only prints a message. *)
Definition doing_cyc (argv : list (list Z)) : M board unit :=
  match argv !! 1%nat with
  | None => lift (Fault FNull)
  | Some s => n ← lift (atoi_ (nul s)); upload_cycle ::= u32 n
  end.

(** The address of main's [buffer]. *)
Definition MAIN_BUFFER : Z := 1.

(** The body of main's loop after the delay. *)
Definition main_cycle : M board unit :=
  buffer ← zoom radio (get_array MAIN_BUFFER);
  sb ← gets sensors;
  '(n, buffer) ← lift (sensor_get_data buffer sb);
  zoom radio (modify (fun r => r <| arrays := <[MAIN_BUFFER := buffer]> (arrays r) |>));;
  ok ← zoom radio radio_read_statue;
  when negb (ok =? 0) do (zoom radio (radio_send MAIN_BUFFER n);; skip).

(** ** The board *)
Definition radio_self : rt_thread := MkThread 2 2 0 0 0.
Definition shell_self : rt_thread := MkThread 3 20 0 0 0.

Inductive board_step (b : board) : board -> Prop :=
  | StepMain b' : main_cycle b = Ok (tt, b') -> board_step b b'
  | StepRadio modem scan_eof pc r :
      radio_step modem scan_eof radio_self (radio_thread b) (radio b) = Ok (pc, r) ->
      board_step b (b <| radio := r |> <| radio_thread := pc |>)
  | StepTimer r : check_started (radio b) = true -> radio_check_statue_timer_irq (radio b) = Ok (tt, r) ->
      board_step b (b <| radio := r |>)
  | StepClear boot s : (255 <= length boot)%nat -> update_clear boot (sensors b) = Ok (tt, s) ->
      board_step b (b <| sensors := s |>)
  | StepRead drivers s : update_read Ptc drivers (sensors b) = Ok (tt, s) ->
      board_step b (b <| sensors := s |>)
  | StepShellSet modem argv a : (length argv < 256)%nat -> Forall plain_text argv ->
      radio_set modem shell_self argv (at_part (radio b)) = Ok (tt, a) ->
      board_step b (b <| radio := (radio b) <| at_part := a |> |>)
  | StepShellCycle argv b' : doing_cyc argv b = Ok (tt, b') -> board_step b b'.

(** What may be sent to the module when main's buffer holds [junk]. *)
Definition allowed (junk : list Z) (cmd : list Z) : Prop :=
  cmd = chars "AT+STATUE" \/ (exists info, cmd ∈ join_commands info) \/
  exists n, (n < 50)%nat /\ cmd = sendhex (take n junk).

Definition sent_only (junk t : list Z) : Prop :=
  exists cmds, t = concat (wire <$> cmds) /\ Forall (allowed junk) cmds.

Record radio_inv (junk : list Z) (r : radio_sys) : Prop := {
  ri_arrays : arrays r = {[MAIN_BUFFER := junk]};
  ri_datas : map_Forall (fun _ d => ptr d = MAIN_BUFFER /\ 0 <= RadioControl.size d < 50) (datas r);
  ri_ready : radio_ready (at_part r);
  ri_fresh : fresh_next (at_part r);
  ri_sent : sent_only junk (tx (at_part r))
}.

Definition board_inv (junk : list Z) (b : board) : Prop :=
  radio_inv junk (radio b) /\ buffer_wf (sensors b).

Section Invariant.
Context (junk : list Z) (Hjunk : length junk = 255%nat) (Hbytes : is_bytes junk).

Lemma sent_only_app t cmds n : sent_only junk t -> Forall (allowed junk) cmds ->
  sent_only junk (t ++ concat (wire <$> take n cmds)).
Proof.
  intros (old & -> & Hold) Hc. exists (old ++ take n cmds). split; [by rewrite fmap_app, concat_app|].
  apply Forall_app_2; [done|]. by apply Forall_take.
Qed.

Definition other_radio (f : radio_sys -> radio_sys) : Prop := forall r,
  arrays (f r) = arrays r /\ datas (f r) = datas r /\ at_part (f r) = at_part r.

Lemma radio_inv_other f r : other_radio f -> radio_inv junk r -> radio_inv junk (f r).
Proof. intros Hf []. destruct (Hf r) as (E1 & E2 & E3). split; by rewrite ?E1, ?E2, ?E3. Qed.

Lemma leads_other f : other_radio f -> leads (radio_inv junk) (radio_inv junk) (modify f).
Proof. intros Hf. apply leads_modify. intros r. by apply radio_inv_other. Qed.

(** Commands sent through the client. *)
Lemma radio_inv_sends r cmds (m : M at_sys AtError_t) v a : Forall (allowed junk) cmds -> sends cmds m ->
  radio_inv junk r -> m (at_part r) = Ok (v, a) -> radio_inv junk (r <| at_part := a |>).
Proof.
  intros Hc Hs [Ha Hd Hr Hf Ht] E. destruct (Hs _ Hr Hf) as (e & n & a' & E' & Hr' & [Htx _] & _ & Hf').
  rewrite E in E'. injection E' as -> ->. split; try done. cbn. rewrite Htx. by apply sent_only_app.
Qed.

Lemma leads_get_data p : leads (radio_inv junk) (radio_inv junk) (get_data p).
Proof.
  apply (leads_bind _ (radio_inv junk)); [apply leads_gets|]. intros [d|]; [apply leads_ret|apply leads_lift].
Qed.

Lemma leads_send_event set : leads (radio_inv junk) (radio_inv junk) (send_event set).
Proof.
  apply (leads_bind _ (radio_inv junk)); [apply leads_gets|]. intros e. destruct (rt_event_send set e) as [[? ?] e'].
  apply (leads_bind _ (radio_inv junk)); [by apply leads_other|]. intros. by apply leads_other.
Qed.

Lemma radio_inv_data r p d : radio_inv junk r -> ptr d = MAIN_BUFFER -> 0 <= RadioControl.size d < 50 ->
  radio_inv junk (r <| datas := <[p := d]> (datas r) |>).
Proof. intros [] Hp Hs. split; try done. by apply map_Forall_insert_2. Qed.

Lemma leads_radio_send n : 0 <= n -> leads (radio_inv junk) (radio_inv junk) (radio_send MAIN_BUFFER n).
Proof.
  intros Hn r v r' Hr E. destruct (decide (n < 50)) as [H50|H50].
  - rewrite radio_send_run in E by done. destruct (default false _); [done|].
    refine ((_ : leads (radio_inv junk) (radio_inv junk) _) _ v r' _ E).
    + apply (leads_bind _ (radio_inv junk)); [apply leads_send_event|]. intros. apply leads_ret.
    + apply (radio_inv_data r (next_data r) (MkData MAIN_BUFFER n)) in Hr; [|done|done]. by destruct Hr.
  - unfold radio_send in E. destruct (Z.geb_spec n 50); [|lia]. by injection E as _ <-.
Qed.

Lemma leads_check_statue modem scan_eof self :
  leads (radio_inv junk) (radio_inv junk) (check_statue modem scan_eof self).
Proof using Hjunk Hbytes.
  apply (leads_bind _ (radio_inv junk)); [apply leads_gets|]. intros st.
  apply (leads_bind _ (radio_inv junk)).
  - apply leads_zoom. intros r [Ha Hd Hr Hf Ht] v a E.
    destruct (get_statue_checked _ _ _ _ _ _ _ Hr Hf E) as (Hr' & Hf' & Htx). split; try done. cbn.
    destruct Htx as [-> | ->]; [done|].
    replace (wire (chars "AT+STATUE")) with (concat (wire <$> take 1 [chars "AT+STATUE"])) by apply app_nil_r.
    apply sent_only_app; [done|]. constructor; [by left|constructor].
  - intros [e st']. by apply leads_other.
Qed.

Lemma allowed_config info : Forall (allowed junk) (join_commands info).
Proof. apply Forall_forall. intros c Hc. right. left. by exists info. Qed.

(** The thread's wait for its events. *)
Lemma leads_send_hex modem self d : ptr d = MAIN_BUFFER -> 0 <= RadioControl.size d < 50 ->
  leads (radio_inv junk) (radio_inv junk)
    (zoom at_part (at_radio_send_hex modem self junk (RadioControl.size d))).
Proof using Hjunk Hbytes.
  intros Hp Hs. apply leads_zoom. intros r Hr v a E.
  apply (radio_inv_sends r [sendhex (take (Z.to_nat (RadioControl.size d)) junk)]
    (at_radio_send_hex modem self junk (RadioControl.size d)) v a); [|rewrite <- (Z2Nat.id (RadioControl.size d)) at 2 by lia|done|done].
  - constructor; [|constructor]. right. right. eexists. split; [|done]. lia.
  - apply sends_send_hex; [done|lia|lia].
Qed.

Lemma radio_step_inv modem scan_eof self pc : leads (radio_inv junk) (radio_inv junk) (radio_step modem scan_eof self pc).
Proof using Hjunk Hbytes.
  destruct pc as [| | |event|event|]; cbn [radio_step].
  - apply (leads_bind _ (radio_inv junk)); [apply leads_check_statue|]. intros _.
    apply (leads_bind _ (radio_inv junk)); [by apply leads_other|]. intros _. apply leads_ret.
  - apply (leads_bind _ (radio_inv junk)); [apply leads_gets|]. intros st.
    apply (leads_bind _ (radio_inv junk)).
    { case_bool_decide; [|apply leads_ret]. apply (leads_bind _ (radio_inv junk)); [|intros; apply leads_ret].
      apply leads_zoom. intros r Hr v a [= _ <-]. destruct r. exact Hr. }
    intros _. apply (leads_bind _ (radio_inv junk)); [apply leads_gets|]. intros e.
    apply (leads_bind _ (radio_inv junk)); [apply leads_lift|]. intros [[w event] e'].
    apply (leads_bind _ (radio_inv junk)); [by apply leads_other|]. intros _.
    destruct w, event; first [apply leads_ret | apply leads_lift].
  - apply (leads_bind _ (radio_inv junk)); [apply leads_gets|]. intros [|t l]; [apply leads_lift|].
    apply (leads_bind _ (radio_inv junk)); [by apply leads_other|]. intros _.
    destruct (rt_event_recv_resumed t) as [? [event|]]; [apply leads_ret|apply leads_lift].
  - apply (leads_bind _ (radio_inv junk)); [|intros; apply leads_ret].
    destruct (negb _); [apply leads_check_statue|apply leads_ret].
  - apply (leads_bind _ (radio_inv junk)); [apply leads_gets|]. intros st. destruct (_ && _); [|apply leads_ret].
    apply leads_gets_bind. intros r Hr v r' E.
    unfold get_data, get_array in E. rewrite run_bind_bind, run_bind_gets in E.
    destruct (RadioBuffer r ≫= fun p => datas r !! p) as [d|] eqn:Ed; [|done]. rewrite run_bind_ret in E.
    assert (ptr d = MAIN_BUFFER /\ 0 <= RadioControl.size d < 50) as [Hp Hs].
    { destruct (RadioBuffer r) as [p|]; [|done]. cbn in Ed. by apply (ri_datas _ _ Hr p). }
    rewrite Hp, run_bind_bind, run_bind_gets, (ri_arrays _ _ Hr), lookup_singleton_eq, run_bind_ret in E.
    refine ((_ : leads (radio_inv junk) (radio_inv junk) _) r v r' Hr E).
    apply (leads_bind _ (radio_inv junk)); [by apply leads_send_hex|]. intros. apply leads_ret.
  - apply (leads_bind _ (radio_inv junk)); [apply leads_gets|]. intros p.
    apply (leads_bind _ (radio_inv junk)); [apply leads_get_data|]. intros _.
    apply (leads_bind _ (radio_inv junk)); [|intros; apply leads_ret].
    apply leads_modify. intros r []. split; try done. cbn. destruct p; [by apply map_Forall_delete|done].
Qed.
End Invariant.

(** ** The properties *)
Lemma main_cycle_inv junk b b' : length junk = 255%nat -> board_inv junk b -> main_cycle b = Ok (tt, b') -> board_inv junk b'.
Proof.
  intros Hj [Hr Hs]. unfold main_cycle.
  assert (get_array MAIN_BUFFER (radio b) = Ok (junk, radio b)) as Ea.
  { unfold get_array. rewrite run_bind_gets, (ri_arrays _ _ Hr), lookup_singleton_eq. done. }
  erewrite run_bind_zoom by exact Ea. cbn beta. rewrite run_bind_gets.
  change (sensors (b <| radio := radio b |>)) with (sensors b). rewrite sensor_get_data_ok, run_bind_lift by done.
  erewrite run_bind_zoom by reflexivity. cbn beta.
  erewrite run_bind_zoom by reflexivity. cbn beta.
  match goal with |- context [radio ?x] => set (b1 := x) end.
  assert (board_inv junk b1) as Hb1.
  { split; [|done]. destruct Hr. split; try done. cbn. by rewrite ri_arrays0, insert_singleton_eq. }
  intros E. refine ((_ : leads (board_inv junk) (board_inv junk) _) b1 tt b' Hb1 E).
  destruct (negb _); [|apply leads_ret].
  apply (leads_bind _ (board_inv junk)); [|intros; apply leads_ret].
  apply leads_zoom. intros x [Hx Hxs] v t Et. split; [|done].
  refine (leads_radio_send junk Hj (size (sensors b)) _ _ _ _ Hx Et). apply Hs.
Qed.

Lemma board_step_inv junk b b' : length junk = 255%nat -> is_bytes junk ->
  board_inv junk b -> board_step b b' -> board_inv junk b'.
Proof.
  intros Hj Hb Hinv Hstep. destruct Hstep as [b' E|modem scan_eof pc r E|r _ E|boot s Hl E|drivers s E|modem argv a Hl Hp E|argv b' E].
  - by eapply main_cycle_inv.
  - destruct Hinv as [Hr Hs]. split; [|done]. by eapply radio_step_inv.
  - destruct Hinv as [Hr Hs]. split; [|done]. by eapply leads_send_event.
  - destruct Hinv as [Hr Hs]. split; [done|]. by eapply update_clear_wf.
  - destruct Hinv as [Hr Hs]. split; [done|]. by eapply update_read_wf.
  - destruct Hinv as [Hr Hs]. split; [|done]. rewrite radio_set_run in E by done.
    destruct (config_of argv) as [info|] eqn:Ei.
    + pose proof (config_of_ok argv info Hp Ei) as Hi. unfold mbind, M_bind in E.
      destruct (raido_join_config_join _ _ _ _) as [[v a1]| |] eqn:E1; [|done..]. injection E as <-.
      by eapply (radio_inv_sends junk (radio b) (join_commands info)); [apply allowed_config|by apply sends_config|..].
    + injection E as <-. destruct Hr. by split.
  - unfold doing_cyc in E. destruct (argv !! 1%nat) as [w|]; [|done].
    destruct (atoi_ (nul w)) as [n| |]; [|done..]. injection E as <-. exact Hinv.
Qed.

(** The board after start-up. *)
Record board_init (junk : list Z) (b : board) : Prop := {
  bi_arrays : arrays (radio b) = {[MAIN_BUFFER := junk]};
  bi_datas : datas (radio b) = ∅;
  bi_ready : radio_ready (at_part (radio b));
  bi_fresh : fresh_next (at_part (radio b));
  bi_tx : tx (at_part (radio b)) = [];
  bi_sensors : buffer_wf (sensors b)
}.


(** ** A run: the sensors deliver three bytes and a frame is sent *)
Definition start_board : board :=
  MkBoard (MkRadio {[MAIN_BUFFER := replicate 255 170]} None ∅ 1 [] AT_RADIO_STATUE_LOSE
             (rt_event_init RT_IPC_FLAG_FIFO) false [] (radio_at <| responses := ∅ |>))
    RadioStarting (MkBuffer 0 (replicate 255 0)) 15000.

(** A module that has joined the network. *)
Definition joined : list Z -> list Z := fun sent =>
  if bool_decide (sent = wire (chars "AT+STATUE")) then wire_lines [statue_line (chars "LORA_JOIN"); line_OK]
  else wire_lines [line_OK].

Definition radio_turn (b : board) : board :=
  match radio_step joined 0 radio_self (radio_thread b) (radio b) with
  | Ok (pc, r) => b <| radio := r |> <| radio_thread := pc |>
  | _ => b
  end.

Definition main_turn (b : board) : board := final main_cycle b.

Definition sensor_turn (b : board) : board :=
  b <| sensors := final (update_read Ptc two_drivers) (sensors b) |>.

Definition is_Ok {A} (o : outcome A) : bool := if o is Ok _ then true else false.

Lemma radio_turn_step b : is_Ok (radio_step joined 0 radio_self (radio_thread b) (radio b)) = true ->
  board_step b (radio_turn b).
Proof.
  intros H. unfold radio_turn. destruct (radio_step _ _ _ _ _) as [[pc r]| |] eqn:E; [|done..]. by eapply StepRadio.
Qed.

Lemma main_turn_step b : is_Ok (main_cycle b) = true -> board_step b (main_turn b).
Proof.
  intros H. unfold main_turn, final. destruct (main_cycle b) as [[[] b']| |] eqn:E; [|done..]. by apply StepMain.
Qed.

Lemma sensor_turn_step b : is_Ok (update_read Ptc two_drivers (sensors b)) = true -> board_step b (sensor_turn b).
Proof.
  intros H. unfold sensor_turn, final.
  destruct (update_read Ptc two_drivers (sensors b)) as [[[] s]| |] eqn:E; [|done..]. by eapply StepRead.
Qed.

