(* ===== verification/MbUtils.v ===== *)
(** * Modbus: shared types and bit utilities

    The enumerations of src/pck/freemodbus/modbus/include, and mbutils.c: packed
    bit fields in byte arrays and the translation of error codes to exceptions.
    A pointer into an array is the array and an offset. *)
From S2P Require Import Prelude.

(** ** Types of the stack *)
Inductive eMBMode := MB_RTU | MB_ASCII | MB_TCP.
Inductive eMBParity := MB_PAR_NONE | MB_PAR_ODD | MB_PAR_EVEN.
Inductive eMBRegisterMode := MB_REG_READ | MB_REG_WRITE.

Inductive eMBErrorCode :=
  | MB_ENOERR | MB_ENOREG | MB_EINVAL | MB_EPORTERR
  | MB_ENORES | MB_EIO | MB_EILLSTATE | MB_ETIMEDOUT.

#[export] Instance eMBErrorCode_eq_dec : EqDecision eMBErrorCode.
Proof. solve_decision. Defined.

(** [eMBException] values travel in frames, so they are their byte. *)
Definition MB_EX_NONE : Z := 0.
Definition MB_EX_ILLEGAL_FUNCTION : Z := 1.
Definition MB_EX_ILLEGAL_DATA_ADDRESS : Z := 2.
Definition MB_EX_ILLEGAL_DATA_VALUE : Z := 3.
Definition MB_EX_SLAVE_DEVICE_FAILURE : Z := 4.
Definition MB_EX_ACKNOWLEDGE : Z := 5.
Definition MB_EX_SLAVE_BUSY : Z := 6.

Definition MB_ADDRESS_BROADCAST : Z := 0.
Definition MB_ADDRESS_MIN : Z := 1.
Definition MB_ADDRESS_MAX : Z := 247.
Definition MB_FUNC_READ_COILS : Z := 1.
Definition MB_FUNC_READ_DISCRETE_INPUTS : Z := 2.
Definition MB_FUNC_READ_HOLDING_REGISTER : Z := 3.
Definition MB_FUNC_READ_INPUT_REGISTER : Z := 4.
Definition MB_FUNC_WRITE_SINGLE_COIL : Z := 5.
Definition MB_FUNC_WRITE_REGISTER : Z := 6.
Definition MB_FUNC_WRITE_MULTIPLE_COILS : Z := 15.
Definition MB_FUNC_WRITE_MULTIPLE_REGISTERS : Z := 16.
Definition MB_FUNC_OTHER_REPORT_SLAVEID : Z := 17.
Definition MB_FUNC_READWRITE_MULTIPLE_REGISTERS : Z := 23.
Definition MB_FUNC_ERROR : Z := 128.

(** mbframe.h, and the frame sizes of mbrtu.c and mbrtu_m.c. *)
Definition MB_PDU_SIZE_MAX : Z := 253.
Definition MB_PDU_SIZE_MIN : Z := 1.
Definition MB_PDU_FUNC_OFF : Z := 0.
Definition MB_PDU_DATA_OFF : Z := 1.
Definition MB_SER_PDU_SIZE_MIN : Z := 4.
Definition MB_SER_PDU_SIZE_MAX : Z := 256.
Definition MB_SER_PDU_SIZE_CRC : Z := 2.
Definition MB_SER_PDU_ADDR_OFF : Z := 0.
Definition MB_SER_PDU_PDU_OFF : Z := 1.

(** ** mbutils.c *)
Definition BITS_UCHAR : Z := 8.

(** The word assembled from the byte at [p] and the one after it. *)
Definition two_bytes (buf : list Z) (p : Z) : outcome Z :=
  lo ← zget buf p;
  hi ← zget buf (p + 1);
  Ok (u16 (Z.lor lo (Z.shiftl hi BITS_UCHAR))).

(** [ucByteBuf] is [&buf[p]]. *)
Definition xMBUtilSetBits (buf : list Z) (p usBitOffset ucNBits ucValue : Z) :
    outcome (list Z) :=
  if negb (ucNBits <=? 8) then Fault FAssert else
  let usByteOffset := u16 (usBitOffset / BITS_UCHAR) in
  let usNPreBits := u16 (usBitOffset - usByteOffset * BITS_UCHAR) in
  let usValue := u16 (Z.shiftl ucValue usNPreBits) in
  let usMask := u16 (Z.shiftl 1 ucNBits - 1) in
  let usMask := u16 (Z.shiftl usMask (usBitOffset - usByteOffset * BITS_UCHAR)) in
  usWordBuf ← two_bytes buf (p + usByteOffset);
  let usWordBuf := u16 (Z.lor (Z.land usWordBuf (Z.lnot usMask)) usValue) in
  buf ← zset buf (p + usByteOffset) (u8 (Z.land usWordBuf 0xff));
  zset buf (p + usByteOffset + 1) (u8 (Z.shiftr usWordBuf BITS_UCHAR)).

Definition xMBUtilGetBits (buf : list Z) (p usBitOffset ucNBits : Z) : outcome Z :=
  let usByteOffset := u16 (usBitOffset / BITS_UCHAR) in
  let usNPreBits := u16 (usBitOffset - usByteOffset * BITS_UCHAR) in
  let usMask := u16 (Z.shiftl 1 ucNBits - 1) in
  usWordBuf ← two_bytes buf (p + usByteOffset);
  let usWordBuf := Z.shiftr usWordBuf usNPreBits in
  let usWordBuf := Z.land usWordBuf usMask in
  Ok (u8 usWordBuf).

Definition prveMBError2Exception (eErrorCode : eMBErrorCode) : Z :=
  match eErrorCode with
  | MB_ENOERR => MB_EX_NONE
  | MB_ENOREG => MB_EX_ILLEGAL_DATA_ADDRESS
  | MB_ETIMEDOUT => MB_EX_SLAVE_BUSY
  | _ => MB_EX_SLAVE_DEVICE_FAILURE
  end.

(** ** Packed bits *)

(** Bit [k] of a byte array, least significant bit of each byte first. *)
Definition bit (buf : list Z) (k : Z) : bool :=
  match buf !! Z.to_nat (k / 8) with Some b => Z.testbit b (k mod 8) | None => false end.

Lemma bit_zget buf p b j : zget buf p = Ok b -> 0 <= j < 8 -> bit buf (8 * p + j) = Z.testbit b j.
Proof.
  intros [Hp Hb]%zget_inv Hj. unfold bit.
  replace ((8 * p + j) / 8) with p by (Z.to_euclidean_division_equations; lia).
  replace ((8 * p + j) mod 8) with j by (Z.to_euclidean_division_equations; lia).
  by rewrite Hb.
Qed.

Lemma testbit_uint w z i : 0 <= i -> 0 <= w -> Z.testbit (uint w z) i = (i <? w) && Z.testbit z i.
Proof.
  intros Hi Hw. unfold uint. destruct (Z.ltb_spec i w).
  - by rewrite Z.mod_pow2_bits_low by lia.
  - by rewrite Z.mod_pow2_bits_high by lia.
Qed.

Lemma testbit_mask n i : 0 <= n -> 0 <= i -> Z.testbit (Z.shiftl 1 n - 1) i = (i <? n).
Proof.
  intros. rewrite Z.shiftl_1_l. replace (2 ^ n - 1) with (Z.ones n) by (rewrite Z.ones_equiv; lia).
  destruct (Z.ltb_spec i n); [apply Z.ones_spec_low|apply Z.ones_spec_high]; lia.
Qed.

Lemma two_bytes_ok buf p : is_bytes buf -> 0 <= p -> p + 1 < Z.of_nat (length buf) ->
  exists w, two_bytes buf p = Ok w /\ 0 <= w < 65536 /\
    forall i, 0 <= i < 16 -> Z.testbit w i = bit buf (8 * p + i).
Proof.
  intros Hb Hp Hlen. unfold two_bytes.
  destruct (zget_ok buf p) as (lo & Hlo & Hlo'); [lia|].
  destruct (zget_ok buf (p + 1)) as (hi & Hhi & Hhi'); [lia|].
  rewrite Hlo. cbn [mbind outcome_bind]. rewrite Hhi. cbn [mbind outcome_bind].
  pose proof (Forall_lookup_1 _ _ _ _ Hb Hlo') as Blo. pose proof (Forall_lookup_1 _ _ _ _ Hb Hhi') as Bhi.
  eexists. split; [done|]. split; [by apply (uint_range 16)|]. intros i Hi.
  rewrite testbit_uint, (proj2 (Z.ltb_lt _ _)) by lia. cbn [andb].
  unfold BITS_UCHAR. rewrite Z.lor_spec. destruct (decide (i < 8)).
  - rewrite Z.shiftl_spec_low, orb_false_r by lia. symmetry. apply bit_zget; [done|lia].
  - rewrite (testbit_high 8 lo), Z.shiftl_spec by (unfold is_byte in Blo; lia). cbn [orb].
    symmetry. replace (8 * p + i) with (8 * (p + 1) + (i - 8)) by lia. apply bit_zget; [done|lia].
Qed.

(** Storing a word back as two bytes. *)
Lemma store_word_ok buf p w : 0 <= p -> p + 1 < Z.of_nat (length buf) -> 0 <= w < 65536 ->
  is_bytes buf ->
  exists buf1 buf2, zset buf p (u8 (Z.land w 0xff)) = Ok buf1 /\
    zset buf1 (p + 1) (u8 (Z.shiftr w BITS_UCHAR)) = Ok buf2 /\
    is_bytes buf2 /\ length buf2 = length buf /\
    forall k, 0 <= k -> bit buf2 k =
      if decide (8 * p <= k < 8 * p + 16) then Z.testbit w (k - 8 * p) else bit buf k.
Proof.
  intros Hp Hlen Hw Hb. eexists _, _.
  split; [apply zset_ok; lia|]. split; [apply zset_ok; rewrite length_insert; lia|].
  split; [by repeat apply Forall_insert; try apply u8_byte|].
  split; [by rewrite !length_insert|]. intros k Hk. unfold bit.
  assert (0 <= k / 8) by (apply Z.div_pos; lia).
  assert (0 <= k mod 8 < 8) by (apply Z.mod_pos_bound; lia).
  pose proof (Z.div_mod k 8 ltac:(lia)) as Hdm.
  destruct (decide (k / 8 = p + 1)) as [E1|].
  { rewrite E1, list_lookup_insert_eq by (rewrite length_insert; lia). rewrite decide_True by lia.
    rewrite testbit_uint, (proj2 (Z.ltb_lt _ _)) by lia. cbn [andb].
    rewrite Z.shiftr_spec by lia. f_equal. unfold BITS_UCHAR. lia. }
  rewrite list_lookup_insert_ne by lia. destruct (decide (k / 8 = p)) as [E0|].
  - rewrite E0, list_lookup_insert_eq by lia. rewrite decide_True by lia.
    rewrite testbit_uint, (proj2 (Z.ltb_lt _ _)) by lia. cbn [andb].
    rewrite Z.land_spec. change 255 with (Z.ones 8). rewrite Z.ones_spec_low, andb_true_r by lia.
    f_equal. lia.
  - rewrite list_lookup_insert_ne by lia. rewrite decide_False by lia. done.
Qed.

Lemma byte_offset_eq off : 0 <= off < 65536 -> u16 (off / BITS_UCHAR) = off / 8.
Proof. intros. apply u16_small. unfold BITS_UCHAR. Z.to_euclidean_division_equations; lia. Qed.

Lemma pre_bits_eq off : 0 <= off < 65536 -> u16 (off - off / 8 * BITS_UCHAR) = off mod 8.
Proof.
  intros. unfold BITS_UCHAR. rewrite u16_small by (Z.to_euclidean_division_equations; lia).
  Z.to_euclidean_division_equations; lia.
Qed.

(** What [xMBUtilSetBits] leaves in bit [k] of the array: the field gets the
    value; a value wider than the field also sets bits above it. *)
Definition set_bits_spec (buf : list Z) (start n value k : Z) : bool :=
  if decide (start <= k < start + n) then Z.testbit value (k - start)
  else bit buf k || (bool_decide (start <= k /\ k / 8 <= start / 8 + 1) && Z.testbit value (k - start)).

Lemma xMBUtilSetBits_ok buf p off n value :
  is_bytes buf -> 0 <= p -> 0 <= off < 65536 -> 0 <= n <= 8 -> is_byte value ->
  p + off / 8 + 1 < Z.of_nat (length buf) ->
  exists buf', xMBUtilSetBits buf p off n value = Ok buf' /\ is_bytes buf' /\
    length buf' = length buf /\
    forall k, 0 <= k -> bit buf' k = set_bits_spec buf (8 * p + off) n value k.
Proof.
  intros Hb Hp Hoff Hn Hv Hlen. unfold xMBUtilSetBits. rewrite (proj2 (Z.leb_le _ _)) by lia. cbn [negb].
  rewrite byte_offset_eq, pre_bits_eq by done.
  assert (off - off / 8 * BITS_UCHAR = off mod 8) as -> by (unfold BITS_UCHAR; Z.to_euclidean_division_equations; lia).
  assert (0 <= off mod 8 < 8) as Hpre by (apply Z.mod_pos_bound; lia).
  assert (0 <= off / 8) by (apply Z.div_pos; lia).
  pose proof (Z.div_mod off 8 ltac:(lia)) as Hdm.
  set (pre := off mod 8) in *. set (q := p + off / 8) in *.
  destruct (two_bytes_ok buf q) as (w & -> & Hw & Hwbits); [done|lia..|]. cbn [mbind outcome_bind].
  set (w' := u16 (Z.lor _ _)). assert (0 <= w' < 65536) as Hw' by (apply (uint_range 16); lia).
  destruct (store_word_ok buf q w') as (b1 & b2 & -> & E2 & Hb2 & Hl2 & Hbits); [lia|lia|done|done|].
  cbn [mbind outcome_bind]. rewrite E2. exists b2. split_and!; [done..|].
  intros k Hk. rewrite Hbits by done. unfold set_bits_spec.
  replace (8 * p + off) with (8 * q + pre) by lia.
  assert ((8 * q + pre) / 8 = q) as -> by (Z.to_euclidean_division_equations; lia).
  assert (k / 8 <= q + 1 <-> k < 8 * q + 16) as Hk16 by (Z.to_euclidean_division_equations; lia).
  assert (forall j, j >= 8 -> Z.testbit value j = false) as Hvhigh.
  { intros j Hj. apply (testbit_high 8); [exact Hv|lia]. }
  destruct (decide (8 * q <= k < 8 * q + 16)) as [Hin|Hout].
  2: { rewrite decide_False by lia. rewrite bool_decide_eq_false_2 by lia. by rewrite orb_false_r. }
  unfold w'. rewrite testbit_uint, (proj2 (Z.ltb_lt _ _)) by lia. cbn [andb].
  rewrite Z.lor_spec, Z.land_spec, Z.lnot_spec, Hwbits by lia.
  replace (8 * q + (k - 8 * q)) with k by lia.
  rewrite !testbit_uint, (proj2 (Z.ltb_lt (k - 8 * q) 16)) by lia. cbn [andb].
  rewrite !Z.shiftl_spec by lia. replace (k - 8 * q - pre) with (k - (8 * q + pre)) by lia.
  destruct (decide (8 * q + pre <= k)) as [Hge|Hlt].
  - rewrite testbit_uint, (proj2 (Z.ltb_lt (k - (8 * q + pre)) 16)), testbit_mask by lia. cbn [andb].
    rewrite (bool_decide_eq_true_2 (_ /\ k / 8 <= q + 1)) by lia. cbn [andb].
    destruct (Z.ltb_spec (k - (8 * q + pre)) n).
    + rewrite decide_True by lia. cbn. by rewrite andb_false_r.
    + rewrite decide_False by lia. cbn. by rewrite andb_true_r.
  - rewrite decide_False, bool_decide_eq_false_2 by lia.
    rewrite !(Z.testbit_neg_r _ (k - (8 * q + pre))) by lia. cbn. by rewrite andb_true_r.
Qed.

(** [xMBUtilGetBits] reads the field. *)
Lemma xMBUtilGetBits_ok buf p off n :
  is_bytes buf -> 0 <= p -> 0 <= off < 65536 -> 0 <= n <= 8 ->
  p + off / 8 + 1 < Z.of_nat (length buf) ->
  exists v, xMBUtilGetBits buf p off n = Ok v /\ is_byte v /\
    forall i, 0 <= i -> Z.testbit v i = (i <? n) && bit buf (8 * p + off + i).
Proof.
  intros Hb Hp Hoff Hn Hlen. unfold xMBUtilGetBits. rewrite byte_offset_eq, pre_bits_eq by done.
  assert (0 <= off mod 8 < 8) as Hpre by (apply Z.mod_pos_bound; lia).
  assert (0 <= off / 8) by (apply Z.div_pos; lia).
  pose proof (Z.div_mod off 8 ltac:(lia)) as Hdm.
  destruct (two_bytes_ok buf (p + off / 8)) as (w & -> & Hw & Hwbits); [done|lia..|].
  cbn [mbind outcome_bind]. eexists. split; [done|]. split; [apply u8_byte|]. intros i Hi.
  rewrite testbit_uint, Z.land_spec, Z.shiftr_spec, testbit_uint, testbit_mask by lia.
  destruct (Z.ltb_spec i n); [|by rewrite !andb_false_r].
  rewrite (proj2 (Z.ltb_lt i 8)), (proj2 (Z.ltb_lt i 16)), Hwbits by lia. cbn.
  rewrite andb_true_r. f_equal. lia.
Qed.

(** A value that fits the field changes nothing outside it. *)
Lemma set_bits_spec_narrow buf start n value k : 0 <= n -> 0 <= value < 2 ^ n ->
  set_bits_spec buf start n value k =
    if decide (start <= k < start + n) then Z.testbit value (k - start) else bit buf k.
Proof.
  intros Hn Hv. unfold set_bits_spec. case_decide as Hd; [done|].
  case_bool_decide; [|by rewrite orb_false_r].
  rewrite (testbit_high n value) by lia. by rewrite orb_false_r.
Qed.

(** Beyond the end of the array, a field faults even when its bits fit the last byte. *)
Lemma two_bytes_out buf p : 0 <= p -> p + 1 >= Z.of_nat (length buf) -> two_bytes buf p = Fault FOutOfBounds.
Proof.
  intros Hp Hlen. unfold two_bytes. destruct (zget buf p) as [lo| |] eqn:E; cbn [mbind outcome_bind].
  - unfold zget. rewrite decide_True by lia.
    by rewrite lookup_ge_None_2 by lia.
  - revert E. unfold zget. case_decide; [|by intros [= <-]]. destruct (buf !! _); [done|by intros [= <-]].
  - revert E. unfold zget. case_decide; [|done]. by destruct (buf !! _).
Qed.

Lemma xMBUtilSetBits_out buf p off n value :
  0 <= p -> 0 <= off < 65536 -> 0 <= n <= 8 -> p + off / 8 + 1 >= Z.of_nat (length buf) ->
  xMBUtilSetBits buf p off n value = Fault FOutOfBounds.
Proof.
  intros. unfold xMBUtilSetBits. rewrite (proj2 (Z.leb_le _ _)) by lia. cbn [negb].
  rewrite byte_offset_eq by done. assert (0 <= off / 8) by (apply Z.div_pos; lia).
  by rewrite two_bytes_out by lia.
Qed.

(** ** The properties *)

(** [xMBUtilSetBits] stores an n-bit value (n at most 8) at any bit offset: every bit of the field gets the value's bit, every other bit of the array keeps its value, bytes stay bytes, and [xMBUtilGetBits] of the same field reads the value back; it accesses the byte at the offset and the next one, and faults exactly when the next one is outside the array. *)
Theorem set_get_bits_roundtrip buf p off n value :
  is_bytes buf -> 0 <= p -> 0 <= off < 65536 -> 0 <= n <= 8 -> 0 <= value < 2 ^ n ->
  (p + off / 8 + 1 < Z.of_nat (length buf) ->
   exists buf', xMBUtilSetBits buf p off n value = Ok buf' /\ is_bytes buf' /\
     length buf' = length buf /\
     (forall k, 0 <= k -> bit buf' k =
        if decide (8 * p + off <= k < 8 * p + off + n) then Z.testbit value (k - (8 * p + off))
        else bit buf k) /\
     xMBUtilGetBits buf' p off n = Ok value) /\
  (p + off / 8 + 1 >= Z.of_nat (length buf) ->
   xMBUtilSetBits buf p off n value = Fault FOutOfBounds).
Proof.
  intros Hb Hp Hoff Hn Hv. split; [|by intros; apply xMBUtilSetBits_out].
  intros Hlen.
  assert (is_byte value) as Hbyte.
  { split; [lia|]. pose proof (Z.pow_le_mono_r 2 n 8 ltac:(lia) ltac:(lia)). change 256 with (2 ^ 8). lia. }
  destruct (xMBUtilSetBits_ok buf p off n value) as (buf' & E & Hb' & Hl' & Hbits); [done..|].
  exists buf'. split_and!; [done..| |].
  { intros k Hk. rewrite Hbits by done. apply set_bits_spec_narrow; lia. }
  destruct (xMBUtilGetBits_ok buf' p off n) as (v & Ev & _ & Hvb); [done|done|done|lia|lia|].
  rewrite Ev. f_equal. apply Z.bits_inj'. intros i Hi. rewrite Hvb by done.
  destruct (Z.ltb_spec i n); cbn [andb].
  - rewrite Hbits, set_bits_spec_narrow, decide_True by lia. f_equal. lia.
  - symmetry. apply (testbit_high n); lia.
Qed.

Lemma set_get_bits_roundtrip_witness :
  exists buf', xMBUtilSetBits [0xff; 0xff; 0xff] 0 6 5 9 = Ok buf' /\
    xMBUtilGetBits buf' 0 6 5 = Ok 9.
Proof.
  destruct (set_get_bits_roundtrip [0xff; 0xff; 0xff] 0 6 5 9) as [H _]; [bytes_ok|lia|lia|lia|lia|].
  destruct H as (buf' & H1 & _ & _ & _ & H2); [reflexivity|]. exists buf'. split; [exact H1|exact H2].
Defined.
