(* ===== verification/MbPortMaster.v ===== *)
(** * Modbus master: the porting layer (src/pck/freemodbus/port/port*_m.c)

    The state the master's porting layer keeps (event object, resource
    semaphore, timer, serial device) and its functions.  A function that may
    suspend its thread returns [None] when it does; the thread record that is
    later resumed carries what the suspended call returns.

    [serial] is the device the port number selects; the board's rtconfig.h
    enables UART1 and UART2.  The device layer is reduced to a receive FIFO, the
    bytes put on the line and the receive-interrupt flag; opening it succeeds or
    fails as the argument [open_ok] says.  [eMasterCurTimerMode] is declared in
    mbrtu_m.c and written only by the timer functions here. *)
From S2P Require Import Prelude Ipc MbUtils.

(** ** Types *)
Definition EV_MASTER_READY : Z := 1.
Definition EV_MASTER_FRAME_RECEIVED : Z := 2.
Definition EV_MASTER_EXECUTE : Z := 4.
Definition EV_MASTER_FRAME_SENT : Z := 8.
Definition EV_MASTER_ERROR_PROCESS : Z := 16.
Definition EV_MASTER_PROCESS_SUCESS : Z := 32.
Definition EV_MASTER_ERROR_RESPOND_TIMEOUT : Z := 64.
Definition EV_MASTER_ERROR_RECEIVE_DATA : Z := 128.
Definition EV_MASTER_ERROR_EXECUTE_FUNCTION : Z := 256.

Inductive eMBMasterReqErrCode :=
  | MB_MRE_NO_ERR | MB_MRE_NO_REG | MB_MRE_ILL_ARG | MB_MRE_REV_DATA
  | MB_MRE_TIMEDOUT | MB_MRE_MASTER_BUSY | MB_MRE_EXE_FUN.

Inductive eMBMasterTimerMode :=
  | MB_TMODE_T35 | MB_TMODE_RESPOND_TIMEOUT | MB_TMODE_CONVERT_DELAY.

#[export] Instance eMBMasterTimerMode_eq_dec : EqDecision eMBMasterTimerMode.
Proof. solve_decision. Defined.

Definition MB_MASTER_DELAY_MS_CONVERT : Z := 200.
Definition MB_MASTER_TIMEOUT_MS_RESPOND : Z := 100.

Definition STOP_BITS_1 : Z := 0.

Record serial_device := MkSerial {
  baud_rate : Z;
  data_bits : Z;
  stop_bits : Z;
  parity : eMBParity;
  rx_fifo : list Z;
  tx_line : list Z;
  rx_int : bool;
  dev_open : bool
}.

#[export] Instance serial_device_eta : Eta serial_device := fun s =>
  MkSerial (baud_rate s) (data_bits s) (stop_bits s) (parity s)
           (rx_fifo s) (tx_line s) (rx_int s) (dev_open s).

(** The one-shot timer: its reload value and whether it runs. *)
Record port_timer := MkTimer { init_tick : Z; timer_active : bool }.
#[export] Instance port_timer_eta : Eta port_timer := fun t =>
  MkTimer (init_tick t) (timer_active t).

Record mport := MkMport {
  xMasterRunRes : rt_semaphore;
  xMasterOsEvent : rt_event;
  event_serial : rt_event;
  ready : list rt_thread;
  usT35TimeOut50us : Z;
  timer : port_timer;
  eMasterCurTimerMode : eMBMasterTimerMode;
  serial : option serial_device
}.

#[export] Instance mport_eta : Eta mport := fun p =>
  MkMport (xMasterRunRes p) (xMasterOsEvent p) (event_serial p) (ready p)
          (usT35TimeOut50us p) (timer p) (eMasterCurTimerMode p) (serial p).

(** ** portevent_m.c *)
Definition xMBMasterPortEventInit : M mport bool :=
  xMasterOsEvent ::= rt_event_init RT_IPC_FLAG_PRIO;;
  mret true.

(** [rt_event_send] on the master's event; resumed threads become ready. *)
Definition send_master_event (set : Z) : M mport unit :=
  e ← gets xMasterOsEvent;
  let '(_, resumed, e) := rt_event_send set e in
  xMasterOsEvent ::= e;;
  modify (upd (field := ready) (fun r => r ++ resumed)).

Definition xMBMasterPortEventPost (eEvent : Z) : M mport bool :=
  send_master_event eEvent;;
  mret true.

Definition poll_events : Z :=
  Z.lor (Z.lor (Z.lor (Z.lor EV_MASTER_READY EV_MASTER_FRAME_RECEIVED) EV_MASTER_EXECUTE)
    EV_MASTER_FRAME_SENT) EV_MASTER_ERROR_PROCESS.

(** [rt_event_recv] of [mask] on the master's event with OR and CLEAR, waiting
    for ever: what lands in [recvedEvent] ([Some None]: nothing was written),
    or [None] when the thread is suspended. *)
Definition wait_master_event (self : rt_thread) (mask : Z) : M mport (option (option Z)) :=
  e ← gets xMasterOsEvent;
  '(w, recved, e) ← lift (rt_event_recv self mask
     (Z.lor RT_EVENT_FLAG_OR RT_EVENT_FLAG_CLEAR) RT_WAITING_FOREVER e);
  xMasterOsEvent ::= e;;
  mret (match w with IpcReturn _ => Some recved | IpcSuspend _ => None end).

(** The switch on [recvedEvent]: with several bits set no case matches and
    [*eEvent] stays unwritten. *)
Definition decode_event (recvedEvent : option Z) : outcome Z :=
  match recvedEvent with
  | None => Fault FUninit
  | Some e =>
      if e =? EV_MASTER_READY then Ok EV_MASTER_READY
      else if e =? EV_MASTER_FRAME_RECEIVED then Ok EV_MASTER_FRAME_RECEIVED
      else if e =? EV_MASTER_EXECUTE then Ok EV_MASTER_EXECUTE
      else if e =? EV_MASTER_FRAME_SENT then Ok EV_MASTER_FRAME_SENT
      else if e =? EV_MASTER_ERROR_PROCESS then Ok EV_MASTER_ERROR_PROCESS
      else Fault FUninit
  end.

Definition xMBMasterPortEventGet (self : rt_thread) : M mport (option Z) :=
  r ← wait_master_event self poll_events;
  match r with
  | None => mret None
  | Some recvedEvent => e ← lift (decode_event recvedEvent); mret (Some e)
  end.

(** The same call, when its suspended thread has been resumed. *)
Definition xMBMasterPortEventGet_resumed (thread : rt_thread) : outcome Z :=
  decode_event (rt_event_recv_resumed thread).2.

Definition vMBMasterOsResInit : M mport unit :=
  xMasterRunRes ::= rt_sem_init 1 RT_IPC_FLAG_PRIO.

Definition xMBMasterRunResTake (self : rt_thread) (lTimeOut : Z) : M mport (option bool) :=
  s ← gets xMasterRunRes;
  let '(w, s) := rt_sem_take self lTimeOut s in
  xMasterRunRes ::= s;;
  mret (match w with IpcReturn err => Some (err =? RT_EOK) | IpcSuspend _ => None end).

Definition xMBMasterRunResTake_resumed (thread : rt_thread) : bool :=
  rt_sem_take_resumed thread =? RT_EOK.

Definition vMBMasterRunResRelease : M mport unit :=
  s ← gets xMasterRunRes;
  '(resumed, s) ← lift (rt_sem_release s);
  xMasterRunRes ::= s;;
  modify (upd (field := ready) (fun r => r ++ resumed)).

Definition vMBMasterErrorCBRespondTimeout : M mport unit :=
  send_master_event EV_MASTER_ERROR_RESPOND_TIMEOUT.
Definition vMBMasterErrorCBReceiveData : M mport unit :=
  send_master_event EV_MASTER_ERROR_RECEIVE_DATA.
Definition vMBMasterErrorCBExecuteFunction : M mport unit :=
  send_master_event EV_MASTER_ERROR_EXECUTE_FUNCTION.
Definition vMBMasterCBRequestScuuess : M mport unit :=
  send_master_event EV_MASTER_PROCESS_SUCESS.

Definition finish_events : Z :=
  Z.lor (Z.lor (Z.lor EV_MASTER_PROCESS_SUCESS EV_MASTER_ERROR_RESPOND_TIMEOUT)
    EV_MASTER_ERROR_RECEIVE_DATA) EV_MASTER_ERROR_EXECUTE_FUNCTION.

(** The switch on [recvedEvent]; no case is no error. *)
Definition decode_finish (recvedEvent : option Z) : outcome eMBMasterReqErrCode :=
  match recvedEvent with
  | None => Fault FUninit
  | Some e =>
      Ok (if e =? EV_MASTER_PROCESS_SUCESS then MB_MRE_NO_ERR
          else if e =? EV_MASTER_ERROR_RESPOND_TIMEOUT then MB_MRE_TIMEDOUT
          else if e =? EV_MASTER_ERROR_RECEIVE_DATA then MB_MRE_REV_DATA
          else if e =? EV_MASTER_ERROR_EXECUTE_FUNCTION then MB_MRE_EXE_FUN
          else MB_MRE_NO_ERR)
  end.

Definition eMBMasterWaitRequestFinish (self : rt_thread) : M mport (option eMBMasterReqErrCode) :=
  r ← wait_master_event self finish_events;
  match r with
  | None => mret None
  | Some recvedEvent => c ← lift (decode_finish recvedEvent); mret (Some c)
  end.

Definition eMBMasterWaitRequestFinish_resumed (thread : rt_thread) : outcome eMBMasterReqErrCode :=
  decode_finish (rt_event_recv_resumed thread).2.

(** ** porttimer_m.c *)
Definition t35_ticks (usTimeOut50us : Z) : Z :=
  (50 * usTimeOut50us) / (1000 * 1000 / RT_TICK_PER_SECOND).

Definition xMBMasterPortTimersInit (usTimeOut50us : Z) : M mport bool :=
  usT35TimeOut50us ::= usTimeOut50us;;
  timer ::= MkTimer (t35_ticks usTimeOut50us + 1) false;;
  mret true.

(** [rt_timer_control(SET_TIME)] and [rt_timer_start]. *)
Definition start_timer (mode : eMBMasterTimerMode) (timer_tick : Z) : M mport unit :=
  eMasterCurTimerMode ::= mode;;
  timer ::= MkTimer timer_tick true.

Definition vMBMasterPortTimersT35Enable : M mport unit :=
  us ← gets usT35TimeOut50us;
  start_timer MB_TMODE_T35 (t35_ticks us).

Definition vMBMasterPortTimersConvertDelayEnable : M mport unit :=
  start_timer MB_TMODE_CONVERT_DELAY (MB_MASTER_DELAY_MS_CONVERT * RT_TICK_PER_SECOND / 1000).

Definition vMBMasterPortTimersRespondTimeoutEnable : M mport unit :=
  start_timer MB_TMODE_RESPOND_TIMEOUT (MB_MASTER_TIMEOUT_MS_RESPOND * RT_TICK_PER_SECOND / 1000).

Definition vMBMasterPortTimersDisable : M mport unit :=
  zoom timer (timer_active ::= false).

(** ** portserial_m.c *)
Definition EVENT_SERIAL_TRANS_START : Z := 1.

Definition with_serial {A} (m : M serial_device A) : M mport A :=
  s ← gets serial;
  match s with
  | None => lift (Fault FNull)
  | Some d =>
      '(a, d) ← lift (m d);
      serial ::= Some d;;
      mret a
  end.

(** The device of a port number on this board, as it is at start-up. *)
Definition uart_of_port (ucPORT : Z) (old : option serial_device) : option serial_device :=
  if (ucPORT =? 1) || (ucPORT =? 2)
  then Some (MkSerial 0 0 0 MB_PAR_NONE [] [] false false) else old.

Definition xMBMasterPortSerialInit (open_ok : bool) (ucPORT ulBaudRate ucDataBits : Z)
    (eParity : eMBParity) : M mport bool :=
  modify (upd (field := serial) (uart_of_port ucPORT));;
  with_serial (
    baud_rate ::= ulBaudRate;;
    stop_bits ::= STOP_BITS_1;;
    match eParity with
    | MB_PAR_NONE => data_bits ::= 8;; parity ::= MB_PAR_NONE
    | MB_PAR_ODD => data_bits ::= 9;; parity ::= MB_PAR_ODD
    | MB_PAR_EVEN => data_bits ::= 9;; parity ::= MB_PAR_EVEN
    end);;
  if open_ok then
    (** [rt_serial_open] switches the receive interrupt on. *)
    with_serial (dev_open ::= true;; rx_int ::= true);;
    (** The new transmit thread waits for [EVENT_SERIAL_TRANS_START]. *)
    event_serial ::= rt_event_init RT_IPC_FLAG_PRIO;;
    mret true
  else mret false.

Definition vMBMasterPortSerialEnable (xRxEnable xTxEnable : bool) : M mport unit :=
  with_serial (rx_int ::= xRxEnable);;
  e ← gets event_serial;
  if xTxEnable then
    let '(_, resumed, e) := rt_event_send EVENT_SERIAL_TRANS_START e in
    event_serial ::= e;;
    modify (upd (field := ready) (fun r => r ++ resumed))
  else
    '(_, _, e) ← lift (rt_event_recv (MkThread 0 0 0 0 RT_EOK) EVENT_SERIAL_TRANS_START
      (Z.lor RT_EVENT_FLAG_OR RT_EVENT_FLAG_CLEAR) 0 e);
    event_serial ::= e.

(** [rt_serial_close] of a device that is open once. *)
Definition vMBMasterPortClose : M mport unit := with_serial (dev_open ::= false;; rx_int ::= false;; rx_fifo ::= []).

Definition xMBMasterPortSerialPutByte (ucByte : Z) : M mport bool :=
  with_serial (modify (upd (field := tx_line) (fun l => l ++ [ucByte])));;
  mret true.

(** Reading an empty FIFO leaves the caller's byte unwritten. *)
Definition serial_read : M serial_device Z :=
  fifo ← gets rx_fifo;
  match fifo with
  | [] => lift (Fault FUninit)
  | b :: fifo => rx_fifo ::= fifo;; mret b
  end.

Definition xMBMasterPortSerialGetByte : M mport Z := with_serial serial_read.

(** Whether the transmit thread finds its event (it does not clear it). *)
Definition transmit_pending (p : mport) : bool :=
  negb (Z.land (ev_set (event_serial p)) EVENT_SERIAL_TRANS_START =? 0).

(** ** What the port functions do *)
Ltac port_fields :=
  cbv beta delta [upd id zoom];
  cbn [xMasterRunRes xMasterOsEvent event_serial ready usT35TimeOut50us timer
       eMasterCurTimerMode serial init_tick timer_active baud_rate data_bits stop_bits
       parity rx_fifo tx_line rx_int dev_open].

(** The fields that the serial functions leave alone. *)
Definition port_rest (p : mport) :=
  (xMasterRunRes p, xMasterOsEvent p, usT35TimeOut50us p, timer p, eMasterCurTimerMode p).

(** The threads waiting on the serial event do not clear it. *)
Definition serial_waiters_ok (p : mport) : Prop :=
  Forall (fun t => has_flag (event_info t) RT_EVENT_FLAG_CLEAR = false)
    (ev_suspend_thread (event_serial p)).

Lemma send_loop_no_clear lst : forall set,
  Forall (fun t => has_flag (event_info t) RT_EVENT_FLAG_CLEAR = false) lst ->
  exists w r, rt_event_send_loop set lst = (set, w, r) /\
    Forall (fun t => has_flag (event_info t) RT_EVENT_FLAG_CLEAR = false) w.
Proof.
  induction lst as [|t l IH]; intros set Hall; [by exists [], []|].
  apply Forall_cons in Hall as [Ht Hall]. cbn [rt_event_send_loop].
  destruct (event_satisfies set t) as [t'|] eqn:Es.
  - apply event_satisfies_Some in Es as (_ & _ & Hi & _). rewrite Hi, Ht.
    destruct (IH set Hall) as (w & r & -> & Hw). by exists w, (t' :: r).
  - destruct (IH set Hall) as (w & r & -> & Hw). exists (t :: w), r. split; [done|]. by constructor.
Qed.

Lemma with_serial_ok {A} (m : M serial_device A) p d a d' :
  serial p = Some d -> m d = Ok (a, d') -> with_serial m p = Ok (a, p <| serial := Some d' |>).
Proof.
  intros Hs Hm. unfold with_serial. rewrite run_bind_gets, Hs, Hm. by c_run.
Qed.

Record serial_enabled (rx tx : bool) (d : serial_device) (p p' : mport) : Prop := {
  se_serial : serial p' = Some (d <| rx_int := rx |>);
  se_pending : transmit_pending p' = tx;
  se_waiters : serial_waiters_ok p';
  se_rest : port_rest p' = port_rest p
}.

Lemma vMBMasterPortSerialEnable_ok rx tx p d : serial p = Some d -> serial_waiters_ok p ->
  exists p', vMBMasterPortSerialEnable rx tx p = Ok (tt, p') /\ serial_enabled rx tx d p p'.
Proof.
  intros Hs Hw. unfold vMBMasterPortSerialEnable.
  rewrite (run_bind_ok _ _ _ _ _ (with_serial_ok _ _ _ _ _ Hs eq_refl)).
  rewrite run_bind_gets. destruct tx.
  - unfold rt_event_send. cbn [EVENT_SERIAL_TRANS_START Z.eqb]. port_fields.
    destruct (send_loop_no_clear (ev_suspend_thread (event_serial p))
      (Z.lor (ev_set (event_serial p)) EVENT_SERIAL_TRANS_START) Hw) as (w & r & -> & Hw').
    c_run. eexists. split; [done|]. split; port_fields; try done.
    unfold transmit_pending. port_fields. cbn [ev_set]. unfold EVENT_SERIAL_TRANS_START.
    apply negb_true_iff, Z.eqb_neq. intros Hz.
    apply (f_equal (fun z => Z.testbit z 0)) in Hz.
    rewrite Z.land_spec, Z.lor_spec, orb_true_r in Hz. done.
  - unfold rt_event_recv. cbn [EVENT_SERIAL_TRANS_START Z.eqb]. port_fields.
    change (has_flag (Z.lor RT_EVENT_FLAG_OR RT_EVENT_FLAG_CLEAR) RT_EVENT_FLAG_AND) with false.
    change (has_flag (Z.lor RT_EVENT_FLAG_OR RT_EVENT_FLAG_CLEAR) RT_EVENT_FLAG_OR) with true.
    change (has_flag (Z.lor RT_EVENT_FLAG_OR RT_EVENT_FLAG_CLEAR) RT_EVENT_FLAG_CLEAR) with true.
    cbn [mbind outcome_bind]. unfold EVENT_SERIAL_TRANS_START.
    destruct (Z.eqb_spec (Z.land (ev_set (event_serial p)) 1) 0) as [Hz|Hz]; cbn [negb];
      c_run; eexists; (split; [done|]); (split; port_fields; try done);
      unfold transmit_pending; port_fields; cbn [ev_set]; unfold EVENT_SERIAL_TRANS_START.
    + by rewrite Hz.
    + rewrite <- Z.land_assoc. change (Z.land (Z.lnot 1) 1) with 0. by rewrite Z.land_0_r.
Qed.

(** Posting an event: the waiting threads that it satisfies become ready. *)
Record event_posted (set : Z) (p p' : mport) : Prop := {
  ep_word : ev_set (xMasterOsEvent p') = ev_set (rt_event_send set (xMasterOsEvent p)).2;
  ep_event : xMasterOsEvent p' = (rt_event_send set (xMasterOsEvent p)).2;
  ep_ready : ready p' = ready p ++ (rt_event_send set (xMasterOsEvent p)).1.2;
  ep_frame : event_serial p' = event_serial p /\ xMasterRunRes p' = xMasterRunRes p /\
    usT35TimeOut50us p' = usT35TimeOut50us p /\ timer p' = timer p /\
    eMasterCurTimerMode p' = eMasterCurTimerMode p /\ serial p' = serial p
}.

Lemma send_master_event_ok set p :
  exists p', send_master_event set p = Ok (tt, p') /\ event_posted set p p'.
Proof.
  unfold send_master_event. rewrite run_bind_gets.
  destruct (rt_event_send set (xMasterOsEvent p)) as [[err r] e] eqn:E. c_run.
  eexists. split; [done|]. by split; port_fields; rewrite ?E.
Qed.

Lemma xMBMasterPortEventPost_ok set p :
  exists p', xMBMasterPortEventPost set p = Ok (true, p') /\ event_posted set p p'.
Proof.
  destruct (send_master_event_ok set p) as (p' & E & Hp). exists p'. split; [|done].
  unfold xMBMasterPortEventPost. by rewrite (run_bind_ok _ _ _ _ _ E).
Qed.

Lemma xMBMasterPortSerialPutByte_ok b p d : serial p = Some d ->
  xMBMasterPortSerialPutByte b p =
    Ok (true, p <| serial := Some (d <| tx_line := tx_line d ++ [b] |>) |>).
Proof.
  intros Hs. unfold xMBMasterPortSerialPutByte.
  by rewrite (run_bind_ok _ _ _ _ _ (with_serial_ok _ _ _ _ _ Hs eq_refl)).
Qed.

Lemma xMBMasterPortSerialGetByte_ok b l p d : serial p = Some d -> rx_fifo d = b :: l ->
  xMBMasterPortSerialGetByte p = Ok (b, p <| serial := Some (d <| rx_fifo := l |>) |>).
Proof.
  intros Hs Hf. unfold xMBMasterPortSerialGetByte.
  apply (with_serial_ok _ _ _ _ _ Hs). unfold serial_read. rewrite run_bind_gets, Hf. by c_run.
Qed.

Definition timer_started (mode : eMBMasterTimerMode) (ticks : Z) (p : mport) : mport :=
  p <| eMasterCurTimerMode := mode |> <| timer := MkTimer ticks true |>.

Lemma vMBMasterPortTimersT35Enable_ok p :
  vMBMasterPortTimersT35Enable p =
    Ok (tt, timer_started MB_TMODE_T35 (t35_ticks (usT35TimeOut50us p)) p).
Proof. done. Qed.

Lemma vMBMasterPortTimersDisable_ok p :
  vMBMasterPortTimersDisable p = Ok (tt, p <| timer := (timer p) <| timer_active := false |> |>).
Proof. done. Qed.

Lemma start_timer_ok mode ticks p : start_timer mode ticks p = Ok (tt, timer_started mode ticks p).
Proof. done. Qed.
