(* ===== verification/MbRtuMaster.v ===== *)
(** * Modbus master: RTU framing (src/pck/freemodbus/modbus/rtu/mbrtu_m.c)

    The static variables of mbrtu_m.c with the porting layer below them, and one
    definition per function: building, checking and sending frames, and the
    receive, transmit and timer state machines that the port's interrupts drive.
    Frame pointers designate a buffer and an offset, since the send and receive
    buffers are shared with the upper layer through them.  [eMBMasterCurErrorType]
    and its accessors belong to mb_m.c; they live here because the timer state
    machine writes them.  Critical sections are the granularity of the model. *)
From S2P Require Import Prelude Ipc MbUtils ModbusCrc MbPortMaster.

(** ** State *)
Inductive eMBMasterRcvState :=
  | STATE_M_RX_INIT | STATE_M_RX_IDLE | STATE_M_RX_RCV | STATE_M_RX_ERROR.
Inductive eMBMasterSndState :=
  | STATE_M_TX_IDLE | STATE_M_TX_XMIT | STATE_M_TX_XFWR.
Inductive eMBMasterErrorEventType :=
  | EV_ERROR_RESPOND_TIMEOUT | EV_ERROR_RECEIVE_DATA | EV_ERROR_EXECUTE_FUNCTION.

#[export] Instance eMBMasterRcvState_eq_dec : EqDecision eMBMasterRcvState.
Proof. solve_decision. Defined.
#[export] Instance eMBMasterSndState_eq_dec : EqDecision eMBMasterSndState.
Proof. solve_decision. Defined.

Definition MB_MASTER_TOTAL_SLAVE_NUM : Z := 16.

(** A pointer into one of the two frame buffers. *)
Inductive frame_buffer := SndBuf | RcvBuf.
Definition frame_ptr : Type := frame_buffer * Z.

Record mrtu := MkMrtu {
  eSndState : eMBMasterSndState;
  eRcvState : eMBMasterRcvState;
  ucMasterRTUSndBuf : list Z;
  ucMasterRTURcvBuf : list Z;
  usMasterSendPDULength : Z;
  pucMasterSndBufferCur : option frame_ptr;
  usMasterSndBufferCount : Z;
  usMasterRcvBufferPos : Z;
  xFrameIsBroadcast : bool;
  eMBMasterCurErrorType : eMBMasterErrorEventType;
  mrtu_port : mport
}.

#[export] Instance mrtu_eta : Eta mrtu := fun s =>
  MkMrtu (eSndState s) (eRcvState s) (ucMasterRTUSndBuf s) (ucMasterRTURcvBuf s)
    (usMasterSendPDULength s) (pucMasterSndBufferCur s) (usMasterSndBufferCount s)
    (usMasterRcvBufferPos s) (xFrameIsBroadcast s) (eMBMasterCurErrorType s) (mrtu_port s).

Abbreviation port m := (zoom mrtu_port m).

(** *** Access through frame pointers *)
Definition buffer (b : frame_buffer) (s : mrtu) : list Z :=
  match b with SndBuf => ucMasterRTUSndBuf s | RcvBuf => ucMasterRTURcvBuf s end.

Definition ptr_read (p : frame_ptr) (i : Z) : M mrtu Z :=
  b ← gets (buffer p.1); lift (zget b (p.2 + i)).

Definition ptr_write (p : frame_ptr) (i v : Z) : M mrtu unit :=
  b ← gets (buffer p.1);
  b ← lift (zset b (p.2 + i) (u8 v));
  match p.1 with
  | SndBuf => ucMasterRTUSndBuf ::= b
  | RcvBuf => ucMasterRTURcvBuf ::= b
  end.

(** The bytes from the pointer to the end of its buffer. *)
Definition ptr_bytes (p : frame_ptr) : M mrtu (list Z) :=
  b ← gets (buffer p.1);
  if 0 <=? p.2 then mret (drop (Z.to_nat p.2) b) else lift (Fault FOutOfBounds).

(** [ucMasterRTUSndBuf[i] = v] and the receive buffer's counterpart. *)
Definition snd_set (i v : Z) : M mrtu unit := ptr_write (SndBuf, 0) i v.
Definition rcv_set (i v : Z) : M mrtu unit := ptr_write (RcvBuf, 0) i v.

(** ** mbrtu_m.c *)
Definition vMBMasterSetErrorType (errorType : eMBMasterErrorEventType) : M mrtu unit :=
  eMBMasterCurErrorType ::= errorType.
Definition eMBMasterGetErrorType : M mrtu eMBMasterErrorEventType := gets eMBMasterCurErrorType.

Definition vMBMasterGetRTUSndBuf : frame_ptr := (SndBuf, 0).
Definition vMBMasterGetPDUSndBuf : frame_ptr := (SndBuf, MB_SER_PDU_PDU_OFF).
Definition vMBMasterSetPDUSndLength (SendPDULength : Z) : M mrtu unit :=
  usMasterSendPDULength ::= u16 SendPDULength.
Definition usMBMasterGetPDUSndLength : M mrtu Z := gets usMasterSendPDULength.
Definition xMBMasterRequestIsBroadcast : M mrtu bool := gets xFrameIsBroadcast.

(** Division by the baud rate faults when it is zero. *)
Definition usTimerT35_50us (ulBaudRate : Z) : outcome Z :=
  if ulBaudRate >? 19200 then Ok 35
  else if ulBaudRate =? 0 then Fault FAssert
  else Ok (7 * 220000 / (2 * ulBaudRate)).

Definition eMBMasterRTUInit (open_ok : bool) (ucPort ulBaudRate : Z) (eParity : eMBParity) :
    M mrtu eMBErrorCode :=
  ok ← port (xMBMasterPortSerialInit open_ok ucPort ulBaudRate 8 eParity);
  if negb ok then mret MB_EPORTERR else
  us ← lift (usTimerT35_50us ulBaudRate);
  ok ← port (xMBMasterPortTimersInit (u16 us));
  mret (if negb ok then MB_EPORTERR else MB_ENOERR).

Definition eMBMasterRTUStart : M mrtu unit :=
  eRcvState ::= STATE_M_RX_INIT;;
  port (vMBMasterPortSerialEnable true false);;
  port vMBMasterPortTimersT35Enable.

Definition eMBMasterRTUStop : M mrtu unit :=
  port (vMBMasterPortSerialEnable false false);;
  port vMBMasterPortTimersDisable.

(** On success: the address, the frame pointer and the PDU length. *)
Definition eMBMasterRTUReceive : M mrtu (eMBErrorCode * option (Z * frame_ptr * Z)) :=
  pos ← gets usMasterRcvBufferPos;
  RT_ASSERT (pos <? MB_SER_PDU_SIZE_MAX);;
  rcv ← gets ucMasterRTURcvBuf;
  good ← (if pos >=? MB_SER_PDU_SIZE_MIN then
            crc ← lift (usMBCRC16 rcv pos); mret (crc =? 0)
          else mret false);
  if good : bool then
    addr ← lift (zget rcv MB_SER_PDU_ADDR_OFF);
    mret (MB_ENOERR,
          Some (addr, (RcvBuf, MB_SER_PDU_PDU_OFF), u16 (pos - MB_SER_PDU_PDU_OFF - MB_SER_PDU_SIZE_CRC)))
  else mret (MB_EIO, None).

Definition eMBMasterRTUSend (ucSlaveAddress : Z) (pucFrame : frame_ptr) (usLength : Z) :
    M mrtu eMBErrorCode :=
  if ucSlaveAddress >? MB_MASTER_TOTAL_SLAVE_NUM then mret MB_EINVAL else
  rcv ← gets eRcvState;
  if bool_decide (rcv = STATE_M_RX_IDLE) then
    let cur := (pucFrame.1, pucFrame.2 - 1) in
    pucMasterSndBufferCur ::= Some cur;;
    ptr_write cur MB_SER_PDU_ADDR_OFF ucSlaveAddress;;
    usMasterSndBufferCount ::= u16 (1 + usLength);;
    count ← gets usMasterSndBufferCount;
    frame ← ptr_bytes cur;
    usCRC16 ← lift (usMBCRC16 frame count);
    snd_set count (Z.land usCRC16 0xff);;
    snd_set (u16 (count + 1)) (Z.shiftr usCRC16 8);;
    usMasterSndBufferCount ::= u16 (count + 2);;
    eSndState ::= STATE_M_TX_XMIT;;
    port (vMBMasterPortSerialEnable false true);;
    mret MB_ENOERR
  else mret MB_EIO.

Definition xMBMasterRTUReceiveFSM : M mrtu bool :=
  snd ← gets eSndState;
  RT_ASSERT (bool_decide (snd = STATE_M_TX_IDLE) || bool_decide (snd = STATE_M_TX_XFWR));;
  ucByte ← port xMBMasterPortSerialGetByte;
  rcv ← gets eRcvState;
  match rcv with
  | STATE_M_RX_INIT | STATE_M_RX_ERROR => port vMBMasterPortTimersT35Enable
  | STATE_M_RX_IDLE =>
      port vMBMasterPortTimersDisable;;
      eSndState ::= STATE_M_TX_IDLE;;
      usMasterRcvBufferPos ::= 0;;
      pos ← gets usMasterRcvBufferPos;
      rcv_set pos ucByte;;
      usMasterRcvBufferPos ::= u16 (pos + 1);;
      eRcvState ::= STATE_M_RX_RCV;;
      port vMBMasterPortTimersT35Enable
  | STATE_M_RX_RCV =>
      pos ← gets usMasterRcvBufferPos;
      (if pos <? MB_SER_PDU_SIZE_MAX then
         rcv_set pos ucByte;; usMasterRcvBufferPos ::= u16 (pos + 1)
       else eRcvState ::= STATE_M_RX_ERROR);;
      port vMBMasterPortTimersT35Enable
  end;;
  mret false.

Definition xMBMasterRTUTransmitFSM : M mrtu bool :=
  rcv ← gets eRcvState;
  RT_ASSERT (bool_decide (rcv = STATE_M_RX_IDLE));;
  snd ← gets eSndState;
  match snd with
  | STATE_M_TX_IDLE => port (vMBMasterPortSerialEnable true false)
  | STATE_M_TX_XMIT =>
      count ← gets usMasterSndBufferCount;
      if negb (count =? 0) then
        cur ← gets pucMasterSndBufferCur;
        match cur with
        | None => lift (Fault FNull)
        | Some p =>
            b ← ptr_read p 0;
            port (xMBMasterPortSerialPutByte b);;
            pucMasterSndBufferCur ::= Some (p.1, p.2 + 1);;
            usMasterSndBufferCount ::= u16 (count - 1)
        end
      else
        addr ← ptr_read vMBMasterGetRTUSndBuf MB_SER_PDU_ADDR_OFF;
        xFrameIsBroadcast ::= (addr =? MB_ADDRESS_BROADCAST);;
        port (vMBMasterPortSerialEnable true false);;
        eSndState ::= STATE_M_TX_XFWR;;
        broadcast ← gets xFrameIsBroadcast;
        if broadcast : bool then port vMBMasterPortTimersConvertDelayEnable
        else port vMBMasterPortTimersRespondTimeoutEnable
  | STATE_M_TX_XFWR => skip
  end;;
  mret false.

(** The two switches of the timer function and its last test. *)
Definition expired_receiver : M mrtu bool :=
  rcv ← gets eRcvState;
  match rcv with
  | STATE_M_RX_INIT => port (xMBMasterPortEventPost EV_MASTER_READY)
  | STATE_M_RX_RCV => port (xMBMasterPortEventPost EV_MASTER_FRAME_RECEIVED)
  | STATE_M_RX_ERROR =>
      vMBMasterSetErrorType EV_ERROR_RECEIVE_DATA;;
      port (xMBMasterPortEventPost EV_MASTER_ERROR_PROCESS)
  | STATE_M_RX_IDLE => mret false
  end.

Definition expired_sender (xNeedPoll : bool) : M mrtu bool :=
  snd ← gets eSndState;
  broadcast ← gets xFrameIsBroadcast;
  match snd with
  | STATE_M_TX_XFWR =>
      if negb broadcast then
        vMBMasterSetErrorType EV_ERROR_RESPOND_TIMEOUT;;
        port (xMBMasterPortEventPost EV_MASTER_ERROR_PROCESS)
      else mret xNeedPoll
  | STATE_M_TX_IDLE => mret xNeedPoll
  | STATE_M_TX_XMIT => RT_ASSERT false;; mret xNeedPoll
  end.

Definition expired_mode (xNeedPoll : bool) : M mrtu bool :=
  mode ← gets (fun s => eMasterCurTimerMode (mrtu_port s));
  if bool_decide (mode = MB_TMODE_CONVERT_DELAY)
  then port (xMBMasterPortEventPost EV_MASTER_EXECUTE)
  else mret xNeedPoll.

Definition xMBMasterRTUTimerExpired : M mrtu bool :=
  xNeedPoll ← expired_receiver;
  eRcvState ::= STATE_M_RX_IDLE;;
  xNeedPoll ← expired_sender xNeedPoll;
  eSndState ::= STATE_M_TX_IDLE;;
  port vMBMasterPortTimersDisable;;
  expired_mode xNeedPoll.

(** ** What drives the state machines

    The transmit thread calls the transmit machine while its event is set; the
    receive interrupt calls the receive machine once per byte; the timer calls
    the timer machine when it fires. *)
Definition transmit_step : M mrtu unit := xMBMasterRTUTransmitFSM;; skip.

Definition receive_byte (b : Z) : M mrtu unit :=
  port (with_serial (modify (upd (field := rx_fifo) (fun l => l ++ [b]))));;
  xMBMasterRTUReceiveFSM;;
  skip.

Definition timer_fires : M mrtu unit :=
  port vMBMasterPortTimersDisable;;
  xMBMasterRTUTimerExpired;;
  skip.

(** ** The state machines as functions *)
Ltac rtu_fields :=
  cbv beta delta [upd id];
  cbn [eSndState eRcvState ucMasterRTUSndBuf ucMasterRTURcvBuf usMasterSendPDULength
       pucMasterSndBufferCur usMasterSndBufferCount usMasterRcvBufferPos xFrameIsBroadcast
       eMBMasterCurErrorType mrtu_port buffer fst snd].

(** The port after a call of [vMBMasterPortSerialEnable]. *)
Definition enabled_port (rx tx : bool) (p : mport) : mport :=
  match vMBMasterPortSerialEnable rx tx p with Ok (_, p') => p' | _ => p end.

Lemma enabled_port_ok rx tx p d : serial p = Some d -> serial_waiters_ok p ->
  vMBMasterPortSerialEnable rx tx p = Ok (tt, enabled_port rx tx p) /\
  serial_enabled rx tx d p (enabled_port rx tx p).
Proof.
  intros Hs Hw. destruct (vMBMasterPortSerialEnable_ok rx tx p d Hs Hw) as (p' & E & He).
  unfold enabled_port. by rewrite E.
Qed.
#[global] Opaque enabled_port.

Definition t35_started (p : mport) : mport :=
  timer_started MB_TMODE_T35 (t35_ticks (usT35TimeOut50us p)) p.

(** A received byte. *)
Definition rx_byte (b : Z) (s : mrtu) : mrtu :=
  let s := s <| mrtu_port := t35_started (mrtu_port s) |> in
  match eRcvState s with
  | STATE_M_RX_INIT | STATE_M_RX_ERROR => s
  | STATE_M_RX_IDLE =>
      s <| eSndState := STATE_M_TX_IDLE |>
        <| ucMasterRTURcvBuf := <[0%nat := b]> (ucMasterRTURcvBuf s) |>
        <| usMasterRcvBufferPos := 1 |> <| eRcvState := STATE_M_RX_RCV |>
  | STATE_M_RX_RCV =>
      if usMasterRcvBufferPos s <? MB_SER_PDU_SIZE_MAX then
        s <| ucMasterRTURcvBuf :=
              <[Z.to_nat (usMasterRcvBufferPos s) := b]> (ucMasterRTURcvBuf s) |>
          <| usMasterRcvBufferPos := usMasterRcvBufferPos s + 1 |>
      else s <| eRcvState := STATE_M_RX_ERROR |>
  end.

Lemma serial_push_pop d b : rx_fifo d = [] ->
  (d <| rx_fifo := rx_fifo d ++ [b] |>) <| rx_fifo := [] |> = d.
Proof. destruct d. cbn. by intros ->. Qed.

Lemma serial_same p d : serial p = Some d -> p <| serial := Some d |> = p.
Proof. destruct p. cbn. by intros ->. Qed.

Lemma rcv_set_ok i v s : 0 <= i < Z.of_nat (length (ucMasterRTURcvBuf s)) -> is_byte v ->
  rcv_set i v s = Ok (tt, s <| ucMasterRTURcvBuf := <[Z.to_nat i := v]> (ucMasterRTURcvBuf s) |>).
Proof.
  intros Hi Hv. unfold rcv_set, ptr_write. rewrite run_bind_gets. rtu_fields.
  rewrite zset_ok by (cbn; lia). rewrite u8_id by done. by c_run.
Qed.

Lemma snd_set_ok i v s : 0 <= i < Z.of_nat (length (ucMasterRTUSndBuf s)) ->
  snd_set i v s = Ok (tt, s <| ucMasterRTUSndBuf := <[Z.to_nat i := u8 v]> (ucMasterRTUSndBuf s) |>).
Proof.
  intros Hi. unfold snd_set, ptr_write. rewrite run_bind_gets. rtu_fields.
  rewrite zset_ok by (cbn; lia). by c_run.
Qed.

Lemma receive_byte_eq b s d : is_byte b ->
  eSndState s <> STATE_M_TX_XMIT -> serial (mrtu_port s) = Some d -> rx_fifo d = [] ->
  length (ucMasterRTURcvBuf s) = 256%nat -> 0 <= usMasterRcvBufferPos s <= 256 ->
  receive_byte b s = Ok (tt, rx_byte b s).
Proof.
  intros Hb Hsnd Hser Hfifo Hlen Hpos. unfold receive_byte.
  rewrite (run_bind_zoom _ _ _ _ _ _ (with_serial_ok _ _ _ _ _ Hser eq_refl)).
  set (s1 := s <| mrtu_port := _ |>). unfold xMBMasterRTUReceiveFSM. c_run.
  assert (bool_decide (eSndState s1 = STATE_M_TX_IDLE) || bool_decide (eSndState s1 = STATE_M_TX_XFWR) = true) as ->.
  { change (eSndState s1) with (eSndState s). by destruct (eSndState s). }
  c_run.
  assert (xMBMasterPortSerialGetByte (mrtu_port s1) = Ok (b, mrtu_port s)) as Hget.
  { rewrite (xMBMasterPortSerialGetByte_ok b [] _ (d <| rx_fifo := rx_fifo d ++ [b] |>));
      [|done|by rewrite Hfifo].
    rewrite serial_push_pop by done. do 2 f_equal. destruct (mrtu_port s). cbn in *. by subst. }
  rewrite (run_bind_zoom _ _ _ _ _ _ Hget).
  assert (s1 <| mrtu_port := mrtu_port s |> = s) as -> by (by destruct s).
  clear s1 Hget. c_run. unfold rx_byte. cbn zeta.
  change (eRcvState (s <| mrtu_port := t35_started (mrtu_port s) |>)) with (eRcvState s).
  destruct (eRcvState s) eqn:Ercv; c_run.
  - rewrite (run_bind_zoom _ _ _ _ _ _ (vMBMasterPortTimersT35Enable_ok _)). by c_run.
  - rewrite (run_bind_zoom _ _ _ _ _ _ (vMBMasterPortTimersDisable_ok _)). c_run.
    erewrite run_bind_ok by (apply rcv_set_ok; [cbn; lia|done]). c_run.
    rewrite (run_bind_zoom _ _ _ _ _ _ (vMBMasterPortTimersT35Enable_ok _)). by c_run.
  - rtu_fields. destruct (Z.ltb_spec (usMasterRcvBufferPos s) MB_SER_PDU_SIZE_MAX) as [Hlt|Hge]; c_run.
    + unfold MB_SER_PDU_SIZE_MAX in Hlt. erewrite run_bind_ok by (apply rcv_set_ok; [lia|done]). c_run.
      rewrite (run_bind_zoom _ _ _ _ _ _ (vMBMasterPortTimersT35Enable_ok _)). c_run.
      rewrite u16_small by lia. done.
    + rewrite (run_bind_zoom _ _ _ _ _ _ (vMBMasterPortTimersT35Enable_ok _)). by c_run.
  - rewrite (run_bind_zoom _ _ _ _ _ _ (vMBMasterPortTimersT35Enable_ok _)). by c_run.
Qed.

(** One call of the transmit machine. *)
Definition tx_done (s : mrtu) : mrtu :=
  let broadcast := default 0 (ucMasterRTUSndBuf s !! 0%nat) =? MB_ADDRESS_BROADCAST in
  let p := enabled_port true false (mrtu_port s) in
  s <| xFrameIsBroadcast := broadcast |> <| eSndState := STATE_M_TX_XFWR |>
    <| mrtu_port := if broadcast then timer_started MB_TMODE_CONVERT_DELAY 20 p
                    else timer_started MB_TMODE_RESPOND_TIMEOUT 10 p |>.

Definition tx_byte (d : serial_device) (s : mrtu) : mrtu :=
  match pucMasterSndBufferCur s with
  | None => s
  | Some p =>
      s <| mrtu_port := (mrtu_port s) <| serial :=
            Some (d <| tx_line := tx_line d ++ [default 0 (buffer p.1 s !! Z.to_nat p.2)] |>) |> |>
        <| pucMasterSndBufferCur := Some (p.1, p.2 + 1) |>
        <| usMasterSndBufferCount := usMasterSndBufferCount s - 1 |>
  end.

Lemma transmit_step_byte s d p : eRcvState s = STATE_M_RX_IDLE -> eSndState s = STATE_M_TX_XMIT ->
  serial (mrtu_port s) = Some d -> 0 < usMasterSndBufferCount s < 65536 ->
  pucMasterSndBufferCur s = Some p -> 0 <= p.2 < Z.of_nat (length (buffer p.1 s)) ->
  transmit_step s = Ok (tt, tx_byte d s).
Proof.
  intros Hr Hs Hser Hc Hcur Hp. unfold transmit_step, xMBMasterRTUTransmitFSM. c_run.
  rewrite Hr. rewrite bool_decide_eq_true_2 by done. c_run. rewrite Hs. c_run.
  rewrite (proj2 (Z.eqb_neq _ 0)) by lia. cbn [negb]. c_run. rewrite Hcur. c_run.
  destruct (zget_ok (buffer p.1 s) p.2 Hp) as (b & Hb & Hl).
  unfold ptr_read. c_run. rewrite Z.add_0_r, Hb. c_run.
  rewrite (run_bind_zoom _ _ _ _ _ _ (xMBMasterPortSerialPutByte_ok b _ d Hser)). c_run.
  unfold tx_byte. rewrite Hcur, Hl. cbn [default]. rewrite u16_small by lia. done.
Qed.

Lemma transmit_step_done s d : eRcvState s = STATE_M_RX_IDLE -> eSndState s = STATE_M_TX_XMIT ->
  serial (mrtu_port s) = Some d -> serial_waiters_ok (mrtu_port s) ->
  usMasterSndBufferCount s = 0 -> (0 < length (ucMasterRTUSndBuf s))%nat ->
  transmit_step s = Ok (tt, tx_done s).
Proof.
  intros Hr Hs Hser Hw Hc Hlen. unfold transmit_step, xMBMasterRTUTransmitFSM. c_run.
  rewrite Hr. rewrite bool_decide_eq_true_2 by done. c_run. rewrite Hs. c_run. rewrite Hc. c_run.
  cbn [Z.eqb negb]. unfold ptr_read. c_run.
  destruct (zget_ok (ucMasterRTUSndBuf s) 0 ltac:(lia)) as (b & Hb & Hl).
  change (buffer vMBMasterGetRTUSndBuf.1 s) with (ucMasterRTUSndBuf s).
  change (vMBMasterGetRTUSndBuf.2 + MB_SER_PDU_ADDR_OFF) with 0. rewrite Hb. c_run.
  destruct (enabled_port_ok true false _ d Hser Hw) as [He _].
  set (s1 := s <| xFrameIsBroadcast := _ |>).
  assert (port (vMBMasterPortSerialEnable true false) s1 =
    Ok (tt, s1 <| mrtu_port := enabled_port true false (mrtu_port s) |>)) as E
    by by apply run_zoom.
  rewrite (run_bind_ok _ _ _ _ _ E). c_run.
  unfold tx_done. change (Z.to_nat 0) with 0%nat in Hl. rewrite Hl. cbn [default].
  unfold s1. rtu_fields. by destruct (b =? MB_ADDRESS_BROADCAST).
Qed.

(** The timer fires. *)
Definition post (set : Z) (p : mport) : mport :=
  match send_master_event set p with Ok (_, p') => p' | _ => p end.

Lemma post_ok set p : xMBMasterPortEventPost set p = Ok (true, post set p) /\
  event_posted set p (post set p).
Proof.
  destruct (send_master_event_ok set p) as (p' & E & Hp). unfold post. rewrite E. split; [|done].
  unfold xMBMasterPortEventPost. by rewrite (run_bind_ok _ _ _ _ _ E).
Qed.

Definition timer_off (p : mport) : mport :=
  p <| timer := (timer p) <| timer_active := false |> |>.

Definition expire_rx (s : mrtu) : mrtu :=
  match eRcvState s with
  | STATE_M_RX_INIT => s <| mrtu_port := post EV_MASTER_READY (mrtu_port s) |>
  | STATE_M_RX_RCV => s <| mrtu_port := post EV_MASTER_FRAME_RECEIVED (mrtu_port s) |>
  | STATE_M_RX_ERROR =>
      s <| eMBMasterCurErrorType := EV_ERROR_RECEIVE_DATA |>
        <| mrtu_port := post EV_MASTER_ERROR_PROCESS (mrtu_port s) |>
  | STATE_M_RX_IDLE => s
  end <| eRcvState := STATE_M_RX_IDLE |>.

Definition expire_tx (s : mrtu) : mrtu :=
  (if bool_decide (eSndState s = STATE_M_TX_XFWR) && negb (xFrameIsBroadcast s) then
     s <| eMBMasterCurErrorType := EV_ERROR_RESPOND_TIMEOUT |>
       <| mrtu_port := post EV_MASTER_ERROR_PROCESS (mrtu_port s) |>
   else s) <| eSndState := STATE_M_TX_IDLE |>.

Definition expire_mode (s : mrtu) : mrtu :=
  if bool_decide (eMasterCurTimerMode (mrtu_port s) = MB_TMODE_CONVERT_DELAY)
  then s <| mrtu_port := post EV_MASTER_EXECUTE (mrtu_port s) |> else s.

Definition port_off (s : mrtu) : mrtu := s <| mrtu_port := timer_off (mrtu_port s) |>.

Definition timer_expired (s : mrtu) : mrtu :=
  expire_mode (port_off (expire_tx (expire_rx (port_off s)))).

Lemma run_port_post set s : port (xMBMasterPortEventPost set) s =
  Ok (true, s <| mrtu_port := post set (mrtu_port s) |>).
Proof. apply run_zoom, post_ok. Qed.

Lemma run_port_off s : port vMBMasterPortTimersDisable s = Ok (tt, port_off s).
Proof. done. Qed.

Lemma expired_receiver_ok s : exists n s1, expired_receiver s = Ok (n, s1) /\
  s1 <| eRcvState := STATE_M_RX_IDLE |> = expire_rx s.
Proof.
  unfold expired_receiver, expire_rx, vMBMasterSetErrorType. c_run.
  destruct (eRcvState s); c_run; rewrite ?run_port_post; by eexists _, _.
Qed.

Lemma expired_sender_ok (n : bool) s : eSndState s <> STATE_M_TX_XMIT ->
  exists n1 s1, expired_sender n s = Ok (n1, s1) /\ s1 <| eSndState := STATE_M_TX_IDLE |> = expire_tx s.
Proof.
  intros Hs. unfold expired_sender, expire_tx, vMBMasterSetErrorType. c_run.
  destruct (eSndState s); [|done|].
  - by eexists _, _.
  - rewrite bool_decide_eq_true_2 by done. destruct (xFrameIsBroadcast s); cbn [negb andb]; c_run;
      rewrite ?run_port_post; by eexists _, _.
Qed.

Lemma expired_mode_ok (n : bool) s : exists n1, expired_mode n s = Ok (n1, expire_mode s).
Proof.
  unfold expired_mode, expire_mode. c_run. case_bool_decide; rewrite ?run_port_post; by eexists.
Qed.

Lemma timer_fires_eq s : eSndState s <> STATE_M_TX_XMIT ->
  timer_fires s = Ok (tt, timer_expired s).
Proof.
  intros Hs. unfold timer_fires. rewrite (run_bind_ok _ _ _ _ _ (run_port_off s)).
  unfold timer_expired. assert (eSndState (port_off s) <> STATE_M_TX_XMIT) as Hs0 by done.
  set (s0 := port_off s) in *. clearbody s0. clear s Hs.
  unfold xMBMasterRTUTimerExpired. c_run.
  destruct (expired_receiver_ok s0) as (n & s1 & E1 & H1). rewrite (run_bind_ok _ _ _ _ _ E1). c_run.
  change (upd _ s1) with (s1 <| eRcvState := STATE_M_RX_IDLE |>). rewrite H1.
  assert (eSndState (expire_rx s0) <> STATE_M_TX_XMIT) as Hs1.
  { unfold expire_rx. by destruct (eRcvState s0). }
  destruct (expired_sender_ok n _ Hs1) as (n2 & s2 & E2 & H2). 
  rewrite (run_bind_ok _ _ _ _ _ E2). c_run. change (upd _ s2) with (s2 <| eSndState := STATE_M_TX_IDLE |>).
  rewrite H2. rewrite (run_bind_ok _ _ _ _ _ (run_port_off _)).
  destruct (expired_mode_ok n2 (port_off (expire_tx (expire_rx s0)))) as [n3 E3].
  by rewrite (run_bind_ok _ _ _ _ _ E3).
Qed.

(** ** Sending a frame *)

(** The send buffer once the address and the checksum are in place around the
    PDU of [len] bytes that the upper layer wrote at offset 1. *)
Definition framed (addr len : Z) (buf : list Z) : list Z :=
  let body := take (Z.to_nat (1 + len)) (<[0%nat := addr]> buf) in
  <[Z.to_nat (len + 2) := crc_hi (crc16 0xffff body)]>
    (<[Z.to_nat (len + 1) := crc_lo (crc16 0xffff body)]> (<[0%nat := addr]> buf)).

Definition sending (addr len : Z) (s : mrtu) : mrtu :=
  s <| pucMasterSndBufferCur := Some (SndBuf, 0) |>
    <| ucMasterRTUSndBuf := framed addr len (ucMasterRTUSndBuf s) |>
    <| usMasterSndBufferCount := len + 3 |>
    <| eSndState := STATE_M_TX_XMIT |>
    <| mrtu_port := enabled_port false true (mrtu_port s) |>.

Lemma sending_fields addr len s : let s' := sending addr len s in
  eRcvState s' = eRcvState s /\ eSndState s' = STATE_M_TX_XMIT /\
  ucMasterRTUSndBuf s' = framed addr len (ucMasterRTUSndBuf s) /\
  pucMasterSndBufferCur s' = Some (SndBuf, 0) /\ usMasterSndBufferCount s' = len + 3 /\
  mrtu_port s' = enabled_port false true (mrtu_port s) /\
  ucMasterRTURcvBuf s' = ucMasterRTURcvBuf s /\ usMasterRcvBufferPos s' = usMasterRcvBufferPos s /\
  usMasterSendPDULength s' = usMasterSendPDULength s.
Proof. done. Qed.

Lemma framed_length addr len buf : length (framed addr len buf) = length buf.
Proof. unfold framed. by rewrite !length_insert. Qed.

Lemma framed_bytes addr len buf : is_byte addr -> is_bytes buf -> is_bytes (framed addr len buf).
Proof.
  intros Ha Hb. unfold framed. cbv zeta.
  repeat apply Forall_insert; auto using crc_lo_byte, crc_hi_byte.
Qed.

(** The bytes that will go out: the RTU frame of the PDU. *)
Lemma framed_frame addr len buf : 0 <= len -> len + 3 <= Z.of_nat (length buf) ->
  take (Z.to_nat (len + 3)) (framed addr len buf) =
    rtu_frame addr (take (Z.to_nat len) (drop 1 buf)).
Proof.
  intros Hl Hb. destruct buf as [|x buf]; [cbn in Hb; lia|]. cbn in Hb.
  unfold framed. cbv zeta.
  change (<[0%nat:=addr]> (x :: buf)) with (addr :: buf). cbn [drop].
  rewrite drop_0.
  replace (Z.to_nat (1 + len)) with (S (Z.to_nat len)) by lia. cbn [firstn].
  set (c := crc16 0xffff (addr :: take (Z.to_nat len) buf)).
  assert (take (Z.to_nat (len + 3))
    (<[Z.to_nat (len + 2):=crc_hi c]> (<[Z.to_nat (len + 1):=crc_lo c]> (addr :: buf)))
    = (addr :: take (Z.to_nat len) buf) ++ [crc_lo c; crc_hi c]) as ->; [|done].
  apply list_eq_same_length with (n := S (S (S (Z.to_nat len)))).
  { rewrite length_app. cbn. rewrite length_take. lia. }
  { rewrite length_take, !length_insert. cbn. lia. }
  intros i y z Hi. rewrite lookup_take, decide_True by lia.
  destruct (decide (i = Z.to_nat (len + 2))) as [->|].
  { rewrite list_lookup_insert_eq by (rewrite length_insert; cbn; lia).
    rewrite lookup_app_r by (cbn; rewrite length_take; lia). cbn [length]. rewrite length_take.
    replace (_ - _)%nat with 1%nat by lia. cbn. congruence. }
  rewrite list_lookup_insert_ne by done.
  destruct (decide (i = Z.to_nat (len + 1))) as [->|].
  { rewrite list_lookup_insert_eq by (cbn; lia).
    rewrite lookup_app_r by (cbn; rewrite length_take; lia). cbn [length]. rewrite length_take.
    replace (_ - _)%nat with 0%nat by lia. cbn. congruence. }
  rewrite list_lookup_insert_ne by done. rewrite lookup_app_l by (cbn; rewrite length_take; lia).
  destruct i as [|i]; [cbn; congruence|].
  change ((addr :: buf) !! S i) with (buf !! i).
  change ((addr :: take (Z.to_nat len) buf) !! S i) with (take (Z.to_nat len) buf !! i). rewrite lookup_take, decide_True by lia. congruence.
Qed.

Lemma eMBMasterRTUSend_ok addr len s d : 0 <= addr <= 16 -> 0 <= len <= 250 ->
  eRcvState s = STATE_M_RX_IDLE -> length (ucMasterRTUSndBuf s) = 253%nat ->
  is_bytes (ucMasterRTUSndBuf s) -> serial (mrtu_port s) = Some d -> serial_waiters_ok (mrtu_port s) ->
  eMBMasterRTUSend addr vMBMasterGetPDUSndBuf len s = Ok (MB_ENOERR, sending addr len s).
Proof.
  intros Ha Hl Hr Hlen Hb Hser Hw. unfold eMBMasterRTUSend.
  destruct (Z.gtb_spec addr MB_MASTER_TOTAL_SLAVE_NUM); [unfold MB_MASTER_TOTAL_SLAVE_NUM in *; lia|].
  assert (is_byte addr) as Hab by (unfold is_byte; lia).
  c_run. rewrite Hr, bool_decide_eq_true_2 by done. c_run.
  change (vMBMasterGetPDUSndBuf.1, vMBMasterGetPDUSndBuf.2 - 1) with (SndBuf, 0).
  change (ptr_write (SndBuf, 0)) with snd_set.
  erewrite run_bind_ok by (apply snd_set_ok; cbn; rewrite Hlen; unfold MB_SER_PDU_ADDR_OFF; lia).
  change (Z.to_nat MB_SER_PDU_ADDR_OFF) with 0%nat. rewrite u8_id by done.
  rtu_fields. c_run. rtu_fields. rewrite (u16_small (1 + len)) by lia.
  unfold ptr_bytes. c_run. rtu_fields. change (0 <=? 0) with true. cbv iota. c_run.
  change (Z.to_nat 0) with 0%nat. rewrite drop_0.
  rewrite usMBCRC16_ref; [|by apply Forall_insert|rewrite length_insert, Hlen; lia]. c_run.
  set (body := take (Z.to_nat (1 + len)) _). set (c := crc16 0xffff body).
  erewrite run_bind_ok by (apply snd_set_ok; rtu_fields; rewrite length_insert, Hlen; lia).
  rtu_fields.
  erewrite run_bind_ok by
    (apply snd_set_ok; rtu_fields; rewrite !length_insert, Hlen, u16_small by lia; lia).
  rtu_fields. rewrite !u16_small by lia. c_run. rtu_fields.
  destruct (enabled_port_ok false true _ d Hser Hw) as [He _].
  erewrite run_bind_ok by (apply run_zoom; exact He). c_run.
  unfold sending, framed, crc_lo, crc_hi. rtu_fields. subst c body. cbv zeta.
  replace (1 + len) with (len + 1) by lia. replace (len + 1 + 1) with (len + 2) by lia.
  replace (len + 1 + 2) with (len + 3) by lia. done.
Qed.

(** *** The transmit interrupts put the frame on the line *)
Fixpoint transmit_steps (n : nat) : M mrtu unit :=
  match n with
  | O => skip
  | S n => transmit_step;; transmit_steps n
  end.

Lemma transmit_steps_app n m : forall s s1, transmit_steps n s = Ok (tt, s1) ->
  transmit_steps (n + m) s = transmit_steps m s1.
Proof.
  induction n as [|n IH]; intros s s1 H; cbn in *; [by injection H as <-|].
  unfold mbind, M_bind in H |- *. destruct (transmit_step s) as [[[] s2]| |]; [|done..]. by apply IH.
Qed.

(** [n] bytes from offset [o] of the send buffer have gone out. *)
Definition emitted (d : serial_device) (o : Z) (n : nat) (s : mrtu) : mrtu :=
  s <| mrtu_port := (mrtu_port s) <| serial :=
        Some (d <| tx_line := tx_line d ++ take n (drop (Z.to_nat o) (ucMasterRTUSndBuf s)) |>) |> |>
    <| pucMasterSndBufferCur := Some (SndBuf, o + Z.of_nat n) |>
    <| usMasterSndBufferCount := usMasterSndBufferCount s - Z.of_nat n |>.

Lemma emitted_fields d o n s : let s' := emitted d o n s in
  eRcvState s' = eRcvState s /\ eSndState s' = eSndState s /\
  ucMasterRTUSndBuf s' = ucMasterRTUSndBuf s /\
  usMasterSndBufferCount s' = usMasterSndBufferCount s - Z.of_nat n /\
  serial (mrtu_port s') =
    Some (d <| tx_line := tx_line d ++ take n (drop (Z.to_nat o) (ucMasterRTUSndBuf s)) |>) /\
  (serial_waiters_ok (mrtu_port s) -> serial_waiters_ok (mrtu_port s')) /\
  ucMasterRTURcvBuf s' = ucMasterRTURcvBuf s /\ usMasterRcvBufferPos s' = usMasterRcvBufferPos s /\
  usMasterSendPDULength s' = usMasterSendPDULength s /\ port_rest (mrtu_port s') = port_rest (mrtu_port s).
Proof. done. Qed.

Lemma transmit_steps_bytes n : forall s d o,
  eRcvState s = STATE_M_RX_IDLE -> eSndState s = STATE_M_TX_XMIT ->
  serial (mrtu_port s) = Some d -> pucMasterSndBufferCur s = Some (SndBuf, o) -> 0 <= o ->
  Z.of_nat n <= usMasterSndBufferCount s < 65536 ->
  o + Z.of_nat n <= Z.of_nat (length (ucMasterRTUSndBuf s)) ->
  transmit_steps n s = Ok (tt, emitted d o n s).
Proof.
  induction n as [|n IH]; intros s d o Hr Hs Hser Hcur Ho Hc Hlen.
  - unfold emitted. rewrite app_nil_r, Z.add_0_r, Z.sub_0_r.
    destruct s, mrtu_port0, d. cbn in *. by subst.
  - cbn [transmit_steps].
    rewrite (run_bind_ok _ _ _ _ _ (transmit_step_byte s d (SndBuf, o) Hr Hs Hser ltac:(lia) Hcur ltac:(cbn; lia))).
    unfold tx_byte. rewrite Hcur. rtu_fields.
    destruct (lookup_lt_is_Some_2 (ucMasterRTUSndBuf s) (Z.to_nat o)) as [b Hb]; [lia|].
    rewrite Hb. cbn [default].
    erewrite IH; [|done|done|reflexivity|reflexivity|lia|cbn; lia|cbn; lia].
    unfold emitted. rtu_fields. rewrite (drop_S _ b (Z.to_nat o) Hb). cbn [firstn].
    replace (Z.to_nat (o + 1)) with (S (Z.to_nat o)) by lia.
    cbn [tx_line]. rewrite <- app_assoc. cbn [app].
    do 3 f_equal. { do 2 f_equal. lia. } lia.
Qed.

(** *** The receive interrupts collect a frame *)
Fixpoint receive_bytes (l : list Z) : M mrtu unit :=
  match l with
  | [] => skip
  | b :: l => receive_byte b;; receive_bytes l
  end.

Record rx_ready (s : mrtu) (d : serial_device) : Prop := {
  rr_snd : eSndState s <> STATE_M_TX_XMIT;
  rr_serial : serial (mrtu_port s) = Some d;
  rr_fifo : rx_fifo d = [];
  rr_len : length (ucMasterRTURcvBuf s) = 256%nat;
  rr_pos : 0 <= usMasterRcvBufferPos s <= 256
}.

Lemma rx_byte_ready b s d : rx_ready s d -> rx_ready (rx_byte b s) d.
Proof.
  intros [Hs Hser Hf Hl Hp]. unfold rx_byte. cbv zeta.
  change (eRcvState (s <| mrtu_port := _ |>)) with (eRcvState s).
  destruct (eRcvState s); [by split| | |by split].
  - split; cbn; [done|done|done|by rewrite length_insert|lia].
  - rtu_fields. destruct (Z.ltb_spec (usMasterRcvBufferPos s) MB_SER_PDU_SIZE_MAX) as [H|H];
      unfold MB_SER_PDU_SIZE_MAX in H; [|by split].
    split; cbn; [done|done|done|by rewrite length_insert|lia].
Qed.

Lemma receive_bytes_eq l : forall s d, is_bytes l -> rx_ready s d ->
  receive_bytes l s = Ok (tt, foldl (flip rx_byte) s l) /\ rx_ready (foldl (flip rx_byte) s l) d.
Proof.
  induction l as [|b l IH]; intros s d Hb Hr; [done|]. apply Forall_cons in Hb as [Hb Hl].
  cbn [receive_bytes foldl]. pose proof Hr as [].
  rewrite (run_bind_ok _ _ _ _ _ (receive_byte_eq b s d Hb rr_snd0 rr_serial0 rr_fifo0 rr_len0 rr_pos0)).
  apply IH; [done|]. by apply rx_byte_ready.
Qed.

(** A partly received frame [l]. *)
Record receiving (l : list Z) (s : mrtu) : Prop := {
  rv_state : eRcvState s = STATE_M_RX_RCV;
  rv_pos : usMasterRcvBufferPos s = Z.of_nat (length l);
  rv_data : take (length l) (ucMasterRTURcvBuf s) = l;
  rv_armed : timer_active (timer (mrtu_port s)) = true;
  rv_mode : eMasterCurTimerMode (mrtu_port s) = MB_TMODE_T35;
  rv_snd : eSndState s = STATE_M_TX_IDLE
}.

Lemma rx_byte_first b s : eRcvState s = STATE_M_RX_IDLE -> length (ucMasterRTURcvBuf s) = 256%nat ->
  receiving [b] (rx_byte b s).
Proof.
  intros Hr Hl. unfold rx_byte. cbv zeta.
  change (eRcvState (s <| mrtu_port := _ |>)) with (eRcvState s). rewrite Hr.
  split; cbn; try done. by destruct (ucMasterRTURcvBuf s).
Qed.

Lemma rx_byte_next l b s : receiving l s -> (length l < 256)%nat ->
  length (ucMasterRTURcvBuf s) = 256%nat -> receiving (l ++ [b]) (rx_byte b s).
Proof.
  intros [Hr Hp Hd Ha Hm Hs] Hl Hlen. unfold rx_byte. cbv zeta.
  change (eRcvState (s <| mrtu_port := _ |>)) with (eRcvState s). rewrite Hr.
  change (usMasterRcvBufferPos (s <| mrtu_port := _ |>)) with (usMasterRcvBufferPos s).
  rewrite (proj2 (Z.ltb_lt _ _)) by (unfold MB_SER_PDU_SIZE_MAX; lia).
  rewrite Hp, Nat2Z.id. split; cbn; try done.
  - rewrite length_app. cbn. lia.
  - rewrite length_app. cbn. rewrite Nat.add_1_r.
    rewrite (take_S_r _ _ b) by (apply list_lookup_insert_eq; lia).
    rewrite take_insert_ge by lia. by rewrite Hd.
Qed.

Lemma rx_byte_overflow l b s : receiving l s -> length l = 256%nat ->
  eRcvState (rx_byte b s) = STATE_M_RX_ERROR.
Proof.
  intros [Hr Hp _ _ _ _] Hl. unfold rx_byte. cbv zeta.
  change (eRcvState (s <| mrtu_port := _ |>)) with (eRcvState s). rewrite Hr.
  change (usMasterRcvBufferPos (s <| mrtu_port := _ |>)) with (usMasterRcvBufferPos s).
  by rewrite Hp, Hl.
Qed.

Lemma rx_byte_error b s : eRcvState s = STATE_M_RX_ERROR -> eRcvState (rx_byte b s) = STATE_M_RX_ERROR.
Proof.
  intros Hr. unfold rx_byte. cbv zeta.
  change (eRcvState (s <| mrtu_port := _ |>)) with (eRcvState s). by rewrite Hr.
Qed.

Lemma rx_frame l : forall s d l0, rx_ready s d -> receiving l0 s -> (length l0 <= 256)%nat ->
  if decide (length l0 + length l <= 256)%nat then receiving (l0 ++ l) (foldl (flip rx_byte) s l)
  else eRcvState (foldl (flip rx_byte) s l) = STATE_M_RX_ERROR.
Proof.
  induction l as [|b l IH]; intros s d l0 Hr Hv Hl0; cbn [foldl].
  - rewrite decide_True by (cbn; lia). by rewrite app_nil_r.
  - unfold flip at 2 4. destruct (decide (length l0 = 256)%nat) as [Hfull|Hroom].
    + rewrite decide_False by (cbn; lia).
      assert (forall k s1, eRcvState s1 = STATE_M_RX_ERROR ->
        eRcvState (foldl (flip rx_byte) s1 k) = STATE_M_RX_ERROR) as Herr.
      { induction k as [|x k IHk]; intros s1 H1; [done|]. cbn. by apply IHk, rx_byte_error. }
      by apply Herr, (rx_byte_overflow l0).
    + specialize (IH (rx_byte b s) d (l0 ++ [b]) (rx_byte_ready b s d Hr)).
      rewrite <- app_assoc, length_app in IH. cbn [app length] in IH |- *.
      replace (length l0 + 1 + length l)%nat with (length l0 + S (length l))%nat in IH by lia.
      apply IH; [|lia]. apply rx_byte_next; [done|lia|apply Hr].
Qed.

(** A whole frame received from the idle state. *)
Lemma rx_whole_frame f s d : rx_ready s d -> eRcvState s = STATE_M_RX_IDLE -> f <> [] ->
  if decide (length f <= 256)%nat then receiving f (foldl (flip rx_byte) s f)
  else eRcvState (foldl (flip rx_byte) s f) = STATE_M_RX_ERROR.
Proof.
  intros Hr Hi Hf. destruct f as [|b f]; [done|]. cbn [foldl].
  apply (rx_frame f (rx_byte b s) d [b]); [by apply rx_byte_ready| |cbn; lia].
  apply rx_byte_first; [done|apply Hr].
Qed.

(** The check of a received frame. *)
Lemma eMBMasterRTUReceive_ok f s : is_bytes (ucMasterRTURcvBuf s) ->
  usMasterRcvBufferPos s = Z.of_nat (length f) -> take (length f) (ucMasterRTURcvBuf s) = f ->
  (length f < 256)%nat -> length (ucMasterRTURcvBuf s) = 256%nat ->
  eMBMasterRTUReceive s =
    Ok ((if bool_decide (4 <= length f)%nat && (crc16 0xffff f =? 0)
         then (MB_ENOERR, Some (default 0 (head f), (RcvBuf, 1), Z.of_nat (length f) - 3))
         else (MB_EIO, None)), s).
Proof.
  intros Hb Hp Hd Hf Hl. unfold eMBMasterRTUReceive. c_run. rewrite Hp.
  rewrite (proj2 (Z.ltb_lt _ _)) by (unfold MB_SER_PDU_SIZE_MAX; lia). c_run.
  rewrite Z.geb_leb. unfold MB_SER_PDU_SIZE_MIN.
  destruct (Z.leb_spec 4 (Z.of_nat (length f))) as [H4|H4].
  - rewrite usMBCRC16_ref by (done || lia). rewrite Nat2Z.id, Hd. c_run.
    rewrite bool_decide_eq_true_2 by lia. cbn [andb]. destruct (crc16 65535 f =? 0); c_run; [|done].
    destruct f as [|b f]; [cbn in H4; lia|]. destruct (ucMasterRTURcvBuf s) as [|b' l]; [done|].
    cbn in Hd. injection Hd as -> _.
    change (zget (b :: l) MB_SER_PDU_ADDR_OFF) with (@Ok Z b). c_run.
    unfold MB_SER_PDU_PDU_OFF, MB_SER_PDU_SIZE_CRC. rewrite u16_small by lia.
    do 5 f_equal. lia.
  - rewrite bool_decide_eq_false_2 by lia. cbn [andb]. by c_run.
Qed.

(** ** The invariant of the three state machines *)
Record rtu_inv (s : mrtu) : Prop := {
  ri_snd_len : length (ucMasterRTUSndBuf s) = 253%nat;
  ri_snd_bytes : is_bytes (ucMasterRTUSndBuf s);
  ri_rcv_len : length (ucMasterRTURcvBuf s) = 256%nat;
  ri_rcv_bytes : is_bytes (ucMasterRTURcvBuf s);
  ri_pos : 0 <= usMasterRcvBufferPos s <= 256;
  ri_waiters : serial_waiters_ok (mrtu_port s);
  ri_serial : exists d, serial (mrtu_port s) = Some d /\ rx_fifo d = [] /\
    (eSndState s = STATE_M_TX_XMIT -> rx_int d = false);
  ri_pending : transmit_pending (mrtu_port s) = true -> eSndState s = STATE_M_TX_XMIT;
  ri_xmit : eSndState s = STATE_M_TX_XMIT ->
    eRcvState s = STATE_M_RX_IDLE /\ timer_active (timer (mrtu_port s)) = false /\
    transmit_pending (mrtu_port s) = true /\
    exists o, pucMasterSndBufferCur s = Some (SndBuf, o) /\ 0 <= o /\
      0 <= usMasterSndBufferCount s /\ o + usMasterSndBufferCount s <= 253;
  ri_armed : timer_active (timer (mrtu_port s)) = true <->
    eRcvState s <> STATE_M_RX_IDLE \/ eSndState s = STATE_M_TX_XFWR
}.

(** The state in which [eMBMasterEnable] starts the transport. *)
Definition rtu_stopped (s : mrtu) : Prop :=
  length (ucMasterRTUSndBuf s) = 253%nat /\ is_bytes (ucMasterRTUSndBuf s) /\
  length (ucMasterRTURcvBuf s) = 256%nat /\ is_bytes (ucMasterRTURcvBuf s) /\
  0 <= usMasterRcvBufferPos s <= 256 /\ serial_waiters_ok (mrtu_port s) /\
  (exists d, serial (mrtu_port s) = Some d /\ rx_fifo d = []) /\
  eSndState s <> STATE_M_TX_XMIT.

(** Interrupts, the transmit thread and the upper layer, in any order.  The
    receive interrupt is off while the port is switched to transmission; the
    upper layer (which serialises requests by its semaphore) sends only when no
    exchange is in progress, at most 250 bytes from its place in the send buffer,
    and does not look at a frame that fills the receive buffer. *)
Inductive rtu_step : mrtu -> mrtu -> Prop :=
  | rtu_transmit s s' : transmit_pending (mrtu_port s) = true ->
      transmit_step s = Ok (tt, s') -> rtu_step s s'
  | rtu_byte s s' d b : serial (mrtu_port s) = Some d -> rx_int d = true -> is_byte b ->
      receive_byte b s = Ok (tt, s') -> rtu_step s s'
  | rtu_timer s s' : timer_active (timer (mrtu_port s)) = true ->
      timer_fires s = Ok (tt, s') -> rtu_step s s'
  | rtu_send s s' addr len e : eSndState s = STATE_M_TX_IDLE -> 0 <= addr -> 0 <= len <= 250 ->
      eMBMasterRTUSend addr vMBMasterGetPDUSndBuf len s = Ok (e, s') -> rtu_step s s'
  | rtu_receive s s' r : usMasterRcvBufferPos s < 256 ->
      eMBMasterRTUReceive s = Ok (r, s') -> rtu_step s s'
  | rtu_write s s' i v : 0 <= i < 253 -> snd_set i v s = Ok (tt, s') -> rtu_step s s'.

Inductive rtu_reachable : mrtu -> Prop :=
  | rtu_reach_start s s' : rtu_stopped s -> eMBMasterRTUStart s = Ok (tt, s') -> rtu_reachable s'
  | rtu_reach_step s s' : rtu_reachable s -> rtu_step s s' -> rtu_reachable s'.

(** Every step that the state enables can be taken: nothing faults. *)
Definition rtu_progress (s : mrtu) : Prop :=
  (transmit_pending (mrtu_port s) = true -> exists s', transmit_step s = Ok (tt, s')) /\
  (forall d b, serial (mrtu_port s) = Some d -> rx_int d = true -> is_byte b ->
     exists s', receive_byte b s = Ok (tt, s')) /\
  (timer_active (timer (mrtu_port s)) = true -> exists s', timer_fires s = Ok (tt, s')) /\
  (forall addr len, eSndState s = STATE_M_TX_IDLE -> 0 <= addr -> 0 <= len <= 250 ->
     exists e s', eMBMasterRTUSend addr vMBMasterGetPDUSndBuf len s = Ok (e, s')) /\
  (usMasterRcvBufferPos s < 256 -> exists r s', eMBMasterRTUReceive s = Ok (r, s')).

Lemma posted_frame set p p' : event_posted set p p' ->
  serial p' = serial p /\ timer p' = timer p /\ event_serial p' = event_serial p /\
  eMasterCurTimerMode p' = eMasterCurTimerMode p /\ usT35TimeOut50us p' = usT35TimeOut50us p.
Proof. intros [_ _ _ (? & ? & ? & ? & ? & ?)]. done. Qed.

Lemma rtu_start_inv s s' : rtu_stopped s -> eMBMasterRTUStart s = Ok (tt, s') -> rtu_inv s'.
Proof.
  intros (Hl1 & Hb1 & Hl2 & Hb2 & Hp & Hw & (d & Hser & Hf) & Hx). unfold eMBMasterRTUStart. c_run.
  destruct (enabled_port_ok true false _ d Hser Hw) as [He [Es Ep Ew Er]].
  erewrite run_bind_ok by (apply run_zoom; exact He).
  rewrite (run_zoom _ _ _ _ _ (vMBMasterPortTimersT35Enable_ok _)). intros [= <-].
  split; rtu_fields; try done.
  - exists (d <| rx_int := true |>). rewrite <- Es. done.
  - intros Hpend. change (transmit_pending (enabled_port true false (mrtu_port s)) = true) in Hpend.
    congruence.
  - split; [intros _; by left|done].
Qed.

Lemma rtu_inv_rx_ready s d : rtu_inv s -> serial (mrtu_port s) = Some d -> rx_int d = true -> rx_ready s d.
Proof.
  intros [] Hser Hint. destruct ri_serial0 as (d' & Hser' & Hf & Hx). replace d' with d in * by congruence.
  split; try done. intros Hs. rewrite Hx in Hint by done. done.
Qed.

Lemma rtu_byte_inv s d b : rtu_inv s -> serial (mrtu_port s) = Some d -> rx_int d = true -> is_byte b ->
  receive_byte b s = Ok (tt, rx_byte b s) /\ rtu_inv (rx_byte b s).
Proof.
  intros Hi Hser Hint Hb. pose proof (rtu_inv_rx_ready s d Hi Hser Hint) as Hr.
  destruct Hr as [Hs Hser' Hf Hl Hp]. split; [by eapply receive_byte_eq|]. destruct Hi.
  assert (transmit_pending (mrtu_port s) = true -> False) as Hnp by (intros H; by apply Hs, ri_pending0).
  unfold rx_byte. cbv zeta. change (eRcvState (s <| mrtu_port := _ |>)) with (eRcvState s).
  change (usMasterRcvBufferPos (s <| mrtu_port := _ |>)) with (usMasterRcvBufferPos s).
  destruct (eRcvState s) eqn:Er; [| |destruct (Z.ltb_spec (usMasterRcvBufferPos s) MB_SER_PDU_SIZE_MAX) as [H|H];
    unfold MB_SER_PDU_SIZE_MAX in H|].
  all: split; cbn; rewrite ?length_insert; try done; try lia; try (by apply Forall_insert);
    try (intros Hpend; by destruct (Hnp Hpend)).
  all: try (split; [intros _; left; congruence|done]).
  all: eexists; split; [exact Hser|]; split; [done|by intros].
Qed.

Lemma rtu_transmit_inv s : rtu_inv s -> transmit_pending (mrtu_port s) = true ->
  exists s', transmit_step s = Ok (tt, s') /\ rtu_inv s'.
Proof.
  intros [] Hpend. pose proof (ri_pending0 Hpend) as Hs.
  destruct (ri_xmit0 Hs) as (Hr & Ht & _ & o & Hcur & Ho & Hc0 & Hc).
  destruct ri_serial0 as (d & Hser & Hf & Hint).
  destruct (decide (usMasterSndBufferCount s = 0)) as [Hz|Hnz].
  - eexists. split; [eapply transmit_step_done; try done; lia|].
    destruct (enabled_port_ok true false _ d Hser ri_waiters0) as [_ [Es Ep Ew Er]].
    unfold tx_done. split; rtu_fields; try done.
    + by destruct (_ =? _).
    + exists (d <| rx_int := true |>). destruct (_ =? _); rewrite <- Es; done.
    + intros Hp. assert (transmit_pending (enabled_port true false (mrtu_port s)) = true) as Hp'
        by (destruct (_ =? _); exact Hp). congruence.
    + destruct (_ =? _); (split; [intros _; by right|done]).
  - eexists. split; [eapply (transmit_step_byte s d (SndBuf, o)); try done; cbn; lia|].
    unfold tx_byte. rewrite Hcur. split; rtu_fields; try done.
    + eexists. split; [reflexivity|]. split; [done|]. intros. cbn. by apply Hint.
    + intros _. split; [done|]. split; [done|]. split; [done|]. exists (o + 1). split; [done|]. lia.
Qed.

(** What the timer leaves of the fields the invariant speaks of. *)
Definition port_same (p p' : mport) : Prop :=
  serial p' = serial p /\ event_serial p' = event_serial p /\ timer p' = timer p.

Lemma post_same set p : port_same p (post set p).
Proof. destruct (post_ok set p) as [_ H]. apply posted_frame in H as (? & ? & ? & _). done. Qed.

Lemma timer_expired_frame s :
  ucMasterRTUSndBuf (timer_expired s) = ucMasterRTUSndBuf s /\
  ucMasterRTURcvBuf (timer_expired s) = ucMasterRTURcvBuf s /\
  usMasterRcvBufferPos (timer_expired s) = usMasterRcvBufferPos s /\
  eRcvState (timer_expired s) = STATE_M_RX_IDLE /\ eSndState (timer_expired s) = STATE_M_TX_IDLE /\
  serial (mrtu_port (timer_expired s)) = serial (mrtu_port s) /\
  event_serial (mrtu_port (timer_expired s)) = event_serial (mrtu_port s) /\
  timer_active (timer (mrtu_port (timer_expired s))) = false.
Proof.
  assert (forall u, ucMasterRTUSndBuf (expire_rx u) = ucMasterRTUSndBuf u /\
    ucMasterRTURcvBuf (expire_rx u) = ucMasterRTURcvBuf u /\
    usMasterRcvBufferPos (expire_rx u) = usMasterRcvBufferPos u /\
    eRcvState (expire_rx u) = STATE_M_RX_IDLE /\ eSndState (expire_rx u) = eSndState u /\
    port_same (mrtu_port u) (mrtu_port (expire_rx u))) as H1.
  { intros u. unfold expire_rx. destruct (eRcvState u); split_and!; try done; apply post_same. }
  assert (forall u, ucMasterRTUSndBuf (expire_tx u) = ucMasterRTUSndBuf u /\
    ucMasterRTURcvBuf (expire_tx u) = ucMasterRTURcvBuf u /\
    usMasterRcvBufferPos (expire_tx u) = usMasterRcvBufferPos u /\
    eRcvState (expire_tx u) = eRcvState u /\ eSndState (expire_tx u) = STATE_M_TX_IDLE /\
    port_same (mrtu_port u) (mrtu_port (expire_tx u))) as H2.
  { intros u. unfold expire_tx. destruct (_ && _); split_and!; try done; apply post_same. }
  assert (forall u, ucMasterRTUSndBuf (expire_mode u) = ucMasterRTUSndBuf u /\
    ucMasterRTURcvBuf (expire_mode u) = ucMasterRTURcvBuf u /\
    usMasterRcvBufferPos (expire_mode u) = usMasterRcvBufferPos u /\
    eRcvState (expire_mode u) = eRcvState u /\ eSndState (expire_mode u) = eSndState u /\
    port_same (mrtu_port u) (mrtu_port (expire_mode u))) as H3.
  { intros u. unfold expire_mode. case_bool_decide; split_and!; try done; apply post_same. }
  unfold timer_expired. set (a := port_off s). set (b := expire_rx a). set (c := expire_tx b).
  destruct (H3 (port_off c)) as (E1 & E2 & E3 & E4 & E5 & E6 & E7 & E8).
  destruct (H2 b) as (F1 & F2 & F3 & F4 & F5 & F6 & F7 & _).
  destruct (H1 a) as (G1 & G2 & G3 & G4 & G5 & G6 & G7 & _). fold b in G1, G2, G3, G4, G5, G6, G7.
  fold c in F1, F2, F3, F4, F5, F6, F7. unfold port_off in E1, E2, E3, E4, E5, E6, E7.
  cbn in E1, E2, E3, E4, E5, E6, E7. unfold port_off.
  split_and!; [etrans; eauto; etrans; eauto; congruence..|]. unfold port_off in E8. by rewrite E8.
Qed.

Lemma rtu_timer_inv s : rtu_inv s -> timer_active (timer (mrtu_port s)) = true ->
  timer_fires s = Ok (tt, timer_expired s) /\ rtu_inv (timer_expired s).
Proof.
  intros [] Ht.
  assert (eSndState s <> STATE_M_TX_XMIT) as Hs.
  { intros Hs. destruct (ri_xmit0 Hs) as (_ & Hoff & _). congruence. }
  split; [by apply timer_fires_eq|].
  destruct (timer_expired_frame s) as (E1 & E2 & E3 & E4 & E5 & E6 & E7 & E8).
  split; rewrite ?E1, ?E2, ?E3, ?E4, ?E5, ?E8; try done.
  - unfold serial_waiters_ok. by rewrite E7.
  - rewrite E6. destruct ri_serial0 as (d & ? & ? & _). by exists d.
  - unfold transmit_pending in *. rewrite E7. intros Hp. by destruct (Hs (ri_pending0 Hp)).
  - split; [done|]. by intros [?|?].
Qed.

Lemma rtu_send_inv s addr len : rtu_inv s -> eSndState s = STATE_M_TX_IDLE -> 0 <= addr -> 0 <= len <= 250 ->
  exists e s', eMBMasterRTUSend addr vMBMasterGetPDUSndBuf len s = Ok (e, s') /\ rtu_inv s'.
Proof.
  intros Hi Hs Ha Hl. pose proof Hi as []. destruct (decide (addr <= 16)) as [Ha16|Ha16].
  2: { exists MB_EINVAL, s. unfold eMBMasterRTUSend.
       destruct (Z.gtb_spec addr MB_MASTER_TOTAL_SLAVE_NUM); [done|unfold MB_MASTER_TOTAL_SLAVE_NUM in *; lia]. }
  destruct (decide (eRcvState s = STATE_M_RX_IDLE)) as [Hr|Hr].
  2: { exists MB_EIO, s. unfold eMBMasterRTUSend.
       destruct (Z.gtb_spec addr MB_MASTER_TOTAL_SLAVE_NUM); [unfold MB_MASTER_TOTAL_SLAVE_NUM in *; lia|].
       c_run. by rewrite bool_decide_eq_false_2. }
  destruct ri_serial0 as (d & Hser & Hf & Hint).
  exists MB_ENOERR, (sending addr len s). split; [by apply (eMBMasterRTUSend_ok addr len s d)|].
  destruct (enabled_port_ok false true _ d Hser ri_waiters0) as [_ [Es Ep Ew Er]].
  assert (timer_active (timer (mrtu_port s)) = false) as Hoff.
  { apply not_true_is_false. intros [?|?]%ri_armed0; congruence. }
  assert (timer (enabled_port false true (mrtu_port s)) = timer (mrtu_port s)) as Etm by by injection Er.
  destruct (sending_fields addr len s) as (F1 & F2 & F3 & F4 & F5 & F6 & F7 & F8 & _).
  set (s1 := sending addr len s) in *. clearbody s1.
  split; rewrite ?F1, ?F2, ?F3, ?F4, ?F5, ?F6, ?F7, ?F8, ?framed_length, ?Etm; try done.
  - apply framed_bytes; [unfold is_byte; lia|done].
  - by exists (d <| rx_int := false |>).
  - intros _. split_and!; try done. exists 0. split; [done|]. lia.
  - rewrite Hoff. split; [done|]. intros [?|?]; congruence.
Qed.

Lemma rtu_write_inv s i v : rtu_inv s -> 0 <= i < 253 ->
  exists s', snd_set i v s = Ok (tt, s') /\ rtu_inv s'.
Proof.
  intros [] Hi. eexists. split; [apply snd_set_ok; lia|].
  split; rtu_fields; rewrite ?length_insert; try done. apply Forall_insert; [done|apply u8_byte].
Qed.

Lemma rtu_receive_total s : rtu_inv s -> usMasterRcvBufferPos s < 256 ->
  exists r, eMBMasterRTUReceive s = Ok (r, s).
Proof.
  intros [] Hp. eexists.
  apply (eMBMasterRTUReceive_ok (take (Z.to_nat (usMasterRcvBufferPos s)) (ucMasterRTURcvBuf s)));
    rewrite ?length_take, ?ri_rcv_len0, ?Nat.min_l by lia; try done; lia.
Qed.

Lemma rtu_step_inv s s' : rtu_inv s -> rtu_step s s' -> rtu_inv s'.
Proof.
  intros Hi. destruct 1 as [s s' Hp E|s s' d b Hser Hint Hb E|s s' Ht E|s s' addr len e Hs Ha Hl E|s s' r Hp E|s s' i v Hv E].
  - destruct (rtu_transmit_inv s Hi Hp) as (s1 & E1 & H1). congruence.
  - destruct (rtu_byte_inv s d b Hi Hser Hint Hb) as [E1 H1]. congruence.
  - destruct (rtu_timer_inv s Hi Ht) as [E1 H1]. congruence.
  - destruct (rtu_send_inv s addr len Hi Hs Ha Hl) as (e1 & s1 & E1 & H1). congruence.
  - destruct (rtu_receive_total s Hi Hp) as [r1 E1]. congruence.
  - destruct (rtu_write_inv s i v Hi Hv) as (s1 & E1 & H1). congruence.
Qed.

Lemma rtu_reachable_inv s : rtu_reachable s -> rtu_inv s.
Proof. induction 1; [by eapply rtu_start_inv|by eapply rtu_step_inv]. Qed.

(** ** The properties *)
Lemma rtu_progress_ok s : rtu_inv s -> rtu_progress s.
Proof.
  intros Hi. split_and!.
  - intros Hp. destruct (rtu_transmit_inv s Hi Hp) as (s' & ? & _). by exists s'.
  - intros d b Hser Hint Hb. destruct (rtu_byte_inv s d b Hi Hser Hint Hb) as [? _]. by eexists.
  - intros Ht. destruct (rtu_timer_inv s Hi Ht) as [? _]. by eexists.
  - intros addr len Hs Ha Hl. destruct (rtu_send_inv s addr len Hi Hs Ha Hl) as (e & s' & ? & _).
    by exists e, s'.
  - intros Hp. destruct (rtu_receive_total s Hi Hp) as [r ?]. by exists r, s.
Qed.

Lemma receive_bytes_inv l : forall s d, rtu_inv s -> serial (mrtu_port s) = Some d ->
  rx_int d = true -> is_bytes l ->
  rtu_inv (foldl (flip rx_byte) s l) /\ serial (mrtu_port (foldl (flip rx_byte) s l)) = Some d.
Proof.
  induction l as [|b l IH]; intros s d Hi Hser Hint Hb; [done|]. apply Forall_cons in Hb as [Hb Hl].
  cbn [foldl]. destruct (rtu_byte_inv s d b Hi Hser Hint Hb) as [_ Hi'].
  apply IH; try done. unfold flip, rx_byte. cbv zeta.
  destruct (eRcvState _); [done..|by destruct (_ <? _)|done].
Qed.

(** *** A whole transmission *)
Record transmitted (s : mrtu) (d : serial_device) (addr len : Z) (s2 : mrtu) : Prop := {
  tr_serial : serial (mrtu_port s2) = Some (d <| rx_int := true |> <| tx_line := tx_line d ++
    rtu_frame addr (take (Z.to_nat len) (drop 1 (ucMasterRTUSndBuf s))) |>);
  tr_snd : eSndState s2 = STATE_M_TX_XFWR;
  tr_rcv : eRcvState s2 = STATE_M_RX_IDLE;
  tr_pending : transmit_pending (mrtu_port s2) = false;
  tr_broadcast : xFrameIsBroadcast s2 = (addr =? 0);
  tr_timer : timer (mrtu_port s2) = MkTimer (if addr =? 0 then 20 else 10) true;
  tr_mode : eMasterCurTimerMode (mrtu_port s2) =
    (if addr =? 0 then MB_TMODE_CONVERT_DELAY else MB_TMODE_RESPOND_TIMEOUT);
  tr_buf : ucMasterRTUSndBuf s2 = framed addr len (ucMasterRTUSndBuf s);
  tr_rcv_buf : ucMasterRTURcvBuf s2 = ucMasterRTURcvBuf s;
  tr_pos : usMasterRcvBufferPos s2 = usMasterRcvBufferPos s;
  tr_pdu_length : usMasterSendPDULength s2 = usMasterSendPDULength s;
  tr_waiters : serial_waiters_ok (mrtu_port s2);
  tr_rest : xMasterRunRes (mrtu_port s2) = xMasterRunRes (mrtu_port s) /\
    xMasterOsEvent (mrtu_port s2) = xMasterOsEvent (mrtu_port s) /\
    usT35TimeOut50us (mrtu_port s2) = usT35TimeOut50us (mrtu_port s)
}.

Lemma transmit_frame_ok s d addr len : rtu_inv s -> serial (mrtu_port s) = Some d ->
  eRcvState s = STATE_M_RX_IDLE -> 0 <= addr <= 16 -> 0 <= len <= 250 ->
  exists s2, transmit_steps (Z.to_nat len + 4) (sending addr len s) = Ok (tt, s2) /\
    transmitted s d addr len s2.
Proof.
  intros Hi Hser Hr Ha Hl. destruct Hi.
  destruct (enabled_port_ok false true _ d Hser ri_waiters0) as [_ [Es Ep Ew Er]].
  destruct (sending_fields addr len s) as (Fr & Fs & Fb & Fc & Fn & Fp & Frb & Fpos & Flen).
  set (s1 := sending addr len s) in *. clearbody s1. rewrite <- Fp in Es, Ep, Ew, Er.
  rewrite Hr in Fr.
  set (d1 := d <| rx_int := false |>) in *.
  assert (transmit_steps (Z.to_nat len + 3) s1 = Ok (tt, emitted d1 0 (Z.to_nat len + 3) s1)) as E2.
  { apply transmit_steps_bytes; try done; [lia|]. rewrite Fb, framed_length. lia. }
  destruct (emitted_fields d1 0 (Z.to_nat len + 3) s1) as (Gr & Gs & Gb & Gc & Gser & Gw & Grest).
  set (s2 := emitted d1 0 (Z.to_nat len + 3) s1) in *. clearbody s2.
  set (d2 := d1 <| tx_line := _ |>) in Gser.
  apply Gw in Ew. rewrite Fr in Gr. rewrite Fs in Gs. rewrite Fb in Gb.
  assert (transmit_step s2 = Ok (tt, tx_done s2)) as E3.
  { apply (transmit_step_done _ d2); try done; [lia|]. rewrite Gb, framed_length. lia. }
  assert (default 0 (ucMasterRTUSndBuf s2 !! 0%nat) = addr) as Eaddr.
  { rewrite Gb. unfold framed. cbv zeta. rewrite !list_lookup_insert_ne by lia.
    rewrite list_lookup_insert_eq by lia. done. }
  destruct (enabled_port_ok true false (mrtu_port s2) d2 Gser Ew) as [_ [Hs2 Hp2 Hw2 Hr2]].
  exists (tx_done s2). split.
  { replace (Z.to_nat len + 4)%nat with (Z.to_nat len + 3 + 1)%nat by lia.
    rewrite (transmit_steps_app _ _ _ _ E2). cbn [transmit_steps].
    by rewrite (run_bind_ok _ _ _ _ _ E3). }
  assert (tx_line d2 = tx_line d ++
    rtu_frame addr (take (Z.to_nat len) (drop 1 (ucMasterRTUSndBuf s)))) as Eframe.
  { change (tx_line d2) with (tx_line d ++ take (Z.to_nat len + 3) (ucMasterRTUSndBuf s1)).
    rewrite Fb, <- framed_frame by lia. do 2 f_equal. lia. }
  assert (d2 <| rx_int := true |> = d <| rx_int := true |> <| tx_line := tx_line d ++
    rtu_frame addr (take (Z.to_nat len) (drop 1 (ucMasterRTUSndBuf s))) |>) as Ed
    by (rewrite <- Eframe; done).
  rewrite Ed in Hs2. clear Ed Eframe. destruct Grest as (Grb & Gpos & Glen & Gp).
  assert (port_rest (enabled_port true false (mrtu_port s2)) = port_rest (mrtu_port s)) as Hrest
    by (rewrite Hr2, Gp, Er; done).
  unfold port_rest in Hrest. injection Hrest as R1 R2 R3 _ _.
  unfold tx_done. rewrite Eaddr. change MB_ADDRESS_BROADCAST with 0.
  destruct (addr =? 0) eqn:Hz; split; rewrite ?Hz; rtu_fields; port_fields; done || congruence.
Qed.

Lemma transmitted_inv s d addr len s2 : rtu_inv s -> serial (mrtu_port s) = Some d ->
  0 <= addr <= 16 -> transmitted s d addr len s2 -> rtu_inv s2.
Proof.
  intros [] Hser Ha []. destruct ri_serial0 as (d' & Hd' & Hf & _). replace d' with d in * by congruence.
  split; rewrite ?tr_buf0, ?tr_rcv_buf0, ?tr_pos0, ?framed_length, ?tr_timer0, ?tr_snd0, ?tr_rcv0; try done.
  - apply framed_bytes; [unfold is_byte; lia|done].
  - eexists. split; [exact tr_serial0|]. by split.
  - congruence.
  - split; [by right|done].
Qed.

(** *** What receiving bytes and the end of a frame leave alone *)
Record heard (s s1 : mrtu) : Prop := {
  he_snd_buf : ucMasterRTUSndBuf s1 = ucMasterRTUSndBuf s;
  he_broadcast : xFrameIsBroadcast s1 = xFrameIsBroadcast s;
  he_pdu_length : usMasterSendPDULength s1 = usMasterSendPDULength s;
  he_port : xMasterRunRes (mrtu_port s1) = xMasterRunRes (mrtu_port s) /\
    xMasterOsEvent (mrtu_port s1) = xMasterOsEvent (mrtu_port s)
}.

Lemma rx_byte_heard b s : heard s (rx_byte b s).
Proof.
  unfold rx_byte. cbv zeta. destruct (eRcvState _); [done..| |done]. by destruct (_ <? _).
Qed.

Lemma rx_bytes_heard l : forall s, heard s (foldl (flip rx_byte) s l).
Proof.
  induction l as [|b l IH]; intros s; [done|]. cbn [foldl].
  destruct (IH (flip rx_byte s b)) as [? ? ? []], (rx_byte_heard b s) as [? ? ? []].
  unfold flip in *. split; try split; congruence.
Qed.

(** The timer's function posts one event, [set]. *)
Record expired_with (set : Z) (s s1 : mrtu) : Prop := {
  ex_snd_buf : ucMasterRTUSndBuf s1 = ucMasterRTUSndBuf s;
  ex_rcv_buf : ucMasterRTURcvBuf s1 = ucMasterRTURcvBuf s;
  ex_pos : usMasterRcvBufferPos s1 = usMasterRcvBufferPos s;
  ex_states : eRcvState s1 = STATE_M_RX_IDLE /\ eSndState s1 = STATE_M_TX_IDLE;
  ex_broadcast : xFrameIsBroadcast s1 = xFrameIsBroadcast s;
  ex_pdu_length : usMasterSendPDULength s1 = usMasterSendPDULength s;
  ex_port : serial (mrtu_port s1) = serial (mrtu_port s) /\
    xMasterRunRes (mrtu_port s1) = xMasterRunRes (mrtu_port s);
  ex_event : xMasterOsEvent (mrtu_port s1) = (rt_event_send set (xMasterOsEvent (mrtu_port s))).2
}.

(** The end of a frame. *)
Lemma timer_expired_received f s : receiving f s ->
  expired_with EV_MASTER_FRAME_RECEIVED s (timer_expired s).
Proof.
  intros [Hr _ _ _ Hm Hs]. unfold timer_expired.
  assert (expire_rx (port_off s) = (port_off s) <| mrtu_port :=
    post EV_MASTER_FRAME_RECEIVED (mrtu_port (port_off s)) |> <| eRcvState := STATE_M_RX_IDLE |>) as ->.
  { unfold expire_rx. change (eRcvState (port_off s)) with (eRcvState s). by rewrite Hr. }
  destruct (post_ok EV_MASTER_FRAME_RECEIVED (mrtu_port (port_off s)))
    as [_ [_ He _ (_ & Hres & _ & _ & Hmode & Hser)]].
  set (p := post _ _) in *. clearbody p.
  unfold expire_tx. rewrite bool_decide_eq_false_2 by (cbn; congruence). cbn [andb].
  unfold expire_mode. rewrite bool_decide_eq_false_2 by (cbn in *; congruence). by split.
Qed.

(** No answer. *)
Lemma timer_expired_silent s : eRcvState s = STATE_M_RX_IDLE -> eSndState s = STATE_M_TX_XFWR ->
  xFrameIsBroadcast s = false -> eMasterCurTimerMode (mrtu_port s) = MB_TMODE_RESPOND_TIMEOUT ->
  expired_with EV_MASTER_ERROR_PROCESS s (timer_expired s) /\
  eMBMasterCurErrorType (timer_expired s) = EV_ERROR_RESPOND_TIMEOUT.
Proof.
  intros Hr Hs Hb Hm. unfold timer_expired.
  assert (expire_rx (port_off s) = (port_off s) <| eRcvState := STATE_M_RX_IDLE |>) as ->.
  { unfold expire_rx. change (eRcvState (port_off s)) with (eRcvState s). by rewrite Hr. }
  set (s1 := (port_off s) <| _ := _ |>).
  assert (expire_tx s1 = s1 <| eMBMasterCurErrorType := EV_ERROR_RESPOND_TIMEOUT |>
    <| mrtu_port := post EV_MASTER_ERROR_PROCESS (mrtu_port s1) |> <| eSndState := STATE_M_TX_IDLE |>) as ->.
  { unfold expire_tx. change (xFrameIsBroadcast s1) with (xFrameIsBroadcast s).
    rewrite Hb, bool_decide_eq_true_2 by exact Hs. done. }
  destruct (post_ok EV_MASTER_ERROR_PROCESS (mrtu_port s1)) as [_ [_ He _ (_ & Hres & _ & _ & Hmode & Hser)]].
  set (p := post _ _) in *. clearbody p.
  unfold expire_mode. rewrite bool_decide_eq_false_2 by (cbn in *; congruence). by split.
Qed.


(** The transport as [eMBMasterInit] leaves it on UART1 at 9600 baud. *)
Definition example_port : mport :=
  MkMport (rt_sem_init 1 RT_IPC_FLAG_PRIO) (rt_event_init RT_IPC_FLAG_PRIO)
    (rt_event_init RT_IPC_FLAG_PRIO) [] 80 (MkTimer 1 false) MB_TMODE_T35
    (Some (MkSerial 9600 8 1 MB_PAR_NONE [] [] false true)).

Definition example_rtu (pdu : list Z) : mrtu :=
  MkMrtu STATE_M_TX_IDLE STATE_M_RX_INIT ([0] ++ pdu ++ repeat 0 (252 - length pdu)) (repeat 0 256)
    (Z.of_nat (length pdu)) None 0 0 false EV_ERROR_RESPOND_TIMEOUT example_port.

Definition example_started : outcome (unit * mrtu) := eMBMasterRTUStart (example_rtu [3; 0; 0; 0; 1]).

Lemma example_reachable s : example_started = Ok (tt, s) -> rtu_reachable s.
Proof.
  intros E. eapply rtu_reach_start; [|exact E]. split_and!; cbn; try done; try lia.
  - apply (bool_decide_unpack (is_bytes _)). by vm_compute.
  - apply (bool_decide_unpack (is_bytes _)). by vm_compute.
  - constructor.
  - by eexists.
Qed.


(** A send from the idle transport followed by len + 4 transmit interrupts puts exactly the RTU frame of the PDU on the line, that is the address, the PDU bytes the upper layer wrote, and the CRC-16 low byte first, and nothing else; the transmitter then waits for the answer with the receiver switched on and the timer running: 100 ms for a response, 200 ms of delay after a broadcast. *)
Theorem rtu_send_emits_frame s d addr len :
  rtu_reachable s -> serial (mrtu_port s) = Some d ->
  eRcvState s = STATE_M_RX_IDLE -> eSndState s = STATE_M_TX_IDLE ->
  0 <= addr <= 16 -> 0 <= len <= 250 ->
  exists s1 s2 d2,
    eMBMasterRTUSend addr vMBMasterGetPDUSndBuf len s = Ok (MB_ENOERR, s1) /\
    transmit_steps (Z.to_nat len + 4) s1 = Ok (tt, s2) /\
    serial (mrtu_port s2) = Some d2 /\ rx_int d2 = true /\
    tx_line d2 = tx_line d ++ rtu_frame addr (take (Z.to_nat len) (drop 1 (ucMasterRTUSndBuf s))) /\
    eSndState s2 = STATE_M_TX_XFWR /\ eRcvState s2 = STATE_M_RX_IDLE /\
    transmit_pending (mrtu_port s2) = false /\
    xFrameIsBroadcast s2 = (addr =? 0) /\
    timer (mrtu_port s2) = MkTimer (if addr =? 0 then 20 else 10) true /\
    eMasterCurTimerMode (mrtu_port s2) =
      (if addr =? 0 then MB_TMODE_CONVERT_DELAY else MB_TMODE_RESPOND_TIMEOUT).
Proof.
  intros Hi%rtu_reachable_inv Hser Hr Hs Ha Hl.
  destruct (transmit_frame_ok s d addr len Hi Hser Hr Ha Hl) as (s2 & E2 & []). destruct Hi.
  exists (sending addr len s), s2. eexists. split; [by apply (eMBMasterRTUSend_ok addr len s d)|].
  by split_and!.
Qed.

Definition example_idle : outcome (unit * mrtu) := example_started ≫= fun '(_, s) => timer_fires s.

Definition idle_state : mrtu :=
  Eval vm_compute in match example_idle with Ok (_, s) => s | _ => example_rtu [] end.

Definition idle_device : serial_device :=
  Eval vm_compute in default (MkSerial 0 0 0 MB_PAR_NONE [] [] false false) (serial (mrtu_port idle_state)).

Lemma idle_state_eq : example_idle = Ok (tt, idle_state).
Proof. by vm_compute. Qed.

Lemma example_idle_reachable s : example_idle = Ok (tt, s) -> rtu_reachable s.
Proof.
  unfold example_idle. destruct example_started as [[[] s0]| |] eqn:E; [|done..]. cbn [mbind outcome_bind].
  intros E1. eapply rtu_reach_step; [by eapply example_reachable|].
  apply rtu_timer; [|exact E1]. unfold example_started in E. vm_compute in E. by injection E as <-.
Qed.

Lemma rtu_send_emits_frame_witness :
  exists s s1 s2 d2, example_idle = Ok (tt, s) /\
    eMBMasterRTUSend 1 vMBMasterGetPDUSndBuf 5 s = Ok (MB_ENOERR, s1) /\
    transmit_steps (Z.to_nat 5 + 4) s1 = Ok (tt, s2) /\ serial (mrtu_port s2) = Some d2 /\
    tx_line d2 = rtu_frame 1 [3; 0; 0; 0; 1].
Proof.
  exists idle_state.
  destruct (rtu_send_emits_frame idle_state idle_device 1 5
    (example_idle_reachable _ idle_state_eq) eq_refl eq_refl eq_refl ltac:(lia) ltac:(lia))
    as (s1 & s2 & d2 & H1 & H2 & H3 & _ & H4 & _).
  exists s1, s2, d2. split_and!; [exact idle_state_eq|exact H1|exact H2|exact H3|].
  rewrite H4. change (tx_line idle_device) with (@nil Z). cbn [app].
  by replace (take (Z.to_nat 5) (drop 1 (ucMasterRTUSndBuf idle_state))) with [3; 0; 0; 0; 1]
    by (vm_compute; reflexivity).
Defined.

(** The bytes that arrive on an idle line are collected unchanged and in order, with the 3.5-character timer restarted by each: up to 256 bytes they are the start of the receive buffer, beyond that the frame is marked as an error. The frame check accepts exactly the frames of 4 to 255 bytes whose CRC-16 over all bytes is zero, returning the first byte as the address and the bytes between it and the checksum as the PDU, rejects the others with MB_EIO, and fails its RT_ASSERT on a frame of exactly 256 bytes; so every RTU frame around a non-empty PDU of at most 252 bytes is received as sent. *)
Theorem rtu_receive_frame s d f :
  rtu_reachable s -> serial (mrtu_port s) = Some d -> rx_int d = true ->
  eRcvState s = STATE_M_RX_IDLE -> is_bytes f -> f <> [] ->
  exists s1, receive_bytes f s = Ok (tt, s1) /\
    ((length f <= 256)%nat -> receiving f s1) /\
    ((256 < length f)%nat -> eRcvState s1 = STATE_M_RX_ERROR) /\
    ((length f < 256)%nat -> eMBMasterRTUReceive s1 =
       Ok (if bool_decide (4 <= length f)%nat && (crc16 0xffff f =? 0)
           then (MB_ENOERR, Some (default 0 (head f), (RcvBuf, 1), Z.of_nat (length f) - 3))
           else (MB_EIO, None), s1)) /\
    (length f = 256%nat -> eMBMasterRTUReceive s1 = Fault FAssert) /\
    (forall addr pdu, f = rtu_frame addr pdu -> pdu <> [] -> (length pdu <= 252)%nat ->
       eMBMasterRTUReceive s1 =
         Ok ((MB_ENOERR, Some (addr, (RcvBuf, 1), Z.of_nat (length pdu))), s1) /\
       take (length pdu) (drop 1 (ucMasterRTURcvBuf s1)) = pdu).
Proof.
  intros Hi%rtu_reachable_inv Hser Hint Hr Hb Hne.
  pose proof (rtu_inv_rx_ready s d Hi Hser Hint) as Hrdy.
  destruct (receive_bytes_eq f s d Hb Hrdy) as [E Hrdy1].
  destruct (receive_bytes_inv f s d Hi Hser Hint Hb) as [Hi1 _].
  pose proof (rx_whole_frame f s d Hrdy Hr Hne) as Hf.
  set (s1 := foldl (flip rx_byte) s f) in *. clearbody s1. exists s1.
  assert ((length f < 256)%nat -> eMBMasterRTUReceive s1 =
    Ok (if bool_decide (4 <= length f)%nat && (crc16 0xffff f =? 0)
        then (MB_ENOERR, Some (default 0 (head f), (RcvBuf, 1), Z.of_nat (length f) - 3))
        else (MB_EIO, None), s1)) as Hrecv.
  { intros Hlen. rewrite decide_True in Hf by lia. destruct Hf, Hi1.
    by apply eMBMasterRTUReceive_ok. }
  split_and!; [done| | |done| |].
  - intros Hlen. by rewrite decide_True in Hf by lia.
  - intros Hlen. by rewrite decide_False in Hf by lia.
  - intros Hlen. rewrite decide_True in Hf by lia. unfold eMBMasterRTUReceive. c_run.
    rewrite (rv_pos _ _ Hf), Hlen. by c_run.
  - intros addr pdu -> Hpdu Hlen. rewrite rtu_frame_length in *.
    rewrite decide_True in Hf by lia. apply Forall_app in Hb as [Hb _]. apply Forall_cons in Hb as [Ha Hp].
    assert ((0 < length pdu)%nat) as Hpos by (destruct pdu; [done|cbn; lia]).
    rewrite Hrecv by lia. rewrite bool_decide_eq_true_2, rtu_frame_crc by (done || lia).
    split; [cbn [andb Z.eqb head rtu_frame app default]; do 5 f_equal; lia|].
    pose proof (rv_data _ _ Hf) as Hd. rewrite rtu_frame_length in Hd.
    apply (f_equal (drop 1)) in Hd. unfold rtu_frame in Hd. cbn [drop app] in Hd.
    apply (f_equal (take (length pdu))) in Hd.
    rewrite drop_0, take_app_length in Hd. rewrite <- Hd at 2.
    rewrite skipn_firstn_comm, take_take. f_equal. lia.
Qed.

Lemma rtu_receive_frame_witness :
  exists s s1, example_idle = Ok (tt, s) /\
    receive_bytes (rtu_frame 1 [3; 2; 0; 7]) s = Ok (tt, s1) /\
    eMBMasterRTUReceive s1 = Ok ((MB_ENOERR, Some (1, (RcvBuf, 1), 4)), s1).
Proof.
  exists idle_state.
  destruct (rtu_receive_frame idle_state idle_device (rtu_frame 1 [3; 2; 0; 7])
    (example_idle_reachable _ idle_state_eq) eq_refl eq_refl eq_refl) as (s1 & H1 & _ & _ & _ & _ & H2).
  - apply (rtu_frame_bytes 1 [3; 2; 0; 7]); [unfold is_byte; lia|bytes_ok].
  - discriminate.
  - exists s1. split; [exact idle_state_eq|]. split; [exact H1|].
    apply (H2 1 [3; 2; 0; 7] eq_refl); [discriminate|cbn; lia].
Defined.
