(* ===== verification/MbMaster.v ===== *)
(** * Modbus master: application buffers, function handlers and requests
    (mb_m.c statics, port/user_mb_app_m.c, modbus/functions/mbfunc*_m.c)

    The state above the transport, the four register callbacks with the
    per-slave buffers they fill, the handlers that the poll loop calls for a
    response, and the request functions that build a PDU in the send buffer.
    The per-slave arrays are one object each, row after row.  The callbacks
    overwrite [eMode] with [MB_REG_WRITE], so their MB_REG_READ branches are dead
    code and are left out. *)
From S2P Require Import Prelude Ipc MbUtils MbPortMaster MbRtuMaster.

(** ** State *)
Inductive eMBState_t := STATE_ENABLED | STATE_DISABLED | STATE_NOT_INITIALIZED.
#[export] Instance eMBState_t_eq_dec : EqDecision eMBState_t.
Proof. solve_decision. Defined.

Record master := MkMaster {
  ucMBMasterDestAddress : Z;
  xMBRunInMasterMode : bool;
  eMBState : eMBState_t;
  ucMBFrame : option frame_ptr;
  ucRcvAddress : Z;
  usLength : Z;
  ucMDiscInBuf : list Z;
  ucMCoilBuf : list Z;
  usMRegInBuf : list Z;
  usMRegHoldBuf : list Z;
  ucMBSlaveID : list Z;
  usMBSlaveIDLen : Z;
  master_rtu : mrtu
}.

#[export] Instance master_eta : Eta master := fun s =>
  MkMaster (ucMBMasterDestAddress s) (xMBRunInMasterMode s) (eMBState s) (ucMBFrame s)
    (ucRcvAddress s) (usLength s) (ucMDiscInBuf s) (ucMCoilBuf s) (usMRegInBuf s)
    (usMRegHoldBuf s) (ucMBSlaveID s) (usMBSlaveIDLen s) (master_rtu s).

Abbreviation rtu m := (zoom master_rtu m).
Abbreviation mport_of m := (zoom master_rtu (zoom mrtu_port m)).

Definition vMBMasterSetDestAddress (Address : Z) : M master unit := ucMBMasterDestAddress ::= Address.
Definition ucMBMasterGetDestAddress : M master Z := gets ucMBMasterDestAddress.
Definition vMBMasterSetCBRunInMasterMode (b : bool) : M master unit := xMBRunInMasterMode ::= b.
Definition xMBMasterGetCBRunInMasterMode : M master bool := gets xMBRunInMasterMode.

(** user_mb_app.h *)
Definition M_DISCRETE_INPUT_NDISCRETES : Z := 16.
Definition M_COIL_NCOILS : Z := 64.
Definition M_REG_INPUT_NREGS : Z := 100.
Definition M_REG_HOLDING_NREGS : Z := 100.
Definition M_START : Z := 0.

(** ** user_mb_app_m.c

    [buf] and [off] are the array and offset [pucRegBuffer] points to. *)
Fixpoint store_regs (usNRegs : nat) (regs : list Z) (base iRegIndex : Z)
    (buf : list Z) (off : Z) : outcome (list Z) :=
  match usNRegs with
  | O => Ok regs
  | S usNRegs =>
      hi ← zget buf off;
      lo ← zget buf (off + 1);
      regs ← zset regs (base + iRegIndex) (Z.lor (u16 (Z.shiftl hi 8)) lo);
      store_regs usNRegs regs base (u16 (iRegIndex + 1)) buf (off + 2)
  end.

Definition regs_cb (regs : list Z) (dest nregs : Z) (buf : list Z) (off usAddress usNRegs : Z) :
    outcome (eMBErrorCode * list Z) :=
  let base := (dest - 1) * nregs in
  let usAddress := u16 (usAddress - 1) in
  if (usAddress >=? M_START) && (usAddress + usNRegs <=? M_START + nregs) then
    regs ← store_regs (Z.to_nat usNRegs) regs base (u16 (usAddress - M_START)) buf off;
    Ok (MB_ENOERR, regs)
  else Ok (MB_ENOREG, regs).

Definition eMBMasterRegInputCB (buf : list Z) (off usAddress usNRegs : Z) : M master eMBErrorCode :=
  dest ← ucMBMasterGetDestAddress;
  regs ← gets usMRegInBuf;
  '(e, regs) ← lift (regs_cb regs dest M_REG_INPUT_NREGS buf off usAddress usNRegs);
  usMRegInBuf ::= regs;;
  mret e.

Definition eMBMasterRegHoldingCB (buf : list Z) (off usAddress usNRegs : Z) : M master eMBErrorCode :=
  dest ← ucMBMasterGetDestAddress;
  regs ← gets usMRegHoldBuf;
  '(e, regs) ← lift (regs_cb regs dest M_REG_HOLDING_NREGS buf off usAddress usNRegs);
  usMRegHoldBuf ::= regs;;
  mret e.

(** [while (iNReg > 1)]: whole bytes; [n] is [iNReg - 1]. *)
Fixpoint store_bytes (n : nat) (bits : list Z) (base iRegIndex iRegBitIndex : Z)
    (buf : list Z) (off : Z) : outcome (list Z * Z * Z) :=
  match n with
  | O => Ok (bits, iRegIndex, off)
  | S n =>
      v ← zget buf off;
      bits ← xMBUtilSetBits bits (base + iRegIndex) iRegBitIndex 8 v;
      store_bytes n bits base (u16 (iRegIndex + 1)) iRegBitIndex buf (off + 1)
  end.

Definition bits_cb (bits : list Z) (dest ncoils : Z) (buf : list Z) (off usAddress usNCoils : Z) :
    outcome (eMBErrorCode * list Z) :=
  let iNReg := u16 (usNCoils / 8 + 1) in
  let base := (dest - 1) * (ncoils / 8) in
  let usAddress := u16 (usAddress - 1) in
  if (usAddress >=? M_START) && (usAddress + usNCoils <=? M_START + ncoils) then
    let iRegIndex := u16 (usAddress - M_START) / 8 in
    let iRegBitIndex := u16 (usAddress - M_START) mod 8 in
    '(bits, iRegIndex, off) ←
      store_bytes (Z.to_nat (iNReg - 1)) bits base iRegIndex iRegBitIndex buf off;
    let usNCoils := usNCoils mod 8 in
    if negb (usNCoils =? 0) then
      v ← zget buf off;
      bits ← xMBUtilSetBits bits (base + iRegIndex) iRegBitIndex usNCoils v;
      Ok (MB_ENOERR, bits)
    else Ok (MB_ENOERR, bits)
  else Ok (MB_ENOREG, bits).

Definition eMBMasterRegCoilsCB (buf : list Z) (off usAddress usNCoils : Z) : M master eMBErrorCode :=
  dest ← ucMBMasterGetDestAddress;
  bits ← gets ucMCoilBuf;
  '(e, bits) ← lift (bits_cb bits dest M_COIL_NCOILS buf off usAddress usNCoils);
  ucMCoilBuf ::= bits;;
  mret e.

Definition eMBMasterRegDiscreteCB (buf : list Z) (off usAddress usNDiscrete : Z) :
    M master eMBErrorCode :=
  dest ← ucMBMasterGetDestAddress;
  bits ← gets ucMDiscInBuf;
  '(e, bits) ← lift (bits_cb bits dest M_DISCRETE_INPUT_NDISCRETES buf off usAddress usNDiscrete);
  ucMDiscInBuf ::= bits;;
  mret e.

(** ** Common parts of the handlers *)

(** [( USHORT )( p[i] << 8 ) | p[i + 1]] *)
Definition frame_u16 (p : frame_ptr) (i : Z) : M master Z :=
  hi ← rtu (ptr_read p i);
  lo ← rtu (ptr_read p (i + 1));
  mret (Z.lor (u16 (Z.shiftl hi 8)) lo).

(** A register address of a PDU, one more than on the wire. *)
Definition frame_address (p : frame_ptr) (i : Z) : M master Z :=
  a ← frame_u16 p i; mret (u16 (a + 1)).

(** The callback reads from the frame at offset [i]. *)
Definition call_cb (cb : list Z -> Z -> Z -> Z -> M master eMBErrorCode)
    (p : frame_ptr) (i usAddress usN : Z) : M master eMBErrorCode :=
  buf ← rtu (gets (buffer p.1));
  cb buf (p.2 + i) usAddress usN.

Definition bit_bytes (n : Z) : Z :=
  u8 (if negb (Z.land n 7 =? 0) then n / 8 + 1 else n / 8).

Definition is_broadcast : M master bool := rtu xMBMasterRequestIsBroadcast.

(** ** Handlers: mbfunccoils_m.c *)
Definition eMBMasterFuncReadCoils (pucFrame : frame_ptr) (usLen : Z) : M master Z :=
  bc ← is_broadcast;
  if bc : bool then mret MB_EX_NONE else
  if usLen >=? MB_PDU_SIZE_MIN + 1 then
    let ucMBFrame := vMBMasterGetPDUSndBuf in
    usRegAddress ← frame_address ucMBFrame 1;
    usCoilCount ← frame_u16 ucMBFrame 3;
    n ← rtu (ptr_read pucFrame 1);
    if (usCoilCount >=? 1) && (bit_bytes usCoilCount =? n) then
      e ← call_cb eMBMasterRegCoilsCB pucFrame 2 usRegAddress usCoilCount;
      mret (prveMBError2Exception e)
    else mret MB_EX_ILLEGAL_DATA_VALUE
  else mret MB_EX_ILLEGAL_DATA_VALUE.

Definition eMBMasterFuncWriteCoil (pucFrame : frame_ptr) (usLen : Z) : M master Z :=
  if usLen =? 4 + MB_PDU_SIZE_MIN then
    usRegAddress ← frame_address pucFrame 1;
    v1 ← rtu (ptr_read pucFrame 4);
    v0 ← rtu (ptr_read pucFrame 3);
    if (v1 =? 0) && ((v0 =? 0xff) || (v0 =? 0)) then
      let ucBuf := [if v0 =? 0xff then 1 else 0; 0] in
      e ← eMBMasterRegCoilsCB ucBuf 0 usRegAddress 1;
      mret (prveMBError2Exception e)
    else mret MB_EX_ILLEGAL_DATA_VALUE
  else mret MB_EX_ILLEGAL_DATA_VALUE.

Definition eMBMasterFuncWriteMultipleCoils (pucFrame : frame_ptr) (usLen : Z) : M master Z :=
  bc ← is_broadcast;
  if (usLen =? 5) || bc then
    let ucMBFrame := vMBMasterGetPDUSndBuf in
    usRegAddress ← frame_address pucFrame 1;
    usCoilCnt ← frame_u16 pucFrame 3;
    ucByteCount ← rtu (ptr_read ucMBFrame 5);
    if (usCoilCnt >=? 1) && (bit_bytes usCoilCnt =? ucByteCount) then
      e ← call_cb eMBMasterRegCoilsCB ucMBFrame 6 usRegAddress usCoilCnt;
      mret (prveMBError2Exception e)
    else mret MB_EX_ILLEGAL_DATA_VALUE
  else mret MB_EX_ILLEGAL_DATA_VALUE.

(** ** Handlers: mbfuncholding_m.c *)
Definition eMBMasterFuncWriteHoldingRegister (pucFrame : frame_ptr) (usLen : Z) : M master Z :=
  if usLen =? MB_PDU_SIZE_MIN + 4 then
    usRegAddress ← frame_address pucFrame 1;
    e ← call_cb eMBMasterRegHoldingCB pucFrame 3 usRegAddress 1;
    mret (prveMBError2Exception e)
  else mret MB_EX_ILLEGAL_DATA_VALUE.

Definition eMBMasterFuncWriteMultipleHoldingRegister (pucFrame : frame_ptr) (usLen : Z) : M master Z :=
  bc ← is_broadcast;
  if (usLen =? MB_PDU_SIZE_MIN + 4) || bc then
    let ucMBFrame := vMBMasterGetPDUSndBuf in
    usRegAddress ← frame_address ucMBFrame 1;
    usRegCount ← frame_u16 ucMBFrame 3;
    ucRegByteCount ← rtu (ptr_read ucMBFrame 5);
    if ucRegByteCount =? 2 * usRegCount then
      e ← call_cb eMBMasterRegHoldingCB ucMBFrame 6 usRegAddress usRegCount;
      mret (prveMBError2Exception e)
    else mret MB_EX_ILLEGAL_DATA_VALUE
  else mret MB_EX_ILLEGAL_DATA_VALUE.

Definition eMBMasterFuncReadHoldingRegister (pucFrame : frame_ptr) (usLen : Z) : M master Z :=
  bc ← is_broadcast;
  if bc : bool then mret MB_EX_NONE else
  if usLen >=? MB_PDU_SIZE_MIN + 1 then
    let ucMBFrame := vMBMasterGetPDUSndBuf in
    usRegAddress ← frame_address ucMBFrame 1;
    usRegCount ← frame_u16 ucMBFrame 3;
    n ← rtu (ptr_read pucFrame 1);
    if (usRegCount >=? 1) && (2 * usRegCount =? n) then
      e ← call_cb eMBMasterRegHoldingCB pucFrame 2 usRegAddress usRegCount;
      mret (prveMBError2Exception e)
    else mret MB_EX_ILLEGAL_DATA_VALUE
  else mret MB_EX_ILLEGAL_DATA_VALUE.

(** A short response falls through both tests: no exception. *)
Definition eMBMasterFuncReadWriteMultipleHoldingRegister (pucFrame : frame_ptr) (usLen : Z) :
    M master Z :=
  bc ← is_broadcast;
  if bc : bool then mret MB_EX_NONE else
  if usLen >=? MB_PDU_SIZE_MIN + 1 then
    let ucMBFrame := vMBMasterGetPDUSndBuf in
    usRegReadAddress ← frame_address ucMBFrame 1;
    usRegReadCount ← frame_u16 ucMBFrame 3;
    usRegWriteAddress ← frame_address ucMBFrame 5;
    usRegWriteCount ← frame_u16 ucMBFrame 7;
    n ← rtu (ptr_read pucFrame 1);
    if 2 * usRegReadCount =? n then
      e ← call_cb eMBMasterRegHoldingCB ucMBFrame 10 usRegWriteAddress usRegWriteCount;
      e ← (if bool_decide (e = MB_ENOERR)
           then call_cb eMBMasterRegHoldingCB pucFrame 2 usRegReadAddress usRegReadCount
           else mret e);
      mret (prveMBError2Exception e)
    else mret MB_EX_ILLEGAL_DATA_VALUE
  else mret MB_EX_NONE.

(** ** Handlers: mbfuncinput_m.c, mbfuncdisc_m.c *)
Definition eMBMasterFuncReadInputRegister (pucFrame : frame_ptr) (usLen : Z) : M master Z :=
  bc ← is_broadcast;
  if bc : bool then mret MB_EX_NONE else
  if usLen >=? MB_PDU_SIZE_MIN + 1 then
    let ucMBFrame := vMBMasterGetPDUSndBuf in
    usRegAddress ← frame_address ucMBFrame 1;
    usRegCount ← frame_u16 ucMBFrame 3;
    n ← rtu (ptr_read pucFrame 1);
    if (usRegCount >=? 1) && (2 * usRegCount =? n) then
      e ← call_cb eMBMasterRegInputCB pucFrame 2 usRegAddress usRegCount;
      mret (prveMBError2Exception e)
    else mret MB_EX_ILLEGAL_DATA_VALUE
  else mret MB_EX_ILLEGAL_DATA_VALUE.

Definition eMBMasterFuncReadDiscreteInputs (pucFrame : frame_ptr) (usLen : Z) : M master Z :=
  bc ← is_broadcast;
  if bc : bool then mret MB_EX_NONE else
  if usLen >=? MB_PDU_SIZE_MIN + 1 then
    let ucMBFrame := vMBMasterGetPDUSndBuf in
    usRegAddress ← frame_address ucMBFrame 1;
    usDiscreteCnt ← frame_u16 ucMBFrame 3;
    n ← rtu (ptr_read pucFrame 1);
    if (usDiscreteCnt >=? 1) && (bit_bytes usDiscreteCnt =? n) then
      e ← call_cb eMBMasterRegDiscreteCB pucFrame 2 usRegAddress usDiscreteCnt;
      mret (prveMBError2Exception e)
    else mret MB_EX_ILLEGAL_DATA_VALUE
  else mret MB_EX_ILLEGAL_DATA_VALUE.

(** ** Handlers: mbfuncother.c

    The identification string is shared with the slave; the handler writes
    [*usLen], here the poll loop's [usLength]. *)
Definition MB_FUNC_OTHER_REP_SLAVEID_BUF : Z := 32.

Definition eMBSetSlaveID (ucSlaveID : Z) (xIsRunning : bool) (pucAdditional : list Z)
    (usAdditionalLen : Z) : M master eMBErrorCode :=
  if usAdditionalLen + 2 <? MB_FUNC_OTHER_REP_SLAVEID_BUF then
    id ← gets ucMBSlaveID;
    id ← lift (zset id 0 (u8 ucSlaveID));
    id ← lift (zset id 1 (if xIsRunning then 0xff else 0));
    id ← lift (if usAdditionalLen >? 0
               then memcpy id 2 pucAdditional 0 usAdditionalLen else Ok id);
    ucMBSlaveID ::= id;;
    usMBSlaveIDLen ::= (if usAdditionalLen >? 0 then u16 (2 + usAdditionalLen) else 2);;
    mret MB_ENOERR
  else mret MB_ENORES.

Definition buffer_set (b : frame_buffer) (l : list Z) : M mrtu unit :=
  match b with SndBuf => ucMasterRTUSndBuf ::= l | RcvBuf => ucMasterRTURcvBuf ::= l end.

Definition eMBFuncReportSlaveID (pucFrame : frame_ptr) (usLen : Z) : M master Z :=
  id ← gets ucMBSlaveID;
  n ← gets usMBSlaveIDLen;
  buf ← rtu (gets (buffer pucFrame.1));
  buf ← lift (memcpy buf (pucFrame.2 + MB_PDU_DATA_OFF) id 0 n);
  rtu (buffer_set pucFrame.1 buf);;
  usLength ::= u16 (MB_PDU_DATA_OFF + n);;
  mret MB_EX_NONE.

(** ** Requests

    A request suspends its thread while another one holds the resource
    ([ReqWaitRes]) and while it waits for the poll loop ([ReqWaitFinish]);
    [request_resumed] and [eMBMasterWaitRequestFinish_resumed] continue it. *)
Inductive req_outcome :=
  | ReqDone (e : eMBMasterReqErrCode)
  | ReqWaitRes
  | ReqWaitFinish.

(** Once the resource is held: the PDU is built, the poll loop is told, and the
    caller waits. *)
Definition request_body (self : rt_thread) (pdu : M master unit) : M master req_outcome :=
  pdu;;
  mport_of (xMBMasterPortEventPost EV_MASTER_FRAME_SENT);;
  r ← mport_of (eMBMasterWaitRequestFinish self);
  mret (match r with Some c => ReqDone c | None => ReqWaitFinish end).

Definition request (self : rt_thread) (ill_arg : bool) (ucSndAddr lTimeOut : Z)
    (pdu : M master unit) : M master req_outcome :=
  if ucSndAddr >? MB_MASTER_TOTAL_SLAVE_NUM then mret (ReqDone MB_MRE_ILL_ARG) else
  if ill_arg then mret (ReqDone MB_MRE_ILL_ARG) else
  taken ← mport_of (xMBMasterRunResTake self lTimeOut);
  match taken with
  | None => mret ReqWaitRes
  | Some false => mret (ReqDone MB_MRE_MASTER_BUSY)
  | Some true => request_body self pdu
  end.

Definition request_resumed (thread : rt_thread) (pdu : M master unit) : M master req_outcome :=
  if xMBMasterRunResTake_resumed thread then request_body thread pdu
  else mret (ReqDone MB_MRE_MASTER_BUSY).

(** [ucMBFrame[i] = v] for the frame of the send buffer. *)
Definition pdu_set (i v : Z) : M master unit := rtu (ptr_write vMBMasterGetPDUSndBuf i v).

Definition pdu_set_u16 (i v : Z) : M master unit :=
  pdu_set i (Z.shiftr v 8);;
  pdu_set (i + 1) v.

Definition pdu_length (n : Z) : M master unit := rtu (vMBMasterSetPDUSndLength n).

(** Function code, address and quantity or value: the PDU of the simple requests. *)
Definition simple_pdu (func ucSndAddr a n : Z) : M master unit :=
  vMBMasterSetDestAddress ucSndAddr;;
  pdu_set MB_PDU_FUNC_OFF func;;
  pdu_set_u16 1 a;;
  pdu_set_u16 3 n;;
  pdu_length (MB_PDU_SIZE_MIN + 4).

Definition eMBMasterReqReadCoils self ucSndAddr usCoilAddr usNCoils lTimeOut :=
  request self false ucSndAddr lTimeOut
    (simple_pdu MB_FUNC_READ_COILS ucSndAddr usCoilAddr usNCoils).

Definition eMBMasterReqWriteCoil self ucSndAddr usCoilAddr usCoilData lTimeOut :=
  request self (negb (usCoilData =? 0xFF00) && negb (usCoilData =? 0)) ucSndAddr lTimeOut
    (simple_pdu MB_FUNC_WRITE_SINGLE_COIL ucSndAddr usCoilAddr usCoilData).

Definition eMBMasterReqReadDiscreteInputs self ucSndAddr usDiscreteAddr usNDiscreteIn lTimeOut :=
  request self false ucSndAddr lTimeOut
    (simple_pdu MB_FUNC_READ_DISCRETE_INPUTS ucSndAddr usDiscreteAddr usNDiscreteIn).

Definition eMBMasterReqReadInputRegister self ucSndAddr usRegAddr usNRegs lTimeOut :=
  request self false ucSndAddr lTimeOut
    (simple_pdu MB_FUNC_READ_INPUT_REGISTER ucSndAddr usRegAddr usNRegs).

Definition eMBMasterReqReadHoldingRegister self ucSndAddr usRegAddr usNRegs lTimeOut :=
  request self false ucSndAddr lTimeOut
    (simple_pdu MB_FUNC_READ_HOLDING_REGISTER ucSndAddr usRegAddr usNRegs).

Definition eMBMasterReqWriteHoldingRegister self ucSndAddr usRegAddr usRegData lTimeOut :=
  request self false ucSndAddr lTimeOut
    (simple_pdu MB_FUNC_WRITE_REGISTER ucSndAddr usRegAddr usRegData).

(** The copy loops of the requests with data: [i] counts what is copied. *)
Fixpoint copy_bytes (n : nat) (off i : Z) (pucDataBuffer : list Z) : M master unit :=
  match n with
  | O => skip
  | S n =>
      v ← lift (zget pucDataBuffer i);
      pdu_set (off + i) v;;
      copy_bytes n off (i + 1) pucDataBuffer
  end.

Fixpoint copy_regs (n : nat) (off i : Z) (pusDataBuffer : list Z) : M master unit :=
  match n with
  | O => skip
  | S n =>
      v ← lift (zget pusDataBuffer i);
      pdu_set_u16 (off + 2 * i) v;;
      copy_regs n off (i + 1) pusDataBuffer
  end.

Definition MB_PDU_REQ_WRITE_MUL_COILCNT_MAX : Z := 0x07B0.

Definition write_coils_pdu ucSndAddr usCoilAddr usNCoils (pucDataBuffer : list Z) : M master unit :=
  vMBMasterSetDestAddress ucSndAddr;;
  pdu_set MB_PDU_FUNC_OFF MB_FUNC_WRITE_MULTIPLE_COILS;;
  pdu_set_u16 1 usCoilAddr;;
  pdu_set_u16 3 usNCoils;;
  let ucByteCount := bit_bytes usNCoils in
  pdu_set 5 ucByteCount;;
  copy_bytes (Z.to_nat ucByteCount) 6 0 pucDataBuffer;;
  pdu_length (MB_PDU_SIZE_MIN + 5 + ucByteCount).

Definition eMBMasterReqWriteMultipleCoils self ucSndAddr usCoilAddr usNCoils pucDataBuffer lTimeOut :=
  request self (usNCoils >? MB_PDU_REQ_WRITE_MUL_COILCNT_MAX) ucSndAddr lTimeOut
    (write_coils_pdu ucSndAddr usCoilAddr usNCoils pucDataBuffer).

Definition write_regs_pdu ucSndAddr usRegAddr usNRegs (pusDataBuffer : list Z) : M master unit :=
  vMBMasterSetDestAddress ucSndAddr;;
  pdu_set MB_PDU_FUNC_OFF MB_FUNC_WRITE_MULTIPLE_REGISTERS;;
  pdu_set_u16 1 usRegAddr;;
  pdu_set_u16 3 usNRegs;;
  pdu_set 5 (usNRegs * 2);;
  copy_regs (Z.to_nat usNRegs) 6 0 pusDataBuffer;;
  pdu_length (MB_PDU_SIZE_MIN + 5 + 2 * usNRegs).

Definition eMBMasterReqWriteMultipleHoldingRegister self ucSndAddr usRegAddr usNRegs pusDataBuffer
    lTimeOut :=
  request self false ucSndAddr lTimeOut
    (write_regs_pdu ucSndAddr usRegAddr usNRegs pusDataBuffer).

Definition readwrite_pdu ucSndAddr usReadRegAddr usNReadRegs (pusDataBuffer : list Z)
    usWriteRegAddr usNWriteRegs : M master unit :=
  vMBMasterSetDestAddress ucSndAddr;;
  pdu_set MB_PDU_FUNC_OFF MB_FUNC_READWRITE_MULTIPLE_REGISTERS;;
  pdu_set_u16 1 usReadRegAddr;;
  pdu_set_u16 3 usNReadRegs;;
  pdu_set_u16 5 usWriteRegAddr;;
  pdu_set_u16 7 usNWriteRegs;;
  pdu_set 9 (usNWriteRegs * 2);;
  copy_regs (Z.to_nat usNWriteRegs) 10 0 pusDataBuffer;;
  pdu_length (MB_PDU_SIZE_MIN + 9 + 2 * usNWriteRegs).

Definition eMBMasterReqReadWriteMultipleHoldingRegister self ucSndAddr usReadRegAddr usNReadRegs
    pusDataBuffer usWriteRegAddr usNWriteRegs lTimeOut :=
  request self false ucSndAddr lTimeOut
    (readwrite_pdu ucSndAddr usReadRegAddr usNReadRegs pusDataBuffer usWriteRegAddr usNWriteRegs).

(** ** Register callbacks *)

(** [mid] written over [l] from index [i]. *)
Definition splice {A} (l : list A) (i : nat) (mid : list A) : list A :=
  take i l ++ mid ++ drop (i + length mid) l.

(** Big-endian 16-bit values of a byte string, and back. *)
Fixpoint words (l : list Z) : list Z :=
  match l with
  | hi :: lo :: l => 256 * hi + lo :: words l
  | _ => []
  end.

Lemma splice_length {A} (l : list A) i mid :
  (i + length mid <= length l)%nat -> length (splice l i mid) = length l.
Proof. intros. unfold splice. rewrite !length_app, length_take, length_drop. lia. Qed.

Lemma splice_insert {A} (l : list A) i x mid : (i < length l)%nat ->
  splice (<[i := x]> l) (S i) mid = splice l i (x :: mid).
Proof.
  intros Hi. unfold splice. rewrite drop_insert_lt by lia. cbn [length app].
  replace (i + S (length mid))%nat with (S i + length mid)%nat by lia.
  rewrite (take_S_r _ i x) by (by rewrite list_lookup_insert_eq by lia).
  rewrite take_insert_ge by lia. by rewrite <- app_assoc.
Qed.

Lemma splice_nil {A} (l : list A) i : splice l i [] = l.
Proof. unfold splice. cbn [app length]. by rewrite Nat.add_0_r, take_drop. Qed.

Lemma splice_app {A} (l : list A) i l1 l2 : (i + length l1 <= length l)%nat ->
  splice (splice l i l1) (i + length l1) l2 = splice l i (l1 ++ l2).
Proof.
  revert l i. induction l1 as [|x l1 IH]; intros l i H; cbn [length app] in *.
  { by rewrite Nat.add_0_r, splice_nil. }
  rewrite <- !splice_insert by lia. replace (i + S (length l1))%nat with (S i + length l1)%nat by lia.
  apply IH. rewrite length_insert. lia.
Qed.

Lemma splice_lookup {A} (l : list A) i mid k : (i + length mid <= length l)%nat ->
  splice l i mid !! k = if decide (i <= k < i + length mid)%nat then mid !! (k - i)%nat else l !! k.
Proof.
  intros Hl. unfold splice. case_decide.
  - rewrite lookup_app_r, lookup_app_l by (rewrite length_take; lia). f_equal. rewrite length_take. lia.
  - destruct (decide (k < i)%nat).
    + rewrite lookup_app_l by (rewrite length_take; lia). by rewrite lookup_take, decide_True by lia.
    + rewrite !lookup_app_r by (rewrite ?length_take; lia). rewrite lookup_drop, length_take. f_equal. lia.
Qed.

Lemma words_length l n : length l = (2 * n)%nat -> length (words l) = n.
Proof.
  revert l. induction n as [|n IH]; intros [|a [|b l]] H; cbn in *; try lia. f_equal. apply IH. lia.
Qed.

Lemma be_word hi lo : is_byte hi -> is_byte lo -> Z.lor (u16 (Z.shiftl hi 8)) lo = 256 * hi + lo.
Proof.
  unfold is_byte. intros Hh Hl. rewrite u16_small by (rewrite Z.shiftl_mul_pow2; lia).
  rewrite (lor_shift_add 8) by lia. lia.
Qed.

(** Two bytes at an offset. *)
Lemma take2_drop (buf : list Z) off n : 0 <= off -> off + 2 <= Z.of_nat (length buf) ->
  exists hi lo, zget buf off = Ok hi /\ zget buf (off + 1) = Ok lo /\
    take (S (S n)) (drop (Z.to_nat off) buf) = hi :: lo :: take n (drop (Z.to_nat (off + 2)) buf).
Proof.
  intros Ho Hl. destruct (zget_ok buf off) as (hi & E1 & L1); [lia|].
  destruct (zget_ok buf (off + 1)) as (lo & E2 & L2); [lia|]. exists hi, lo. split_and!; [done..|].
  rewrite (drop_S _ _ _ L1). replace (Z.to_nat (off + 1)) with (S (Z.to_nat off)) in L2 by lia.
  rewrite (drop_S _ _ _ L2). by replace (Z.to_nat (off + 2)) with (S (S (Z.to_nat off))) by lia.
Qed.

Lemma store_regs_ok n : forall regs base idx buf off, is_bytes buf ->
  0 <= base -> 0 <= idx -> idx + Z.of_nat n < 65536 ->
  base + idx + Z.of_nat n <= Z.of_nat (length regs) ->
  0 <= off -> off + 2 * Z.of_nat n <= Z.of_nat (length buf) ->
  store_regs n regs base idx buf off =
    Ok (splice regs (Z.to_nat (base + idx)) (words (take (2 * n) (drop (Z.to_nat off) buf)))).
Proof.
  induction n as [|n IH]; intros regs base idx buf off Hb Hbase Hidx Hw Hr Ho Hl.
  { cbn [store_regs]. unfold splice. cbn [Nat.mul]. rewrite firstn_O. cbn [words app length].
    by rewrite Nat.add_0_r, take_drop. }
  replace (2 * S n)%nat with (S (S (2 * n))) by lia.
  destruct (take2_drop buf off (2 * n)) as (hi & lo & E1 & E2 & ->); [lia..|].
  cbn [store_regs words]. rewrite E1, E2. cbn [mbind outcome_bind]. rewrite zset_ok by lia.
  cbn [mbind outcome_bind].
  assert (is_byte hi /\ is_byte lo) as [Hhi Hlo].
  { apply zget_inv in E1 as [_ E1], E2 as [_ E2]. by split; eapply Forall_lookup_1. }
  rewrite be_word, u16_small, IH by (rewrite ?length_insert; done || lia).
  replace (Z.to_nat (base + (idx + 1))) with (S (Z.to_nat (base + idx))) by lia.
  by rewrite splice_insert by lia.
Qed.

Lemma address_roundtrip a : 0 <= a < 65536 -> u16 (u16 (a + 1) - 1) = a.
Proof.
  intros. unfold uint. rewrite Zminus_mod_idemp_l. replace (a + 1 - 1) with a by lia.
  apply Z.mod_small. lia.
Qed.

(** The registers after a callback for [n] registers at wire address [a]. *)
Definition stored_regs (regs : list Z) (dest nregs a n : Z) (buf : list Z) (off : Z) : list Z :=
  splice regs (Z.to_nat ((dest - 1) * nregs + a))
    (words (take (2 * Z.to_nat n) (drop (Z.to_nat off) buf))).

Lemma regs_cb_ok regs dest nregs buf off a n : is_bytes buf ->
  1 <= dest <= 16 -> Z.of_nat (length regs) = 16 * nregs -> nregs < 65536 ->
  0 <= a < 65536 -> 0 <= n -> 0 <= off ->
  (a + n <= nregs -> off + 2 * n <= Z.of_nat (length buf)) ->
  regs_cb regs dest nregs buf off (u16 (a + 1)) n =
    Ok (if a + n <=? nregs then (MB_ENOERR, stored_regs regs dest nregs a n buf off)
        else (MB_ENOREG, regs)).
Proof.
  intros Hb Hd Hlen Hnr Ha Hn Ho Hl. unfold regs_cb. cbv zeta. rewrite address_roundtrip by done.
  unfold M_START. rewrite (proj2 (Z.geb_le _ _)), Z.add_0_l, Z.sub_0_r by lia. cbn [andb].
  destruct (Z.leb_spec (a + n) nregs) as [Hle|]; [|done].
  assert ((dest - 1) * nregs + nregs <= 16 * nregs) by nia.
  rewrite (u16_small a), store_regs_ok by (rewrite ?Z2Nat.id; done || nia). done.
Qed.

(** ** Bit callbacks *)
(** [m] bits of [buf] from byte [off] laid over the bits of [bits] from [start]. *)
Definition laid_bits (bits buf : list Z) (off start m k : Z) : bool :=
  if decide (start <= k < start + m) then bit buf (8 * off + (k - start)) else bit bits k.

(** One field of up to eight bits taken from a byte of the frame. *)
Lemma set_field_ok bits p i buf off n : is_bytes bits -> is_bytes buf ->
  0 <= p -> 0 <= i < 8 -> 0 <= n <= 8 -> p + 1 < Z.of_nat (length bits) ->
  0 <= off < Z.of_nat (length buf) ->
  (forall j, n <= j < 8 -> bit buf (8 * off + j) = false) ->
  exists v bits', zget buf off = Ok v /\ xMBUtilSetBits bits p i n v = Ok bits' /\
    is_bytes bits' /\ length bits' = length bits /\
    forall k, 0 <= k -> bit bits' k = laid_bits bits buf off (8 * p + i) n k.
Proof.
  intros Hb Hbuf Hp Hi Hn Hl Ho Hpad.
  destruct (zget_ok buf off Ho) as (v & Ev & Lv). pose proof (Forall_lookup_1 _ _ _ _ Hbuf Lv) as Hv.
  assert (0 <= v < 2 ^ n) as Hvn.
  { split; [apply Hv|]. apply nonneg_lt_pow2; [lia|apply Hv|]. intros j Hj.
    destruct (decide (j < 8)); [|apply (testbit_high 8); [exact Hv|lia]].
    rewrite <- (bit_zget buf off v j Ev) by lia. apply Hpad. lia. }
  destruct (xMBUtilSetBits_ok bits p i n v) as (bits' & E & Hb' & Hl' & Hk); [done|done|lia|lia|done| |].
  { rewrite Z.div_small by lia. lia. }
  exists v, bits'. split_and!; [done..|]. intros k Hk0. rewrite Hk, set_bits_spec_narrow by (done || lia).
  unfold laid_bits. case_decide; [|done]. by rewrite (bit_zget _ _ v) by (done || lia).
Qed.

Lemma store_bytes_ok n : forall bits base idx i buf off, is_bytes bits -> is_bytes buf ->
  0 <= base -> 0 <= idx -> 0 <= i < 8 -> idx + Z.of_nat n < 65536 ->
  base + idx + Z.of_nat n < Z.of_nat (length bits) ->
  0 <= off -> off + Z.of_nat n <= Z.of_nat (length buf) ->
  exists bits', store_bytes n bits base idx i buf off = Ok (bits', idx + Z.of_nat n, off + Z.of_nat n) /\
    is_bytes bits' /\ length bits' = length bits /\
    forall k, 0 <= k ->
      bit bits' k = laid_bits bits buf off (8 * (base + idx) + i) (8 * Z.of_nat n) k.
Proof.
  induction n as [|n IH]; intros bits base idx i buf off Hb Hbuf Hbase Hidx Hi Hw Hl Ho Hlen.
  { exists bits. rewrite !Z.add_0_r. split_and!; [done..|]. intros k _. unfold laid_bits.
    by rewrite decide_False by lia. }
  destruct (set_field_ok bits (base + idx) i buf off 8) as (v & b1 & Ev & E1 & Hb1 & Hl1 & K1);
    [done|done|lia|lia|lia|lia|lia|lia|].
  cbn [store_bytes]. rewrite Ev. cbn [mbind outcome_bind]. rewrite E1. cbn [mbind outcome_bind].
  rewrite u16_small by lia.
  destruct (IH b1 base (idx + 1) i buf (off + 1)) as (b2 & E2 & Hb2 & Hl2 & K2); [done|done|lia..|].
  exists b2. rewrite E2. replace (idx + 1 + Z.of_nat n) with (idx + Z.of_nat (S n)) by lia.
  replace (off + 1 + Z.of_nat n) with (off + Z.of_nat (S n)) by lia. split_and!; [done|done|lia|].
  intros k Hk. rewrite K2 by done. unfold laid_bits in *. rewrite K1 by done.
  repeat case_decide; try lia; try done. f_equal. lia.
Qed.

Lemma store_bytes_out n : forall bits base idx i buf off, is_bytes bits -> is_bytes buf ->
  (0 < n)%nat -> 0 <= base -> 0 <= idx -> 0 <= i < 8 -> idx + Z.of_nat n < 65536 ->
  base + idx + Z.of_nat n >= Z.of_nat (length bits) ->
  0 <= off -> off + Z.of_nat n <= Z.of_nat (length buf) ->
  store_bytes n bits base idx i buf off = Fault FOutOfBounds.
Proof.
  induction n as [|n IH]; intros bits base idx i buf off Hb Hbuf Hn Hbase Hidx Hi Hw Hl Ho Hlen; [lia|].
  cbn [store_bytes]. destruct (zget_ok buf off) as (v & Ev & Lv); [lia|].
  rewrite Ev. cbn [mbind outcome_bind].
  destruct (decide (base + idx + 1 < Z.of_nat (length bits))) as [Hin|Hout].
  2: { rewrite xMBUtilSetBits_out; [done|lia|lia|lia|]. rewrite Z.div_small by lia. lia. }
  destruct (set_field_ok bits (base + idx) i buf off 8) as (v' & b1 & Ev' & E1 & Hb1 & Hl1 & K1);
    [done|done|lia|lia|lia|lia|lia|lia|].
  rewrite Ev' in Ev. injection Ev as ->. rewrite E1. cbn [mbind outcome_bind].
  rewrite u16_small by lia. apply IH; try done; lia.
Qed.

(** The number of bytes of a field of [n] bits. *)
Definition byte_count (n : Z) : Z := (n + 7) / 8.

Lemma byte_count_eq n : 0 <= n ->
  byte_count n = n / 8 + (if decide (n mod 8 = 0) then 0 else 1).
Proof. intros. unfold byte_count. case_decide; Z.to_euclidean_division_equations; lia. Qed.

(** The unused bits of the last byte are zero. *)
Definition padded (buf : list Z) (off n : Z) : Prop :=
  forall j, n <= j < 8 * byte_count n -> bit buf (8 * off + j) = false.

(** The last step of [bits_cb], which the bits past the whole bytes take. *)
Definition store_rest (bits : list Z) (p i : Z) (buf : list Z) (off r : Z) :
    outcome (eMBErrorCode * list Z) :=
  if negb (r =? 0) then
    v ← zget buf off;
    bits ← xMBUtilSetBits bits p i r v;
    Ok (MB_ENOERR, bits)
  else Ok (MB_ENOERR, bits).

Lemma bits_cb_eq bits dest ncoils buf off a n : 0 <= a < 65536 -> 0 <= n < 65536 ->
  bits_cb bits dest ncoils buf off (u16 (a + 1)) n =
    if a + n <=? ncoils then
      '(bits, idx, off) ← store_bytes (Z.to_nat (n / 8)) bits ((dest - 1) * (ncoils / 8))
                            (a / 8) (a mod 8) buf off;
      store_rest bits ((dest - 1) * (ncoils / 8) + idx) (a mod 8) buf off (n mod 8)
    else Ok (MB_ENOREG, bits).
Proof.
  intros Ha Hn. unfold bits_cb, store_rest. cbv zeta. rewrite address_roundtrip by done.
  unfold M_START. rewrite (proj2 (Z.geb_le _ _)), Z.add_0_l, Z.sub_0_r by lia. cbn [andb].
  rewrite (u16_small a) by done.
  rewrite (u16_small (n / 8 + 1)) by (Z.to_euclidean_division_equations; lia).
  by rewrite Z.add_simpl_r.
Qed.

Lemma store_rest_ok bits p i buf off r : is_bytes bits -> is_bytes buf -> 0 <= p -> 0 <= i < 8 ->
  0 <= r < 8 -> 0 <= off -> (0 < r -> off < Z.of_nat (length buf)) ->
  (forall j, 0 < r -> r <= j < 8 -> bit buf (8 * off + j) = false) ->
  (r = 0 \/ p + 1 < Z.of_nat (length bits)) ->
  exists bits', store_rest bits p i buf off r = Ok (MB_ENOERR, bits') /\
    is_bytes bits' /\ length bits' = length bits /\
    forall k, 0 <= k -> bit bits' k = laid_bits bits buf off (8 * p + i) r k.
Proof.
  intros Hb Hbuf Hp Hi Hr Ho Hlen Hpad Hin. unfold store_rest. destruct (Z.eqb_spec r 0) as [->|Hr0].
  { exists bits. split_and!; [done..|]. intros k _. unfold laid_bits. by rewrite decide_False by lia. }
  cbn [negb]. destruct (set_field_ok bits p i buf off r) as (v & bits' & -> & E & H);
    [done|done|lia|lia|lia|lia|lia|intros; apply Hpad; lia|].
  cbn [mbind outcome_bind]. rewrite E. by exists bits'.
Qed.

(** The whole callback: the field that is stored, or the fault. *)
Lemma bits_cb_ok bits dest ncoils buf off a n :
  is_bytes bits -> is_bytes buf -> 1 <= dest -> 0 <= ncoils < 65536 -> 0 <= a -> 1 <= n ->
  a + n <= ncoils -> 0 <= off -> off + byte_count n <= Z.of_nat (length buf) -> padded buf off n ->
  let base := (dest - 1) * (ncoils / 8) in
  (base + a / 8 + byte_count n < Z.of_nat (length bits) ->
   exists bits', bits_cb bits dest ncoils buf off (u16 (a + 1)) n = Ok (MB_ENOERR, bits') /\
     is_bytes bits' /\ length bits' = length bits /\
     forall k, 0 <= k -> bit bits' k = laid_bits bits buf off (8 * base + a) n k) /\
  (base + a / 8 + byte_count n >= Z.of_nat (length bits) ->
   bits_cb bits dest ncoils buf off (u16 (a + 1)) n = Fault FOutOfBounds).
Proof.
  intros Hb Hbuf Hd Hnc Ha Hn Han Ho Hlen Hpad base. rewrite bits_cb_eq, (proj2 (Z.leb_le _ _)) by lia.
  assert (0 <= base) as Hbase by (apply Z.mul_nonneg_nonneg; [lia|apply Z.div_pos; lia]).
  fold base. unfold padded in Hpad. rewrite byte_count_eq in * by lia.
  pose proof (Z.div_mod a 8 ltac:(lia)). pose proof (Z.mod_pos_bound a 8 ltac:(lia)).
  pose proof (Z.div_mod n 8 ltac:(lia)). pose proof (Z.mod_pos_bound n 8 ltac:(lia)).
  assert (0 <= a / 8 /\ 0 <= n / 8) as [Hqa Hqn] by (split; apply Z.div_pos; lia).
  set (q := n / 8) in *. set (r := n mod 8) in *. set (i := a mod 8) in *. set (x := a / 8) in *.
  clearbody q r i x base.
  split; intros Hin.
  - destruct (store_bytes_ok (Z.to_nat q) bits base x i buf off) as (b1 & -> & Hb1 & Hl1 & K1);
      [done|done|lia|lia|lia|lia|case_decide; lia|lia|case_decide; lia|].
    cbn [mbind outcome_bind]. rewrite Z2Nat.id in * by lia.
    destruct (store_rest_ok b1 (base + (x + q)) i buf (off + q) r) as (b2 & E2 & Hb2 & Hl2 & K2);
      [done|done|lia|lia|lia|lia|case_decide; lia| |case_decide; lia|].
    { intros j Hr0 Hj. rewrite decide_False in Hpad by lia.
      rewrite <- (Hpad (8 * q + j)) by lia. f_equal. lia. }
    exists b2. split_and!; [done|done|lia|]. intros k Hk. rewrite K2 by done.
    unfold laid_bits in *. rewrite K1 by done. repeat case_decide; try lia; try done; f_equal; lia.
  - destruct (decide (0 < q /\ base + x + q >= Z.of_nat (length bits))) as [[Hq Hout]|Hok].
    { by rewrite store_bytes_out by (done || lia || (case_decide; lia)). }
    case_decide as Hr0; [lia|].
    assert (exists b1, store_bytes (Z.to_nat q) bits base x i buf off = Ok (b1, x + q, off + q) /\
      length b1 = length bits) as (b1 & -> & Hl1).
    { destruct (decide (q = 0)) as [->|Hq].
      { exists bits. by rewrite !Z.add_0_r. }
      destruct (store_bytes_ok (Z.to_nat q) bits base x i buf off) as (b1 & E & _ & Hl1 & _);
        [done|done|lia..|]. rewrite Z2Nat.id in E by lia. by exists b1. }
    cbn [mbind outcome_bind]. unfold store_rest. rewrite (proj2 (Z.eqb_neq _ _)) by done. cbn [negb].
    destruct (zget_ok buf (off + q)) as (v & -> & _); [lia|]. cbn [mbind outcome_bind].
    by rewrite xMBUtilSetBits_out by (rewrite ?Z.div_small by lia; lia).
Qed.
