(* ===== verification/MbMasterFunc.v ===== *)
(** * Modbus master: what the response handlers and the requests do

    The handlers of modbus/functions/mbfunc*_m.c read the request back from the
    send buffer, compare it with the response in the receive buffer and hand the
    data to the register callbacks. *)
From S2P Require Import Prelude Ipc MbUtils MbPortMaster MbRtuMaster MbMaster.

(** ** The buffers of the master *)
Record master_wf (m : master) : Prop := {
  mw_snd_len : length (ucMasterRTUSndBuf (master_rtu m)) = 253%nat;
  mw_snd_bytes : is_bytes (ucMasterRTUSndBuf (master_rtu m));
  mw_rcv_len : length (ucMasterRTURcvBuf (master_rtu m)) = 256%nat;
  mw_rcv_bytes : is_bytes (ucMasterRTURcvBuf (master_rtu m));
  mw_disc : length (ucMDiscInBuf m) = 32%nat /\ is_bytes (ucMDiscInBuf m);
  mw_coil : length (ucMCoilBuf m) = 128%nat /\ is_bytes (ucMCoilBuf m);
  mw_in : length (usMRegInBuf m) = 1600%nat;
  mw_hold : length (usMRegHoldBuf m) = 1600%nat
}.

(** Byte and 16-bit word at offset [i] of the PDU in one of the buffers. *)
Definition pdu_byte (b : frame_buffer) (m : master) (i : nat) : Z :=
  default 0 (buffer b (master_rtu m) !! S i).
Definition pdu_word (b : frame_buffer) (m : master) (i : nat) : Z :=
  256 * pdu_byte b m i + pdu_byte b m (S i).
Definition pdu_frame (b : frame_buffer) : frame_ptr := (b, MB_SER_PDU_PDU_OFF).

Abbreviation sent := (pdu_byte SndBuf).
Abbreviation sent_word := (pdu_word SndBuf).
Abbreviation rcvd := (pdu_byte RcvBuf).
Abbreviation rcv_frame := (pdu_frame RcvBuf).

Lemma zoom_rtu_same (m : master) {A} (a : A) (f : M mrtu A) :
  f (master_rtu m) = Ok (a, master_rtu m) -> rtu f m = Ok (a, m).
Proof. intros H. rewrite (run_zoom _ _ _ _ _ H). by destruct m. Qed.

Lemma ptr_read_same (m : master) (p : frame_ptr) i b : 0 <= p.2 + i ->
  buffer p.1 (master_rtu m) !! Z.to_nat (p.2 + i) = Some b -> rtu (ptr_read p i) m = Ok (b, m).
Proof.
  intros Hi Hb. apply zoom_rtu_same. unfold ptr_read. c_run. by rewrite (zget_Some _ _ _ Hi Hb).
Qed.

Lemma is_broadcast_same (m : master) : is_broadcast m = Ok (xFrameIsBroadcast (master_rtu m), m).
Proof. by apply zoom_rtu_same. Qed.

Lemma call_cb_same (m : master) cb (p : frame_ptr) i a n :
  call_cb cb p i a n m = cb (buffer p.1 (master_rtu m)) (p.2 + i) a n m.
Proof.
  unfold call_cb.
  by rewrite (run_bind_ok _ _ _ _ _ (zoom_rtu_same _ _ (gets (buffer p.1)) eq_refl)).
Qed.
Section Frames.
Context (m : master) (Hm : master_wf m).

Lemma buffer_length b : (253 <= length (buffer b (master_rtu m)))%nat.
Proof. destruct b, Hm; cbn; lia. Qed.

Lemma buffer_bytes b : is_bytes (buffer b (master_rtu m)).
Proof. by destruct b, Hm. Qed.

Lemma read_pdu b i : (i < 252)%nat ->
  rtu (ptr_read (pdu_frame b) (Z.of_nat i)) m = Ok (pdu_byte b m i, m).
Proof.
  intros Hi. pose proof (buffer_length b) as Hl.
  destruct (lookup_lt_is_Some_2 (buffer b (master_rtu m)) (S i)) as [v Hv]; [lia|].
  unfold pdu_byte. rewrite Hv. apply ptr_read_same; cbn; unfold MB_SER_PDU_PDU_OFF; [lia|].
  by replace (Z.to_nat (1 + Z.of_nat i)) with (S i) by lia.
Qed.

Lemma pdu_byte_range b i : is_byte (pdu_byte b m i).
Proof.
  unfold pdu_byte. destruct (_ !! _) as [v|] eqn:E; [|by unfold is_byte; cbn; lia].
  by eapply Forall_lookup_1; [apply buffer_bytes|exact E].
Qed.

Lemma pdu_word_range b i : 0 <= pdu_word b m i < 65536.
Proof.
  pose proof (pdu_byte_range b i). pose proof (pdu_byte_range b (S i)).
  unfold pdu_word, is_byte in *. lia.
Qed.

Lemma frame_u16_pdu b i : (i < 251)%nat ->
  frame_u16 (pdu_frame b) (Z.of_nat i) m = Ok (pdu_word b m i, m).
Proof.
  intros Hi. unfold frame_u16. rewrite (run_bind_ok _ _ _ _ _ (read_pdu b i ltac:(lia))).
  replace (Z.of_nat i + 1) with (Z.of_nat (S i)) by lia.
  rewrite (run_bind_ok _ _ _ _ _ (read_pdu b (S i) ltac:(lia))). c_run.
  by rewrite be_word by apply pdu_byte_range.
Qed.

Lemma frame_address_pdu b i : (i < 251)%nat ->
  frame_address (pdu_frame b) (Z.of_nat i) m = Ok (u16 (pdu_word b m i + 1), m).
Proof. intros Hi. unfold frame_address. by rewrite (run_bind_ok _ _ _ _ _ (frame_u16_pdu b i Hi)). Qed.
End Frames.

(** The next read of a handler from a frame, by one of the lemmas above. *)
Ltac pdu_step H := rewrite (run_bind_ok _ _ _ _ _ (H ltac:(lia))).

(** ** Register callbacks on the master's state *)
Definition with_hold (m : master) (a n : Z) (buf : list Z) (off : Z) : master :=
  m <| usMRegHoldBuf :=
    stored_regs (usMRegHoldBuf m) (ucMBMasterDestAddress m) M_REG_HOLDING_NREGS a n buf off |>.

Definition with_input (m : master) (a n : Z) (buf : list Z) (off : Z) : master :=
  m <| usMRegInBuf :=
    stored_regs (usMRegInBuf m) (ucMBMasterDestAddress m) M_REG_INPUT_NREGS a n buf off |>.

Section Callbacks.
Context (m : master) (Hm : master_wf m) (Hdest : 1 <= ucMBMasterDestAddress m <= 16).
Context (buf : list Z) (off a n : Z) (Hbuf : is_bytes buf) (Ha : 0 <= a < 65536) (Hoff : 0 <= off).

Lemma reg_holding_cb_ok : 0 <= n -> (a + n <= 100 -> off + 2 * n <= Z.of_nat (length buf)) ->
  eMBMasterRegHoldingCB buf off (u16 (a + 1)) n m =
    Ok (if a + n <=? 100 then (MB_ENOERR, with_hold m a n buf off) else (MB_ENOREG, m)).
Proof.
  intros Hn Hl. pose proof (mw_hold _ Hm) as Hlen. unfold eMBMasterRegHoldingCB, ucMBMasterGetDestAddress.
  c_run. rewrite regs_cb_ok by (done || (unfold M_REG_HOLDING_NREGS; lia)).
  change M_REG_HOLDING_NREGS with 100. destruct (a + n <=? 100); c_run; [done|]. by destruct m.
Qed.

Lemma reg_input_cb_ok : 0 <= n -> (a + n <= 100 -> off + 2 * n <= Z.of_nat (length buf)) ->
  eMBMasterRegInputCB buf off (u16 (a + 1)) n m =
    Ok (if a + n <=? 100 then (MB_ENOERR, with_input m a n buf off) else (MB_ENOREG, m)).
Proof.
  intros Hn Hl. pose proof (mw_in _ Hm) as Hlen. unfold eMBMasterRegInputCB, ucMBMasterGetDestAddress.
  c_run. rewrite regs_cb_ok by (done || (unfold M_REG_INPUT_NREGS; lia)).
  change M_REG_INPUT_NREGS with 100. destruct (a + n <=? 100); c_run; [done|]. by destruct m.
Qed.
End Callbacks.

(** ** The read handlers *)

(** The exception of a read response: [n] items are asked for, which take
    [bytes] bytes; the slave's table has [limit] items. *)
Definition read_exception (m : master) (usLen n bytes limit : Z) : Z :=
  if xFrameIsBroadcast (master_rtu m) then MB_EX_NONE
  else if (usLen <? 2) || (n =? 0) || negb (bytes =? rcvd m 1) then MB_EX_ILLEGAL_DATA_VALUE
  else if sent_word m 1 + n <=? limit then MB_EX_NONE else MB_EX_ILLEGAL_DATA_ADDRESS.

(** Whether the data of the response is stored. *)
Definition read_stores (m : master) (usLen n bytes limit : Z) : bool :=
  negb (xFrameIsBroadcast (master_rtu m)) &&
  (read_exception m usLen n bytes limit =? MB_EX_NONE).

Section Read.
Context (m : master) (Hm : master_wf m) (Hdest : 1 <= ucMBMasterDestAddress m <= 16) (usLen : Z).

(** The common text of the four handlers. *)
Definition read_handler (bytes : Z -> Z) (cb : list Z -> Z -> Z -> Z -> M master eMBErrorCode) : M master Z :=
  bc ← is_broadcast;
  if bc : bool then mret MB_EX_NONE else
  if usLen >=? MB_PDU_SIZE_MIN + 1 then
    a ← frame_address vMBMasterGetPDUSndBuf 1;
    cnt ← frame_u16 vMBMasterGetPDUSndBuf 3;
    k ← rtu (ptr_read rcv_frame 1);
    if (cnt >=? 1) && (bytes cnt =? k) then
      e ← call_cb cb rcv_frame 2 a cnt;
      mret (prveMBError2Exception e)
    else mret MB_EX_ILLEGAL_DATA_VALUE
  else mret MB_EX_ILLEGAL_DATA_VALUE.

Lemma read_handler_eq bytes cb :
  let n := sent_word m 3 in
  read_handler bytes cb m =
    if xFrameIsBroadcast (master_rtu m) then Ok (MB_EX_NONE, m)
    else if (usLen <? 2) || (n =? 0) || negb (bytes n =? rcvd m 1)
    then Ok (MB_EX_ILLEGAL_DATA_VALUE, m)
    else (e ← cb (ucMasterRTURcvBuf (master_rtu m)) 3 (u16 (sent_word m 1 + 1)) n;
          mret (prveMBError2Exception e)) m.
Proof.
  intros n. pose proof (pdu_word_range m Hm SndBuf 3) as Hn. fold n in Hn. unfold read_handler.
  rewrite (run_bind_ok _ _ _ _ _ (is_broadcast_same m)).
  destruct (xFrameIsBroadcast _); [done|]. unfold MB_PDU_SIZE_MIN.
  destruct (Z.geb_spec usLen (1 + 1)) as [Hl|Hl]; [|by rewrite (proj2 (Z.ltb_lt _ _)) by lia].
  rewrite (proj2 (Z.ltb_ge _ _)) by lia. cbn [orb].
  pdu_step (frame_address_pdu m Hm SndBuf 1). pdu_step (frame_u16_pdu m Hm SndBuf 3). fold n.
  pdu_step (read_pdu m Hm RcvBuf 1).
  destruct (Z.geb_spec n 1) as [Hn1|Hn1]; [|by rewrite (proj2 (Z.eqb_eq n 0)) by lia].
  rewrite (proj2 (Z.eqb_neq n 0)) by lia. cbn [andb orb].
  destruct (Z.eqb_spec (bytes n) (rcvd m 1)) as [Hb|Hb]; [|done]. cbn [negb].
  unfold mbind, M_bind. by rewrite call_cb_same.
Qed.

(** With a callback that never faults. *)
Lemma read_handler_ok bytes cb limit (store : master) :
  let n := sent_word m 3 in
  (1 <= n -> bytes n = rcvd m 1 ->
     cb (ucMasterRTURcvBuf (master_rtu m)) 3 (u16 (sent_word m 1 + 1)) n m =
       Ok (if sent_word m 1 + n <=? limit then (MB_ENOERR, store) else (MB_ENOREG, m))) ->
  read_handler bytes cb m =
    Ok (read_exception m usLen n (bytes n) limit,
        if read_stores m usLen n (bytes n) limit then store else m).
Proof.
  intros n Hcb. pose proof (pdu_word_range m Hm SndBuf 3) as Hn. fold n in Hn.
  rewrite read_handler_eq. fold n. unfold read_stores, read_exception.
  destruct (xFrameIsBroadcast _); [done|]. cbn [negb andb].
  destruct (usLen <? 2); [done|]. cbn [orb]. destruct (Z.eqb_spec n 0); [done|]. cbn [orb].
  destruct (Z.eqb_spec (bytes n) (rcvd m 1)) as [Hb|]; [|done]. cbn [negb].
  specialize (Hcb ltac:(lia) Hb). revert Hcb.
  destruct (_ <=? limit); intros Hcb; by rewrite (run_bind_ok _ _ _ _ _ Hcb).
Qed.
End Read.

Lemma read_holding_ok m usLen : master_wf m -> 1 <= ucMBMasterDestAddress m <= 16 ->
  let a := sent_word m 1 in
  let n := sent_word m 3 in
  eMBMasterFuncReadHoldingRegister rcv_frame usLen m =
    Ok (read_exception m usLen n (2 * n) 100,
        if read_stores m usLen n (2 * n) 100
        then with_hold m a n (ucMasterRTURcvBuf (master_rtu m)) 3 else m).
Proof.
  intros Hm Hd a n. pose proof (pdu_word_range m Hm SndBuf 1) as Ha.
  apply (read_handler_ok m Hm usLen (Z.mul 2)); intros Hn Hb. apply reg_holding_cb_ok; try done; try lia.
  - apply Hm.
  - rewrite (mw_rcv_len _ Hm). lia.
Qed.

Lemma read_input_ok m usLen : master_wf m -> 1 <= ucMBMasterDestAddress m <= 16 ->
  let a := sent_word m 1 in
  let n := sent_word m 3 in
  eMBMasterFuncReadInputRegister rcv_frame usLen m =
    Ok (read_exception m usLen n (2 * n) 100,
        if read_stores m usLen n (2 * n) 100
        then with_input m a n (ucMasterRTURcvBuf (master_rtu m)) 3 else m).
Proof.
  intros Hm Hd a n. pose proof (pdu_word_range m Hm SndBuf 1) as Ha.
  apply (read_handler_ok m Hm usLen (Z.mul 2)); intros Hn Hb. apply reg_input_cb_ok; try done; try lia.
  - apply Hm.
  - rewrite (mw_rcv_len _ Hm). lia.
Qed.

(** C25: The response to a register read, for all frames: it is ignored when the request was a broadcast; rejected with MB_EX_ILLEGAL_DATA_VALUE when it is shorter than two bytes, when the request asked for no register or when its byte count is not twice the number asked for; rejected with MB_EX_ILLEGAL_DATA_ADDRESS when the range asked for passes the 100 registers kept for a slave; otherwise the registers of the addressed slave from the requested address become the big-endian words of the response and nothing else of the master changes. No read or write leaves the frame buffers or the tables. *)
Theorem read_registers_response m usLen :
  master_wf m -> 1 <= ucMBMasterDestAddress m <= 16 ->
  let a := sent_word m 1 in
  let n := sent_word m 3 in
  let rcv := ucMasterRTURcvBuf (master_rtu m) in
  eMBMasterFuncReadHoldingRegister rcv_frame usLen m =
    Ok (read_exception m usLen n (2 * n) 100,
        if read_stores m usLen n (2 * n) 100 then with_hold m a n rcv 3 else m) /\
  eMBMasterFuncReadInputRegister rcv_frame usLen m =
    Ok (read_exception m usLen n (2 * n) 100,
        if read_stores m usLen n (2 * n) 100 then with_input m a n rcv 3 else m).
Proof. intros Hm Hd a n rcv. split; [by apply read_holding_ok|by apply read_input_ok]. Qed.

(** A master that has sent [pdu] to slave 1 and received [response]. *)
Definition example_master (dest : Z) (pdu response : list Z) : master :=
  MkMaster dest false STATE_ENABLED (Some rcv_frame) dest (Z.of_nat (length response))
    (repeat 0 32) (repeat 0 128) (repeat 0 1600) (repeat 0 1600) (repeat 0 32) 0
    ((example_rtu pdu) <| ucMasterRTURcvBuf := dest :: response ++ repeat 0 (255 - length response) |>).

Lemma example_master_wf dest pdu response : is_byte dest -> is_bytes pdu -> is_bytes response ->
  (length pdu <= 252)%nat -> (length response <= 255)%nat -> master_wf (example_master dest pdu response).
Proof.
  intros Hd Hp Hr Hlp Hlr.
  assert (forall n, is_bytes (repeat 0 n)) as Hz by (intros n; induction n; cbn; constructor; [unfold is_byte; lia|done]).
  split; cbn -[repeat Nat.sub]; rewrite ?length_app, ?repeat_length; try lia; try done;
    repeat (apply Forall_cons; split); try apply Forall_app; try done.
Qed.

Lemma read_registers_response_witness :
  exists m, eMBMasterFuncReadHoldingRegister rcv_frame 6
    (example_master 1 [3; 0; 2; 0; 2] [3; 4; 0; 7; 1; 0]) = Ok (MB_EX_NONE, m) /\
    usMRegHoldBuf m !! 2%nat = Some 7 /\ usMRegHoldBuf m !! 3%nat = Some 256.
Proof.
  eexists. destruct (read_registers_response (example_master 1 [3; 0; 2; 0; 2] [3; 4; 0; 7; 1; 0]) 6)
    as [H _].
  - by apply example_master_wf; [unfold is_byte; lia|bytes_ok|bytes_ok|cbn; lia|cbn; lia].
  - cbn. lia.
  - rewrite H. split; [reflexivity|]. by vm_compute.
Defined.

(** The response to a read of bits, for the table [sel] of [limit] bits per
    slave: the field is stored, or the access to the byte after it faults. *)
Definition bits_response (handler : M master Z) (sel : master -> list Z)
    (put : list Z -> master -> master) (limit : Z) (m : master) (usLen : Z) : Prop :=
  let a := sent_word m 1 in
  let n := sent_word m 3 in
  let rcv := ucMasterRTURcvBuf (master_rtu m) in
  let row := (ucMBMasterDestAddress m - 1) * (limit / 8) in
  let last := row + a / 8 + byte_count n in
  (read_stores m usLen n (bit_bytes n) limit = false ->
     handler m = Ok (read_exception m usLen n (bit_bytes n) limit, m)) /\
  (read_stores m usLen n (bit_bytes n) limit = true -> padded rcv 3 n ->
     (last < Z.of_nat (length (sel m)) ->
        exists bits', handler m = Ok (MB_EX_NONE, put bits' m) /\
          is_bytes bits' /\ length bits' = length (sel m) /\
          forall k, 0 <= k -> bit bits' k = laid_bits (sel m) rcv 3 (8 * row + a) n k) /\
     (last >= Z.of_nat (length (sel m)) -> handler m = Fault FOutOfBounds)).

Lemma bits_response_ok m usLen cb sel put limit :
  master_wf m -> 1 <= ucMBMasterDestAddress m -> 0 < limit <= 64 -> is_bytes (sel m) ->
  put (sel m) m = m ->
  (forall a n, cb (ucMasterRTURcvBuf (master_rtu m)) 3 a n m =
     match bits_cb (sel m) (ucMBMasterDestAddress m) limit (ucMasterRTURcvBuf (master_rtu m)) 3 a n with
     | Ok (e, bits) => Ok (e, put bits m) | Fault f => Fault f | Blocked => Blocked end) ->
  bits_response (read_handler usLen bit_bytes cb) sel put limit m usLen.
Proof.
  intros Hm Hd Hlim Hsel Hput Hcb. unfold bits_response. cbv zeta. rewrite read_handler_eq by done.
  unfold read_stores, read_exception.
  pose proof (pdu_word_range m Hm SndBuf 1) as Ha. pose proof (pdu_word_range m Hm SndBuf 3) as Hn.
  destruct (xFrameIsBroadcast _); [done|]. cbn [negb andb].
  destruct (usLen <? 2); [done|]. cbn [orb]. destruct (Z.eqb_spec (sent_word m 3) 0) as [|Hn0]; [done|]. cbn [orb].
  destruct (negb _); [done|]. unfold mbind, M_bind. rewrite Hcb.
  set (n := sent_word m 3) in *. set (a := sent_word m 1) in *.
  destruct (Z.leb_spec (a + n) limit) as [Hle|Hgt]; (split; [intros Hs|intros Hs Hpad]); try done.
  - assert (byte_count n <= 8) as Hbc by (unfold byte_count; Z.to_euclidean_division_equations; lia).
    edestruct (bits_cb_ok (sel m) (ucMBMasterDestAddress m) limit (ucMasterRTURcvBuf (master_rtu m)) 3 a n)
      as [Hin Hout]; try done; try lia; [apply mw_rcv_bytes, Hm|rewrite (mw_rcv_len _ Hm); lia|].
    split; intros Hlast.
    + destruct (Hin Hlast) as (bits' & -> & H). by exists bits'.
    + by rewrite Hout.
  - rewrite bits_cb_eq, (proj2 (Z.leb_gt _ _)) by lia. by rewrite Hput.
Qed.



(** ** The write handlers *)

(** The exception of a callback on [n] holding registers at [a]. *)
Definition range_exception (a n : Z) : Z :=
  if a + n <=? M_REG_HOLDING_NREGS then MB_EX_NONE else MB_EX_ILLEGAL_DATA_ADDRESS.

Definition store_hold (m : master) (b : frame_buffer) (a n off : Z) : Z * master :=
  (range_exception a n,
   if a + n <=? M_REG_HOLDING_NREGS then with_hold m a n (buffer b (master_rtu m)) off else m).

Lemma hold_call m b i a n : master_wf m -> 1 <= ucMBMasterDestAddress m <= 16 ->
  0 <= a < 65536 -> 0 <= n -> 0 <= i -> i + 1 + 200 <= 253 ->
  (e ← call_cb eMBMasterRegHoldingCB (pdu_frame b) i (u16 (a + 1)) n;
   mret (prveMBError2Exception e)) m = Ok (store_hold m b a n (i + 1)).
Proof.
  intros Hm Hd Ha Hn Hi Hi2. unfold mbind, M_bind. rewrite call_cb_same.
  change ((pdu_frame b).2 + i) with (1 + i). change ((pdu_frame b).1) with b.
  pose proof (buffer_length m Hm b). unfold store_hold, range_exception.
  replace (1 + i) with (i + 1) by lia.
  rewrite reg_holding_cb_ok by (done || (by apply buffer_bytes) || lia).
  change M_REG_HOLDING_NREGS with 100. by destruct (a + n <=? 100).
Qed.

(** The answers to register writes, for all frames. A single write is accepted when the echo has five bytes, and stores the echoed value; a multiple write is accepted when the echo has five bytes or the request was a broadcast, and when the byte count of the request fits its quantity, and stores the data of the request, read back from the send buffer; both store at the address in the frame they read it from, answer MB_EX_ILLEGAL_DATA_ADDRESS with nothing stored when the range passes the 100 registers of the slave, and MB_EX_ILLEGAL_DATA_VALUE with nothing stored otherwise. *)
Theorem write_registers_response m b usLen :
  master_wf m -> 1 <= ucMBMasterDestAddress m <= 16 ->
  eMBMasterFuncWriteHoldingRegister (pdu_frame b) usLen m =
    Ok (if usLen =? 5 then store_hold m b (pdu_word b m 1) 1 4
        else (MB_EX_ILLEGAL_DATA_VALUE, m)) /\
  eMBMasterFuncWriteMultipleHoldingRegister (pdu_frame b) usLen m =
    Ok (if ((usLen =? 5) || xFrameIsBroadcast (master_rtu m)) && (sent m 5 =? 2 * sent_word m 3)
        then store_hold m SndBuf (sent_word m 1) (sent_word m 3) 7
        else (MB_EX_ILLEGAL_DATA_VALUE, m)).
Proof.
  intros Hm Hd. pose proof (pdu_word_range m Hm SndBuf 3). split.
  - unfold eMBMasterFuncWriteHoldingRegister. change (MB_PDU_SIZE_MIN + 4) with 5.
    destruct (usLen =? 5); [|done]. pdu_step (frame_address_pdu m Hm b 1).
    apply hold_call; try done; try lia. by apply pdu_word_range.
  - unfold eMBMasterFuncWriteMultipleHoldingRegister. change (MB_PDU_SIZE_MIN + 4) with 5.
    rewrite (run_bind_ok _ _ _ _ _ (is_broadcast_same m)).
    destruct (_ || _); [|done]. cbn [andb].
    pdu_step (frame_address_pdu m Hm SndBuf 1). pdu_step (frame_u16_pdu m Hm SndBuf 3).
    pdu_step (read_pdu m Hm SndBuf 5). destruct (_ =? _); [|done].
    apply hold_call; try done; try lia. by apply pdu_word_range.
Qed.

Lemma write_registers_response_witness :
  exists m, eMBMasterFuncWriteMultipleHoldingRegister rcv_frame 5
      (example_master 3 [16; 0; 1; 0; 2; 4; 0; 9; 2; 1] [16; 0; 1; 0; 2]) = Ok (MB_EX_NONE, m) /\
    usMRegHoldBuf m !! 201%nat = Some 9 /\ usMRegHoldBuf m !! 202%nat = Some 513.
Proof.
  eexists.
  destruct (write_registers_response
    (example_master 3 [16; 0; 1; 0; 2; 4; 0; 9; 2; 1] [16; 0; 1; 0; 2]) RcvBuf 5) as [_ H].
  - by apply example_master_wf; [unfold is_byte; lia|bytes_ok|bytes_ok|cbn; lia|cbn; lia].
  - cbn. lia.
  - rewrite H. split; [reflexivity|]. by vm_compute.
Defined.
