(* ===== verification/MbMasterReq.v ===== *)
(** * Modbus master: the requests (modbus/functions/mbfunc*_m.c)

    The PDU each request puts into the send buffer, and what a request does with
    the resource, the event and its caller. *)
From S2P Require Import Prelude Ipc MbUtils MbPortMaster MbRtuMaster MbMaster MbMasterFunc.

(** ** Writing the send buffer *)

(** The master with [l] written into the PDU of the send buffer from offset [i]. *)
Definition put (m : master) (i : nat) (l : list Z) : master :=
  m <| master_rtu := (master_rtu m) <| ucMasterRTUSndBuf :=
    splice (ucMasterRTUSndBuf (master_rtu m)) (S i) l |> |>.

Abbreviation snd_length m := (length (ucMasterRTUSndBuf (master_rtu m))).

Definition be16 (v : Z) : list Z := [v / 256; v mod 256].

Lemma put_length m i l : (S i + length l <= snd_length m)%nat -> snd_length (put m i l) = snd_length m.
Proof. intros. by apply splice_length. Qed.

Lemma put_app m i l1 l2 j : (S i + length l1 <= snd_length m)%nat -> j = (i + length l1)%nat ->
  put (put m i l1) j l2 = put m i (l1 ++ l2).
Proof.
  intros H ->. unfold put at 3. by rewrite <- splice_app by done.
Qed.

Lemma pdu_set_ok m i v : (S i < snd_length m)%nat ->
  pdu_set (Z.of_nat i) v m = Ok (tt, put m i [u8 v]).
Proof.
  intros Hi. unfold pdu_set. apply run_zoom. unfold ptr_write. c_run.
  change (buffer vMBMasterGetPDUSndBuf.1 (master_rtu m)) with (ucMasterRTUSndBuf (master_rtu m)).
  change (vMBMasterGetPDUSndBuf.2 + Z.of_nat i) with (1 + Z.of_nat i). rewrite zset_ok by lia. c_run.
  rewrite <- splice_insert, splice_nil by done. by replace (Z.to_nat (1 + Z.of_nat i)) with (S i) by lia.
Qed.

Lemma pdu_set_out m i v : (snd_length m <= S i)%nat -> pdu_set (Z.of_nat i) v m = Fault FOutOfBounds.
Proof.
  intros Hi. unfold pdu_set, zoom, ptr_write. rewrite run_bind_gets.
  change (buffer vMBMasterGetPDUSndBuf.1 (master_rtu m)) with (ucMasterRTUSndBuf (master_rtu m)).
  change (vMBMasterGetPDUSndBuf.2 + Z.of_nat i) with (1 + Z.of_nat i).
  unfold zset. by rewrite decide_False by lia.
Qed.

Lemma pdu_set_u16_ok m i v : (S (S i) < snd_length m)%nat -> 0 <= v < 65536 ->
  pdu_set_u16 (Z.of_nat i) v m = Ok (tt, put m i (be16 v)).
Proof.
  intros Hi Hv. unfold pdu_set_u16. rewrite (run_bind_ok _ _ _ _ _ (pdu_set_ok m i _ ltac:(lia))).
  replace (Z.of_nat i + 1) with (Z.of_nat (S i)) by lia.
  rewrite pdu_set_ok, put_app by (rewrite ?put_length; cbn; lia). cbn [app]. unfold be16.
  rewrite Z.shiftr_div_pow2, u8_id by (unfold is_byte; Z.to_euclidean_division_equations; lia). done.
Qed.

Lemma put_nil m i : put m i [] = m.
Proof. unfold put. rewrite splice_nil. by destruct m as [? ? ? ? ? ? ? ? ? ? ? ? []]. Qed.

Definition is_word (w : Z) : Prop := 0 <= w < 65536.
Abbreviation is_words := (Forall is_word).
Abbreviation be_words := (flat_map be16).

#[export] Instance is_word_dec z : Decision (is_word z).
Proof. unfold is_word. apply _. Defined.

Lemma be_words_length l : length (be_words l) = (2 * length l)%nat.
Proof. induction l; cbn; lia. Qed.

Lemma copy_bytes_ok n : forall m off i data, is_bytes data ->
  (S off + i + n <= snd_length m)%nat -> (i + n <= length data)%nat ->
  copy_bytes n (Z.of_nat off) (Z.of_nat i) data m = Ok (tt, put m (off + i) (take n (drop i data))).
Proof.
  induction n as [|n IH]; intros m off i data Hb Hs Hd.
  { rewrite firstn_O, put_nil. done. }
  destruct (lookup_lt_is_Some_2 data i) as [v Hv]; [lia|]. cbn [copy_bytes].
  rewrite (zget_Some data _ v) by (lia || by rewrite Nat2Z.id). rewrite run_bind_lift.
  replace (Z.of_nat off + Z.of_nat i) with (Z.of_nat (off + i)) by lia.
  rewrite (run_bind_ok _ _ _ _ _ (pdu_set_ok m (off + i) v ltac:(lia))).
  replace (Z.of_nat i + 1) with (Z.of_nat (S i)) by lia.
  rewrite IH by (rewrite ?put_length; cbn; done || lia).
  rewrite put_app by (cbn; lia). rewrite (drop_S _ _ _ Hv). cbn [firstn app].
  by rewrite u8_id by (by eapply Forall_lookup_1).
Qed.

Lemma copy_regs_ok n : forall m off i data, is_words data ->
  (S off + 2 * (i + n) <= snd_length m)%nat -> (i + n <= length data)%nat ->
  copy_regs n (Z.of_nat off) (Z.of_nat i) data m =
    Ok (tt, put m (off + 2 * i) (be_words (take n (drop i data)))).
Proof.
  induction n as [|n IH]; intros m off i data Hb Hs Hd.
  { rewrite firstn_O. cbn [flat_map]. by rewrite put_nil. }
  destruct (lookup_lt_is_Some_2 data i) as [v Hv]; [lia|]. cbn [copy_regs].
  rewrite (zget_Some data _ v) by (lia || by rewrite Nat2Z.id). rewrite run_bind_lift.
  replace (Z.of_nat off + 2 * Z.of_nat i) with (Z.of_nat (off + 2 * i)) by lia.
  rewrite (run_bind_ok _ _ _ _ _ (pdu_set_u16_ok m (off + 2 * i) v ltac:(lia)
    (Forall_lookup_1 _ _ _ _ Hb Hv))).
  replace (Z.of_nat i + 1) with (Z.of_nat (S i)) by lia.
  rewrite IH by (rewrite ?put_length; cbn; done || lia).
  rewrite put_app by (cbn; lia). by rewrite (drop_S _ _ _ Hv).
Qed.

(** Registers that do not fit the send buffer. *)
Lemma copy_regs_out n : forall m off i data, is_words data ->
  (S off + 2 * i <= snd_length m)%nat -> (snd_length m < S off + 2 * (i + n))%nat ->
  (i + n <= length data)%nat ->
  copy_regs n (Z.of_nat off) (Z.of_nat i) data m = Fault FOutOfBounds.
Proof.
  induction n as [|n IH]; intros m off i data Hb Hlo Hs Hd; [lia|].
  destruct (lookup_lt_is_Some_2 data i) as [v Hv]; [lia|]. cbn [copy_regs].
  rewrite (zget_Some data _ v) by (lia || by rewrite Nat2Z.id). rewrite run_bind_lift.
  replace (Z.of_nat off + 2 * Z.of_nat i) with (Z.of_nat (off + 2 * i)) by lia.
  destruct (decide (S (S (off + 2 * i)) < snd_length m)%nat) as [Hin|Hout].
  - rewrite (run_bind_ok _ _ _ _ _ (pdu_set_u16_ok m (off + 2 * i) v Hin
      (Forall_lookup_1 _ _ _ _ Hb Hv))).
    replace (Z.of_nat i + 1) with (Z.of_nat (S i)) by lia.
    apply IH; rewrite ?put_length; cbn; done || lia.
  - apply run_bind_fault. unfold pdu_set_u16.
    destruct (decide (S (off + 2 * i) < snd_length m)%nat) as [Hin|Hout'].
    + rewrite (run_bind_ok _ _ _ _ _ (pdu_set_ok m (off + 2 * i) _ Hin)).
      replace (Z.of_nat (off + 2 * i) + 1) with (Z.of_nat (S (off + 2 * i))) by lia.
      apply pdu_set_out. rewrite put_length; cbn; lia.
    + apply run_bind_fault, pdu_set_out. lia.
Qed.

(** ** The PDUs *)

(** The master with a request for slave [dest] in its send buffer. *)
Definition prepared (dest : Z) (pdu : list Z) (m : master) : master :=
  let m := put (m <| ucMBMasterDestAddress := dest |>) 0 pdu in
  m <| master_rtu := (master_rtu m) <| usMasterSendPDULength := Z.of_nat (length pdu) |> |>.

Lemma pdu_length_ok m dest pdu n : n = Z.of_nat (length pdu) -> n < 65536 ->
  pdu_length n (put (m <| ucMBMasterDestAddress := dest |>) 0 pdu) = Ok (tt, prepared dest pdu m).
Proof.
  intros -> Hn. unfold pdu_length, vMBMasterSetPDUSndLength. erewrite run_zoom by done.
  rewrite u16_small by lia. done.
Qed.

(** The five bytes every request starts with. *)
Definition request_head (a n func : Z) : list Z := u8 func :: be16 a ++ be16 n.

(** The length of a buffer that was written to. *)
Ltac put_len :=
  lazymatch goal with
  | |- context [length (ucMasterRTUSndBuf (master_rtu (put _ _ _)))] => rewrite put_length; put_len
  | _ => cbn [length app be16 request_head]; lia
  end.

(** Write the next field, and collect what is written. *)
Ltac put_byte i := erewrite run_bind_ok by (apply (pdu_set_ok _ i); put_len).
Ltac put_word i := erewrite run_bind_ok by (apply (pdu_set_u16_ok _ i); [put_len|done]).
Ltac put_merge := repeat rewrite put_app by put_len; cbn [app be16].

Ltac pdu_len :=
  apply pdu_length_ok; unfold MB_PDU_SIZE_MIN; cbn [length app be16 request_head];
  rewrite ?be_words_length, ?length_take; lia.

Section Builders.
Context (m : master) (Hm : master_wf m) (dest a n : Z).
Context (Ha : 0 <= a < 65536) (Hn : 0 <= n < 65536).

Lemma head_ok {A} func (k : M master A) :
  (vMBMasterSetDestAddress dest;;
   pdu_set MB_PDU_FUNC_OFF func;; pdu_set_u16 1 a;; pdu_set_u16 3 n;; k) m =
    k (put (m <| ucMBMasterDestAddress := dest |>) 0 (request_head a n func)).
Proof.
  unfold vMBMasterSetDestAddress. c_run. set (m1 := m <| _ := _ |>).
  assert (snd_length m1 = 253%nat) as Hl by apply Hm. clearbody m1.
  change MB_PDU_FUNC_OFF with (Z.of_nat 0). put_byte 0%nat.
  change (pdu_set_u16 1) with (pdu_set_u16 (Z.of_nat 1)). put_word 1%nat.
  change (pdu_set_u16 3) with (pdu_set_u16 (Z.of_nat 3)). put_word 3%nat.
  by put_merge.
Qed.
End Builders.

Lemma head_length func a n : length (request_head a n func) = 5%nat.
Proof. done. Qed.

Lemma dest_length m dest : master_wf m -> snd_length (m <| ucMBMasterDestAddress := dest |>) = 253%nat.
Proof. intros Hm. apply Hm. Qed.

Lemma byte_count_range n : 0 <= n < 2033 -> 0 <= byte_count n < 256.
Proof. intros. unfold byte_count. Z.to_euclidean_division_equations; lia. Qed.

Lemma bit_bytes_eq n : 0 <= n < 2033 -> bit_bytes n = byte_count n.
Proof.
  intros Hn. unfold bit_bytes. change 7 with (Z.ones 3). rewrite Z.land_ones by lia. change (2 ^ 3) with 8.
  rewrite byte_count_eq by lia. pose proof (byte_count_range n Hn) as Hb. rewrite byte_count_eq in Hb by lia.
  destruct (Z.eqb_spec (n mod 8) 0); cbn [negb]; rewrite u8_id by (unfold is_byte; case_decide; lia);
    case_decide; lia.
Qed.

Lemma simple_pdu_ok m func dest a n : master_wf m -> is_word a -> is_word n ->
  simple_pdu func dest a n m = Ok (tt, prepared dest (request_head a n func) m).
Proof. intros Hm Ha Hn. unfold simple_pdu. rewrite head_ok by done. by rewrite pdu_length_ok. Qed.


