(* ===== verification/MbMasterPoll.v ===== *)
(** * Modbus master: the poll loop and the life cycle (modbus/mb_m.c)

    The frame functions are called directly: [eMBMasterInit] in RTU mode, the
    only one configured, always installs the same ones.  [MB_PORT_HAS_CLOSE] is
    defined nowhere, so mb_m.c sets it to 0 and the close callback is NULL.  The poll thread suspends inside [xMBMasterPortEventGet];
    [eMBMasterPoll_resumed] continues it. *)
From S2P Require Import Prelude ModbusCrc Ipc MbUtils MbPortMaster MbRtuMaster MbMaster MbMasterFunc.

(** ** Life cycle *)
Definition eMBMasterInit (open_ok : bool) (eMode : eMBMode) (ucPort ulBaudRate : Z)
    (eParity : eMBParity) : M master eMBErrorCode :=
  eStatus ← match eMode with
            | MB_RTU => rtu (eMBMasterRTUInit open_ok ucPort ulBaudRate eParity)
            | MB_ASCII | MB_TCP => mret MB_EINVAL
            end;
  if bool_decide (eStatus = MB_ENOERR) then
    ok ← mport_of xMBMasterPortEventInit;
    eStatus ← (if negb ok then mret MB_EPORTERR
               else eMBState ::= STATE_DISABLED;; mret eStatus);
    mport_of vMBMasterOsResInit;;
    mret eStatus
  else mret eStatus.

Definition eMBMasterClose : M master eMBErrorCode :=
  state ← gets eMBState;
  mret (if bool_decide (state = STATE_DISABLED) then MB_ENOERR else MB_EILLSTATE).

Definition eMBMasterEnable : M master eMBErrorCode :=
  state ← gets eMBState;
  if bool_decide (state = STATE_DISABLED) then
    rtu eMBMasterRTUStart;;
    eMBState ::= STATE_ENABLED;;
    mret MB_ENOERR
  else mret MB_EILLSTATE.

Definition eMBMasterDisable : M master eMBErrorCode :=
  state ← gets eMBState;
  match state with
  | STATE_ENABLED =>
      rtu eMBMasterRTUStop;;
      eMBState ::= STATE_DISABLED;;
      mret MB_ENOERR
  | STATE_DISABLED => mret MB_ENOERR
  | STATE_NOT_INITIALIZED => mret MB_EILLSTATE
  end.

(** ** The poll loop *)
Definition xMasterFuncHandlers : list (Z * (frame_ptr -> Z -> M master Z)) :=
  [(MB_FUNC_OTHER_REPORT_SLAVEID, eMBFuncReportSlaveID);
   (MB_FUNC_READ_INPUT_REGISTER, eMBMasterFuncReadInputRegister);
   (MB_FUNC_READ_HOLDING_REGISTER, eMBMasterFuncReadHoldingRegister);
   (MB_FUNC_WRITE_MULTIPLE_REGISTERS, eMBMasterFuncWriteMultipleHoldingRegister);
   (MB_FUNC_WRITE_REGISTER, eMBMasterFuncWriteHoldingRegister);
   (MB_FUNC_READWRITE_MULTIPLE_REGISTERS, eMBMasterFuncReadWriteMultipleHoldingRegister);
   (MB_FUNC_READ_COILS, eMBMasterFuncReadCoils);
   (MB_FUNC_WRITE_SINGLE_COIL, eMBMasterFuncWriteCoil);
   (MB_FUNC_WRITE_MULTIPLE_COILS, eMBMasterFuncWriteMultipleCoils);
   (MB_FUNC_READ_DISCRETE_INPUTS, eMBMasterFuncReadDiscreteInputs)].

(** The search stops at the first entry whose code is 0: the unused entries of
    the array, which the list leaves out. *)
Fixpoint find_handler (ucFunctionCode : Z)
    (handlers : list (Z * (frame_ptr -> Z -> M master Z))) :
    option (frame_ptr -> Z -> M master Z) :=
  match handlers with
  | [] => None
  | (code, pxHandler) :: handlers =>
      if code =? 0 then None
      else if code =? ucFunctionCode then Some pxHandler
      else find_handler ucFunctionCode handlers
  end.

(** [for (j = ...; j <= MB_MASTER_TOTAL_SLAVE_NUM; j++)], [n] rounds from [j]. *)
Fixpoint broadcast_loop (n : nat) (j : Z) (pxHandler : frame_ptr -> Z -> M master Z)
    (frame : frame_ptr) (eException : Z) : M master Z :=
  match n with
  | O => mret eException
  | S n =>
      vMBMasterSetDestAddress j;;
      len ← gets usLength;
      eException ← pxHandler frame len;
      broadcast_loop n (j + 1) pxHandler frame eException
  end.

Definition run_handler (pxHandler : frame_ptr -> Z -> M master Z) (frame : frame_ptr) : M master Z :=
  vMBMasterSetCBRunInMasterMode true;;
  bc ← is_broadcast;
  eException ← (if bc : bool then
                  len ← rtu usMBMasterGetPDUSndLength;
                  usLength ::= len;;
                  broadcast_loop (Z.to_nat MB_MASTER_TOTAL_SLAVE_NUM) 1 pxHandler frame
                    MB_EX_ILLEGAL_FUNCTION
                else
                  len ← gets usLength;
                  pxHandler frame len);
  vMBMasterSetCBRunInMasterMode false;;
  mret eException.

Definition post_event (e : Z) : M master unit := mport_of (xMBMasterPortEventPost e);; skip.

Definition poll_frame_received : M master unit :=
  '(eStatus, r) ← rtu eMBMasterRTUReceive;
  addr ← (match r with
          | Some (addr, frame, len) =>
              ucRcvAddress ::= addr;;
              ucMBFrame ::= Some frame;;
              usLength ::= len;;
              mret addr
          | None => gets ucRcvAddress
          end);
  dest ← ucMBMasterGetDestAddress;
  if bool_decide (eStatus = MB_ENOERR) && (addr =? dest) then post_event EV_MASTER_EXECUTE
  else
    rtu (vMBMasterSetErrorType EV_ERROR_RECEIVE_DATA);;
    post_event EV_MASTER_ERROR_PROCESS.

Definition poll_execute : M master unit :=
  frame ← gets ucMBFrame;
  match frame with
  | None => lift (Fault FNull)
  | Some frame =>
      ucFunctionCode ← rtu (ptr_read frame MB_PDU_FUNC_OFF);
      eException ← (if negb (Z.shiftr ucFunctionCode 7 =? 0) then rtu (ptr_read frame MB_PDU_DATA_OFF)
                    else match find_handler ucFunctionCode xMasterFuncHandlers with
                         | Some pxHandler => run_handler pxHandler frame
                         | None => mret MB_EX_ILLEGAL_FUNCTION
                         end);
      if negb (eException =? MB_EX_NONE) then
        rtu (vMBMasterSetErrorType EV_ERROR_EXECUTE_FUNCTION);;
        post_event EV_MASTER_ERROR_PROCESS
      else
        mport_of vMBMasterCBRequestScuuess;;
        mport_of vMBMasterRunResRelease
  end.

(** The status of the send is dropped. *)
Definition poll_frame_sent : M master unit :=
  ucMBFrame ::= Some vMBMasterGetPDUSndBuf;;
  dest ← ucMBMasterGetDestAddress;
  len ← rtu usMBMasterGetPDUSndLength;
  rtu (eMBMasterRTUSend dest vMBMasterGetPDUSndBuf len);;
  skip.

Definition poll_error_process : M master unit :=
  errorType ← rtu eMBMasterGetErrorType;
  ucMBFrame ::= Some vMBMasterGetPDUSndBuf;;
  match errorType with
  | EV_ERROR_RESPOND_TIMEOUT => mport_of vMBMasterErrorCBRespondTimeout
  | EV_ERROR_RECEIVE_DATA => mport_of vMBMasterErrorCBReceiveData
  | EV_ERROR_EXECUTE_FUNCTION => mport_of vMBMasterErrorCBExecuteFunction
  end;;
  mport_of vMBMasterRunResRelease.

Definition poll_dispatch (eEvent : Z) : M master unit :=
  if eEvent =? EV_MASTER_READY then skip
  else if eEvent =? EV_MASTER_FRAME_RECEIVED then poll_frame_received
  else if eEvent =? EV_MASTER_EXECUTE then poll_execute
  else if eEvent =? EV_MASTER_FRAME_SENT then poll_frame_sent
  else if eEvent =? EV_MASTER_ERROR_PROCESS then poll_error_process
  else skip.

(** [None]: the thread waits for an event. *)
Definition eMBMasterPoll (self : rt_thread) : M master (option eMBErrorCode) :=
  state ← gets eMBState;
  if negb (bool_decide (state = STATE_ENABLED)) then mret (Some MB_EILLSTATE) else
  e ← mport_of (xMBMasterPortEventGet self);
  match e with
  | None => mret None
  | Some eEvent => poll_dispatch eEvent;; mret (Some MB_ENOERR)
  end.

Definition eMBMasterPoll_resumed (thread : rt_thread) : M master eMBErrorCode :=
  eEvent ← lift (xMBMasterPortEventGet_resumed thread);
  poll_dispatch eEvent;;
  mret MB_ENOERR.

(** ** One turn of the loop *)
Abbreviation mport_in m := (mrtu_port (master_rtu m)).

Definition with_mport (f : mport -> mport) (m : master) : master :=
  m <| master_rtu := (master_rtu m) <| mrtu_port := f (mrtu_port (master_rtu m)) |> |>.

Lemma run_mport {A} (f : M mport A) m a p :
  f (mport_in m) = Ok (a, p) -> mport_of f m = Ok (a, with_mport (fun _ => p) m).
Proof. intros H. erewrite run_zoom by (apply run_zoom; exact H). done. Qed.

(** A thread that waits in [eMBMasterWaitRequestFinish], and one resumed there. *)
Definition finish_waiter (self : rt_thread) : rt_thread :=
  self <| error := RT_EOK |> <| event_set := finish_events |>
       <| event_info := Z.lor RT_EVENT_FLAG_OR RT_EVENT_FLAG_CLEAR |>.

Definition finished (self : rt_thread) (e : Z) : rt_thread := (finish_waiter self) <| event_set := e |>.

(** The event object with [word] pending and the requester waiting. *)
Definition busy_event (self : rt_thread) (word : Z) : rt_event :=
  MkEvent word [finish_waiter self] RT_IPC_FLAG_PRIO.
Definition idle_event : rt_event := MkEvent 0 [] RT_IPC_FLAG_PRIO.

Definition is_poll_event (e : Z) : Prop :=
  e = EV_MASTER_READY \/ e = EV_MASTER_FRAME_RECEIVED \/ e = EV_MASTER_EXECUTE \/
  e = EV_MASTER_FRAME_SENT \/ e = EV_MASTER_ERROR_PROCESS.

Lemma poll_takes poller self e m : eMBState m = STATE_ENABLED -> is_poll_event e ->
  xMasterOsEvent (mport_in m) = busy_event self e ->
  eMBMasterPoll poller m =
    (poll_dispatch e;; mret (Some MB_ENOERR))
      (with_mport (fun p => p <| xMasterOsEvent := busy_event self 0 |>) m).
Proof.
  intros Hst He Hev. unfold eMBMasterPoll. c_run. rewrite Hst. cbn [negb bool_decide decide_rel].
  rewrite bool_decide_eq_true_2 by done. cbn [negb].
  assert (xMBMasterPortEventGet poller (mport_in m) =
    Ok (Some e, (mport_in m) <| xMasterOsEvent := busy_event self 0 |>)) as E.
  { unfold xMBMasterPortEventGet, wait_master_event. c_run. rewrite Hev.
    by destruct He as [->|[->|[->|[->| ->]]]]. }
  by rewrite (run_bind_ok _ _ _ _ _ (run_mport _ _ _ _ E)).
Qed.

(** A poll event posted while the requester waits. *)
Lemma send_poll_event self e : is_poll_event e ->
  rt_event_send e (busy_event self 0) = (RT_EOK, [], busy_event self e).
Proof. by intros [->|[->|[->|[->| ->]]]]. Qed.

Definition is_finish_event (e : Z) : Prop :=
  e = EV_MASTER_PROCESS_SUCESS \/ e = EV_MASTER_ERROR_RESPOND_TIMEOUT \/
  e = EV_MASTER_ERROR_RECEIVE_DATA \/ e = EV_MASTER_ERROR_EXECUTE_FUNCTION.

Lemma send_finish_event self e : is_finish_event e ->
  rt_event_send e (busy_event self 0) = (RT_EOK, [finished self e], idle_event).
Proof. by intros [->|[->|[->| ->]]]. Qed.

(** ** The life cycle *)
Lemma rtu_start_ok s d : serial (mrtu_port s) = Some d -> serial_waiters_ok (mrtu_port s) ->
  eMBMasterRTUStart s = Ok (tt, s <| eRcvState := STATE_M_RX_INIT |>
    <| mrtu_port := t35_started (enabled_port true false (mrtu_port s)) |>).
Proof.
  intros Hs Hw. unfold eMBMasterRTUStart. c_run. destruct (enabled_port_ok true false _ d Hs Hw) as [E _].
  by erewrite run_bind_zoom by exact E.
Qed.

Lemma rtu_stop_ok s d : serial (mrtu_port s) = Some d -> serial_waiters_ok (mrtu_port s) ->
  eMBMasterRTUStop s = Ok (tt, s <| mrtu_port := timer_off (enabled_port false false (mrtu_port s)) |>).
Proof.
  intros Hs Hw. unfold eMBMasterRTUStop. destruct (enabled_port_ok false false _ d Hs Hw) as [E _].
  by erewrite run_bind_zoom by exact E.
Qed.

Definition enabled (m : master) : master :=
  m <| master_rtu := (master_rtu m) <| eRcvState := STATE_M_RX_INIT |>
         <| mrtu_port := t35_started (enabled_port true false (mport_in m)) |> |>
    <| eMBState := STATE_ENABLED |>.

Definition disabled (m : master) : master :=
  m <| master_rtu := (master_rtu m)
         <| mrtu_port := timer_off (enabled_port false false (mport_in m)) |> |>
    <| eMBState := STATE_DISABLED |>.

Lemma enable_ok m d : eMBState m = STATE_DISABLED ->
  serial (mport_in m) = Some d -> serial_waiters_ok (mport_in m) ->
  eMBMasterEnable m = Ok (MB_ENOERR, enabled m).
Proof.
  intros Hst Hs Hw. unfold eMBMasterEnable. c_run. rewrite Hst, bool_decide_eq_true_2 by done.
  by erewrite run_bind_zoom by exact (rtu_start_ok _ d Hs Hw).
Qed.

Lemma disable_ok m d : eMBState m = STATE_ENABLED ->
  serial (mport_in m) = Some d -> serial_waiters_ok (mport_in m) ->
  eMBMasterDisable m = Ok (MB_ENOERR, disabled m).
Proof.
  intros Hst Hs Hw. unfold eMBMasterDisable. c_run. rewrite Hst. cbv iota.
  by erewrite run_bind_zoom by exact (rtu_stop_ok _ d Hs Hw).
Qed.

(** The protocol state gates every entry of the master. Polling is refused with MB_EILLSTATE and changes nothing unless the stack is enabled; enabling and closing are refused likewise unless it is disabled, and closing has no effect; disabling succeeds from both initialised states and is refused before initialisation. Enabling puts the receiver into its start-up state with the receive interrupt on, nothing to transmit and the 3.5-character timer running; disabling switches the receive interrupt and the timer off and leaves nothing to transmit. *)
Theorem master_lifecycle self m d :
  serial (mport_in m) = Some d -> serial_waiters_ok (mport_in m) ->
  (eMBState m <> STATE_ENABLED -> eMBMasterPoll self m = Ok (Some MB_EILLSTATE, m)) /\
  (eMBState m <> STATE_DISABLED ->
     eMBMasterEnable m = Ok (MB_EILLSTATE, m) /\ eMBMasterClose m = Ok (MB_EILLSTATE, m)) /\
  (eMBState m = STATE_NOT_INITIALIZED -> eMBMasterDisable m = Ok (MB_EILLSTATE, m)) /\
  (eMBState m = STATE_DISABLED ->
     eMBMasterDisable m = Ok (MB_ENOERR, m) /\ eMBMasterClose m = Ok (MB_ENOERR, m) /\
     exists m', eMBMasterEnable m = Ok (MB_ENOERR, m') /\ eMBState m' = STATE_ENABLED /\
       eRcvState (master_rtu m') = STATE_M_RX_INIT /\
       serial (mport_in m') = Some (d <| rx_int := true |>) /\
       transmit_pending (mport_in m') = false /\
       timer (mport_in m') = MkTimer (t35_ticks (usT35TimeOut50us (mport_in m))) true) /\
  (eMBState m = STATE_ENABLED ->
     exists m', eMBMasterDisable m = Ok (MB_ENOERR, m') /\ eMBState m' = STATE_DISABLED /\
       serial (mport_in m') = Some (d <| rx_int := false |>) /\
       transmit_pending (mport_in m') = false /\ timer_active (timer (mport_in m')) = false).
Proof.
  intros Hs Hw. split_and!; intros Hst.
  - unfold eMBMasterPoll. c_run. by rewrite bool_decide_eq_false_2.
  - unfold eMBMasterEnable, eMBMasterClose. c_run. by rewrite !bool_decide_eq_false_2.
  - unfold eMBMasterDisable. c_run. by rewrite Hst.
  - split; [unfold eMBMasterDisable; c_run; by rewrite Hst|].
    split; [unfold eMBMasterClose; c_run; by rewrite bool_decide_eq_true_2|].
    exists (enabled m). split; [by apply (enable_ok m d)|].
    destruct (enabled_port_ok true false _ d Hs Hw) as [_ [Es Ep _ Er]].
    unfold port_rest in Er. injection Er as _ _ Et _ _.
    split_and!; try done. unfold enabled, t35_started, timer_started. cbn. by rewrite Et.
  - exists (disabled m). split; [by apply (disable_ok m d)|].
    by destruct (enabled_port_ok false false _ d Hs Hw) as [_ [Es Ep _ _]].
Qed.

Lemma master_lifecycle_witness :
  exists m, eMBMasterEnable ((example_master 1 [] []) <| eMBState := STATE_DISABLED |>) = Ok (MB_ENOERR, m) /\
    eMBState m = STATE_ENABLED /\ eRcvState (master_rtu m) = STATE_M_RX_INIT.
Proof.
  destruct (master_lifecycle (MkThread 1 1 0 0 0) ((example_master 1 [] []) <| eMBState := STATE_DISABLED |>)
    (MkSerial 9600 8 1 MB_PAR_NONE [] [] false true)) as (_ & _ & _ & H & _); [reflexivity|constructor|].
  destruct (H eq_refl) as (_ & _ & m & H1 & H2 & H3 & _). exists m. split; [exact H1|]. split; [exact H2|exact H3].
Defined.

(** Disabling the stack while a frame is being transmitted and enabling it again is fatal: the transmit machine keeps its state, so when the start-up timer fires the timer function finds the sender in the transmitting state and its RT_ASSERT fails. *)
Theorem master_restart_asserts m d :
  eMBState m = STATE_ENABLED -> eSndState (master_rtu m) = STATE_M_TX_XMIT ->
  serial (mport_in m) = Some d -> serial_waiters_ok (mport_in m) ->
  exists m1 m2, eMBMasterDisable m = Ok (MB_ENOERR, m1) /\ eMBMasterEnable m1 = Ok (MB_ENOERR, m2) /\
    timer_active (timer (mport_in m2)) = true /\ rtu timer_fires m2 = Fault FAssert.
Proof.
  intros Hst Hsnd Hs Hw. exists (disabled m), (enabled (disabled m)).
  destruct (enabled_port_ok false false _ d Hs Hw) as [_ [Es Ep Ew _]].
  split; [by apply (disable_ok m d)|]. split; [by apply (enable_ok _ (d <| rx_int := false |>))|].
  split; [done|].
  assert (forall s, eRcvState s = STATE_M_RX_INIT -> eSndState s = STATE_M_TX_XMIT ->
    timer_fires s = Fault FAssert) as G.
  { intros s Hr Hx. unfold timer_fires. rewrite (run_bind_ok _ _ _ _ _ (run_port_off s)).
    apply run_bind_fault. unfold xMBMasterRTUTimerExpired, expired_receiver. rewrite run_bind_bind, run_bind_gets.
    change (eRcvState (port_off s)) with (eRcvState s). rewrite Hr.
    rewrite (run_bind_ok _ _ _ _ _ (run_port_post _ _)). c_run. unfold expired_sender. c_run.
    set (s1 := _ <| eRcvState := _ |>). change (eSndState s1) with (eSndState s). rewrite Hx. by c_run. }
  unfold zoom. by rewrite G.
Qed.

(** A master that has just begun to send the five bytes of a request. *)
Definition example_sending : outcome (unit * master) :=
  poll_frame_sent ((example_master 1 [3; 0; 0; 0; 1] [])
    <| master_rtu := (example_rtu [3; 0; 0; 0; 1]) <| eRcvState := STATE_M_RX_IDLE |> |>).

Lemma master_restart_asserts_witness :
  exists m m1 m2, example_sending = Ok (tt, m) /\ eMBMasterDisable m = Ok (MB_ENOERR, m1) /\
    eMBMasterEnable m1 = Ok (MB_ENOERR, m2) /\ rtu timer_fires m2 = Fault FAssert.
Proof.
  eexists. edestruct master_restart_asserts as (m1 & m2 & H1 & H2 & _ & H3); cycle 4.
  - exists m1, m2. split; [vm_compute; reflexivity|]. split; [exact H1|]. split; [exact H2|exact H3].
  - reflexivity.
  - reflexivity.
  - reflexivity.
  - constructor.
Defined.
