(* ===== verification/MbMasterExchange.v ===== *)
(** * Modbus master: a request from its call to its result

    The requester, the poll loop, the transmit thread, the receive interrupt and
    the timer, run in the order in which each one wakes the next. *)
From S2P Require Import Prelude ModbusCrc Ipc MbUtils MbPortMaster MbRtuMaster MbMaster.
From S2P Require Import MbMasterFunc MbMasterReq MbMasterPoll.

(** ** The enabled master between requests *)
Record master_idle (d : serial_device) (m : master) : Prop := {
  mi_state : eMBState m = STATE_ENABLED;
  mi_wf : master_wf m;
  mi_inv : rtu_inv (master_rtu m);
  mi_machines : eRcvState (master_rtu m) = STATE_M_RX_IDLE /\ eSndState (master_rtu m) = STATE_M_TX_IDLE;
  mi_serial : serial (mport_in m) = Some d;
  mi_event : xMasterOsEvent (mport_in m) = idle_event;
  mi_res : xMasterRunRes (mport_in m) = rt_sem_init 1 RT_IPC_FLAG_PRIO
}.

(** ** While a request is served *)
Definition tables (m : master) := (ucMDiscInBuf m, ucMCoilBuf m, usMRegInBuf m, usMRegHoldBuf m).

(** [word] is what is pending for the poll loop. *)
Record flight (self : rt_thread) (word dest : Z) (pdu : list Z) (m0 m : master) : Prop := {
  fl_state : eMBState m = STATE_ENABLED;
  fl_wf : master_wf m;
  fl_inv : rtu_inv (master_rtu m);
  fl_event : xMasterOsEvent (mport_in m) = busy_event self word;
  fl_res : xMasterRunRes (mport_in m) = rt_sem_init 0 RT_IPC_FLAG_PRIO;
  fl_dest : ucMBMasterDestAddress m = dest;
  fl_sent : take (length pdu) (drop 1 (ucMasterRTUSndBuf (master_rtu m))) = pdu;
  fl_tables : tables m = tables m0
}.

(** The transport keeps its invariant when only the event and the semaphore change. *)
Lemma rtu_inv_mport s p : rtu_inv s -> serial p = serial (mrtu_port s) ->
  event_serial p = event_serial (mrtu_port s) -> timer p = timer (mrtu_port s) ->
  rtu_inv (s <| mrtu_port := p |>).
Proof.
  intros [] Hs He Ht. split; rtu_fields; rewrite ?Hs, ?Ht; try done;
    unfold serial_waiters_ok, transmit_pending in *; by rewrite ?He.
Qed.

Lemma flight_event self (word word' : Z) dest pdu m0 m : flight self word dest pdu m0 m ->
  flight self word' dest pdu m0 (with_mport (fun p => p <| xMasterOsEvent := busy_event self word' |>) m).
Proof.
  intros []. split; try done; [by destruct fl_wf0|]. by apply rtu_inv_mport.
Qed.

(** A poll event posted in flight. *)
Lemma flight_post self e dest pdu m0 m : is_poll_event e -> flight self 0 dest pdu m0 m ->
  flight self e dest pdu m0 (with_mport (post e) m).
Proof.
  intros He []. destruct (post_ok e (mport_in m)) as [_ [_ Hev _ (H1 & H2 & _ & H4 & _ & H6)]].
  rewrite fl_event0, (send_poll_event self e He) in Hev.
  split; try done; [by destruct fl_wf0|by apply rtu_inv_mport|]. by rewrite <- fl_res0.
Qed.

Lemma run_post_event e m : post_event e m = Ok (tt, with_mport (post e) m).
Proof.
  unfold post_event. destruct (post_ok e (mport_in m)) as [E _].
  by rewrite (run_bind_ok _ _ _ _ _ (run_mport _ _ _ _ E)).
Qed.

(** *** The request *)
Lemma rtu_inv_snd_buf s l n : rtu_inv s -> length l = 253%nat -> is_bytes l ->
  rtu_inv (s <| ucMasterRTUSndBuf := l |> <| usMasterSendPDULength := n |>).
Proof. intros [] Hl Hb. by split. Qed.

Lemma splice_bytes l i mid : is_bytes l -> is_bytes mid -> is_bytes (splice l i mid).
Proof.
  intros Hl Hm. unfold splice. apply Forall_app. split; [by apply Forall_take|].
  apply Forall_app. split; [done|by apply Forall_drop].
Qed.

Lemma splice_sent (l pdu : list Z) : (length pdu < length l)%nat ->
  take (length pdu) (drop 1 (splice l 1 pdu)) = pdu.
Proof. intros H. destruct l as [|x l]; [cbn in H; lia|]. 
  change (drop 1 (splice (x :: l) 1 pdu)) with (pdu ++ drop (length pdu) l). by rewrite take_app_length.
Qed.

Lemma prepared_wf dest pdu m : master_wf m -> is_bytes pdu -> (length pdu <= 252)%nat ->
  master_wf (prepared dest pdu m).
Proof.
  intros [] Hp Hl. split; try done; cbn; [rewrite splice_length by lia; done|by apply splice_bytes].
Qed.

Lemma request_starts self dest timeout pdu builder d m :
  master_idle d m -> 1 <= dest <= 16 -> is_bytes pdu -> (length pdu <= 252)%nat ->
  (forall m', master_wf m' -> builder m' = Ok (tt, prepared dest pdu m')) ->
  exists m1, request self false dest timeout builder m = Ok (ReqWaitFinish, m1) /\
    flight self EV_MASTER_FRAME_SENT dest pdu m m1 /\
    serial (mport_in m1) = Some d /\
    eRcvState (master_rtu m1) = STATE_M_RX_IDLE /\ eSndState (master_rtu m1) = STATE_M_TX_IDLE /\
    usMasterSendPDULength (master_rtu m1) = Z.of_nat (length pdu).
Proof.
  intros [] Hd Hpdu Hlen Hb. unfold request.
  rewrite Z.gtb_ltb, (proj2 (Z.ltb_ge _ _)) by (unfold MB_MASTER_TOTAL_SLAVE_NUM; lia).
  assert (xMBMasterRunResTake self timeout (mport_in m) =
    Ok (Some true, (mport_in m) <| xMasterRunRes := rt_sem_init 0 RT_IPC_FLAG_PRIO |>)) as E1.
  { unfold xMBMasterRunResTake. c_run. by rewrite mi_res0. }
  rewrite (run_bind_ok _ _ _ _ _ (run_mport _ _ _ _ E1)). clear E1.
  set (m1 := with_mport (fun _ => (mport_in m) <| xMasterRunRes := _ |>) m).
  assert (master_wf m1) as Hwf1 by by destruct mi_wf0.
  unfold request_body. rewrite (run_bind_ok _ _ _ _ _ (Hb m1 Hwf1)).
  pose proof (prepared_wf dest pdu m1 Hwf1 Hpdu Hlen) as Hwf2.
  set (m2 := prepared dest pdu m1) in *.
  assert (xMBMasterPortEventPost EV_MASTER_FRAME_SENT (mport_in m2) =
    Ok (true, (mport_in m2) <| xMasterOsEvent := MkEvent EV_MASTER_FRAME_SENT [] RT_IPC_FLAG_PRIO |>
                <| ready := ready (mport_in m2) ++ [] |>)) as E2.
  { unfold xMBMasterPortEventPost, send_master_event. c_run.
    change (xMasterOsEvent (mport_in m2)) with (xMasterOsEvent (mport_in m)). by rewrite mi_event0. }
  rewrite (run_bind_ok _ _ _ _ _ (run_mport _ _ _ _ E2)). clear E2.
  set (m3 := with_mport _ m2).
  assert (eMBMasterWaitRequestFinish self (mport_in m3) =
    Ok (None, (mport_in m3) <| xMasterOsEvent := busy_event self EV_MASTER_FRAME_SENT |>)) as E3 by done.
  rewrite (run_bind_ok _ _ _ _ _ (run_mport _ _ _ _ E3)). clear E3.
  eexists. split; [done|]. split; [|by destruct mi_machines0].
  split; try done.
  - by destruct Hwf2.
  - apply rtu_inv_mport; [|done..]. apply rtu_inv_mport; [|done..].
    apply (rtu_inv_snd_buf (master_rtu m1)); [by apply rtu_inv_mport|apply Hwf2|apply Hwf2].
  - change (take (length pdu) (drop 1 (splice (ucMasterRTUSndBuf (master_rtu m)) 1 pdu)) = pdu).
    apply splice_sent. rewrite (mw_snd_len _ mi_wf0). lia.
Qed.

(** *** The transmission *)
Lemma framed_sent dest pdu l : (length pdu <= 250)%nat -> length l = 253%nat ->
  take (length pdu) (drop 1 l) = pdu ->
  take (length pdu) (drop 1 (framed dest (Z.of_nat (length pdu)) l)) = pdu.
Proof.
  intros Hp Hl Hs. rewrite <- Hs at 3. apply list_eq. intros i. rewrite !lookup_take.
  case_decide; [|done]. rewrite !lookup_drop. unfold framed. cbv zeta.
  by rewrite !list_lookup_insert_ne by lia.
Qed.

Lemma flight_transmits self dest pdu poller d m0 m :
  flight self EV_MASTER_FRAME_SENT dest pdu m0 m -> 1 <= dest <= 16 ->
  (1 <= length pdu <= 250)%nat -> serial (mport_in m) = Some d ->
  eRcvState (master_rtu m) = STATE_M_RX_IDLE ->
  usMasterSendPDULength (master_rtu m) = Z.of_nat (length pdu) ->
  exists m1 m2, eMBMasterPoll poller m = Ok (Some MB_ENOERR, m1) /\
    rtu (transmit_steps (length pdu + 4)) m1 = Ok (tt, m2) /\
    flight self 0 dest pdu m0 m2 /\
    serial (mport_in m2) =
      Some (d <| rx_int := true |> <| tx_line := tx_line d ++ rtu_frame dest pdu |>) /\
    eRcvState (master_rtu m2) = STATE_M_RX_IDLE /\ eSndState (master_rtu m2) = STATE_M_TX_XFWR /\
    xFrameIsBroadcast (master_rtu m2) = false /\
    eMasterCurTimerMode (mport_in m2) = MB_TMODE_RESPOND_TIMEOUT.
Proof.
  intros Hf Hd Hlen Hser Hr Hn.
  assert (is_poll_event EV_MASTER_FRAME_SENT) as Hpe by (unfold is_poll_event; auto).
  rewrite (poll_takes poller self EV_MASTER_FRAME_SENT m (fl_state _ _ _ _ _ _ Hf) Hpe (fl_event _ _ _ _ _ _ Hf)).
  pose proof (flight_event self _ 0 dest pdu m0 m Hf) as Hf1. clear Hf Hpe.
  set (m1 := with_mport _ m) in *.
  assert (serial (mport_in m1) = Some d) as Hser1 by done.
  assert (eRcvState (master_rtu m1) = STATE_M_RX_IDLE) as Hr1 by done.
  assert (usMasterSendPDULength (master_rtu m1) = Z.of_nat (length pdu)) as Hn1 by done.
  clearbody m1. clear Hser Hr Hn. pose proof Hf1 as [].
  destruct (transmit_frame_ok (master_rtu m1) d dest (Z.of_nat (length pdu))) as (s2 & E2 & Htr);
    [done|done|done|lia|lia|].
  rewrite Nat2Z.id in E2.
  assert (eMBMasterRTUSend dest vMBMasterGetPDUSndBuf (Z.of_nat (length pdu)) (master_rtu m1) =
    Ok (MB_ENOERR, sending dest (Z.of_nat (length pdu)) (master_rtu m1))) as E1.
  { apply (eMBMasterRTUSend_ok _ _ _ d); try done; try lia; apply fl_inv0. }
  assert (poll_frame_sent m1 = Ok (tt, m1 <| ucMBFrame := Some vMBMasterGetPDUSndBuf |>
    <| master_rtu := sending dest (Z.of_nat (length pdu)) (master_rtu m1) |>)) as E.
  { unfold poll_frame_sent, ucMBMasterGetDestAddress. c_run. set (m1' := m1 <| ucMBFrame := _ |>).
    assert (rtu usMBMasterGetPDUSndLength m1' = Ok (Z.of_nat (length pdu), m1')) as El.
    { apply zoom_rtu_same. unfold usMBMasterGetPDUSndLength. rewrite run_gets. by rewrite <- Hn1. }
    rewrite (run_bind_ok _ _ _ _ _ El). change (ucMBMasterDestAddress m1') with (ucMBMasterDestAddress m1).
    rewrite fl_dest0. by erewrite run_bind_zoom by exact E1. }
  change (poll_dispatch EV_MASTER_FRAME_SENT) with poll_frame_sent. rewrite (run_bind_ok _ _ _ _ _ E).
  eexists _, (m1 <| ucMBFrame := Some vMBMasterGetPDUSndBuf |> <| master_rtu := s2 |>).
  split; [done|]. split; [by erewrite run_zoom by exact E2|].
  pose proof (transmitted_inv _ d dest _ s2 fl_inv0 Hser1 ltac:(lia) Htr) as Hinv. destruct Htr.
  rewrite Nat2Z.id, fl_sent0 in tr_serial. rewrite (proj2 (Z.eqb_neq dest 0)) in * by lia.
  split; [|by split_and!]. destruct tr_rest as (T1 & T2 & T3), fl_wf0.
  split; try done; cbn.
  - destruct Hinv. by split.
  - congruence.
  - congruence.
  - rewrite tr_buf. by apply framed_sent; [lia| |].
Qed.

(** *** The answer *)
Record answered (self : rt_thread) (dest : Z) (pdu resp : list Z) (m0 m : master) : Prop := {
  an_flight : flight self EV_MASTER_EXECUTE dest pdu m0 m;
  an_frame : ucMBFrame m = Some rcv_frame;
  an_length : usLength m = Z.of_nat (length resp);
  an_data : take (length resp) (drop 1 (ucMasterRTURcvBuf (master_rtu m))) = resp;
  an_broadcast : xFrameIsBroadcast (master_rtu m) = false;
  an_machines : eRcvState (master_rtu m) = STATE_M_RX_IDLE /\ eSndState (master_rtu m) = STATE_M_TX_IDLE
}.

Lemma rtu_frame_pdu addr pdu : take (length pdu) (drop 1 (rtu_frame addr pdu)) = pdu.
Proof. apply take_app_length. Qed.

Lemma flight_rtu self word word' dest pdu m0 m s : flight self word dest pdu m0 m ->
  rtu_inv s -> ucMasterRTUSndBuf s = ucMasterRTUSndBuf (master_rtu m) ->
  xMasterOsEvent (mrtu_port s) = busy_event self word' ->
  xMasterRunRes (mrtu_port s) = xMasterRunRes (mport_in m) ->
  flight self word' dest pdu m0 (m <| master_rtu := s |>).
Proof.
  intros [] Hi Hb He Hr. pose proof Hi as []. destruct fl_wf0.
  split; try done; [cbn -[rt_sem_init]; congruence|cbn; by rewrite Hb].
Qed.

Lemma flight_receives self dest pdu resp d m0 m :
  flight self 0 dest pdu m0 m -> 1 <= dest <= 16 -> serial (mport_in m) = Some d -> rx_int d = true ->
  eRcvState (master_rtu m) = STATE_M_RX_IDLE ->
  is_bytes resp -> resp <> [] -> (length resp <= 252)%nat ->
  exists m1 m2, rtu (receive_bytes (rtu_frame dest resp)) m = Ok (tt, m1) /\
    rtu timer_fires m1 = Ok (tt, m2) /\
    flight self EV_MASTER_FRAME_RECEIVED dest pdu m0 m2 /\ serial (mport_in m2) = Some d /\
    usMasterRcvBufferPos (master_rtu m2) = Z.of_nat (length (rtu_frame dest resp)) /\
    take (length (rtu_frame dest resp)) (ucMasterRTURcvBuf (master_rtu m2)) = rtu_frame dest resp /\
    eRcvState (master_rtu m2) = STATE_M_RX_IDLE /\ eSndState (master_rtu m2) = STATE_M_TX_IDLE /\
    xFrameIsBroadcast (master_rtu m2) = xFrameIsBroadcast (master_rtu m).
Proof.
  intros Hf Hd Hser Hint Hr Hb Hne Hlen. pose proof (fl_inv _ _ _ _ _ _ Hf) as Hi.
  assert (is_bytes (rtu_frame dest resp)) as Hfb by (apply rtu_frame_bytes; [unfold is_byte; lia|done]).
  pose proof (rtu_frame_length dest resp) as Hfl.
  destruct (receive_bytes_eq _ _ d Hfb (rtu_inv_rx_ready _ d Hi Hser Hint)) as [E1 _].
  destruct (receive_bytes_inv _ _ d Hi Hser Hint Hfb) as [Hi1 Hser1].
  pose proof (rx_whole_frame (rtu_frame dest resp) _ d (rtu_inv_rx_ready _ d Hi Hser Hint) Hr ltac:(done)) as Hv.
  rewrite decide_True in Hv by lia.
  pose proof (rx_bytes_heard (rtu_frame dest resp) (master_rtu m)) as [H1 H2 H3 [H4 H5]].
  set (s1 := foldl _ _ _) in *. clearbody s1.
  destruct (rtu_timer_inv s1 Hi1 (rv_armed _ _ Hv)) as [E2 Hi2].
  pose proof (timer_expired_received _ s1 Hv) as [G1 G2 G3 [G4 G5] G6 G7 [G8 G9] G10].
  set (s2 := timer_expired s1) in *. clearbody s2.
  exists (m <| master_rtu := s1 |>), (m <| master_rtu := s2 |>).
  split; [by apply run_zoom|]. split; [by erewrite run_zoom by exact E2|].
  split; [apply (flight_rtu self 0); try done; try congruence|].
  - rewrite G10, H5, (fl_event _ _ _ _ _ _ Hf).
    by rewrite (send_poll_event self) by (unfold is_poll_event; auto).
  - destruct Hv. change (master_rtu (m <| master_rtu := s2 |>)) with s2. split_and!; congruence.
Qed.

Lemma flight_accepts self dest pdu resp poller m0 m :
  flight self EV_MASTER_FRAME_RECEIVED dest pdu m0 m -> 1 <= dest <= 16 ->
  resp <> [] -> (length resp <= 252)%nat -> is_bytes resp ->
  usMasterRcvBufferPos (master_rtu m) = Z.of_nat (length (rtu_frame dest resp)) ->
  take (length (rtu_frame dest resp)) (ucMasterRTURcvBuf (master_rtu m)) = rtu_frame dest resp ->
  eRcvState (master_rtu m) = STATE_M_RX_IDLE -> eSndState (master_rtu m) = STATE_M_TX_IDLE ->
  xFrameIsBroadcast (master_rtu m) = false ->
  exists m1, eMBMasterPoll poller m = Ok (Some MB_ENOERR, m1) /\ answered self dest pdu resp m0 m1 /\
    serial (mport_in m1) = serial (mport_in m).
Proof.
  intros Hf Hd Hne Hlen Hb Hpos Hdata Hr Hs Hbc.
  assert (is_poll_event EV_MASTER_FRAME_RECEIVED) as Hpe by (unfold is_poll_event; auto).
  rewrite (poll_takes poller self _ m (fl_state _ _ _ _ _ _ Hf) Hpe (fl_event _ _ _ _ _ _ Hf)).
  pose proof (flight_event self _ 0 dest pdu m0 m Hf) as Hf1. clear Hf Hpe.
  set (m1 := with_mport _ m) in *.
  change (usMasterRcvBufferPos (master_rtu m)) with (usMasterRcvBufferPos (master_rtu m1)) in Hpos.
  change (ucMasterRTURcvBuf (master_rtu m)) with (ucMasterRTURcvBuf (master_rtu m1)) in Hdata.
  change (eRcvState (master_rtu m)) with (eRcvState (master_rtu m1)) in Hr.
  change (eSndState (master_rtu m)) with (eSndState (master_rtu m1)) in Hs.
  change (xFrameIsBroadcast (master_rtu m)) with (xFrameIsBroadcast (master_rtu m1)) in Hbc.
  assert (serial (mport_in m1) = serial (mport_in m)) as Hser1 by done. clearbody m1.
  pose proof (rtu_frame_length dest resp) as Hfl. pose proof Hf1 as [].
  assert ((0 < length resp)%nat) as Hpos0 by (destruct resp; [done|cbn; lia]).
  assert (eMBMasterRTUReceive (master_rtu m1) =
    Ok ((MB_ENOERR, Some (dest, rcv_frame, Z.of_nat (length resp))), master_rtu m1)) as E.
  { rewrite (eMBMasterRTUReceive_ok (rtu_frame dest resp));
      [|apply fl_wf0|done|done|lia|apply fl_wf0].
    rewrite bool_decide_eq_true_2, rtu_frame_crc by (done || lia || (unfold is_byte; lia)).
    rewrite Hfl. cbn [andb Z.eqb head rtu_frame app default]. do 5 f_equal. lia. }
  change (poll_dispatch EV_MASTER_FRAME_RECEIVED) with poll_frame_received.
  unfold poll_frame_received. rewrite run_bind_bind, (run_bind_ok _ _ _ _ _ (zoom_rtu_same _ _ _ E)).
  unfold ucMBMasterGetDestAddress. c_run.
  rewrite bool_decide_eq_true_2 by done. cbn [andb].
  set (m2 := _ <| usLength := _ |>).
  assert (flight self 0 dest pdu m0 m2) as Hf2 by (split; try done; by destruct fl_wf0).
  change (ucMBMasterDestAddress m2) with (ucMBMasterDestAddress m1). rewrite fl_dest0, Z.eqb_refl.
  rewrite (run_bind_ok _ _ _ _ _ (run_post_event EV_MASTER_EXECUTE m2)).
  destruct (post_ok EV_MASTER_EXECUTE (mport_in m2)) as [_ [_ _ _ (_ & _ & _ & _ & _ & Hser)]].
  eexists. split; [done|]. split; [|exact (eq_trans Hser Hser1)].
  split; try done; [by apply flight_post; [unfold is_poll_event; auto|]|].
  change (take (length resp) (drop 1 (ucMasterRTURcvBuf (master_rtu m1))) = resp).
  rewrite Hfl in Hdata. apply (f_equal (fun l => take (length resp) (drop 1 l))) in Hdata.
  rewrite rtu_frame_pdu in Hdata. rewrite <- Hdata at 2. rewrite skipn_firstn_comm, take_take. f_equal. lia.
Qed.

(** *** The result *)
Record served (self : rt_thread) (e : Z) (d : serial_device) (m : master) : Prop := {
  sv_idle : master_idle d m;
  sv_ready : finished self e ∈ ready (mport_in m)
}.

Lemma run_finish self e dest pdu d m0 m : is_finish_event e -> flight self 0 dest pdu m0 m ->
  serial (mport_in m) = Some d ->
  eRcvState (master_rtu m) = STATE_M_RX_IDLE /\ eSndState (master_rtu m) = STATE_M_TX_IDLE ->
  exists m1, (mport_of (send_master_event e);; mport_of vMBMasterRunResRelease) m = Ok (tt, m1) /\
    served self e d m1 /\ tables m1 = tables m0.
Proof.
  intros He Hf Hser Hst. pose proof Hf as [].
  assert (send_master_event e (mport_in m) = Ok (tt, (mport_in m) <| xMasterOsEvent := idle_event |>
    <| ready := ready (mport_in m) ++ [finished self e] |>)) as E1.
  { unfold send_master_event. c_run. rewrite fl_event0. by rewrite send_finish_event. }
  rewrite (run_bind_ok _ _ _ _ _ (run_mport _ _ _ _ E1)). set (m1 := with_mport _ m).
  assert (vMBMasterRunResRelease (mport_in m1) = Ok (tt, (mport_in m1)
    <| xMasterRunRes := rt_sem_init 1 RT_IPC_FLAG_PRIO |> <| ready := ready (mport_in m1) ++ [] |>)) as E2.
  { unfold vMBMasterRunResRelease. c_run.
    change (xMasterRunRes (mport_in m1)) with (xMasterRunRes (mport_in m)). by rewrite fl_res0. }
  eexists. split; [exact (run_mport _ _ _ _ E2)|]. split; [split|done].
  - split; try done; [by destruct fl_wf0|].
    apply rtu_inv_mport; [|done..]. by apply rtu_inv_mport.
  - cbn -[finished]. rewrite app_nil_r. apply elem_of_app. right. by apply list_elem_of_singleton.
Qed.

(** The error process that follows a failed request. *)
Lemma flight_fails self dest pdu poller t e d m0 m :
  flight self EV_MASTER_ERROR_PROCESS dest pdu m0 m ->
  eMBMasterCurErrorType (master_rtu m) = t ->
  e = match t with
      | EV_ERROR_RESPOND_TIMEOUT => EV_MASTER_ERROR_RESPOND_TIMEOUT
      | EV_ERROR_RECEIVE_DATA => EV_MASTER_ERROR_RECEIVE_DATA
      | EV_ERROR_EXECUTE_FUNCTION => EV_MASTER_ERROR_EXECUTE_FUNCTION
      end ->
  serial (mport_in m) = Some d ->
  eRcvState (master_rtu m) = STATE_M_RX_IDLE /\ eSndState (master_rtu m) = STATE_M_TX_IDLE ->
  exists m1, eMBMasterPoll poller m = Ok (Some MB_ENOERR, m1) /\
    served self e d m1 /\ tables m1 = tables m0.
Proof.
  intros Hf Ht He Hser Hst.
  assert (is_poll_event EV_MASTER_ERROR_PROCESS) as Hpe by (unfold is_poll_event; auto).
  rewrite (poll_takes poller self _ m (fl_state _ _ _ _ _ _ Hf) Hpe (fl_event _ _ _ _ _ _ Hf)).
  pose proof (flight_event self _ 0 dest pdu m0 m Hf) as Hf1. set (m1 := with_mport _ m) in *.
  set (m2 := m1 <| ucMBFrame := Some vMBMasterGetPDUSndBuf |>).
  assert (flight self 0 dest pdu m0 m2) as Hf2 by (destruct Hf1; split; try done; by destruct fl_wf0).
  assert (is_finish_event e) as Hfe by (subst e; unfold is_finish_event; destruct t; auto).
  destruct (run_finish self e dest pdu d m0 m2 Hfe Hf2 Hser Hst) as (m3 & E3 & H3).
  exists m3. split; [|done].
  change (poll_dispatch EV_MASTER_ERROR_PROCESS) with poll_error_process.
  unfold poll_error_process. rewrite run_bind_bind.
  assert (rtu eMBMasterGetErrorType m1 = Ok (t, m1)) as E1.
  { apply zoom_rtu_same. unfold eMBMasterGetErrorType. rewrite run_gets. by rewrite <- Ht. }
  rewrite (run_bind_ok _ _ _ _ _ E1). c_run. fold m2.
  assert (forall k : M master (option eMBErrorCode),
    (match t with
     | EV_ERROR_RESPOND_TIMEOUT => mport_of vMBMasterErrorCBRespondTimeout
     | EV_ERROR_RECEIVE_DATA => mport_of vMBMasterErrorCBReceiveData
     | EV_ERROR_EXECUTE_FUNCTION => mport_of vMBMasterErrorCBExecuteFunction
     end;; (mport_of vMBMasterRunResRelease;; k)) m2 = k m3) as G.
  { intros k. rewrite <- (run_bind_ok _ (fun _ => k) _ _ _ E3), run_bind_bind. subst e. by destruct t. }
  exact (G (mret (Some MB_ENOERR))).
Qed.

(** *** Executing the answer *)

(** A handler's effect on the master: only tables change. *)
Record handled (m m1 : master) : Prop := {
  hd_state : eMBState m1 = eMBState m;
  hd_dest : ucMBMasterDestAddress m1 = ucMBMasterDestAddress m;
  hd_rtu : master_rtu m1 = master_rtu m;
  hd_wf : master_wf m1
}.

Lemma flight_handled self word dest pdu m0 m m1 : flight self word dest pdu m0 m -> handled m m1 ->
  flight self word dest pdu m1 m1.
Proof. intros [] []. split; try done; congruence. Qed.

Definition in_master_mode (m : master) : master := m <| xMBRunInMasterMode := true |>.

(** [h] is the handler that the function code of [resp] selects. *)
Lemma answered_executes self dest pdu resp poller h exc m2 d m0 m :
  answered self dest pdu resp m0 m -> serial (mport_in m) = Some d ->
  (0 < length resp)%nat -> head resp = Some 3 ->
  find_handler 3 xMasterFuncHandlers = Some h ->
  (let m1 := in_master_mode (with_mport (fun p => p <| xMasterOsEvent := busy_event self 0 |>) m) in
   h rcv_frame (Z.of_nat (length resp)) m1 = Ok (exc, m2) /\ handled m1 m2) ->
  if exc =? MB_EX_NONE then
    exists m3, eMBMasterPoll poller m = Ok (Some MB_ENOERR, m3) /\
      served self EV_MASTER_PROCESS_SUCESS d m3 /\ tables m3 = tables m2
  else
    exists m3 m4, eMBMasterPoll poller m = Ok (Some MB_ENOERR, m3) /\
      eMBMasterPoll poller m3 = Ok (Some MB_ENOERR, m4) /\
      served self EV_MASTER_ERROR_EXECUTE_FUNCTION d m4 /\ tables m4 = tables m2.
Proof.
  intros [Hf Hfr Hl Hdata Hbc Hst] Hser Hlen Hhead Hh [Eh Hhd].
  assert (is_poll_event EV_MASTER_EXECUTE) as Hpe by (unfold is_poll_event; auto).
  rewrite (poll_takes poller self _ m (fl_state _ _ _ _ _ _ Hf) Hpe (fl_event _ _ _ _ _ _ Hf)).
  pose proof (flight_event self _ 0 dest pdu m0 m Hf) as Hf1. set (m1 := with_mport _ m) in *.
  assert (serial (mport_in m1) = Some d) as Hser1 by done.
  assert (eRcvState (master_rtu m1) = STATE_M_RX_IDLE /\ eSndState (master_rtu m1) = STATE_M_TX_IDLE)
    as Hst1 by done.
  assert (rcvd m1 0 = 3) as Hfc.
  { unfold pdu_byte. change (buffer RcvBuf (master_rtu m1)) with (ucMasterRTURcvBuf (master_rtu m)).
    destruct resp as [|b resp]; [done|]. injection Hhead as ->.
    destruct (ucMasterRTURcvBuf (master_rtu m)) as [|x [|y l]]; [done..|].
    cbn in Hdata |- *. by injection Hdata. }
  assert (ucMBFrame m1 = Some rcv_frame) as Hfr1 by done.
  assert (usLength m1 = Z.of_nat (length resp)) as Hl1 by done.
  assert (xFrameIsBroadcast (master_rtu m1) = false) as Hbc1 by done.
  clearbody m1. clear Hf Hfr Hl Hbc Hst Hser Hdata m.
  change (poll_dispatch EV_MASTER_EXECUTE) with poll_execute. unfold poll_execute.
  rewrite run_bind_bind, run_bind_gets, Hfr1, run_bind_bind.
  pose proof (read_pdu m1 (fl_wf _ _ _ _ _ _ Hf1) RcvBuf 0 ltac:(lia)) as Er. rewrite Hfc in Er.
  change (ptr_read rcv_frame MB_PDU_FUNC_OFF) with (ptr_read rcv_frame (Z.of_nat 0)).
  rewrite (run_bind_ok _ _ _ _ _ Er). cbn [Z.shiftr Z.shiftl Z.opp Pos.iter Z.div2 Pos.div2 Z.eqb negb].
  rewrite Hh, run_bind_bind.
  set (m3 := m2 <| xMBRunInMasterMode := false |>).
  assert (run_handler h rcv_frame m1 = Ok (exc, m3)) as Erun.
  { unfold run_handler, vMBMasterSetCBRunInMasterMode. c_run. fold (in_master_mode m1).
    rewrite (run_bind_ok _ _ _ _ _ (is_broadcast_same (in_master_mode m1))).
    change (xFrameIsBroadcast (master_rtu (in_master_mode m1))) with (xFrameIsBroadcast (master_rtu m1)).
    rewrite Hbc1. c_run. change (usLength (in_master_mode m1)) with (usLength m1).
    rewrite Hl1, (run_bind_ok _ _ _ _ _ Eh). by c_run. }
  rewrite (run_bind_ok _ _ _ _ _ Erun).
  assert (flight self 0 dest pdu m3 m3) as Hf3.
  { apply (flight_handled _ _ _ _ m0 m1); [done|]. destruct Hhd as [H1 H2 H3 H4].
    split; [exact H1|exact H2|exact H3|by destruct H4]. }
  assert (master_rtu m3 = master_rtu m1) as Hrtu by apply Hhd.
  assert (tables m3 = tables m2) as Htab by done. clearbody m3. rewrite <- Hrtu in Hser1, Hst1.
  destruct (exc =? MB_EX_NONE); cbn [negb].
  - destruct (run_finish self EV_MASTER_PROCESS_SUCESS dest pdu d m3 m3) as (m4 & E4 & Hs & Ht);
      [by left|done..|].
    exists m4. split; [by rewrite (run_bind_ok _ _ _ _ _ E4)|]. split; [done|congruence].
  - unfold vMBMasterSetErrorType. rewrite run_bind_bind. erewrite run_bind_zoom by done.
    set (m4 := m3 <| master_rtu := _ |>).
    assert (flight self 0 dest pdu m3 m4) as Hf4.
    { destruct Hf3. split; try done; [by destruct fl_wf0|]. destruct fl_inv0. by split. }
    rewrite (run_bind_ok _ _ _ _ _ (run_post_event EV_MASTER_ERROR_PROCESS m4)).
    assert (is_poll_event EV_MASTER_ERROR_PROCESS) as Hpe' by (unfold is_poll_event; auto).
    pose proof (flight_post self _ dest pdu m3 m4 Hpe' Hf4) as Hf5.
    destruct (post_ok EV_MASTER_ERROR_PROCESS (mport_in m4)) as [_ [_ _ _ (_ & _ & _ & _ & _ & Hs5)]].
    destruct (flight_fails self dest pdu poller EV_ERROR_EXECUTE_FUNCTION EV_MASTER_ERROR_EXECUTE_FUNCTION
      d m3 _ Hf5 eq_refl eq_refl) as (m6 & E6 & Hs & Ht).
    { by rewrite <- Hser1. }
    { exact Hst1. }
    eexists _, m6. split; [done|]. split; [exact E6|]. split; [done|congruence].
Qed.

(** The response timer fires. *)
Lemma flight_silent self dest pdu m0 m : flight self 0 dest pdu m0 m ->
  eRcvState (master_rtu m) = STATE_M_RX_IDLE -> eSndState (master_rtu m) = STATE_M_TX_XFWR ->
  xFrameIsBroadcast (master_rtu m) = false ->
  eMasterCurTimerMode (mport_in m) = MB_TMODE_RESPOND_TIMEOUT ->
  exists m1, rtu timer_fires m = Ok (tt, m1) /\
    flight self EV_MASTER_ERROR_PROCESS dest pdu m0 m1 /\
    eMBMasterCurErrorType (master_rtu m1) = EV_ERROR_RESPOND_TIMEOUT /\
    serial (mport_in m1) = serial (mport_in m) /\
    eRcvState (master_rtu m1) = STATE_M_RX_IDLE /\ eSndState (master_rtu m1) = STATE_M_TX_IDLE.
Proof.
  intros Hf Hr Hs Hb Hm. pose proof (fl_inv _ _ _ _ _ _ Hf) as Hi.
  assert (timer_active (timer (mport_in m)) = true) as Hact by (destruct Hi; apply ri_armed; by right).
  destruct (rtu_timer_inv _ Hi Hact) as [E Hi1].
  destruct (timer_expired_silent _ Hr Hs Hb Hm) as [[G1 _ _ [G4 G5] _ _ [G8 G9] G10] Herr].
  set (s1 := timer_expired _) in *. clearbody s1.
  exists (m <| master_rtu := s1 |>). split; [by apply run_zoom|]. split; [|done].
  apply (flight_rtu self 0); try done.
  rewrite G10, (fl_event _ _ _ _ _ _ Hf). by rewrite (send_poll_event self) by (unfold is_poll_event; auto).
Qed.

(** *** The schedule *)

(** [k] turns of the poll loop, each of which finds an event. *)
Fixpoint polls (k : nat) (poller : rt_thread) : M master unit :=
  match k with
  | O => skip
  | S k =>
      r ← eMBMasterPoll poller;
      match r with
      | Some _ => polls k poller
      | None => lift Blocked
      end
  end.

(** The frame goes out ([n] PDU bytes), the slave answers with [frame], or not. *)
Definition line_traffic (n : nat) (frame : list Z) : M mrtu unit :=
  transmit_steps (n + 4);;
  (match frame with [] => skip | _ => receive_bytes frame end);;
  timer_fires.

Lemma polls_one poller m m1 : eMBMasterPoll poller m = Ok (Some MB_ENOERR, m1) ->
  polls 1 poller m = Ok (tt, m1).
Proof. intros E. cbn [polls]. by rewrite (run_bind_ok _ _ _ _ _ E). Qed.

Lemma polls_cons k poller m m1 : eMBMasterPoll poller m = Ok (Some MB_ENOERR, m1) ->
  polls (S k) poller m = polls k poller m1.
Proof. intros E. cbn [polls]. by rewrite (run_bind_ok _ _ _ _ _ E). Qed.

Lemma zoom_bind {A B} (f : M mrtu A) (g : A -> M mrtu B) m a m1 b m2 :
  rtu f m = Ok (a, m1) -> rtu (g a) m1 = Ok (b, m2) -> rtu (f ≫= g) m = Ok (b, m2).
Proof.
  unfold zoom, mbind, M_bind. destruct (f (master_rtu m)) as [[a' s]| |]; [|done|done].
  intros [= -> <-]. change (master_rtu (m <| master_rtu := s |>)) with s.
  destruct (g a s) as [[b' s']| |]; [|done|done]. intros [= -> <-]. by destruct m.
Qed.

(** The whole path of a request with an answer, up to the execution of it. *)
Lemma exchange_answered self poller dest timeout pdu builder resp d m :
  master_idle d m -> 1 <= dest <= 16 -> is_bytes pdu -> (1 <= length pdu <= 250)%nat ->
  (forall m', master_wf m' -> builder m' = Ok (tt, prepared dest pdu m')) ->
  is_bytes resp -> resp <> [] -> (length resp <= 252)%nat ->
  exists m1 m2 m3 m4, request self false dest timeout builder m = Ok (ReqWaitFinish, m1) /\
    eMBMasterPoll poller m1 = Ok (Some MB_ENOERR, m2) /\
    rtu (line_traffic (length pdu) (rtu_frame dest resp)) m2 = Ok (tt, m3) /\
    eMBMasterPoll poller m3 = Ok (Some MB_ENOERR, m4) /\
    answered self dest pdu resp m m4 /\
    serial (mport_in m4) =
      Some (d <| rx_int := true |> <| tx_line := tx_line d ++ rtu_frame dest pdu |>).
Proof.
  intros Hi Hd Hp Hl Hb Hr Hne Hrl.
  destruct (request_starts self dest timeout pdu builder d m Hi Hd Hp ltac:(lia) Hb)
    as (m1 & E1 & Hf1 & Hser1 & Hr1 & Hs1 & Hn1).
  destruct (flight_transmits self dest pdu poller d m m1 Hf1 Hd Hl Hser1 Hr1 Hn1)
    as (m2 & m3 & E2 & E3 & Hf3 & Hser3 & Hr3 & Hs3 & Hb3 & _).
  destruct (flight_receives self dest pdu resp _ m m3 Hf3 Hd Hser3 eq_refl Hr3 Hr Hne Hrl)
    as (m4 & m5 & E4 & E5 & Hf5 & Hser5 & Hpos5 & Hdata5 & Hr5 & Hs5 & Hb5).
  destruct (flight_accepts self dest pdu resp poller m m5 Hf5 Hd Hne Hrl Hr Hpos5 Hdata5 Hr5 Hs5
    (eq_trans Hb5 Hb3)) as (m6 & E6 & Ha & Hser6).
  exists m1, m2, m5, m6. split_and!; try done; [|congruence].
  unfold line_traffic. eapply zoom_bind; [exact E3|]. eapply zoom_bind; [|exact E5].
  unfold rtu_frame in E4 |- *. cbn [app] in E4 |- *. exact E4.
Qed.

(** What the master sends and what is stored of a well-formed answer. *)
Definition read_request (a n : Z) : list Z := request_head a n MB_FUNC_READ_HOLDING_REGISTER.
Definition read_answer (data : list Z) : list Z :=
  MB_FUNC_READ_HOLDING_REGISTER :: Z.of_nat (length data) :: data.
Definition answer_fits (a n : Z) (data : list Z) : bool :=
  (1 <=? n) && (2 * n =? Z.of_nat (length data)) && (a + n <=? 100).

Lemma prefix_at (l resp : list Z) i : (i < length resp)%nat -> take (length resp) (drop 1 l) = resp ->
  default 0 (l !! S i) = default 0 (resp !! i).
Proof.
  intros Hi Ht. rewrite <- Ht, lookup_take, decide_True, lookup_drop by done. done.
Qed.

Lemma request_bytes a n func : is_word a -> is_word n -> is_bytes (request_head a n func).
Proof.
  unfold is_word. intros Ha Hn. unfold request_head, be16. cbn [app].
  repeat (apply Forall_cons; split; [try apply u8_byte; unfold is_byte; Z.to_euclidean_division_equations; lia|]).
  constructor.
Qed.

Lemma sent_words m a n func : is_word a -> is_word n ->
  take 5 (drop 1 (ucMasterRTUSndBuf (master_rtu m))) = request_head a n func ->
  sent_word m 1 = a /\ sent_word m 3 = n.
Proof.
  unfold is_word. intros Ha Hn Hs. unfold pdu_word, pdu_byte.
  change (buffer SndBuf (master_rtu m)) with (ucMasterRTUSndBuf (master_rtu m)).
  pose proof (fun i Hi => prefix_at _ (request_head a n func) i Hi Hs) as P.
  rewrite (P 1%nat), (P 2%nat), (P 3%nat), (P 4%nat) by (cbn; lia). cbn.
  split; Z.to_euclidean_division_equations; lia.
Qed.

(** The handler's verdict on the answer. *)
Lemma read_verdict m a n data : xFrameIsBroadcast (master_rtu m) = false ->
  sent_word m 1 = a -> sent_word m 3 = n -> 0 <= n -> rcvd m 1 = Z.of_nat (length data) ->
  let usLen := Z.of_nat (length (read_answer data)) in
  read_stores m usLen n (2 * n) 100 = answer_fits a n data /\
  (read_exception m usLen n (2 * n) 100 =? MB_EX_NONE) = answer_fits a n data.
Proof.
  intros Hbc Ha Hn Hn0 Hr usLen. unfold read_stores, read_exception, answer_fits. rewrite Hbc, Ha, Hr.
  cbn [negb andb]. rewrite (proj2 (Z.ltb_ge usLen 2)) by (unfold usLen; cbn; lia). cbn [orb].
  destruct (Z.eqb_spec n 0) as [->|]; [done|]. rewrite (proj2 (Z.leb_le 1 n)) by lia. cbn [orb andb].
  destruct (2 * n =? _); [|done]. cbn [negb andb]. by destruct (a + n <=? 100).
Qed.

Lemma answer_data l data : take (length (read_answer data)) (drop 1 l) = read_answer data ->
  take (length data) (drop 3 l) = data /\ default 0 (l !! 2%nat) = Z.of_nat (length data).
Proof.
  intros H. split.
  - apply (f_equal (drop 2)) in H. cbn [length read_answer] in H.
    replace (S (S (length data))) with (2 + length data)%nat in H by done.
    by rewrite <- firstn_skipn_comm, drop_drop in H.
  - by rewrite (prefix_at l (read_answer data) 1) by (done || cbn; lia).
Qed.

Lemma with_hold_handled m a n buf off : master_wf m ->
  (Z.to_nat ((ucMBMasterDestAddress m - 1) * 100 + a) +
     length (words (take (2 * Z.to_nat n) (drop (Z.to_nat off) buf))) <= 1600)%nat ->
  handled m (with_hold m a n buf off).
Proof.
  intros [] Hl. split; try done. split; try done. cbn.
  unfold stored_regs, M_REG_HOLDING_NREGS. by rewrite splice_length by lia.
Qed.

Lemma read_execution self dest a n data poller d m0 m :
  1 <= dest <= 16 -> is_word a -> is_word n -> (length data <= 250)%nat ->
  answered self dest (read_request a n) (read_answer data) m0 m -> serial (mport_in m) = Some d ->
  exists m1, polls (if answer_fits a n data then 1 else 2) poller m = Ok (tt, m1) /\
    served self (if answer_fits a n data then EV_MASTER_PROCESS_SUCESS
                 else EV_MASTER_ERROR_EXECUTE_FUNCTION) d m1 /\
    tables m1 = tables (if answer_fits a n data then m0 <| usMRegHoldBuf :=
      splice (usMRegHoldBuf m0) (Z.to_nat ((dest - 1) * 100 + a)) (words data) |> else m0).
Proof.
  intros Hd Ha Hn Hl Han Hser. pose proof Han as [Hf _ _ Hdata Hbc _]. pose proof Hf as [].
  set (m1 := in_master_mode (with_mport (fun p => p <| xMasterOsEvent := busy_event self 0 |>) m)).
  assert (master_wf m1) as Hwf1 by by destruct fl_wf0.
  destruct (sent_words m1 a n MB_FUNC_READ_HOLDING_REGISTER Ha Hn fl_sent0) as [Wa Wn].
  destruct (answer_data _ _ Hdata) as [Dd Dl].
  destruct (read_verdict m1 a n data Hbc Wa Wn ltac:(apply Hn) Dl) as [Vs Ve].
  assert (1 <= ucMBMasterDestAddress m1 <= 16) as Hd1
    by (change (ucMBMasterDestAddress m1) with (ucMBMasterDestAddress m); lia).
  pose proof (read_holding_ok m1 (Z.of_nat (length (read_answer data))) Hwf1 Hd1) as Eh.
  cbv zeta in Eh. rewrite Wa, Wn, Vs in Eh.
  set (m2 := if answer_fits a n data then _ else m1) in Eh.
  assert (handled m1 m2 /\ tables m2 = tables (if answer_fits a n data then m0 <| usMRegHoldBuf :=
      splice (usMRegHoldBuf m0) (Z.to_nat ((dest - 1) * 100 + a)) (words data) |> else m0)) as [Hh Ht].
  { unfold m2. injection fl_tables0 as T1 T2 T3 T4. destruct (answer_fits a n data) eqn:Hfit; cycle 1.
    { split; [by split|]. change (tables m1) with (tables m). unfold tables. congruence. }
    unfold answer_fits in Hfit. c_bool. destruct Ha as [Ha _].
    assert (take (2 * Z.to_nat n) (drop (Z.to_nat 3) (ucMasterRTURcvBuf (master_rtu m1))) = data) as Ed
      by (replace (2 * Z.to_nat n)%nat with (length data) by lia; exact Dd).
    split; [apply with_hold_handled; [done|]; rewrite Ed, (words_length _ (Z.to_nat n)) by lia; lia|].
    unfold tables, with_hold, stored_regs. rewrite Ed.
    change (ucMBMasterDestAddress m1) with (ucMBMasterDestAddress m). rewrite fl_dest0.
    change (usMRegHoldBuf m1) with (usMRegHoldBuf m). rewrite T4.
    transitivity (ucMDiscInBuf m, ucMCoilBuf m, usMRegInBuf m, splice (usMRegHoldBuf m0)
      (Z.to_nat ((dest - 1) * M_REG_HOLDING_NREGS + a)) (words data)); [done|by rewrite T1, T2, T3]. }
  pose proof (answered_executes self dest _ _ poller eMBMasterFuncReadHoldingRegister _ m2 d m0 m Han Hser
    ltac:(cbn; lia) eq_refl eq_refl (conj Eh Hh)) as Hx. rewrite Ve in Hx.
  destruct (answer_fits a n data).
  - destruct Hx as (m3 & E & Hs & Ht3). exists m3. split; [exact (polls_one _ _ _ E)|]. split; [done|congruence].
  - destruct Hx as (m3 & m4 & E3 & E4 & Hs & Ht4). exists m4.
    split; [rewrite (polls_cons _ _ _ _ E3); exact (polls_one _ _ _ E4)|]. split; [done|congruence].
Qed.


(** An idle master on UART1, its tables zero. *)
Definition idle_master : master :=
  MkMaster 0 false STATE_ENABLED None 0 0 (repeat 0 32) (repeat 0 128) (repeat 0 1600) (repeat 0 1600)
    (repeat 0 32) 0 (idle_state <| mrtu_port := (mrtu_port idle_state) <| xMasterOsEvent := idle_event |> |>).

Lemma idle_master_ok : master_idle idle_device idle_master.
Proof.
  pose proof (rtu_reachable_inv idle_state (example_idle_reachable _ idle_state_eq)) as Hi.
  assert (forall n, is_bytes (repeat 0 n)) as Hz by
    (intros n; induction n; cbn; constructor; [unfold is_byte; lia|done]).
  split; try done; [|by apply rtu_inv_mport].
  destruct Hi. split; try done; split; done || apply Hz.
Qed.

Definition requester : rt_thread := MkThread 7 10 0 0 0.
Definition poll_thread : rt_thread := MkThread 8 9 0 0 0.



