(* ===== verification/AtSerial.v ===== *)
(** * The AT client's character input on the board's UART

    AtSetup.v runs [at_client_getchar] of the parser thread against interrupts that put
    bytes into a queue.  Here the queue is the UART's: the thread reads through device.c
    and serial.c (Uart.v), a byte arrives in the data register, and the interrupt moves it
    into the serial device's FIFO and calls [at_client_rx_ind].  The kernel calls of the
    thread, the bytes and the interrupts interleave in any way. *)
From S2P Require Import Prelude KClock Ipc IpcMutex AtClient AtExchange AtSetup.
From S2P Require Import DataQueue Object Device Serial Uart.

(** The device as [at_client_init] opens it: for DMA reception, and when that is refused
    for interrupts. *)
Definition at_open_device (self : rt_thread) : M (rt_serial_device stm32_uart) Z :=
  dma ← open_with self RT_DEVICE_FLAG_DMA_RX;
  open_result ← (if dma =? - RT_EIO then open_with self RT_DEVICE_FLAG_INT_RX else mret dma);
  RT_ASSERT (open_result =? RT_EOK);;
  rt_device_set_rx_indicate (DeviceDriver0 := driver self) true.

Record at_input := MkInput {
  in_dev : rt_serial_device stm32_uart;
  in_sem : rt_semaphore;
  in_pc : rx_pc;
  in_got : list Z
}.
#[export] Instance at_input_eta : Eta at_input := fun s => MkInput (in_dev s) (in_sem s) (in_pc s) (in_got s).

(** The thread that AtSetup.v runs, with [data] as what a read finds. *)
Definition input_rx (data : list Z) (s : at_input) : rx_state := MkRx data (in_sem s) (in_pc s) (in_got s).
Definition from_rx (d : rt_serial_device stm32_uart) (r : rx_state) : at_input := MkInput d (rx_sem r) (pc r) (got r).

(** [at_client_rx_ind], called with the number of bytes in the FIFO. *)
Definition rx_notify (size : Z) (s : at_input) : outcome at_input :=
  if size >? 0 then
    '(woken, sem) ← rt_sem_release (in_sem s);
    Ok (s <| in_sem := sem |>
          <| in_pc := match woken with
                      | thread :: _ => rx_taken (rt_sem_take_resumed thread)
                      | [] => in_pc s
                      end |>)
  else Ok s.

Fixpoint rx_notify_all (sizes : list Z) (s : at_input) : outcome at_input :=
  match sizes with
  | [] => Ok s
  | size :: sizes => s ← rx_notify size s; rx_notify_all sizes s
  end.

Inductive input_event := IByte (c : Z) | IInterrupt (late : option Z) | IRun.

(** A byte on the wire, an interrupt with the callbacks it makes, or the next kernel call
    of the thread, in which a read goes to the device. *)
Definition input_step (self : rt_thread) (ev : input_event) (s : at_input) : outcome at_input :=
  match ev with
  | IByte c =>
      '(_, d) ← uart_run self (UByte c) (in_dev s);
      Ok (s <| in_dev := d |>)
  | IInterrupt late =>
      '(_, d) ← uart_run self (UInterrupt late) (in_dev s);
      rx_notify_all (drop (length (indications (in_dev s))) (indications d)) (s <| in_dev := d |>)
  | IRun =>
      '(data, d) ← (if decide (in_pc s = RxRead) then '(r, d) ← uart_run self (URead 1) (in_dev s); Ok (data_read r, d)
                    else Ok ([], in_dev s));
      Ok (from_rx d (getchar_step self RT_WAITING_FOREVER (input_rx data s)))
  end.

Fixpoint input_run (self : rt_thread) (evs : list input_event) (s : at_input) : outcome at_input :=
  match evs with
  | [] => Ok s
  | ev :: evs => s ← input_step self ev s; input_run self evs s
  end.

Definition input_start (d : rt_serial_device stm32_uart) : at_input := MkInput d (rt_sem_init 0 RT_IPC_FLAG_FIFO) RxRead [].

(** The number of bytes in the FIFO. *)
Definition queued (d : rt_serial_device stm32_uart) : Z :=
  match serial_rx d with
  | Some (RxFifo f) => if get_index f <=? put_index f then put_index f - get_index f else bufsz (config d) - (get_index f - put_index f)
  | _ => 0
  end.

(** The thread keeps up with the line: every byte finds the data register empty, every
    interrupt room in the FIFO, and no byte falls into the gap of the interrupt. *)
Definition input_ok (ev : input_event) (s : at_input) : Prop :=
  match ev with
  | IByte c => is_byte c /\ RXNE (uart (in_dev s)) = false
  | IInterrupt late => late = None /\ queued (in_dev s) < bufsz (config (in_dev s)) - 1
  | IRun => True
  end.

(** No byte is taken in between the read that found none and the reset of the semaphore. *)
Definition input_quiet (ev : input_event) (s : at_input) : Prop :=
  match ev with
  | IInterrupt _ => in_pc s = RxReset -> RXNE (uart (in_dev s)) = false
  | _ => True
  end.

Fixpoint inputs_hold (P : input_event -> at_input -> Prop) (self : rt_thread) (evs : list input_event) (s : at_input) : Prop :=
  match evs with
  | [] => True
  | ev :: evs => P ev s /\ match input_step self ev s with Ok s => inputs_hold P self evs s | _ => True end
  end.

Definition input_bytes (evs : list input_event) : list Z := flat_map (fun ev => match ev with IByte c => [c] | _ => [] end) evs.

(** ** The thread on the line *)
Section Input.
Context (n : Z) (Hn : 2 <= n < 65536) (self : rt_thread).
Implicit Types (l : line) (s : at_input).

(** The device is the open line, with its interrupt on and the client's callback. *)
Record input_line l s : Prop := {
  il_dev : represents n l (in_dev s);
  il_open : 0 < opens l;
  il_enabled : enabled l = true;
  il_indicating : indicating l = true
}.

(** What [represents] says about the registers, the FIFO and the callbacks. *)
Lemma represents_regs l d : represents n l d -> 0 < opens l ->
  held l = (if RXNE (uart d) then Some (DR (uart d)) else None) /\ is_byte (DR (uart d)) /\
  queued d = Z.of_nat (length (queue l)) /\ bufsz (config d) = n /\ indications d = indicated l /\ is_bytes (queue l).
Proof.
  intros [] Ho; [cbn in Ho; lia|]. cbn [held queue indicated]. split; [done|]. split; [done|]. unfold queued. cbn.
  match goal with H : bufsz _ = n |- _ => rewrite H end. split; [by eapply fifo_length_ok|done].
Qed.

(** The invariant of AtSetup.v, with the line's queue as what the thread may read. *)
Definition input_wf (k : Z) (q : Prop) l s : Prop := input_line l s /\ rx_wf self k q (input_rx (queue l) s).

(** What has been read, is queued, or is in the register. *)
Definition on_the_way l s : list Z := in_got s ++ queue l ++ in_register l.

Lemma byte_step c k q l s : input_wf k q l s -> input_ok (IByte c) s ->
  exists s' l', input_step self (IByte c) s = Ok s' /\ input_wf k q l' s' /\ on_the_way l' s' = on_the_way l s ++ [c] /\
    in_register l' = [c] /\ input_rx (queue l') s' = input_rx (queue l) s.
Proof.
  intros [[Hd Ho He Hi] Hw] [Hc Hx]. destruct (uart_run_ok n Hn self (UByte c) l _ Hd Hc) as (d & E & Hd').
  destruct (represents_regs l _ Hd Ho) as (Hh & _). rewrite Hx in Hh.
  unfold input_step. rewrite E. cbn [mbind outcome_bind]. eexists _, _. split; [done|]. destruct l as [h qu o st en w ind inds].
  cbn in Hh |- *. subst h. split; [split; [by split|done]|]. unfold on_the_way. cbn. by rewrite app_nil_r, <- !app_assoc.
Qed.

Lemma run_step k q l s : k < 65536 -> input_wf k q l s ->
  exists s' l', input_step self IRun s = Ok s' /\ input_wf k q l' s' /\ on_the_way l' s' = on_the_way l s /\
    in_register l' = in_register l /\ input_rx (queue l') s' = getchar_step self RT_WAITING_FOREVER (input_rx (queue l) s).
Proof.
  intros Hk [[Hd Ho He Hi] Hw]. pose proof (getchar_step_ok self k q _ Hk Hw) as [Hw' Hc]. cbn zeta in *.
  destruct l as [h qu o st en w ind inds]. destruct s as [d sem p gt]. cbn in Hd, Ho, He, Hi, Hw'. unfold input_step. cbn [in_pc in_dev].
  destruct (decide (p = RxRead)) as [->|Hp].
  - destruct (uart_run_ok n Hn self (URead 1) _ _ Hd ltac:(cbn; lia)) as (d' & E & Hd'). rewrite E. cbn [mbind outcome_bind].
    cbn in Hd' |- *. rewrite (proj2 (Z.eqb_neq o 0)) in Hd' |- * by lia. cbn [fst snd data_read] in *. eexists _, (MkLine h (drop 1 qu) o st en w ind inds). split; [done|].
    unfold on_the_way. change (Z.to_nat 1) with 1%nat in *. destruct qu as [|c qu]; cbn in *.
    + split; [|done]. split; [by split|done].
    + split; [by split; [by split|]|]. by rewrite <- !app_assoc.
  - cbn [mbind outcome_bind]. eexists _, (MkLine h qu o st en w ind inds). split; [done|].
    unfold on_the_way, input_wf, input_rx, in_register, getchar_step, from_rx in *. cbn in *.
    destruct p; try done; cbn in *. by destruct (rt_sem_take _ _ _) as [[?|?] ?].
Qed.

Lemma rx_notify_ok size c fifo s r : 0 < size -> at_client_rx_ind [c] (input_rx fifo s) = Ok r ->
  rx_notify size s = Ok (from_rx (in_dev s) r) /\ rx_fifo r = fifo ++ [c].
Proof.
  intros Hs. unfold at_client_rx_ind, rx_notify. rewrite (proj2 (Z.gtb_lt size 0)) by done. cbn.
  destruct s as [d sem p gt]. cbn. destruct (rt_sem_release sem) as [[woken sem']| |]; cbn; [|done..]. intros [= <-]. by destruct woken.
Qed.

Lemma rx_wf_weaken k (q q' : Prop) r : (q' -> q) -> rx_wf self k q r -> rx_wf self (k + 1) q' r.
Proof. intros Hq []. split; auto; lia. Qed.

Lemma interrupt_step late k q l s : k + 1 < 65536 -> input_wf k q l s -> input_ok (IInterrupt late) s ->
  exists s' l', input_step self (IInterrupt late) s = Ok s' /\ input_wf (k + 1) (q /\ input_quiet (IInterrupt late) s) l' s' /\
    on_the_way l' s' = on_the_way l s /\ in_register l' = [] /\
    (RXNE (uart (in_dev s)) = true -> at_client_rx_ind [DR (uart (in_dev s))] (input_rx (queue l) s) = Ok (input_rx (queue l') s')).
Proof.
  intros Hk [[Hd Ho He Hi] Hw] [-> Hroom]. destruct (uart_run_ok n Hn self (UInterrupt None) l _ Hd ltac:(by cbn)) as (d & E & Hd').
  destruct (represents_regs l _ Hd Ho) as (Hh & Hb & Hq & Hc & Hinds & _). unfold input_step. rewrite E. cbn [mbind outcome_bind]. set (s1 := s <| in_dev := d |>).
  destruct (represents_regs _ _ Hd' ltac:(cbn; by repeat case_match)) as (_ & _ & _ & _ & Hinds' & _). rewrite Hinds, Hinds'.
  rewrite Hq, Hc in Hroom. destruct l as [h qu o st en w ind inds]. cbn in Hh, Ho, He, Hi, Hroom, Hw. subst h en ind.
  cbn [line_step held] in *. destruct (RXNE (uart (in_dev s))) eqn:Ex; cbn [enabled queue] in *.
  - unfold fifo_push in *. rewrite (proj2 (Z.ltb_lt _ _)), u8_id in * by done. cbn [fst snd indicating indicated] in *. cbn [indicated upd].
    rewrite drop_app_length. destruct (rx_ind_ok self k q (q /\ input_quiet (IInterrupt None) s) [DR (uart (in_dev s))] (input_rx qu s) Hk Hw) as (r & Er & Hw' & Hg).
    { intros [Hq1 Hq2]. split; [done|]. intros _ Hp. cbn in Hq2. by rewrite Hq2 in Ex. }
    assert (0 < Z.of_nat (length (qu ++ [DR (uart (in_dev s))]))) as Hpos by (rewrite length_app; cbn; lia).
    destruct (rx_notify_ok _ _ qu s1 r Hpos Er) as [En Hf]. cbn [rx_notify_all]. rewrite En. cbn [mbind outcome_bind].
    exists (from_rx d r), (MkLine None (qu ++ [DR (uart (in_dev s))]) o st true w true (inds ++ [Z.of_nat (length (qu ++ [DR (uart (in_dev s))]))])). split; [done|].
    assert (input_rx (qu ++ [DR (uart (in_dev s))]) (from_rx d r) = r) as Hr by (destruct r; cbn in *; by subst).
    unfold input_wf, on_the_way. cbn [queue in_register held in_dev from_rx in_got]. rewrite Hr. split; [split; [by split|done]|].
    cbn in Hg. rewrite Hf in Hg. split; [|done]. unfold in_register. cbn. by rewrite app_nil_r, (app_assoc (in_got s)).
  - cbn [fst snd indicated] in *. rewrite drop_all. cbn [rx_notify_all]. eexists _, _. split; [done|].
    split; [split; [by split|]|done]. by eapply rx_wf_weaken; [|exact Hw]; intros [].
Qed.

Lemma input_step_ok ev k q l s : k + 1 < 65536 -> input_wf k q l s -> input_ok ev s ->
  exists s' l', input_step self ev s = Ok s' /\ input_wf (k + 1) (q /\ input_quiet ev s) l' s' /\
    on_the_way l' s' = on_the_way l s ++ input_bytes [ev].
Proof.
  intros Hk Hw Hok. destruct ev as [c|late|].
  - destruct (byte_step c k q l s Hw Hok) as (s' & l' & E & [Hl Hw'] & Hc & _). exists s', l'. split; [done|]. split; [|done].
    split; [done|]. by eapply rx_wf_weaken; [|exact Hw']; intros [].
  - destruct (interrupt_step late k q l s Hk Hw Hok) as (s' & l' & E & Hw' & Hc & _). exists s', l'. rewrite app_nil_r. by split_and!.
  - destruct (run_step k q l s ltac:(lia) Hw) as (s' & l' & E & [Hl Hw'] & Hc & _). exists s', l'. rewrite app_nil_r.
    split; [done|]. split; [|done]. split; [done|]. by eapply rx_wf_weaken; [|exact Hw']; intros [].
Qed.

Lemma input_run_ok evs : forall k (q : Prop) l s, k + Z.of_nat (length evs) < 65536 -> input_wf k q l s -> inputs_hold input_ok self evs s ->
  exists s' l', input_run self evs s = Ok s' /\
    input_wf (k + Z.of_nat (length evs)) (q /\ inputs_hold input_quiet self evs s) l' s' /\
    on_the_way l' s' = on_the_way l s ++ input_bytes evs.
Proof.
  induction evs as [|ev evs IH]; intros k q l s Hk Hw Hok; cbn [input_run inputs_hold length] in *.
  { exists s, l. rewrite Z.add_0_r, app_nil_r. split; [done|]. split; [|done]. destruct Hw as [Hl []]. split; [done|].
    split; auto; intros [? _]; auto. }
  destruct Hok as [Hev Hok]. destruct (input_step_ok ev k q l s ltac:(lia) Hw Hev) as (s1 & l1 & E & Hw1 & Hc1).
  rewrite E in *. cbn [mbind outcome_bind]. destruct (IH (k + 1) _ l1 s1 ltac:(lia) Hw1 Hok) as (s2 & l2 & E2 & Hw2 & Hc2).
  exists s2, l2. split; [done|]. split.
  - replace (k + Z.of_nat (S (length evs))) with (k + 1 + Z.of_nat (length evs)) by lia.
    destruct Hw2 as [Hl []]. split; [done|]. split; auto; intros (? & ? & ?); auto.
  - rewrite Hc2, Hc1, <- app_assoc. f_equal. unfold input_bytes. cbn. by rewrite app_nil_r.
Qed.

Lemma input_run_app evs1 evs2 s : input_run self (evs1 ++ evs2) s = (s ← input_run self evs1 s; input_run self evs2 s).
Proof.
  revert s. induction evs1 as [|ev evs1 IH]; intros s; [done|]. cbn [app input_run].
  destruct (input_step self ev s); [|done..]. cbn [mbind outcome_bind]. apply IH.
Qed.

(** *** Reading all there is *)

(** The kernel calls until the thread waits. *)
Definition calls_left (r : rx_state) : nat :=
  match pc r with
  | RxRead => length (rx_fifo r) + 3
  | RxReset => 2
  | RxTake => if sem_value (rx_sem r) >? 0 then length (rx_fifo r) + 4 else 1
  | RxWaiting | RxReturn _ => 0
  end.

Lemma calls_left_bound r : (calls_left r <= length (rx_fifo r) + 4)%nat.
Proof. unfold calls_left. destruct (pc r); try destruct (_ >? _); lia. Qed.

Lemma getchar_step_advances r k q : rx_wf self k q r -> calls_left r <> 0%nat ->
  (calls_left (getchar_step self RT_WAITING_FOREVER r) < calls_left r)%nat.
Proof.
  destruct r as [fifo sem p gt]. intros [Hv Hr Hw Hret _ _ _] Hne. unfold calls_left, getchar_step in *. cbn in *.
  destruct p; cbn in *; try lia.
  - destruct fifo; cbn; lia.
  - change (u16 0) with 0. cbn. lia.
  - unfold rt_sem_take. destruct (Z.gtb_spec (sem_value sem) 0); cbn; [|lia]. lia.
Qed.

Lemma calls_left_done r : calls_left r = 0%nat -> calls_left (getchar_step self RT_WAITING_FOREVER r) = 0%nat.
Proof.
  destruct r as [fifo sem p gt]. unfold calls_left, getchar_step. cbn. destruct p; cbn; try done; intros H; [lia|].
  destruct (_ >? _); lia.
Qed.

Lemma runs_drain m : forall k (q : Prop) l s, k + Z.of_nat m < 65536 -> input_wf k q l s -> q -> (calls_left (input_rx (queue l) s) <= m)%nat ->
  exists s' l', input_run self (replicate m IRun) s = Ok s' /\ in_pc s' = RxWaiting /\ queue l' = [] /\
    on_the_way l' s' = on_the_way l s /\ in_register l' = in_register l /\ input_wf k q l' s'.
Proof.
  induction m as [|m IH]; intros k q l s Hk Hw Hq Hm; cbn [replicate input_run].
  - exists s, l. destruct Hw as [Hl Hw]. assert (in_pc s = RxWaiting) as Hp.
    { unfold calls_left in Hm. cbn in Hm. destruct (in_pc s) as [| | | |err] eqn:Hp; try lia; [by destruct (_ >? _); lia|done|].
      exfalso. exact (rw_return _ _ _ _ Hw err Hp). }
    split; [done|]. split; [done|]. split; [exact (rw_sleep _ _ _ _ Hw Hq Hp)|done].
  - destruct (run_step k q l s ltac:(lia) Hw) as (s1 & l1 & E & Hw1 & Hc & Hreg & Hr). rewrite E. cbn [mbind outcome_bind].
    destruct (IH k q l1 s1 ltac:(lia) Hw1 Hq) as (s2 & l2 & E2 & Hp & Hq2 & Hc2 & Hreg2 & Hw2).
    + rewrite Hr. destruct (decide (calls_left (input_rx (queue l) s) = 0%nat)) as [H0|H0].
      * rewrite calls_left_done by done. lia.
      * pose proof (getchar_step_advances _ k q (proj2 Hw) H0). lia.
    + exists s2, l2. split_and!; try done; congruence.
Qed.
(** A thread that waits is not woken by its own turns. *)
Lemma runs_wait m : forall k q l s, k < 65536 -> input_wf k q l s -> in_pc s = RxWaiting ->
  exists s' l', input_run self (replicate m IRun) s = Ok s' /\ input_rx (queue l') s' = input_rx (queue l) s /\ input_wf k q l' s'.
Proof.
  induction m as [|m IH]; intros k q l s Hk Hw Hp; cbn [replicate input_run]; [by exists s, l|].
  destruct (run_step k q l s Hk Hw) as (s1 & l1 & E & Hw1 & _ & _ & Hr). rewrite E. cbn [mbind outcome_bind].
  assert (input_rx (queue l1) s1 = input_rx (queue l) s) as Hr1 by (rewrite Hr; unfold getchar_step; cbn; by rewrite Hp).
  destruct (IH k q l1 s1 Hk Hw1) as (s2 & l2 & E2 & Hr2 & Hw2); [injection Hr1; congruence|]. exists s2, l2. split; [done|]. split; [congruence|done].
Qed.

(** The byte that falls between the failed read and the reset of the semaphore. *)
Lemma missed_wakeup b m l s : input_wf 0 True l s -> is_byte b -> input_rx (queue l) s = rx_start -> in_register l = [] ->
  exists s' l', input_run self ([IRun; IByte b; IInterrupt None; IRun; IRun] ++ replicate m IRun) s = Ok s' /\
    in_pc s' = RxWaiting /\ in_got s' = [] /\ queue l' = [b] /\ exists k q, input_wf k q l' s'.
Proof.
  intros Hw Hb Hs Hreg. cbn [app input_run].
  destruct (run_step 0 True l s ltac:(lia) Hw) as (s1 & l1 & -> & Hw1 & _ & Hreg1 & Hr1). cbn [mbind outcome_bind].
  rewrite Hs in Hr1. rewrite Hreg in Hreg1.
  assert (RXNE (uart (in_dev s1)) = false) as Hx.
  { destruct Hw1 as [[Hd Ho _ _] _]. destruct (represents_regs l1 _ Hd Ho) as (Hh & _). unfold in_register in Hreg1. rewrite Hh in Hreg1. by destruct (RXNE _). }
  destruct (byte_step b 0 True l1 s1 Hw1 (conj Hb Hx)) as (s2 & l2 & -> & Hw2 & _ & Hreg2 & Hr2). cbn [mbind outcome_bind].
  destruct Hw2 as [Hl2 Hw2]. destruct (represents_regs l2 _ (il_dev _ _ Hl2) (il_open _ _ Hl2)) as (Hh & _ & Hqd & Hc & _).
  assert (queue l2 = []) as Hq2 by (rewrite Hr1 in Hr2; by injection Hr2).
  unfold in_register in Hreg2. rewrite Hh in Hreg2. destruct (RXNE (uart (in_dev s2))) eqn:Hx2; [|done]. injection Hreg2 as Hdr.
  destruct (interrupt_step None 0 True l2 s2 ltac:(lia) (conj Hl2 Hw2)) as (s3 & l3 & -> & Hw3 & _ & _ & Hr3).
  { split; [done|]. rewrite Hqd, Hc, Hq2. cbn. lia. }
  cbn [mbind outcome_bind]. specialize (Hr3 Hx2). rewrite Hdr, Hr2, Hr1 in Hr3. injection Hr3 as Hq3 Hsem3 Hp3 Hg3.
  destruct (run_step (0 + 1) _ l3 s3 ltac:(lia) Hw3) as (s4 & l4 & -> & Hw4 & _ & _ & Hr4). cbn [mbind outcome_bind].
  destruct (run_step (0 + 1) _ l4 s4 ltac:(lia) Hw4) as (s5 & l5 & -> & Hw5 & _ & _ & Hr5). cbn [mbind outcome_bind].
  rewrite Hr4 in Hr5. assert (input_rx (queue l3) s3 = MkRx [b] ((rt_sem_init 0 RT_IPC_FLAG_FIFO) <| sem_value := 1 |>) RxReset []) as Hr3.
  { unfold input_rx. by rewrite <- Hq3, <- Hsem3, <- Hp3, <- Hg3. }
  rewrite Hr3 in Hr5. cbn in Hr5. injection Hr5 as Hq5 Hsem5 Hp5 Hg5.
  destruct (runs_wait m (0 + 1) _ l5 s5 ltac:(lia) Hw5 Hp5) as (s6 & l6 & E & Hr6 & Hw6). exists s6, l6.
  injection Hr6 as Hq6 Hsem6 Hp6 Hg6. split; [done|]. split_and!; [congruence..|]. by eexists _, _.
Qed.
End Input.

(** ** The property *)
Definition opened_device (init' : uart_init) (cfg : serial_configure) (ind : bool) : rt_serial_device stm32_uart :=
  MkSerial (MkDevice true 0x113 0x10b 1 ind false) (MkUart init' false 0 false true true []) cfg (Some (RxFifo (fifo_init (bufsz cfg)))) None [] [] [].

Lemma open_int_opened self init' cfg : open_with self RT_DEVICE_FLAG_INT_RX
    (MkSerial (MkDevice true 0x113 0 0 false false) (MkUart init' false 0 false false true []) cfg None None [] [] []) =
  Ok (RT_EOK, opened_device init' cfg false).
Proof. reflexivity. Qed.

Lemma indicate_opened self init' cfg : rt_device_set_rx_indicate (DeviceDriver0 := driver self) true (opened_device init' cfg false) =
  Ok (RT_EOK, opened_device init' cfg true).
Proof. reflexivity. Qed.

Lemma at_open_device_ok self cfg : 2 <= bufsz cfg < 65536 ->
  exists d, at_open_device self (registered_device cfg) = Ok (RT_EOK, d) /\
    represents (bufsz cfg) (MkLine None [] 1 false true [] true []) d.
Proof.
  intros Hn. destruct (open_dma self cfg) as (init' & E). exists (opened_device init' cfg true). split.
  - unfold at_open_device. erewrite run_bind_ok by exact E. rewrite Z.eqb_refl. erewrite run_bind_ok by apply open_int_opened.
    rewrite Z.eqb_refl, run_bind_assert. apply indicate_opened.
  - apply (RepOpen (bufsz cfg) 1 false true init' false 0 false true [] cfg [] [] [] (fifo_init (bufsz cfg)));
      [done|unfold is_byte; lia|lia|exact (Forall_nil_2 _)|by apply fifo_init_holds].
Qed.

Lemma input_start_wf self cfg d : represents (bufsz cfg) (MkLine None [] 1 false true [] true []) d ->
  input_wf (bufsz cfg) self 0 True (MkLine None [] 1 false true [] true []) (input_start d).
Proof. intros Hd. split; [by split|]. by split. Qed.

Lemma input_read self n k q l s : 2 <= n < 65536 -> input_wf n self k q l s ->
  exists qu f, serial_rx (in_dev s) = Some (RxFifo f) /\ fifo_holds n qu f /\ queue l = qu /\
    in_register l = (if RXNE (uart (in_dev s)) then [DR (uart (in_dev s))] else []).
Proof.
  intros Hn [[Hd Ho _ _] _]. destruct (represents_open n l _ Hd Ho) as (_ & f & Hf & Hq).
  destruct (represents_regs n Hn l _ Hd Ho) as (Hh & _). exists (queue l), f. split_and!; try done.
  unfold in_register. rewrite Hh. by destruct (RXNE _).
Qed.

(** C17: the AT client's parser thread gets every byte from the wire.  The device opens:
    refused for DMA reception, then opened for interrupts.  From there on, in every
    interleaving of fewer than 65000 bytes, interrupts and kernel calls of
    at_client_getchar in which the thread keeps up with the line, nothing faults, the
    thread does not give up waiting, and what it has read, what the FIFO holds and what
    the data register holds are together what arrived, in order.  If moreover no byte was
    taken in between a read that found none and the reset of the semaphore, then once the
    register is empty as many further kernel calls as the FIFO has cells and four more
    deliver everything and end in a wait.  A byte that does fall there is forgotten: the
    thread waits for ever on a FIFO that holds it. *)
Theorem at_input_delivered self cfg : 2 <= bufsz cfg < 65536 ->
  exists d, at_open_device self (registered_device cfg) = Ok (RT_EOK, d) /\
  (forall evs, Z.of_nat (length evs) < 65000 -> inputs_hold input_ok self evs (input_start d) ->
   exists s, input_run self evs (input_start d) = Ok s /\ (forall err, in_pc s <> RxReturn err) /\
    (exists q f, serial_rx (in_dev s) = Some (RxFifo f) /\ fifo_holds (bufsz cfg) q f /\
       in_got s ++ q ++ (if RXNE (uart (in_dev s)) then [DR (uart (in_dev s))] else []) = input_bytes evs) /\
    (inputs_hold input_quiet self evs (input_start d) -> RXNE (uart (in_dev s)) = false ->
     forall m, bufsz cfg + 4 <= Z.of_nat m -> Z.of_nat (length evs + m) < 65536 ->
     exists s', input_run self (evs ++ replicate m IRun) (input_start d) = Ok s' /\
       in_got s' = input_bytes evs /\ in_pc s' = RxWaiting)) /\
  (forall b m, is_byte b ->
   exists s, input_run self ([IRun; IByte b; IInterrupt None; IRun; IRun] ++ replicate m IRun) (input_start d) = Ok s /\
    in_pc s = RxWaiting /\ in_got s = [] /\ exists f, serial_rx (in_dev s) = Some (RxFifo f) /\ fifo_holds (bufsz cfg) [b] f).
Proof.
  intros Hn. destruct (at_open_device_ok self cfg Hn) as (d & E & Hd). exists d. split; [exact E|].
  pose proof (input_start_wf self cfg d Hd) as Hw. split.
  - intros evs Hlen Hok. destruct (input_run_ok _ Hn self evs 0 True _ _ ltac:(lia) Hw Hok) as (s & l & Er & Hw' & Hc).
    exists s. split; [done|]. split; [exact (rw_return _ _ _ _ (proj2 Hw'))|].
    destruct (input_read _ _ _ _ _ _ Hn Hw') as (q & f & Hf & Hq & <- & Hreg). split.
    + exists (queue l), f. by rewrite <- Hreg.
    + intros Hquiet Hx m Hm Hm'. rewrite Hx in Hreg. pose proof (calls_left_bound (input_rx (queue l) s)) as Hb. cbn in Hb.
      pose proof (fh_room _ _ _ Hq) as Hroom.
      destruct (runs_drain _ Hn self m (0 + Z.of_nat (length evs)) _ l s ltac:(lia) Hw' (conj I Hquiet) ltac:(lia)) as (s' & l' & E' & Hp & Hq' & Hc' & Hreg' & _).
      exists s'. rewrite input_run_app, Er. split; [done|]. split; [|done].
      rewrite Hc in Hc'. unfold on_the_way in Hc'. rewrite Hq', Hreg', Hreg, !app_nil_r in Hc'. exact Hc'.
  - intros b m Hb. destruct (missed_wakeup _ Hn self b m _ _ Hw Hb eq_refl eq_refl) as (s & l & Er & Hp & Hg & Hq & k & q & Hw').
    exists s. split; [done|]. split; [done|]. split; [done|].
    destruct (input_read _ _ _ _ _ _ Hn Hw') as (q' & f & Hf & Hq' & <- & _). exists f. by rewrite <- Hq.
Qed.

Lemma at_input_delivered_witness : exists d s, at_open_device dq_self (registered_device RT_SERIAL_CONFIG_DEFAULT) = Ok (RT_EOK, d) /\
  input_run dq_self ([IRun; IRun; IRun; IByte 79; IInterrupt None; IByte 75; IInterrupt None] ++ replicate 70 IRun) (input_start d) = Ok s /\
  in_got s = [79; 75].
Proof.
  set (evs := [IRun; IRun; IRun; IByte 79; IInterrupt None; IByte 75; IInterrupt None]).
  destruct (at_input_delivered dq_self RT_SERIAL_CONFIG_DEFAULT ltac:(unfold RT_SERIAL_CONFIG_DEFAULT, RT_SERIAL_RB_BUFSZ; cbn; lia)) as (d & E & H & _).
  pose proof E as Hd. vm_compute in Hd. injection Hd as Hd.
  destruct (H evs ltac:(cbn; lia)) as (s & E1 & _ & _ & H1).
  - subst d. vm_compute. intuition discriminate.
  - destruct H1 with (m := 70%nat) as (s' & E2 & Hg & _).
    + subst d. vm_compute. intuition discriminate.
    + subst d. revert E1. vm_compute. by intros [= <-].
    + unfold RT_SERIAL_CONFIG_DEFAULT, RT_SERIAL_RB_BUFSZ. cbn. lia.
    + cbn. lia.
    + exists d, s'. split; [exact E|]. split; [exact E2|]. exact Hg.
Defined.
