(* ===== verification/MbSerial.v ===== *)
(** * The Modbus master's serial port on the board's UART

    MbPortMaster.v has the serial device the master's port layer works on: a queue of
    received bytes, the bytes sent, and the switch of the receive interrupt.  Here that
    device is related to the line a UART of the board implements (Uart.v), and the port's
    operations to the events of the UART: what portserial_m.c asks of the device through
    [parent.write], [parent.read] and [ops->control], and a received byte with its
    interrupt. *)
From S2P Require Import Prelude Ipc MbUtils MbPortMaster DataQueue Object Device Serial Uart.

(** The operations of the port on its device. *)
Inductive port_op := PPut (b : Z) | PGet | PRxInt (on : bool) | PByte (b : Z).

(** As in MbPortMaster.v and in [receive_byte] of MbRtuMaster.v; a read returns its byte. *)
Definition port_run (op : port_op) : M serial_device (list Z) :=
  match op with
  | PPut b => modify (upd (field := tx_line) (fun l => l ++ [b]));; mret []
  | PGet => b ← serial_read; mret [b]
  | PRxInt on => rx_int ::= on;; mret []
  | PByte b => modify (upd (field := rx_fifo) (fun l => l ++ [b]));; mret []
  end.

Fixpoint port_runs (ops : list port_op) : M serial_device (list Z) :=
  match ops with
  | [] => mret []
  | op :: ops => r ← port_run op; rs ← port_runs ops; mret (r ++ rs)
  end.

(** The same on the UART. *)
Definition port_events (op : port_op) : list uart_event :=
  match op with
  | PPut b => [UWrite [b]]
  | PGet => [URead 1]
  | PRxInt on => [UEnable on]
  | PByte b => [UByte b; UInterrupt None]
  end.

(** A byte arrives while the interrupt is on and the queue has room. *)
Definition port_op_ok (n : Z) (op : port_op) (d : serial_device) : Prop :=
  match op with
  | PPut b => is_byte b
  | PByte b => is_byte b /\ rx_int d = true /\ Z.of_nat (length (rx_fifo d)) < n - 1
  | _ => True
  end.

Fixpoint port_ops_ok (n : Z) (ops : list port_op) (d : serial_device) : Prop :=
  match ops with
  | [] => True
  | op :: ops => port_op_ok n op d /\ forall r d', port_run op d = Ok (r, d') -> port_ops_ok n ops d'
  end.

(** The port's device is the open line, in raw mode. *)
Record port_line (d : serial_device) (l : line) : Prop := {
  pl_queue : queue l = rx_fifo d;
  pl_wire : wire l = tx_line d;
  pl_enabled : enabled l = rx_int d;
  pl_open : 0 < opens l;
  pl_stream : stream l = false;
  pl_held : held l = None
}.

Section Port.
Context (n : Z) (Hn : 2 <= n < 65536) (self : rt_thread).

Lemma port_step op d l r d' : port_line d l -> port_op_ok n op d -> port_run op d = Ok (r, d') ->
  events_ok n (port_events op) l /\ concat (map data_read (line_steps n (port_events op) l).1) = r /\
  port_line d' (line_steps n (port_events op) l).2.
Proof.
  intros [Hq Hw He Ho Hs Hh] Hok E. destruct l as [h q o st en w ind inds]. cbn in *. subst h st q w en.
  destruct op as [b| |on|b]; cbn [port_run port_op_ok port_events] in *.
  - injection E as <- <-. cbn. rewrite (proj2 (Z.eqb_neq o 0)) by lia. cbn. split; [done|]. split; [done|].
    split; cbn; try done. unfold on_wire. cbn. rewrite andb_false_r. by rewrite u8_id by done.
  - revert E. unfold serial_read. destruct (rx_fifo d) as [|b fifo] eqn:Ef; rewrite !run_bind_bind, run_bind_gets, Ef; [done|].
    rewrite run_bind_bind, run_bind_modify, !run_bind_ret. intros [= <- <-]. cbn. rewrite (proj2 (Z.eqb_neq o 0)) by lia. cbn.
    split; [lia|]. split; [done|]. by split.
  - injection E as <- <-. cbn. split; [lia|]. split; [done|]. by split.
  - destruct Hok as (Hb & Hon & Hroom). injection E as <- <-. cbn. rewrite Hon. unfold fifo_push. cbn.
    rewrite (proj2 (Z.ltb_lt _ _)) by done. cbn. rewrite u8_id by done.
    split; [by split_and!|]. split; [done|]. by split.
Qed.
Lemma line_steps_app evs1 evs2 : forall l,
  line_steps n (evs1 ++ evs2) l =
  ((line_steps n evs1 l).1 ++ (line_steps n evs2 (line_steps n evs1 l).2).1, (line_steps n evs2 (line_steps n evs1 l).2).2).
Proof.
  induction evs1 as [|ev evs1 IH]; intros l; cbn [app line_steps fst snd]; [by destruct (line_steps n evs2 l)|].
  destruct (line_step n ev l) as [r l1]. rewrite IH. destruct (line_steps n evs1 l1) as [rs l2]. done.
Qed.

Lemma events_ok_app evs1 evs2 : forall l, events_ok n evs1 l -> events_ok n evs2 (line_steps n evs1 l).2 -> events_ok n (evs1 ++ evs2) l.
Proof.
  induction evs1 as [|ev evs1 IH]; intros l H1 H2; [done|]. destruct H1 as [Hev H1]. split; [done|]. apply IH; [done|].
  cbn [line_steps] in H2. destruct (line_step n ev l) as [r l1]. cbn [snd] in *. by destruct (line_steps n evs1 l1).
Qed.

Lemma port_steps ops : forall d l bytes d', port_line d l -> port_ops_ok n ops d -> port_runs ops d = Ok (bytes, d') ->
  let evs := flat_map port_events ops in
  events_ok n evs l /\ concat (map data_read (line_steps n evs l).1) = bytes /\ port_line d' (line_steps n evs l).2.
Proof.
  induction ops as [|op ops IH]; intros d l bytes d' Hl Hok E; cbn [port_runs flat_map] in *; [by injection E as <- <-|].
  destruct Hok as [Hop Hok]. destruct (port_run op d) as [[r d1]| |] eqn:E1; unfold mbind, M_bind in E; rewrite E1 in E; [|done..].
  destruct (port_runs ops d1) as [[rs d2]| |] eqn:E2; [|done..]. injection E as <- <-.
  destruct (port_step op d l r d1 Hl Hop E1) as (He & Hr & Hl1). destruct (IH d1 _ rs d2 Hl1 (Hok _ _ eq_refl) E2) as (He2 & Hr2 & Hl2).
  cbn zeta. rewrite line_steps_app. cbn [fst snd]. split; [by apply events_ok_app|]. split; [|done].
  by rewrite map_app, concat_app, Hr, Hr2.
Qed.
End Port.

(** What xMBMasterPortSerialInit does to the UART: it writes the configuration, opens the
    device for interrupts and sets the callback. *)
Definition port_init_events : list uart_event := [UOpen false; UIndicate true].

Lemma port_init_device port baud parity p p' d : port = 1 \/ port = 2 ->
  xMBMasterPortSerialInit true port baud 8 parity p = Ok (true, p') -> serial p' = Some d ->
  rx_fifo d = [] /\ tx_line d = [] /\ rx_int d = true.
Proof. intros [-> | ->]; destruct parity, p; intros [= <-]; by intros [= <-]. Qed.

Lemma port_init_line n d : rx_fifo d = [] -> tx_line d = [] -> rx_int d = true ->
  port_line d (line_steps n port_init_events line_closed).2 /\
  concat (map data_read (line_steps n port_init_events line_closed).1) = [] /\
  events_ok n port_init_events line_closed.
Proof. intros Hf Ht Hi. split; [|split; [done|]]; [|cbn; split; [lia|done]]. split; cbn; rewrite ?Hf, ?Ht, ?Hi; done || lia. Qed.

(** C16: the serial device of the Modbus master's model is what the board's UART provides.
    After xMBMasterPortSerialInit, whatever the master does with its device (sending
    bytes, reading received ones, switching the receive interrupt) and whatever arrives
    while the interrupt is on and the queue has room, the same operations on the UART,
    through device.c, serial.c and the driver, run without a fault, the reads return the
    same bytes, and the wire carries the same bytes: a line feed byte is not preceded by a
    carriage return. *)
Theorem port_runs_on_uart self cfg port baud parity p p' d ops bytes d' : 2 <= Serial.bufsz cfg < 65536 ->
  port = 1 \/ port = 2 ->
  xMBMasterPortSerialInit true port baud 8 parity p = Ok (true, p') -> serial p' = Some d ->
  port_ops_ok (Serial.bufsz cfg) ops d -> port_runs ops d = Ok (bytes, d') ->
  exists rs s, uart_runs self (port_init_events ++ flat_map port_events ops) (registered_device cfg) = Ok (rs, s) /\
    concat (map data_read rs) = bytes /\ sent (uart s) = tx_line d' /\
    exists f, serial_rx s = Some (RxFifo f) /\ fifo_holds (Serial.bufsz cfg) (rx_fifo d') f.
Proof.
  intros Hn Hport Hinit Hd Hok E. set (n := Serial.bufsz cfg) in *.
  destruct (port_init_device _ _ _ _ _ _ Hport Hinit Hd) as (Hf & Ht & Hi).
  destruct (port_init_line n d Hf Ht Hi) as (Hl & Hr0 & He0).
  destruct (port_steps n ops d _ bytes d' Hl Hok E) as (He & Hr & Hl').
  pose proof (events_ok_app n port_init_events _ line_closed He0 He) as Hev.
  destruct (uart_runs_ok n Hn self _ line_closed _ (registered_represents n cfg eq_refl) Hev) as (s & Es & Hrep).
  rewrite line_steps_app in Es, Hrep. exists ((line_steps n port_init_events line_closed).1 ++
    (line_steps n (flat_map port_events ops) (line_steps n port_init_events line_closed).2).1), s.
  split; [exact Es|]. split; [by rewrite map_app, concat_app, Hr0, Hr|].
  destruct (represents_open n _ s Hrep (pl_open _ _ Hl')) as (Hs & f & Hfs & Hff). split; [by rewrite Hs; apply Hl'|].
  exists f. split; [done|]. by rewrite <- (pl_queue _ _ Hl').
Qed.

Definition port_before_init : mport :=
  MkMport (rt_sem_init 1 RT_IPC_FLAG_PRIO) (rt_event_init RT_IPC_FLAG_PRIO) (rt_event_init RT_IPC_FLAG_PRIO) [] 0
    (MkTimer 0 false) MB_TMODE_T35 None.
Definition port_after_init : serial_device := MbPortMaster.MkSerial 9600 8 0 MB_PAR_NONE [] [] true true.

Lemma port_runs_on_uart_witness : exists rs s,
  uart_runs dq_self (port_init_events ++ flat_map port_events [PPut 1; PPut 10; PByte 7; PByte 8; PGet; PRxInt false; PGet])
    (registered_device RT_SERIAL_CONFIG_DEFAULT) = Ok (rs, s) /\
  concat (map data_read rs) = [7; 8] /\ sent (uart s) = [1; 10].
Proof.
  set (ops := [PPut 1; PPut 10; PByte 7; PByte 8; PGet; PRxInt false; PGet]).
  destruct (port_runs_on_uart dq_self RT_SERIAL_CONFIG_DEFAULT 1 9600 MB_PAR_NONE port_before_init
    (port_before_init <| serial := Some port_after_init |>) port_after_init ops [7; 8] (MbPortMaster.MkSerial 9600 8 0 MB_PAR_NONE [] [1; 10] false true))
    as (rs & s & E & Hr & Hs & _).
  - unfold RT_SERIAL_CONFIG_DEFAULT, RT_SERIAL_RB_BUFSZ. cbn. lia.
  - by left.
  - reflexivity.
  - reflexivity.
  - cbn. unfold is_byte. repeat (split; [try lia; try (split; [lia|split; [reflexivity|lia]])|intros ? ? [= <- <-]]). all: done || exact I.
  - reflexivity.
  - exists rs, s. split; [exact E|]. split; [exact Hr|exact Hs].
Defined.
